(* ===== verification/_CoqProject ===== *)
-Q . S2P
Prelude.v
Effects.v
Descriptors.v
Rtos.v
Protocol.v
Addr.v
Usbip.v
Session.v
Reasm.v
UsbDriver.v
UsbTasks.v
UsbipProxy.v
Traffic.v
EndToEnd.v
CrashReporter.v
WifiManager.v
HubClient.v
SessionTasks.v
LogForwarder.v
Dns.v
Portal.v
Http.v
App.v
Linux.v
SimOs.v
DaemonNet.v
Vhci.v
Passthrough.v
HubServer.v
DaemonMain.v
HubSpec.v
TwoEnds.v
Relay.v
MouseTest.v
