(* ===== verification/Prelude.v ===== *)
(** * WirelessHub: a model of the hub firmware and daemon, and their correctness

    WirelessHub makes USB devices plugged into an ESP32 available to a PC over
    WiFi.  The firmware (src/esp-codes/main, C) finds the daemon on the network,
    opens one session per device, and carries USB/IP requests from the daemon to
    the USB host library and the answers back; the daemon (src/daemon, C++)
    accepts the devices the firmware announces, attaches each to a port of the
    Linux kernel's virtual host controller, and passes data between the kernel
    and the device's connection.  This development models both.

    ** How the code is modelled

    Each C file or C++ class is a state record (its static variables or
    members), a definition per function, and theorems.  Functions are written in
    the monad [M S] of Effects.v: the state [S], the trace of calls into code
    outside the repository (ESP-IDF, FreeRTOS, lwIP, the USB host library, the C
    library's formatting, the Linux system calls), and [None] for undefined
    behaviour or a failed ESP_ERROR_CHECK.  Answers come from an environment, an
    arbitrary function of the trace; what a theorem needs of it is a named
    hypothesis ([sockets_ok], [bus_ok], [fmt_ok], [esp_ok], [linux_ok],
    [patient], [reattach_ok], ...).  [wp] is total correctness: the run returns,
    within bounds, and satisfies the postcondition.  Machine integers are [Z]
    with the wrap-around of their width ([u8], [u16], [u32]); buffers are byte
    lists read and written through bounds-checked [arr_get], [arr_set],
    [buf_read], [buf_write].

    Tasks of the firmware are cut at the points where they can block
    (event-group waits, delays, queue and socket receives; in a session also the
    USB transfer of a request and the connection of the event channel); a task
    definition runs from one such point to the next without interruption, and
    the interleaving theorems quantify over every order of these steps.  The daemon has one thread, and its event
    loop handles any sequence of events the environment reports.

    C++ objects that are owned by one map and pointed to from others (the
    sessions of HubServer) live in a heap from addresses to objects; destroying
    one removes it, and following a pointer to it afterwards is [None].
    Destructors run where C++ runs them, so descriptors are closed when the code
    closes them; Descriptors.v replays a trace and finds leaks, double closes and
    uses after close.

    Loops are structural or carry fuel: the datagram length for the DNS loops
    (every round consumes a byte), the string length for [detect_level] and the
    report loop (rounds consume at least one byte); the theorems that use them
    show the result, so the fuel is enough.  The socket and socketpair loops of
    the daemon retry on EINTR and EAGAIN without a limit; [patient K] says that
    the system answers at most [K] such retries in a row on a descriptor and that
    at most [K] reads in a row find data in the kernel's side, and fuel of
    65536 (K + 1) rounds, one packet at one byte per call with [K] retries for
    each, is then shown to be enough.  An answer may come late, but it comes: a
    read of the blocking socketpair that waits for ever (C38) is not a run of
    such a system.  The [rounds] of [event_loop] and [main]
    count the passes of the event loop before a signal clears [g_running].

    ** Files

    - Prelude: machine integers, little-endian fields, checked buffers, tactics.
    - Effects: external calls, the monad, [wp], which calls a computation makes.
    - Descriptors: replaying the socket calls of a trace (leaks, use after close).
    - Rtos: event groups and queues as classes with concrete instances.
    - Protocol (src/daemon/src/protocol/Protocol.h): packets; the class [Wire]
      states the encode/decode round trip every packet type meets; the
      enumerations and the header's static assertions.
    - Addr (inet_ntop, inet_pton and the helpers of UdpSocket.cpp): IPv4 addresses.
    - Usbip (usbip_proto.h): the four big-endian USB/IP structures.
    - Session (device_session.[ch]): [session_t], the driver interfaces
      [DeviceOps] and [UsbBackend] with the laws clients rely on, [send_raw].
    - Reasm (device_session.c): [reasm_push].
    - UsbDriver (usb_driver.[ch]): callbacks, endpoint scan, transfers; it is an
      instance of [DeviceOps] and [UsbBackend] and discharges their laws.
    - UsbTasks (usb_driver.c): the tasks around the driver, and the driver's
      safety under any interleaving.
    - UsbipProxy (device_session.c): device events over TCP, [usb_handle_submit],
      one datagram of the receive loop, for any driver that meets the interfaces.
    - Traffic: which socket the session's code sends on.
    - EndToEnd: the proxy with the real driver behind it.
    - HubClient (hub_client.[ch]): daemon discovery.
    - SessionTasks (device_session.c): the three tasks and their interleaving,
      [device_session_start].
    - CrashReporter, LogForwarder (crash_reporter.[ch], log_forwarder.[ch]).
    - Dns, Portal, Http, WifiManager (wifi_manager.[ch]): captive-portal DNS
      server, form handling, the HTTP pages, connection management.
    - App (app_main.c): start-up.
    - Linux: what the daemon relies on of the system calls, the byte streams a
      trace shows, and the macros of daemon/src/Log.h.
    - SimOs: a concrete simulated system that meets those contracts, for
      evaluating the daemon on examples.
    - DaemonNet (daemon/src/network/TcpSocket, UdpSocket): ownership of
      descriptors, exact sends and receives.
    - Vhci (daemon/src/usbip/VhciDriver): the port table and the sysfs files.
    - Passthrough (daemon/src/handlers/PassthroughHandler): kernel to device and
      back.
    - HubServer (daemon/src/network/HubServer): sessions, pending sockets and
      packets; [HubCallbacks] is the interface to main and [HubLaws] what the
      hub's handlers need of its callbacks.
    - DaemonMain (daemon/src/main.cpp): the event loop; it implements
      [HubCallbacks] and discharges [HubLaws].  What the loop's proofs need of
      main's handlers is the class [MainLaws], for any invariant.
    - HubSpec: an abstract daemon (pending connections, attached devices, busy
      ports), and that the event loop refines it.
    - TwoEnds: what the firmware sends, handled by the daemon.
    - Relay: USB/IP requests served by the session's down task.
    - MouseTest (daemon/tests/WasdMouseTest.cpp): the stand-alone program that
      plays a USB mouse to the kernel.

    ** What is shown

    - The firmware as a USB/IP server: every request that arrives on the reply
      socket of a session is answered once and in order, as USB/IP prescribes
      (C1).
    - Both ends, each running its code on what the other has sent: plugging in,
      log lines and discovery (C7, C19, C20).
    - Firmware data path: [send_raw] refines a specification of the datagrams a
      frame becomes (C2), which are well framed (C18); reassembly is memory safe
      for every fragment (C17) and gives the frame back from fragments in any
      order (C9); the proxy answers every request once (C16); the whole path is
      safe for every datagram and a control read works (C8, C15).
    - USB driver: safe under every sequence of calls, callbacks and task rounds
      (C11).  C8 and C11 assume [bus_ok]: an unplug while a control transfer is
      waited for comes with the failure of that transfer; C39 is what happens
      when the transfer has just completed.
    - Sessions and discovery: an invariant over all interleavings of the steps
      and progress (C5, C22, C23).
    - Daemon: the event loop refines the abstract daemon of HubSpec (C3); the
      tables, ports and descriptors stay consistent through every sequence of
      events (C4), everything is given back at the end (C10).  Any system call
      may fail in C3, C4 and C10 but those that attach a device again after a
      reset ([reattach_ok]); C35 is what happens when they do, and that C10 frees
      every port needs sysfs to take every write.  The port table refines an
      allocator (C6); packets are read and data is passed on exactly, within the
      fuel (C12-C14); log lines (C21).
    - A packet on TCP (C7, C13, C19) may arrive in any pieces, but the socket
      must not run dry (EAGAIN) before its first byte or between header and
      payload: there the code gives up the connection
      ([DaemonMain.split_packet_drops_socket]).
    - Logging and start-up of the firmware: the crash report carries the last
      600 bytes (C24), nothing leaks (C25), boot (C26).
    - WiFi: connection management (C27, C28), DNS (C29), the portal from the
      form to the stored credentials and its redirects (C30, C31).
    - The mouse test answers every request once, with its sequence number (C32).
    - Where the code does not do what it documents or intends: C33-C40.  C7,
      C19, and the parts of C3 and C4 about sessions, speak of sockets that
      deliver events; C33 shows that in the daemon as it is main never registers
      them.  C34 follows from C3: a device whose connection ends by end of file
      keeps its port busy for good.  The daemon sends requests on TCP, where the
      firmware does not read, and drops the datagrams the firmware sends (C36):
      C1 is therefore about the firmware alone, with any client on its UDP port.
      Requests that one read of the daemon returns together are answered as one
      (C37), which is why C1 speaks of packets with one request each.

    ** What is not modelled

    - Diagnostics of both programs, except where they are the subject: crash
      report, log hook and forwarded lines, the lines of start-up that reach the
      crash ring, the watchdog's report.
    - Preemption between blocking points.  In particular the [sendto]s of one
      frame follow the read of the socket's number at once, so the race with the
      control task that closes the socket does not show, nor do races of two
      log calls on the crash ring; a [recvfrom] on a closed socket does occur
      in the model and counts as no misuse (Descriptors.v), since the code
      closes the socket to end it.
    - An exception that leaves main of the daemon ends the process; whether
      destructors run then is up to the implementation.
    - What the mouse test writes to the terminal.
    - ESP-IDF, FreeRTOS, lwIP and the USB host library: external calls, with
      their answers arbitrary but for the named hypotheses. *)

From stdpp Require Export base list option sets.
From Stdlib Require Export ZArith Lia.
From Stdlib Require String Ascii.
#[global] Open Scope Z_scope.
#[global] Set Default Goal Selector "!".

(** ** Notation *)

Declare Scope hub_scope.
Delimit Scope hub_scope with hub.
#[global] Open Scope hub_scope.

Abbreviation bytes := (list Z).
(** Length of a C array as a machine-size integer. *)
Notation "'len' l" := (Z.of_nat (length l)) (at level 10, l at level 9) : hub_scope.

(** The bytes of a string constant. *)
Definition str (s : String.string) : bytes := (fun c => Z.of_nat (Ascii.nat_of_ascii c)) <$> String.list_ascii_of_string s.

(** ** Machine integers *)

Definition u8 (x : Z) : Z := x mod 2 ^ 8.
Definition u16 (x : Z) : Z := x mod 2 ^ 16.
Definition u32 (x : Z) : Z := x mod 2 ^ 32.
(** Conversion to [int32_t] (two's complement). *)
Definition i32 (x : Z) : Z := (x + 2 ^ 31) mod 2 ^ 32 - 2 ^ 31.

Definition is_u8 (x : Z) : Prop := 0 <= x < 2 ^ 8.
Definition is_u16 (x : Z) : Prop := 0 <= x < 2 ^ 16.
Definition is_u32 (x : Z) : Prop := 0 <= x < 2 ^ 32.
Abbreviation bytes_ok l := (Forall is_u8 l).

Create HintDb hub.

(** Unfolds the width definitions and leaves linear arithmetic over [mod] and [/]. *)
Ltac solve_width :=
  unfold u8, u16, u32, i32, is_u8, is_u16, is_u32 in *;
  change (2 ^ 8) with 256 in *; change (2 ^ 16) with 65536 in *;
  change (2 ^ 32) with 4294967296 in *; change (2 ^ 31) with 2147483648 in *;
  Z.to_euclidean_division_equations; lia.

Lemma u8_range x : is_u8 (u8 x).
Proof. solve_width. Qed.
Lemma u16_range x : is_u16 (u16 x).
Proof. solve_width. Qed.
Lemma u32_range x : is_u32 (u32 x).
Proof. solve_width. Qed.
Lemma u8_id x : is_u8 x -> u8 x = x.
Proof. solve_width. Qed.
Lemma u16_id x : is_u16 x -> u16 x = x.
Proof. solve_width. Qed.
Lemma u32_id x : is_u32 x -> u32 x = x.
Proof. solve_width. Qed.
Lemma u8_add_l x y : u8 (u8 x + y) = u8 (x + y).
Proof. solve_width. Qed.
Lemma u16_add_l x y : u16 (u16 x + y) = u16 (x + y).
Proof. solve_width. Qed.
#[export] Hint Resolve u8_range u16_range u32_range : hub.

(** ** Byte order *)

Definition byte_of (x : Z) (k : Z) : Z := Z.land (Z.shiftr x (8 * k)) 255.

Definition le16 (x : Z) : bytes := [byte_of x 0; byte_of x 1].
Definition le32 (x : Z) : bytes := [byte_of x 0; byte_of x 1; byte_of x 2; byte_of x 3].
Definition be32 (x : Z) : bytes := [byte_of x 3; byte_of x 2; byte_of x 1; byte_of x 0].

Definition of_le16 (a b : Z) : Z := Z.lor a (Z.shiftl b 8).
Definition of_le32 (a b c d : Z) : Z :=
  Z.lor a (Z.lor (Z.shiftl b 8) (Z.lor (Z.shiftl c 16) (Z.shiftl d 24))).

Lemma byte_of_div x k : 0 <= k -> byte_of x k = (x / 2 ^ (8 * k)) mod 256.
Proof.
  intros Hk. unfold byte_of. rewrite Z.shiftr_div_pow2 by lia.
  change 255 with (Z.ones 8). rewrite Z.land_ones by lia. done.
Qed.

Lemma byte_of_0 x : byte_of x 0 = x mod 256.
Proof. rewrite byte_of_div by lia. change (2 ^ (8 * 0)) with 1. by rewrite Z.div_1_r. Qed.
Lemma byte_of_1 x : byte_of x 1 = (x / 256) mod 256.
Proof. by rewrite byte_of_div by lia. Qed.
Lemma byte_of_2 x : byte_of x 2 = (x / 65536) mod 256.
Proof. by rewrite byte_of_div by lia. Qed.
Lemma byte_of_3 x : byte_of x 3 = (x / 16777216) mod 256.
Proof. by rewrite byte_of_div by lia. Qed.

Lemma byte_of_u8 x k : 0 <= k -> is_u8 (byte_of x k).
Proof. intros. rewrite byte_of_div by done. solve_width. Qed.

(** Disjoint bit fields: [lor] of a low byte and a shifted rest is a sum. *)
Lemma lor_shiftl_add a b n : 0 <= n -> 0 <= a < 2 ^ n -> Z.lor a (Z.shiftl b n) = a + b * 2 ^ n.
Proof.
  intros Hn Ha. rewrite Z.shiftl_mul_pow2 by done.
  rewrite <- Z.add_lor_land.
  assert (Z.land a (b * 2 ^ n) = 0) as ->; [|lia].
  apply Z.bits_inj_iff'. intros i Hi. rewrite Z.bits_0, Z.land_spec.
  destruct (decide (i < n)).
  - by rewrite Z.mul_pow2_bits_low, andb_false_r by lia.
  - replace a with (a mod 2 ^ n) by (apply Z.mod_small; lia).
    by rewrite Z.mod_pow2_bits_high by lia.
Qed.

Lemma of_le16_add a b : is_u8 a -> of_le16 a b = a + b * 256.
Proof. intros. unfold of_le16. rewrite lor_shiftl_add; [done|lia|done]. Qed.

Lemma of_le32_add a b c d : is_u8 a -> is_u8 b -> is_u8 c ->
  of_le32 a b c d = a + b * 256 + c * 65536 + d * 16777216.
Proof.
  intros Ha Hb Hc. unfold of_le32.
  change 24 with (16 + 8). rewrite <- (Z.shiftl_shiftl d 16 8) by lia.
  rewrite (Z.shiftl_shiftl d 16 8) by lia. rewrite Z.add_comm, <- (Z.shiftl_shiftl d 8 16) by lia.
  rewrite <- Z.shiftl_lor. change 16 with (8 + 8) at 1.
  rewrite <- (Z.shiftl_shiftl _ 8 8) by lia. rewrite <- Z.shiftl_lor.
  rewrite (lor_shiftl_add c) by (done || lia).
  rewrite (lor_shiftl_add b) by (done || lia). rewrite (lor_shiftl_add a) by (done || lia).
  change (2 ^ 8) with 256. lia.
Qed.

Lemma le16_round x : of_le16 (byte_of x 0) (byte_of x 1) = u16 x.
Proof.
  rewrite of_le16_add by (apply byte_of_u8; lia). rewrite byte_of_0, byte_of_1. solve_width.
Qed.

Lemma le32_round x : of_le32 (byte_of x 0) (byte_of x 1) (byte_of x 2) (byte_of x 3) = u32 x.
Proof.
  rewrite of_le32_add by (apply byte_of_u8; lia).
  rewrite byte_of_0, byte_of_1, byte_of_2, byte_of_3. solve_width.
Qed.

Lemma of_le16_inv a b : is_u8 a -> is_u8 b -> le16 (of_le16 a b) = [a; b].
Proof.
  intros Ha Hb. unfold le16. rewrite of_le16_add, byte_of_0, byte_of_1 by done.
  f_equal; [solve_width|]. f_equal. solve_width.
Qed.

Lemma of_le32_inv a b c d : is_u8 a -> is_u8 b -> is_u8 c -> is_u8 d ->
  le32 (of_le32 a b c d) = [a; b; c; d].
Proof.
  intros Ha Hb Hc Hd. unfold le32.
  rewrite of_le32_add, byte_of_0, byte_of_1, byte_of_2, byte_of_3 by done.
  repeat f_equal; solve_width.
Qed.

(** ** Fixed-size arrays

    An access outside an array is undefined behaviour in C; every operation
    below answers [None] there, so a definition that returns [Some] has been
    shown to stay in bounds. *)

Definition arr_get {A} (l : list A) (i : Z) : option A :=
  if 0 <=? i then l !! Z.to_nat i else None.

Definition arr_set {A} (l : list A) (i : Z) (x : A) : option (list A) :=
  if (0 <=? i) && (i <? len l) then Some (<[Z.to_nat i := x]> l) else None.

(** [memcpy] out of [b + off], [n] bytes. *)
Definition buf_read (b : bytes) (off n : Z) : option bytes :=
  if (0 <=? off) && (0 <=? n) && (off + n <=? len b)
  then Some (take (Z.to_nat n) (drop (Z.to_nat off) b)) else None.

(** [memcpy] into [b + off]. *)
Definition buf_write (b : bytes) (off : Z) (src : bytes) : option bytes :=
  if (0 <=? off) && (off + len src <=? len b)
  then Some (take (Z.to_nat off) b ++ src ++ drop (Z.to_nat off + length src) b) else None.

(** A local array that is filled from the front: only the initialised prefix is
    kept, [cap] is the size of the array. *)
Definition put_at (cap : Z) (pkt : bytes) (off : Z) (src : bytes) : option bytes :=
  if (off =? len pkt) && (off + len src <=? cap) then Some (pkt ++ src) else None.

(** [memset (p, 0, n)]. *)
Definition zeros (n : Z) : bytes := replicate (Z.to_nat n) 0.

(** The bytes of a NUL-terminated string held in an array. *)
Fixpoint c_str (b : bytes) : bytes :=
  match b with
  | [] => []
  | c :: b' => if c =? 0 then [] else c :: c_str b'
  end.

Abbreviation no_nul s := (Forall (fun c : Z => c <> 0) s).

Lemma arr_get_Some {A} (l : list A) i : 0 <= i < len l -> is_Some (arr_get l i).
Proof.
  intros Hi. unfold arr_get. destruct (Z.leb_spec 0 i); [|lia].
  apply lookup_lt_is_Some. lia.
Qed.

Lemma arr_get_inv {A} (l : list A) i x :
  arr_get l i = Some x -> 0 <= i < len l /\ l !! Z.to_nat i = Some x.
Proof.
  unfold arr_get. destruct (Z.leb_spec 0 i); [|done]. intros Hx.
  pose proof (lookup_lt_Some _ _ _ Hx). split; [lia|done].
Qed.

Lemma arr_set_Some {A} (l : list A) i x :
  0 <= i < len l -> arr_set l i x = Some (<[Z.to_nat i := x]> l).
Proof.
  intros Hi. unfold arr_set. destruct (Z.leb_spec 0 i); [|lia]. destruct (Z.ltb_spec i (len l)); [done|lia].
Qed.

Lemma arr_set_inv {A} (l l' : list A) i x :
  arr_set l i x = Some l' -> 0 <= i < len l /\ l' = <[Z.to_nat i := x]> l.
Proof.
  unfold arr_set. destruct (Z.leb_spec 0 i); [|done].
  destruct (Z.ltb_spec i (len l)); [|done]. intros [= <-]. done.
Qed.

Lemma buf_read_Some b off n :
  0 <= off -> 0 <= n -> off + n <= len b ->
  buf_read b off n = Some (take (Z.to_nat n) (drop (Z.to_nat off) b)).
Proof.
  intros. unfold buf_read. destruct (Z.leb_spec 0 off); [|lia]. destruct (Z.leb_spec 0 n); [|lia].
  destruct (Z.leb_spec (off + n) (len b)); [done|lia].
Qed.

Lemma buf_read_inv b off n r :
  buf_read b off n = Some r ->
  0 <= off /\ 0 <= n /\ off + n <= len b /\ r = take (Z.to_nat n) (drop (Z.to_nat off) b).
Proof.
  unfold buf_read. destruct (Z.leb_spec 0 off); [|done]. destruct (Z.leb_spec 0 n); [|done].
  destruct (Z.leb_spec (off + n) (len b)); [|done]. intros [= <-]. done.
Qed.

Lemma buf_read_length b off n r : buf_read b off n = Some r -> len r = n.
Proof.
  intros (? & ? & ? & ->)%buf_read_inv. rewrite length_take, length_drop. lia.
Qed.

Lemma buf_write_Some b off src :
  0 <= off -> off + len src <= len b ->
  buf_write b off src = Some (take (Z.to_nat off) b ++ src ++ drop (Z.to_nat off + length src) b).
Proof.
  intros. unfold buf_write. destruct (Z.leb_spec 0 off); [|lia].
  destruct (Z.leb_spec (off + len src) (len b)); [done|lia].
Qed.

Lemma buf_write_length b off src b' :
  buf_write b off src = Some b' -> length b' = length b.
Proof.
  unfold buf_write. destruct (Z.leb_spec 0 off); [|done].
  destruct (Z.leb_spec (off + len src) (len b)); [|done]. intros [= <-].
  rewrite !length_app, length_take, length_drop. lia.
Qed.

Lemma buf_write_ok b off src b' :
  buf_write b off src = Some b' -> bytes_ok b -> bytes_ok src -> bytes_ok b'.
Proof.
  unfold buf_write. destruct (_ && _); [|done]. intros [= <-] Hb Hs.
  apply Forall_app_2; [by apply Forall_take|]. apply Forall_app_2; [done|by apply Forall_drop].
Qed.

(** What [memcpy] wrote at the start of an array is what is read back. *)
Lemma buf_read_write b src b' :
  buf_write b 0 src = Some b' -> buf_read b' 0 (len src) = Some src.
Proof.
  intros Hw. pose proof (buf_write_length _ _ _ _ Hw) as Hl. revert Hw.
  unfold buf_write. destruct (Z.leb_spec (0 + len src) (len b)); [|done]. intros [= <-].
  rewrite buf_read_Some; [|lia|lia|rewrite Hl; lia].
  rewrite Nat2Z.id, drop_0. by rewrite take_app_length.
Qed.

Lemma put_at_Some cap pkt off src :
  off = len pkt -> off + len src <= cap -> put_at cap pkt off src = Some (pkt ++ src).
Proof.
  intros -> H. unfold put_at. rewrite Z.eqb_refl. cbn. by destruct (Z.leb_spec (len pkt + len src) cap); [|lia].
Qed.

Lemma zeros_length n : length (zeros n) = Z.to_nat n.
Proof. apply length_replicate. Qed.

Lemma zeros_ok n : bytes_ok (zeros n).
Proof. apply Forall_replicate. solve_width. Qed.

Lemma c_str_no_nul b : no_nul (c_str b).
Proof.
  induction b as [|c b IH]; cbn; [constructor|]. destruct (Z.eqb_spec c 0); constructor; auto.
Qed.

Lemma c_str_length b : (length (c_str b) <= length b)%nat.
Proof. induction b as [|c b IH]; cbn; [lia|]. destruct (c =? 0); cbn; lia. Qed.

Lemma c_str_app s rest : no_nul s -> c_str (s ++ 0 :: rest) = s.
Proof.
  induction 1 as [|c s Hc _ IH]; cbn; [done|]. destruct (Z.eqb_spec c 0); [done|]. by rewrite IH.
Qed.

Lemma c_str_id s : no_nul s -> c_str s = s.
Proof.
  induction 1 as [|c s Hc _ IH]; cbn; [done|]. destruct (Z.eqb_spec c 0); [done|]. by rewrite IH.
Qed.

Lemma c_str_ok b : bytes_ok b -> bytes_ok (c_str b).
Proof.
  induction 1 as [|c b Hc _ IH]; cbn; [constructor|]. destruct (c =? 0); constructor; auto.
Qed.

#[export] Hint Resolve zeros_ok c_str_no_nul c_str_ok : hub.

(** The first [k] pieces of size [c] of a list, put together. *)
Lemma chunks_prefix (c : nat) (data : bytes) (k : nat) :
  mjoin ((fun i => take c (drop (c * i) data)) <$> List.seq 0 k) = take (c * k) data.
Proof.
  induction k as [|k IH]; [by rewrite Nat.mul_0_r|].
  rewrite seq_S, fmap_app, join_app, IH. cbn. rewrite app_nil_r, take_take_drop. f_equal. lia.
Qed.

(** ** Automation *)

(** Case analysis on the comparisons and matches of the goal. *)
Ltac case_bool :=
  match goal with
  | |- context [Z.leb ?a ?b] => destruct (Z.leb_spec a b)
  | |- context [Z.ltb ?a ?b] => destruct (Z.ltb_spec a b)
  | |- context [Z.eqb ?a ?b] => destruct (Z.eqb_spec a b)
  | |- context [Nat.ltb ?a ?b] => destruct (Nat.ltb_spec a b)
  | |- context [Nat.leb ?a ?b] => destruct (Nat.leb_spec a b)
  | |- context [Nat.eqb ?a ?b] => destruct (Nat.eqb_spec a b)
  end.

(** Byte lists built from byte expressions are byte lists. *)
Ltac solve_bytes :=
  repeat first [apply Forall_nil_2 | apply Forall_cons_2 | apply Forall_app_2];
  try (apply byte_of_u8; lia); auto with hub; try (solve [solve_width]).
