(* ===== verification/Effects.v ===== *)
(** * Effects: the boundary between the firmware and what it calls

    The firmware runs on ESP-IDF, FreeRTOS and lwIP; the daemon runs on Linux.
    None of that code is part of the repository, so every call into it is an
    entry of [call] whose answer comes from an environment [env], an arbitrary
    function of the calls made so far: a theorem that holds for every
    environment holds whatever the network, the heap or the USB bus do.  A
    [reply] carries the return value, the bytes the call wrote into the
    caller's buffer, the address or handle it reported, and the USB callbacks
    that ran before it returned.

    The calls of the daemon are Linux system calls.

    [M S] is the monad the models are written in: a state [S] (the [static]
    variables of a C file), the trace of external calls, and undefined
    behaviour as [None].  [wp] is its total-correctness predicate: it implies
    that the computation returns and that no undefined behaviour is reached. *)

From S2P Require Import Prelude.

(** ** External calls *)

Inductive sock_type := SOCK_STREAM | SOCK_DGRAM.

(** The endpoint a USB transfer object was allocated for. *)
Inductive xfer_slot := XIn | XOut | XCtrl.

#[global] Instance xfer_slot_eq_dec : EqDecision xfer_slot.
Proof. solve_decision. Defined.

(** ** What the USB host library reports

    The library runs the driver's callbacks; an event is one such invocation.
    A completed transfer carries its status, its byte count and the contents of
    its data buffer; a new device carries what its descriptors say. *)

Record ep_desc := EpDesc { bEndpointAddress : Z; bmAttributes : Z; wMaxPacketSize : Z }.
Record dev_info := DevInfo {
  di_address : Z;
  di_class : Z;
  (* number of the first interface descriptor, if the configuration has one *)
  di_interface : option Z;
  (* the endpoint descriptors of the configuration, in order *)
  di_endpoints : list ep_desc;
}.

Inductive usb_event :=
| EvIn (status actual : Z) (buf : bytes)
| EvOut (status : Z)
| EvCtrl (status actual : Z) (buf : bytes)
| EvNewDev (d : dev_info)
| EvDevGone.

(** The handlers the WiFi manager registers with the HTTP server, by name. *)
Inductive http_method := HTTP_GET | HTTP_POST.
#[global] Instance http_method_eq_dec : EqDecision http_method.
Proof. solve_decision. Defined.
Inductive http_handler :=
| H_api_captive | H_portal_html | H_post_save | H_windows_connecttest | H_redirect_to_portal | H_not_found.

(** The WiFi, network-interface, HTTP-server and flash-storage calls of the WiFi manager. *)
Inductive event_base := WIFI_EVENT | IP_EVENT.
Inductive wifi_call :=
| WNetifInit | WEventLoop | WInit | WRegisterHandler (base : event_base)
| WNetifCreateSta | WNetifCreateAp | WNetifGetAp | WDhcpsStop | WSetIpInfo (ip gw netmask : bytes) | WSetDns (ip : bytes) | WDhcpsOption (uri : bytes) | WDhcpsStart
| WSetMode (ap : bool) | WSetConfigAp (ssid : bytes) (ssid_len max_connection channel : Z) | WSetConfigSta (ssid pass : bytes) | WStart | WStop | WConnect
(* the number of records is [r_aux], their names are 33 bytes each of [r_out] *)
| WScanStart | WScanRecords (max : Z)
| WHttpStart (max_uri_handlers max_open_sockets : Z) | WHttpStop
| WHttpRegister (uri : bytes) (m : http_method) (h : http_handler) | WHttpRegister404
| WHttpRecv (n : Z) | WHttpStatus (s : bytes) | WHttpType (t : bytes) | WHttpHdr (field value : bytes)
| WHttpChunk (data : bytes) | WHttpSend (body : bytes) | WHttpSendErr (code : Z) (msg : bytes)
| WNvsInit | WNvsErase | WNvsOpen (ns : bytes) (rw : bool) | WNvsGet (key : bytes) (n : Z) | WNvsSet (key value : bytes) | WNvsCommit | WNvsClose
| WRestart.

(** Options of a socket; [SO_RCVTIMEO] in seconds. *)
Inductive sockopt := SO_REUSEADDR | SO_BROADCAST | SO_RCVTIMEO (sec : Z).

Inductive call :=
(* WiFi manager *)
| CWifi (c : wifi_call)
(* sockets *)
| CSocket (ty : sock_type)
| CBind (fd port : Z)
| CSetsockopt (fd : Z) (opt : sockopt)
| CConnect (fd ip port : Z)
| CSend (fd : Z) (data : bytes)
| CSendto (fd : Z) (data : bytes) (ip port : Z)
| CRecvfrom (fd n : Z)
| CClose (fd : Z)
(* Linux, for the daemon; [r_aux] of a call that fails is [errno] *)
| CSystem (cmd : bytes)
| COpen (path : bytes)
| CRead (fd n : Z)
| CWrite (fd : Z) (data : bytes)
| CRecv (fd n : Z)
| CListen (fd : Z)
| CAccept (fd : Z)
(* the two descriptors of the pair are [r_out] *)
| CSocketpair (nonblock : bool)
| CUsleep (us : Z)
| CEpollCreate
| CEpollAdd (epfd fd events : Z)
| CEpollDel (epfd fd : Z)
(* [r_out] holds a descriptor and its event mask for each of the [r_ret] events *)
| CEpollWait (epfd maxevents ms : Z)
(* [clock_gettime] with [localtime_r]: hours, minutes, seconds and nanoseconds in [r_out] *)
| CClock
| CFprintf (to_stderr : bool) (line : bytes)
(* heap *)
| CMalloc (n : Z)
| CFree
(* scheduler *)
| CDelay (ms : Z)
| CTaskCreate (name : Z)
(* a blocking wait of at most [ms]; the reply's events are the callbacks that run meanwhile *)
| CBlock (ms : Z)
| CQueueCreate (depth : Z)
| CSemCreate
(* formatted output: [vsnprintf] into a buffer of the given size, [vprintf] *)
| CVsnprintf (size : Z)
| CVprintf
| CLog (level : Z) (msg : bytes)
(* USB host library *)
| CUsbNewPhy
| CUsbHostInstall
| CUsbHostUninstall
| CUsbClientRegister
| CUsbDeviceOpen (addr : Z)
| CUsbDeviceClose (dev : Z)
| CUsbInterfaceClaim (dev intf : Z)
| CUsbInterfaceRelease (dev intf : Z)
| CUsbTransferAlloc (slot : xfer_slot) (size : Z)
| CUsbTransferFree (slot : xfer_slot)
| CUsbTransferSubmit (slot : xfer_slot) (ep : Z) (data : bytes)
| CUsbEndpointHalt (dev ep : Z)
| CUsbEndpointFlush (dev ep : Z)
(* [usb_host_lib_handle_events]: the event flags are [r_aux] *)
| CUsbLibEvents
| CUsbFreeAll
(* [usb_host_device_addr_list_fill]: the count is [r_aux], the addresses [r_out] *)
| CUsbAddrList (n : Z)
(* a hardware register, in [r_ret] *)
| CReg (wrap : bool)
| CHeapSize
(* the terminal and signals; [r_out] of [tcgetattr] holds [c_lflag] and the VMIN and VTIME entries *)
| CTcGetattr
| CTcSetattr (lflag vmin vtime : Z)
| CFcntlGetfl (fd : Z)
| CFcntlSetfl (fd flags : Z)
| CSigaction (sig : Z).

Record reply := Reply { r_ret : Z; r_out : bytes; r_aux : Z; r_events : list usb_event }.

Definition trace := list (call * reply).
Definition env := trace -> call -> reply.

(** ** The monad *)

Record world (S : Type) := World { st : S; tr : trace }.
Arguments World {_} _ _.
Arguments st {_} _.
Arguments tr {_} _.

Definition M (S A : Type) : Type := env -> world S -> option (A * world S).

#[global] Instance M_ret S : MRet (M S) := fun A a _ w => Some (a, w).
#[global] Instance M_bind S : MBind (M S) := fun A B f m E w =>
  match m E w with Some (a, w') => f a E w' | None => None end.

Definition call_ext {S} (c : call) : M S reply := fun E w =>
  let r := E (tr w) c in Some (r, World (st w) (tr w ++ [(c, r)])).
Definition get {S} : M S S := fun _ w => Some (st w, w).
Definition modify {S} (f : S -> S) : M S unit := fun _ w => Some (tt, World (f (st w)) (tr w)).
(** Undefined behaviour unless the checked access succeeds. *)
Definition checked {S A} (o : option A) : M S A := fun _ w =>
  match o with Some a => Some (a, w) | None => None end.
Definition when {S} (b : bool) (m : M S unit) : M S unit := if b then m else mret tt.

(** ESP_ERROR_CHECK: the firmware aborts when the call fails, and the run has no result. *)
Definition esp_check {S} (c : wifi_call) : M S unit :=
  r ← call_ext (CWifi c); checked (if r_ret r =? 0 then Some tt else None).

(** [for (i = from; i < from + n; i++) body(i)]. *)
Fixpoint for_range {S} (n : nat) (from : Z) (body : Z -> M S unit) : M S unit :=
  match n with
  | O => mret tt
  | S n' => body from ;; for_range n' (from + 1) body
  end.

(** A component's state seen inside a larger one. *)
Record lens (S T : Type) := Lens { l_get : S -> T; l_put : T -> S -> S }.
Arguments Lens {_ _} _ _.
Arguments l_get {_ _} _ _.
Arguments l_put {_ _} _ _ _.

Definition zoom {S T A} (l : lens S T) (m : M T A) : M S A := fun E w =>
  match m E (World (l_get l (st w)) (tr w)) with
  | Some (a, w') => Some (a, World (l_put l (st w') (st w)) (tr w'))
  | None => None
  end.

(** ** Weakest preconditions *)

Definition wp {S A} (m : M S A) (E : env) (w : world S) (Q : A -> world S -> Prop) : Prop :=
  match m E w with Some (a, w') => Q a w' | None => False end.

Section Wp.
Context {S : Type} (E : env).
Implicit Types (w : world S).

Lemma wp_bind {A B} (m : M S A) (f : A -> M S B) w Q :
  wp m E w (fun a w' => wp (f a) E w' Q) -> wp (m ≫= f) E w Q.
Proof. unfold wp, mbind, M_bind. by destruct (m E w) as [[a w']|]. Qed.

Lemma wp_mono {A} (m : M S A) w (P Q : A -> world S -> Prop) :
  (forall a w', P a w' -> Q a w') -> wp m E w P -> wp m E w Q.
Proof. unfold wp. destruct (m E w) as [[a w']|]; auto. Qed.

Lemma wp_and {A} (m : M S A) w (P Q : A -> world S -> Prop) :
  wp m E w P -> wp m E w Q -> wp m E w (fun a w' => P a w' /\ Q a w').
Proof. unfold wp. by destruct (m E w) as [[a w']|]. Qed.

Lemma wp_ret {A} (a : A) w (Q : A -> world S -> Prop) : Q a w -> wp (mret a) E w Q.
Proof. done. Qed.

Lemma wp_call c w (Q : reply -> world S -> Prop) :
  (forall r, r = E (tr w) c -> Q r (World (st w) (tr w ++ [(c, r)]))) ->
  wp (call_ext c) E w Q.
Proof. intros H. by apply H. Qed.

Lemma wp_get w (Q : S -> world S -> Prop) : Q (st w) w -> wp get E w Q.
Proof. done. Qed.

Lemma wp_modify f w (Q : unit -> world S -> Prop) :
  Q tt (World (f (st w)) (tr w)) -> wp (modify f) E w Q.
Proof. done. Qed.

Lemma wp_checked {A} (o : option A) a w (Q : A -> world S -> Prop) :
  o = Some a -> Q a w -> wp (checked o) E w Q.
Proof. by intros ->. Qed.

Lemma wp_put_at cap pkt off src w (Q : bytes -> world S -> Prop) :
  off = len pkt -> off + len src <= cap -> Q (pkt ++ src) w -> wp (checked (put_at cap pkt off src)) E w Q.
Proof. intros. by eapply wp_checked; [apply put_at_Some|]. Qed.

(** The result of a computation that satisfies its precondition. *)
Lemma wp_run {A} (m : M S A) w Q : wp m E w Q -> exists a w', m E w = Some (a, w') /\ Q a w'.
Proof. unfold wp. destruct (m E w) as [[a w']|]; [|done]. eauto. Qed.

Lemma wp_zoom {T A} (l : lens S T) (m : M T A) w (Q : A -> world S -> Prop) :
  wp m E (World (l_get l (st w)) (tr w))
    (fun a v => Q a (World (l_put l (st v) (st w)) (tr v))) ->
  wp (zoom l m) E w Q.
Proof. unfold wp, zoom. by destruct (m E _) as [[a w']|]. Qed.

(** Loop rule: an invariant indexed by the loop counter. *)
Lemma wp_for_range n from (body : Z -> M S unit) (I : Z -> world S -> Prop) w (Q : unit -> world S -> Prop) :
  I from w ->
  (forall i w', from <= i < from + Z.of_nat n -> I i w' ->
     wp (body i) E w' (fun _ w'' => I (i + 1) w'')) ->
  (forall w', I (from + Z.of_nat n) w' -> Q tt w') ->
  wp (for_range n from body) E w Q.
Proof.
  revert from w. induction n as [|n IH]; intros from w HI Hstep HQ; cbn.
  - apply wp_ret, HQ. by rewrite Z.add_0_r.
  - apply wp_bind. eapply wp_mono; [|apply Hstep; [lia|done]].
    intros [] w' HI'. cbn beta in HI'. apply IH; [done| |].
    + intros i w'' Hi. apply Hstep. lia.
    + intros w'' HI''. apply HQ.
      by replace (from + Z.of_nat (Datatypes.S n)) with (from + 1 + Z.of_nat n) by lia.
Qed.
End Wp.

Lemma mbind_some {S A B} (E : env) (m : M S A) (f : A -> M S B) (w w' : world S) a :
  m E w = Some (a, w') -> (m ≫= f) E w = f a E w'.
Proof. intros Hm. unfold mbind, M_bind. by rewrite Hm. Qed.

Lemma esp_check_some {S} (E : env) c (w : world S) :
  r_ret (E (tr w) (CWifi c)) = 0 ->
  esp_check c E w = Some (tt, World (st w) (tr w ++ [(CWifi c, E (tr w) (CWifi c))])).
Proof. intros Hc. unfold esp_check, call_ext, checked, mbind, M_bind. by rewrite Hc. Qed.

(** Runs a computation symbolically, one primitive at a time. *)
Ltac wp_step :=
  match goal with
  | |- wp (mbind _ _) _ _ _ => apply wp_bind
  | |- wp (mret _) _ _ _ => apply wp_ret
  | |- wp (call_ext _) _ _ _ => apply wp_call; intros ? ?
  | |- wp get _ _ _ => apply wp_get
  | |- wp (modify _) _ _ _ => apply wp_modify
  | |- wp (when _ _) _ _ _ => unfold when
  | |- wp (if ?b then _ else _) _ _ _ => destruct b eqn:?
  | |- wp (match ?o with Some _ => _ | None => _ end) _ _ _ => destruct o eqn:?
  end; cbn [st tr].

(** A computation with no external effect other than its trace prefix. *)
Definition extends (t t' : trace) : Prop := exists d, t' = t ++ d.

Lemma extends_refl t : extends t t.
Proof. exists []. by rewrite app_nil_r. Qed.
Lemma extends_trans t1 t2 t3 : extends t1 t2 -> extends t2 t3 -> extends t1 t3.
Proof. intros [d1 ->] [d2 ->]. exists (d1 ++ d2). by rewrite app_assoc. Qed.
Lemma extends_app t d : extends t (t ++ d).
Proof. by exists d. Qed.
#[export] Hint Resolve extends_refl extends_app : hub.

(** The calls of a trace, without their replies. *)
Abbreviation calls t := (fst <$> (t : trace)).

(** ** Which calls a computation makes *)

(** Every run of [m] appends to the trace calls that satisfy [P], and nothing else. *)
Definition only_calls {S A} (P : call -> Prop) (m : M S A) : Prop :=
  forall E w a w', m E w = Some (a, w') -> exists d, tr w' = tr w ++ d /\ Forall P (calls d).

Section OnlyCalls.
Context {S : Type} (P : call -> Prop).

Lemma only_ret {A} (a : A) : only_calls P (mret a : M S A).
Proof. intros E w a' w' [= _ <-]. exists []. by rewrite app_nil_r. Qed.
Lemma only_bind {A B} (m : M S A) (f : A -> M S B) :
  only_calls P m -> (forall a, only_calls P (f a)) -> only_calls P (m ≫= f).
Proof.
  intros Hm Hf E w b w' Hb. unfold mbind, M_bind in Hb. destruct (m E w) as [[a w1]|] eqn:H1; [|done].
  destruct (Hm _ _ _ _ H1) as (d1 & Ht1 & Hd1). destruct (Hf _ _ _ _ _ Hb) as (d2 & Ht2 & Hd2).
  exists (d1 ++ d2). rewrite Ht2, Ht1, app_assoc, fmap_app. split; [done|]. by apply Forall_app_2.
Qed.
Lemma only_call c : P c -> only_calls P (call_ext c : M S reply).
Proof. intros Hc E w a w' [= _ <-]. eexists. split; [done|]. by apply Forall_cons_2. Qed.
Lemma only_get : only_calls P (get : M S S).
Proof. intros E w a w' [= _ <-]. exists []. by rewrite app_nil_r. Qed.
Lemma only_modify f : only_calls P (modify f : M S unit).
Proof. intros E w a w' [= _ <-]. exists []. by rewrite app_nil_r. Qed.
Lemma only_checked {A} (o : option A) : only_calls P (checked o : M S A).
Proof. intros E w a w' Ho. destruct o; [|done]. injection Ho as _ <-. exists []. by rewrite app_nil_r. Qed.

Lemma only_mono {A} (P' : call -> Prop) (m : M S A) : (forall c, P' c -> P c) -> only_calls P' m -> only_calls P m.
Proof. intros Hp Hm E w a w' Hr. destruct (Hm _ _ _ _ Hr) as (d & Ht & Hd). exists d. split; [done|]. eapply Forall_impl; eauto. Qed.

Lemma only_zoom {T A} (l : lens T S) (m : M S A) : only_calls P m -> only_calls P (zoom l m).
Proof.
  intros Hm E w a w' Hr. unfold zoom in Hr. destruct (m E _) as [[b v]|] eqn:Hv; [|done]. injection Hr as _ <-.
  apply (Hm _ _ _ _ Hv).
Qed.

Lemma wp_calls {A} (m : M S A) E w Q :
  only_calls P m -> wp m E w Q ->
  wp m E w (fun a w' => Q a w' /\ exists d, tr w' = tr w ++ d /\ Forall P (calls d)).
Proof. intros Hm. unfold wp. destruct (m E w) as [[a w']|] eqn:Hr; [|done]. intros. split; [done|]. by eapply Hm. Qed.
End OnlyCalls.

(** Walks through a computation to bound its calls. *)
Ltac only_step :=
  match goal with
  | |- only_calls _ (mbind _ _) => apply only_bind; [|intros ?]
  | |- only_calls _ (mret _) => apply only_ret
  | |- only_calls _ (call_ext _) => apply only_call; [exact I || done]
  | |- only_calls _ get => apply only_get
  | |- only_calls _ (modify _) => apply only_modify
  | |- only_calls _ (checked _) => apply only_checked
  | |- only_calls _ (zoom _ _) => apply only_zoom
  | |- only_calls _ (when _ _) => unfold when
  | |- only_calls _ (if ?b then _ else _) => destruct b
  | |- only_calls _ (match ?o with _ => _ end) => destruct o
  | H : _ |- only_calls _ _ => solve [apply H]
  end.

(** Calls that have nothing to do with sockets and other descriptors. *)
Definition non_socket (c : call) : Prop :=
  match c with
  | CSocket _ | CBind _ _ | CSetsockopt _ _ | CConnect _ _ _ | CSend _ _ | CSendto _ _ _ _ | CRecvfrom _ _ | CClose _ => False
  | COpen _ | CRead _ _ | CWrite _ _ | CRecv _ _ | CListen _ | CAccept _ | CSocketpair _ => False
  | CEpollCreate | CEpollAdd _ _ _ | CEpollDel _ _ | CEpollWait _ _ _ => False
  | _ => True
  end.

(** No socket call between two points of a trace. *)
Definition quiet_since (t t' : trace) : Prop := exists d, t' = t ++ d /\ Forall non_socket (calls d).

Lemma quiet_refl t : quiet_since t t.
Proof. exists []. rewrite app_nil_r. split; [done|constructor]. Qed.
Lemma quiet_trans t1 t2 t3 : quiet_since t1 t2 -> quiet_since t2 t3 -> quiet_since t1 t3.
Proof.
  intros (d1 & -> & H1) (d2 & -> & H2). exists (d1 ++ d2). rewrite app_assoc, fmap_app. split; [done|]. by apply Forall_app_2.
Qed.
Lemma quiet_call t c r : non_socket c -> quiet_since t (t ++ [(c, r)]).
Proof. intros Hc. eexists. split; [done|]. by apply Forall_cons_2. Qed.
#[export] Hint Resolve quiet_refl quiet_call : hub.

(** [recvfrom] writes what it reports, at most the size of the buffer. *)
Definition sockets_ok (E : env) : Prop :=
  forall t fd n, let r := E t (CRecvfrom fd n) in
    r_ret r <= n /\ (0 <= r_ret r -> len (r_out r) = r_ret r) /\ bytes_ok (r_out r).
