(* ===== verification/Descriptors.v ===== *)
(** * Descriptors

    Which descriptors are open is a function of the trace of external calls.
    [fd_run] replays a trace: [socket], [accept4], [open], [epoll_create1] and
    [socketpair] open the descriptors they return, [close] closes one, and the
    other calls on a descriptor must be given an open one.  It answers [None] at
    the first use of a descriptor that is not open (use after close, double
    close).  A component that [holds_fds own] at every point neither leaks a
    descriptor nor uses a closed one.

    The tasks of a session are the exception: one of them closes the socket to
    end the [recvfrom] of another, which is recorded when it returns.  For them
    [fd_replay] and [holds_at] are taken with [lax], which lets a [recvfrom] meet
    a closed socket. *)

From S2P Require Import Prelude Effects.

Fixpoint remove1 (x : Z) (l : list Z) : option (list Z) :=
  match l with
  | [] => None
  | y :: l' => if x =? y then Some l' else (y ::.) <$> remove1 x l'
  end.

(** The descriptors a call uses, and those it opens. *)
Definition fd_uses (lax : bool) (c : call) : list Z :=
  match c with
  | CBind fd _ | CSetsockopt fd _ | CConnect fd _ _ | CSend fd _ | CSendto fd _ _ _ => [fd]
  | CRead fd _ | CWrite fd _ | CRecv fd _ | CListen fd | CAccept fd => [fd]
  | CEpollAdd epfd fd _ | CEpollDel epfd fd => [epfd; fd]
  | CEpollWait epfd _ _ => [epfd]
  | CRecvfrom fd _ => if lax then [] else [fd]
  | _ => []
  end.
Definition fd_opens (c : call) (r : reply) : list Z :=
  match c with
  | CSocket _ | CAccept _ | COpen _ | CEpollCreate => if 0 <=? r_ret r then [r_ret r] else []
  | CSocketpair _ => if 0 <=? r_ret r then r_out r else []
  | _ => []
  end.

Definition fd_step (lax : bool) (open : list Z) (e : call * reply) : option (list Z) :=
  match e.1 with
  | CClose fd => remove1 fd open
  | c => if bool_decide (Forall (.∈ open) (fd_uses lax c)) then Some (fd_opens c e.2 ++ open) else None
  end.

Fixpoint fd_replay (lax : bool) (open : list Z) (t : trace) : option (list Z) :=
  match t with
  | [] => Some open
  | e :: t' => open' ← fd_step lax open e; fd_replay lax open' t'
  end.
Abbreviation fd_run := (fd_replay false).

(** The descriptors open after [t] are [own] and [rest], in some order. *)
Definition holds_at (lax : bool) (t : trace) (own rest : list Z) : Prop :=
  exists l, fd_replay lax [] t = Some l /\ l ≡ₚ own ++ rest.
Abbreviation holds_fds := (holds_at false).

(** ** Lemmas *)

Lemma fd_replay_snoc lax open t e : fd_replay lax open (t ++ [e]) = (open' ← fd_replay lax open t; fd_step lax open' e).
Proof.
  revert open. induction t as [|e' t IH]; intros open; cbn [app fd_replay].
  - cbn. by destruct (fd_step lax open e).
  - destruct (fd_step lax open e') as [o|]; cbn; [apply IH|done].
Qed.

Lemma remove1_perm x l k : l ≡ₚ x :: k -> exists l', remove1 x l = Some l' /\ l' ≡ₚ k.
Proof.
  revert k. induction l as [|y l IH]; intros k Hp.
  - by apply Permutation_nil_cons in Hp.
  - cbn. destruct (Z.eqb_spec x y) as [<-|Hne].
    + exists l. split; [done|]. by eapply Permutation_cons_inv.
    + assert (y ∈ k) as Hy.
      { assert (y ∈ x :: k) as [|]%elem_of_cons by (rewrite <- Hp; apply elem_of_cons; by left); [congruence|done]. }
      apply elem_of_Permutation in Hy as [k' Hk]. destruct (IH k') as (l' & -> & Hl).
      { apply (Permutation_cons_inv (a := y)). rewrite Hp, Hk. apply Permutation_swap. }
      exists (y :: l'). split; [done|]. by rewrite Hk, Hl.
Qed.

Section Holds.
Context {lax : bool}.
Implicit Types (t : trace) (own rest : list Z).

Lemma holds_nil : holds_at lax [] [] [].
Proof. by exists []. Qed.

Lemma holds_perm t own own' rest : own ≡ₚ own' -> holds_at lax t own rest -> holds_at lax t own' rest.
Proof. intros Hp (l & Hr & Hl). exists l. split; [done|]. by rewrite Hl, Hp. Qed.

(** A call other than [close] on descriptors of the owner. *)
Lemma holds_call t own rest c r :
  match c with CClose _ => False | _ => True end -> Forall (.∈ own) (fd_uses lax c) ->
  holds_at lax t own rest -> holds_at lax (t ++ [(c, r)]) (fd_opens c r ++ own) rest.
Proof.
  intros Hc Hu (l & Hr & Hl). unfold holds_at. rewrite fd_replay_snoc, Hr. cbn [mbind option_bind].
  assert (Forall (.∈ l) (fd_uses lax c)) as Hu'.
  { eapply Forall_impl; [exact Hu|]. intros x Hx. rewrite Hl, elem_of_app. by left. }
  exists (fd_opens c r ++ l). split; [|by rewrite Hl, app_assoc].
  destruct c; try done; unfold fd_step; cbn [fst snd]; by rewrite bool_decide_true.
Qed.

Lemma holds_socket t own rest ty r :
  holds_at lax t own rest ->
  holds_at lax (t ++ [(CSocket ty, r)]) (if 0 <=? r_ret r then r_ret r :: own else own) rest.
Proof.
  intros Hh. apply (holds_call _ _ _ (CSocket ty) r) in Hh; [|done|constructor]. cbn in Hh. by destruct (0 <=? r_ret r).
Qed.

Lemma holds_close t own rest fd r :
  holds_at lax t (fd :: own) rest -> holds_at lax (t ++ [(CClose fd, r)]) own rest.
Proof.
  intros (l & Hr & Hl). unfold holds_at. rewrite fd_replay_snoc, Hr. cbn [mbind option_bind fd_step fst].
  destruct (remove1_perm _ _ _ Hl) as (l' & -> & ?). eauto.
Qed.

(** A call that neither opens nor closes. *)
Definition fd_still (c : call) : Prop :=
  match c with
  | CClose _ | CSocket _ | CAccept _ | COpen _ | CEpollCreate | CSocketpair _ => False
  | _ => True
  end.

Lemma holds_uses t own rest c r :
  fd_still c -> Forall (.∈ own) (fd_uses lax c) -> holds_at lax t own rest -> holds_at lax (t ++ [(c, r)]) own rest.
Proof. intros Hc Hu Hh. apply (holds_call _ _ _ c r) in Hh; [|by destruct c|done]. by destruct c. Qed.

Lemma holds_use t own rest c fd r :
  fd_still c -> fd_uses lax c = [fd] -> fd ∈ own -> holds_at lax t own rest -> holds_at lax (t ++ [(c, r)]) own rest.
Proof. intros Hc Hu ?. apply holds_uses; [done|]. rewrite Hu. by apply Forall_singleton. Qed.

Lemma holds_other t own rest c r :
  fd_still c -> fd_uses lax c = [] -> holds_at lax t own rest -> holds_at lax (t ++ [(c, r)]) own rest.
Proof. intros Hc Hu. apply holds_uses; [done|]. by rewrite Hu. Qed.

Lemma holds_quiet t t' own rest : quiet_since t t' -> holds_at lax t own rest -> holds_at lax t' own rest.
Proof.
  intros (d & -> & Hd). revert t. induction d as [|[c r] d IH]; intros t Hf; [by rewrite app_nil_r|].
  apply Forall_cons_1 in Hd as [Hc Hd]. change (t ++ (c, r) :: d) with (t ++ [(c, r)] ++ d). rewrite app_assoc.
  apply IH; [done|]. by apply holds_other; [destruct c..|].
Qed.

Lemma holds_swap t own rest : holds_at lax t own rest -> holds_at lax t rest own.
Proof. intros (l & Hr & Hl). exists l. split; [done|]. by rewrite Hl, Permutation_app_comm. Qed.
End Holds.

(** Goes through the call at the end of a trace; the uses of an open descriptor are left. *)
Ltac holds_step :=
  match goal with
  | |- holds_at _ (_ ++ [(CSocket _, _)]) _ _ => apply holds_socket
  | |- holds_at _ (_ ++ [(CClose _, _)]) _ _ => apply holds_close
  | |- holds_at _ (_ ++ [(_, _)]) _ _ =>
      first [apply holds_other; [exact I|reflexivity|]
            | eapply holds_use; [exact I|reflexivity|first [by apply elem_of_cons; left | by apply list_elem_of_here]|]]
  end.
