(* ===== verification/Rtos.v ===== *)
(** * FreeRTOS objects the firmware shares between tasks

    FreeRTOS is not part of the repository.  Event groups and queues are
    therefore interfaces: a class states the documented behaviour the firmware
    relies on, the components are proved against the class, and a concrete
    instance shows that the laws can be met (and lets closed examples run).

    - An event group is a word of bits; [xEventGroupSetBits] and
      [xEventGroupClearBits] change exactly the given bits.
    - A queue is a bounded FIFO of copies; a zero-tick [xQueueSend] to a full
      queue fails and leaves it unchanged.  A binary semaphore is a queue of
      depth one. *)

From S2P Require Import Prelude.

(** ** Event groups *)

(** Evaluates the bits of an event group after updates. *)
Create HintDb bits.

Class EventGroup (G : Type) := {
  eg_create : G;
  eg_get : G -> Z;
  eg_set : Z -> G -> G;
  eg_clear : Z -> G -> G;
  eg_create_bits : eg_get eg_create = 0;
  eg_set_bits m g : eg_get (eg_set m g) = Z.lor (eg_get g) m;
  eg_clear_bits m g : eg_get (eg_clear m g) = Z.ldiff (eg_get g) m;
}.

(** [BITn] of the FreeRTOS headers. *)
Definition BIT (n : Z) : Z := Z.shiftl 1 n.

(** [xEventGroupGetBits(g) & m]. *)
Definition bits_set {G} `{EventGroup G} (g : G) (m : Z) : bool := negb (Z.land (eg_get g) m =? 0).

Section EventGroupFacts.
Context {G : Type} `{EventGroup G}.

Lemma bits_set_BIT g n : 0 <= n -> bits_set g (BIT n) = Z.testbit (eg_get g) n.
Proof.
  intros Hn. unfold bits_set, BIT.
  destruct (Z.testbit (eg_get g) n) eqn:Hb.
  - destruct (Z.eqb_spec (Z.land (eg_get g) (Z.shiftl 1 n)) 0) as [H0|]; [|done].
    apply (f_equal (fun z => Z.testbit z n)) in H0.
    rewrite Z.land_spec, Hb, Z.shiftl_spec, Z.sub_diag, Z.bits_0 in H0 by lia. done.
  - destruct (Z.eqb_spec (Z.land (eg_get g) (Z.shiftl 1 n)) 0) as [|H0]; [done|].
    destruct H0. apply Z.bits_inj_iff'. intros i Hi. rewrite Z.bits_0, Z.land_spec.
    destruct (decide (i = n)) as [->|Hne]; [by rewrite Hb|].
    rewrite Z.shiftl_spec by lia. destruct (decide (i < n)).
    + by rewrite (Z.testbit_neg_r 1 (i - n)), andb_false_r by lia.
    + destruct (i - n) as [|p|p] eqn:?; [lia| |lia]. cbn. by rewrite andb_false_r.
Qed.

Lemma testbit_set g m i : Z.testbit (eg_get (eg_set m g)) i = Z.testbit (eg_get g) i || Z.testbit m i.
Proof. by rewrite eg_set_bits, Z.lor_spec. Qed.
Lemma testbit_clear g m i :
  Z.testbit (eg_get (eg_clear m g)) i = Z.testbit (eg_get g) i && negb (Z.testbit m i).
Proof. by rewrite eg_clear_bits, Z.ldiff_spec. Qed.
Lemma testbit_create i : Z.testbit (eg_get (eg_create : G)) i = false.
Proof. by rewrite eg_create_bits, Z.bits_0. Qed.

Lemma testbit_BIT n i : 0 <= n -> Z.testbit (BIT n) i = (i =? n).
Proof.
  intros Hn. unfold BIT. rewrite Z.shiftl_1_l. destruct (Z.eqb_spec i n) as [->|].
  - by apply Z.pow2_bits_true.
  - by apply Z.pow2_bits_false.
Qed.

(** One bit after another was set, cleared, or the group was created. *)
Lemma bits_set_set g m n : 0 <= m -> 0 <= n ->
  bits_set (eg_set (BIT m) g) (BIT n) = bits_set g (BIT n) || (n =? m).
Proof. intros. by rewrite !bits_set_BIT, testbit_set, testbit_BIT by done. Qed.
Lemma bits_set_clear g m n : 0 <= m -> 0 <= n ->
  bits_set (eg_clear (BIT m) g) (BIT n) = bits_set g (BIT n) && negb (n =? m).
Proof. intros. by rewrite !bits_set_BIT, testbit_clear, testbit_BIT by done. Qed.
Lemma bits_set_create n : 0 <= n -> bits_set (eg_create : G) (BIT n) = false.
Proof. intros. by rewrite bits_set_BIT, testbit_create by done. Qed.

(** One bit after a mask was set or cleared. *)
Lemma bits_set_mask g m n : 0 <= n -> bits_set (eg_set m g) (BIT n) = bits_set g (BIT n) || Z.testbit m n.
Proof. intros. by rewrite !bits_set_BIT, testbit_set by done. Qed.
Lemma bits_clear_mask g m n : 0 <= n -> bits_set (eg_clear m g) (BIT n) = bits_set g (BIT n) && negb (Z.testbit m n).
Proof. intros. by rewrite !bits_set_BIT, testbit_clear by done. Qed.
End EventGroupFacts.

#[export] Hint Rewrite @testbit_set @testbit_clear @testbit_create : hub.
#[export] Hint Rewrite @bits_set_set @bits_set_clear @bits_set_create using lia : bits.

(** A word of bits meets the laws. *)
#[global] Program Instance word_event_group : EventGroup Z := {|
  eg_create := 0; eg_get g := g; eg_set m g := Z.lor g m; eg_clear m g := Z.ldiff g m |}.
Solve Obligations with done.
#[local] Obligation Tactic := idtac.

(** ** Queues *)

Class Queue (Q : Type -> Type) := {
  q_create : forall {A}, Z -> Q A;
  q_cap : forall {A}, Q A -> Z;
  q_items : forall {A}, Q A -> list A;
  q_send : forall {A}, A -> Q A -> bool * Q A;
  q_recv : forall {A}, Q A -> option (A * Q A);
  q_create_items : forall A n, q_items (@q_create A n) = [] /\ q_cap (@q_create A n) = n;
  q_send_ok : forall A (x : A) q, len (q_items q) < q_cap q ->
    exists q', q_send x q = (true, q') /\ q_items q' = q_items q ++ [x] /\ q_cap q' = q_cap q;
  q_send_full : forall A (x : A) q, q_cap q <= len (q_items q) -> q_send x q = (false, q);
  q_recv_ok : forall A (x : A) l q, q_items q = x :: l ->
    exists q', q_recv q = Some (x, q') /\ q_items q' = l /\ q_cap q' = q_cap q;
  q_recv_empty : forall A (q : Q A), q_items q = [] -> q_recv q = None;
}.

Section QueueFacts.
Context {Q : Type -> Type} `{Queue Q} {A : Type}.

(** A zero-tick send appends, or drops the item when the queue is full. *)
Lemma q_send_cases (x : A) q :
  let q' := (q_send x q).2 in
  q_cap q' = q_cap q /\
  q_items q' = if len (q_items q) <? q_cap q then q_items q ++ [x] else q_items q.
Proof.
  cbn zeta. destruct (Z.ltb_spec (len (q_items q)) (q_cap q)) as [Hlt|Hge].
  - by destruct (q_send_ok _ x q Hlt) as (q' & -> & ? & ?).
  - by rewrite (q_send_full _ x q Hge).
Qed.

Lemma q_recv_cases (q : Q A) :
  match q_recv q with
  | Some (x, q') => q_items q = x :: q_items q' /\ q_cap q' = q_cap q
  | None => q_items q = []
  end.
Proof.
  destruct (q_items q) as [|x l] eqn:Hi.
  - by rewrite (q_recv_empty _ q Hi).
  - destruct (q_recv_ok _ x l q Hi) as (q' & -> & Hi' & ?). by rewrite Hi'.
Qed.
End QueueFacts.

(** A list with its capacity meets the laws. *)
Record list_queue (A : Type) := ListQueue { lq_cap : Z; lq_items : list A }.
Arguments ListQueue {_} _ _.
Arguments lq_cap {_} _.
Arguments lq_items {_} _.

#[global] Program Instance list_queue_queue : Queue list_queue := {|
  q_create A n := ListQueue n [];
  q_cap A q := lq_cap q;
  q_items A q := lq_items q;
  q_send A x q := if len (lq_items q) <? lq_cap q
                  then (true, ListQueue (lq_cap q) (lq_items q ++ [x])) else (false, q);
  q_recv A q := match lq_items q with
                | [] => None
                | x :: l => Some (x, ListQueue (lq_cap q) l)
                end |}.
Next Obligation. done. Qed.
Next Obligation. intros A x q Hlt. cbn in *. destruct (Z.ltb_spec (len (lq_items q)) (lq_cap q)); [eauto|lia]. Qed.
Next Obligation. intros A x q Hge. cbn in *. destruct (Z.ltb_spec (len (lq_items q)) (lq_cap q)); [lia|done]. Qed.
Next Obligation. intros A x l q Hi. cbn in *. rewrite Hi. eauto. Qed.
Next Obligation. intros A q Hi. cbn in *. by rewrite Hi. Qed.

(** ** Tasks *)

(** The tasks the firmware creates, by their functions. *)
Definition dns_server_task_id : Z := 0.
Definition wifi_manager_task_id : Z := 1.
Definition hub_discover_task_id : Z := 2.
Definition log_sender_task_id : Z := 3.
Definition crash_send_task_id : Z := 4.
Definition session_ctrl_task_id : Z := 5.
Definition session_up_task_id : Z := 6.
Definition session_down_task_id : Z := 7.
Definition usb_lib_task_id : Z := 8.
Definition usb_client_task_id : Z := 9.
Definition usb_watchdog_task_id : Z := 10.
