(* ===== verification/Protocol.v ===== *)
(** * The wire protocol (daemon/src/protocol/Protocol.h)

    Constants and packed structs shared by the firmware and the daemon.  A
    packed struct of a little-endian machine is its fields' bytes in order;
    [Wire] bundles that layout with its laws, one instance per struct. *)

From S2P Require Import Prelude.

(** ** Constants *)

Definition DAEMON_PORT : Z := 7788.
Definition DEVICE_BASE_PORT : Z := 7789.
Definition MAX_PACKET : Z := 65542.
Definition MTU_PAYLOAD : Z := 1400.

Definition CMD_DISCOVER : Z := 0x01.
Definition CMD_DISCOVER_REPLY : Z := 0x02.
Definition CMD_DEVICE_EVENT : Z := 0x10.
Definition CMD_RAW_DATA : Z := 0x30.
Definition CMD_RAW_FRAG : Z := 0x31.
Definition CMD_LOG : Z := 0x50.
Definition CMD_ERROR : Z := 0xFF.

Definition LOG_LEVEL_ERROR : Z := 0x01.
Definition LOG_LEVEL_WARN : Z := 0x02.
Definition LOG_LEVEL_INFO : Z := 0x03.
Definition LOG_LEVEL_DEBUG : Z := 0x04.
Definition LOG_LEVEL_VERBOSE : Z := 0x05.

Definition DEVICE_ID_USB0 : Z := 0x00.
Definition DEVICE_ID_USB1 : Z := 0x01.
Definition DEVICE_ID_USB2 : Z := 0x02.
Definition DEVICE_ID_USB3 : Z := 0x03.
Definition DEVICE_EVENT_CONNECT : Z := 0x01.
Definition DEVICE_EVENT_DISCONNECT : Z := 0x02.
Definition USB_SPEED_LOW : Z := 0x01.
Definition USB_SPEED_FULL : Z := 0x02.
Definition USB_SPEED_HIGH : Z := 0x03.

(** ** The enumerations of the C++ side

    [static_cast] to an enumeration of underlying type [uint8_t] keeps any byte;
    comparing the result with an enumerator compares the bytes. *)

Inductive CmdType :=
| CmdType_DISCOVER | CmdType_DISCOVER_REPLY | CmdType_DEVICE_EVENT | CmdType_RAW_DATA | CmdType_RAW_FRAG | CmdType_LOG | CmdType_ERROR.
Definition cmd_value (c : CmdType) : Z :=
  match c with
  | CmdType_DISCOVER => CMD_DISCOVER
  | CmdType_DISCOVER_REPLY => CMD_DISCOVER_REPLY
  | CmdType_DEVICE_EVENT => CMD_DEVICE_EVENT
  | CmdType_RAW_DATA => CMD_RAW_DATA
  | CmdType_RAW_FRAG => CMD_RAW_FRAG
  | CmdType_LOG => CMD_LOG
  | CmdType_ERROR => CMD_ERROR
  end.

Inductive DeviceId := DeviceId_USB0 | DeviceId_USB1 | DeviceId_USB2 | DeviceId_USB3.
Definition device_id_value (d : DeviceId) : Z :=
  match d with
  | DeviceId_USB0 => DEVICE_ID_USB0
  | DeviceId_USB1 => DEVICE_ID_USB1
  | DeviceId_USB2 => DEVICE_ID_USB2
  | DeviceId_USB3 => DEVICE_ID_USB3
  end.

Inductive DeviceEvent := DeviceEvent_CONNECT | DeviceEvent_DISCONNECT.
Definition device_event_value (e : DeviceEvent) : Z :=
  match e with DeviceEvent_CONNECT => DEVICE_EVENT_CONNECT | DeviceEvent_DISCONNECT => DEVICE_EVENT_DISCONNECT end.

Inductive UsbSpeed := UsbSpeed_LOW | UsbSpeed_FULL | UsbSpeed_HIGH.
Definition speed_value (s : UsbSpeed) : Z :=
  match s with UsbSpeed_LOW => USB_SPEED_LOW | UsbSpeed_FULL => USB_SPEED_FULL | UsbSpeed_HIGH => USB_SPEED_HIGH end.

(** Different enumerators have different values, so at most one comparison of a byte succeeds. *)
#[global] Instance cmd_value_inj : Inj (=) (=) cmd_value.
Proof. by intros [] []. Qed.
#[global] Instance device_id_value_inj : Inj (=) (=) device_id_value.
Proof. by intros [] []. Qed.
#[global] Instance device_event_value_inj : Inj (=) (=) device_event_value.
Proof. by intros [] []. Qed.
#[global] Instance speed_value_inj : Inj (=) (=) speed_value.
Proof. by intros [] []. Qed.

(** ** Packed structs *)

Record Header := mkHeader {
  h_cmd_type : Z;
  h_device_id : Z;
  h_endpoint : Z;
  h_seq : Z;
  h_payload_len : Z;
}.

Record DiscoverReplyPayload := mkDiscoverReply { dr_daemon_port : Z }.

Record DeviceEventPayload := mkDeviceEvent {
  de_device_id : Z;
  de_event : Z;
  de_speed : Z;
  de_usb_class : Z;
  de_subclass : Z;
  de_protocol : Z;
  de_reply_port : Z;
}.

Record FragHeader := mkFragHeader {
  f_transfer_seq : Z;
  f_frag_idx : Z;
  f_frag_total : Z;
}.

Record LogPayload := mkLogPayload { lp_log_level : Z }.

(** ** Layout of a packed struct

    [decode] reads the struct from the start of a buffer, as [memcpy (&x, buf,
    sizeof x)] does, and answers [None] when the buffer is shorter than the
    struct. *)

Class Wire (A : Type) := {
  sizeof : Z;
  wf : A -> Prop;
  encode : A -> bytes;
  decode : bytes -> option A;
  encode_size x : len (encode x) = sizeof;
  encode_ok x : wf x -> bytes_ok (encode x);
  decode_encode x rest : wf x -> decode (encode x ++ rest) = Some x;
  encode_decode b : bytes_ok b -> len b = sizeof ->
    exists x, decode b = Some x /\ wf x /\ encode x = b;
}.
#[global] Arguments sizeof A {_}.

#[global] Instance Header_eq_dec : EqDecision Header.
Proof. solve_decision. Defined.
#[global] Instance FragHeader_eq_dec : EqDecision FragHeader.
Proof. solve_decision. Defined.
#[global] Instance DeviceEventPayload_eq_dec : EqDecision DeviceEventPayload.
Proof. solve_decision. Defined.

Definition header_wf (h : Header) : Prop :=
  is_u8 (h_cmd_type h) /\ is_u8 (h_device_id h) /\ is_u8 (h_endpoint h) /\
  is_u8 (h_seq h) /\ is_u16 (h_payload_len h).
Definition header_encode (h : Header) : bytes :=
  [h_cmd_type h; h_device_id h; h_endpoint h; h_seq h] ++ le16 (h_payload_len h).
Definition header_decode (b : bytes) : option Header :=
  match b with
  | c :: d :: e :: s :: l0 :: l1 :: _ => Some (mkHeader c d e s (of_le16 l0 l1))
  | _ => None
  end.

Definition discover_reply_encode (p : DiscoverReplyPayload) : bytes := le16 (dr_daemon_port p).
Definition discover_reply_decode (b : bytes) : option DiscoverReplyPayload :=
  match b with p0 :: p1 :: _ => Some (mkDiscoverReply (of_le16 p0 p1)) | _ => None end.

Definition device_event_wf (d : DeviceEventPayload) : Prop :=
  is_u8 (de_device_id d) /\ is_u8 (de_event d) /\ is_u8 (de_speed d) /\ is_u8 (de_usb_class d) /\
  is_u8 (de_subclass d) /\ is_u8 (de_protocol d) /\ is_u16 (de_reply_port d).
Definition device_event_encode (d : DeviceEventPayload) : bytes :=
  [de_device_id d; de_event d; de_speed d; de_usb_class d; de_subclass d; de_protocol d]
  ++ le16 (de_reply_port d).
Definition device_event_decode (b : bytes) : option DeviceEventPayload :=
  match b with
  | i :: e :: s :: c :: sc :: p :: r0 :: r1 :: _ => Some (mkDeviceEvent i e s c sc p (of_le16 r0 r1))
  | _ => None
  end.

Definition frag_wf (f : FragHeader) : Prop :=
  is_u16 (f_transfer_seq f) /\ is_u8 (f_frag_idx f) /\ is_u8 (f_frag_total f).
Definition frag_encode (f : FragHeader) : bytes :=
  le16 (f_transfer_seq f) ++ [f_frag_idx f; f_frag_total f].
Definition frag_decode (b : bytes) : option FragHeader :=
  match b with s0 :: s1 :: i :: t :: _ => Some (mkFragHeader (of_le16 s0 s1) i t) | _ => None end.

Definition log_encode (p : LogPayload) : bytes := [lp_log_level p].
Definition log_decode (b : bytes) : option LogPayload :=
  match b with l :: _ => Some (mkLogPayload l) | _ => None end.

(** ** The instances *)

Lemma le16_ok x : bytes_ok (le16 x).
Proof. solve_bytes. Qed.
Lemma le32_ok x : bytes_ok (le32 x).
Proof. solve_bytes. Qed.
Lemma of_le16_u16 a b : is_u8 a -> is_u8 b -> is_u16 (of_le16 a b).
Proof. intros. rewrite of_le16_add by done. solve_width. Qed.
#[export] Hint Resolve le16_ok le32_ok of_le16_u16 : hub.

(** Opens the records of a layout law. *)
Ltac wire_laws :=
  intros;
  repeat match goal with
  | x : Header |- _ => destruct x
  | x : DiscoverReplyPayload |- _ => destruct x
  | x : DeviceEventPayload |- _ => destruct x
  | x : FragHeader |- _ => destruct x
  | x : LogPayload |- _ => destruct x
  end;
  unfold header_wf, device_event_wf, frag_wf in *; cbn in *; destruct_and?.

(** A buffer of exactly the struct's size decodes, and re-encodes to itself. *)
Tactic Notation "wire_decode" integer(n) :=
  let b := fresh "b" in let Hok := fresh "Hok" in let Hlen := fresh "Hlen" in
  intros b Hok Hlen; do n (destruct b as [|? b]; [cbn in Hlen; lia|]);
  destruct b; [|cbn in Hlen; lia]; repeat (apply Forall_cons_1 in Hok as [? Hok]);
  eexists; split; [done|];
  unfold header_wf, header_encode, discover_reply_encode, device_event_wf, device_event_encode,
    frag_wf, frag_encode; cbn -[le16]; rewrite ?of_le16_inv by done; auto 10 with hub.

#[global] Program Instance header_wire : Wire Header := {|
  sizeof := 6; wf := header_wf; encode := header_encode; decode := header_decode |}.
Next Obligation. done. Qed.
Next Obligation. wire_laws. solve_bytes. Qed.
Next Obligation. wire_laws. by rewrite le16_round, u16_id. Qed.
Next Obligation. wire_decode 6. Qed.

#[global] Program Instance discover_reply_wire : Wire DiscoverReplyPayload := {|
  sizeof := 2; wf p := is_u16 (dr_daemon_port p);
  encode := discover_reply_encode; decode := discover_reply_decode |}.
Next Obligation. done. Qed.
Next Obligation. wire_laws. apply le16_ok. Qed.
Next Obligation. wire_laws. by rewrite le16_round, u16_id. Qed.
Next Obligation. wire_decode 2. Qed.

#[global] Program Instance device_event_wire : Wire DeviceEventPayload := {|
  sizeof := 8; wf := device_event_wf; encode := device_event_encode; decode := device_event_decode |}.
Next Obligation. done. Qed.
Next Obligation. wire_laws. solve_bytes. Qed.
Next Obligation. wire_laws. by rewrite le16_round, u16_id. Qed.
Next Obligation. wire_decode 8. Qed.

#[global] Program Instance frag_wire : Wire FragHeader := {|
  sizeof := 4; wf := frag_wf; encode := frag_encode; decode := frag_decode |}.
Next Obligation. done. Qed.
Next Obligation. wire_laws. solve_bytes. Qed.
Next Obligation. wire_laws. by rewrite le16_round, u16_id. Qed.
Next Obligation. wire_decode 4. Qed.

#[global] Program Instance log_wire : Wire LogPayload := {|
  sizeof := 1; wf p := is_u8 (lp_log_level p); encode := log_encode; decode := log_decode |}.
Next Obligation. done. Qed.
Next Obligation. wire_laws. solve_bytes. Qed.
Next Obligation. by intros []. Qed.
Next Obligation. wire_decode 1. Qed.

(** The assertions of the header: the size the layout has. *)
Definition static_assertions : list (Z * Z) :=
  [(sizeof Header, 6); (sizeof DiscoverReplyPayload, 2); (sizeof DeviceEventPayload, 8); (sizeof FragHeader, 4); (sizeof LogPayload, 1)].
Lemma static_assertions_hold : Forall (fun '(size, n) => size = n) static_assertions.
Proof. repeat constructor. Qed.
