(* ===== verification/Addr.v ===== *)
(** * Internet addresses (daemon/src/protocol/Protocol.h, daemon/src/network/UdpSocket.cpp)

    A [sockaddr_in] holds its address and port in network byte order: the
    values below are what the little-endian CPU loads from them.  [makeAddr]
    reads a dotted address, [addrToStr] prints one; [inet_pton] and [inet_ntop]
    are the C library's, with its rules: four decimal numbers of at most 255,
    none with a leading zero. *)

From stdpp Require Import strings pretty.
From S2P Require Import Prelude.

(** Byte order of a port. *)
Definition htons (x : Z) : Z := let v := u16 x in Z.lor (Z.shiftl (Z.land v 255) 8) (Z.shiftr v 8).
Definition ntohs (x : Z) : Z := htons x.
Record sockaddr_in := Sockaddr { sin_addr : Z; sin_port : Z }.

(** The sender [recvfrom] reports in [r_aux]: its address, and its port above it. *)
Definition sender_of (a : Z) : sockaddr_in := Sockaddr (a mod 2 ^ 32) (a / 2 ^ 32).

Definition INADDR_ANY : Z := 0.

(** ** [inet_ntop] and [inet_pton] for AF_INET *)

(** The number of an octet, and an octet's digits. *)
Definition dec (x : Z) : bytes := str (pretty x).
Definition DOT : Z := 46.

Definition inet_ntop (s_addr : Z) : bytes :=
  dec (byte_of s_addr 0) ++ [DOT] ++ dec (byte_of s_addr 1) ++ [DOT] ++
  dec (byte_of s_addr 2) ++ [DOT] ++ dec (byte_of s_addr 3).

(** One more digit of the octet read so far, [None] before its first digit. *)
Definition octet_digit (cur : option Z) (d : Z) : option Z :=
  match cur with
  | None => Some d
  | Some v => if v =? 0 then None else if 255 <? v * 10 + d then None else Some (v * 10 + d)
  end.

(** The octets completed so far and the current one; answers the four octets. *)
Fixpoint pton_loop (octets : list Z) (cur : option Z) (src : bytes) : option (list Z) :=
  match src with
  | [] => match cur with Some v => if len octets =? 3 then Some (octets ++ [v]) else None | None => None end
  | ch :: src' =>
      if (48 <=? ch) && (ch <=? 57) then
        v ← octet_digit cur (ch - 48); pton_loop octets (Some v) src'
      else if ch =? DOT then
        v ← cur; if len octets =? 3 then None else pton_loop (octets ++ [v]) None src'
      else None
  end.

(** The address as it lies in memory, when the text is one. *)
Definition inet_pton (src : bytes) : option Z :=
  l ← pton_loop [] None src;
  match l with [a; b; c; d] => Some (of_le32 a b c d) | _ => None end.

(** ** makeAddr and addrToStr *)

(** [ip] is the C string, [None] for a null pointer; an address that cannot be read leaves the
    zero-initialised field as it is. *)
Definition makeAddr (ip : option bytes) (port : Z) : sockaddr_in :=
  let addr := Sockaddr 0 (htons port) in
  match ip with
  | None | Some [] => Sockaddr INADDR_ANY (sin_port addr)
  | Some s => match inet_pton s with Some a => Sockaddr a (sin_port addr) | None => addr end
  end.

Definition addrToStr (addr : sockaddr_in) : bytes :=
  inet_ntop (sin_addr addr) ++ str ":" ++ dec (ntohs (sin_port addr)).

(** ** Ports survive the conversion, up to their width *)

Lemma htons_add x : htons x = (u16 x mod 256) * 256 + u16 x / 256.
Proof.
  unfold htons. change 255 with (Z.ones 8). rewrite Z.land_ones by lia. rewrite Z.lor_comm, Z.shiftr_div_pow2 by lia.
  rewrite lor_shiftl_add; [change (2 ^ 8) with 256; lia|lia|]. change (2 ^ 8) with 256. solve_width.
Qed.
Lemma ntohs_htons x : ntohs (htons x) = u16 x.
Proof. unfold ntohs. rewrite (htons_add (htons x)), htons_add. solve_width. Qed.
Lemma htons_ntohs x : is_u16 x -> htons (ntohs x) = x.
Proof. intros. change (htons (ntohs x)) with (ntohs (htons x)). rewrite ntohs_htons. by apply u16_id. Qed.

(** ** What is printed is read back *)

(** The octet a run of digits stands for. *)
Fixpoint octet_run (cur : option Z) (src : bytes) : option (option Z) :=
  match src with
  | [] => Some cur
  | ch :: src' => if (48 <=? ch) && (ch <=? 57) then v ← octet_digit cur (ch - 48); octet_run (Some v) src' else None
  end.

Lemma octet_run_loop octets cur src rest v :
  octet_run cur src = Some v -> pton_loop octets cur (src ++ rest) = pton_loop octets v rest.
Proof.
  revert cur. induction src as [|ch src IH]; intros cur; cbn; [by intros [= ->]|].
  destruct ((48 <=? ch) && (ch <=? 57)); [|done]. destruct (octet_digit cur (ch - 48)); [|done]. apply IH.
Qed.

Lemma dec_octet x : is_u8 x -> octet_run None (dec x) = Some (Some x).
Proof.
  intros Hx. assert (Forall (fun x => octet_run None (dec x) = Some (Some x)) (seqZ 0 256)) as Hall.
  { apply (bool_decide_unpack _). by vm_compute. }
  rewrite Forall_forall in Hall. apply Hall, elem_of_seqZ. solve_width.
Qed.

Lemma pton_octet octets x rest :
  is_u8 x -> len octets <> 3 -> pton_loop octets None (dec x ++ [DOT] ++ rest) = pton_loop (octets ++ [x]) None rest.
Proof.
  intros Hx Hl. rewrite (octet_run_loop _ _ _ _ _ (dec_octet x Hx)). cbn -[Z.of_nat].
  by destruct (Z.eqb_spec (len octets) 3).
Qed.

Lemma inet_pton_ntop a : is_u32 a -> inet_pton (inet_ntop a) = Some a.
Proof.
  intros Ha. unfold inet_pton, inet_ntop. rewrite !pton_octet by (first [apply byte_of_u8; lia | cbn; lia]).
  rewrite <- (app_nil_r (dec (byte_of a 3))). rewrite (octet_run_loop _ _ _ _ _ (dec_octet _ (byte_of_u8 a 3 ltac:(lia)))).
  cbn [pton_loop app length]. change (Z.of_nat 3 =? 3) with true. cbn [mbind option_bind].
  by rewrite le32_round, u32_id.
Qed.

(** An address survives being printed and read.  [makeAddr] applied to the dotted form of an
    address, and a port, gives that address and port back: the address field is the same 32-bit
    value, the port comes out of [ntohs] as it went in, and printing the result shows the text it
    was made from. *)
Theorem address_roundtrip a port :
  is_u32 a -> is_u16 port ->
  makeAddr (Some (inet_ntop a)) port = Sockaddr a (htons port) /\
  ntohs (sin_port (makeAddr (Some (inet_ntop a)) port)) = port /\
  addrToStr (makeAddr (Some (inet_ntop a)) port) = inet_ntop a ++ str ":" ++ dec port.
Proof.
  intros Ha Hp. assert (makeAddr (Some (inet_ntop a)) port = Sockaddr a (htons port)) as ->.
  { pose proof (inet_pton_ntop a Ha) as Hr. unfold makeAddr. destruct (inet_ntop a) as [|c s]; [discriminate|]. by rewrite Hr. }
  unfold addrToStr. cbn [sin_addr sin_port]. rewrite ntohs_htons, u16_id by done. done.
Qed.

Lemma address_roundtrip_witness :
  inet_ntop 0x0104A8C0 = str "192.168.4.1" /\ addrToStr (makeAddr (Some (str "192.168.4.1")) 7788) = str "192.168.4.1:7788".
Proof.
  split; [vm_compute; reflexivity|].
  change (str "192.168.4.1") with (inet_ntop 0x0104A8C0).
  destruct (address_roundtrip 0x0104A8C0 7788) as (_ & _ & ->); [solve_width..|]. vm_compute. reflexivity.
Defined.

(** Text that is not an address is taken for the wildcard. *)
Example makeAddr_unreadable : makeAddr (Some (str "127.0.0.01")) 7788 = makeAddr None 7788.
Proof. by vm_compute. Qed.
