(* ===== verification/Usbip.v ===== *)
(** * USB/IP wire structures (esp-codes/main/usbip_proto.h)

    The firmware copies a USB/IP header into a packed struct and byte-swaps the
    fields it needs: a field of the record below is the little-endian value the
    CPU loads, and [USBIP_U32] turns it into the big-endian value on the wire. *)

From S2P Require Import Prelude Protocol.

(** [__builtin_bswap32]. *)
Definition USBIP_U32 (x : Z) : Z :=
  of_le32 (byte_of x 3) (byte_of x 2) (byte_of x 1) (byte_of x 0).

Definition USBIP_CMD_SUBMIT : Z := 1.
Definition USBIP_CMD_UNLINK : Z := 2.
Definition USBIP_RET_SUBMIT : Z := 3.
Definition USBIP_RET_UNLINK : Z := 4.
Definition USBIP_DIR_OUT : Z := 0.
Definition USBIP_DIR_IN : Z := 1.

(** sizeof of each of the four packed structs. *)
Definition USBIP_HDR : Z := 48.

Record usbip_cmd_submit_t := {
  cs_command : Z;
  cs_seqnum : Z;
  cs_devid : Z;
  cs_direction : Z;
  cs_ep : Z;
  cs_transfer_flags : Z;
  cs_transfer_buffer_length : Z;
  cs_start_frame : Z;
  cs_number_of_packets : Z;
  cs_interval : Z;
  cs_setup : bytes;
}.

Record usbip_ret_submit_t := {
  rs_command : Z;
  rs_seqnum : Z;
  rs_devid : Z;
  rs_direction : Z;
  rs_ep : Z;
  rs_status : Z;
  rs_actual_length : Z;
  rs_start_frame : Z;
  rs_number_of_packets : Z;
  rs_error_count : Z;
  rs_padding : bytes;
}.

(** The fields of [usbip_cmd_unlink_t] and [usbip_ret_unlink_t] that the code names. *)
Record usbip_cmd_unlink_t := {
  cu_command : Z;
  cu_seqnum : Z;
  cu_devid : Z;
  cu_direction : Z;
  cu_ep : Z;
  cu_unlink_seqnum : Z;
  cu_padding : bytes;
}.

Record usbip_ret_unlink_t := {
  ru_command : Z;
  ru_seqnum : Z;
  ru_devid : Z;
  ru_direction : Z;
  ru_ep : Z;
  ru_status : Z;
  ru_padding : bytes;
}.

(** The [k]-th 32-bit word of a buffer, as a little-endian load. *)
Definition word_at (b : bytes) (k : nat) : option Z :=
  match drop (4 * k) b with
  | a :: b :: c :: d :: _ => Some (of_le32 a b c d)
  | _ => None
  end.

Definition cmd_submit_decode (b : bytes) : option usbip_cmd_submit_t :=
  c ← word_at b 0; s ← word_at b 1; dv ← word_at b 2; dr ← word_at b 3; e ← word_at b 4;
  fl ← word_at b 5; ln ← word_at b 6; sf ← word_at b 7; np ← word_at b 8; iv ← word_at b 9;
  su ← buf_read b 40 8;
  Some {| cs_command := c; cs_seqnum := s; cs_devid := dv; cs_direction := dr; cs_ep := e;
          cs_transfer_flags := fl; cs_transfer_buffer_length := ln; cs_start_frame := sf;
          cs_number_of_packets := np; cs_interval := iv; cs_setup := su |}.

Definition cmd_submit_encode (c : usbip_cmd_submit_t) : bytes :=
  le32 (cs_command c) ++ le32 (cs_seqnum c) ++ le32 (cs_devid c) ++ le32 (cs_direction c) ++
  le32 (cs_ep c) ++ le32 (cs_transfer_flags c) ++ le32 (cs_transfer_buffer_length c) ++
  le32 (cs_start_frame c) ++ le32 (cs_number_of_packets c) ++ le32 (cs_interval c) ++ cs_setup c.

Definition cmd_unlink_decode (b : bytes) : option usbip_cmd_unlink_t :=
  c ← word_at b 0; s ← word_at b 1; dv ← word_at b 2; dr ← word_at b 3; e ← word_at b 4;
  us ← word_at b 5; pd ← buf_read b 24 24;
  Some {| cu_command := c; cu_seqnum := s; cu_devid := dv; cu_direction := dr; cu_ep := e;
          cu_unlink_seqnum := us; cu_padding := pd |}.

Definition ret_submit_encode (r : usbip_ret_submit_t) : bytes :=
  le32 (rs_command r) ++ le32 (rs_seqnum r) ++ le32 (rs_devid r) ++ le32 (rs_direction r) ++
  le32 (rs_ep r) ++ le32 (rs_status r) ++ le32 (rs_actual_length r) ++ le32 (rs_start_frame r) ++
  le32 (rs_number_of_packets r) ++ le32 (rs_error_count r) ++ rs_padding r.

Definition ret_unlink_encode (r : usbip_ret_unlink_t) : bytes :=
  le32 (ru_command r) ++ le32 (ru_seqnum r) ++ le32 (ru_devid r) ++ le32 (ru_direction r) ++
  le32 (ru_ep r) ++ le32 (ru_status r) ++ ru_padding r.

(** ** Byte swapping *)

Lemma USBIP_U32_range x : is_u32 (USBIP_U32 x).
Proof.
  unfold USBIP_U32. rewrite of_le32_add by (apply byte_of_u8; lia).
  pose proof (byte_of_u8 x 0). pose proof (byte_of_u8 x 1). pose proof (byte_of_u8 x 2).
  pose proof (byte_of_u8 x 3). solve_width.
Qed.

(** A swapped value stored little-endian is the value big-endian. *)
Lemma le32_swap x : le32 (USBIP_U32 x) = be32 x.
Proof. unfold USBIP_U32. by rewrite of_le32_inv by (apply byte_of_u8; lia). Qed.

(** The macro is its own inverse on 32-bit values, as the header claims. *)
Lemma USBIP_U32_involutive x : is_u32 x -> USBIP_U32 (USBIP_U32 x) = x.
Proof.
  intros Hx. unfold USBIP_U32 at 1.
  pose proof (le32_swap x) as Hs. unfold le32, be32 in Hs. injection Hs as -> -> -> ->.
  by rewrite le32_round, u32_id.
Qed.

(** Loading four bytes and swapping reads them as one big-endian number. *)
Lemma USBIP_U32_load a b c d : is_u8 a -> is_u8 b -> is_u8 c -> is_u8 d ->
  USBIP_U32 (of_le32 a b c d) = a * 16777216 + b * 65536 + c * 256 + d.
Proof.
  intros. assert (le32 (of_le32 a b c d) = [a; b; c; d]) as Hi by (by apply of_le32_inv).
  unfold le32 in Hi. unfold USBIP_U32. injection Hi as -> -> -> ->. rewrite of_le32_add by done. lia.
Qed.

(** ** Layout *)

Lemma ret_submit_length r : len (rs_padding r) = 8 -> len (ret_submit_encode r) = USBIP_HDR.
Proof. intros. unfold ret_submit_encode, USBIP_HDR, le32. cbn. lia. Qed.

Lemma ret_unlink_length r : len (ru_padding r) = 24 -> len (ret_unlink_encode r) = USBIP_HDR.
Proof. intros. unfold ret_unlink_encode, USBIP_HDR, le32. cbn. lia. Qed.

Lemma word_at_Some b k : 4 * (Z.of_nat k + 1) <= len b -> is_Some (word_at b k).
Proof.
  intros Hl. unfold word_at. pose proof (length_drop b (4 * k)).
  destruct (drop (4 * k) b) as [|? [|? [|? [|? ?]]]]; cbn in *; try lia. by eexists.
Qed.

Lemma cmd_submit_decode_Some b : USBIP_HDR <= len b -> is_Some (cmd_submit_decode b).
Proof.
  unfold USBIP_HDR. intros Hl. unfold cmd_submit_decode.
  repeat match goal with
  | |- context [word_at b ?k] =>
      let H := fresh in pose proof (word_at_Some b k ltac:(lia)) as [? H]; rewrite H; clear H; cbn [mbind option_bind]
  end.
  rewrite buf_read_Some by lia. cbn. by eexists.
Qed.

Lemma cmd_unlink_decode_Some b : USBIP_HDR <= len b -> is_Some (cmd_unlink_decode b).
Proof.
  unfold USBIP_HDR. intros Hl. unfold cmd_unlink_decode.
  repeat match goal with
  | |- context [word_at b ?k] =>
      let H := fresh in pose proof (word_at_Some b k ltac:(lia)) as [? H]; rewrite H; clear H; cbn [mbind option_bind]
  end.
  rewrite buf_read_Some by lia. cbn. by eexists.
Qed.

Definition cmd_submit_wf (c : usbip_cmd_submit_t) : Prop :=
  Forall is_u32 [cs_command c; cs_seqnum c; cs_devid c; cs_direction c; cs_ep c; cs_transfer_flags c;
                 cs_transfer_buffer_length c; cs_start_frame c; cs_number_of_packets c; cs_interval c]
  /\ len (cs_setup c) = 8.

(** A submit header built field by field is read back unchanged. *)
Lemma cmd_submit_roundtrip c rest :
  cmd_submit_wf c -> cmd_submit_decode (cmd_submit_encode c ++ rest) = Some c.
Proof.
  intros [Hw Hs]. destruct c; cbn in Hw, Hs.
  repeat (apply Forall_cons_1 in Hw as [? Hw]).
  do 8 (destruct cs_setup0 as [|? cs_setup0]; [cbn in Hs; lia|]). destruct cs_setup0; [|cbn in Hs; lia].
  unfold cmd_submit_decode, cmd_submit_encode, word_at. cbn -[byte_of].
  rewrite !le32_round, !u32_id by done.
  rewrite buf_read_Some; [|lia|lia|cbn; lia]. done.
Qed.
