(* ===== verification/Session.v ===== *)
(** * Device session: state, transmit path (esp-codes/main/device_session.[ch])

    [session_t] with the configuration it points to, the driver interface
    [device_ops_t], and [send_raw], which sends a frame to the daemon in one
    CMD_RAW_DATA datagram or in CMD_RAW_FRAG fragments. *)

From S2P Require Import Prelude Effects Protocol.

(** ** Driver interface

    [device_ops_t] is a table of function pointers; a driver is a type of states
    with the three operations.  [ops_recv max] answers the return value and the
    bytes written into the caller's buffer. *)

Class DeviceOps (D : Type) := {
  ops_init : M D bool;
  ops_recv : Z -> M D (Z * bytes);
  ops_send : bytes -> M D bool;
}.

(** The contract of device_session.h, for a driver in an environment: an
    invariant of the driver that every operation keeps, and [recv] never
    reports or writes more bytes than the caller's buffer holds.  A driver
    does not touch the network. *)
Class DeviceOpsOk (D : Type) `{DeviceOps D} (E : env) := {
  d_inv : D -> Prop;
  ops_send_ok buf w : bytes_ok buf -> d_inv (st w) ->
    wp (ops_send buf) E w (fun _ w' => d_inv (st w'));
  ops_recv_ok max w : 0 <= max -> d_inv (st w) ->
    wp (ops_recv max) E w (fun r w' => d_inv (st w') /\ r.1 <= max /\ len r.2 <= max /\
      (0 <= r.1 -> len r.2 = r.1) /\ bytes_ok r.2);
  ops_send_calls buf : only_calls non_socket (ops_send buf);
  ops_recv_calls max : only_calls non_socket (ops_recv max);
}.

(** The part of usb_driver.h that [usb_handle_submit] and the session tasks call
    directly.  [usb_drv_control setup out max_in]: [out] is [None] for the NULL
    pointer of an IN transfer; the answer is the return value and what was
    written into [in_buf]. *)
Class UsbBackend (D : Type) := {
  usb_control : bytes -> option bytes -> Z -> M D (Z * bytes);
  usb_send_blocking : bytes -> M D Z;
  usb_is_device_ready : D -> bool;
}.

(** Its contract: a control transfer writes at most [max_in] bytes into the
    buffer, which is what it reports, or reports at most 1024 when the caller
    has no room for data. *)
Class UsbBackendOk (D : Type) (E : env) `{DeviceOpsOk D E, UsbBackend D} := {
  usb_control_ok setup out max_in w :
    len setup = 8 -> bytes_ok setup -> from_option (fun d => bytes_ok d) True out -> 0 <= max_in -> d_inv (st w) ->
    wp (usb_control setup out max_in) E w (fun r w' => d_inv (st w') /\
      len r.2 <= max_in /\ bytes_ok r.2 /\ r.1 <= 1024 /\ (out = None -> 0 < max_in -> 0 <= r.1 -> len r.2 = r.1));
  usb_send_blocking_ok buf w : bytes_ok buf -> d_inv (st w) ->
    wp (usb_send_blocking buf) E w (fun _ w' => d_inv (st w'));
  usb_control_calls setup out max_in : only_calls non_socket (usb_control setup out max_in);
  usb_send_blocking_calls buf : only_calls non_socket (usb_send_blocking buf);
}.

(** ** Session state *)

Record device_session_cfg_t := {
  cfg_device_id : Z;
  cfg_speed : Z;
  cfg_usb_class : Z;
  cfg_subclass : Z;
  cfg_protocol : Z;
  cfg_usbip_mode : bool;
}.

Definition cfg_ok (c : device_session_cfg_t) : Prop :=
  is_u8 (cfg_device_id c) /\ is_u8 (cfg_speed c) /\ is_u8 (cfg_usb_class c) /\
  is_u8 (cfg_subclass c) /\ is_u8 (cfg_protocol c).

Definition REASM_MAX_FRAGS : Z := 8.
Definition REASM_FRAG_LEN : Z := 1536.
Definition SESSION_MAX_ID : Z := 5.

Record reasm_state_t := Reasm {
  r_active : bool;
  r_transfer_seq : Z;
  r_total : Z;
  r_received : Z;
  r_have : list bool;
  r_data : list bytes;
  r_lens : list Z;
}.

(** [memset (r, 0, sizeof *r)]. *)
Definition reasm_zero : reasm_state_t :=
  Reasm false 0 0 0 (replicate (Z.to_nat REASM_MAX_FRAGS) false)
    (replicate (Z.to_nat REASM_MAX_FRAGS) (zeros REASM_FRAG_LEN))
    (zeros REASM_MAX_FRAGS).

Record session_t := Session {
  s_cfg : device_session_cfg_t;
  s_sock : Z;
  s_daemon_ip : Z;
  s_seq : Z;
  s_out_transfer_seq : Z;
  s_reasm : reasm_state_t;
}.

Definition set_sock (v : Z) (s : session_t) : session_t :=
  Session (s_cfg s) v (s_daemon_ip s) (s_seq s) (s_out_transfer_seq s) (s_reasm s).
Definition set_daemon_ip (v : Z) (s : session_t) : session_t :=
  Session (s_cfg s) (s_sock s) v (s_seq s) (s_out_transfer_seq s) (s_reasm s).
Definition set_seq (v : Z) (s : session_t) : session_t :=
  Session (s_cfg s) (s_sock s) (s_daemon_ip s) v (s_out_transfer_seq s) (s_reasm s).
Definition set_out_transfer_seq (v : Z) (s : session_t) : session_t :=
  Session (s_cfg s) (s_sock s) (s_daemon_ip s) (s_seq s) v (s_reasm s).
Definition set_reasm (v : reasm_state_t) (s : session_t) : session_t :=
  Session (s_cfg s) (s_sock s) (s_daemon_ip s) (s_seq s) (s_out_transfer_seq s) v.

(** [s->seq++] on a [uint8_t]: the old value. *)
Definition next_seq : M session_t Z :=
  s ← get; modify (set_seq (u8 (s_seq s + 1))) ;; mret (s_seq s).

(** [s->out_transfer_seq++] on a [uint16_t]: the old value. *)
Definition next_transfer_seq : M session_t Z :=
  s ← get; modify (set_out_transfer_seq (u16 (s_out_transfer_seq s + 1))) ;;
  mret (s_out_transfer_seq s).

(** ** [send_raw] *)

Definition HDR : Z := sizeof Header.
Definition FHDR : Z := sizeof FragHeader.

(** The body of the fragment loop: fragment [i] of [total_frags]. *)
Definition send_frag (sock dev ip tseq total_frags : Z) (data : bytes) (i : Z) : M session_t unit :=
  let n := len data in
  let offset := i * MTU_PAYLOAD in
  let chunk_len := if offset + MTU_PAYLOAD <=? n then MTU_PAYLOAD else n - offset in
  seq ← next_seq;
  let hdr := mkHeader CMD_RAW_FRAG dev 0 seq (u16 (FHDR + chunk_len)) in
  let fhdr := mkFragHeader tseq (u8 i) (u8 total_frags) in
  let cap := HDR + FHDR + MTU_PAYLOAD in
  pkt ← checked (put_at cap [] 0 (encode hdr));
  pkt ← checked (put_at cap pkt HDR (encode fhdr));
  chunk ← checked (buf_read data offset chunk_len);
  pkt ← checked (put_at cap pkt (HDR + FHDR) chunk);
  call_ext (CSendto sock pkt ip DAEMON_PORT) ;; mret tt.

Definition send_raw (data : bytes) : M session_t unit :=
  s ← get;
  let sock := s_sock s in
  if sock <? 0 then mret tt else
  let dev := cfg_device_id (s_cfg s) in
  let ip := s_daemon_ip s in
  let n := len data in
  if n <=? MTU_PAYLOAD then
    seq ← next_seq;
    let hdr := mkHeader CMD_RAW_DATA dev 0 seq (u16 n) in
    pkt ← checked (put_at (HDR + MTU_PAYLOAD) [] 0 (encode hdr));
    pkt ← checked (put_at (HDR + MTU_PAYLOAD) pkt HDR data);
    call_ext (CSendto sock pkt ip DAEMON_PORT) ;; mret tt
  else
    let total_frags := u32 (n + MTU_PAYLOAD - 1) / MTU_PAYLOAD in
    tseq ← next_transfer_seq;
    if 255 <? total_frags then mret tt
    else for_range (Z.to_nat total_frags) 0 (send_frag sock dev ip tseq total_frags data).

(** ** What goes on the wire *)

(** The CMD_RAW_DATA datagram of a frame that fits. *)
Definition raw_packet (dev seq : Z) (data : bytes) : bytes :=
  encode (mkHeader CMD_RAW_DATA dev 0 seq (len data)) ++ data.

(** Fragment [i] of a frame: bytes [1400 i .. 1400 i + 1399]. *)
Definition nth_chunk (data : bytes) (i : nat) : bytes :=
  take (Z.to_nat MTU_PAYLOAD) (drop (Z.to_nat MTU_PAYLOAD * i) data).

Definition frag_packet (dev seq tseq total : Z) (data : bytes) (i : nat) : bytes :=
  let chunk := nth_chunk data i in
  encode (mkHeader CMD_RAW_FRAG dev 0 seq (FHDR + len chunk)) ++
  encode (mkFragHeader tseq (Z.of_nat i) total) ++ chunk.

(** Number of fragments of a frame. *)
Definition n_frags (data : bytes) : nat := (length data + 1399) / 1400.

Definition frag_packets (dev seq tseq : Z) (data : bytes) : list bytes :=
  (fun i => frag_packet dev (u8 (seq + Z.of_nat i)) tseq (Z.of_nat (n_frags data)) data i)
    <$> List.seq 0 (n_frags data).

(** The datagrams a frame becomes, on every branch. *)
Definition raw_datagrams (s : session_t) (data : bytes) : list bytes :=
  if s_sock s <? 0 then []
  else if len data <=? MTU_PAYLOAD then [raw_packet (cfg_device_id (s_cfg s)) (s_seq s) data]
  else if 255 <? Z.of_nat (n_frags data) then []
  else frag_packets (cfg_device_id (s_cfg s)) (s_seq s) (s_out_transfer_seq s) data.

(** The counters after the frame: one sequence number per datagram, and one
    transfer number per frame over the MTU, sent or dropped. *)
Definition raw_advance (s : session_t) (data : bytes) : session_t :=
  if s_sock s <? 0 then s
  else if len data <=? MTU_PAYLOAD then set_seq (u8 (s_seq s + 1)) s
  else set_seq (u8 (s_seq s + Z.of_nat (length (raw_datagrams s data))))
         (set_out_transfer_seq (u16 (s_out_transfer_seq s + 1)) s).

(** A C object is smaller than half the 32-bit address space. *)
Abbreviation is_object data := (len data < 2 ^ 31).

(** ** Facts about fragments *)

Lemma n_frags_bounds data :
  (length data <= 1400 * n_frags data < length data + 1400)%nat.
Proof.
  unfold n_frags. pose proof (Nat.div_mod_eq (length data + 1399) 1400).
  pose proof (Nat.mod_upper_bound (length data + 1399) 1400). lia.
Qed.

(** The fragments of a frame, put back together, are the frame. *)
Lemma join_chunks data : mjoin (nth_chunk data <$> List.seq 0 (n_frags data)) = data.
Proof.
  unfold nth_chunk. rewrite chunks_prefix. apply take_ge. pose proof (n_frags_bounds data).
  change (Z.to_nat MTU_PAYLOAD) with 1400%nat. lia.
Qed.

Lemma nth_chunk_length data i : (length (nth_chunk data i) <= 1400)%nat.
Proof. unfold nth_chunk. rewrite length_take. change (Z.to_nat MTU_PAYLOAD) with 1400%nat. lia. Qed.

Lemma total_frags_eq data :
  is_object data -> u32 (len data + MTU_PAYLOAD - 1) / MTU_PAYLOAD = Z.of_nat (n_frags data).
Proof.
  intros Ho. unfold n_frags, MTU_PAYLOAD. rewrite u32_id by solve_width.
  rewrite Nat2Z.inj_div, Nat2Z.inj_add. f_equal. lia.
Qed.

(** The chunk the loop body copies is the [i]-th slice of the frame. *)
Lemma frag_slice data (i : nat) :
  (i < n_frags data)%nat ->
  buf_read data (Z.of_nat i * MTU_PAYLOAD)
    (if Z.of_nat i * MTU_PAYLOAD + MTU_PAYLOAD <=? len data then MTU_PAYLOAD
     else len data - Z.of_nat i * MTU_PAYLOAD) = Some (nth_chunk data i).
Proof.
  intros Hi. pose proof (n_frags_bounds data) as Hb. unfold nth_chunk, MTU_PAYLOAD.
  change (Z.to_nat 1400) with 1400%nat.
  replace (Z.to_nat (Z.of_nat i * 1400)) with (1400 * i)%nat by lia.
  destruct (Z.leb_spec (Z.of_nat i * 1400 + 1400) (len data)).
  - rewrite buf_read_Some by lia. by replace (Z.to_nat (Z.of_nat i * 1400)) with (1400 * i)%nat by lia.
  - rewrite buf_read_Some by lia. replace (Z.to_nat (Z.of_nat i * 1400)) with (1400 * i)%nat by lia.
    f_equal. rewrite !(take_ge); [done|rewrite length_drop; lia|rewrite length_drop; lia].
Qed.

(** ** Correctness of [send_raw] *)

Section SendRaw.
Context (E : env).
Implicit Types (w : world session_t).

Lemma wp_next_seq w (Q : Z -> world session_t -> Prop) :
  Q (s_seq (st w)) (World (set_seq (u8 (s_seq (st w) + 1)) (st w)) (tr w)) -> wp next_seq E w Q.
Proof. done. Qed.

Lemma wp_next_transfer_seq w (Q : Z -> world session_t -> Prop) :
  Q (s_out_transfer_seq (st w))
    (World (set_out_transfer_seq (u16 (s_out_transfer_seq (st w) + 1)) (st w)) (tr w)) ->
  wp next_transfer_seq E w Q.
Proof. done. Qed.

Lemma send_frag_wp sock dev ip tseq data (i : nat) w :
  (i < n_frags data)%nat -> (n_frags data <= 255)%nat ->
  wp (send_frag sock dev ip tseq (Z.of_nat (n_frags data)) data (Z.of_nat i)) E w (fun _ w' =>
    st w' = set_seq (u8 (s_seq (st w) + 1)) (st w) /\
    calls (tr w') = calls (tr w) ++
      [CSendto sock (frag_packet dev (s_seq (st w)) tseq (Z.of_nat (n_frags data)) data i) ip DAEMON_PORT]).
Proof.
  intros Hi Hn. unfold send_frag. pose proof (frag_slice data i Hi) as Hsl.
  pose proof (nth_chunk_length data i). pose proof (buf_read_length _ _ _ _ Hsl) as Hl.
  apply wp_bind, wp_next_seq. rewrite !u8_id by solve_width. rewrite <- Hl.
  rewrite (u16_id (FHDR + _)) by (unfold FHDR; cbn; solve_width).
  apply wp_bind, wp_put_at; [done|by rewrite encode_size|].
  apply wp_bind, wp_put_at; [by rewrite app_nil_l, encode_size|by rewrite encode_size|].
  apply wp_bind. eapply wp_checked; [by rewrite Hl|].
  apply wp_bind, wp_put_at.
  { rewrite app_nil_l, length_app, Nat2Z.inj_add, !encode_size. done. }
  { unfold HDR, FHDR, MTU_PAYLOAD. lia. }
  repeat wp_step. split; [done|]. rewrite fmap_app. cbn -[encode]. by rewrite <- app_assoc.
Qed.

(** A frame that needs fragmenting goes out as its fragments, in order, with
    consecutive sequence numbers and one transfer number. *)
Lemma send_raw_frags_wp data w :
  is_object data -> 0 <= s_sock (st w) -> MTU_PAYLOAD < len data -> (n_frags data <= 255)%nat ->
  is_u8 (s_seq (st w)) ->
  wp (send_raw data) E w (fun _ w' =>
    let s := st w in
    st w' = set_seq (u8 (s_seq s + Z.of_nat (n_frags data)))
              (set_out_transfer_seq (u16 (s_out_transfer_seq s + 1)) s) /\
    calls (tr w') = calls (tr w) ++
      ((fun p => CSendto (s_sock s) p (s_daemon_ip s) DAEMON_PORT) <$>
        frag_packets (cfg_device_id (s_cfg s)) (s_seq s) (s_out_transfer_seq s) data)).
Proof.
  intros Ho Hsock Hlen Hn Hseq. unfold send_raw. apply wp_bind, wp_get.
  destruct (Z.ltb_spec (s_sock (st w)) 0); [lia|]. destruct (Z.leb_spec (len data) MTU_PAYLOAD); [lia|].
  apply wp_bind, wp_next_transfer_seq. rewrite total_frags_eq by done.
  destruct (Z.ltb_spec 255 (Z.of_nat (n_frags data))); [lia|]. rewrite Nat2Z.id. cbn [st tr].
  set (s := st w). set (s1 := set_out_transfer_seq _ _).
  apply (wp_for_range _ _ _ _ (fun i w' =>
    0 <= i /\ st w' = set_seq (u8 (s_seq s + i)) s1 /\
    calls (tr w') = calls (tr w) ++ ((fun p => CSendto (s_sock s) p (s_daemon_ip s) DAEMON_PORT) <$>
      ((fun i => frag_packet (cfg_device_id (s_cfg s)) (u8 (s_seq s + Z.of_nat i)) (s_out_transfer_seq s)
                   (Z.of_nat (n_frags data)) data i) <$> List.seq 0 (Z.to_nat i))))).
  - cbn. rewrite app_nil_r, Z.add_0_r, u8_id by done. done.
  - intros i w' Hi (Hi0 & Hst & Htr). rewrite <- (Z2Nat.id i) at 1 by lia.
    eapply wp_mono; [|apply send_frag_wp; lia].
    intros [] w'' [-> ->]. rewrite Hst, Htr. cbn [s_seq set_seq].
    split; [lia|]. split; [by rewrite u8_add_l, <- Z.add_assoc|].
    rewrite Z2Nat.inj_add, Nat.add_1_r, seq_S, !fmap_app, <- app_assoc by lia. cbn -[frag_packet].
    do 3 f_equal. rewrite Z2Nat.id by lia. done.
  - intros w' (_ & Hst & Htr). rewrite Z.add_0_l in *. rewrite Nat2Z.id in *. by split.
Qed.

Lemma send_raw_single_wp data w :
  0 <= s_sock (st w) -> len data <= MTU_PAYLOAD ->
  wp (send_raw data) E w (fun _ w' =>
    let s := st w in
    st w' = set_seq (u8 (s_seq s + 1)) s /\
    calls (tr w') = calls (tr w) ++
      [CSendto (s_sock s) (raw_packet (cfg_device_id (s_cfg s)) (s_seq s) data) (s_daemon_ip s) DAEMON_PORT]).
Proof.
  intros Hsock Hlen. unfold send_raw. apply wp_bind, wp_get.
  destruct (Z.ltb_spec (s_sock (st w)) 0); [lia|]. destruct (Z.leb_spec (len data) MTU_PAYLOAD); [|lia].
  unfold MTU_PAYLOAD in *. apply wp_bind, wp_next_seq. rewrite u16_id by solve_width.
  apply wp_bind, wp_put_at; [done|by rewrite encode_size|].
  apply wp_bind, wp_put_at; [by rewrite app_nil_l, encode_size|unfold HDR; lia|].
  repeat wp_step. split; [done|]. by rewrite fmap_app.
Qed.

Lemma send_raw_wp data w :
  is_object data -> is_u8 (s_seq (st w)) ->
  wp (send_raw data) E w (fun _ w' =>
    st w' = raw_advance (st w) data /\
    calls (tr w') = calls (tr w) ++
      ((fun p => CSendto (s_sock (st w)) p (s_daemon_ip (st w)) DAEMON_PORT) <$> raw_datagrams (st w) data)).
Proof.
  intros Ho Hseq. unfold raw_advance, raw_datagrams.
  destruct (Z.ltb_spec (s_sock (st w)) 0) as [Hs|Hs].
  { unfold send_raw. apply wp_bind, wp_get. destruct (Z.ltb_spec (s_sock (st w)) 0); [|lia].
    apply wp_ret. by rewrite app_nil_r. }
  destruct (Z.leb_spec (len data) MTU_PAYLOAD) as [Hl|Hl].
  { eapply wp_mono; [|by apply send_raw_single_wp]. by intros [] w' [-> ->]. }
  destruct (Z.ltb_spec 255 (Z.of_nat (n_frags data))) as [Hn|Hn].
  - unfold send_raw. apply wp_bind, wp_get. destruct (Z.ltb_spec (s_sock (st w)) 0); [lia|].
    destruct (Z.leb_spec (len data) MTU_PAYLOAD); [lia|]. apply wp_bind, wp_next_transfer_seq.
    rewrite total_frags_eq by done. destruct (Z.ltb_spec 255 (Z.of_nat (n_frags data))); [|lia].
    apply wp_ret. cbn. rewrite app_nil_r, Z.add_0_r, u8_id by done. by destruct (st w).
  - eapply wp_mono; [|apply send_raw_frags_wp; done || lia]. intros [] w' [-> ->]. split; [|done].
    unfold frag_packets. by rewrite length_fmap, length_seq.
Qed.

(** C2: [send_raw] does exactly what the datagram specification says, for every frame and
    every environment, with no undefined behaviour: nothing on an inactive socket, one
    CMD_RAW_DATA datagram up to 1400 bytes, the CMD_RAW_FRAG fragments in order above
    that, nothing when more than 255 fragments would be needed; the sequence numbers
    advance accordingly. *)
Theorem send_raw_refines data w :
  is_object data -> is_u8 (s_seq (st w)) ->
  exists w', send_raw data E w = Some (tt, w') /\
    st w' = raw_advance (st w) data /\
    calls (tr w') = calls (tr w) ++
      ((fun p => CSendto (s_sock (st w)) p (s_daemon_ip (st w)) DAEMON_PORT) <$> raw_datagrams (st w) data).
Proof.
  intros Ho Hs. destruct (wp_run _ _ _ _ (send_raw_wp data w Ho Hs)) as ([] & w' & Hr & HQ). eauto.
Qed.
End SendRaw.

(** A session for the examples: device 0, socket 5, an environment where every call succeeds. *)
Definition demo_cfg : device_session_cfg_t :=
  {| cfg_device_id := DEVICE_ID_USB0; cfg_speed := USB_SPEED_FULL; cfg_usb_class := 0;
     cfg_subclass := 0; cfg_protocol := 0; cfg_usbip_mode := true |}.
Definition demo_session : session_t := Session demo_cfg 5 0x0100007F 7 3 reasm_zero.
Definition demo_env : env := fun _ _ => Reply 0 [] 0 [].

Lemma send_raw_refines_witness :
  exists w', send_raw (replicate 1500 9) demo_env (World demo_session []) = Some (tt, w') /\
    length (calls (tr w')) = 2%nat.
Proof.
  destruct (send_raw_refines demo_env (replicate 1500 9) (World demo_session [])) as (w' & Hr & _ & Ht).
  - by vm_compute.
  - by vm_compute.
  - exists w'. split; [exact Hr|]. rewrite Ht. by vm_compute.
Defined.

(** ** Framing of the datagrams *)

Lemma n_frags_small data : Z.of_nat (n_frags data) <= 255 -> len data <= 357000.
Proof. pose proof (n_frags_bounds data). lia. Qed.

Lemma frag_packet_decode dev seq tseq total data i :
  is_u8 dev -> is_u8 seq -> is_u16 tseq -> is_u8 total -> (Z.of_nat i <= 255) ->
  let p := frag_packet dev seq tseq total data i in
  decode p = Some (mkHeader CMD_RAW_FRAG dev 0 seq (FHDR + len (nth_chunk data i))) /\
  decode (drop 6 p) = Some (mkFragHeader tseq (Z.of_nat i) total) /\
  drop 10 p = nth_chunk data i.
Proof.
  intros. pose proof (nth_chunk_length data i). unfold p, frag_packet. split; [|split].
  - apply decode_encode. unfold wf, header_wire, header_wf, FHDR, CMD_RAW_FRAG. cbn. repeat split; solve_width.
  - apply (decode_encode (A := FragHeader) (mkFragHeader tseq (Z.of_nat i) total) (nth_chunk data i)).
    unfold wf, frag_wire, frag_wf. cbn. repeat split; solve_width.
  - done.
Qed.

(** A datagram whose header the receiver decodes: it names the device, and its
    payload_len is the number of bytes that follow it. *)
Definition framed (dev : Z) (p : bytes) : Prop :=
  exists h, decode p = Some h /\ h_device_id h = dev /\
    len p = HDR + h_payload_len h /\ len p <= HDR + FHDR + MTU_PAYLOAD /\
    (h_cmd_type h = CMD_RAW_DATA \/ h_cmd_type h = CMD_RAW_FRAG).

Lemma raw_datagrams_framed s data p :
  cfg_ok (s_cfg s) -> is_u8 (s_seq s) -> is_u16 (s_out_transfer_seq s) -> p ∈ raw_datagrams s data ->
  framed (cfg_device_id (s_cfg s)) p.
Proof.
  intros (Hdev & _) Hseq Hts. unfold framed, raw_datagrams, MTU_PAYLOAD, HDR, FHDR.
  destruct (s_sock s <? 0); [by intros ?%not_elem_of_nil|].
  destruct (Z.leb_spec (len data) 1400) as [Hl|Hl].
  - intros ->%list_elem_of_singleton. unfold raw_packet. eexists. split.
    { apply decode_encode. unfold wf, header_wire, header_wf, CMD_RAW_DATA. cbn. repeat split; solve_width. }
    rewrite length_app, Nat2Z.inj_add, encode_size. cbn. split; [done|]. split; [lia|]. split; [lia|by left].
  - destruct (Z.ltb_spec 255 (Z.of_nat (n_frags data))) as [|Hn]; [by intros ?%not_elem_of_nil|].
    intros (i & -> & Hi%elem_of_seq)%list_elem_of_fmap. eexists.
    split; [apply frag_packet_decode; auto with hub; solve_width|].
    pose proof (nth_chunk_length data i). unfold frag_packet, FHDR.
    rewrite !length_app, !Nat2Z.inj_add, !encode_size. cbn. split; [done|]. split; [lia|]. split; [lia|by right].
Qed.

(** C18: whatever [send_raw] is given, the only calls it makes are [sendto] to the daemon, and every
    datagram of a well-formed session starts with a header that the receiver decodes: it names
    this device, its payload_len is the number of bytes that follow it, and the datagram fits the
    1410-byte packet buffer of the sender. *)
Theorem send_raw_framed E data w :
  is_object data -> cfg_ok (s_cfg (st w)) -> is_u8 (s_seq (st w)) -> is_u16 (s_out_transfer_seq (st w)) ->
  exists w' ps, send_raw data E w = Some (tt, w') /\
    calls (tr w') = calls (tr w) ++ ((fun p => CSendto (s_sock (st w)) p (s_daemon_ip (st w)) DAEMON_PORT) <$> ps) /\
    Forall (framed (cfg_device_id (s_cfg (st w)))) ps.
Proof.
  intros Ho Hc Hs Ht. destruct (wp_run _ _ _ _ (send_raw_wp E data w Ho Hs)) as ([] & w' & Hr & _ & Hcalls).
  exists w', (raw_datagrams (st w) data). split_and!; [done|done|].
  apply Forall_forall. intros p Hp. by eapply raw_datagrams_framed.
Qed.

Lemma send_raw_framed_witness :
  exists w' ps, send_raw (replicate 3 9) demo_env (World demo_session []) = Some (tt, w') /\
    calls (tr w') = (fun p => CSendto 5 p 0x0100007F DAEMON_PORT) <$> ps /\ Forall (framed 0) ps.
Proof.
  destruct (send_raw_framed demo_env (replicate 3 9) (World demo_session [])) as (w' & ps & Hr & Hc & Hf).
  - by vm_compute.
  - by repeat split.
  - by split.
  - by split.
  - exists w', ps. split; [exact Hr|]. split; [exact Hc|exact Hf].
Defined.
