(* ===== verification/Reasm.v ===== *)
(** * Reassembly of fragmented transfers (esp-codes/main/device_session.c, [reasm_push])

    The receiver keeps one slot: eight fragment buffers of 1536 bytes, which of
    them are filled, and the transfer number they belong to.  A fragment of
    another transfer, or of any transfer when none is active, resets the slot.
    When as many fragments as the first one announced have arrived, the buffers
    are handed to the driver in index order, one [ops->send] each. *)

From S2P Require Import Prelude Effects Protocol Session.

(** ** The code *)

Definition set_active (b : bool) (r : reasm_state_t) : reasm_state_t :=
  Reasm b (r_transfer_seq r) (r_total r) (r_received r) (r_have r) (r_data r) (r_lens r).

(** New transfer or transfer_seq mismatch: reset. *)
Definition reasm_prepare (r : reasm_state_t) (tseq total : Z) : reasm_state_t :=
  if negb (r_active r) || negb (r_transfer_seq r =? tseq)
  then let z := reasm_zero in Reasm true tseq total (r_received z) (r_have z) (r_data z) (r_lens z)
  else r.

(** Keep the fragment unless it is already there. *)
Definition reasm_store (r : reasm_state_t) (idx : Z) (chunk : bytes) (chunk_len : Z) : option reasm_state_t :=
  h ← arr_get (r_have r) idx;
  if (h : bool) then Some r else
  let copy_len := if chunk_len <? REASM_FRAG_LEN then chunk_len else REASM_FRAG_LEN in
  src ← buf_read chunk 0 copy_len;
  slot ← arr_get (r_data r) idx;
  slot ← buf_write slot 0 src;
  data ← arr_set (r_data r) idx slot;
  lens ← arr_set (r_lens r) idx (u16 copy_len);
  have ← arr_set (r_have r) idx true;
  Some (Reasm (r_active r) (r_transfer_seq r) (r_total r) (u8 (r_received r + 1)) have data lens).

Section Code.
Context {D : Type} `{DeviceOps D}.

(** [for (i = 0; i < r->total; i++) if (!ops->send (...)) break;] *)
Fixpoint reasm_flush (n : nat) (i : Z) (r : reasm_state_t) : M D unit :=
  match n with
  | O => mret tt
  | S n' =>
      slot ← checked (arr_get (r_data r) i);
      l ← checked (arr_get (r_lens r) i);
      buf ← checked (buf_read slot 0 l);
      ok ← ops_send buf;
      if (ok : bool) then reasm_flush n' (i + 1) r else mret tt
  end.

Definition reasm_push (r : reasm_state_t) (tseq idx total : Z) (chunk : bytes) (chunk_len : Z)
    : M D (bool * reasm_state_t) :=
  if (total =? 0) || (total <=? idx) || (REASM_MAX_FRAGS <=? idx) then mret (false, r) else
  let chunk_len := if REASM_FRAG_LEN <? chunk_len then REASM_FRAG_LEN else chunk_len in
  let r := reasm_prepare r tseq total in
  r ← checked (reasm_store r idx chunk chunk_len);
  if r_received r <? r_total r then mret (false, r) else
  reasm_flush (Z.to_nat (r_total r)) 0 r ;; mret (true, set_active false r).

(** A sequence of fragments, as [session_down_task] pushes them one by one. *)
Fixpoint reasm_feed (r : reasm_state_t) (fs : list (FragHeader * bytes)) : M D reasm_state_t :=
  match fs with
  | [] => mret r
  | (f, chunk) :: fs' =>
      p ← reasm_push r (f_transfer_seq f) (f_frag_idx f) (f_frag_total f) chunk (len chunk);
      reasm_feed p.2 fs'
  end.

(** What the driver should be told: the chunks in order, stopping at the first failure. *)
Fixpoint send_all (cs : list bytes) : M D unit :=
  match cs with
  | [] => mret tt
  | c :: cs' => ok ← ops_send c; if (ok : bool) then send_all cs' else mret tt
  end.
End Code.

(** ** Counting filled slots *)

Fixpoint count_true (l : list bool) : nat :=
  match l with [] => 0 | b :: l' => (if b then 1 else 0) + count_true l' end.

Lemma count_true_length l : (count_true l <= length l)%nat.
Proof. induction l as [|[] l IH]; cbn; lia. Qed.

Lemma count_true_insert l i :
  l !! i = Some false -> count_true (<[i := true]> l) = S (count_true l).
Proof.
  revert i. induction l as [|b l IH]; intros [|i] Hi; cbn in *; try done.
  - by injection Hi as ->.
  - rewrite IH by done. destruct b; cbn; lia.
Qed.

(** If nothing is filled from position [n] on, at most [n] slots are filled,
    and exactly [n] only when the first [n] all are. *)
Lemma count_true_prefix l n :
  (forall i, (n <= i)%nat -> l !! i <> Some true) ->
  (count_true l <= n)%nat /\ (count_true l = n <-> forall i, (i < n)%nat -> l !! i = Some true).
Proof.
  revert n. induction l as [|b l IH]; intros n Hn.
  - cbn. split; [lia|]. split; [lia|]. intros Hi. destruct n; [done|]. specialize (Hi 0%nat ltac:(lia)). done.
  - destruct n as [|n].
    + assert (b = false) as -> by (specialize (Hn 0%nat ltac:(lia)); cbn in Hn; by destruct b).
      destruct (IH 0%nat) as [Hle _]; [intros i _; apply (Hn (S i)); lia|]. cbn. split; [lia|]. split; lia.
    + destruct (IH n) as [Hle Heq]; [intros i Hi; apply (Hn (S i)); lia|].
      cbn. destruct b; cbn; (split; [lia|]); split.
      * intros Hc [|i] Hi; [done|]. apply Heq; lia.
      * intros Hi. assert (count_true l = n) as ->; [|done]. apply Heq. intros i ?. apply (Hi (S i)). lia.
      * lia.
      * intros Hi. specialize (Hi 0%nat ltac:(lia)). done.
Qed.

(** ** Invariant of the slot *)

Record reasm_ok (r : reasm_state_t) : Prop := {
  ok_have : length (r_have r) = 8%nat;
  ok_data : length (r_data r) = 8%nat;
  ok_slots : Forall (fun b : bytes => len b = REASM_FRAG_LEN /\ bytes_ok b) (r_data r);
  ok_lens : length (r_lens r) = 8%nat;
  ok_len : Forall (fun l => 0 <= l <= REASM_FRAG_LEN) (r_lens r);
  ok_received : r_received r = Z.of_nat (count_true (r_have r));
}.

Lemma reasm_zero_ok : reasm_ok reasm_zero.
Proof.
  constructor; [done..| | | |].
  - apply Forall_replicate. split; [done|apply zeros_ok].
  - done.
  - apply Forall_replicate. done.
  - done.
Qed.

Lemma reasm_prepare_ok r tseq total : reasm_ok r -> reasm_ok (reasm_prepare r tseq total).
Proof.
  unfold reasm_prepare. destruct (_ || _); [|done]. intros _.
  pose proof reasm_zero_ok as []. by constructor.
Qed.

(** The store never leaves the arrays, keeps the invariant, and fills exactly slot [idx]. *)
Lemma reasm_store_spec r idx chunk clen :
  reasm_ok r -> 0 <= idx < REASM_MAX_FRAGS -> 0 <= clen <= REASM_FRAG_LEN -> clen <= len chunk -> bytes_ok chunk ->
  exists r', reasm_store r idx chunk clen = Some r' /\ reasm_ok r' /\
    r_active r' = r_active r /\ r_transfer_seq r' = r_transfer_seq r /\ r_total r' = r_total r /\
    r_have r' = <[Z.to_nat idx := true]> (r_have r) /\
    (r_have r !! Z.to_nat idx = Some true -> r' = r) /\
    (r_have r !! Z.to_nat idx = Some false ->
       (exists slot, arr_get (r_data r') idx = Some slot /\
          arr_get (r_lens r') idx = Some clen /\ buf_read slot 0 clen = Some (take (Z.to_nat clen) chunk)) /\
       forall j, j <> Z.to_nat idx -> r_data r' !! j = r_data r !! j /\ r_lens r' !! j = r_lens r !! j).
Proof.
  intros Hok Hi Hc Hcl Hb. destruct Hok as [Hh Hd Hs Hl Hlen Hr].
  unfold REASM_MAX_FRAGS, REASM_FRAG_LEN in *.
  destruct (arr_get_Some (r_have r) idx) as [h Hget]; [lia|].
  pose proof (arr_get_inv _ _ _ Hget) as [_ Hget'].
  unfold reasm_store. rewrite Hget. cbn [mbind option_bind]. destruct h.
  { exists r. split; [done|]. split; [done|]. do 3 (split; [done|]).
    split; [by rewrite list_insert_id|]. split; [done|]. by rewrite Hget'. }
  set (cl := if clen <? REASM_FRAG_LEN then clen else REASM_FRAG_LEN).
  assert (cl = clen) as -> by (unfold cl, REASM_FRAG_LEN; destruct (Z.ltb_spec clen 1536); lia).
  rewrite (buf_read_Some chunk 0 clen) by lia. cbn [mbind option_bind]. rewrite drop_0.
  destruct (arr_get_Some (r_data r) idx) as [slot Hslot]; [lia|]. rewrite Hslot. cbn [mbind option_bind].
  pose proof (arr_get_inv _ _ _ Hslot) as [_ Hslot'].
  destruct (Forall_lookup_1 _ _ _ _ Hs Hslot') as [Hsl Hsb].
  assert (len (take (Z.to_nat clen) chunk) = clen) as Htl by (rewrite length_take; lia).
  destruct (buf_write slot 0 (take (Z.to_nat clen) chunk)) as [slot'|] eqn:Hw;
    [|rewrite buf_write_Some in Hw by lia; done].
  cbn [mbind option_bind].
  rewrite (arr_set_Some (r_data r)) by lia. cbn [mbind option_bind].
  rewrite (arr_set_Some (r_lens r)) by lia. cbn [mbind option_bind].
  rewrite (arr_set_Some (r_have r)) by lia. cbn [mbind option_bind].
  rewrite (u16_id clen) by solve_width.
  eexists. split; [done|]. cbn [r_active r_transfer_seq r_total r_have r_data r_lens].
  split.
  { constructor; cbn; rewrite ?length_insert; try done.
    - apply Forall_insert; [done|]. split; [by rewrite (buf_write_length _ _ _ _ Hw)|].
      rewrite buf_write_Some in Hw by lia. injection Hw as <-.
      apply Forall_app_2; [by apply Forall_take|by apply Forall_drop].
    - by apply Forall_insert.
    - rewrite count_true_insert by done. pose proof (count_true_length (r_have r)).
      rewrite Hr, u8_id by solve_width. lia. }
  do 4 (split; [done|]). split; [by rewrite Hget'|]. intros _. split.
  - exists slot'. unfold arr_get. destruct (Z.leb_spec 0 idx); [|lia].
    rewrite !list_lookup_insert_eq by lia. split; [done|]. split; [done|].
    rewrite <- Htl at 1. apply (buf_read_write _ _ _ Hw).
  - intros j Hj. by rewrite !list_lookup_insert_ne.
Qed.

(** ** A driver for the examples: it keeps the frames it is given *)

#[global] Instance loopback_ops : DeviceOps (list bytes) := {|
  ops_init := mret true;
  ops_recv max := mret (-1, []);
  ops_send b := modify (fun l => l ++ [b]) ;; mret true |}.

#[global] Program Instance loopback_ok E : DeviceOpsOk (list bytes) E := {| d_inv _ := True |}.
Next Obligation. done. Qed.
Next Obligation. intros E max w Hm _. apply wp_ret. cbn. split_and!; [done|lia|lia|lia|constructor]. Qed.
Next Obligation. intros E buf. cbn. repeat only_step. Qed.
Next Obligation. intros E max. cbn. repeat only_step. Qed.

(** ** Safety *)

Section Safety.
Context {D : Type} `{DeviceOpsOk D E}.

Lemma reasm_flush_wp n i r w :
  reasm_ok r -> 0 <= i -> i + Z.of_nat n <= 8 -> d_inv (st w) ->
  wp (reasm_flush n i r) E w (fun _ w' => d_inv (st w')).
Proof.
  intros Hok. revert i w. induction n as [|n IH]; intros i w Hi Hn Hd; cbn [reasm_flush]; [by apply wp_ret|].
  destruct Hok as [Hh Hdl Hs Hl Hlen Hr].
  destruct (arr_get_Some (r_data r) i) as [slot Hslot]; [lia|].
  destruct (arr_get_Some (r_lens r) i) as [l Hll]; [lia|].
  pose proof (arr_get_inv _ _ _ Hslot) as [_ Hs']. pose proof (arr_get_inv _ _ _ Hll) as [_ Hl'].
  destruct (Forall_lookup_1 _ _ _ _ Hs Hs') as [Hsl Hsb]. pose proof (Forall_lookup_1 _ _ _ _ Hlen Hl') as Hlb.
  apply wp_bind. eapply wp_checked; [exact Hslot|]. apply wp_bind. eapply wp_checked; [exact Hll|].
  unfold REASM_FRAG_LEN in *. apply wp_bind. eapply wp_checked; [apply buf_read_Some; lia|].
  apply wp_bind. eapply wp_mono; [|apply ops_send_ok; [by apply Forall_take, Forall_drop|done]].
  intros [] w' Hd'; [|by apply wp_ret]. apply IH; [lia|lia|done].
Qed.

Lemma reasm_push_wp r tseq idx total chunk clen w :
  reasm_ok r -> is_u8 idx -> 0 <= clen <= len chunk -> bytes_ok chunk -> d_inv (st w) ->
  wp (reasm_push r tseq idx total chunk clen) E w (fun p w' => reasm_ok p.2 /\ d_inv (st w')).
Proof.
  intros Hok Hidx Hc Hb Hd. unfold reasm_push, is_u8 in *.
  destruct (_ || _) eqn:Hg; [by apply wp_ret|].
  apply orb_false_elim in Hg as [_ Hi%Z.leb_gt].
  set (cl := if REASM_FRAG_LEN <? clen then REASM_FRAG_LEN else clen).
  assert (0 <= cl <= REASM_FRAG_LEN /\ cl <= len chunk) as [Hcl Hcl'].
  { unfold cl, REASM_FRAG_LEN in *. destruct (Z.ltb_spec 1536 clen); lia. }
  destruct (reasm_store_spec (reasm_prepare r tseq total) idx chunk cl) as (r' & Hst & Hok' & _);
    [by apply reasm_prepare_ok|lia|lia|lia|done|].
  apply wp_bind. eapply wp_checked; [exact Hst|].
  destruct (Z.ltb_spec (r_received r') (r_total r')) as [|Hfull]; [by apply wp_ret|].
  pose proof (count_true_length (r_have r')). destruct (Hok') as [Hh ? ? ? ? Hr].
  apply wp_bind. eapply wp_mono; [|apply reasm_flush_wp; [done|lia|lia|done]].
  intros [] w' Hd'. apply wp_ret. split; [|done]. by constructor.
Qed.
End Safety.

(** C17: no fragment, whatever its transfer number, index, total and length fields claim, makes
    [reasm_push] touch memory outside the eight 1536-byte buffers or the received chunk; the
    call returns and the slot's invariant holds again (the number of fragments counted is the
    number of slots marked filled, every stored length fits its buffer). *)
Theorem reasm_push_safe {D : Type} {ops : DeviceOps D} (E : env) (ok : DeviceOpsOk D E)
    r tseq idx total chunk clen (w : world D) :
  reasm_ok r -> is_u8 idx -> 0 <= clen <= len chunk -> bytes_ok chunk -> d_inv (st w) ->
  exists done r' w', reasm_push r tseq idx total chunk clen E w = Some ((done, r'), w') /\
    reasm_ok r' /\ d_inv (st w').
Proof.
  intros Hok Hi Hc Hb Hd. destruct (wp_run _ _ _ _ (reasm_push_wp r tseq idx total chunk clen w Hok Hi Hc Hb Hd))
    as ([b r'] & w' & Hr & ? & ?). eauto 6.
Qed.

Lemma reasm_push_safe_witness :
  exists done r' w', reasm_push reasm_zero 7 2 3 [1; 2; 3] 3 demo_env (World [] []) = Some ((done, r'), w')
    /\ reasm_ok r'.
Proof.
  destruct (reasm_push_safe demo_env _ reasm_zero 7 2 3 [1; 2; 3] 3 (World [] [])) as (d & r' & w' & Hr & Hok & _).
  - exact reasm_zero_ok.
  - by split.
  - done.
  - solve_bytes.
  - exact I.
  - exists d, r', w'. done.
Defined.

(** ** Reassembly of a whole transfer *)

Definition frag_of (tseq : Z) (data : bytes) (i : nat) : FragHeader * bytes :=
  (mkFragHeader tseq (Z.of_nat i) (Z.of_nat (n_frags data)), nth_chunk data i).

(** The slot holds exactly those fragments of the transfer whose [have] bit is set. *)
Record holding (tseq : Z) (data : bytes) (have : list bool) (r : reasm_state_t) : Prop := {
  hold_ok : reasm_ok r;
  hold_active : r_active r = true;
  hold_seq : r_transfer_seq r = tseq;
  hold_total : r_total r = Z.of_nat (n_frags data);
  hold_have : r_have r = have;
  hold_low : forall i, (n_frags data <= i)%nat -> have !! i <> Some true;
  hold_chunk : forall i, have !! i = Some true -> exists slot,
    arr_get (r_data r) (Z.of_nat i) = Some slot /\
    arr_get (r_lens r) (Z.of_nat i) = Some (len (nth_chunk data i)) /\
    buf_read slot 0 (len (nth_chunk data i)) = Some (nth_chunk data i);
}.

Lemma marks_lookup js (have : list bool) j :
  (j < length have)%nat -> have !! j = Some true \/ j ∈ js ->
  foldl (fun h i => <[i := true]> h) have js !! j = Some true.
Proof.
  revert have. induction js as [|i js IH]; intros have Hl Hj; cbn.
  - destruct Hj as [|[]%not_elem_of_nil]; done.
  - apply IH; [by rewrite length_insert|]. destruct (decide (i = j)) as [->|].
    + left. by apply list_lookup_insert_eq.
    + rewrite list_lookup_insert_ne by done. destruct Hj as [|Hj]; [by left|right]. set_solver.
Qed.

Lemma feed_app {D : Type} `{DeviceOps D} (E : env) r fs1 fs2 (w w' : world D) r1 :
  reasm_feed r fs1 E w = Some (r1, w') -> reasm_feed r (fs1 ++ fs2) E w = reasm_feed r1 fs2 E w'.
Proof.
  revert r w. induction fs1 as [|[f c] fs1 IH]; intros r w Hf; cbn in *; [by injection Hf as -> ->|].
  unfold mbind, M_bind in *. destruct (reasm_push _ _ _ _ _ _ E w) as [[p w1]|]; [|done]. by apply IH.
Qed.

Section Transfer.
Context (tseq : Z) (data : bytes).
Hypothesis Hdata : bytes_ok data.
Hypothesis Hfew : (1 <= n_frags data <= 8)%nat.

Lemma holding_fresh r :
  r_active r = false \/ r_transfer_seq r <> tseq ->
  holding tseq data (replicate 8 false) (reasm_prepare r tseq (Z.of_nat (n_frags data))).
Proof.
  intros Hr. unfold reasm_prepare.
  assert (negb (r_active r) || negb (r_transfer_seq r =? tseq) = true) as ->.
  { destruct Hr as [->|Hne]; [done|]. destruct (Z.eqb_spec (r_transfer_seq r) tseq); [done|]. apply orb_true_r. }
  pose proof reasm_zero_ok as []. constructor; [by constructor|done..| |].
  - intros i _ [? _]%lookup_replicate. done.
  - intros i [? _]%lookup_replicate. done.
Qed.

Lemma holding_prepare have r :
  holding tseq data have r -> reasm_prepare r tseq (Z.of_nat (n_frags data)) = r.
Proof. intros [? Ha Hs]. unfold reasm_prepare. by rewrite Ha, Hs, Z.eqb_refl. Qed.

(** Storing a fragment of the transfer sets its bit and nothing else. *)
Lemma holding_store have r i :
  holding tseq data have r -> (i < n_frags data)%nat ->
  exists r', reasm_store r (Z.of_nat i) (nth_chunk data i) (len (nth_chunk data i)) = Some r' /\
    holding tseq data (<[i := true]> have) r'.
Proof.
  intros Hh Hi. pose proof (nth_chunk_length data i) as Hcl.
  destruct Hh as [Hok Ha Hs Ht Hhave Hlow Hchunk].
  destruct (reasm_store_spec r (Z.of_nat i) (nth_chunk data i) (len (nth_chunk data i)))
    as (r' & Hst & Hok' & Ha' & Hs' & Ht' & Hhv & Hdup & Hnew);
    [done|unfold REASM_MAX_FRAGS; lia|unfold REASM_FRAG_LEN; lia|lia|by apply Forall_take, Forall_drop|].
  exists r'. split; [done|]. rewrite Nat2Z.id in *. subst have.
  assert (i < length (r_have r))%nat as Hil by (rewrite (ok_have _ Hok); lia).
  constructor; try congruence.
  - intros j Hj. rewrite list_lookup_insert_ne by lia. by apply Hlow.
  - intros j Hj. destruct (lookup_lt_is_Some_2 _ _ Hil) as [[] Hb].
    { rewrite (Hdup Hb). rewrite list_insert_id in Hj by done. by apply Hchunk. }
    destruct (Hnew Hb) as [(slot & ? & ? & Hrd) Hother]. destruct (decide (i = j)) as [<-|Hij].
    + exists slot. split; [done|]. split; [done|]. rewrite Hrd. f_equal. apply take_ge. lia.
    + rewrite list_lookup_insert_ne in Hj by done. destruct (Hchunk j Hj) as (slot' & Hg1 & Hg2 & ?).
      destruct (Hother j ltac:(done)) as [Hd1 Hd2]. exists slot'.
      unfold arr_get in *. rewrite Nat2Z.id in *. rewrite Hd1, Hd2. done.
Qed.

Context {D : Type} `{DeviceOps D} (E : env).

(** With every fragment in place, the flush is [send_all] of the chunks. *)
Lemma flush_send_all r have n k (w : world D) :
  holding tseq data have r -> (forall i, (i < n_frags data)%nat -> have !! i = Some true) ->
  (k + n <= n_frags data)%nat ->
  reasm_flush n (Z.of_nat k) r E w = send_all (nth_chunk data <$> List.seq k n) E w.
Proof.
  intros Hh Hall. revert k w. induction n as [|n IH]; intros k w Hk; [done|]. cbn [reasm_flush List.seq fmap list_fmap send_all].
  destruct (hold_chunk _ _ _ _ Hh k) as (slot & Hs & Hl & Hb); [apply Hall; lia|].
  rewrite Hs, Hl.
  unfold mbind at 1 2 3, M_bind at 1 2 3, checked. rewrite Hb.
  unfold mbind, M_bind. destruct (ops_send _ E w) as [[[] w']|]; [|done|done].
  replace (Z.of_nat k + 1) with (Z.of_nat (S k)) by lia. apply IH. lia.
Qed.

(** The guards of [reasm_push] let every fragment of the transfer through. *)
Lemma push_unfold r have i (w : world D) :
  holding tseq data have (reasm_prepare r tseq (Z.of_nat (n_frags data))) -> (i < n_frags data)%nat ->
  exists r', holding tseq data (<[i := true]> have) r' /\
    let f := frag_of tseq data i in
    reasm_push r (f_transfer_seq f.1) (f_frag_idx f.1) (f_frag_total f.1) f.2 (len f.2) E w =
    (if r_received r' <? r_total r' then mret (false, r')
     else reasm_flush (Z.to_nat (r_total r')) 0 r' ;; mret (true, set_active false r')) E w.
Proof.
  intros Hh Hi. destruct (holding_store have _ i Hh Hi) as (r' & Hst & Hh'). exists r'. split; [done|].
  unfold frag_of. cbn [fst snd f_transfer_seq f_frag_idx f_frag_total]. unfold reasm_push. pose proof (nth_chunk_length data i).
  assert ((Z.of_nat (n_frags data) =? 0) || (Z.of_nat (n_frags data) <=? Z.of_nat i)
          || (REASM_MAX_FRAGS <=? Z.of_nat i) = false) as ->.
  { unfold REASM_MAX_FRAGS. rewrite !orb_false_iff, Z.eqb_neq, !Z.leb_gt. lia. }
  assert ((REASM_FRAG_LEN <? len (nth_chunk data i)) = false) as ->.
  { unfold REASM_FRAG_LEN. apply Z.ltb_ge. lia. }
  erewrite mbind_some; [done|]. unfold checked. by rewrite Hst.
Qed.

Lemma holding_received r have : holding tseq data have r ->
  r_received r = Z.of_nat (count_true have) /\ r_total r = Z.of_nat (n_frags data).
Proof. intros [Hok _ _ Ht Hhave]. split; [|done]. by rewrite (ok_received _ Hok), Hhave. Qed.

Lemma push_partial r have i (w : world D) :
  holding tseq data have (reasm_prepare r tseq (Z.of_nat (n_frags data))) -> (i < n_frags data)%nat ->
  (exists j, (j < n_frags data)%nat /\ <[i := true]> have !! j <> Some true) ->
  let f := frag_of tseq data i in
  exists r', reasm_push r (f_transfer_seq f.1) (f_frag_idx f.1) (f_frag_total f.1) f.2 (len f.2) E w
    = Some ((false, r'), w) /\ holding tseq data (<[i := true]> have) r'.
Proof.
  intros Hh Hi (j & Hj & Hne). cbn zeta. destruct (push_unfold r have i w Hh Hi) as (r' & Hh' & ->).
  exists r'. split; [|done]. destruct (holding_received _ _ Hh') as [-> ->].
  destruct (count_true_prefix _ _ (hold_low _ _ _ _ Hh')) as [Hle Heq].
  destruct (Z.ltb_spec (Z.of_nat (count_true (<[i := true]> have))) (Z.of_nat (n_frags data))); [done|].
  destruct Hne. apply Heq; lia.
Qed.

Lemma push_final r have i (w : world D) :
  holding tseq data have (reasm_prepare r tseq (Z.of_nat (n_frags data))) -> (i < n_frags data)%nat ->
  (forall j, (j < n_frags data)%nat -> <[i := true]> have !! j = Some true) ->
  let f := frag_of tseq data i in
  exists r', reasm_ok r' /\ r_active r' = false /\
    reasm_push r (f_transfer_seq f.1) (f_frag_idx f.1) (f_frag_total f.1) f.2 (len f.2) E w
    = (send_all (nth_chunk data <$> List.seq 0 (n_frags data)) ;; mret (true, r')) E w.
Proof.
  intros Hh Hi Hall. cbn zeta. destruct (push_unfold r have i w Hh Hi) as (r' & Hh' & ->).
  exists (set_active false r'). destruct (hold_ok _ _ _ _ Hh') as []. split; [by constructor|]. split; [done|].
  destruct (holding_received _ _ Hh') as [-> ->].
  destruct (count_true_prefix _ _ (hold_low _ _ _ _ Hh')) as [_ Heq].
  rewrite (proj2 Heq Hall), Z.ltb_irrefl, Nat2Z.id.
  unfold mbind, M_bind. change 0 with (Z.of_nat 0). rewrite (flush_send_all _ _ _ 0 w Hh' Hall); [done|lia].
Qed.

(** While one fragment is missing, nothing reaches the driver. *)
Lemma feed_partial js r have k (w : world D) :
  holding tseq data have (reasm_prepare r tseq (Z.of_nat (n_frags data))) ->
  Forall (fun i => i < n_frags data)%nat js -> (k < n_frags data)%nat ->
  have !! k <> Some true -> k ∉ js ->
  exists r', reasm_feed r (frag_of tseq data <$> js) E w = Some (r', w) /\
    holding tseq data (foldl (fun h i => <[i := true]> h) have js)
      (reasm_prepare r' tseq (Z.of_nat (n_frags data))).
Proof.
  intros Hh Hjs Hk Hnk Hnj. revert r have Hh Hnk. induction js as [|i js IH]; intros r have Hh Hnk.
  { by exists r. }
  apply Forall_cons_1 in Hjs as [Hi Hjs].
  assert (i <> k) as Hik by set_solver.
  destruct (push_partial r have i w Hh Hi) as (r1 & Hp & Hh1).
  { exists k. split; [done|]. by rewrite list_lookup_insert_ne. }
  destruct (IH Hjs ltac:(set_solver) r1 (<[i := true]> have)) as (r' & Hf & Hh').
  { by rewrite (holding_prepare _ _ Hh1). }
  { by rewrite list_lookup_insert_ne. }
  exists r'. split; [|done]. cbn [fmap list_fmap reasm_feed]. unfold frag_of at 1.
  by rewrite (mbind_some _ _ _ _ _ _ Hp).
Qed.
End Transfer.

(** C9: fragments of one frame may arrive in any order and any number of times.  Starting from
    any slot that is idle or busy with another transfer, nothing reaches the driver until the
    last missing fragment [k] comes in, and then the driver is given exactly the chunks of the
    frame, in order, whose concatenation is the frame; the slot is idle again.  (A frame of up
    to eight fragments, the size of the slot.) *)
Theorem reasm_any_order {D : Type} {ops : DeviceOps D} (E : env) (w : world D) tseq data r js k :
  bytes_ok data -> (1 <= n_frags data <= 8)%nat -> reasm_ok r ->
  r_active r = false \/ r_transfer_seq r <> tseq ->
  Forall (fun i => i < n_frags data)%nat js -> (k < n_frags data)%nat -> k ∉ js ->
  (forall i, (i < n_frags data)%nat -> i = k \/ i ∈ js) ->
  mjoin (nth_chunk data <$> List.seq 0 (n_frags data)) = data /\
  (exists r1, reasm_feed r (frag_of tseq data <$> js) E w = Some (r1, w)) /\
  exists r', reasm_ok r' /\ r_active r' = false /\
    reasm_feed r (frag_of tseq data <$> (js ++ [k])) E w =
    (send_all (nth_chunk data <$> List.seq 0 (n_frags data)) ;; mret r') E w.
Proof.
  intros Hd Hn Hok Hr Hjs Hk Hkj Hall. split; [apply join_chunks|].
  destruct (feed_partial tseq data Hd Hn E js r (replicate 8 false) k w) as (r1 & Hf & Hh);
    [by apply holding_fresh|done|done|by intros [? _]%lookup_replicate|done|].
  split; [by exists r1|].
  destruct (push_final tseq data Hd Hn E r1 _ k w Hh Hk) as (r' & Hok' & Ha & Hp).
  { intros j Hj. destruct (decide (k = j)) as [->|Hkne].
    - apply list_lookup_insert_eq. rewrite <- (hold_have _ _ _ _ Hh), (ok_have _ (hold_ok _ _ _ _ Hh)). lia.
    - rewrite list_lookup_insert_ne by done. apply marks_lookup; [rewrite length_replicate; lia|].
      right. destruct (Hall j Hj); [by destruct Hkne|done]. }
  exists r'. split; [done|]. split; [done|]. rewrite fmap_app, (feed_app _ _ _ _ _ _ _ Hf).
  cbn [fmap list_fmap reasm_feed]. unfold frag_of at 1. unfold mbind at 1, M_bind at 1.
  cbn [frag_of fst snd f_transfer_seq f_frag_idx f_frag_total] in Hp |- *. rewrite Hp. unfold mbind, M_bind.
  by destruct (send_all _ E w) as [[[] w']|].
Qed.

(** Three fragments of a 2801-byte frame, the last one first and twice, the middle one at the end. *)
Lemma reasm_any_order_witness :
  exists r', r_active r' = false /\
    reasm_feed reasm_zero (frag_of 7 (replicate 2801 5) <$> ([2; 0; 2] ++ [1])%nat) demo_env (World [] []) =
    Some (r', World [replicate 1400 5; replicate 1400 5; [5]] []).
Proof.
  destruct (reasm_any_order demo_env (World [] []) 7 (replicate 2801 5) reasm_zero [2; 0; 2]%nat 1%nat)
    as (_ & _ & r' & _ & Ha & Hf).
  - apply Forall_replicate. solve_width.
  - vm_compute. lia.
  - apply reasm_zero_ok.
  - by left.
  - repeat (apply Forall_cons_2; [vm_compute; lia|]). constructor.
  - vm_compute. lia.
  - set_solver.
  - intros i Hi. change (n_frags (replicate 2801 5)) with 3%nat in Hi.
    destruct i as [|[|[|i]]]; [right; set_solver|by left|right; set_solver|lia].
  - exists r'. split; [exact Ha|]. rewrite Hf. vm_compute. reflexivity.
Defined.
