(* ===== verification/UsbDriver.v ===== *)
(** * USB host driver (esp-codes/main/usb_driver.[ch])

    The file's static variables are the record [usb_state]; the transfer
    callbacks, the client event callback and the entry points of the driver are
    its operations.  A task that waits for a queue or a semaphore is blocked at
    [CBlock]; the callbacks the library runs meanwhile are the events of the
    reply, and they run the driver's own callback code on the shared state. *)

From S2P Require Import Prelude Effects Rtos Session.

(** ** Constants *)

Definition ESP_OK : Z := 0.
Definition ESP_ERR_TIMEOUT : Z := 263.
Definition USB_TRANSFER_STATUS_COMPLETED : Z := 0.
Definition USB_TRANSFER_STATUS_NO_DEVICE : Z := 7.
Definition USB_BM_ATTRIBUTES_XFER_BULK : Z := 2.
Definition USB_BM_ATTRIBUTES_XFER_INT : Z := 3.
Definition USB_RX_QUEUE_DEPTH : Z := 8.
Definition USB_FRAME_MAX : Z := 512.
(** setup packet plus the largest data stage *)
Definition CTRL_BUF : Z := 8 + 1024.

(** ** State *)

(** [usb_frame_t]; only the initialised prefix of [data[512]] is kept. *)
Record usb_frame_t := Frame { fr_data : bytes; fr_len : Z }.

(** [usb_transfer_t]: endpoint, [num_bytes] and the data buffer. *)
Record xfer := Xfer { x_ep : Z; x_num_bytes : Z; x_buf : bytes }.

Definition x_set_num (n : Z) (x : xfer) : xfer := Xfer (x_ep x) n (x_buf x).
Definition x_set_buf (b : bytes) (x : xfer) : xfer := Xfer (x_ep x) (x_num_bytes x) b.

Section Driver.
Context {Q : Type -> Type} `{Queue Q}.

Record usb_state := UsbState {
  u_rx_queue : option (Q usb_frame_t);
  u_dev : option Z;
  u_in_xfer : option xfer;
  u_out_xfer : option xfer;
  u_ctrl_xfer : option xfer;
  u_in_ep : Z;
  u_out_ep : Z;
  u_in_mps : Z;
  u_out_mps : Z;
  u_intf_num : Z;
  u_hub_connected : bool;
  u_hub_dev : option Z;
  u_out_done : option (Q unit);
  u_ctrl_done : option (Q unit);
  u_out_status : Z;
  u_ctrl_status : Z;
  u_ctrl_actual : Z;
}.

(** The initialisers of the static variables. *)
Definition usb_state0 : usb_state :=
  UsbState None None None None None 0 0 64 64 0 false None None None 0 0 0.

Definition set_rx_queue v s := let 'UsbState _ b c d e f g h i j k l m n o p q := s in UsbState v b c d e f g h i j k l m n o p q.
Definition set_dev v s := let 'UsbState a _ c d e f g h i j k l m n o p q := s in UsbState a v c d e f g h i j k l m n o p q.
Definition set_in_xfer v s := let 'UsbState a b _ d e f g h i j k l m n o p q := s in UsbState a b v d e f g h i j k l m n o p q.
Definition set_out_xfer v s := let 'UsbState a b c _ e f g h i j k l m n o p q := s in UsbState a b c v e f g h i j k l m n o p q.
Definition set_ctrl_xfer v s := let 'UsbState a b c d _ f g h i j k l m n o p q := s in UsbState a b c d v f g h i j k l m n o p q.
Definition set_in_ep v s := let 'UsbState a b c d e _ g h i j k l m n o p q := s in UsbState a b c d e v g h i j k l m n o p q.
Definition set_out_ep v s := let 'UsbState a b c d e f _ h i j k l m n o p q := s in UsbState a b c d e f v h i j k l m n o p q.
Definition set_in_mps v s := let 'UsbState a b c d e f g _ i j k l m n o p q := s in UsbState a b c d e f g v i j k l m n o p q.
Definition set_out_mps v s := let 'UsbState a b c d e f g h _ j k l m n o p q := s in UsbState a b c d e f g h v j k l m n o p q.
Definition set_intf_num v s := let 'UsbState a b c d e f g h i _ k l m n o p q := s in UsbState a b c d e f g h i v k l m n o p q.
Definition set_hub v w s := let 'UsbState a b c d e f g h i j _ _ m n o p q := s in UsbState a b c d e f g h i j v w m n o p q.
Definition set_out_done v s := let 'UsbState a b c d e f g h i j k l _ n o p q := s in UsbState a b c d e f g h i j k l v n o p q.
Definition set_ctrl_done v s := let 'UsbState a b c d e f g h i j k l m _ o p q := s in UsbState a b c d e f g h i j k l m v o p q.
Definition set_out_status v s := let 'UsbState a b c d e f g h i j k l m n _ p q := s in UsbState a b c d e f g h i j k l m n v p q.
Definition set_ctrl_result v w s := let 'UsbState a b c d e f g h i j k l m n o _ _ := s in UsbState a b c d e f g h i j k l m n o v w.

Abbreviation MU := (M usb_state).

(** ** Transfer callbacks *)

(** [xQueueSend (s_rx_queue, &frame, 0)]: a full queue drops the frame. *)
Definition rx_enqueue (f : usb_frame_t) : MU unit :=
  s ← get;
  q ← checked (u_rx_queue s);
  modify (set_rx_queue (Some (q_send f q).2)).

Definition in_transfer_cb (status actual : Z) (buf : bytes) : MU unit :=
  if status =? USB_TRANSFER_STATUS_COMPLETED then
    (* (size_t) of an int: a negative count is huge *)
    let copy := if u32 actual <? USB_FRAME_MAX then u32 actual else USB_FRAME_MAX in
    data ← checked (buf_read buf 0 copy);
    rx_enqueue (Frame data (u16 copy))
  else if negb (status =? USB_TRANSFER_STATUS_NO_DEVICE) then
    rx_enqueue (Frame (zeros USB_FRAME_MAX) 0xFFFF)
  else mret tt.

Definition out_transfer_cb (status : Z) : MU unit :=
  modify (set_out_status status) ;;
  s ← get;
  sem ← checked (u_out_done s);
  modify (set_out_done (Some (q_send tt sem).2)).

Definition ctrl_transfer_cb (status actual : Z) : MU unit :=
  modify (set_ctrl_result status (if 8 <? actual then actual - 8 else 0)) ;;
  s ← get;
  sem ← checked (u_ctrl_done s);
  modify (set_ctrl_done (Some (q_send tt sem).2)).

(** ** Endpoint enumeration *)

(** The body of the endpoint walk: the first suitable IN and OUT endpoints win. *)
Definition scan_endpoint (ep : ep_desc) (s : usb_state) : usb_state :=
  let is_in := negb (Z.land (bEndpointAddress ep) 0x80 =? 0) in
  let type := Z.land (bmAttributes ep) 0x03 in
  let suitable := (type =? USB_BM_ATTRIBUTES_XFER_INT) || (type =? USB_BM_ATTRIBUTES_XFER_BULK) in
  let s := if (u_in_ep s =? 0) && is_in && suitable
           then set_in_mps (wMaxPacketSize ep) (set_in_ep (bEndpointAddress ep) s) else s in
  if (u_out_ep s =? 0) && negb is_in && suitable
  then set_out_mps (wMaxPacketSize ep) (set_out_ep (bEndpointAddress ep) s) else s.

Definition scan_endpoints (eps : list ep_desc) (s : usb_state) : usb_state :=
  foldl (fun s ep => scan_endpoint ep s) s eps.

(** [usb_host_transfer_alloc]: on failure the pointer keeps its old value. *)
Definition transfer_alloc (slot : xfer_slot) (size : Z) : MU unit :=
  r ← call_ext (CUsbTransferAlloc slot size);
  when (r_ret r =? ESP_OK)
    (modify (match slot with
             | XIn => set_in_xfer | XOut => set_out_xfer | XCtrl => set_ctrl_xfer
             end (Some (Xfer 0 0 (zeros size))))).

Definition open_pipes (d : dev_info) : MU unit :=
  s ← get;
  dev ← checked (u_dev s);
  match di_interface d with
  | None => call_ext (CUsbDeviceClose dev) ;; modify (set_dev None)
  | Some n =>
      modify (set_intf_num n) ;;
      modify (scan_endpoints (di_endpoints d)) ;;
      s ← get;
      if u_in_ep s =? 0 then mret tt else
      call_ext (CUsbInterfaceClaim dev (u_intf_num s)) ;;
      transfer_alloc XIn (u_in_mps s) ;;
      s1 ← get;
      x ← checked (u_in_xfer s1);
      modify (set_in_xfer (Some (Xfer (u_in_ep s) (u_in_mps s) (x_buf x)))) ;;
      when (negb (u_out_ep s =? 0))
        (transfer_alloc XOut (u_out_mps s) ;;
         s2 ← get;
         x ← checked (u_out_xfer s2);
         modify (set_out_xfer (Some (Xfer (u_out_ep s) (x_num_bytes x) (x_buf x))))) ;;
      transfer_alloc XCtrl CTRL_BUF ;;
      s3 ← get;
      x ← checked (u_ctrl_xfer s3);
      modify (set_ctrl_xfer (Some (Xfer 0 (x_num_bytes x) (x_buf x))))
  end.

(** ** Client event callback *)

Definition on_new_dev (d : dev_info) : MU unit :=
  r ← call_ext (CUsbDeviceOpen (di_address d));
  if negb (r_ret r =? ESP_OK) then mret tt else
  let tmp_dev := r_aux r in
  if di_class d =? 0x09 then modify (set_hub true (Some tmp_dev))
  else modify (set_dev (Some tmp_dev)) ;; open_pipes d.

Definition on_dev_gone : MU unit :=
  s ← get;
  match u_dev s with
  | Some dev =>
      (match u_in_xfer s with
       | Some _ =>
           call_ext (CUsbEndpointHalt dev (u_in_ep s)) ;;
           call_ext (CUsbEndpointFlush dev (u_in_ep s)) ;;
           call_ext (CUsbTransferFree XIn) ;; modify (set_in_xfer None)
       | None => mret tt
       end) ;;
      (match u_out_xfer s with
       | Some _ => call_ext (CUsbTransferFree XOut) ;; modify (set_out_xfer None)
       | None => mret tt
       end) ;;
      (match u_ctrl_xfer s with
       | Some _ => call_ext (CUsbTransferFree XCtrl) ;; modify (set_ctrl_xfer None)
       | None => mret tt
       end) ;;
      call_ext (CUsbInterfaceRelease dev (u_intf_num s)) ;;
      call_ext (CUsbDeviceClose dev) ;;
      modify (fun s => set_out_ep 0 (set_in_ep 0 (set_dev None s)))
  | None =>
      match u_hub_dev s with
      | Some hub => call_ext (CUsbDeviceClose hub) ;; modify (set_hub false None)
      | None => mret tt
      end
  end.

(** One callback of the library: a completed control transfer has its data in
    the transfer's buffer, then the registered callback runs. *)
Definition run_event (ev : usb_event) : MU unit :=
  match ev with
  | EvIn status actual buf => in_transfer_cb status actual buf
  | EvOut status => out_transfer_cb status
  | EvCtrl status actual buf =>
      modify (fun s => match u_ctrl_xfer s with
                       | Some x => set_ctrl_xfer (Some (x_set_buf buf x)) s
                       | None => s
                       end) ;;
      ctrl_transfer_cb status actual
  | EvNewDev d => on_new_dev d
  | EvDevGone => on_dev_gone
  end.

Fixpoint run_events (evs : list usb_event) : MU unit :=
  match evs with [] => mret tt | ev :: evs' => run_event ev ;; run_events evs' end.

(** The task blocks; the library's callbacks run. *)
Definition block (ms : Z) : MU unit := r ← call_ext (CBlock ms); run_events (r_events r).

(** ** Driver entry points *)

Definition usb_drv_init : MU bool :=
  r ← call_ext (CQueueCreate USB_RX_QUEUE_DEPTH);
  modify (set_rx_queue (if r_ret r =? 0 then None else Some (q_create USB_RX_QUEUE_DEPTH))) ;;
  if r_ret r =? 0 then mret false else
  r1 ← call_ext CSemCreate;
  modify (set_out_done (if r_ret r1 =? 0 then None else Some (q_create 1))) ;;
  r2 ← call_ext CSemCreate;
  modify (set_ctrl_done (if r_ret r2 =? 0 then None else Some (q_create 1))) ;;
  if (r_ret r1 =? 0) || (r_ret r2 =? 0) then mret false else
  r ← call_ext CUsbNewPhy;
  if negb (r_ret r =? ESP_OK) then mret false else
  r ← call_ext CUsbHostInstall;
  if negb (r_ret r =? ESP_OK) then mret false else
  r ← call_ext CUsbClientRegister;
  if negb (r_ret r =? ESP_OK) then call_ext CUsbHostUninstall ;; mret false else
  call_ext (CTaskCreate usb_lib_task_id) ;; call_ext (CTaskCreate usb_client_task_id) ;; call_ext (CTaskCreate usb_watchdog_task_id) ;;
  mret true.

Definition usb_drv_recv (max_len : Z) : MU (Z * bytes) :=
  s ← get;
  match u_dev s, u_in_xfer s with
  | Some _, Some x =>
      r ← call_ext (CUsbTransferSubmit XIn (x_ep x) []);
      if negb (r_ret r =? ESP_OK) then mret (-1, []) else
      block 1000 ;;
      s ← get;
      q ← checked (u_rx_queue s);
      match q_recv q with
      | None => mret (-1, [])
      | Some (frame, q') =>
          modify (set_rx_queue (Some q')) ;;
          if fr_len frame =? 0xFFFF then mret (-1, []) else
          let copy := if fr_len frame <? max_len then fr_len frame else max_len in
          data ← checked (buf_read (fr_data frame) 0 copy);
          mret (copy, data)
      end
  | _, _ => mret (-1, [])
  end.

(** Copies at most [s_out_mps] bytes into the OUT transfer and submits it. *)
Definition out_submit (x : xfer) (buf : bytes) : MU bool :=
  s ← get;
  let n := if u_out_mps s <? len buf then u_out_mps s else len buf in
  src ← checked (buf_read buf 0 n);
  b ← checked (buf_write (x_buf x) 0 src);
  modify (set_out_xfer (Some (Xfer (x_ep x) n b))) ;;
  r ← call_ext (CUsbTransferSubmit XOut (x_ep x) src);
  mret (r_ret r =? ESP_OK).

Definition usb_drv_send (buf : bytes) : MU bool :=
  s ← get;
  match u_out_xfer s, u_dev s with
  | Some x, Some _ => out_submit x buf
  | _, _ => mret true
  end.

Definition usb_drv_is_device_ready (s : usb_state) : bool :=
  match u_dev s with Some _ => true | None => false end.

(** [xSemaphoreTake] with a timeout. *)
Definition sem_take (ms : Z) (sel : usb_state -> option (Q unit))
    (put : option (Q unit) -> usb_state -> usb_state) : MU bool :=
  block ms ;;
  s ← get;
  sem ← checked (sel s);
  match q_recv sem with
  | Some (_, sem') => modify (put (Some sem')) ;; mret true
  | None => mret false
  end.

Definition usb_drv_send_blocking (buf : bytes) : MU Z :=
  s ← get;
  match u_dev s with
  | None => mret 0
  | Some _ =>
      match u_out_xfer s with
      | None => mret 0
      | Some x =>
          ok ← out_submit x buf;
          if negb ok then mret (-1) else
          got ← sem_take 1000 u_out_done set_out_done;
          if negb got then mret ESP_ERR_TIMEOUT else
          s ← get; mret (u_out_status s)
      end
  end.

(** The end of [usb_drv_control]: wait for the completion, then hand out the
    result; [in_buf] is not NULL exactly for an IN transfer. *)
Definition control_finish (out_data : option bytes) (max_in : Z) : MU (Z * bytes) :=
  got ← sem_take 2000 u_ctrl_done set_ctrl_done;
  if negb got then mret (-1, []) else
  s ← get;
  if negb (u_ctrl_status s =? 0) then mret (- u_ctrl_status s, []) else
  if (match out_data with None => true | Some _ => false end) && (0 <? max_in) && (0 <? u_ctrl_actual s) then
    let copy := if u_ctrl_actual s <? max_in then u_ctrl_actual s else max_in in
    x ← checked (u_ctrl_xfer s);
    data ← checked (buf_read (x_buf x) 8 copy);
    mret (copy, data)
  else mret (u_ctrl_actual s, []).

Definition usb_drv_control (setup : bytes) (out_data : option bytes) (max_in : Z) : MU (Z * bytes) :=
  s ← get;
  match u_dev s with
  | None => mret (-1, [])
  | Some _ =>
      match u_ctrl_xfer s with
      | None => mret (-1, [])
      | Some x =>
          su ← checked (buf_read setup 0 8);
          b ← checked (buf_write (x_buf x) 0 su);
          modify (set_ctrl_xfer (Some (x_set_buf b x))) ;;
          let out_len := from_option (fun d => len d) 0 out_data in
          if 1024 <? out_len then mret (-1, []) else
          b ← checked (buf_write b 8 (from_option id [] out_data));
          modify (set_ctrl_xfer (Some (x_set_buf b x))) ;;
          let data_len := match out_data with
                          | Some _ => out_len
                          | None => if 0 <? max_in then max_in else 0
                          end in
          if 1024 <? data_len then mret (-1, []) else
          modify (set_ctrl_xfer (Some (Xfer (x_ep x) (8 + data_len) b))) ;;
          r ← call_ext (CUsbTransferSubmit XCtrl 0 (take (Z.to_nat (8 + data_len)) b));
          if negb (r_ret r =? ESP_OK) then mret (-1, []) else
          control_finish out_data max_in
      end
  end.

End Driver.
Arguments usb_state Q : clear implicits.

(** ** Invariant *)

Definition frame_ok (f : usb_frame_t) : Prop :=
  fr_len f = 0xFFFF \/ (0 <= fr_len f <= USB_FRAME_MAX /\ len (fr_data f) = fr_len f /\ bytes_ok (fr_data f)).

(** What the library promises about the callbacks it runs. *)
Definition event_ok (ev : usb_event) : Prop :=
  match ev with
  | EvIn status actual buf =>
      (status = USB_TRANSFER_STATUS_COMPLETED -> 0 <= actual <= len buf /\ actual < 2 ^ 31) /\ bytes_ok buf
  | EvOut _ => True
  | EvCtrl status actual buf => 0 <= status /\ 0 <= actual <= CTRL_BUF /\ len buf = CTRL_BUF /\ bytes_ok buf
  | EvNewDev d => Forall (fun ep => is_u16 (wMaxPacketSize ep)) (di_endpoints d)
  | EvDevGone => True
  end.

(** The library can allocate transfer objects. *)
Definition alloc_ok (E : env) : Prop :=
  forall t slot size, r_ret (E t (CUsbTransferAlloc slot size)) = ESP_OK.

#[global] Instance ep_desc_eq_dec : EqDecision ep_desc.
Proof. solve_decision. Defined.
#[global] Instance dev_info_eq_dec : EqDecision dev_info.
Proof. solve_decision. Defined.
#[global] Instance usb_event_eq_dec : EqDecision usb_event.
Proof. solve_decision. Defined.

(** The status of the last control transfer that completes among some events. *)
Fixpoint last_ctrl (evs : list usb_event) : option Z :=
  match evs with
  | [] => None
  | ev :: evs' =>
      match last_ctrl evs' with
      | Some status => Some status
      | None => match ev with EvCtrl status _ _ => Some status | _ => None end
      end
  end.

(** How long [usb_drv_control] waits. *)
Definition CTRL_WAIT : Z := 2000.

(** What the library does while a task is blocked: its events are well formed, transfers can be
    allocated for a device that is plugged in meanwhile, and when a device is unplugged while a
    control transfer is waited for, the transfer fails. *)
Record bus_ok (E : env) : Prop := {
  bo_events t ms : Forall event_ok (r_events (E t (CBlock ms)));
  bo_alloc : alloc_ok E;
  bo_unplug t : let evs := r_events (E t (CBlock CTRL_WAIT)) in
    EvDevGone ∈ evs -> exists status, last_ctrl evs = Some status /\ status <> 0;
}.

(** A bus on which nothing is plugged in or unplugged while a task is blocked. *)
Definition is_completion (ev : usb_event) : Prop :=
  match ev with EvIn _ _ _ | EvOut _ | EvCtrl _ _ _ => True | _ => False end.
Lemma quiet_bus_ok E :
  alloc_ok E -> (forall t ms, Forall (fun ev => event_ok ev /\ is_completion ev) (r_events (E t (CBlock ms)))) -> bus_ok E.
Proof.
  intros Ha Hq. constructor; [|done|].
  - intros t ms. eapply Forall_impl; [apply Hq|]. by intros ev [? _].
  - intros t evs Hin. pose proof (Hq t CTRL_WAIT) as Hall. rewrite Forall_forall in Hall. by destruct (Hall _ Hin).
Qed.

Section Invariant.
Context {Q : Type -> Type} `{Queue Q} (E : env).

Record usb_inv (s : usb_state Q) : Prop := {
  inv_rx : exists q, u_rx_queue s = Some q /\ Forall frame_ok (q_items q) /\ q_cap q = USB_RX_QUEUE_DEPTH;
  inv_out_done : is_Some (u_out_done s);
  inv_ctrl_done : is_Some (u_ctrl_done s);
  inv_mps : is_u16 (u_in_mps s) /\ is_u16 (u_out_mps s);
  inv_out : forall x, u_out_xfer s = Some x -> len (x_buf x) = u_out_mps s /\ u_out_ep s <> 0;
  inv_ctrl : forall x, u_ctrl_xfer s = Some x -> len (x_buf x) = CTRL_BUF /\ bytes_ok (x_buf x);
  inv_actual : 0 <= u_ctrl_actual s <= 1024 /\ 0 <= u_ctrl_status s;
}.

(** Opens the invariant of a state and rebuilds it field by field. *)
Ltac open_inv Hi :=
  let H := fresh in pose proof Hi as H; destruct H as [(?q & ?Hq & ?Hqf & ?Hqc) [?od ?Hod] [?cd ?Hcd] [?Hm1 ?Hm2] ?Ho ?Hc ?Ha].
(** An update of fields the invariant does not constrain. *)
Ltac keep_inv :=
  match goal with
  | Hi : usb_inv (st ?w) |- _ => destruct Hi; destruct w as [[] ?]; cbn in *; constructor; cbn; eauto
  end.

Lemma rx_enqueue_wp f w :
  frame_ok f -> usb_inv (st w) -> wp (rx_enqueue f) E w (fun _ w' => usb_inv (st w')).
Proof.
  intros Hf Hi. open_inv Hi. unfold rx_enqueue. repeat wp_step. eapply wp_checked; [exact Hq|].
  wp_step. destruct (q_send_cases f q) as [Hc' Hi'].
  destruct w as [[] ?]; cbn in *; simplify_eq. constructor; cbn; eauto.
  eexists. split; [done|]. rewrite Hi', Hc'. split; [|done].
  destruct (_ <? _); [|done]. apply Forall_app_2; [done|]. by apply Forall_cons_2.
Qed.

(** What an event does to the control transfer: only an unplug takes it away, only a completion
    sets its status. *)
Definition ctrl_after (ev : usb_event) (s s' : usb_state Q) : Prop :=
  (ev <> EvDevGone -> is_Some (u_ctrl_xfer s) -> is_Some (u_ctrl_xfer s')) /\
  u_ctrl_status s' = match ev with EvCtrl status _ _ => status | _ => u_ctrl_status s end.

Lemma rx_enqueue_kept f ev w :
  frame_ok f -> usb_inv (st w) -> (forall status actual buf, ev <> EvCtrl status actual buf) ->
  wp (rx_enqueue f) E w (fun _ w' => usb_inv (st w') /\ ctrl_after ev (st w) (st w')).
Proof.
  intros Hf Hi Hev. pose proof (rx_enqueue_wp f w Hf Hi) as Hw. revert Hw. unfold rx_enqueue.
  destruct w as [[[q|]] ?]; cbn; [|done]. intros Hw. split; [done|]. split; [done|]. destruct ev; cbn; try done. by destruct (Hev status actual buf).
Qed.

Lemma completion_wp ev w :
  event_ok ev -> is_completion ev -> usb_inv (st w) ->
  wp (run_event ev) E w (fun _ w' => usb_inv (st w') /\ ctrl_after ev (st w) (st w')).
Proof.
  intros He Hc Hi. destruct ev as [status actual buf|status|status actual buf|d|]; try done; cbn [run_event].
  - destruct He as [Hact Hb]. unfold in_transfer_cb. destruct (Z.eqb_spec status USB_TRANSFER_STATUS_COMPLETED) as [Hs|].
    + destruct (Hact Hs) as [Hle Hlt]. rewrite u32_id by solve_width.
      set (copy := if actual <? USB_FRAME_MAX then actual else USB_FRAME_MAX).
      assert (0 <= copy <= 512 /\ copy <= actual) by (unfold copy, USB_FRAME_MAX; case_bool; lia).
      apply wp_bind. eapply wp_checked; [apply buf_read_Some; lia|]. apply rx_enqueue_kept; [|done..].
      right. rewrite u16_id by solve_width. cbn. rewrite length_take, drop_0. unfold USB_FRAME_MAX.
      split; [lia|]. split; [lia|]. by apply Forall_take.
    + destruct (negb _); [|by apply wp_ret]. apply rx_enqueue_kept; [by left|done..].
  - open_inv Hi. destruct w as [[] ?]; cbn in *; simplify_eq. unfold out_transfer_cb. repeat wp_step.
    eapply wp_checked; [reflexivity|]. wp_step. split; [|done]. constructor; cbn; eauto.
  - open_inv Hi. destruct He as (Hst & Hact & Hl & Hb). unfold ctrl_transfer_cb, CTRL_BUF in *.
    destruct w as [[] ?]; cbn in *; simplify_eq. repeat wp_step.
    destruct u_ctrl_xfer0 as [x|]; (eapply wp_checked; [reflexivity|]); wp_step; cbn;
      (split; [|split; cbn; eauto]); constructor; cbn; eauto; try (split; [case_bool; lia|done]).
    intros x' [= <-]. done.
Qed.

(** ** Hot-plug *)

Lemma scan_endpoint_inv ep (s : usb_state Q) :
  is_u16 (wMaxPacketSize ep) -> usb_inv s -> usb_inv (scan_endpoint ep s).
Proof.
  intros Hm Hi. destruct Hi as [? ? ? [? ?] Ho ? ?]. unfold scan_endpoint.
  destruct s; cbn in *.
  destruct ((u_in_ep0 =? 0) && _ && _); cbn;
    (destruct (Z.eqb_spec u_out_ep0 0); cbn; [destruct (_ && _)|]); cbn; constructor; cbn; eauto;
    intros x Hx; by destruct (Ho x Hx).
Qed.

Lemma scan_endpoints_inv eps (s : usb_state Q) :
  Forall (fun ep => is_u16 (wMaxPacketSize ep)) eps -> usb_inv s ->
  usb_inv (scan_endpoints eps s).
Proof.
  intros He. unfold scan_endpoints. revert s. induction He as [|ep eps Hm _ IH]; intros s Hi; [done|]. cbn.
  by apply IH, scan_endpoint_inv.
Qed.

Lemma scan_endpoints_ctrl eps (s : usb_state Q) :
  u_ctrl_xfer (scan_endpoints eps s) = u_ctrl_xfer s /\ u_ctrl_status (scan_endpoints eps s) = u_ctrl_status s.
Proof.
  unfold scan_endpoints. revert s. induction eps as [|ep eps IH]; intros s; [done|]. cbn [foldl].
  destruct (IH (scan_endpoint ep s)) as [-> ->]. unfold scan_endpoint. destruct s; cbn.
  destruct (_ && _ && _); cbn; by destruct (_ && _ && _).
Qed.

Lemma alloc_wp slot size w (P : unit -> world (usb_state Q) -> Prop) :
  alloc_ok E ->
  (forall r, P tt (World ((match slot with XIn => set_in_xfer | XOut => set_out_xfer | XCtrl => set_ctrl_xfer end
         (Some (Xfer 0 0 (zeros size)))) (st w)) (tr w ++ [(CUsbTransferAlloc slot size, r)]))) ->
  wp (transfer_alloc slot size) E w P.
Proof.
  intros Ha HP. unfold transfer_alloc. apply wp_bind, wp_call. intros r ->. cbn [st tr].
  rewrite Ha. cbn [when Z.eqb]. destruct slot; apply HP.
Qed.

Lemma open_pipes_wp d w :
  alloc_ok E -> event_ok (EvNewDev d) -> usb_inv (st w) -> is_Some (u_dev (st w)) ->
  wp (open_pipes d) E w (fun _ w' => usb_inv (st w') /\ ctrl_after (EvNewDev d) (st w) (st w')).
Proof.
  intros Ha He Hi [dev Hd]. unfold open_pipes. apply wp_bind, wp_get. apply wp_bind. eapply wp_checked; [exact Hd|].
  destruct (di_interface d) as [n|].
  2:{ repeat wp_step. split; [keep_inv|by destruct w as [[] ?]]. }
  assert (usb_inv (set_intf_num n (st w))) as Hi0 by keep_inv.
  apply wp_bind, wp_modify, wp_bind, wp_modify, wp_bind, wp_get. cbn [st tr].
  destruct (scan_endpoints_ctrl (di_endpoints d) (set_intf_num n (st w))) as [Hcx Hcs].
  pose proof (scan_endpoints_inv (di_endpoints d) _ He Hi0) as Hi1. set (s1 := scan_endpoints _ _) in *. clearbody s1.
  replace (u_ctrl_xfer (set_intf_num n (st w))) with (u_ctrl_xfer (st w)) in Hcx by (by destruct (st w)).
  replace (u_ctrl_status (set_intf_num n (st w))) with (u_ctrl_status (st w)) in Hcs by (by destruct (st w)).
  unfold ctrl_after. rewrite <- Hcx, <- Hcs. clear Hcx Hcs Hi0. destruct (u_in_ep s1 =? 0) eqn:Hie; [by apply wp_ret|].
  destruct Hi1 as [? ? ? [? Hm] ? ? ?]. destruct s1; cbn in *. repeat wp_step.
  apply alloc_wp; [done|]. intros ra. cbn. repeat wp_step. eapply wp_checked; [reflexivity|]. repeat wp_step.
  - apply wp_bind, alloc_wp; [done|]. intros rb. cbn. repeat wp_step. eapply wp_checked; [reflexivity|]. repeat wp_step.
    apply alloc_wp; [done|]. intros rc. cbn. repeat wp_step. eapply wp_checked; [reflexivity|]. repeat wp_step.
    cbn. split; [|by split]. constructor; cbn; eauto.
    + intros x [= <-]. cbn. rewrite zeros_length. unfold is_u16 in *. split; [lia|]. by intros ->.
    + intros x [= <-]. cbn [x_buf]. split; [done|apply zeros_ok].
  - apply alloc_wp; [done|]. intros rc. cbn. repeat wp_step. eapply wp_checked; [reflexivity|]. repeat wp_step.
    cbn. split; [|by split]. constructor; cbn; eauto. intros x [= <-]. cbn [x_buf]. split; [done|apply zeros_ok].
Qed.

Lemma on_new_dev_wp d w :
  alloc_ok E -> event_ok (EvNewDev d) -> usb_inv (st w) ->
  wp (on_new_dev d) E w (fun _ w' => usb_inv (st w') /\ ctrl_after (EvNewDev d) (st w) (st w')).
Proof.
  intros Ha He Hi. unfold on_new_dev. repeat wp_step; [done| |].
  - split; [keep_inv|by destruct w as [[] ?]].
  - eapply wp_mono; [|apply open_pipes_wp; [done|done| |by destruct w as [[] ?]; eexists]; keep_inv].
    intros [] w' [? Hc]. split; [done|]. by destruct w as [[] ?].
Qed.

Lemma on_dev_gone_wp w :
  usb_inv (st w) -> wp on_dev_gone E w (fun _ w' => usb_inv (st w') /\ ctrl_after EvDevGone (st w) (st w')).
Proof.
  intros Hi. destruct Hi. unfold on_dev_gone. destruct w as [[] ?]; cbn in *.
  repeat wp_step; cbn in *; (split; [|by split]); constructor; cbn; eauto; intros; congruence.
Qed.

Lemma run_event_wp ev w :
  alloc_ok E -> event_ok ev -> usb_inv (st w) -> wp (run_event ev) E w (fun _ w' => usb_inv (st w') /\ ctrl_after ev (st w) (st w')).
Proof.
  intros Ha He Hi. destruct ev; try by apply completion_wp.
  - by apply on_new_dev_wp.
  - by apply on_dev_gone_wp.
Qed.

(** ** Waiting *)

Lemma run_events_wp evs w :
  alloc_ok E -> Forall event_ok evs -> usb_inv (st w) ->
  wp (run_events evs) E w (fun _ w' => usb_inv (st w') /\
    (EvDevGone ∉ evs -> is_Some (u_ctrl_xfer (st w)) -> is_Some (u_ctrl_xfer (st w'))) /\
    u_ctrl_status (st w') = default (u_ctrl_status (st w)) (last_ctrl evs)).
Proof.
  intros Ha Hev. revert w. induction Hev as [|ev evs He _ IH]; intros w Hi; cbn [run_events last_ctrl].
  - by apply wp_ret.
  - apply wp_bind. eapply wp_mono; [|by apply run_event_wp]. intros [] w' (Hi' & Hk & Hs).
    eapply wp_mono; [|by apply IH]. intros [] w'' (Hi'' & Hk' & Hs'). split; [done|]. split.
    + intros [Hne Hnot]%not_elem_of_cons Hx. apply Hk'; [done|]. by apply Hk.
    + rewrite Hs', Hs. destruct (last_ctrl evs); [done|]. by destruct ev.
Qed.

Context (Hbus : bus_ok E).

Lemma block_wp ms w : usb_inv (st w) -> wp (block ms) E w (fun _ w' => usb_inv (st w')).
Proof.
  intros Hi. unfold block. repeat wp_step. subst.
  eapply wp_mono; [|apply (run_events_wp _ (World _ _)); [apply Hbus|apply (bo_events _ Hbus)|done]]. by intros [] w' [? _].
Qed.

(** After the wait for a control transfer the transfer is still there, unless it failed. *)
Lemma block_ctrl_wp w :
  usb_inv (st w) -> is_Some (u_ctrl_xfer (st w)) ->
  wp (block CTRL_WAIT) E w (fun _ w' => usb_inv (st w') /\ (u_ctrl_status (st w') = 0 -> is_Some (u_ctrl_xfer (st w')))).
Proof.
  intros Hi Hx. unfold block. repeat wp_step. subst.
  eapply wp_mono; [|apply (run_events_wp _ (World _ _)); [apply Hbus|apply (bo_events _ Hbus)|done]].
  intros [] w' (Hi' & Hk & Hs). split; [done|]. intros H0. cbn [st] in *.
  destruct (decide (EvDevGone ∈ r_events (E (tr w) (CBlock CTRL_WAIT)))) as [Hin|]; [|by apply Hk].
  destruct (bo_unplug _ Hbus _ Hin) as (status & Hl & Hne). rewrite Hl in Hs. cbn in Hs. congruence.
Qed.

Lemma sem_take_out_wp ms w :
  usb_inv (st w) -> wp (sem_take ms u_out_done set_out_done) E w (fun _ w' => usb_inv (st w')).
Proof.
  intros Hi. unfold sem_take. apply wp_bind. eapply wp_mono; [|by apply block_wp].
  intros [] w' Hi'. open_inv Hi'. destruct w' as [[] ?]; cbn in *; simplify_eq. repeat wp_step.
  eapply wp_checked; [reflexivity|]. destruct (q_recv od) as [[[] sem']|]; repeat wp_step; [|done].
  cbn. constructor; cbn; eauto.
Qed.

Lemma sem_take_ctrl_wp w :
  usb_inv (st w) -> is_Some (u_ctrl_xfer (st w)) ->
  wp (sem_take CTRL_WAIT u_ctrl_done set_ctrl_done) E w (fun _ w' => usb_inv (st w') /\
    (u_ctrl_status (st w') = 0 -> is_Some (u_ctrl_xfer (st w')))).
Proof.
  intros Hi Hx. unfold sem_take. apply wp_bind. eapply wp_mono; [|by apply block_ctrl_wp].
  intros [] w' [Hi' Hk]. open_inv Hi'. destruct w' as [[] ?]; cbn in *; simplify_eq. repeat wp_step.
  eapply wp_checked; [reflexivity|]. destruct (q_recv cd) as [[[] sem']|]; repeat wp_step; [|done].
  cbn. split; [|done]. constructor; cbn; eauto.
Qed.

(** ** The driver operations keep the invariant *)

Lemma usb_drv_recv_wp max w :
  0 <= max -> usb_inv (st w) ->
  wp (usb_drv_recv max) E w (fun r w' => usb_inv (st w') /\ r.1 <= max /\ len r.2 <= max /\
    (0 <= r.1 -> len r.2 = r.1) /\ bytes_ok r.2).
Proof.
  intros Hm Hi. unfold usb_drv_recv. repeat wp_step; try (split; [done|]; cbn; split_and!; [lia|lia|lia|constructor]).
  eapply wp_mono; [|apply (block_wp 1000 (World _ _)); done]. intros [] w' Hi'.
  pose proof (inv_rx _ Hi') as (q & Hqq & Hf & Hcap). repeat wp_step. eapply wp_checked; [exact Hqq|].
  pose proof (q_recv_cases q) as Hrc. destruct (q_recv q) as [[f q']|]; [|repeat wp_step; split; [done|]; cbn; split_and!; [lia|lia|lia|constructor]].
  destruct Hrc as [Hitems Hcap']. rewrite Hitems in Hf. apply Forall_cons_1 in Hf as [Hfr Hf].
  assert (usb_inv (set_rx_queue (Some q') (st w'))) as Hi''.
  { destruct Hi'. destruct w' as [[] ?]; cbn in *. constructor; cbn; eauto. eexists. split; [done|]. by rewrite Hcap'. }
  repeat wp_step; [split; [done|]; cbn; split_and!; [lia|lia|lia|constructor]|].
  destruct Hfr as [Hff|(Hl & Hlen & Hb)]; [by rewrite Hff in *|].
  set (copy := if _ <? _ then _ else _). assert (0 <= copy <= fr_len f /\ copy <= max) by (unfold copy; case_bool; lia).
  eapply wp_checked; [apply buf_read_Some; lia|]. apply wp_ret. split; [done|]. cbn.
  rewrite length_take, drop_0. split_and!; [lia|lia|lia|by apply Forall_take].
Qed.

Lemma out_submit_wp x buf w :
  u_out_xfer (st w) = Some x -> usb_inv (st w) ->
  wp (out_submit x buf) E w (fun _ w' => usb_inv (st w')).
Proof.
  intros Hx Hi. open_inv Hi. destruct (Ho x Hx) as [Hl Hep]. unfold out_submit. repeat wp_step.
  set (n := if _ <? _ then _ else _).
  assert (0 <= n <= len buf /\ n <= u_out_mps (st w)) by (unfold n; unfold is_u16 in Hm2; case_bool; lia).
  eapply wp_checked; [apply buf_read_Some; lia|]. apply wp_bind.
  destruct (buf_write (x_buf x) 0 _) as [b|] eqn:Hw.
  - eapply wp_checked; [done|]. pose proof (buf_write_length _ _ _ _ Hw). repeat wp_step.
    destruct w as [[] ?]; cbn in *; simplify_eq. constructor; cbn; eauto. intros x' [= <-]. cbn. split; [lia|done].
  - rewrite buf_write_Some in Hw; [done|lia|]. rewrite length_take, length_drop. lia.
Qed.

Lemma usb_drv_send_wp buf w :
  usb_inv (st w) -> wp (usb_drv_send buf) E w (fun _ w' => usb_inv (st w')).
Proof.
  intros Hi. unfold usb_drv_send. repeat wp_step; [|done|done]. by apply out_submit_wp.
Qed.

Lemma usb_drv_send_blocking_wp buf w :
  usb_inv (st w) -> wp (usb_drv_send_blocking buf) E w (fun _ w' => usb_inv (st w')).
Proof.
  intros Hi. unfold usb_drv_send_blocking. repeat wp_step; [|done|done].
  eapply wp_mono; [|by apply out_submit_wp]. intros ok w' Hi'. destruct ok; cbn [negb]; [|by apply wp_ret].
  apply wp_bind. eapply wp_mono; [|by apply sem_take_out_wp]. intros [] w'' Hi''; cbn [negb]; repeat wp_step; done.
Qed.

Lemma set_ctrl_xfer_inv x (s : usb_state Q) :
  usb_inv s -> len (x_buf x) = CTRL_BUF -> bytes_ok (x_buf x) -> usb_inv (set_ctrl_xfer (Some x) s).
Proof.
  intros Hi Hl Hb. destruct Hi. destruct s; cbn in *. constructor; cbn; eauto. intros x' [= <-]. done.
Qed.

(** What a control transfer promises its caller. *)
Definition control_post (out_data : option bytes) (max_in : Z) (r : Z * bytes) (w' : world (usb_state Q)) : Prop :=
  usb_inv (st w') /\ len r.2 <= max_in /\ bytes_ok r.2 /\ r.1 <= 1024 /\
  (out_data = None -> 0 < max_in -> 0 <= r.1 -> len r.2 = r.1).

Lemma control_post_fail out_data max_in n w :
  usb_inv (st w) -> 0 <= max_in -> n < 0 -> control_post out_data max_in (n, []) w.
Proof. intros. unfold control_post. cbn. split_and!; [done|done|constructor|lia|lia]. Qed.

Lemma control_finish_wp out_data max_in w :
  usb_inv (st w) -> is_Some (u_ctrl_xfer (st w)) -> 0 <= max_in ->
  wp (control_finish out_data max_in) E w (control_post out_data max_in).
Proof.
  intros Hi Hx Hm. unfold control_finish. apply wp_bind. eapply wp_mono; [|by apply sem_take_ctrl_wp].
  intros [] w' [Hi' Hk]; cbn [negb]; [|apply wp_ret; apply control_post_fail; done || lia].
  pose proof (inv_actual _ Hi') as [Ha Hs]. apply wp_bind, wp_get.
  destruct (Z.eqb_spec (u_ctrl_status (st w')) 0) as [H0|Hne]; cbn [negb]; [|apply wp_ret, control_post_fail; done || lia].
  destruct (Hk H0) as [x Hx']. pose proof (inv_ctrl _ Hi' x Hx') as [Hl Hb]. unfold CTRL_BUF in Hl.
  destruct ((match out_data with None => true | Some _ => false end) && (0 <? max_in) && (0 <? u_ctrl_actual (st w'))) eqn:Hc.
  - set (copy := if _ <? _ then _ else _).
    assert (0 <= copy <= u_ctrl_actual (st w') /\ copy <= max_in) by (unfold copy; case_bool; lia).
    apply wp_bind. eapply wp_checked; [exact Hx'|]. apply wp_bind. eapply wp_checked; [apply buf_read_Some; lia|].
    apply wp_ret. unfold control_post. cbn. rewrite length_take, length_drop.
    split_and!; [done|lia|by apply Forall_take, Forall_drop|lia|lia].
  - apply wp_ret. unfold control_post. cbn. split_and!; [done|lia|constructor|lia|].
    intros -> Hmi _. cbn in Hc. destruct (Z.ltb_spec 0 max_in); [|lia]. destruct (Z.ltb_spec 0 (u_ctrl_actual (st w'))); [done|lia].
Qed.

Lemma usb_drv_control_wp setup out_data max_in w :
  usb_inv (st w) -> len setup = 8 -> bytes_ok setup ->
  from_option (fun d => bytes_ok d) True out_data -> 0 <= max_in ->
  wp (usb_drv_control setup out_data max_in) E w (control_post out_data max_in).
Proof.
  intros Hi Hsl Hsb Hob Hm. unfold usb_drv_control. apply wp_bind, wp_get.
  destruct (u_dev (st w)) as [dev|]; [|apply wp_ret, control_post_fail; done || lia].
  destruct (u_ctrl_xfer (st w)) as [x|] eqn:Hx; [|apply wp_ret, control_post_fail; done || lia].
  destruct (inv_ctrl _ Hi x Hx) as [Hl Hb]. unfold CTRL_BUF in Hl.
  apply wp_bind. eapply wp_checked; [apply buf_read_Some; lia|]. rewrite drop_0.
  apply wp_bind. destruct (buf_write (x_buf x) 0 _) as [b|] eqn:Hw1.
  2:{ rewrite buf_write_Some in Hw1; [done|lia|rewrite length_take; lia]. }
  eapply wp_checked; [done|]. pose proof (buf_write_length _ _ _ _ Hw1) as Hbl.
  assert (bytes_ok b) as Hbb by (eapply buf_write_ok; [done..|by apply Forall_take]).
  repeat wp_step; [apply control_post_fail; [by apply set_ctrl_xfer_inv; [|cbn; unfold CTRL_BUF; lia|]|lia|lia]|].
  destruct (buf_write b 8 _) as [b2|] eqn:Hw2.
  2:{ rewrite buf_write_Some in Hw2; [done|lia|]. destruct out_data; cbn in *; lia. }
  eapply wp_checked; [done|]. pose proof (buf_write_length _ _ _ _ Hw2) as Hbl2.
  assert (bytes_ok b2) as Hbb2 by (eapply buf_write_ok; [done..|]; destruct out_data; [done|constructor]).
  repeat wp_step; try (apply control_post_fail; [repeat (apply set_ctrl_xfer_inv; [|cbn; unfold CTRL_BUF; lia|done]); done|lia|lia]).
  apply control_finish_wp; [|by destruct w as [[] ?]|done].
  repeat (apply set_ctrl_xfer_inv; [|cbn; unfold CTRL_BUF; lia|done]); done.
Qed.

End Invariant.

(** ** The driver implements the session's interfaces *)

#[global] Instance usb_ops {Q} `{Queue Q} : DeviceOps (usb_state Q) := {|
  ops_init := usb_drv_init; ops_recv := usb_drv_recv; ops_send := usb_drv_send |}.

#[global] Instance usb_backend {Q} `{Queue Q} : UsbBackend (usb_state Q) := {|
  usb_control := usb_drv_control; usb_send_blocking := usb_drv_send_blocking;
  usb_is_device_ready := usb_drv_is_device_ready |}.

(** The driver makes no socket calls. *)
Section DriverCalls.
Context {Q : Type -> Type} `{Queue Q}.

Lemma run_event_calls ev : only_calls non_socket (run_event (Q := Q) ev).
Proof.
  destruct ev; cbn [run_event];
    unfold in_transfer_cb, rx_enqueue, out_transfer_cb, ctrl_transfer_cb, on_new_dev, open_pipes, transfer_alloc, on_dev_gone;
    repeat only_step.
Qed.
Lemma block_calls ms : only_calls non_socket (block (Q := Q) ms).
Proof.
  assert (forall evs, only_calls non_socket (run_events (Q := Q) evs)) as Hr.
  { induction evs; cbn [run_events]; repeat only_step; apply run_event_calls. }
  unfold block. repeat only_step.
Qed.
Lemma sem_take_calls ms sel put : only_calls non_socket (sem_take (Q := Q) ms sel put).
Proof. pose proof block_calls. unfold sem_take. repeat only_step. Qed.
Lemma usb_drv_recv_calls max : only_calls non_socket (usb_drv_recv (Q := Q) max).
Proof. pose proof block_calls. unfold usb_drv_recv. repeat only_step. Qed.
Lemma out_submit_calls x buf : only_calls non_socket (out_submit (Q := Q) x buf).
Proof. unfold out_submit. repeat only_step. Qed.
Lemma usb_drv_send_calls buf : only_calls non_socket (usb_drv_send (Q := Q) buf).
Proof. pose proof out_submit_calls. unfold usb_drv_send. repeat only_step. Qed.
Lemma usb_drv_send_blocking_calls buf : only_calls non_socket (usb_drv_send_blocking (Q := Q) buf).
Proof. pose proof out_submit_calls. pose proof sem_take_calls. unfold usb_drv_send_blocking. repeat only_step. Qed.
Lemma usb_drv_control_calls setup out max : only_calls non_socket (usb_drv_control (Q := Q) setup out max).
Proof. pose proof sem_take_calls. unfold usb_drv_control, control_finish. repeat only_step. Qed.
End DriverCalls.

#[local] Obligation Tactic := idtac.

#[global] Program Instance usb_ops_ok {Q} `{Queue Q} (E : env) (Hq : bus_ok E) :
  DeviceOpsOk (usb_state Q) E := {| d_inv := usb_inv |}.
Next Obligation. intros Q HQ E Hq buf w _ Hi. by apply usb_drv_send_wp. Qed.
Next Obligation. intros Q HQ E Hq max w Hm Hi. by apply usb_drv_recv_wp. Qed.
Next Obligation. intros. apply usb_drv_send_calls. Qed.
Next Obligation. intros. apply usb_drv_recv_calls. Qed.

#[global] Program Instance usb_backend_ok {Q} `{Queue Q} (E : env) (Hq : bus_ok E) :
  @UsbBackendOk (usb_state Q) E usb_ops (usb_ops_ok E Hq) usb_backend.
Next Obligation. intros Q HQ E Hq setup out max w Hl Hb Ho Hm Hi. by apply usb_drv_control_wp. Qed.
Next Obligation. intros Q HQ E Hq buf w _ Hi. by apply usb_drv_send_blocking_wp. Qed.
Next Obligation. intros. apply usb_drv_control_calls. Qed.
Next Obligation. intros. apply usb_drv_send_blocking_calls. Qed.

(** A bus for the examples: allocation succeeds, and [evs] happen whenever a call waits. *)
Definition usb_demo_env (evs : list usb_event) : env := fun _ c =>
  match c with
  | CQueueCreate _ | CSemCreate => Reply 1 [] 0 []
  | CUsbDeviceOpen _ => Reply 0 [] 42 []
  | CBlock _ => Reply 0 [] 0 evs
  | _ => Reply 0 [] 0 []
  end.
(** A mouse with one interrupt IN and one bulk OUT endpoint. *)
Definition demo_dev : dev_info := DevInfo 1 0 (Some 0) [EpDesc 0x81 3 8; EpDesc 0x02 2 64].
Definition demo_setup : bytes := [0x80; 6; 0; 1; 0; 0; 18; 0].

(** ** Functional behaviour *)

Definition suitable_in (ep : ep_desc) : bool :=
  negb (Z.land (bEndpointAddress ep) 0x80 =? 0) &&
  ((Z.land (bmAttributes ep) 0x03 =? USB_BM_ATTRIBUTES_XFER_INT) ||
   (Z.land (bmAttributes ep) 0x03 =? USB_BM_ATTRIBUTES_XFER_BULK)).
Definition suitable_out (ep : ep_desc) : bool :=
  (Z.land (bEndpointAddress ep) 0x80 =? 0) &&
  ((Z.land (bmAttributes ep) 0x03 =? USB_BM_ATTRIBUTES_XFER_INT) ||
   (Z.land (bmAttributes ep) 0x03 =? USB_BM_ATTRIBUTES_XFER_BULK)).

Lemma scan_endpoint_in {Q} ep (s : usb_state Q) :
  u_in_ep (scan_endpoint ep s) = (if (u_in_ep s =? 0) && suitable_in ep then bEndpointAddress ep else u_in_ep s) /\
  u_in_mps (scan_endpoint ep s) = (if (u_in_ep s =? 0) && suitable_in ep then wMaxPacketSize ep else u_in_mps s) /\
  u_out_ep (scan_endpoint ep s) = (if (u_out_ep s =? 0) && suitable_out ep then bEndpointAddress ep else u_out_ep s) /\
  u_out_mps (scan_endpoint ep s) = (if (u_out_ep s =? 0) && suitable_out ep then wMaxPacketSize ep else u_out_mps s).
Proof.
  unfold scan_endpoint, suitable_in, suitable_out. destruct s; cbn.
  set (suit := (_ =? USB_BM_ATTRIBUTES_XFER_INT) || _). destruct (Z.land (bEndpointAddress ep) 128 =? 0), suit;
    cbn; rewrite ?andb_false_r, ?andb_true_r; cbn; destruct (u_in_ep0 =? 0), (u_out_ep0 =? 0) eqn:Hoe;
    cbn; rewrite ?Hoe; done.
Qed.

Lemma scan_endpoints_done {Q} eps (s : usb_state Q) :
  (u_in_ep s <> 0 -> u_in_ep (scan_endpoints eps s) = u_in_ep s /\ u_in_mps (scan_endpoints eps s) = u_in_mps s) /\
  (u_out_ep s <> 0 -> u_out_ep (scan_endpoints eps s) = u_out_ep s /\ u_out_mps (scan_endpoints eps s) = u_out_mps s).
Proof.
  unfold scan_endpoints. revert s. induction eps as [|ep eps IH]; intros s; [done|]. cbn [foldl].
  destruct (scan_endpoint_in ep s) as (Hi & Him & Ho & Hom). destruct (IH (scan_endpoint ep s)) as [IHi IHo].
  split; intros Hne.
  - destruct (Z.eqb_spec (u_in_ep s) 0); [done|]. cbn in Hi, Him. rewrite Hi, Him in IHi. auto.
  - destruct (Z.eqb_spec (u_out_ep s) 0); [done|]. cbn in Ho, Hom. rewrite Ho, Hom in IHo. auto.
Qed.

Lemma scan_first_in {Q} eps (s : usb_state Q) :
  Forall (fun ep => bEndpointAddress ep <> 0) eps -> u_in_ep s = 0 ->
  match List.find suitable_in eps with
  | Some ep => u_in_ep (scan_endpoints eps s) = bEndpointAddress ep /\ u_in_mps (scan_endpoints eps s) = wMaxPacketSize ep
  | None => u_in_ep (scan_endpoints eps s) = 0 /\ u_in_mps (scan_endpoints eps s) = u_in_mps s
  end.
Proof.
  intros Hne. revert s. induction Hne as [|ep eps Hz _ IH]; intros s Hi; [done|]. cbn [List.find].
  change (scan_endpoints (ep :: eps) s) with (scan_endpoints eps (scan_endpoint ep s)).
  destruct (scan_endpoint_in ep s) as (Hi' & Hm' & _). rewrite Hi in Hi', Hm'. cbn in Hi', Hm'.
  destruct (suitable_in ep); [|rewrite <- Hm'; by apply IH].
  rewrite <- Hi', <- Hm'. apply scan_endpoints_done. by rewrite Hi'.
Qed.

Lemma scan_first_out {Q} eps (s : usb_state Q) :
  Forall (fun ep => bEndpointAddress ep <> 0) eps -> u_out_ep s = 0 ->
  match List.find suitable_out eps with
  | Some ep => u_out_ep (scan_endpoints eps s) = bEndpointAddress ep /\ u_out_mps (scan_endpoints eps s) = wMaxPacketSize ep
  | None => u_out_ep (scan_endpoints eps s) = 0 /\ u_out_mps (scan_endpoints eps s) = u_out_mps s
  end.
Proof.
  intros Hne. revert s. induction Hne as [|ep eps Hz _ IH]; intros s Ho; [done|]. cbn [List.find].
  change (scan_endpoints (ep :: eps) s) with (scan_endpoints eps (scan_endpoint ep s)).
  destruct (scan_endpoint_in ep s) as (_ & _ & Ho' & Hm'). rewrite Ho in Ho', Hm'. cbn in Ho', Hm'.
  destruct (suitable_out ep); [|rewrite <- Hm'; by apply IH].
  rewrite <- Ho', <- Hm'. apply scan_endpoints_done. by rewrite Ho'.
Qed.

(** The endpoint walk of [open_pipes], started with no endpoints chosen, picks the first
    interrupt or bulk IN endpoint and the first interrupt or bulk OUT endpoint of the
    configuration, each with its own packet size, and leaves the choice empty when there is none. *)
Theorem scan_picks_first {Q} eps (s : usb_state Q) :
  Forall (fun ep => bEndpointAddress ep <> 0) eps -> u_in_ep s = 0 -> u_out_ep s = 0 ->
  match List.find suitable_in eps with
  | Some ep => u_in_ep (scan_endpoints eps s) = bEndpointAddress ep /\ u_in_mps (scan_endpoints eps s) = wMaxPacketSize ep
  | None => u_in_ep (scan_endpoints eps s) = 0 /\ u_in_mps (scan_endpoints eps s) = u_in_mps s
  end /\
  match List.find suitable_out eps with
  | Some ep => u_out_ep (scan_endpoints eps s) = bEndpointAddress ep /\ u_out_mps (scan_endpoints eps s) = wMaxPacketSize ep
  | None => u_out_ep (scan_endpoints eps s) = 0 /\ u_out_mps (scan_endpoints eps s) = u_out_mps s
  end.
Proof. intros Hne Hi Ho. split; [by apply scan_first_in|by apply scan_first_out]. Qed.

Lemma scan_picks_first_witness :
  u_in_ep (scan_endpoints (di_endpoints demo_dev) (usb_state0 (Q := list_queue))) = 0x81.
Proof.
  destruct (scan_picks_first (di_endpoints demo_dev) (usb_state0 (Q := list_queue))) as [[H _] _].
  - repeat (apply Forall_cons_2; [done|]). constructor.
  - reflexivity.
  - reflexivity.
  - exact H.
Defined.

(** The state after a frame was queued: the frame is at the tail. *)
Lemma in_cb_enqueues {Q} `{Queue Q} E actual buf q (w : world (usb_state Q)) :
  u_rx_queue (st w) = Some q -> len (q_items q) < q_cap q -> 0 <= actual <= len buf -> actual < 2 ^ 31 ->
  exists q', in_transfer_cb USB_TRANSFER_STATUS_COMPLETED actual buf E w =
      Some (tt, World (set_rx_queue (Some q') (st w)) (tr w)) /\
    let n := Z.min actual USB_FRAME_MAX in
    q_items q' = q_items q ++ [Frame (take (Z.to_nat n) buf) n].
Proof.
  intros Hq Hcap Ha Hlt. unfold in_transfer_cb. cbn [Z.eqb USB_TRANSFER_STATUS_COMPLETED].
  rewrite u32_id by solve_width. unfold USB_FRAME_MAX.
  assert ((if actual <? 512 then actual else 512) = Z.min actual 512) as -> by (case_bool; lia).
  rewrite buf_read_Some by lia. rewrite drop_0, u16_id by solve_width.
  destruct (q_send_ok _ (Frame (take (Z.to_nat (Z.min actual 512)) buf) (Z.min actual 512)) q Hcap) as (q' & Hs & Hi & _).
  exists q'. split; [|exact Hi]. erewrite mbind_some by reflexivity. unfold rx_enqueue.
  erewrite mbind_some by reflexivity. erewrite mbind_some by (unfold checked; by rewrite Hq).
  unfold modify. by rewrite Hs.
Qed.

(** A report travels from the bus to the caller: with a device and an idle receive queue, if the
    IN transfer [usb_drv_recv] submits completes with [actual] bytes while the call waits, the call
    returns min(actual, 512, max) and exactly that many first bytes of the transfer's buffer. *)
Theorem recv_delivers {Q} `{Queue Q} E max actual buf q dev x (w : world (usb_state Q)) :
  u_dev (st w) = Some dev -> u_in_xfer (st w) = Some x -> u_rx_queue (st w) = Some q ->
  q_items q = [] -> 0 < q_cap q -> 0 <= max -> 0 <= actual <= len buf -> actual < 2 ^ 31 ->
  (forall t ep, r_ret (E t (CUsbTransferSubmit XIn ep [])) = ESP_OK) ->
  (forall t, r_events (E t (CBlock 1000)) = [EvIn USB_TRANSFER_STATUS_COMPLETED actual buf]) ->
  exists w', usb_drv_recv max E w =
    let n := Z.min (Z.min actual USB_FRAME_MAX) max in Some ((n, take (Z.to_nat n) buf), w').
Proof.
  intros Hd Hx Hq Hempty Hcap Hm Ha Hlt Hsub Hev. unfold usb_drv_recv.
  erewrite mbind_some by reflexivity. rewrite Hd, Hx. erewrite mbind_some by reflexivity. rewrite Hsub.
  cbn [negb Z.eqb ESP_OK].
  set (w1 := World _ _). set (w2 := World (st w1) (tr w1 ++ [(CBlock 1000, E (tr w1) (CBlock 1000))])).
  destruct (in_cb_enqueues E actual buf q w2) as (q' & Hcb & Hit); [exact Hq|rewrite Hempty; cbn; lia|done|done|].
  rewrite Hempty in Hit. cbn zeta in Hit. rewrite app_nil_l in Hit.
  assert (block 1000 E w1 = Some (tt, World (set_rx_queue (Some q') (st w)) (tr w2))) as Hb.
  { unfold block. erewrite mbind_some by reflexivity. rewrite Hev. cbn [run_events run_event].
    by erewrite mbind_some by exact Hcb. }
  erewrite mbind_some by exact Hb. erewrite mbind_some by reflexivity. cbn [st].
  replace (u_rx_queue (set_rx_queue (Some q') (st w))) with (Some q') by (by destruct (st w)).
  erewrite mbind_some by reflexivity.
  destruct (q_recv_ok _ _ _ _ Hit) as (q'' & -> & _ & _). erewrite mbind_some by reflexivity. cbn [fr_len fr_data].
  unfold USB_FRAME_MAX. destruct (Z.eqb_spec (Z.min actual 512) 0xFFFF); [lia|].
  assert ((if Z.min actual 512 <? max then Z.min actual 512 else max) = Z.min (Z.min actual 512) max) as ->
    by (case_bool; lia).
  rewrite buf_read_Some; [|lia|lia|rewrite length_take; lia]. rewrite drop_0, take_take.
  rewrite Nat.min_l by lia. by eexists.
Qed.

Definition demo_state (rx : list usb_frame_t) (done : list unit) : usb_state list_queue :=
  UsbState (Some (ListQueue 8 rx)) (Some 42) (Some (Xfer 0x81 8 (zeros 8))) (Some (Xfer 0x02 0 (zeros 64)))
    (Some (Xfer 0 0 (zeros CTRL_BUF))) 0x81 0x02 8 64 0 false None
    (Some (ListQueue 1 [])) (Some (ListQueue 1 done)) 0 0 0.

Lemma recv_delivers_witness :
  exists w', usb_drv_recv 64 (usb_demo_env [EvIn 0 3 [10; 20; 30; 40]]) (World (demo_state [] []) [])
    = Some ((3, [10; 20; 30]), w').
Proof.
  destruct (recv_delivers (usb_demo_env [EvIn 0 3 [10; 20; 30; 40]]) 64 3 [10; 20; 30; 40]
    (ListQueue 8 []) 42 (Xfer 0x81 8 (zeros 8)) (World (demo_state [] []) [])) as [w' Hr];
    try reflexivity; try (cbn; lia).
  exists w'. exact Hr.
Defined.

(** Unplugging a device with its pipes open frees each transfer exactly once, releases the
    interface and closes the handle once, and leaves no stale pointer: a device plugged in next
    starts from empty endpoints. *)
Theorem dev_gone_cleans_up {Q} `{Queue Q} E dev xi xo xc (w : world (usb_state Q)) :
  u_dev (st w) = Some dev -> u_in_xfer (st w) = Some xi -> u_out_xfer (st w) = xo -> u_ctrl_xfer (st w) = Some xc ->
  exists w', run_event EvDevGone E w = Some (tt, w') /\
    u_dev (st w') = None /\ u_in_xfer (st w') = None /\ u_out_xfer (st w') = None /\ u_ctrl_xfer (st w') = None /\
    u_in_ep (st w') = 0 /\ u_out_ep (st w') = 0 /\
    calls (tr w') = calls (tr w) ++ [CUsbEndpointHalt dev (u_in_ep (st w)); CUsbEndpointFlush dev (u_in_ep (st w));
      CUsbTransferFree XIn] ++ (match xo with Some _ => [CUsbTransferFree XOut] | None => [] end) ++
      [CUsbTransferFree XCtrl; CUsbInterfaceRelease dev (u_intf_num (st w)); CUsbDeviceClose dev].
Proof.
  intros Hd Hi Ho Hc. cbn [run_event]. unfold on_dev_gone. destruct w as [[] t]; cbn in *; simplify_eq.
  destruct xo; (eexists; split; [reflexivity|]); cbn; rewrite !fmap_app; cbn; rewrite <- !app_assoc; done.
Qed.

Lemma dev_gone_cleans_up_witness :
  exists w', run_event EvDevGone demo_env (World (demo_state [] []) []) = Some (tt, w') /\ u_dev (st w') = None.
Proof.
  destruct (dev_gone_cleans_up demo_env 42 (Xfer 0x81 8 (zeros 8)) (Some (Xfer 0x02 0 (zeros 64)))
    (Xfer 0 0 (zeros CTRL_BUF)) (World (demo_state [] []) [])) as (w' & Hr & Hd & _); try reflexivity.
  exists w'. split; [exact Hr|exact Hd].
Defined.

(** [usb_drv_send_blocking] reports success (0) when no device is connected, without touching the
    bus, although its header promises USB_TRANSFER_STATUS_NO_DEVICE. *)
Theorem send_blocking_no_device {Q} `{Queue Q} E buf (w : world (usb_state Q)) :
  u_dev (st w) = None -> usb_drv_send_blocking buf E w = Some (0, w).
Proof. intros Hd. unfold usb_drv_send_blocking. erewrite mbind_some by reflexivity. by rewrite Hd. Qed.

Lemma send_blocking_no_device_witness :
  usb_drv_send_blocking [1; 2] demo_env (World (usb_state0 (Q := list_queue)) []) =
  Some (0, World usb_state0 []) /\ 0 <> USB_TRANSFER_STATUS_NO_DEVICE.
Proof.
  split; [|done]. apply (send_blocking_no_device demo_env [1; 2] (World (usb_state0 (Q := list_queue)) [])). reflexivity.
Defined.

(** ** Control transfers *)

(** Up to the wait, an IN control call has put the setup packet in front of the transfer's buffer
    and submitted [8 + max_in] bytes. *)
Lemma control_in_submits {Q} `{Queue Q} E setup max_in dev x (w : world (usb_state Q)) :
  u_dev (st w) = Some dev -> u_ctrl_xfer (st w) = Some x -> len (x_buf x) = CTRL_BUF ->
  len setup = 8 -> 0 < max_in <= 1024 ->
  (forall t d, r_ret (E t (CUsbTransferSubmit XCtrl 0 d)) = ESP_OK) ->
  exists r, usb_drv_control setup None max_in E w =
    control_finish None max_in E
      (World (set_ctrl_xfer (Some (Xfer (x_ep x) (8 + max_in) (setup ++ drop 8 (x_buf x)))) (st w))
             (tr w ++ [(CUsbTransferSubmit XCtrl 0 (take (Z.to_nat (8 + max_in)) (setup ++ drop 8 (x_buf x))), r)])).
Proof.
  intros Hd Hx Hl Hs Hm Hsub. unfold usb_drv_control. erewrite mbind_some by reflexivity. rewrite Hd, Hx.
  unfold CTRL_BUF in Hl. rewrite buf_read_Some by lia.
  replace (take (Z.to_nat 8) (drop (Z.to_nat 0) setup)) with setup by (rewrite drop_0, take_ge; [done|lia]).
  erewrite mbind_some by reflexivity. rewrite buf_write_Some by lia.
  replace (take (Z.to_nat 0) (x_buf x) ++ setup ++ drop (Z.to_nat 0 + length setup) (x_buf x))
    with (setup ++ drop 8 (x_buf x)) by (replace (Z.to_nat 0 + length setup)%nat with 8%nat by lia; done).
  erewrite mbind_some by reflexivity. erewrite mbind_some by reflexivity. cbn [from_option].
  change (1024 <? 0) with false. cbv iota.
  rewrite buf_write_Some by (cbn; rewrite ?length_app, ?length_drop; lia). cbn [id app length].
  rewrite Nat.add_0_r, take_drop. erewrite mbind_some by reflexivity. erewrite mbind_some by reflexivity.
  destruct (Z.ltb_spec 0 max_in); [|lia]. destruct (Z.ltb_spec 1024 max_in); [lia|].
  erewrite mbind_some by reflexivity. erewrite mbind_some by reflexivity. cbn [st tr]. rewrite Hsub.
  cbn [negb Z.eqb ESP_OK]. eexists. f_equal. f_equal. by destruct (st w).
Qed.

(** The semaphore wait of a control call during which one event runs. *)
Lemma control_wait {Q} `{Queue Q} E evs (w : world (usb_state Q)) s1 sem sem' :
  r_events (E (tr w) (CBlock 2000)) = evs ->
  run_events evs E (World (st w) (tr w ++ [(CBlock 2000, E (tr w) (CBlock 2000))])) =
    Some (tt, World s1 (tr w ++ [(CBlock 2000, E (tr w) (CBlock 2000))])) ->
  u_ctrl_done s1 = Some sem -> q_recv sem = Some (tt, sem') ->
  sem_take 2000 u_ctrl_done set_ctrl_done E w =
    Some (true, World (set_ctrl_done (Some sem') s1) (tr w ++ [(CBlock 2000, E (tr w) (CBlock 2000))])).
Proof.
  intros Hev Hrun Hs Hr. unfold sem_take.
  erewrite mbind_some; [|unfold block; erewrite mbind_some by reflexivity; rewrite Hev; exact Hrun].
  erewrite mbind_some by reflexivity. cbn [st]. erewrite mbind_some by (unfold checked; by rewrite Hs).
  by rewrite Hr.
Qed.

(** What an IN control call submits: the setup packet and room for the data, [8 + max_in] bytes. *)
Definition ctrl_submission (setup : bytes) (max_in : Z) (x : xfer) : bytes :=
  take (Z.to_nat (8 + max_in)) (setup ++ drop 8 (x_buf x)).

(** A control-IN call whose transfer completes during the wait. *)
Lemma control_in_run {Q} `{Queue Q} E setup max_in actual buf sem dev x (w : world (usb_state Q)) :
  u_dev (st w) = Some dev -> u_ctrl_xfer (st w) = Some x -> len (x_buf x) = CTRL_BUF ->
  u_ctrl_done (st w) = Some sem -> q_items sem = [] -> 0 < q_cap sem ->
  len setup = 8 -> 0 < max_in <= 1024 -> 8 < actual <= CTRL_BUF -> len buf = CTRL_BUF ->
  (forall t d, r_ret (E t (CUsbTransferSubmit XCtrl 0 d)) = ESP_OK) ->
  (forall r, r_events (E (tr w ++ [(CUsbTransferSubmit XCtrl 0 (ctrl_submission setup max_in x), r)]) (CBlock 2000)) =
    [EvCtrl USB_TRANSFER_STATUS_COMPLETED actual buf]) ->
  exists w', usb_drv_control setup None max_in E w =
    (let n := Z.min (actual - 8) max_in in Some ((n, take (Z.to_nat n) (drop 8 buf)), w')) /\
    calls (tr w') = calls (tr w) ++ [CUsbTransferSubmit XCtrl 0 (ctrl_submission setup max_in x); CBlock 2000].
Proof.
  intros Hd Hx Hl Hs Hempty Hcap Hsl Hm Ha Hbl Hsub Hev.
  destruct (control_in_submits E setup max_in dev x w Hd Hx Hl Hsl Hm Hsub) as [r ->].
  set (w1 := World _ _). unfold CTRL_BUF in *.
  destruct (q_send_ok _ tt sem) as (sem1 & Hsend & Hit & _); [by rewrite Hempty|]. rewrite Hempty in Hit.
  destruct (q_recv_ok _ _ _ _ Hit) as (sem2 & Hrecv & _ & _).
  assert (exists x', run_events [EvCtrl USB_TRANSFER_STATUS_COMPLETED actual buf] E
      (World (st w1) (tr w1 ++ [(CBlock 2000, E (tr w1) (CBlock 2000))])) =
    Some (tt, World (set_ctrl_done (Some sem1) (set_ctrl_result 0 (actual - 8)
      (set_ctrl_xfer (Some (x_set_buf buf x')) (st w1)))) (tr w1 ++ [(CBlock 2000, E (tr w1) (CBlock 2000))])))
    as [x' Hrun].
  { subst w1. destruct w as [[] t0]; cbn in Hd, Hx, Hs; simplify_eq. eexists.
    cbn [run_events run_event]. unfold ctrl_transfer_cb. destruct (Z.ltb_spec 8 actual); [|lia].
    unfold mbind, M_bind, modify, get, checked. cbn. by rewrite Hsend. }
  unfold control_finish. erewrite mbind_some.
  2:{ eapply control_wait; [exact (Hev r)|exact Hrun|by destruct (st w1)|exact Hrecv]. }
  cbn [negb]. erewrite mbind_some by reflexivity. cbn [st]. destruct (st w1); cbn -[buf_read Z.sub Z.min].
  destruct (Z.ltb_spec 0 max_in); [|lia]. destruct (Z.ltb_spec 0 (actual - 8)); [|lia]. cbn [andb].
  assert ((if actual - 8 <? max_in then actual - 8 else max_in) = Z.min (actual - 8) max_in) as -> by (case_bool; lia).
  erewrite mbind_some by reflexivity. cbn [x_buf x_set_buf].
  rewrite buf_read_Some by lia. eexists. split; [done|].
  cbn [tr]. subst w1. cbn [tr]. rewrite !fmap_app, <- app_assoc. done.
Qed.

(** A control-IN transfer hands the caller what the device sent: with no earlier completion
    pending, if the submitted transfer completes with [actual] bytes (the 8-byte setup included)
    while the call waits, the result is min(actual - 8, max_in) and that many bytes of the buffer
    after the setup packet. *)
Theorem control_in_delivers {Q} `{Queue Q} E setup max_in actual buf sem dev x (w : world (usb_state Q)) :
  u_dev (st w) = Some dev -> u_ctrl_xfer (st w) = Some x -> len (x_buf x) = CTRL_BUF ->
  u_ctrl_done (st w) = Some sem -> q_items sem = [] -> 0 < q_cap sem ->
  len setup = 8 -> 0 < max_in <= 1024 -> 8 < actual <= CTRL_BUF -> len buf = CTRL_BUF ->
  (forall t d, r_ret (E t (CUsbTransferSubmit XCtrl 0 d)) = ESP_OK) ->
  (forall t, r_events (E t (CBlock 2000)) = [EvCtrl USB_TRANSFER_STATUS_COMPLETED actual buf]) ->
  exists w', usb_drv_control setup None max_in E w =
    let n := Z.min (actual - 8) max_in in Some ((n, take (Z.to_nat n) (drop 8 buf)), w').
Proof.
  intros. destruct (control_in_run E setup max_in actual buf sem dev x w) as (w' & Hr & _); eauto.
Qed.

Lemma control_in_delivers_witness :
  exists w', usb_drv_control demo_setup None 18
      (usb_demo_env [EvCtrl 0 12 (demo_setup ++ [9; 8; 7; 6] ++ zeros 1020)]) (World (demo_state [] []) [])
    = Some ((4, [9; 8; 7; 6]), w').
Proof.
  destruct (control_in_delivers (usb_demo_env [EvCtrl 0 12 (demo_setup ++ [9; 8; 7; 6] ++ zeros 1020)])
    demo_setup 18 12 (demo_setup ++ [9; 8; 7; 6] ++ zeros 1020) (ListQueue 1 []) 42 (Xfer 0 0 (zeros CTRL_BUF))
    (World (demo_state [] []) [])) as [w' Hr]; try reflexivity; try (vm_compute; (lia || done)).
  exists w'. exact Hr.
Defined.

(** [usb_drv_control] takes whatever completion is pending.  If the semaphore was already given
    (a transfer that completed after its caller's two-second timeout), the call returns at once with
    the status and length of that older transfer although its own never completed: here the length
    comes from the older transfer and the data is what the buffer held before the call. *)
Theorem control_takes_stale_completion {Q} `{Queue Q} E setup max_in sem dev x (w : world (usb_state Q)) :
  u_dev (st w) = Some dev -> u_ctrl_xfer (st w) = Some x -> len (x_buf x) = CTRL_BUF ->
  u_ctrl_done (st w) = Some sem -> q_items sem = [tt] ->
  u_ctrl_status (st w) = 0 -> 0 < u_ctrl_actual (st w) <= 1024 ->
  len setup = 8 -> 0 < max_in <= 1024 ->
  (forall t d, r_ret (E t (CUsbTransferSubmit XCtrl 0 d)) = ESP_OK) ->
  (forall t, r_events (E t (CBlock 2000)) = []) ->
  exists w', usb_drv_control setup None max_in E w =
    let n := Z.min (u_ctrl_actual (st w)) max_in in Some ((n, take (Z.to_nat n) (drop 8 (x_buf x))), w').
Proof.
  intros Hd Hx Hl Hs Hit Hst Ha Hsl Hm Hsub Hev.
  destruct (control_in_submits E setup max_in dev x w Hd Hx Hl Hsl Hm Hsub) as [r ->].
  destruct (q_recv_ok _ _ _ _ Hit) as (sem2 & Hrecv & _ & _). unfold CTRL_BUF in *.
  unfold control_finish. set (w1 := World _ _). erewrite mbind_some.
  2:{ eapply (control_wait E [] w1); [apply Hev|reflexivity| |exact Hrecv]. subst w1. by destruct w as [[] ?]. }
  cbn [negb]. erewrite mbind_some by reflexivity. subst w1. cbn [st].
  destruct w as [[] t0]; cbn in Hd, Hx, Hs, Hst, Ha; simplify_eq. cbn -[buf_read Z.min take drop].
  destruct (Z.ltb_spec 0 max_in); [|lia]. destruct (Z.ltb_spec 0 u_ctrl_actual0); [|lia]. cbn [andb].
  assert ((if u_ctrl_actual0 <? max_in then u_ctrl_actual0 else max_in) = Z.min u_ctrl_actual0 max_in) as ->
    by (case_bool; lia).
  erewrite mbind_some by reflexivity. cbn [x_buf].
  rewrite buf_read_Some; [|lia|lia|rewrite length_app, length_drop; lia].
  rewrite drop_app_ge by lia. replace (Z.to_nat 8 - length setup)%nat with 0%nat by lia. rewrite drop_0. by eexists.
Qed.

Definition stale_state : usb_state list_queue := set_ctrl_result 0 4 (demo_state [] [tt]).

Lemma control_takes_stale_completion_witness :
  exists w', usb_drv_control demo_setup None 18 (usb_demo_env []) (World stale_state []) = Some ((4, [0; 0; 0; 0]), w').
Proof.
  destruct (control_takes_stale_completion (usb_demo_env []) demo_setup 18 (ListQueue 1 [tt]) 42
    (Xfer 0 0 (zeros CTRL_BUF)) (World stale_state [])) as [w' Hr]; try reflexivity; try (vm_compute; (lia || done)).
  exists w'. exact Hr.
Defined.

(** C39: unplugging the device between the completion of a control-IN transfer and the caller's
    wake-up is undefined behaviour: the callback has freed the transfer and cleared the pointer
    through which [usb_drv_control] then copies the data. *)
Theorem control_unplug_race {Q} `{Queue Q} E setup max_in actual buf sem dev x (w : world (usb_state Q)) :
  u_dev (st w) = Some dev -> u_ctrl_xfer (st w) = Some x -> len (x_buf x) = CTRL_BUF ->
  u_ctrl_done (st w) = Some sem -> q_items sem = [] -> 0 < q_cap sem ->
  len setup = 8 -> 0 < max_in <= 1024 -> 8 < actual <= CTRL_BUF -> len buf = CTRL_BUF ->
  (forall t d, r_ret (E t (CUsbTransferSubmit XCtrl 0 d)) = ESP_OK) ->
  (forall t, r_events (E t (CBlock 2000)) = [EvCtrl USB_TRANSFER_STATUS_COMPLETED actual buf; EvDevGone]) ->
  usb_drv_control setup None max_in E w = None.
Proof.
  intros Hd Hx Hl Hs Hempty Hcap Hsl Hm Ha Hbl Hsub Hev.
  destruct (control_in_submits E setup max_in dev x w Hd Hx Hl Hsl Hm Hsub) as [r ->].
  destruct (q_send_ok _ tt sem) as (sem1 & Hsend & Hit & _); [by rewrite Hempty|]. rewrite Hempty in Hit.
  destruct (q_recv_ok _ _ _ _ Hit) as (sem2 & Hrecv & _ & _).
  destruct w as [[] t0]; cbn in Hd, Hx, Hs; simplify_eq.
  assert (exists s1 t1, block 2000 E (World (set_ctrl_xfer (Some (Xfer (x_ep x) (8 + max_in) (setup ++ drop 8 (x_buf x))))
      (UsbState u_rx_queue0 (Some dev) u_in_xfer0 u_out_xfer0 (Some x) u_in_ep0 u_out_ep0 u_in_mps0 u_out_mps0
         u_intf_num0 u_hub_connected0 u_hub_dev0 u_out_done0 (Some sem) u_out_status0 u_ctrl_status0 u_ctrl_actual0))
      (t0 ++ [(CUsbTransferSubmit XCtrl 0 (take (Z.to_nat (8 + max_in)) (setup ++ drop 8 (x_buf x))), r)])) =
    Some (tt, World s1 t1) /\ u_ctrl_done s1 = Some sem1 /\ u_ctrl_status s1 = 0 /\ u_ctrl_actual s1 = actual - 8 /\
      u_ctrl_xfer s1 = None) as (s1 & t1 & Hb & Hd1 & Hs1 & Ha1 & Hx1).
  { unfold block. erewrite mbind_some by reflexivity. rewrite Hev. cbn [run_events run_event].
    unfold ctrl_transfer_cb, on_dev_gone, mbind, M_bind, modify, get, checked, call_ext, mret, M_ret.
    cbn -[Z.sub Z.ltb]. destruct (Z.ltb_spec 8 actual); [|lia]. rewrite Hsend. cbn -[Z.sub].
    destruct u_in_xfer0, u_out_xfer0; cbn -[Z.sub]; do 2 eexists; (split; [reflexivity|]); done. }
  unfold control_finish, sem_take. cbn [st tr]. erewrite mbind_some.
  2:{ erewrite mbind_some by exact Hb. erewrite mbind_some by reflexivity. cbn [st]. rewrite Hd1.
      erewrite mbind_some by reflexivity. rewrite Hrecv. reflexivity. }
  cbn [negb]. erewrite mbind_some by reflexivity. destruct s1; cbn in Hd1, Hs1, Ha1, Hx1; simplify_eq.
  cbn -[Z.sub Z.ltb buf_read]. destruct (Z.ltb_spec 0 max_in); [|lia]. destruct (Z.ltb_spec 0 (actual - 8)); [|lia].
  done.
Qed.

Lemma control_unplug_race_witness :
  usb_drv_control demo_setup None 18
    (usb_demo_env [EvCtrl 0 12 (zeros CTRL_BUF); EvDevGone]) (World (demo_state [] []) []) = None.
Proof.
  apply (control_unplug_race (usb_demo_env [EvCtrl 0 12 (zeros CTRL_BUF); EvDevGone])
    demo_setup 18 12 (zeros CTRL_BUF) (ListQueue 1 []) 42 (Xfer 0 0 (zeros CTRL_BUF)) (World (demo_state [] []) []));
    try reflexivity; vm_compute; (lia || done).
Defined.
