(* ===== verification/UsbTasks.v ===== *)
(** * The tasks around the USB driver (esp-codes/main/usb_driver.c)

    [usb_lib_task] runs the host library, [usb_watchdog_task] reports every five
    seconds what the hardware and the library see; one round of each loop is a
    step.  [usb_driver_safe] puts them, the entry points and the callbacks
    together in any order. *)

From stdpp Require Import strings pretty.
From S2P Require Import Prelude Effects Rtos Session UsbDriver.

Definition USB_HOST_LIB_EVENT_FLAGS_NO_CLIENTS : Z := 0x01.

Section Tasks.
Context {Q : Type -> Type} `{Queue Q}.

(** One round of [usb_lib_task]. *)
Definition usb_lib_task : M (usb_state Q) unit :=
  r ← call_ext CUsbLibEvents;
  let event_flags := u32 (r_aux r) in
  when (negb (event_flags =? 0))
    (when (negb (Z.land event_flags USB_HOST_LIB_EVENT_FLAGS_NO_CLIENTS =? 0)) (call_ext CUsbFreeAll ;; mret tt)).

(** ** The watchdog *)

(** Bits [n, n + w) of the register value [x]. *)
Definition field (x n w : Z) : Z := Z.land (Z.shiftr x n) (2 ^ w - 1).
(** [%08lX] *)
Definition hex8 (x : Z) : bytes :=
  (fun k => let d := field x (4 * k) 4 in if d <? 10 then 48 + d else 55 + d) <$> [7; 6; 5; 4; 3; 2; 1; 0].
(** [ESP_LOGW] *)
Definition log_warn (msg : bytes) : M (usb_state Q) unit := call_ext (CLog 2 msg) ;; mret tt.

Definition no_device_line (hprt wrap_otg heap : Z) : bytes :=
  str "No app-level device open | HPRT=0x" ++ hex8 hprt ++ str " conn=" ++ str (pretty (field hprt 0 1)) ++
  str " ena=" ++ str (pretty (field hprt 2 1)) ++ str " pwr=" ++ str (pretty (field hprt 12 1)) ++
  str " lineState=" ++ str (pretty (field hprt 10 2)) ++ str " speed=" ++ str (pretty (field hprt 17 2)) ++
  str " | PHY_internal=" ++ str (pretty (field wrap_otg 2 1)) ++ str " | heap=" ++ str (pretty heap).
Definition hub_only_line (hprt : Z) : bytes :=
  str "Hub open, no app-level downstream device | HPRT=0x" ++ hex8 hprt.
Definition count_line (n : Z) : bytes := str "--- BACKEND ENUMERATED DEVICES: " ++ str (pretty n) ++ str " ---".
Definition address_line (a : Z) : bytes := str "  Device Address: " ++ str (pretty a).

(** The line on the state of the driver. *)
Definition watchdog_status (hprt wrap_otg : Z) : M (usb_state Q) unit :=
  s ← get;
  if negb (u_hub_connected s) && bool_decide (u_dev s = None) then
    heap ← call_ext CHeapSize; log_warn (no_device_line hprt wrap_otg (r_ret heap))
  else if u_hub_connected s && bool_decide (u_dev s = None) then log_warn (hub_only_line hprt)
  else mret tt.

(** The lines on what the library has enumerated; [r_out] is [dev_addr_list]. *)
Definition watchdog_devices : M (usb_state Q) unit :=
  r ← call_ext (CUsbAddrList 10);
  when (r_ret r =? ESP_OK)
    (let num_devs := r_aux r in
     if 0 <? num_devs then
       log_warn (count_line num_devs) ;;
       for_range (Z.to_nat num_devs) 0 (fun i => a ← checked (arr_get (r_out r) i); log_warn (address_line a))
     else log_warn (str "--- BACKEND ENUMERATED DEVICES: 0 ---")).

(** One round of [usb_watchdog_task]. *)
Definition usb_watchdog_task : M (usb_state Q) unit :=
  call_ext (CDelay 5000) ;;
  hprt ← call_ext (CReg false);
  wrap_otg ← call_ext (CReg true);
  watchdog_status (u32 (r_ret hprt)) (u32 (r_ret wrap_otg)) ;;
  watchdog_devices.
End Tasks.

(** The library fills in as many addresses as it reports, and no more than there is room for. *)
Definition addr_list_ok (E : env) : Prop := forall t n, let r := E t (CUsbAddrList n) in
  0 <= n -> r_ret r = ESP_OK -> 0 <= r_aux r <= n /\ len (r_out r) = r_aux r.

(** The lines a round of the watchdog prints. *)
Definition status_lines {Q} (s : usb_state Q) (hprt wrap_otg heap : Z) : list bytes :=
  match u_dev s with
  | Some _ => []
  | None => [if u_hub_connected s then hub_only_line hprt else no_device_line hprt wrap_otg heap]
  end.
Definition device_lines (addrs : bytes) : list bytes := count_line (len addrs) :: (address_line <$> addrs).
(** The texts logged by some calls. *)
Definition warned (cs : list call) : list bytes := omap (fun c => match c with CLog 2 m => Some m | _ => None end) cs.

Section Watchdog.
Context {Q : Type -> Type} `{Queue Q} (E : env).
Implicit Types (w : world (usb_state Q)).

Lemma warn_wp msg w (P : unit -> world (usb_state Q) -> Prop) :
  (forall r, P tt (World (st w) (tr w ++ [(CLog 2 msg, r)]))) -> wp (log_warn msg) E w P.
Proof. intros HP. unfold log_warn. apply wp_bind, wp_call. intros r _. by apply wp_ret. Qed.

Lemma lib_task_keeps w : wp usb_lib_task E w (fun _ w' => st w' = st w).
Proof. unfold usb_lib_task, when. by repeat wp_step. Qed.

Lemma status_wp hprt wrap w :
  wp (watchdog_status hprt wrap) E w (fun _ w' => st w' = st w /\
    exists d heap, tr w' = tr w ++ d /\ warned (calls d) = status_lines (st w) hprt wrap heap).
Proof.
  unfold watchdog_status, status_lines. apply wp_bind, wp_get. destruct (u_dev (st w)) as [dev|].
  - rewrite bool_decide_false, !andb_false_r by done. apply wp_ret. split; [done|]. exists [], 0. by rewrite app_nil_r.
  - rewrite bool_decide_true, !andb_true_r by done. destruct (u_hub_connected (st w)); cbn [negb].
    + apply warn_wp. intros r. split; [done|]. eexists _, 0. split; [done|]. done.
    + apply wp_bind, wp_call. intros h _. apply warn_wp. intros r. split; [done|]. cbn [st tr]. eexists _, (r_ret h).
      rewrite <- app_assoc. split; [done|]. done.
Qed.

Lemma warned_app cs ds : warned (cs ++ ds) = warned cs ++ warned ds.
Proof. apply omap_app. Qed.

Lemma devices_wp w :
  addr_list_ok E ->
  wp watchdog_devices E w (fun _ w' => st w' = st w /\
    exists d, tr w' = tr w ++ d /\ (warned (calls d) = [] \/
      exists addrs, len addrs <= 10 /\ warned (calls d) = device_lines addrs)).
Proof.
  intros Ha. unfold watchdog_devices. apply wp_bind, wp_call. intros r Hr. unfold when. destruct (Z.eqb_spec (r_ret r) ESP_OK) as [Hok|].
  2:{ apply wp_ret. split; [done|]. eexists. split; [done|]. by left. }
  specialize (Ha (tr w) 10). rewrite <- Hr in Ha. destruct (Ha ltac:(lia) Hok) as [Hn Hlen].
  destruct (Z.ltb_spec 0 (r_aux r)).
  - apply wp_bind, warn_wp. intros rl. cbn [st tr].
    apply (wp_for_range E _ _ _ (fun i w' => st w' = st w /\ exists d, tr w' = tr w ++ d /\
      warned (calls d) = count_line (r_aux r) :: (address_line <$> take (Z.to_nat i) (r_out r)))).
    + split; [done|]. eexists. rewrite <- app_assoc. split; [done|]. done.
    + intros i w' Hi (Hst & d & Ht & Hw). destruct (arr_get_Some (r_out r) i) as [a Hg]; [lia|].
      apply wp_bind. eapply wp_checked; [exact Hg|]. apply warn_wp. intros r'. split; [done|].
      eexists (d ++ _). cbn [tr]. rewrite Ht, <- app_assoc. split; [done|]. rewrite fmap_app, warned_app, Hw.
      apply arr_get_inv in Hg as [_ Hg]. replace (Z.to_nat (i + 1)) with (S (Z.to_nat i)) by lia.
      rewrite (take_S_r _ _ _ Hg), fmap_app. done.
    + intros w' (Hst & d & Ht & Hw). split; [done|]. exists d. split; [done|]. right. exists (r_out r). split; [lia|].
      rewrite Hw. unfold device_lines. rewrite take_ge by lia. by rewrite Hlen.
  - apply warn_wp. intros rl. split; [done|]. cbn [tr]. eexists. rewrite <- app_assoc. split; [done|]. right. exists []. done.
Qed.

(** A round of the watchdog changes nothing of the driver, reads only addresses the library filled in,
    and prints the state of the driver and then what is enumerated. *)
Theorem watchdog_reports w :
  addr_list_ok E ->
  wp usb_watchdog_task E w (fun _ w' => st w' = st w /\ exists d hprt wrap heap addrs,
    tr w' = tr w ++ d /\ len addrs <= 10 /\
    (warned (calls d) = status_lines (st w) hprt wrap heap ++ device_lines addrs \/
     warned (calls d) = status_lines (st w) hprt wrap heap)).
Proof.
  intros Ha. unfold usb_watchdog_task. do 3 (apply wp_bind, wp_call; intros ? _). cbn [st tr].
  apply wp_bind. eapply wp_mono; [|apply status_wp]. intros [] w1 (Hst1 & d1 & heap & Ht1 & Hw1). cbn [st tr] in *.
  eapply wp_mono; [|by apply devices_wp]. intros [] w2 (Hst2 & d2 & Ht2 & Hw2). split; [by rewrite Hst2|].
  eexists (_ :: _ :: _ :: d1 ++ d2), _, _, heap. rewrite Ht2, Ht1, <- !app_assoc.
  destruct Hw2 as [Hw2|(addrs & Hl & Hw2)]; [exists []|exists addrs]; (split; [done|]; split; [done || (cbn; lia)|]).
  - right. cbn. rewrite fmap_app, warned_app, Hw1, Hw2. by rewrite app_nil_r.
  - left. cbn. by rewrite fmap_app, warned_app, Hw1, Hw2.
Qed.
End Watchdog.

(** ** Any sequence of operations and callbacks *)

Inductive usb_op :=
| OpRecv (max : Z)
| OpSend (buf : bytes)
| OpSendBlocking (buf : bytes)
| OpControl (setup : bytes) (out_data : option bytes) (max_in : Z)
| OpEvent (ev : usb_event)
| OpLibTask
| OpWatchdog.

Definition op_ok (o : usb_op) : Prop :=
  match o with
  | OpRecv max => 0 <= max
  | OpControl setup out max_in =>
      len setup = 8 /\ bytes_ok setup /\ from_option (fun d => bytes_ok d) True out /\ 0 <= max_in
  | OpEvent ev => event_ok ev
  | _ => True
  end.

Definition run_op {Q} `{Queue Q} (o : usb_op) : M (usb_state Q) unit :=
  match o with
  | OpRecv max => usb_drv_recv max ;; mret tt
  | OpSend buf => usb_drv_send buf ;; mret tt
  | OpSendBlocking buf => usb_drv_send_blocking buf ;; mret tt
  | OpControl setup out max_in => usb_drv_control setup out max_in ;; mret tt
  | OpEvent ev => run_event ev
  | OpLibTask => usb_lib_task
  | OpWatchdog => usb_watchdog_task
  end.

Fixpoint run_ops {Q} `{Queue Q} (os : list usb_op) : M (usb_state Q) unit :=
  match os with [] => mret tt | o :: os' => run_op o ;; run_ops os' end.

Lemma run_op_wp {Q} `{Queue Q} E o (w : world (usb_state Q)) :
  bus_ok E -> addr_list_ok E -> op_ok o -> usb_inv (st w) -> wp (run_op o) E w (fun _ w' => usb_inv (st w')).
Proof.
  intros Hq Hl Ho Hi. destruct o as [max|buf|buf|setup out max_in|ev| |]; cbn [run_op op_ok] in *;
    try (apply wp_bind; apply (wp_mono _ _ _ (fun _ w' => usb_inv (st w'))); [by intros|]).
  - eapply wp_mono; [|by apply usb_drv_recv_wp]. by intros ? ? [].
  - by apply usb_drv_send_wp.
  - by apply usb_drv_send_blocking_wp.
  - destruct Ho as (? & ? & ? & ?). eapply wp_mono; [|by apply usb_drv_control_wp]. by intros ? ? [].
  - eapply wp_mono; [|apply run_event_wp; [apply (bo_alloc _ Hq)|done|done]]. by intros [] w' [? _].
  - eapply wp_mono; [|apply lib_task_keeps]. by intros [] w' ->.
  - eapply wp_mono; [|by apply watchdog_reports]. by intros [] w' [-> _].
Qed.

Lemma run_ops_wp {Q} `{Queue Q} E os (w : world (usb_state Q)) :
  bus_ok E -> addr_list_ok E -> Forall op_ok os -> usb_inv (st w) ->
  wp (run_ops os) E w (fun _ w' => usb_inv (st w')).
Proof.
  intros Hq Hl Ho. revert w. induction Ho as [|o os Ho _ IH]; intros w Hi; cbn [run_ops]; [done|].
  apply wp_bind. eapply wp_mono; [|by apply run_op_wp]. intros [] w' Hi'. by apply IH.
Qed.

(** The states [usb_drv_init] can leave behind when it succeeds. *)
Lemma usb_drv_init_wp {Q} `{Queue Q} E (t : trace) :
  wp usb_drv_init E (World (usb_state0 (Q := Q)) t) (fun ok w' => ok = true -> usb_inv (st w')).
Proof.
  unfold usb_drv_init. repeat wp_step; try done. intros _.
  repeat match goal with H : (_ || _) = false |- _ => apply orb_false_elim in H as [? ?] end.
  repeat match goal with H : (_ =? _) = false |- _ => rewrite H in * end.
  destruct (q_create_items usb_frame_t USB_RX_QUEUE_DEPTH) as [Hi Hc].
  cbn. constructor; cbn; eauto; try done.
  eexists. split; [done|]. by rewrite Hi, Hc.
Qed.

(** C11: after a successful [usb_drv_init], no interleaving of receive, send and control calls with
    transfer completions, plug and unplug events, and rounds of the library and watchdog tasks
    reaches undefined behaviour (out-of-bounds copy, NULL transfer, missing queue), and the driver's
    invariant holds at the end: queued frames fit their 512-byte buffers, the OUT and control
    buffers have the sizes the copies rely on.  Completions, plugs and unplugs may come between the
    calls and while a call waits.  What the library must do is [bus_ok] and [addr_list_ok]: its
    completions are well formed, it never fails to allocate a transfer, an unplug makes a control
    transfer that is being waited for fail, and it reports no more addresses than it has filled in. *)
Theorem usb_driver_safe {Q} `{Queue Q} E os t w :
  bus_ok E -> addr_list_ok E -> Forall op_ok os ->
  usb_drv_init E (World (usb_state0 (Q := Q)) t) = Some (true, w) ->
  exists w', run_ops os E w = Some (tt, w') /\ usb_inv (st w').
Proof.
  intros Hq Hl Ho Hin. pose proof (usb_drv_init_wp (Q := Q) E t) as Hw. unfold wp in Hw. rewrite Hin in Hw.
  destruct (wp_run _ _ _ _ (run_ops_wp E os w Hq Hl Ho (Hw eq_refl))) as ([] & w' & ? & ?). eauto.
Qed.

(** A bus on which the device goes away whenever a call waits. *)
Definition flaky_env : env := usb_demo_env [EvIn 0 4 [1; 2; 3; 4]; EvCtrl 7 8 (zeros CTRL_BUF); EvDevGone].

Lemma flaky_bus_ok : bus_ok flaky_env.
Proof.
  constructor.
  - intros t ms. cbn [r_events usb_demo_env flaky_env].
    apply Forall_cons_2; [|apply Forall_cons_2; [|by apply Forall_cons_2]]; cbn [event_ok].
    + split; [intros _; cbn; lia|solve_bytes].
    + unfold CTRL_BUF. split_and!; [lia|lia|lia|by rewrite zeros_length|apply zeros_ok].
  - by intros t slot size.
  - intros t evs _. by exists 7.
Qed.

Definition demo_ops : list usb_op :=
  [OpEvent (EvNewDev demo_dev); OpRecv 64; OpEvent (EvNewDev demo_dev); OpControl demo_setup None 18; OpEvent (EvNewDev demo_dev);
   OpSendBlocking [1]; OpSend [1]; OpWatchdog; OpLibTask].

Lemma usb_driver_safe_witness :
  exists w w', usb_drv_init flaky_env (World (usb_state0 (Q := list_queue)) []) = Some (true, w) /\
    run_ops demo_ops flaky_env w = Some (tt, w').
Proof.
  eexists.
  destruct (usb_driver_safe (Q := list_queue) flaky_env demo_ops []
    (World (UsbState (Some (ListQueue 8 [])) None None None None 0 0 64 64 0 false None
       (Some (ListQueue 1 [])) (Some (ListQueue 1 [])) 0 0 0)
       [(CQueueCreate 8, Reply 1 [] 0 []); (CSemCreate, Reply 1 [] 0 []); (CSemCreate, Reply 1 [] 0 []);
        (CUsbNewPhy, Reply 0 [] 0 []); (CUsbHostInstall, Reply 0 [] 0 []); (CUsbClientRegister, Reply 0 [] 0 []);
        (CTaskCreate usb_lib_task_id, Reply 0 [] 0 []); (CTaskCreate usb_client_task_id, Reply 0 [] 0 []);
        (CTaskCreate usb_watchdog_task_id, Reply 0 [] 0 [])]))
    as (w' & Hr & _).
  - exact flaky_bus_ok.
  - intros t n r Hn _. subst r. cbn. lia.
  - assert (event_ok (EvNewDev demo_dev)) as Hdev by (repeat (apply Forall_cons_2; [by split|]); constructor).
    assert (op_ok (OpControl demo_setup None 18)) by (split_and!; [done|unfold demo_setup; solve_bytes|done|lia]).
    unfold demo_ops. repeat (apply Forall_cons_2; [done|]). constructor.
  - vm_compute. reflexivity.
  - exists w'. split; [vm_compute; reflexivity|exact Hr].
Defined.
