(* ===== verification/UsbipProxy.v ===== *)
(** * USB/IP proxy and event channel (esp-codes/main/device_session.c)

    [node] is the part of the firmware one device session works on: its
    [session_t], the function-static receive buffer of [usb_handle_submit], the
    TCP socket of the device events, and the state of the USB driver.  The
    driver is any type with the interfaces [DeviceOps] and [UsbBackend]. *)

From S2P Require Import Prelude Effects Descriptors Rtos Protocol Usbip Session Reasm.

(** sizeof in_buf, sizeof s_rx_buf[0], sizeof s_tx_buf[0] *)
Definition IN_BUF : Z := 1280.
Definition RX_BUF : Z := HDR + FHDR + MTU_PAYLOAD + 8.
Definition TX_BUF : Z := 1600.

Record node (D : Type) := Node {
  n_sess : session_t;
  n_event_sock : Z;
  n_event_connected : bool;
  n_in_buf : bytes;
  n_drv : D;
}.
Arguments Node {_} _ _ _ _ _.
Arguments n_sess {_} _.
Arguments n_event_sock {_} _.
Arguments n_event_connected {_} _.
Arguments n_in_buf {_} _.
Arguments n_drv {_} _.

Section Proxy.
Context {D : Type} `{DeviceOps D, UsbBackend D}.
Abbreviation MN := (M (node D)).

Definition set_sess (s : session_t) (n : node D) : node D :=
  Node s (n_event_sock n) (n_event_connected n) (n_in_buf n) (n_drv n).
Definition set_event (sock : Z) (conn : bool) (n : node D) : node D :=
  Node (n_sess n) sock conn (n_in_buf n) (n_drv n).
Definition set_in_buf (b : bytes) (n : node D) : node D :=
  Node (n_sess n) (n_event_sock n) (n_event_connected n) b (n_drv n).
Definition set_drv (d : D) (n : node D) : node D :=
  Node (n_sess n) (n_event_sock n) (n_event_connected n) (n_in_buf n) d.

Definition sess_l : lens (node D) session_t := Lens n_sess set_sess.
Definition drv_l : lens (node D) D := Lens n_drv set_drv.

(** ** DEVICE_EVENT over TCP *)

(** A fresh socket, connected to the daemon. *)
Definition event_open : MN unit :=
  n ← get;
  r ← call_ext (CSocket SOCK_STREAM);
  modify (set_event (r_ret r) (n_event_connected n)) ;;
  if r_ret r <? 0 then modify (set_event (r_ret r) false) else
  c ← call_ext (CConnect (r_ret r) (s_daemon_ip (n_sess n)) DAEMON_PORT);
  if r_ret c <? 0 then
    call_ext (CClose (r_ret r)) ;; modify (set_event (-1) false)
  else modify (set_event (r_ret r) true).

Definition ensure_event_tcp_connected : MN unit :=
  n ← get;
  if (0 <=? n_event_sock n) && n_event_connected n then mret tt else
  when (0 <=? n_event_sock n) (call_ext (CClose (n_event_sock n)) ;; mret tt) ;;
  event_open.

Definition send_device_event (event : Z) : MN unit :=
  ensure_event_tcp_connected ;;
  n ← get;
  if (n_event_sock n <? 0) || negb (n_event_connected n) then mret tt else
  let cfg := s_cfg (n_sess n) in
  let reply_port := u16 (DEVICE_BASE_PORT + cfg_device_id cfg) in
  seq ← zoom sess_l next_seq;
  let hdr := mkHeader CMD_DEVICE_EVENT (cfg_device_id cfg) 0 seq (sizeof DeviceEventPayload) in
  let dep := mkDeviceEvent (cfg_device_id cfg) event (cfg_speed cfg) (cfg_usb_class cfg)
               (cfg_subclass cfg) (cfg_protocol cfg) reply_port in
  let cap := HDR + sizeof DeviceEventPayload in
  pkt ← checked (put_at cap [] 0 (encode hdr));
  pkt ← checked (put_at cap pkt HDR (encode dep));
  r ← call_ext (CSend (n_event_sock n) pkt);
  if negb (r_ret r =? len pkt) then
    call_ext (CClose (n_event_sock n)) ;; modify (set_event (-1) false)
  else mret tt.

(** ** [usb_handle_submit] *)

Definition RET_UNLINK_of (unlink : usbip_cmd_unlink_t) : usbip_ret_unlink_t :=
  {| ru_command := USBIP_U32 USBIP_RET_UNLINK; ru_seqnum := cu_seqnum unlink; ru_devid := 0;
     ru_direction := 0; ru_ep := 0; ru_status := 0; ru_padding := zeros 24 |}.

Definition RET_SUBMIT_of (cmd : usbip_cmd_submit_t) (status actual : Z) : usbip_ret_submit_t :=
  {| rs_command := USBIP_U32 USBIP_RET_SUBMIT; rs_seqnum := cs_seqnum cmd; rs_devid := 0;
     rs_direction := cs_direction cmd; rs_ep := cs_ep cmd;
     rs_status := USBIP_U32 (u32 status); rs_actual_length := USBIP_U32 (u32 actual);
     rs_start_frame := 0; rs_number_of_packets := USBIP_U32 0xFFFFFFFF; rs_error_count := 0;
     rs_padding := zeros 8 |}.

(** A driver call that fills [in_buf]. *)
Definition into_in_buf (m : M D (Z * bytes)) : MN Z :=
  r ← zoom drv_l m;
  n ← get;
  b ← checked (buf_write (n_in_buf n) 0 r.2);
  modify (set_in_buf b) ;; mret r.1.

(** The USB transfer of a CMD_SUBMIT: [actual] and [status]. *)
Definition submit_transfer (cmd : usbip_cmd_submit_t) (data_buf : bytes) : MN (Z * Z) :=
  let ep := USBIP_U32 (cs_ep cmd) in
  let direction := USBIP_U32 (cs_direction cmd) in
  let length := USBIP_U32 (cs_transfer_buffer_length cmd) in
  let data_avail := len data_buf in
  let max_in := if length <? IN_BUF then length else IN_BUF in
  let out_len := if length <? data_avail then length else data_avail in
  if ep =? 0 then
    if direction =? USBIP_DIR_IN then
      actual ← into_in_buf (usb_control (cs_setup cmd) None max_in);
      mret (if actual <? 0 then (0, 1) else (actual, 0))
    else
      out ← checked (buf_read data_buf 0 out_len);
      r ← zoom drv_l (usb_control (cs_setup cmd) (Some out) 0);
      mret (0, if r.1 <? 0 then 1 else 0)
  else if direction =? USBIP_DIR_IN then
    n ← into_in_buf (ops_recv max_in);
    mret (if n <? 0 then (0, 1) else (n, 0))
  else
    out ← checked (buf_read data_buf 0 out_len);
    r ← zoom drv_l (usb_send_blocking out);
    mret (0, if negb (r =? 0) then 1 else 0).

(** Build and send RET_SUBMIT. *)
Definition submit_reply (cmd : usbip_cmd_submit_t) (actual status : Z) : MN unit :=
  let direction := USBIP_U32 (cs_direction cmd) in
  let in_data_len := if (direction =? USBIP_DIR_IN) && (0 <? actual) then actual else 0 in
  let resp_total := USBIP_HDR + in_data_len in
  p ← call_ext (CMalloc resp_total);
  if r_ret p =? 0 then mret tt else
  resp ← checked (buf_write (zeros resp_total) 0 (ret_submit_encode (RET_SUBMIT_of cmd status actual)));
  n ← get;
  data ← checked (buf_read (n_in_buf n) 0 in_data_len);
  resp ← checked (buf_write resp USBIP_HDR data);
  zoom sess_l (send_raw resp) ;;
  call_ext CFree ;; mret tt.

Definition usb_handle_submit (raw : bytes) : MN unit :=
  if len raw <? USBIP_HDR then mret tt else
  cmd ← checked (cmd_submit_decode raw);
  let command := USBIP_U32 (cs_command cmd) in
  if command =? USBIP_CMD_UNLINK then
    unlink ← checked (cmd_unlink_decode raw);
    zoom sess_l (send_raw (ret_unlink_encode (RET_UNLINK_of unlink)))
  else if negb (command =? USBIP_CMD_SUBMIT) then mret tt else
  p ← submit_transfer cmd (drop (Z.to_nat USBIP_HDR) raw);
  submit_reply cmd p.1 p.2.

(** ** One datagram of [session_down_task] *)

(** The body of the receive loop after [recvfrom] returned [n >= 0] bytes in [buf]. *)
Definition down_datagram (buf : bytes) : MN unit :=
  if len buf <? HDR then mret tt else
  hdr ← checked (decode buf);
  let payload := drop (Z.to_nat HDR) buf in
  let pay_len := len payload in
  n ← get;
  let s := n_sess n in
  if h_cmd_type hdr =? CMD_RAW_DATA then
    if cfg_usbip_mode (s_cfg s) then usb_handle_submit payload
    else zoom drv_l (ops_send payload) ;; mret tt
  else if h_cmd_type hdr =? CMD_RAW_FRAG then
    if pay_len <? FHDR then mret tt else
    fhdr ← checked (decode payload);
    let chunk := drop (Z.to_nat FHDR) payload in
    let chunk_len := u16 (pay_len - FHDR) in
    if cfg_usbip_mode (s_cfg s) then mret tt else
    p ← zoom drv_l (reasm_push (s_reasm s) (f_transfer_seq fhdr) (f_frag_idx fhdr) (f_frag_total fhdr) chunk chunk_len);
    modify (fun n => set_sess (set_reasm p.2 (n_sess n)) n)
  else mret tt.

End Proxy.

(** ** Invariants *)

Record sess_ok (s : session_t) : Prop := {
  sok_cfg : cfg_ok (s_cfg s);
  sok_seq : is_u8 (s_seq s);
  sok_tseq : is_u16 (s_out_transfer_seq s);
  sok_reasm : reasm_ok (s_reasm s);
}.

Lemma raw_advance_ok s data : sess_ok s -> sess_ok (raw_advance s data).
Proof.
  intros []. unfold raw_advance. repeat case_bool; constructor; cbn; auto with hub.
Qed.

Lemma cmd_submit_setup raw cmd :
  cmd_submit_decode raw = Some cmd -> bytes_ok raw -> len (cs_setup cmd) = 8 /\ bytes_ok (cs_setup cmd).
Proof.
  unfold cmd_submit_decode. intros Hd Hb.
  repeat match goal with
  | Hd : context [word_at raw ?k] |- _ => destruct (word_at raw k); cbn [mbind option_bind] in Hd; [|done]
  end.
  destruct (buf_read raw 40 8) as [su|] eqn:Hs; cbn [mbind option_bind] in Hd; [|done]. injection Hd as <-. cbn.
  split; [by eapply buf_read_length|]. apply buf_read_inv in Hs as (_ & _ & _ & ->). by apply Forall_take, Forall_drop.
Qed.

(** Writing a prefix keeps the size and the bytes of a buffer. *)
Lemma wp_prefix_write {S} (E : env) b src (w : world S) (P : bytes -> world S -> Prop) :
  len src <= len b -> bytes_ok b -> bytes_ok src ->
  (forall b', length b' = length b -> bytes_ok b' -> take (length src) b' = src -> P b' w) ->
  wp (checked (buf_write b 0 src)) E w P.
Proof.
  intros Hl Hb Hs HP. pose proof (buf_write_Some b 0 src) as Hw. specialize (Hw ltac:(lia) ltac:(lia)).
  eapply wp_checked; [exact Hw|]. apply HP; [by eapply buf_write_length|by eapply buf_write_ok|].
  change (Z.to_nat 0) with 0%nat. rewrite take_0, app_nil_l. by rewrite take_app_length.
Qed.

(** ** Sending from a node *)

Section Reply.
Context {D : Type} {E : env}.
Implicit Types (w : world (node D)).

Lemma send_raw_zoom data w :
  is_object data -> is_u8 (s_seq (n_sess (st w))) ->
  wp (zoom sess_l (send_raw data)) E w (fun _ w' =>
    st w' = set_sess (raw_advance (n_sess (st w)) data) (st w) /\
    calls (tr w') = calls (tr w) ++
      ((fun p => CSendto (s_sock (n_sess (st w))) p (s_daemon_ip (n_sess (st w))) DAEMON_PORT)
         <$> raw_datagrams (n_sess (st w)) data)).
Proof.
  intros Ho Hs. apply wp_zoom.
  eapply wp_mono; [|apply (send_raw_wp E data (World (n_sess (st w)) (tr w))); done].
  intros [] w' [Hst Htr]. cbn in Hst, Htr. by rewrite Hst.
Qed.

(** What the reply to a submit carries. *)
Definition reply_payload (cmd : usbip_cmd_submit_t) (actual status : Z) (in_buf : bytes) : bytes :=
  ret_submit_encode (RET_SUBMIT_of cmd status actual) ++
  (if USBIP_U32 (cs_direction cmd) =? USBIP_DIR_IN then take (Z.to_nat actual) in_buf else []).

Lemma submit_reply_wp cmd actual status w :
  sess_ok (n_sess (st w)) -> len (n_in_buf (st w)) = IN_BUF -> 0 <= actual <= IN_BUF ->
  wp (submit_reply cmd actual status) E w (fun _ w' =>
    let s := n_sess (st w) in
    let resp := reply_payload cmd actual status (n_in_buf (st w)) in
    len resp <= MTU_PAYLOAD /\
    if r_ret (E (tr w) (CMalloc (len resp))) =? 0
    then st w' = st w /\ calls (tr w') = calls (tr w) ++ [CMalloc (len resp)]
    else st w' = set_sess (raw_advance s resp) (st w) /\
      calls (tr w') = calls (tr w) ++ [CMalloc (len resp)] ++
        ((fun p => CSendto (s_sock s) p (s_daemon_ip s) DAEMON_PORT) <$> raw_datagrams s resp) ++ [CFree]).
Proof.
  intros Hs Hl Ha. unfold submit_reply. unfold IN_BUF, USBIP_HDR in *.
  set (n := if _ && _ then actual else 0). set (resp := reply_payload _ _ _ _).
  assert (0 <= n <= 1280) as Hnr by (unfold n; destruct (_ && _); lia).
  assert (resp = ret_submit_encode (RET_SUBMIT_of cmd status actual) ++ take (Z.to_nat n) (n_in_buf (st w))) as Hresp.
  { unfold resp, reply_payload, n. f_equal. destruct (_ =? USBIP_DIR_IN); [|done]. cbn [andb].
    destruct (Z.ltb_spec 0 actual); [done|]. by replace actual with 0 by lia. }
  pose proof (ret_submit_length (RET_SUBMIT_of cmd status actual) eq_refl) as Hrl. unfold USBIP_HDR in Hrl.
  assert (len resp = 48 + n) as Hlen by (rewrite Hresp, length_app, length_take; lia).
  rewrite Hlen. repeat wp_step.
  - cbn. subst. rewrite Heqb. split_and!; [unfold MTU_PAYLOAD; lia|done|by rewrite fmap_app].
  - eapply wp_checked; [apply buf_write_Some; [lia|rewrite zeros_length; lia]|]. repeat wp_step.
    eapply wp_checked; [apply buf_read_Some; lia|]. apply wp_bind. rewrite drop_0.
    eapply (wp_checked _ _ resp).
    { rewrite buf_write_Some; [|lia|].
      - f_equal. rewrite Hresp. change (Z.to_nat 0) with 0%nat. rewrite take_0, app_nil_l.
        rewrite take_app_le, take_ge by lia. f_equal.
        rewrite drop_app_ge by (rewrite length_take; lia).
        rewrite drop_drop, drop_ge; [by rewrite app_nil_r|]. rewrite zeros_length, length_take. lia.
      - rewrite !length_app, length_drop, length_take, length_take, zeros_length. lia. }
    apply wp_bind. eapply wp_mono; [|apply send_raw_zoom; [|apply Hs]].
    2:{ rewrite Hlen. lia. }
    cbn [st tr]. intros [] w' (Hst & Htr). repeat wp_step. split; [unfold MTU_PAYLOAD; lia|].
    subst. rewrite Heqb. split; [done|]. rewrite fmap_app, Htr, fmap_app. cbn. by rewrite <- !app_assoc.
Qed.
End Reply.

Section ProxySafety.
Context {D : Type} {ops : DeviceOps D} {E : env} {ok : DeviceOpsOk D E} {be : UsbBackend D} {bok : UsbBackendOk D E}.
Implicit Types (w : world (node D)).

Record node_ok (n : node D) : Prop := {
  nok_sess : sess_ok (n_sess n);
  nok_buf : len (n_in_buf n) = IN_BUF /\ bytes_ok (n_in_buf n);
  nok_drv : d_inv (n_drv n);
}.

(** What a driver call leaves alone. *)
Definition only_driver (n n' : node D) : Prop :=
  n_sess n' = n_sess n /\ n_event_sock n' = n_event_sock n /\ n_event_connected n' = n_event_connected n.

Lemma node_ok_advance data n : node_ok n -> node_ok (set_sess (raw_advance (n_sess n) data) n).
Proof. intros [Hs Hb Hd]. constructor; cbn; [by apply raw_advance_ok|done|done]. Qed.

Lemma into_in_buf_wp m w (P : Z -> Prop) :
  node_ok (st w) -> only_calls non_socket m ->
  wp m E (World (n_drv (st w)) (tr w)) (fun r v => d_inv (st v) /\ len r.2 <= IN_BUF /\ bytes_ok r.2 /\ P r.1) ->
  wp (into_in_buf m) E w (fun n w' => node_ok (st w') /\ only_driver (st w) (st w') /\ quiet_since (tr w) (tr w') /\ P n).
Proof.
  intros [Hs [Hl Hb] _] Hq Hm. unfold into_in_buf. apply wp_bind, wp_zoom.
  eapply wp_mono; [|exact (wp_calls _ _ _ _ _ Hq Hm)].
  intros [z data] v [(Hd & Hlen & Hok & HP) Hcalls]. cbn [fst snd] in *. repeat wp_step.
  apply wp_prefix_write; cbn; [lia|done|done|]. intros b' Hbl Hbo _. repeat wp_step. cbn.
  split; [|done]. constructor; cbn; [done|split; [lia|done]|done].
Qed.

Lemma drv_call_wp {A} (m : M D A) w (P : A -> Prop) :
  node_ok (st w) -> only_calls non_socket m -> wp m E (World (n_drv (st w)) (tr w)) (fun r v => d_inv (st v) /\ P r) ->
  wp (zoom drv_l m) E w (fun r w' => node_ok (st w') /\ only_driver (st w) (st w') /\ quiet_since (tr w) (tr w') /\ P r).
Proof.
  intros [Hs Hb _] Hq Hm. apply wp_zoom. eapply wp_mono; [|exact (wp_calls _ _ _ _ _ Hq Hm)].
  intros r v [[Hd HP] Hcalls]. cbn. split; [|done]. by constructor.
Qed.

(** The transfer of a submit returns with status 0 or 1 and a length that fits the receive buffer,
    zero for anything but an IN transfer; a request for a positive number of bytes gets no more
    than that. *)
Definition transfer_post (cmd : usbip_cmd_submit_t) w (p : Z * Z) w' : Prop :=
  node_ok (st w') /\ only_driver (st w) (st w') /\ quiet_since (tr w) (tr w') /\ 0 <= p.1 <= IN_BUF /\ (p.2 = 0 \/ p.2 = 1) /\
  (USBIP_U32 (cs_direction cmd) <> USBIP_DIR_IN -> p.1 = 0) /\
  (0 < USBIP_U32 (cs_transfer_buffer_length cmd) -> p.1 <= USBIP_U32 (cs_transfer_buffer_length cmd)).

Lemma submit_transfer_wp cmd data w :
  node_ok (st w) -> len (cs_setup cmd) = 8 -> bytes_ok (cs_setup cmd) -> bytes_ok data ->
  wp (submit_transfer cmd data) E w (transfer_post cmd w).
Proof.
  intros Hn Hl Hsb Hb. unfold submit_transfer. pose proof (USBIP_U32_range (cs_transfer_buffer_length cmd)) as Hr.
  set (length := USBIP_U32 _) in *. unfold is_u32 in Hr.
  set (max_in := if length <? IN_BUF then _ else _). set (out_len := if length <? len data then _ else _).
  assert (0 <= max_in <= IN_BUF /\ max_in <= length /\ (0 < length -> 0 < max_in)) as (Hmax & Hml & Hmp)
    by (unfold max_in, IN_BUF; case_bool; lia).
  assert (0 <= out_len <= len data) as Hout by (unfold out_len; case_bool; lia).
  pose proof (nok_drv _ Hn) as Hd.
  destruct (USBIP_U32 (cs_ep cmd) =? 0); destruct (Z.eqb_spec (USBIP_U32 (cs_direction cmd)) USBIP_DIR_IN); apply wp_bind.
  - eapply wp_mono; [|apply (into_in_buf_wp _ _ (fun n => n <= IN_BUF /\ (0 < max_in -> n <= max_in))); [done|apply usb_control_calls|]].
    2:{ eapply wp_mono; [|apply usb_control_ok; done || lia]. unfold IN_BUF in *. intros r v (? & ? & ? & ? & Hx). split_and!; [done|lia|done|lia|].
        intros Hpos. destruct (Z.ltb_spec r.1 0); [lia|]. specialize (Hx eq_refl Hpos ltac:(lia)). lia. }
    intros n w' (Hn' & Ho & Hq & Hle & Hle'). apply wp_ret. unfold transfer_post, IN_BUF in *. fold length.
    split; [done|]. split; [done|]. split; [done|]. case_bool; cbn; split_and!; (lia || auto).
  - eapply wp_checked; [apply buf_read_Some; lia|]. apply wp_bind.
    eapply wp_mono; [|apply (drv_call_wp _ _ (fun _ => True)); [done|apply usb_control_calls|]].
    2:{ eapply wp_mono; [|apply usb_control_ok; [done|done| |lia|done]]; [by intros r v [? _]|]. cbn. by apply Forall_take, Forall_drop. }
    intros r w' (Hn' & Ho & Hq & _). apply wp_ret. unfold transfer_post, IN_BUF in *. fold length. cbn.
    split_and!; [done|done|done|lia|lia|case_bool; auto|done|lia].
  - eapply wp_mono; [|apply (into_in_buf_wp _ _ (fun n => n <= IN_BUF /\ (0 < max_in -> n <= max_in))); [done|apply ops_recv_calls|]].
    2:{ eapply wp_mono; [|apply ops_recv_ok; done || lia]. intros r v (? & ? & ? & ? & ?). split_and!; (done || lia). }
    intros n w' (Hn' & Ho & Hq & Hle & Hle'). apply wp_ret. unfold transfer_post, IN_BUF in *. fold length.
    split; [done|]. split; [done|]. split; [done|]. case_bool; cbn; split_and!; (lia || auto).
  - eapply wp_checked; [apply buf_read_Some; lia|]. apply wp_bind.
    eapply wp_mono; [|apply (drv_call_wp _ _ (fun _ => True)); [done|apply usb_send_blocking_calls|]].
    2:{ eapply wp_mono; [|apply usb_send_blocking_ok; [|done]]; [by intros r v ?|]. by apply Forall_take, Forall_drop. }
    intros r w' (Hn' & Ho & Hq & _). apply wp_ret. unfold transfer_post, IN_BUF in *. fold length. cbn.
    split_and!; [done|done|done|lia|lia|case_bool; auto|done|lia].
Qed.

(** A submit command: the transfer runs, then its reply is built from the receive buffer. *)
Lemma handle_submit_wp raw cmd w :
  node_ok (st w) -> bytes_ok raw -> USBIP_HDR <= len raw -> cmd_submit_decode raw = Some cmd ->
  USBIP_U32 (cs_command cmd) = USBIP_CMD_SUBMIT ->
  wp (usb_handle_submit raw) E w (fun _ w' => node_ok (st w') /\ exists w1 actual status,
    transfer_post cmd w (actual, status) w1 /\
    let s := n_sess (st w) in
    let resp := reply_payload cmd actual status (n_in_buf (st w1)) in
    len resp <= MTU_PAYLOAD /\
    if r_ret (E (tr w1) (CMalloc (len resp))) =? 0
    then st w' = st w1 /\ calls (tr w') = calls (tr w1) ++ [CMalloc (len resp)]
    else st w' = set_sess (raw_advance s resp) (st w1) /\
      calls (tr w') = calls (tr w1) ++ [CMalloc (len resp)] ++
        ((fun p => CSendto (s_sock s) p (s_daemon_ip s) DAEMON_PORT) <$> raw_datagrams s resp) ++ [CFree]).
Proof.
  intros Hn Hb Hl Hd Hc. unfold usb_handle_submit. destruct (Z.ltb_spec (len raw) USBIP_HDR); [lia|].
  destruct (cmd_submit_setup _ _ Hd Hb) as [Hsl Hsb].
  apply wp_bind. eapply wp_checked; [exact Hd|]. rewrite Hc. cbn [Z.eqb USBIP_CMD_SUBMIT USBIP_CMD_UNLINK negb Pos.eqb].
  apply wp_bind. eapply wp_mono; [|apply submit_transfer_wp; [done|done|done|by apply Forall_drop]].
  intros [actual status] w1 Hp. pose proof Hp as (Hn1 & (Hs1 & _) & _ & Ha & _).
  eapply wp_mono; [|apply submit_reply_wp; [apply Hn1|apply Hn1|done]]. cbn [fst snd]. intros [] w' [Hlen Hrest].
  rewrite Hs1 in Hrest. split; [|by exists w1, actual, status].
  destruct (_ =? 0); destruct Hrest as [-> _]; [done|]. rewrite <- Hs1. by apply node_ok_advance.
Qed.

Lemma usb_handle_submit_wp raw w :
  node_ok (st w) -> bytes_ok raw -> wp (usb_handle_submit raw) E w (fun _ w' => node_ok (st w')).
Proof.
  intros Hn Hb. destruct (Z.ltb_spec (len raw) USBIP_HDR) as [Hlt|Hge].
  { unfold usb_handle_submit. destruct (Z.ltb_spec (len raw) USBIP_HDR); [by apply wp_ret|lia]. }
  destruct (cmd_submit_decode_Some raw Hge) as [cmd Hd].
  destruct (decide (USBIP_U32 (cs_command cmd) = USBIP_CMD_SUBMIT)) as [Hc|Hc].
  { eapply wp_mono; [|by apply (handle_submit_wp raw cmd)]. by intros [] w' [? _]. }
  unfold usb_handle_submit. destruct (Z.ltb_spec (len raw) USBIP_HDR); [lia|]. apply wp_bind.
  eapply wp_checked; [exact Hd|]. destruct (_ =? USBIP_CMD_UNLINK).
  - destruct (cmd_unlink_decode_Some raw Hge) as [u Hu]. apply wp_bind. eapply wp_checked; [exact Hu|].
    eapply wp_mono; [|apply send_raw_zoom; [|apply Hn]]; [intros [] w' [-> _]; by apply node_ok_advance|].
    rewrite ret_unlink_length by reflexivity. reflexivity.
  - destruct (Z.eqb_spec (USBIP_U32 (cs_command cmd)) USBIP_CMD_SUBMIT); [destruct (Hc ltac:(assumption))|]. apply wp_ret. exact Hn.
Qed.

Lemma down_datagram_wp buf w :
  node_ok (st w) -> bytes_ok buf -> len buf <= RX_BUF ->
  wp (down_datagram buf) E w (fun _ w' => node_ok (st w')).
Proof.
  intros Hn Hb Hl. unfold down_datagram, RX_BUF, HDR, FHDR, MTU_PAYLOAD in *. cbn in Hl.
  destruct (Z.ltb_spec (len buf) (sizeof Header)) as [|Hge]; [by apply wp_ret|]. cbn in Hge.
  destruct buf as [|b0 [|b1 [|b2 [|b3 [|b4 [|b5 pay]]]]]]; cbn in Hge; try lia.
  apply wp_bind. eapply wp_checked; [reflexivity|]. apply wp_bind, wp_get.
  change (drop (Z.to_nat (sizeof Header)) (b0 :: b1 :: b2 :: b3 :: b4 :: b5 :: pay)) with pay. cbn [h_cmd_type].
  assert (bytes_ok pay) as Hp by (by do 6 apply Forall_cons_1 in Hb as [_ Hb]). cbn in Hl.
  destruct (b0 =? CMD_RAW_DATA).
  { destruct (cfg_usbip_mode _); [by apply usb_handle_submit_wp|]. apply wp_bind.
    eapply wp_mono; [|apply (drv_call_wp _ _ (fun _ => True)); [done|apply ops_send_calls|]].
    - intros r w' (? & _). by apply wp_ret.
    - eapply wp_mono; [|apply ops_send_ok; [done|apply Hn]]. by intros r v ?. }
  destruct (b0 =? CMD_RAW_FRAG); [|by apply wp_ret].
  destruct (Z.ltb_spec (len pay) (sizeof FragHeader)) as [|Hge2]; [by apply wp_ret|]. cbn in Hge2.
  destruct pay as [|f0 [|f1 [|f2 [|f3 chunk]]]]; cbn in Hge2; try lia.
  apply wp_bind. eapply wp_checked; [reflexivity|].
  change (drop (Z.to_nat (sizeof FragHeader)) (f0 :: f1 :: f2 :: f3 :: chunk)) with chunk.
  destruct (cfg_usbip_mode _); [by apply wp_ret|]. cbn [length f_transfer_seq f_frag_idx f_frag_total].
  change (sizeof FragHeader) with 4. cbn [length] in Hl. rewrite u16_id by solve_width.
  do 4 (let H := fresh "Hf" in apply Forall_cons_1 in Hp as [H Hp]). destruct Hn as [Hs Hbuf Hd].
  apply wp_bind, wp_zoom. eapply wp_mono; [|apply reasm_push_wp; [apply Hs|done|lia|done|done]].
  intros r v [Hr Hv]. cbn beta in *. repeat wp_step. destruct Hs. constructor; [constructor|..]; assumption.
Qed.
End ProxySafety.

(** ** The event channel owns at most one descriptor *)

Section EventChannel.
Context {D : Type} (E : env).
Implicit Types (w : world (node D)).

Definition event_fds (n : node D) : list Z := if 0 <=? n_event_sock n then [n_event_sock n] else [].

(** The packet a device event becomes. *)
Definition event_packet (s : session_t) (event : Z) : bytes :=
  let c := s_cfg s in
  encode (mkHeader CMD_DEVICE_EVENT (cfg_device_id c) 0 (s_seq s) (sizeof DeviceEventPayload)) ++
  encode (mkDeviceEvent (cfg_device_id c) event (cfg_speed c) (cfg_usb_class c) (cfg_subclass c) (cfg_protocol c)
            (u16 (DEVICE_BASE_PORT + cfg_device_id c))).

Definition event_inv (rest : list Z) w : Prop :=
  holds_at true (tr w) (event_fds (st w)) rest /\ (n_event_connected (st w) = true -> 0 <= n_event_sock (st w)).

(** Only the event socket's variables change. *)
Definition only_event (n n' : node D) : Prop :=
  n_sess n' = n_sess n /\ n_in_buf n' = n_in_buf n /\ n_drv n' = n_drv n.

Lemma event_open_wp rest w :
  holds_at true (tr w) [] rest ->
  wp event_open E w (fun _ w' => event_inv rest w' /\ only_event (st w) (st w')).
Proof.
  intros Hf. unfold event_open, event_inv, event_fds. repeat wp_step; cbn [st tr set_event n_event_sock n_event_connected];
    (split; [split|done]); try lia.
  - destruct (Z.leb_spec 0 (r_ret r)); [lia|]. pose proof (holds_socket _ [] rest SOCK_STREAM r Hf) as Hh.
    destruct (Z.leb_spec 0 (r_ret r)); [lia|done].
  - cbn. holds_step. holds_step. pose proof (holds_socket _ [] rest SOCK_STREAM r Hf) as Hh.
    destruct (Z.leb_spec 0 (r_ret r)); [done|lia].
  - pose proof (holds_socket _ [] rest SOCK_STREAM r Hf) as Hh. destruct (Z.leb_spec 0 (r_ret r)); [|lia].
    by holds_step.
Qed.

Lemma ensure_event_wp rest w :
  event_inv rest w ->
  wp ensure_event_tcp_connected E w (fun _ w' => event_inv rest w' /\ only_event (st w) (st w')).
Proof.
  intros [Hf Hc]. unfold ensure_event_tcp_connected. apply wp_bind, wp_get.
  destruct ((0 <=? n_event_sock (st w)) && n_event_connected (st w)); [by apply wp_ret|].
  unfold event_fds in Hf. unfold when. destruct (0 <=? n_event_sock (st w)); repeat wp_step.
  - apply (event_open_wp rest (World _ _)). cbn [tr]. by holds_step.
  - by apply event_open_wp.
Qed.

(** A device event: afterwards the channel still owns what its variables say; a packet is sent at most
    once, on the channel's open socket, and one sequence number is used for it. *)
Lemma send_device_event_wp rest event w :
  event_inv rest w ->
  wp (send_device_event event) E w (fun _ w' => event_inv rest w' /\
    n_in_buf (st w') = n_in_buf (st w) /\ n_drv (st w') = n_drv (st w) /\
    (n_sess (st w') = n_sess (st w) \/
     n_sess (st w') = set_seq (u8 (s_seq (n_sess (st w)) + 1)) (n_sess (st w)) /\
     exists fd r, (CSend fd (event_packet (n_sess (st w)) event), r) ∈ tr w' /\
       (n_event_connected (st w') = true <-> r_ret r = 14))).
Proof.
  intros Hi. unfold send_device_event. apply wp_bind. eapply wp_mono; [|by apply (ensure_event_wp rest)].
  intros [] w1 [[Hf Hc] (Hs & Hb & Hd)]. apply wp_bind, wp_get.
  destruct (Z.ltb_spec (n_event_sock (st w1)) 0) as [|Hsock]; cbn [orb]; [apply wp_ret; by split_and!; [split|..|left]|].
  destruct (n_event_connected (st w1)) eqn:Hcon; cbn [negb]; [|apply wp_ret; split_and!; [split; [done|by rewrite Hcon]|done|done|by left]].
  apply wp_bind, wp_zoom, wp_next_seq. cbn [st tr l_get l_put sess_l]. rewrite <- Hs, <- Hb, <- Hd.
  apply wp_bind, wp_put_at; [done|by rewrite encode_size|].
  apply wp_bind, wp_put_at; [by rewrite app_nil_l, encode_size|by rewrite encode_size|]. rewrite app_nil_l.
  change (encode (mkHeader _ _ _ _ _) ++ _) with (event_packet (n_sess (st w1)) event).
  unfold event_fds in Hf. destruct (Z.leb_spec 0 (n_event_sock (st w1))); [|lia].
  repeat wp_step; unfold event_inv, event_fds; cbn [st tr set_sess set_event n_event_sock n_event_connected n_sess n_in_buf n_drv].
  - split; [split; [by repeat holds_step|done]|]. split_and!; [done|done|right]. split; [done|].
    exists (n_event_sock (st w1)), r. split; [apply elem_of_app; left; apply elem_of_app; right; by apply list_elem_of_singleton|]. split; [done|]. intros Ha. by rewrite Ha in *.
  - destruct (Z.leb_spec 0 (n_event_sock (st w1))); [|lia].
    split; [split; [by holds_step|done]|]. split_and!; [done|done|right]. split; [done|].
    exists (n_event_sock (st w1)), r. split; [apply elem_of_app; right; by apply list_elem_of_singleton|]. split; [|done]. intros _.
    change (len (event_packet _ _)) with 14 in *. by destruct (Z.eqb_spec (r_ret r) 14).
Qed.
End EventChannel.

(** ** Properties of the proxy *)

(** A device that answers every control read with up to 18 bytes of 7. *)
#[global] Instance loopback_backend : UsbBackend (list bytes) := {|
  usb_control _ out max_in :=
    let n := match out with None => Z.min max_in 18 | Some _ => 0 end in mret (n, replicate (Z.to_nat n) 7);
  usb_send_blocking b := modify (fun l => l ++ [b]) ;; mret 0;
  usb_is_device_ready _ := true |}.

#[global] Instance loopback_backend_ok E : UsbBackendOk (list bytes) E.
Proof.
  split; [|done|intros; cbn; repeat only_step..]. intros setup out max_in w _ _ _ Hm _. apply wp_ret. cbn. rewrite length_replicate.
  split_and!; [done|destruct out; lia|apply Forall_replicate; solve_width|destruct out; lia|destruct out; lia].
Qed.

Definition demo_node : node (list bytes) := Node demo_session (-1) false (zeros IN_BUF) [].

Lemma demo_node_ok E : node_ok (E := E) demo_node.
Proof.
  constructor; cbn [demo_node n_sess n_in_buf n_drv].
  - constructor; [by repeat split|by split|by split|exact reasm_zero_ok].
  - split; [done|apply zeros_ok].
  - exact I.
Qed.

(** GET_DESCRIPTOR(device), 18 bytes, as the vhci driver sends it. *)
Definition demo_submit : bytes :=
  be32 1 ++ be32 77 ++ be32 2 ++ be32 1 ++ be32 0 ++ be32 0 ++ be32 18 ++ be32 0 ++ be32 0 ++ be32 0 ++
  [0x80; 6; 0; 1; 0; 0; 18; 0].

(** No datagram, well formed or not, makes the receive loop of a session touch memory out of
    bounds: its body returns and leaves the session, the receive buffer and the driver in order. *)
Theorem down_datagram_safe {D : Type} {ops : DeviceOps D} (E : env) (ok : DeviceOpsOk D E) {be : UsbBackend D}
    (bok : UsbBackendOk D E) buf (w : world (node D)) :
  node_ok (E := E) (st w) -> bytes_ok buf -> len buf <= RX_BUF ->
  exists w', down_datagram buf E w = Some (tt, w') /\ node_ok (E := E) (st w').
Proof.
  intros Hn Hb Hl. destruct (wp_run _ _ _ _ (down_datagram_wp buf w Hn Hb Hl)) as ([] & w' & ? & ?). eauto.
Qed.

Lemma down_datagram_safe_witness :
  exists w', down_datagram (encode (mkHeader CMD_RAW_DATA 0 0 0 48) ++ demo_submit) demo_env (World demo_node []) = Some (tt, w').
Proof.
  destruct (down_datagram_safe demo_env _ _ (encode (mkHeader CMD_RAW_DATA 0 0 0 48) ++ demo_submit) (World demo_node []))
    as (w' & Hr & _).
  - apply demo_node_ok.
  - repeat (apply Forall_cons_2; [by vm_compute|]). constructor.
  - by vm_compute.
  - exists w'. exact Hr.
Defined.

(** The reply to a CMD_SUBMIT: one unfragmented packet. *)
Definition submit_answered {D} (cmd : usbip_cmd_submit_t) (w w' : world (node D)) (actual status : Z) (data : bytes) : Prop :=
  let s := n_sess (st w) in
  let resp := ret_submit_encode (RET_SUBMIT_of cmd status actual) ++ data in
  n_sess (st w') = set_seq (u8 (s_seq s + 1)) s /\
  (exists usb, Forall non_socket usb /\ calls (tr w') = calls (tr w) ++ usb ++ [CMalloc (len resp);
    CSendto (s_sock s) (raw_packet (cfg_device_id (s_cfg s)) (s_seq s) resp) (s_daemon_ip s) DAEMON_PORT; CFree]) /\
  (status = 0 \/ status = 1) /\
  (if USBIP_U32 (cs_direction cmd) =? USBIP_DIR_IN then len data = actual /\ actual <= IN_BUF
   else actual = 0 /\ data = []) /\
  (0 < USBIP_U32 (cs_transfer_buffer_length cmd) -> actual <= USBIP_U32 (cs_transfer_buffer_length cmd)).

Lemma submit_answered_run {D : Type} {ops : DeviceOps D} (E : env) (ok : DeviceOpsOk D E) {be : UsbBackend D}
    (bok : UsbBackendOk D E) raw cmd (w : world (node D)) :
  node_ok (E := E) (st w) -> bytes_ok raw -> USBIP_HDR <= len raw -> cmd_submit_decode raw = Some cmd ->
  USBIP_U32 (cs_command cmd) = USBIP_CMD_SUBMIT -> 0 <= s_sock (n_sess (st w)) ->
  (forall t n, r_ret (E t (CMalloc n)) <> 0) ->
  exists w' actual status data, usb_handle_submit raw E w = Some (tt, w') /\ node_ok (E := E) (st w') /\
    submit_answered cmd w w' actual status data.
Proof.
  intros Hn Hb Hl Hd Hc Hsock Hm.
  destruct (wp_run _ _ _ _ (handle_submit_wp raw cmd w Hn Hb Hl Hd Hc)) as ([] & w' & Hr & Hn' & w1 & actual & status & Hp & Hlen & Hrest).
  destruct (Z.eqb_spec (r_ret (E (tr w1) (CMalloc (len (reply_payload cmd actual status (n_in_buf (st w1))))))) 0) as [H0|_];
    [by destruct (Hm _ _ H0)|].
  destruct Hp as (Hn1 & _ & (d & Hq & Hqs) & Ha & Hs & Hdir & Hmax). cbn [fst snd] in *. destruct Hrest as [Hst Htr].
  destruct (nok_buf _ Hn1) as [Hbl _].
  unfold raw_advance, raw_datagrams in *. destruct (Z.ltb_spec (s_sock (n_sess (st w))) 0); [lia|].
  destruct (Z.leb_spec (len (reply_payload cmd actual status (n_in_buf (st w1)))) MTU_PAYLOAD); [|lia].
  exists w', actual, status,
    (if USBIP_U32 (cs_direction cmd) =? USBIP_DIR_IN then take (Z.to_nat actual) (n_in_buf (st w1)) else []).
  split; [done|]. split; [done|]. split; [by rewrite Hst|]. split.
  { exists (calls d). split; [done|]. by rewrite Htr, Hq, fmap_app, <- app_assoc. }
  split; [done|]. split; [|done].
  destruct (Z.eqb_spec (USBIP_U32 (cs_direction cmd)) USBIP_DIR_IN); [rewrite length_take; lia|auto].
Qed.

(** C16: every CMD_SUBMIT is answered: on an active session (and with memory for the reply) the
    handler makes its USB calls and then sends exactly one datagram, a CMD_RAW_DATA packet that is
    never fragmented, carrying a RET_SUBMIT that echoes the request and, for an IN transfer, [actual_length] bytes of
    data, no more than a request for a positive number asked for.  The status is 0 or 1, and an OUT
    transfer always reports an actual length of 0. *)
Theorem submit_replied {D : Type} {ops : DeviceOps D} (E : env) (ok : DeviceOpsOk D E) {be : UsbBackend D}
    (bok : UsbBackendOk D E) raw cmd (w : world (node D)) :
  node_ok (E := E) (st w) -> bytes_ok raw -> USBIP_HDR <= len raw -> cmd_submit_decode raw = Some cmd ->
  USBIP_U32 (cs_command cmd) = USBIP_CMD_SUBMIT -> 0 <= s_sock (n_sess (st w)) ->
  (forall t n, r_ret (E t (CMalloc n)) <> 0) ->
  exists w' actual status data, usb_handle_submit raw E w = Some (tt, w') /\ node_ok (E := E) (st w') /\
    submit_answered cmd w w' actual status data.
Proof. by apply submit_answered_run. Qed.

(** In this environment calls succeed and [malloc] returns memory. *)
Definition rich_env : env := fun _ _ => Reply 1 [] 0 [].

Lemma submit_replied_witness :
  exists w' pre actual status data, usb_handle_submit demo_submit rich_env (World demo_node []) = Some (tt, w') /\
    calls (tr w') = pre ++ [CMalloc (48 + len data); CSendto 5 (raw_packet 0 7
      (be32 3 ++ be32 77 ++ be32 0 ++ be32 1 ++ be32 0 ++ be32 status ++ be32 actual ++ be32 0 ++ be32 0xFFFFFFFF ++
       zeros 12 ++ data)) 0x0100007F DAEMON_PORT; CFree].
Proof.
  destruct (submit_replied rich_env _ _ demo_submit
    {| cs_command := USBIP_U32 1; cs_seqnum := USBIP_U32 77; cs_devid := USBIP_U32 2; cs_direction := USBIP_U32 1;
       cs_ep := 0; cs_transfer_flags := 0; cs_transfer_buffer_length := USBIP_U32 18; cs_start_frame := 0;
       cs_number_of_packets := 0; cs_interval := 0; cs_setup := [0x80; 6; 0; 1; 0; 0; 18; 0] |} (World demo_node []))
    as (w' & actual & status & data & Hr & _ & _ & (pre & _ & Hc) & Hst & Hdata & _).
  - apply demo_node_ok.
  - repeat (apply Forall_cons_2; [by vm_compute|]). constructor.
  - by vm_compute.
  - vm_compute. reflexivity.
  - vm_compute. reflexivity.
  - by vm_compute.
  - done.
  - exists w', pre, actual, status, data. split; [exact Hr|]. cbn [demo_node n_sess st] in *.
    rewrite Hc. rewrite length_app, Nat2Z.inj_add, ret_submit_length by reflexivity.
    assert (is_u32 actual) as Ha by (destruct (_ =? USBIP_DIR_IN); unfold IN_BUF in Hdata; solve_width).
    unfold ret_submit_encode, RET_SUBMIT_of.
    cbn [rs_command rs_seqnum rs_devid rs_direction rs_ep rs_status rs_actual_length rs_start_frame
         rs_number_of_packets rs_error_count rs_padding cs_seqnum cs_direction cs_ep].
    rewrite !le32_swap, <- !app_assoc, (u32_id actual) by done.
    by destruct Hst as [-> | ->].
Defined.

(** Four bytes of a request survive the load into a struct and the store into the reply. *)
Lemma word_at_bytes b k x :
  word_at b k = Some x -> bytes_ok b -> le32 x = take 4 (drop (4 * k) b).
Proof.
  unfold word_at. intros Hx Hb. pose proof (Forall_drop _ (4 * k) _ Hb) as Hd.
  destruct (drop (4 * k) b) as [|b0 [|b1 [|b2 [|b3 rest]]]]; try done. injection Hx as <-.
  do 4 (let H := fresh in apply Forall_cons_1 in Hd as [H Hd]). by rewrite of_le32_inv.
Qed.

(** On the wire, the reply header to a CMD_SUBMIT is big-endian throughout: command 3, then the
    sequence number, direction and endpoint fields byte for byte as the request carried them (devid
    cleared), the status and length of the transfer, and number_of_packets 0xFFFFFFFF. *)
Theorem ret_submit_wire raw cmd status actual :
  cmd_submit_decode raw = Some cmd -> bytes_ok raw -> is_u32 status -> is_u32 actual ->
  ret_submit_encode (RET_SUBMIT_of cmd status actual) =
    be32 USBIP_RET_SUBMIT ++ take 4 (drop 4 raw) ++ be32 0 ++ take 4 (drop 12 raw) ++ take 4 (drop 16 raw) ++
    be32 status ++ be32 actual ++ be32 0 ++ be32 0xFFFFFFFF ++ zeros 12.
Proof.
  unfold cmd_submit_decode. intros Hd Hb Hs Ha.
  repeat match goal with
  | Hd : context [word_at raw ?k] |- _ =>
      let H := fresh "Hw" in destruct (word_at raw k) eqn:H; cbn [mbind option_bind] in Hd; [|done]; apply word_at_bytes in H; [|done]
  end.
  destruct (buf_read raw 40 8) as [su|] eqn:Hsu; cbn [mbind option_bind] in Hd; [|done]. injection Hd as <-.
  unfold ret_submit_encode, RET_SUBMIT_of.
  cbn [rs_command rs_seqnum rs_devid rs_direction rs_ep rs_status rs_actual_length rs_start_frame
       rs_number_of_packets rs_error_count rs_padding cs_seqnum cs_direction cs_ep].
  rewrite !le32_swap, !u32_id, Hw0, Hw2, Hw3 by done. done.
Qed.

Lemma ret_submit_wire_witness :
  exists cmd, cmd_submit_decode demo_submit = Some cmd /\
    ret_submit_encode (RET_SUBMIT_of cmd 0 18) =
      be32 3 ++ be32 77 ++ be32 0 ++ be32 1 ++ be32 0 ++ be32 0 ++ be32 18 ++ be32 0 ++ be32 0xFFFFFFFF ++ zeros 12.
Proof.
  destruct (cmd_submit_decode demo_submit) as [cmd|] eqn:Hd; [|exfalso; by vm_compute in Hd].
  exists cmd. split; [reflexivity|].
  exact (ret_submit_wire demo_submit cmd 0 18 Hd
    ltac:(repeat (apply Forall_cons_2; [by vm_compute|]); constructor) ltac:(by vm_compute) ltac:(by vm_compute)).
Defined.

(** A CMD_UNLINK is always answered with success, without touching the USB driver: one datagram
    with a RET_UNLINK that carries the request's sequence number and status 0. *)
Theorem unlink_replied {D : Type} {ops : DeviceOps D} {be : UsbBackend D} (E : env) raw cmd (w : world (node D)) :
  sess_ok (n_sess (st w)) -> bytes_ok raw -> USBIP_HDR <= len raw -> cmd_submit_decode raw = Some cmd ->
  USBIP_U32 (cs_command cmd) = USBIP_CMD_UNLINK -> 0 <= s_sock (n_sess (st w)) ->
  let s := n_sess (st w) in
  exists w', usb_handle_submit raw E w = Some (tt, w') /\ st w' = set_sess (set_seq (u8 (s_seq s + 1)) s) (st w) /\
    calls (tr w') = calls (tr w) ++ [CSendto (s_sock s) (raw_packet (cfg_device_id (s_cfg s)) (s_seq s)
      (be32 USBIP_RET_UNLINK ++ take 4 (drop 4 raw) ++ zeros 40)) (s_daemon_ip s) DAEMON_PORT].
Proof.
  intros Hn Hb Hl Hd Hc Hsock s. unfold usb_handle_submit. destruct (Z.ltb_spec (len raw) USBIP_HDR); [lia|].
  rewrite Hd. erewrite mbind_some by reflexivity. rewrite Hc, Z.eqb_refl.
  destruct (cmd_unlink_decode_Some raw Hl) as [u Hu]. rewrite Hu. erewrite mbind_some by reflexivity.
  assert (ret_unlink_encode (RET_UNLINK_of u) = be32 USBIP_RET_UNLINK ++ take 4 (drop 4 raw) ++ zeros 40) as ->.
  { unfold cmd_unlink_decode in Hu. destruct (word_at raw 0); cbn [mbind option_bind] in Hu; [|done].
    destruct (word_at raw 1) eqn:Hw; cbn [mbind option_bind] in Hu; [|done]. apply word_at_bytes in Hw; [|done].
    repeat match goal with
    | Hu : context [word_at raw ?k] |- _ => destruct (word_at raw k); cbn [mbind option_bind] in Hu; [|done]
    end.
    destruct (buf_read raw 24 24); cbn [mbind option_bind] in Hu; [|done]. injection Hu as <-.
    unfold ret_unlink_encode, RET_UNLINK_of.
    cbn [ru_command ru_seqnum ru_devid ru_direction ru_ep ru_status ru_padding cu_seqnum].
    rewrite le32_swap, Hw. done. }
  set (resp := be32 _ ++ _). assert (len resp = 48) as Hlen.
  { unfold resp. rewrite !length_app, length_take, length_drop, zeros_length. unfold USBIP_HDR in Hl. cbn [be32 length]. lia. }
  destruct (wp_run _ _ _ _ (send_raw_single_wp E resp (World s (tr w)) ltac:(done) ltac:(rewrite Hlen; done)))
    as ([] & w' & Hr & Hst & Htr). cbn [st tr] in *.
  exists (World (set_sess (st w') (st w)) (tr w')). unfold zoom. cbn [sess_l l_get l_put]. fold s. rewrite Hr, Hst. done.
Qed.

Definition demo_unlink : bytes := be32 2 ++ be32 78 ++ zeros 40.

Lemma unlink_replied_witness :
  exists w', usb_handle_submit demo_unlink demo_env (World demo_node []) = Some (tt, w') /\
    calls (tr w') = [CSendto 5 (raw_packet 0 7 (be32 4 ++ be32 78 ++ zeros 40)) 0x0100007F DAEMON_PORT].
Proof.
  destruct (cmd_submit_decode demo_unlink) as [cmd|] eqn:Hd; [|exfalso; by vm_compute in Hd].
  destruct (unlink_replied demo_env demo_unlink cmd (World demo_node [])) as (w' & Hr & _ & Hc).
  - apply (nok_sess _ (demo_node_ok demo_env)).
  - repeat (apply Forall_cons_2; [by vm_compute|]). constructor.
  - by vm_compute.
  - exact Hd.
  - vm_compute in Hd. injection Hd as <-. by vm_compute.
  - by vm_compute.
  - exists w'. split; [exact Hr|exact Hc].
Defined.

(** A payload shorter than a USB/IP header, or with a command that is neither submit nor unlink,
    has no effect at all: no reply, no USB transfer, no change of state. *)
Theorem malformed_ignored {D : Type} {ops : DeviceOps D} {be : UsbBackend D} (E : env) raw (w : world (node D)) :
  (forall cmd, USBIP_HDR <= len raw -> cmd_submit_decode raw = Some cmd ->
     USBIP_U32 (cs_command cmd) <> USBIP_CMD_SUBMIT /\ USBIP_U32 (cs_command cmd) <> USBIP_CMD_UNLINK) ->
  usb_handle_submit raw E w = Some (tt, w).
Proof.
  intros Hbad. unfold usb_handle_submit. destruct (Z.ltb_spec (len raw) USBIP_HDR) as [|Hl]; [done|].
  destruct (cmd_submit_decode_Some raw Hl) as [cmd Hd]. destruct (Hbad cmd Hl Hd) as [H1 H2]. rewrite Hd.
  erewrite mbind_some by reflexivity. apply Z.eqb_neq in H1, H2. by rewrite H2, H1.
Qed.

Lemma malformed_ignored_witness :
  usb_handle_submit (be32 9 ++ zeros 44) demo_env (World demo_node []) = Some (tt, World demo_node []).
Proof.
  apply (malformed_ignored demo_env (be32 9 ++ zeros 44) (World demo_node [])).
  intros cmd _ Hd. vm_compute in Hd. injection Hd as <-. by vm_compute.
Defined.

(** Device events one after the other, as the control task sends them. *)
Fixpoint send_events {D : Type} (evs : list Z) : M (node D) unit :=
  match evs with [] => mret tt | ev :: evs' => send_device_event ev ;; send_events evs' end.

(** However often the TCP connection fails, the event channel neither leaks a socket nor uses one
    it has closed: replaying every socket call of any sequence of events from a fresh start, each
    [connect], [send] and [close] is on the open descriptor, and at the end exactly the descriptor
    in s_event_sock is open. *)
Theorem event_socket_balanced {D : Type} (E : env) evs (n : node D) :
  n_event_sock n = -1 -> n_event_connected n = false ->
  exists w', send_events evs E (World n []) = Some (tt, w') /\ fd_replay true [] (tr w') = Some (event_fds (st w')).
Proof.
  intros Hs Hc. assert (event_inv [] (World n [])) as Hi.
  { split; cbn; [|by rewrite Hc]. unfold event_fds. rewrite Hs. apply holds_nil. }
  assert (wp (send_events evs) E (World n []) (fun _ w' => event_inv [] w')) as Hw.
  { revert Hi. generalize (World n ([] : trace)). clear. intros w. revert w. induction evs as [|ev evs IH]; intros w Hi; [done|].
    cbn [send_events]. apply wp_bind. eapply wp_mono; [|by apply (send_device_event_wp E [])]. intros [] w' [Hi' _]. by apply IH. }
  destruct (wp_run _ _ _ _ Hw) as ([] & w' & Hr & (l & Hl & Hp) & _). exists w'. split; [done|].
  rewrite Hl. f_equal. rewrite app_nil_r in Hp. unfold event_fds in *. destruct (0 <=? n_event_sock (st w')).
  - by apply Permutation_singleton_r in Hp.
  - by apply Permutation_nil_r in Hp.
Qed.

(** Sockets are numbered by the length of the trace; every third call fails. *)
Definition flaky_env : env := fun t c => Reply (if (length t mod 3 =? 2)%nat then -1 else len t) [] 0 [].

Lemma event_socket_balanced_witness :
  exists w', send_events [1; 2; 1; 2] flaky_env (World demo_node []) = Some (tt, w') /\
    fd_replay true [] (tr w') = Some (event_fds (st w')).
Proof. exact (event_socket_balanced flaky_env [1; 2; 1; 2] demo_node eq_refl eq_refl). Defined.
