(* ===== verification/Traffic.v ===== *)
(** * Traffic: which sockets a session's code uses

    Apart from the event channel, the code of a session only ever sends, and only
    on the reply socket stored in the session.  [sends_at] states that about a
    computation: from any state whose socket, configuration and event channel
    are [k], it leaves them alone and the socket calls it adds to the trace are
    [sendto]s on that socket.  The property is compositional, so it is
    established by walking through the code. *)

From S2P Require Import Prelude Effects Descriptors Protocol Session Reasm UsbipProxy.

Definition sock_call (sock : Z) (c : call) : Prop :=
  non_socket c \/ (0 <= sock /\ exists data ip port, c = CSendto sock data ip port).
Definition sock_traffic (sock : Z) (t t' : trace) : Prop := exists d, t' = t ++ d /\ Forall (sock_call sock) (calls d).

Lemma traffic_trans sock t1 t2 t3 : sock_traffic sock t1 t2 -> sock_traffic sock t2 t3 -> sock_traffic sock t1 t3.
Proof.
  intros (d1 & -> & H1) (d2 & -> & H2). exists (d1 ++ d2). rewrite app_assoc, fmap_app. split; [done|]. by apply Forall_app_2.
Qed.
Lemma traffic_refl sock t : sock_traffic sock t t.
Proof. exists []. rewrite app_nil_r. split; [done|constructor]. Qed.
Lemma traffic_call sock t c r : sock_call sock c -> sock_traffic sock t (t ++ [(c, r)]).
Proof. intros Hc. eexists. split; [done|]. by apply Forall_cons_2. Qed.

(** Sending on an open socket keeps the open descriptors. *)
Lemma holds_traffic lax sock t t' own rest :
  sock_traffic sock t t' -> (0 <= sock -> sock ∈ own) -> holds_at lax t own rest -> holds_at lax t' own rest.
Proof.
  intros (d & -> & Hd) Hown. revert t. induction d as [|[c r] d IH]; intros t Hf; [by rewrite app_nil_r|].
  apply Forall_cons_1 in Hd as [Hc Hd]. change (t ++ (c, r) :: d) with (t ++ [(c, r)] ++ d). rewrite app_assoc.
  apply IH; [done|]. cbn [fst] in Hc. destruct Hc as [Hc|(Hs & data & ip & port & ->)].
  - by apply holds_other; [destruct c..|].
  - eapply holds_use; [done..|by apply Hown|done].
Qed.

Section SendsAt.
Context {S K : Type} (key : S -> K) (sk : K -> Z).

Definition sends_at {A} (k : K) (m : M S A) : Prop :=
  forall E w a w', key (st w) = k -> m E w = Some (a, w') -> key (st w') = k /\ sock_traffic (sk k) (tr w) (tr w').

Lemma sends_ret {A} k (a : A) : sends_at k (mret a).
Proof. intros E w a' w' Hk [= _ <-]. split; [done|apply traffic_refl]. Qed.
Lemma sends_bind {A B} k (m : M S A) (f : A -> M S B) :
  sends_at k m -> (forall a, sends_at k (f a)) -> sends_at k (m ≫= f).
Proof.
  intros Hm Hf E w b w' Hk Hb. unfold mbind, M_bind in Hb. destruct (m E w) as [[a w1]|] eqn:H1; [|done].
  destruct (Hm _ _ _ _ Hk H1) as [Hk1 Ht1]. destruct (Hf _ _ _ _ _ Hk1 Hb) as [Hk2 Ht2].
  split; [done|]. by eapply traffic_trans.
Qed.
Lemma sends_get_bind {B} k (f : S -> M S B) :
  (forall s, key s = k -> sends_at k (f s)) -> sends_at k (get ≫= f).
Proof. intros Hf E w b w' Hk Hb. exact (Hf (st w) Hk E w b w' Hk Hb). Qed.
Lemma sends_call k c : sock_call (sk k) c -> sends_at k (call_ext c).
Proof. intros Hc E w a w' Hk [= _ <-]. split; [done|by apply traffic_call]. Qed.
Lemma sends_modify k f : (forall s, key (f s) = key s) -> sends_at k (modify f).
Proof. intros Hf E w a w' Hk [= _ <-]. cbn. rewrite Hf. split; [done|apply traffic_refl]. Qed.
Lemma sends_checked {A} k (o : option A) : sends_at k (checked o).
Proof. intros E w a w' Hk Ho. destruct o; [|done]. injection Ho as _ <-. split; [done|apply traffic_refl]. Qed.
Lemma sends_for_range k n from (body : Z -> M S unit) :
  (forall i, sends_at k (body i)) -> sends_at k (for_range n from body).
Proof.
  intros Hb. revert from. induction n as [|n IH]; intros from; cbn [for_range]; [apply sends_ret|].
  apply sends_bind; [apply Hb|intros _; apply IH].
Qed.
End SendsAt.

(** What the session's code must not change. *)
Definition sess_key (s : session_t) : Z * device_session_cfg_t := (s_sock s, s_cfg s).
Definition node_key {D} (n : node D) : (Z * device_session_cfg_t) * (Z * bool) :=
  (sess_key (n_sess n), (n_event_sock n, n_event_connected n)).
Abbreviation sess_sends := (sends_at sess_key fst).
Abbreviation node_sends := (sends_at node_key (fun k => k.1.1)).

Ltac sends_step :=
  match goal with
  | |- sends_at _ _ _ (mbind _ get) => apply sends_get_bind; intros ? ?
  | |- sends_at _ _ _ (mbind _ _) => apply sends_bind; [|intros ?]
  | |- sends_at _ _ _ (mret _) => apply sends_ret
  | |- sends_at _ _ _ (modify _) => apply sends_modify; intros ?; reflexivity
  | |- sends_at _ _ _ (checked _) => apply sends_checked
  | |- sends_at _ _ _ (for_range _ _ _) => apply sends_for_range; intros ?
  | |- sends_at _ _ _ (if ?b then _ else _) => destruct b eqn:?
  | |- sends_at _ _ _ (call_ext _) => apply sends_call; first [left; exact I | idtac]
  | H : _ |- sends_at _ _ _ _ => solve [apply H]
  end.

Lemma next_seq_sends k : sess_sends k next_seq.
Proof. unfold next_seq. repeat sends_step. Qed.
Lemma next_transfer_seq_sends k : sess_sends k next_transfer_seq.
Proof. unfold next_transfer_seq. repeat sends_step. Qed.

Lemma send_raw_sends k data : sess_sends k (send_raw data).
Proof.
  pose proof next_seq_sends. pose proof next_transfer_seq_sends. unfold send_raw, send_frag.
  apply sends_get_bind. intros s Hk. apply (f_equal fst) in Hk. cbn in Hk.
  destruct (Z.ltb_spec (s_sock s) 0); [apply sends_ret|].
  repeat sends_step; right; (split; [lia|]); rewrite <- Hk; eauto.
Qed.

Section NodeSends.
Context {D : Type}.

Lemma zoom_sess_sends {A} k (m : M session_t A) : (forall k, sess_sends k m) -> node_sends k (zoom (sess_l (D := D)) m).
Proof.
  intros Hm E w a w' Hk Hr. unfold zoom in Hr. destruct (m E _) as [[b v]|] eqn:Hv; [|done]. injection Hr as _ <-.
  subst k. destruct (Hm (sess_key (n_sess (st w))) E (World (n_sess (st w)) (tr w)) b v eq_refl Hv) as [Hk' Ht]. split; [|exact Ht].
  unfold node_key. cbn. by rewrite Hk'.
Qed.
Lemma zoom_drv_sends {A} k (m : M D A) : only_calls non_socket m -> node_sends k (zoom drv_l m).
Proof.
  intros Hm E w a w' Hk Hr. unfold zoom in Hr. destruct (m E _) as [[b v]|] eqn:Hv; [|done]. injection Hr as _ <-.
  destruct (Hm _ _ _ _ Hv) as (d & Ht & Hd). cbn in *. split; [done|]. exists d. split; [done|].
  eapply Forall_impl; [exact Hd|]. intros c Hc. by left.
Qed.
End NodeSends.

Section HandlerSends.
Context {D : Type} {ops : DeviceOps D} {E : env} {ok : DeviceOpsOk D E} {be : UsbBackend D} {bok : UsbBackendOk D E}.

Lemma reasm_push_calls r tseq idx total chunk clen :
  only_calls non_socket (reasm_push (D := D) r tseq idx total chunk clen).
Proof.
  assert (forall n i r, only_calls non_socket (reasm_flush (D := D) n i r)) as Hf.
  { induction n as [|n IH]; intros i r'; cbn [reasm_flush]; [apply only_ret|].
    pose proof (fun b => ops_send_calls (E := E) b). repeat only_step. }
  unfold reasm_push. repeat only_step.
Qed.

Lemma submit_transfer_sends k cmd data : node_sends k (submit_transfer (D := D) cmd data).
Proof.
  unfold submit_transfer, into_in_buf.
  repeat first [sends_step | apply zoom_drv_sends; first
    [apply (ops_recv_calls (E := E)) | apply usb_control_calls | apply usb_send_blocking_calls]].
Qed.

Lemma submit_reply_sends k cmd actual status : node_sends k (submit_reply (D := D) cmd actual status).
Proof.
  pose proof (fun k data => zoom_sess_sends (D := D) k (send_raw data) (fun k => send_raw_sends k data)).
  unfold submit_reply. repeat sends_step.
Qed.

(** The receive loop's body only sends on the session's own socket. *)
Lemma down_datagram_sends k buf : node_sends k (down_datagram (D := D) buf).
Proof.
  pose proof (fun k data => zoom_sess_sends (D := D) k (send_raw data) (fun k => send_raw_sends k data)).
  pose proof submit_transfer_sends. pose proof submit_reply_sends. unfold down_datagram, usb_handle_submit.
  repeat first [sends_step | apply zoom_drv_sends; first [apply (ops_send_calls (E := E)) | apply reasm_push_calls]].
Qed.
End HandlerSends.
