(* ===== verification/EndToEnd.v ===== *)
(** * The request path end to end

    The session's receive loop, the USB/IP proxy and the USB driver together:
    the proxy is proved against the driver's interface and the driver is proved
    to implement it, so both can be put together here. *)

From S2P Require Import Prelude Effects Descriptors Rtos Protocol Usbip Session Reasm UsbDriver UsbipProxy UsbTasks.

(** Datagrams handled one after the other. *)
Fixpoint handle_all {D : Type} `{DeviceOps D, UsbBackend D} (bufs : list bytes) : M (node D) unit :=
  match bufs with [] => mret tt | b :: bufs' => down_datagram b ;; handle_all bufs' end.

(** The invariant of a node whose driver is the USB driver. *)
Definition usb_node_ok {Q} `{Queue Q} (E : env) (Hq : bus_ok E) (n : node (usb_state Q)) : Prop :=
  node_ok (ok := usb_ops_ok E Hq) n.

Lemma usb_node_ok_inv {Q} `{Queue Q} E Hq (n : node (usb_state Q)) :
  usb_node_ok E Hq n -> sess_ok (n_sess n) /\ usb_inv (n_drv n) /\ len (n_in_buf n) = IN_BUF.
Proof. intros [Hs [Hb _] Hd]. done. Qed.

(** C8: the whole firmware path of a request is memory safe: any sequence of datagrams, handled by the
    session with the real USB driver behind it, runs to completion without undefined behaviour, and
    the invariants of the session and of the driver hold at the end.  Devices may be plugged in and
    unplugged while a request waits for the bus; of the library it is assumed ([bus_ok]) that its
    completions are well formed, that it never fails to allocate a transfer, and that an unplug
    makes a control transfer that is being waited for fail. *)
Theorem request_path_safe {Q} `{Queue Q} E bufs (w : world (node (usb_state Q))) :
  bus_ok E -> Forall (fun b => bytes_ok b /\ len b <= RX_BUF) bufs ->
  sess_ok (n_sess (st w)) -> usb_inv (n_drv (st w)) -> len (n_in_buf (st w)) = IN_BUF -> bytes_ok (n_in_buf (st w)) ->
  exists w', handle_all bufs E w = Some (tt, w') /\ sess_ok (n_sess (st w')) /\ usb_inv (n_drv (st w')).
Proof.
  intros Hq Hbs Hs Hd Hl Hb. assert (usb_node_ok E Hq (st w)) as Hn by (by constructor).
  assert (wp (handle_all bufs) E w (fun _ w' => usb_node_ok E Hq (st w'))) as Hw.
  { clear Hs Hd Hl Hb. revert w Hn. induction Hbs as [|b bufs [Hb Hl] _ IH]; intros w Hn; [done|].
    cbn [handle_all]. apply wp_bind. eapply wp_mono; [|by apply (down_datagram_wp (ok := usb_ops_ok E Hq) b)].
    intros [] w' Hn'. by apply IH. }
  destruct (wp_run _ _ _ _ Hw) as ([] & w' & Hr & Hn'). exists w'. apply usb_node_ok_inv in Hn' as (? & ? & _). done.
Qed.

Definition usb_demo_node : node (usb_state list_queue) :=
  Node demo_session (-1) false (zeros IN_BUF) (demo_state [] []).

Lemma demo_state_inv : usb_inv (demo_state [] []).
Proof.
  constructor; cbn; [by eexists; split_and!; [done|constructor|]|by eexists|by eexists|by split; split| | |by split].
  - intros x [= <-]. done.
  - intros x [= <-]. split; [done|]. apply (zeros_ok CTRL_BUF).
Qed.

Lemma demo_session_ok : sess_ok demo_session.
Proof. constructor; [by repeat split|by split|by split|exact reasm_zero_ok]. Qed.

Lemma request_path_safe_witness :
  exists w', handle_all [encode (mkHeader CMD_RAW_DATA 0 0 0 48) ++ demo_submit; [1; 2]]
    flaky_env (World usb_demo_node []) = Some (tt, w').
Proof.
  destruct (request_path_safe flaky_env [encode (mkHeader CMD_RAW_DATA 0 0 0 48) ++ demo_submit; [1; 2]]
    (World usb_demo_node [])) as (w' & Hr & _).
  - exact flaky_bus_ok.
  - repeat (apply Forall_cons_2; [split; [repeat (apply Forall_cons_2; [by vm_compute|]); constructor|by vm_compute]|]).
    constructor.
  - exact demo_session_ok.
  - exact demo_state_inv.
  - reflexivity.
  - apply zeros_ok.
  - exists w'. exact Hr.
Defined.

(** ** A control read, from the daemon's datagram to the reply *)

Lemma into_in_buf_run {D} E (m : M D (Z * bytes)) n data (w : world (node D)) v :
  m E (World (n_drv (st w)) (tr w)) = Some ((n, data), v) -> len data <= len (n_in_buf (st w)) ->
  into_in_buf m E w = Some (n, World (set_in_buf (data ++ drop (length data) (n_in_buf (st w)))
                                     (set_drv (st v) (st w))) (tr v)).
Proof.
  intros Hm Hl. unfold into_in_buf. erewrite mbind_some by (unfold zoom; cbn [drv_l l_get]; rewrite Hm; reflexivity).
  erewrite mbind_some by reflexivity. cbn [st n_in_buf set_drv drv_l l_put snd].
  rewrite buf_write_Some by lia. erewrite mbind_some by reflexivity. done.
Qed.

(** The reply of an IN transfer that left [data] in the receive buffer. *)
Lemma submit_reply_in {D} E cmd n data (n1 : node D) t :
  let s := n_sess n1 in
  sess_ok s -> len (n_in_buf n1) = IN_BUF -> 0 <= n <= IN_BUF -> USBIP_U32 (cs_direction cmd) = USBIP_DIR_IN ->
  take (Z.to_nat n) (n_in_buf n1) = data -> 0 <= s_sock s -> (forall t n, r_ret (E t (CMalloc n)) <> 0) ->
  exists w', submit_reply cmd n 0 E (World n1 t) = Some (tt, w') /\
    calls (tr w') = calls t ++ [CMalloc (48 + n);
      CSendto (s_sock s) (raw_packet (cfg_device_id (s_cfg s)) (s_seq s)
        (ret_submit_encode (RET_SUBMIT_of cmd 0 n) ++ data)) (s_daemon_ip s) DAEMON_PORT; CFree].
Proof.
  intros s Hs Hib Hn Hdir Htake Hsock Hm. unfold IN_BUF in *.
  destruct (wp_run _ _ _ _ (submit_reply_wp (E := E) cmd n 0 (World n1 t) Hs Hib ltac:(unfold IN_BUF; lia)))
    as ([] & w' & Hr & Hlen & Hrest). exists w'. split; [done|]. cbn [st tr] in Hrest, Hlen.
  unfold reply_payload in Hrest, Hlen. rewrite Hdir, Z.eqb_refl, Htake in Hrest, Hlen.
  set (resp := _ ++ data) in *. assert (len resp = 48 + n) as Hrlen.
  { unfold resp. rewrite length_app, Nat2Z.inj_add, ret_submit_length by reflexivity.
    rewrite <- Htake, length_take. unfold USBIP_HDR. lia. }
  destruct (Z.eqb_spec (r_ret (E t (CMalloc (len resp)))) 0) as [H0|_]; [by destruct (Hm _ _ H0)|].
  destruct Hrest as [_ ->]. rewrite Hrlen. f_equal. unfold raw_datagrams. fold s.
  destruct (Z.ltb_spec (s_sock s) 0); [lia|]. destruct (Z.leb_spec (len resp) MTU_PAYLOAD); [done|lia].
Qed.

(** A CMD_RAW_DATA datagram of a USB/IP session goes to the proxy. *)
Lemma down_usbip {D} `{DeviceOps D, UsbBackend D} E hdr raw (w : world (node D)) :
  header_wf hdr -> h_cmd_type hdr = CMD_RAW_DATA -> cfg_usbip_mode (s_cfg (n_sess (st w))) = true ->
  down_datagram (encode hdr ++ raw) E w = usb_handle_submit raw E w.
Proof.
  intros Hh Hct Hmode. pose proof (encode_size hdr) as He.
  unfold down_datagram. rewrite length_app, Nat2Z.inj_add, He.
  destruct (Z.ltb_spec (sizeof Header + len raw) HDR); [unfold HDR in *; lia|].
  erewrite mbind_some by (unfold checked; rewrite decode_encode by exact Hh; reflexivity).
  erewrite mbind_some by reflexivity. rewrite Hct, Hmode. cbn [Z.eqb CMD_RAW_DATA Pos.eqb].
  replace (drop (Z.to_nat HDR) (encode hdr ++ raw)) with raw; [done|].
  rewrite drop_app_ge by (unfold HDR; lia).
  by replace (Z.to_nat HDR - length (encode hdr))%nat with 0%nat by (unfold HDR; lia).
Qed.
Lemma down_submit {D} `{DeviceOps D, UsbBackend D} E hdr raw cmd (w : world (node D)) :
  header_wf hdr -> h_cmd_type hdr = CMD_RAW_DATA -> USBIP_HDR <= len raw -> cmd_submit_decode raw = Some cmd ->
  USBIP_U32 (cs_command cmd) = USBIP_CMD_SUBMIT -> cfg_usbip_mode (s_cfg (n_sess (st w))) = true ->
  down_datagram (encode hdr ++ raw) E w =
  (p ← submit_transfer cmd (drop (Z.to_nat USBIP_HDR) raw); submit_reply cmd p.1 p.2) E w.
Proof.
  intros Hh Hct Hrl Hd Hc Hmode. rewrite down_usbip by done.
  unfold usb_handle_submit. destruct (Z.ltb_spec (len raw) USBIP_HDR); [lia|]. rewrite Hd.
  erewrite mbind_some by reflexivity. rewrite Hc. done.
Qed.

(** C15: a control read works end to end.  When the daemon sends a CMD_SUBMIT for endpoint 0, direction
    IN, of [L] bytes (0 < L <= 1024), the device is idle and, once a control transfer that starts
    with the setup packet of the request has been submitted, answers [actual - 8] bytes, then the
    session submits that transfer once, of [8 + L] bytes, waits for it, and sends back one
    RET_SUBMIT datagram with status 0, the request's sequence number, the length
    min(actual - 8, L) and exactly the bytes the device wrote after the setup packet; it makes no
    other call but for the reply's buffer. *)
Theorem control_read_end_to_end {Q} `{Queue Q} E hdr raw cmd L actual dbuf sem dev x (w : world (node (usb_state Q))) :
  let s := n_sess (st w) in let d := n_drv (st w) in
  (* the request *)
  header_wf hdr -> h_cmd_type hdr = CMD_RAW_DATA -> bytes_ok raw -> USBIP_HDR <= len raw ->
  cmd_submit_decode raw = Some cmd -> USBIP_U32 (cs_command cmd) = USBIP_CMD_SUBMIT -> USBIP_U32 (cs_ep cmd) = 0 ->
  USBIP_U32 (cs_direction cmd) = USBIP_DIR_IN -> USBIP_U32 (cs_transfer_buffer_length cmd) = L -> 0 < L <= 1024 ->
  (* the session and the device *)
  sess_ok s -> cfg_usbip_mode (s_cfg s) = true -> 0 <= s_sock s -> len (n_in_buf (st w)) = IN_BUF ->
  u_dev d = Some dev -> u_ctrl_xfer d = Some x -> len (x_buf x) = CTRL_BUF ->
  u_ctrl_done d = Some sem -> q_items sem = [] -> 0 < q_cap sem ->
  (* the bus and the heap *)
  8 < actual <= CTRL_BUF -> len dbuf = CTRL_BUF ->
  (forall t p, r_ret (E t (CUsbTransferSubmit XCtrl 0 p)) = ESP_OK) ->
  (forall t p r, take 8 p = cs_setup cmd ->
    r_events (E (t ++ [(CUsbTransferSubmit XCtrl 0 p, r)]) (CBlock 2000)) = [EvCtrl USB_TRANSFER_STATUS_COMPLETED actual dbuf]) ->
  (forall t n, r_ret (E t (CMalloc n)) <> 0) ->
  let n := Z.min (actual - 8) L in let p := ctrl_submission (cs_setup cmd) L x in
  exists w', handle_all [encode hdr ++ raw] E w = Some (tt, w') /\ take 8 p = cs_setup cmd /\ len p = 8 + L /\
    calls (tr w') = calls (tr w) ++ [CUsbTransferSubmit XCtrl 0 p; CBlock 2000; CMalloc (48 + n);
      CSendto (s_sock s) (raw_packet (cfg_device_id (s_cfg s)) (s_seq s)
        (ret_submit_encode (RET_SUBMIT_of cmd 0 n) ++ take (Z.to_nat n) (drop 8 dbuf))) (s_daemon_ip s) DAEMON_PORT;
      CFree].
Proof.
  intros s d Hh Hct Hrb Hrl Hd Hc Hep Hdir HL HL' Hs Hmode Hsock Hib Hdev Hx Hxl Hsem Hit Hcap Ha Hdl Hsub Hev Hm n p.
  destruct (cmd_submit_setup _ _ Hd Hrb) as [Hsl Hsb]. unfold CTRL_BUF, IN_BUF in *.
  assert (take 8 (ctrl_submission (cs_setup cmd) L x) = cs_setup cmd) as Hp8.
  { unfold ctrl_submission. rewrite take_take, Nat.min_l by lia. rewrite take_app_le by lia. apply take_ge. lia. }
  destruct (control_in_run E (cs_setup cmd) L actual dbuf sem dev x (World d (tr w))) as (v & Hv & Hus); try done; [by intros r; apply Hev|].
  cbn zeta in Hv. fold n in Hv. set (data := take (Z.to_nat n) (drop 8 dbuf)) in *.
  assert (len data = n) as Hdatal by (unfold data; rewrite length_take, length_drop; lia).
  pose proof (into_in_buf_run E _ _ _ w v Hv ltac:(lia)) as Hi. set (st1 := set_in_buf _ _) in Hi.
  destruct (submit_reply_in E cmd n data st1 (tr v)) as (w' & Hr & Htr); try done.
  { unfold st1, IN_BUF. cbn [n_in_buf set_in_buf]. rewrite length_app, length_drop. lia. }
  { unfold IN_BUF. lia. }
  { unfold st1. cbn [n_in_buf set_in_buf]. replace (Z.to_nat n) with (length data) by lia. apply take_app_length. }
  cbn [tr] in Hus. exists w'. split; [|split; [exact Hp8|split]].
  2:{ unfold p, ctrl_submission. rewrite length_take, length_app, length_drop. lia. }
  2:{ by rewrite Htr, Hus, <- app_assoc. }
  cbn [handle_all]. enough (down_datagram (encode hdr ++ raw) E w = Some (tt, w')) as Hdown by (by rewrite (mbind_some _ _ _ _ _ _ Hdown)).
  rewrite (down_submit E hdr raw cmd w) by done.
  assert (submit_transfer cmd (drop (Z.to_nat USBIP_HDR) raw) E w = Some ((n, 0), World st1 (tr v))) as Ht.
  { unfold submit_transfer. rewrite Hep, Hdir, HL, !Z.eqb_refl. unfold IN_BUF.
    destruct (Z.ltb_spec L 1280); [|lia]. erewrite mbind_some by exact Hi. by destruct (Z.ltb_spec n 0); [lia|]. }
  by rewrite (mbind_some _ _ _ _ _ _ Ht).
Qed.

(** The request of [demo_submit], and a bus on which the device answers four bytes. *)
Definition demo_cmd : usbip_cmd_submit_t :=
  {| cs_command := USBIP_U32 1; cs_seqnum := USBIP_U32 77; cs_devid := USBIP_U32 2; cs_direction := USBIP_U32 1;
     cs_ep := 0; cs_transfer_flags := 0; cs_transfer_buffer_length := USBIP_U32 18; cs_start_frame := 0;
     cs_number_of_packets := 0; cs_interval := 0; cs_setup := demo_setup |}.
Definition demo_answer : bytes := demo_setup ++ [9; 8; 7; 6] ++ zeros 1020.
Definition read_env : env := fun t c =>
  match c with
  | CMalloc _ => Reply 1 [] 0 []
  | CBlock _ =>
      match last t with
      | Some (CUsbTransferSubmit XCtrl _ p, _) => Reply 0 [] 0 (if decide (take 8 p = demo_setup) then [EvCtrl 0 12 demo_answer] else [])
      | _ => Reply 0 [] 0 []
      end
  | _ => usb_demo_env [] t c
  end.

Lemma control_read_end_to_end_witness :
  exists w', handle_all [encode (mkHeader CMD_RAW_DATA 0 0 0 48) ++ demo_submit] read_env
      (World usb_demo_node []) = Some (tt, w') /\
    calls (tr w') = [CUsbTransferSubmit XCtrl 0 (demo_setup ++ zeros 18); CBlock 2000; CMalloc 52; CSendto 5 (raw_packet 0 7
      (be32 3 ++ be32 77 ++ be32 0 ++ be32 1 ++ be32 0 ++ be32 0 ++ be32 4 ++ be32 0 ++ be32 0xFFFFFFFF ++ zeros 12 ++
       [9; 8; 7; 6])) 0x0100007F DAEMON_PORT; CFree].
Proof.
  destruct (control_read_end_to_end read_env (mkHeader CMD_RAW_DATA 0 0 0 48) demo_submit demo_cmd 18 12 demo_answer
    (ListQueue 1 []) 42 (Xfer 0 0 (zeros CTRL_BUF)) (World usb_demo_node [])) as (w' & Hr & _ & _ & Hc);
    [|reflexivity| |by vm_compute|vm_compute; reflexivity..| |exact demo_session_ok|reflexivity|by vm_compute
     |vm_compute; reflexivity|reflexivity|reflexivity|vm_compute; reflexivity|reflexivity|reflexivity|reflexivity
     | |vm_compute; reflexivity|reflexivity| |done|].
  - unfold header_wf. cbn. split_and!; by vm_compute.
  - repeat (apply Forall_cons_2; [by vm_compute|]). constructor.
  - lia.
  - by vm_compute.
  - intros t p r Hp. unfold read_env. rewrite last_snoc. by rewrite decide_True.
  - exists w'. split; [exact Hr|]. rewrite Hc. vm_compute. reflexivity.
Defined.
