(* ===== verification/CrashReporter.v ===== *)
(** * Crash reporter (esp-codes/main/crash_reporter.[ch])

    A ring of 600 bytes in RTC memory, which survives a reset, keeps the last
    log output; at boot it is copied out in order, made printable and sent as
    log lines once the daemon is known.  [ring_contents] is what the ring holds,
    oldest byte first; the abstract ring is "the last 600 bytes appended". *)

From stdpp Require Import strings pretty.
From S2P Require Import Prelude Effects Rtos.

Definition CRASH_MAGIC : Z := 0xC0FFEE42.
Definition RTC_BUF_SIZE : Z := 600.
Definition PENDING_SIZE : Z := RTC_BUF_SIZE + 64.

(** [esp_reset_reason_t]. *)
Definition ESP_RST_POWERON : Z := 1.
Definition ESP_RST_SW : Z := 3.
Definition ESP_RST_PANIC : Z := 4.
Definition ESP_RST_INT_WDT : Z := 5.
Definition ESP_RST_TASK_WDT : Z := 6.
Definition ESP_RST_WDT : Z := 7.
Definition ESP_RST_BROWNOUT : Z := 9.

Record crash_t := Crash {
  c_magic : Z;
  c_buf : bytes;
  c_pos : Z;
  c_wrapped : bool;
  c_pending : bytes;
  c_has_pending : bool;
  c_pending_reason : Z;
}.

Definition set_ring (buf : bytes) (pos : Z) (wrapped : bool) (c : crash_t) : crash_t :=
  Crash (c_magic c) buf pos wrapped (c_pending c) (c_has_pending c) (c_pending_reason c).
Definition set_pending (p : bytes) (c : crash_t) : crash_t :=
  Crash (c_magic c) (c_buf c) (c_pos c) (c_wrapped c) p (c_has_pending c) (c_pending_reason c).

(** ** Appending *)

(** The body of the loop of [crash_reporter_append]. *)
Definition append_byte (c : crash_t) (b : Z) : option crash_t :=
  buf ← arr_set (c_buf c) (c_pos c) b;
  let pos := u16 (c_pos c + 1) in
  Some (if RTC_BUF_SIZE <=? pos then set_ring buf 0 true c else set_ring buf pos (c_wrapped c) c).

Fixpoint append_bytes (c : crash_t) (msg : bytes) : option crash_t :=
  match msg with
  | [] => Some c
  | b :: msg' => c' ← append_byte c b; append_bytes c' msg'
  end.

Definition crash_reporter_append (msg : bytes) (n : Z) (c : crash_t) : option crash_t :=
  if negb (c_magic c =? CRASH_MAGIC) then Some c else
  m ← buf_read msg 0 n; append_bytes c m.

(** ** Boot *)

(** [c < 0x20] holds for a negative [char]; such a byte is above 0x7E unsigned. *)
Definition sanitise_byte (c : Z) : Z :=
  if negb (c =? 10) && negb (c =? 9) && ((c <? 0x20) || (0x7E <? c)) then 46 else c.

(** [for (i = 0; i < out; i++)] over [s_pending]. *)
Fixpoint sanitise (p : bytes) (i : Z) (n : nat) : option bytes :=
  match n with
  | O => Some p
  | S n' => c ← arr_get p i; p' ← arr_set p i (sanitise_byte c); sanitise p' (i + 1) n'
  end.

(** The reconstruction of the ring in [s_pending]: the buffer and [out]. *)
Definition ring_copy_out (c : crash_t) : option (bytes * Z) :=
  if c_wrapped c then
    let tail := RTC_BUF_SIZE - c_pos c in
    a ← buf_read (c_buf c) (c_pos c) tail;
    p ← buf_write (c_pending c) 0 a;
    b ← buf_read (c_buf c) 0 (c_pos c);
    p ← buf_write p tail b;
    Some (p, tail + c_pos c)
  else
    a ← buf_read (c_buf c) 0 (c_pos c);
    p ← buf_write (c_pending c) 0 a;
    Some (p, c_pos c).

Definition is_crash (reason : Z) : bool :=
  (reason =? ESP_RST_PANIC) || (reason =? ESP_RST_TASK_WDT) || (reason =? ESP_RST_INT_WDT) ||
  (reason =? ESP_RST_WDT) || (reason =? ESP_RST_BROWNOUT) || (reason =? ESP_RST_SW).

(** The whole of [crash_reporter_init]; [true] when the report task is started. *)
Definition crash_reporter_init (reason : Z) (c : crash_t) : option (bool * crash_t) :=
  c1 ← (if is_crash reason && (c_magic c =? CRASH_MAGIC) && ((0 <? c_pos c) || c_wrapped c) then
          po ← ring_copy_out c;
          p ← arr_set po.1 po.2 0;
          p ← sanitise p 0 (Z.to_nat po.2);
          Some (Crash (c_magic c) (c_buf c) (c_pos c) (c_wrapped c) p true (u8 reason))
        else Some c);
  Some (c_has_pending c1,
        Crash CRASH_MAGIC (zeros RTC_BUF_SIZE) 0 false (c_pending c1) (c_has_pending c1) (c_pending_reason c1)).

(** ** The report *)

Definition reason_str (reason : Z) : bytes :=
  if reason =? ESP_RST_PANIC then str "PANIC" else
  if reason =? ESP_RST_TASK_WDT then str "TASK_WDT" else
  if reason =? ESP_RST_INT_WDT then str "INT_WDT" else
  if reason =? ESP_RST_WDT then str "WDT" else
  if reason =? ESP_RST_SW then str "SW_RESET" else
  if reason =? ESP_RST_BROWNOUT then str "BROWNOUT" else str "UNKNOWN".

(** ESP_LOGE *)
Definition log_error (msg : bytes) : M crash_t unit := call_ext (CLog 1 msg) ;; mret tt.

(** [for (off = 0; off < total; off += 200)]; [n] bounds the number of rounds. *)
Fixpoint send_chunks (n : nat) (off total : Z) (p : bytes) : M crash_t unit :=
  match n with
  | O => mret tt
  | S n' =>
      if off <? total then
        let chunk := if total - off <? 200 then total - off else 200 in
        m ← checked (buf_read p off chunk);
        log_error m ;; call_ext (CDelay 100) ;;
        send_chunks n' (off + 200) total p
      else mret tt
  end.

(** [crash_send_task] after its wait for the daemon. *)
Definition crash_send_task : M crash_t unit :=
  call_ext (CDelay 1500) ;;
  c ← get;
  let s := c_str (c_pending c) in
  let total := len s in
  log_error (str "====== PREVIOUS CRASH: " ++ reason_str (c_pending_reason c) ++ str " (code=" ++
             str (pretty (c_pending_reason c)) ++ str ") log_bytes=" ++ str (pretty total) ++ str " ======") ;;
  (if 0 <? total then send_chunks (Z.to_nat total) 0 total (c_pending c)
   else log_error (str "(no log captured before crash)")) ;;
  log_error (str "====== END CRASH REPORT ======").

(** ** The ring, abstractly *)

(** The last [n] bytes of a stream. *)
Definition lastn (n : nat) (l : bytes) : bytes := drop (length l - n) l.

Definition ring_contents (c : crash_t) : bytes :=
  if c_wrapped c then drop (Z.to_nat (c_pos c)) (c_buf c) ++ take (Z.to_nat (c_pos c)) (c_buf c)
  else take (Z.to_nat (c_pos c)) (c_buf c).

Record crash_ok (c : crash_t) : Prop := {
  cok_buf : len (c_buf c) = RTC_BUF_SIZE;
  cok_pos : 0 <= c_pos c < RTC_BUF_SIZE;
  cok_pending : len (c_pending c) = PENDING_SIZE;
}.

Lemma lastn_le n l : (length l <= n)%nat -> lastn n l = l.
Proof. intros Hl. unfold lastn. by replace (length l - n)%nat with 0%nat by lia. Qed.
Lemma lastn_app n a b : lastn n (lastn n a ++ b) = lastn n (a ++ b).
Proof.
  unfold lastn. rewrite <- (drop_app_le a b (length a - n)) by lia. rewrite drop_drop, length_drop, length_app.
  f_equal. lia.
Qed.
Lemma lastn_snoc_full n l b : length l = n -> (0 < n)%nat -> lastn n (l ++ [b]) = tail l ++ [b].
Proof. intros <- Hn. unfold lastn. destruct l; [cbn in Hn; lia|]. rewrite length_app. cbn. by replace (length l + 1 - length l)%nat with 1%nat by lia. Qed.

Lemma ring_contents_length c : crash_ok c ->
  length (ring_contents c) = if c_wrapped c then 600%nat else Z.to_nat (c_pos c).
Proof.
  intros []. unfold ring_contents, RTC_BUF_SIZE in *. destruct (c_wrapped c).
  - rewrite length_app, length_drop, length_take. lia.
  - rewrite length_take. lia.
Qed.

(** Dropping past, and taking up to, an updated position. *)
Lemma take_S_insert (l : bytes) i b : (i < length l)%nat -> take (S i) (<[i := b]> l) = take i l ++ [b].
Proof.
  intros Hi. rewrite (take_S_r _ _ b) by (by apply list_lookup_insert_eq). by rewrite take_insert_ge by lia.
Qed.

Lemma append_byte_spec c b :
  crash_ok c -> exists c', append_byte c b = Some c' /\ crash_ok c' /\ c_magic c' = c_magic c /\
    ring_contents c' = lastn 600 (ring_contents c ++ [b]).
Proof.
  intros Hok. pose proof (ring_contents_length c Hok) as Hrl. destruct Hok as [Hb Hp Hpe]. unfold RTC_BUF_SIZE in *.
  unfold append_byte. rewrite arr_set_Some by lia. cbn [mbind option_bind]. rewrite u16_id by solve_width.
  eexists. split; [done|]. set (i := Z.to_nat (c_pos c)) in *. assert (i < length (c_buf c))%nat as Hi by lia.
  destruct (Z.leb_spec RTC_BUF_SIZE (c_pos c + 1)) as [Hw|Hw]; unfold RTC_BUF_SIZE in Hw.
  - split; [constructor; cbn; unfold RTC_BUF_SIZE; rewrite ?length_insert; (done || lia)|]. split; [done|].
    unfold ring_contents in *. cbn. rewrite drop_0, app_nil_r. fold i in Hrl |- *.
    assert (<[i:=b]> (c_buf c) = take i (c_buf c) ++ [b]) as ->.
    { rewrite <- take_S_insert by lia. rewrite take_ge; [done|rewrite length_insert; lia]. }
    destruct (c_wrapped c).
    + rewrite lastn_snoc_full by lia.
      destruct (drop i (c_buf c)) as [|x d] eqn:Hd; [apply (f_equal length) in Hd; rewrite length_drop in Hd; cbn in Hd; lia|].
      apply (f_equal length) in Hd. rewrite length_drop in Hd. destruct d; [done|cbn in Hd; lia].
    + rewrite lastn_le; [done|]. rewrite length_app, length_take. cbn. lia.
  - split; [constructor; cbn; unfold RTC_BUF_SIZE; rewrite ?length_insert; (done || lia)|]. split; [done|].
    unfold ring_contents in *. cbn. replace (Z.to_nat (c_pos c + 1)) with (S i) by lia. rewrite take_S_insert by done.
    fold i in Hrl |- *. destruct (c_wrapped c).
    + rewrite lastn_snoc_full by lia. rewrite drop_insert_lt by lia. rewrite app_assoc. f_equal.
      destruct (drop i (c_buf c)) as [|x d] eqn:Hd; [apply (f_equal length) in Hd; rewrite length_drop in Hd; cbn in Hd; lia|].
      cbn. f_equal. rewrite <- Nat.add_1_r, <- drop_drop, Hd. done.
    + rewrite lastn_le; [done|]. rewrite length_app, length_take. cbn. lia.
Qed.

Lemma append_bytes_spec msg c :
  crash_ok c -> exists c', append_bytes c msg = Some c' /\ crash_ok c' /\ c_magic c' = c_magic c /\
    ring_contents c' = lastn 600 (ring_contents c ++ msg).
Proof.
  revert c. induction msg as [|b msg IH]; intros c Hok; cbn [append_bytes].
  - exists c. split_and!; [done..|]. rewrite app_nil_r, lastn_le; [done|]. rewrite ring_contents_length by done.
    destruct Hok. unfold RTC_BUF_SIZE in *. destruct (c_wrapped c); lia.
  - destruct (append_byte_spec c b Hok) as (c1 & -> & Hok1 & Hm1 & Hr1). cbn [mbind option_bind].
    destruct (IH c1 Hok1) as (c' & -> & Hok' & Hm' & Hr'). exists c'. split_and!; [done|done|congruence|].
    rewrite Hr', Hr1, lastn_app, <- app_assoc. done.
Qed.

(** The ring is the last 600 bytes of the log.  Appending any message to a ring that has been
    initialised stays within the buffer, and what the ring holds afterwards, read oldest byte
    first, is the last 600 bytes of what it held followed by the message. *)
Theorem ring_keeps_last msg n c :
  crash_ok c -> c_magic c = CRASH_MAGIC -> 0 <= n <= len msg ->
  exists c', crash_reporter_append msg n c = Some c' /\ crash_ok c' /\ c_magic c' = CRASH_MAGIC /\
    ring_contents c' = lastn 600 (ring_contents c ++ take (Z.to_nat n) msg).
Proof.
  intros Hok Hm Hn. unfold crash_reporter_append. rewrite Hm, Z.eqb_refl. cbn [negb].
  rewrite buf_read_Some by lia. cbn [mbind option_bind]. rewrite drop_0.
  destruct (append_bytes_spec (take (Z.to_nat n) msg) c Hok) as (c' & Hr & Hok' & Hm' & Hc). rewrite Hm in Hm'. eauto.
Qed.

(** The RTC memory of a device that has booted once and logged nothing. *)
Definition crash0 : crash_t := Crash CRASH_MAGIC (zeros RTC_BUF_SIZE) 0 false (zeros PENDING_SIZE) false 0.

Lemma ring_keeps_last_witness :
  exists c', crash_reporter_append (replicate 599 1 ++ [2; 3; 4]) 602 crash0 = Some c' /\
    ring_contents c' = replicate 597 1 ++ [2; 3; 4].
Proof.
  destruct (ring_keeps_last (replicate 599 1 ++ [2; 3; 4]) 602 crash0) as (c' & Hr & _ & _ & Hc).
  - by constructor.
  - reflexivity.
  - by vm_compute.
  - exists c'. split; [exact Hr|]. rewrite Hc. vm_compute. reflexivity.
Defined.

(** ** Boot *)

Lemma sanitise_byte_nonzero c : sanitise_byte c <> 0.
Proof. unfold sanitise_byte. repeat case_bool; cbn; lia. Qed.

Lemma sanitise_spec n p i :
  0 <= i -> i + Z.of_nat n <= len p ->
  sanitise p i n = Some (take (Z.to_nat i) p ++ (sanitise_byte <$> take n (drop (Z.to_nat i) p)) ++ drop (Z.to_nat i + n) p).
Proof.
  revert p i. induction n as [|n IH]; intros p i Hi Hn; cbn [sanitise].
  - rewrite take_0, Nat.add_0_r. cbn. by rewrite take_drop.
  - destruct (arr_get_Some p i) as [c Hc]; [lia|]. rewrite Hc. cbn [mbind option_bind].
    apply arr_get_inv in Hc as [_ Hc]. rewrite arr_set_Some by lia. cbn [mbind option_bind].
    rewrite IH by (rewrite ?length_insert; lia). f_equal. replace (Z.to_nat (i + 1)) with (S (Z.to_nat i)) by lia.
    rewrite take_S_insert by lia. rewrite !drop_insert_lt by lia. rewrite <- app_assoc.
    rewrite (drop_S p c (Z.to_nat i)) by done. cbn. replace (Z.to_nat i + S n)%nat with (S (Z.to_nat i) + n)%nat by lia. done.
Qed.

(** The copy puts the ring, oldest byte first, at the start of the pending buffer. *)
Lemma ring_copy_out_spec c :
  crash_ok c -> exists p, ring_copy_out c = Some (p, len (ring_contents c)) /\ len p = PENDING_SIZE /\
    take (length (ring_contents c)) p = ring_contents c.
Proof.
  intros Hok. pose proof (ring_contents_length c Hok) as Hl. destruct Hok as [Hb Hp Hpe].
  unfold ring_copy_out, ring_contents, PENDING_SIZE, RTC_BUF_SIZE in *. set (i := Z.to_nat (c_pos c)) in *.
  destruct (c_wrapped c).
  - rewrite (buf_read_Some _ (c_pos c)) by lia. cbn [mbind option_bind].
    rewrite buf_write_Some by (rewrite ?length_take, ?length_drop; lia). cbn [mbind option_bind].
    rewrite (buf_read_Some _ 0) by lia. cbn [mbind option_bind]. fold i.
    assert (take (Z.to_nat (600 - c_pos c)) (drop i (c_buf c)) = drop i (c_buf c)) as -> by (apply take_ge; rewrite length_drop; lia).
    change (Z.to_nat 0) with 0%nat. rewrite drop_0, take_0, app_nil_l.
    rewrite buf_write_Some; [|lia|rewrite !length_app, !length_drop, length_take; lia]. cbn [mbind option_bind].
    eexists. split; [do 3 f_equal; lia|]. split.
    + rewrite !length_app, length_take, !length_drop, !length_app, length_take, !length_drop. lia.
    + rewrite (take_app_le (drop i (c_buf c))) by (rewrite length_drop; lia).
      rewrite (take_ge (drop i (c_buf c))) by (rewrite length_drop; lia).
      rewrite app_assoc. apply take_app_length.
  - rewrite buf_read_Some by lia. cbn [mbind option_bind]. fold i. change (Z.to_nat 0) with 0%nat. rewrite drop_0.
    rewrite buf_write_Some by (rewrite ?length_take; lia). cbn [mbind option_bind].
    change (Z.to_nat 0) with 0%nat. rewrite take_0, app_nil_l.
    eexists. split; [do 3 f_equal; rewrite length_take; lia|]. split.
    + rewrite !length_app, !length_take, !length_drop. lia.
    + apply take_app_length.
Qed.

(** What a boot does: [fresh] when there is a crash to report. *)
Definition reports (reason : Z) (c : crash_t) : bool :=
  is_crash reason && (c_magic c =? CRASH_MAGIC) && ((0 <? c_pos c) || c_wrapped c).

Lemma crash_reporter_init_spec reason c :
  crash_ok c -> exists c', crash_reporter_init reason c = Some (c_has_pending c', c') /\ crash_ok c' /\
    c_magic c' = CRASH_MAGIC /\ ring_contents c' = [] /\
    if reports reason c
    then c_has_pending c' = true /\ c_pending_reason c' = u8 reason /\
         (exists rest, c_pending c' = (sanitise_byte <$> ring_contents c) ++ 0 :: rest) /\
         c_str (c_pending c') = sanitise_byte <$> ring_contents c
    else c_has_pending c' = c_has_pending c /\ c_pending c' = c_pending c.
Proof.
  intros Hok. unfold crash_reporter_init. fold (reports reason c). destruct (reports reason c).
  - destruct (ring_copy_out_spec c Hok) as (p & -> & Hpl & Hp). cbn [mbind option_bind fst snd].
    pose proof (ring_contents_length c Hok) as Hl. set (s := ring_contents c) in *.
    assert (length s <= 600)%nat as Hsl by (destruct Hok as [_ Hpos _]; unfold RTC_BUF_SIZE in Hpos; destruct (c_wrapped c); lia).
    unfold PENDING_SIZE, RTC_BUF_SIZE in Hpl. rewrite arr_set_Some by lia. cbn [mbind option_bind]. rewrite Nat2Z.id.
    rewrite sanitise_spec by (rewrite ?length_insert; lia). cbn [mbind option_bind].
    change (Z.to_nat 0) with 0%nat. rewrite take_0, drop_0, app_nil_l, Nat.add_0_l. rewrite take_insert_ge, Hp by lia.
    rewrite drop_insert_ge, Nat.sub_diag by lia.
    destruct (drop (length s) p) as [|x rest] eqn:Hd; [apply (f_equal length) in Hd; rewrite length_drop in Hd; cbn in Hd; lia|].
    apply (f_equal length) in Hd. rewrite length_drop in Hd. cbn in Hd.
    exists (Crash CRASH_MAGIC (zeros RTC_BUF_SIZE) 0 false ((sanitise_byte <$> s) ++ 0 :: rest) true (u8 reason)).
    split; [reflexivity|]. split.
    { constructor; cbn; unfold PENDING_SIZE, RTC_BUF_SIZE; [done|done|]. rewrite length_app, length_fmap. cbn. lia. }
    split_and!; [done|done|done|done|by eexists|]. cbn. apply c_str_app.
    apply Forall_fmap, Forall_true. intros y. apply sanitise_byte_nonzero.
  - exists (Crash CRASH_MAGIC (zeros RTC_BUF_SIZE) 0 false (c_pending c) (c_has_pending c) (c_pending_reason c)).
    split; [reflexivity|]. destruct Hok. split_and!; done.
Qed.

(** ** The report *)

(** The log lines among some calls. *)
Definition log_lines (cs : list call) : list bytes :=
  omap (fun c => match c with CLog _ m => Some m | _ => None end) cs.

Definition report_chunk (s : bytes) (i : nat) : bytes := take 200 (drop (200 * i) s).
Definition n_chunks (s : bytes) : nat := (length s + 199) / 200.

Lemma n_chunks_bounds s : (length s <= 200 * n_chunks s < length s + 200)%nat.
Proof.
  unfold n_chunks. pose proof (Nat.div_mod_eq (length s + 199) 200).
  pose proof (Nat.mod_upper_bound (length s + 199) 200). lia.
Qed.

Lemma wp_log_error E m (w : world crash_t) (P : unit -> world crash_t -> Prop) :
  (forall r, P tt (World (st w) (tr w ++ [(CLog 1 m, r)]))) -> wp (log_error m) E w P.
Proof. intros HP. unfold log_error. repeat wp_step. apply HP. Qed.

Lemma send_chunks_wp E s rest n k (w : world crash_t) :
  (k <= n_chunks s)%nat -> (n_chunks s - k <= n)%nat ->
  wp (send_chunks n (200 * Z.of_nat k) (len s) (s ++ rest)) E w (fun _ w' => st w' = st w /\
    exists cs, calls (tr w') = calls (tr w) ++ cs /\ log_lines cs = report_chunk s <$> List.seq k (n_chunks s - k)).
Proof.
  revert k w. induction n as [|n IH]; intros k w Hk Hn; cbn [send_chunks].
  - replace (n_chunks s - k)%nat with 0%nat by lia. apply wp_ret. split; [done|]. exists []. by rewrite app_nil_r.
  - pose proof (n_chunks_bounds s) as Hb. destruct (Z.ltb_spec (200 * Z.of_nat k) (len s)) as [Hlt|Hge].
    + assert (k < n_chunks s)%nat as Hkn by lia.
      set (m := if _ <? 200 then _ else _).
      assert (0 <= m <= 200 /\ 200 * Z.of_nat k + m <= len s) by (unfold m; case_bool; lia).
      apply wp_bind. eapply wp_checked; [apply buf_read_Some; [lia|lia|rewrite length_app; lia]|].
      assert (take (Z.to_nat m) (drop (Z.to_nat (200 * Z.of_nat k)) (s ++ rest)) = report_chunk s k) as ->.
      { unfold report_chunk. replace (Z.to_nat (200 * Z.of_nat k)) with (200 * k)%nat by lia.
        rewrite drop_app_le by lia. rewrite take_app_le by (rewrite length_drop; lia). unfold m. case_bool; [|done].
        rewrite !take_ge; [done|rewrite length_drop; lia|rewrite length_drop; lia]. }
      apply wp_bind, wp_log_error. intros r. repeat wp_step. replace (200 * Z.of_nat k + 200) with (200 * Z.of_nat (S k)) by lia.
      eapply wp_mono; [|apply IH; lia]. cbn [st tr]. intros [] w' (Hst & cs & Htr & Hll). split; [done|].
      exists (CLog 1 (report_chunk s k) :: CDelay 100 :: cs).
      split; [rewrite Htr, !fmap_app; cbn; by rewrite <- !app_assoc|].
      change (log_lines (CLog 1 ?m :: CDelay 100 :: cs)) with (m :: log_lines cs). rewrite Hll. replace (n_chunks s - k)%nat with (S (n_chunks s - S k)) by lia. done.
    + apply wp_ret. split; [done|]. exists []. rewrite app_nil_r. split; [done|].
      replace (n_chunks s - k)%nat with 0%nat by lia. done.
Qed.

Lemma crash_send_wp E s rest (w : world crash_t) :
  no_nul s -> s <> [] -> c_pending (st w) = s ++ 0 :: rest ->
  wp crash_send_task E w (fun _ w' => st w' = st w /\ exists cs header footer,
    calls (tr w') = calls (tr w) ++ cs /\
    log_lines cs = [header] ++ (report_chunk s <$> List.seq 0 (n_chunks s)) ++ [footer]).
Proof.
  intros Hnn Hne Hp. unfold crash_send_task. apply wp_bind, wp_call. intros r1 _. apply wp_bind, wp_get. cbn [st tr].
  rewrite Hp, c_str_app by done. set (hdr := str _ ++ _). set (ftr := str "====== END CRASH REPORT ======").
  apply wp_bind, wp_log_error. intros r2. cbn [st tr]. apply wp_bind.
  assert (0 < len s) by (destruct s; [done|cbn; lia]). destruct (Z.ltb_spec 0 (len s)); [|lia].
  pose proof (n_chunks_bounds s).
  eapply wp_mono; [|apply (send_chunks_wp E s (0 :: rest) _ 0); lia]. cbn [st tr].
  intros [] w' (Hst & cs & Htr & Hll). apply wp_log_error. intros r3. cbn [st tr].
  split; [done|]. exists (CDelay 1500 :: CLog 1 hdr :: cs ++ [CLog 1 ftr]), hdr, ftr.
  split; [rewrite fmap_app, Htr, !fmap_app; cbn; by rewrite <- !app_assoc|].
  change (log_lines (CDelay 1500 :: CLog 1 hdr :: cs ++ [CLog 1 ftr])) with (hdr :: log_lines (cs ++ [CLog 1 ftr])).
  unfold log_lines in *. rewrite omap_app, Hll, Nat.sub_0_r. done.
Qed.

(** C24: a crash report carries the log up to the crash.  From a device that has booted before, whatever
    is logged ([msg]) and then a crash reset: the next boot starts the report task, and the lines
    that task logs between its header and footer are pieces of at most 200 bytes whose
    concatenation is the last 600 bytes of the log with unprintable bytes replaced by dots.  The
    ring starts empty again. *)
Theorem crash_report_complete E reason msg c t :
  crash_ok c -> c_magic c = CRASH_MAGIC -> is_crash reason = true -> msg <> [] ->
  exists c1 c2 w' cs header footer lines,
    crash_reporter_append msg (len msg) c = Some c1 /\
    crash_reporter_init reason c1 = Some (true, c2) /\ ring_contents c2 = [] /\
    crash_send_task E (World c2 t) = Some (tt, w') /\ calls (tr w') = calls t ++ cs /\
    log_lines cs = [header] ++ lines ++ [footer] /\ Forall (fun l => len l <= 200) lines /\
    mjoin lines = sanitise_byte <$> lastn 600 (ring_contents c ++ msg).
Proof.
  intros Hok Hm Hcr Hne. unfold crash_reporter_append. rewrite Hm, Z.eqb_refl. cbn [negb].
  rewrite buf_read_Some by lia. cbn [mbind option_bind]. change (Z.to_nat 0) with 0%nat. rewrite drop_0, Nat2Z.id, take_ge by lia.
  destruct (append_bytes_spec msg c Hok) as (c1 & Ha & Hok1 & Hm1 & Hr1).
  destruct (crash_reporter_init_spec reason c1 Hok1) as (c2 & Hi & Hok2 & Hm2 & Hr2 & Hrep).
  pose proof (ring_contents_length c1 Hok1) as Hl1.
  assert (ring_contents c1 <> []) as Hne1.
  { rewrite Hr1. intros Hz%(f_equal length). unfold lastn in Hz. rewrite length_drop, length_app in Hz. destruct msg; [done|cbn in Hz; lia]. }
  assert (reports reason c1 = true) as Hrt.
  { unfold reports. rewrite Hcr, Hm1, Hm, Z.eqb_refl. cbn [andb]. destruct (c_wrapped c1); [by rewrite orb_true_r|].
    destruct (ring_contents c1); [done|]. cbn in Hl1. rewrite orb_false_r. apply Z.ltb_lt. lia. }
  rewrite Hrt in Hrep. destruct Hrep as (Hp & _ & (rest & Hpe) & _). set (s := sanitise_byte <$> ring_contents c1) in *.
  assert (no_nul s) as Hnn by (apply Forall_fmap, Forall_true; intros y; apply sanitise_byte_nonzero).
  assert (s <> []) as Hsne by (unfold s; destruct (ring_contents c1); done).
  destruct (wp_run _ _ _ _ (crash_send_wp E s rest (World c2 t) Hnn Hsne Hpe)) as ([] & w' & Hrun & _ & cs & h & f & Hcs & Hll).
  exists c1, c2, w', cs, h, f, (report_chunk s <$> List.seq 0 (n_chunks s)).
  split_and!; [done|by rewrite Hi, Hp|done|done|done|done| |].
  - apply Forall_fmap, Forall_true. intros i. unfold report_chunk. cbn. rewrite length_take. lia.
  - unfold report_chunk. rewrite chunks_prefix. rewrite <- Hr1. apply take_ge. pose proof (n_chunks_bounds s). unfold s in *. lia.
Qed.

Lemma crash_report_complete_witness :
  exists c1 c2 w', crash_reporter_append (str "panic!") 6 crash0 = Some c1 /\
    crash_reporter_init ESP_RST_PANIC c1 = Some (true, c2) /\
    crash_send_task (fun _ _ => Reply 0 [] 0 []) (World c2 []) = Some (tt, w').
Proof.
  destruct (crash_report_complete (fun _ _ => Reply 0 [] 0 []) ESP_RST_PANIC (str "panic!") crash0 [])
    as (c1 & c2 & w' & cs & h & f & lines & Ha & Hi & _ & Hr & _).
  - by constructor.
  - reflexivity.
  - reflexivity.
  - done.
  - exists c1, c2, w'. split; [exact Ha|]. split; [exact Hi|exact Hr].
Defined.
