(* ===== verification/WifiManager.v ===== *)
(** * WiFi manager (esp-codes/main/wifi_manager.c)

    The manager brings the station up with stored credentials, or opens the
    setup access point with its HTTP and DNS servers; afterwards it only reacts
    to events of the WiFi stack.  A failing ESP_ERROR_CHECK aborts the firmware;
    such a run has no result here ([None]). *)

From stdpp Require Import strings.
From S2P Require Import Prelude Effects Descriptors Rtos CrashReporter.

Definition WIFI_READY_BIT : Z := BIT 0.
Definition WIFI_LOST_BIT : Z := BIT 1.
Definition WIFI_AP_MODE_BIT : Z := BIT 2.
Definition WIFI_CONNECTING_BIT : Z := BIT 3.
Definition WIFI_AUTH_FAIL_BIT : Z := BIT 4.
Definition WIFI_MAX_RETRY : Z := 5.
Definition WIFI_AP_SSID : bytes := str "WirelessHub-Setup".
Definition WIFI_AP_MAX_CONN : Z := 1.
Definition WIFI_NVS_NAMESPACE : bytes := str "wifi_creds".
Definition WIFI_NVS_KEY_SSID : bytes := str "ssid".
Definition WIFI_NVS_KEY_PASS : bytes := str "pass".
Definition WIFI_AP_IP_API_URL : bytes := str "http://4.3.2.1/api".
Definition WIFI_CHANNEL : Z := 6.
Definition WIFI_REASON_4WAY_HANDSHAKE_TIMEOUT : Z := 15.
Definition WIFI_REASON_AUTH_FAIL : Z := 202.

(** The pages [start_http_server] registers. *)
Definition routes : list (bytes * http_method * http_handler) :=
  [(str "/api", HTTP_GET, H_api_captive); (str "/", HTTP_GET, H_portal_html); (str "/save", HTTP_POST, H_post_save);
   (str "/generate_204", HTTP_GET, H_portal_html); (str "/hotspot-detect.html", HTTP_GET, H_portal_html);
   (str "/check_network_status.txt", HTTP_GET, H_portal_html); (str "/connecttest.txt", HTTP_GET, H_windows_connecttest);
   (str "/ncsi.txt", HTTP_GET, H_redirect_to_portal); (str "/redirect", HTTP_GET, H_redirect_to_portal);
   (str "/canonical.html", HTTP_GET, H_redirect_to_portal); (str "/success.txt", HTTP_GET, H_redirect_to_portal);
   (str "/wpad.dat", HTTP_GET, H_not_found); (str "/favicon.ico", HTTP_GET, H_not_found)].
Definition MAX_URI_HANDLERS : Z := 16.

Section Wifi.
Context {G : Type} `{EventGroup G}.

(** The static variables; [wm_http] and [wm_dns_task] are the handles being non-NULL. *)
Record wifi_t := Wifi {
  wm_eg : G;
  wm_http : bool;
  wm_retry : Z;
  wm_sta_created : bool;
  wm_ap_created : bool;
  wm_dns_task : bool;
  wm_dns_sock : Z;
  wm_scan : list bytes;
}.
Abbreviation MW := (M wifi_t).

(** The variables before [wifi_manager_start]; [g] stands for the event group not yet created. *)
Definition wifi_static (g : G) : wifi_t := Wifi g false 0 false false false (-1) [].

Definition upd_eg (f : G -> G) (w : wifi_t) : wifi_t :=
  Wifi (f (wm_eg w)) (wm_http w) (wm_retry w) (wm_sta_created w) (wm_ap_created w) (wm_dns_task w) (wm_dns_sock w) (wm_scan w).
Definition set_http (b : bool) (w : wifi_t) : wifi_t :=
  Wifi (wm_eg w) b (wm_retry w) (wm_sta_created w) (wm_ap_created w) (wm_dns_task w) (wm_dns_sock w) (wm_scan w).
Definition set_retry (n : Z) (w : wifi_t) : wifi_t :=
  Wifi (wm_eg w) (wm_http w) n (wm_sta_created w) (wm_ap_created w) (wm_dns_task w) (wm_dns_sock w) (wm_scan w).
Definition set_sta_created (w : wifi_t) : wifi_t :=
  Wifi (wm_eg w) (wm_http w) (wm_retry w) true (wm_ap_created w) (wm_dns_task w) (wm_dns_sock w) (wm_scan w).
Definition set_ap_created (w : wifi_t) : wifi_t :=
  Wifi (wm_eg w) (wm_http w) (wm_retry w) (wm_sta_created w) true (wm_dns_task w) (wm_dns_sock w) (wm_scan w).
Definition set_dns (task : bool) (sock : Z) (w : wifi_t) : wifi_t :=
  Wifi (wm_eg w) (wm_http w) (wm_retry w) (wm_sta_created w) (wm_ap_created w) task sock (wm_scan w).
Definition set_scan (l : list bytes) (w : wifi_t) : wifi_t :=
  Wifi (wm_eg w) (wm_http w) (wm_retry w) (wm_sta_created w) (wm_ap_created w) (wm_dns_task w) (wm_dns_sock w) l.

Definition wifi (c : wifi_call) : MW reply := call_ext (CWifi c).

(** ** Servers *)

Definition start_dns_server : MW unit :=
  w ← get;
  if wm_dns_task w then mret tt else
  r ← call_ext (CTaskCreate dns_server_task_id);
  when (r_ret r =? 1) (modify (fun w => set_dns true (wm_dns_sock w) w)).

Definition stop_dns_server : MW unit :=
  w ← get;
  (if 0 <=? wm_dns_sock w then call_ext (CClose (wm_dns_sock w)) ;; modify (set_dns (wm_dns_task w) (-1)) else mret tt) ;;
  modify (fun w => set_dns false (wm_dns_sock w) w).

(** What [dns_server_task] does to the shared variables before its loop ([false]: it ended) and after it. *)
Definition dns_open : MW bool :=
  r ← call_ext (CSocket SOCK_DGRAM);
  let s := r_ret r in
  modify (fun w => set_dns (wm_dns_task w) s w) ;;
  if s <? 0 then mret false else
  b ← call_ext (CBind s 53);
  if r_ret b <? 0 then call_ext (CClose s) ;; modify (fun w => set_dns (wm_dns_task w) (-1) w) ;; mret false
  else mret true.

Definition dns_exit : MW unit :=
  w ← get;
  call_ext (CClose (wm_dns_sock w)) ;; modify (set_dns false (-1)).

Fixpoint register_all (l : list (bytes * http_method * http_handler)) : MW unit :=
  match l with [] => mret tt | (u, m, h) :: l' => wifi (WHttpRegister u m h) ;; register_all l' end.

Definition start_http_server : MW unit :=
  w ← get;
  if wm_http w then mret tt else
  r ← wifi (WHttpStart MAX_URI_HANDLERS 7);
  if negb (r_ret r =? 0) then mret tt else
  modify (set_http true) ;;
  register_all routes ;;
  wifi WHttpRegister404 ;; mret tt.

Definition stop_http_server : MW unit :=
  w ← get;
  if wm_http w then wifi WHttpStop ;; modify (set_http false) else mret tt.

(** ** Modes *)

Definition start_ap_mode : MW unit :=
  w ← get;
  (if wm_ap_created w then mret tt else wifi WNetifCreateAp ;; modify set_ap_created) ;;
  netif ← wifi WNetifGetAp;
  when (negb (r_ret netif =? 0)) (wifi WDhcpsStop ;; esp_check (WSetIpInfo [4; 3; 2; 1] [4; 3; 2; 1] [255; 255; 255; 0])) ;;
  esp_check (WSetMode true) ;; esp_check (WSetConfigAp WIFI_AP_SSID (len WIFI_AP_SSID) WIFI_AP_MAX_CONN WIFI_CHANNEL) ;; esp_check WStart ;;
  call_ext (CDelay 100) ;;
  when (negb (r_ret netif =? 0)) (esp_check (WSetDns [4; 3; 2; 1]) ;; wifi (WDhcpsOption WIFI_AP_IP_API_URL) ;; wifi WDhcpsStart ;; mret tt) ;;
  start_http_server ;; start_dns_server ;;
  modify (upd_eg (eg_clear (Z.lor WIFI_READY_BIT WIFI_CONNECTING_BIT))) ;;
  modify (upd_eg (eg_set (Z.lor WIFI_LOST_BIT WIFI_AP_MODE_BIT))).

Definition start_sta_mode (ssid pass : bytes) : MW unit :=
  modify (upd_eg (eg_clear (Z.lor WIFI_AP_MODE_BIT WIFI_AUTH_FAIL_BIT))) ;;
  modify (upd_eg (eg_set WIFI_CONNECTING_BIT)) ;;
  w ← get;
  (if wm_sta_created w then mret tt else wifi WNetifCreateSta ;; modify set_sta_created) ;;
  esp_check (WSetMode false) ;; esp_check (WSetConfigSta (take 31 ssid) (take 63 pass)) ;; esp_check WStart.

(** ** Events *)

Inductive wifi_event := StaStart | StaDisconnected (reason : Z) | ApStaConnected | WifiOther | GotIp.

Definition wifi_event_handler (ev : wifi_event) : MW unit :=
  match ev with
  | StaStart => wifi WConnect ;; mret tt
  | StaDisconnected reason =>
      modify (upd_eg (eg_clear (Z.lor WIFI_READY_BIT WIFI_CONNECTING_BIT))) ;;
      modify (upd_eg (eg_set WIFI_LOST_BIT)) ;;
      when ((reason =? WIFI_REASON_AUTH_FAIL) || (reason =? WIFI_REASON_4WAY_HANDSHAKE_TIMEOUT))
        (modify (upd_eg (eg_set WIFI_AUTH_FAIL_BIT))) ;;
      w ← get;
      let n := wm_retry w + 1 in
      modify (set_retry n) ;;
      if n <=? WIFI_MAX_RETRY then modify (upd_eg (eg_set WIFI_CONNECTING_BIT)) ;; wifi WConnect ;; mret tt
      else modify (set_retry 0) ;; start_ap_mode
  | ApStaConnected | WifiOther => mret tt
  | GotIp =>
      modify (set_retry 0) ;;
      stop_dns_server ;; stop_http_server ;;
      modify (upd_eg (eg_clear (Z.lor (Z.lor WIFI_LOST_BIT WIFI_CONNECTING_BIT) (Z.lor WIFI_AP_MODE_BIT WIFI_AUTH_FAIL_BIT)))) ;;
      modify (upd_eg (eg_set WIFI_READY_BIT))
  end.

(** ** Boot *)

(** The 33-byte records of a scan, as C strings of at most 32 bytes. *)
Fixpoint scan_names (n : nat) (recs : bytes) : list bytes :=
  match n with O => [] | S n' => c_str (take 32 recs) :: scan_names n' (drop 33 recs) end.

(** [records[20]] and [s_scan_ssids[20]]; more names than that overflow the arrays. *)
Definition MAX_SCAN : Z := 20.
Definition wifi_scan : MW unit :=
  w ← get;
  (if wm_sta_created w then mret tt else wifi WNetifCreateSta ;; modify set_sta_created) ;;
  wifi (WSetMode false) ;; wifi WStart ;;
  s ← wifi WScanStart;
  when (r_ret s =? 0)
    (r ← wifi (WScanRecords MAX_SCAN);
     names ← checked (if r_aux r <=? MAX_SCAN then Some (scan_names (Z.to_nat (r_aux r)) (r_out r)) else None);
     modify (set_scan names)) ;;
  wifi WStop ;; mret tt.

(** The two strings, if both are stored and fit ([nvs_get_str] fails otherwise). *)
Definition nvs_load_credentials (ssid_len pass_len : Z) : MW (option (bytes * bytes)) :=
  o ← wifi (WNvsOpen WIFI_NVS_NAMESPACE false);
  if negb (r_ret o =? 0) then mret None else
  s ← wifi (WNvsGet WIFI_NVS_KEY_SSID ssid_len);
  creds ← (if r_ret s =? 0
           then p ← wifi (WNvsGet WIFI_NVS_KEY_PASS pass_len);
                mret (if r_ret p =? 0 then Some (c_str (r_out s), c_str (r_out p)) else None)
           else mret None);
  wifi WNvsClose ;; mret creds.

Definition wifi_manager_task : MW unit :=
  esp_check WNetifInit ;; esp_check WEventLoop ;; esp_check WInit ;;
  creds ← nvs_load_credentials 32 64;
  when (match creds with Some _ => false | None => true end) wifi_scan ;;
  esp_check (WRegisterHandler WIFI_EVENT) ;; esp_check (WRegisterHandler IP_EVENT) ;;
  match creds with
  | Some (ssid, pass) => start_sta_mode ssid pass
  | None => start_ap_mode
  end.

Definition wifi_manager_start : MW unit :=
  modify (upd_eg (fun _ => eg_create)) ;; call_ext (CTaskCreate wifi_manager_task_id) ;; mret tt.

(** ** Runs: the boot task, then events and the DNS task in any order *)

Inductive wifi_step := WEvent (ev : wifi_event) | WDnsOpen | WDnsExit.

Definition wifi_do (s : wifi_step) : MW unit :=
  match s with
  | WEvent ev => wifi_event_handler ev
  | WDnsOpen => dns_open ;; mret tt
  | WDnsExit => dns_exit
  end.
Fixpoint wifi_run (l : list wifi_step) : MW unit :=
  match l with [] => mret tt | s :: l => wifi_do s ;; wifi_run l end.

(** Has the DNS task opened its socket after the last GOT_IP? *)
Definition late_step (late : bool) (s : wifi_step) : bool :=
  match s with WEvent GotIp => false | WDnsOpen => true | _ => late end.
Definition late_open (l : list wifi_step) : bool := foldl late_step false l.

(** The calls under ESP_ERROR_CHECK. *)
Definition error_checked (c : wifi_call) : bool :=
  match c with
  | WNetifInit | WEventLoop | WInit | WRegisterHandler _ | WSetIpInfo _ _ _ | WSetDns _
  | WSetMode _ | WSetConfigAp _ _ _ _ | WSetConfigSta _ _ | WStart => true
  | _ => false
  end.
(** They succeed (the firmware aborts otherwise), and a scan returns no more records than asked for. *)
Record esp_ok (E : env) : Prop := {
  eok_check t c : error_checked c = true -> r_ret (E t (CWifi c)) = 0;
  eok_scan t n : 0 <= n -> r_aux (E t (CWifi (WScanRecords n))) <= n;
}.

End Wifi.
Arguments wifi_t G : clear implicits.

(** ** The event bits *)

Abbreviation is_ready w := (bits_set (wm_eg w) WIFI_READY_BIT).
Abbreviation is_lost w := (bits_set (wm_eg w) WIFI_LOST_BIT).
Abbreviation is_ap w := (bits_set (wm_eg w) WIFI_AP_MODE_BIT).
Abbreviation is_connecting w := (bits_set (wm_eg w) WIFI_CONNECTING_BIT).
Abbreviation is_auth_fail w := (bits_set (wm_eg w) WIFI_AUTH_FAIL_BIT).

Section WifiInvariant.
Context {G : Type} `{EventGroup G}.

(** The bits describe one state of the connection, and with an address the portal is down. *)
Definition bits_ok (w : wifi_t G) : Prop :=
  (is_ready w = true ->
     is_lost w = false /\ is_connecting w = false /\ is_ap w = false /\ is_auth_fail w = false /\
     wm_http w = false /\ wm_dns_task w = false) /\
  0 <= wm_retry w <= WIFI_MAX_RETRY.
(** With an address the DNS socket is closed too, unless it was opened after that. *)
Definition sock_ok (late : bool) (w : wifi_t G) : Prop := is_ready w = true -> late = false -> wm_dns_sock w < 0.
Definition bits_some (w : wifi_t G) : Prop := is_ready w || is_lost w || is_connecting w = true.
End WifiInvariant.

Section WifiFacts.
Context {G : Type} `{EventGroup G} (E : env) (HE : esp_ok E).
Implicit Types (w : world (wifi_t G)).

(** From one world to the next: same bits and retry count, no connection attempt. *)
Definition keeps w w' : Prop :=
  wm_eg (st w') = wm_eg (st w) /\ wm_retry (st w') = wm_retry (st w) /\
  exists d, tr w' = tr w ++ d /\ CWifi WConnect ∉ calls d.

#[local] Instance keeps_refl : Reflexive keeps.
Proof. intros w. split_and!; [done|done|]. exists []. rewrite app_nil_r. split; [done|]. apply not_elem_of_nil. Qed.
#[local] Instance keeps_trans : Transitive keeps.
Proof.
  intros w1 w2 w3 (? & ? & d1 & Ht1 & ?) (? & ? & d2 & Ht2 & ?). split_and!; [congruence|congruence|].
  exists (d1 ++ d2). rewrite Ht2, Ht1, app_assoc, fmap_app. split; [done|]. set_solver.
Qed.
Lemma keeps_call w c r : c <> CWifi WConnect -> keeps w (World (st w) (tr w ++ [(c, r)])).
Proof. intros Hc. split_and!; [done|done|]. eexists. split; [done|]. cbn. set_solver. Qed.
Lemma keeps_state w s : wm_eg s = wm_eg (st w) -> wm_retry s = wm_retry (st w) -> keeps w (World s (tr w)).
Proof. intros. split_and!; [done|done|]. exists []. rewrite app_nil_r. split; [done|]. apply not_elem_of_nil. Qed.

(** [m] returns, and leaves the bits, the retry count and the station alone. *)
Definition silent {A} (m : M (wifi_t G) A) : Prop := forall w, wp m E w (fun _ w' => keeps w w').

Lemma silent_bind {A B} (m : M (wifi_t G) A) (f : A -> M (wifi_t G) B) :
  silent m -> (forall a, silent (f a)) -> silent (m ≫= f).
Proof.
  intros Hm Hf w. apply wp_bind. eapply wp_mono; [|apply Hm]. intros a w' Hw. cbn beta.
  eapply wp_mono; [|apply Hf]. intros b w'' Hw'. by transitivity w'.
Qed.
Lemma silent_get : silent get. Proof. intros w. apply wp_get. reflexivity. Qed.
Lemma silent_ret {A} (a : A) : silent (mret a). Proof. intros w. apply wp_ret. reflexivity. Qed.
Lemma silent_call c : c <> CWifi WConnect -> silent (call_ext c).
Proof. intros Hc w. apply wp_call. intros r _. by apply keeps_call. Qed.
Lemma silent_modify f :
  (forall v : wifi_t G, wm_eg (f v) = wm_eg v /\ wm_retry (f v) = wm_retry v) -> silent (modify f).
Proof. intros Hf w. apply wp_modify. destruct (Hf (st w)). by apply keeps_state. Qed.
Lemma silent_check c : error_checked c = true -> silent (esp_check c).
Proof.
  intros Hc w. unfold esp_check. apply wp_bind, wp_call. intros r ->. rewrite (eok_check _ HE) by done. cbn.
  apply keeps_call. by intros [= ->].
Qed.

Ltac silent_step := first
  [ apply silent_check; reflexivity | apply silent_bind; [|intros ?] | apply silent_get | apply silent_ret
  | progress unfold wifi | apply silent_call; discriminate
  | apply silent_modify; intros []; split; reflexivity
  | match goal with |- silent (when ?b _) => unfold when
                  | |- silent (if ?b then _ else _) => destruct b end ].
Ltac silent_tac := repeat silent_step.

Lemma silent_records : silent (r ← wifi (WScanRecords MAX_SCAN);
  names ← checked (if r_aux r <=? MAX_SCAN then Some (scan_names (Z.to_nat (r_aux r)) (r_out r)) else None); modify (set_scan names)).
Proof.
  intros w. unfold wifi. apply wp_bind, wp_call. intros r Hr. pose proof (eok_scan _ HE (tr w) MAX_SCAN ltac:(done)) as Hle. rewrite <- Hr in Hle.
  destruct (Z.leb_spec (r_aux r) MAX_SCAN); [|lia]. apply wp_bind. eapply wp_checked; [done|]. apply wp_modify.
  apply (keeps_trans w (World (st w) (tr w ++ [(CWifi (WScanRecords MAX_SCAN), r)]))); [by apply keeps_call|by apply keeps_state].
Qed.
Lemma silent_scan : silent wifi_scan.
Proof. unfold wifi_scan. repeat first [exact silent_records | silent_step]. Qed.
Lemma silent_load n m : silent (nvs_load_credentials n m). Proof. unfold nvs_load_credentials. silent_tac. Qed.

Lemma silent_register l : silent (register_all l).
Proof. induction l as [|[[u m] h] l IH]; cbn [register_all]; [apply silent_ret|]. apply silent_bind; [|done]. by apply silent_call. Qed.
Lemma silent_http : silent start_http_server.
Proof.
  unfold start_http_server. apply silent_bind; [apply silent_get|]. intros w. destruct (wm_http w); [apply silent_ret|].
  apply silent_bind; [by apply silent_call|]. intros r. destruct (negb _); [apply silent_ret|].
  apply silent_bind; [apply silent_modify; by intros []|]. intros []. apply silent_bind; [apply silent_register|]. intros [].
  apply silent_bind; [by apply silent_call|]. intros _. apply silent_ret.
Qed.

Lemma wp_silent {A B} (m : M (wifi_t G) A) (f : A -> M (wifi_t G) B) w Q :
  silent m -> (forall a w', keeps w w' -> wp (f a) E w' Q) -> wp (m ≫= f) E w Q.
Proof. intros Hm Hf. apply wp_bind. eapply wp_mono; [|apply Hm]. done. Qed.

(** Opening the access point: the radio is switched to it and the bits say so. *)
Definition ap_opened w w' : Prop :=
  wm_eg (st w') = eg_set (Z.lor WIFI_LOST_BIT WIFI_AP_MODE_BIT)
                    (eg_clear (Z.lor WIFI_READY_BIT WIFI_CONNECTING_BIT) (wm_eg (st w))) /\
  wm_retry (st w') = wm_retry (st w) /\
  exists d, tr w' = tr w ++ d /\ CWifi WConnect ∉ calls d /\ CWifi (WSetMode true) ∈ calls d.

Lemma start_ap_opens w : wp start_ap_mode E w (fun _ w' => ap_opened w w').
Proof.
  unfold start_ap_mode. apply wp_silent; [silent_tac|]. intros w0 w1 K1.
  apply wp_silent; [silent_tac|]. intros _ w2 K2.
  apply wp_silent; [silent_tac|]. intros netif w3 K3.
  apply wp_silent; [silent_tac|]. intros _ w4 K4.
  assert (keeps w w4) as (He1 & Hr1 & d1 & Ht1 & Hn1) by (do 3 (etransitivity; [eassumption|]); done). clear K1 K2 K3 K4.
  apply wp_bind. unfold esp_check at 1. apply wp_bind, wp_call. intros r ->. rewrite (eok_check _ HE) by done. cbn [Z.eqb]. apply wp_ret.
  set (w5 := World _ _).
  do 6 (apply wp_silent; [match goal with |- silent start_http_server => exact silent_http | _ => unfold start_dns_server; silent_tac end|]; intros ? ? ?).
  apply wp_bind, wp_modify, wp_modify. cbn [st tr].
  match goal with |- ap_opened _ (World (upd_eg _ (upd_eg _ (st ?v))) _) => assert (keeps w5 v) as (He2 & Hr2 & d2 & Ht2 & Hn2) end.
  { repeat (etransitivity; [|eassumption]). reflexivity. }
  split_and!; cbn; [by rewrite He2; cbn; rewrite He1|by rewrite Hr2|].
  exists (d1 ++ (CWifi (WSetMode true), E (tr w4) (CWifi (WSetMode true))) :: d2).
  rewrite Ht2. cbn. rewrite Ht1, fmap_app. cbn. split_and!; [by rewrite <- !app_assoc|set_solver|set_solver].
Qed.
(** Evaluates one bit after a sequence of updates of the group. *)
Ltac eval_bits :=
  unfold WIFI_READY_BIT, WIFI_LOST_BIT, WIFI_AP_MODE_BIT, WIFI_CONNECTING_BIT, WIFI_AUTH_FAIL_BIT in *;
  rewrite ?bits_set_mask, ?bits_clear_mask, ?bits_set_create in * by lia;
  repeat match goal with
  | |- context [Z.testbit ?m ?n] => let b := eval vm_compute in (Z.testbit m n) in change (Z.testbit m n) with b
  | K : context [Z.testbit ?m ?n] |- _ => let b := eval vm_compute in (Z.testbit m n) in change (Z.testbit m n) with b in K
  end;
  cbn [negb] in *; rewrite ?andb_true_r, ?andb_false_r, ?orb_true_r, ?orb_false_r in *.

Lemma ap_opened_ok w w' : ap_opened w w' -> 0 <= wm_retry (st w) <= WIFI_MAX_RETRY -> bits_ok (st w') /\ bits_some (st w') /\ is_ready (st w') = false.
Proof.
  intros (He & Hr & _) Hle. unfold bits_ok, bits_some. rewrite He, Hr. eval_bits. done.
Qed.

(** A disconnection: the bits after it, and one more attempt or the access point. *)
Definition dropped (reason : Z) (g : G) : G :=
  let g := eg_set WIFI_LOST_BIT (eg_clear (Z.lor WIFI_READY_BIT WIFI_CONNECTING_BIT) g) in
  if (reason =? WIFI_REASON_AUTH_FAIL) || (reason =? WIFI_REASON_4WAY_HANDSHAKE_TIMEOUT)
  then eg_set WIFI_AUTH_FAIL_BIT g else g.

Lemma disconnected_cases reason w Q :
  (wm_retry (st w) + 1 <= WIFI_MAX_RETRY -> forall r v,
     wm_eg v = eg_set WIFI_CONNECTING_BIT (dropped reason (wm_eg (st w))) -> wm_retry v = wm_retry (st w) + 1 ->
     Q tt (World v (tr w ++ [(CWifi WConnect, r)]))) ->
  (WIFI_MAX_RETRY < wm_retry (st w) + 1 -> forall v w',
     wm_eg v = dropped reason (wm_eg (st w)) -> wm_retry v = 0 ->
     ap_opened (World v (tr w)) w' -> Q tt w') ->
  wp (wifi_event_handler (StaDisconnected reason)) E w Q.
Proof.
  intros Hretry Hap. unfold wifi_event_handler, wifi. do 2 (apply wp_bind, wp_modify; cbn [st tr]).
  apply wp_bind. apply (wp_mono _ _ _ (fun _ w' =>
    wm_eg (st w') = dropped reason (wm_eg (st w)) /\ wm_retry (st w') = wm_retry (st w) /\ tr w' = tr w)).
  2: { unfold dropped. repeat wp_step; done. }
  intros _ w1 (He & Hr & Ht). apply wp_bind, wp_get, wp_bind, wp_modify. cbn [st tr]. rewrite Hr.
  destruct (Z.leb_spec (wm_retry (st w) + 1) WIFI_MAX_RETRY) as [Hle|Hgt]; repeat wp_step.
  - rewrite Ht. apply Hretry; [done|cbn; by rewrite He|done].
  - eapply wp_mono; [|apply start_ap_opens]. intros [] w' Hw'.
    rewrite Ht in Hw'. by refine (Hap Hgt _ w' _ _ Hw').
Qed.

Lemma wifi_do_ok late s w :
  bits_ok (st w) -> sock_ok late (st w) ->
  wp (wifi_do s) E w (fun _ w' => bits_ok (st w') /\ sock_ok (late_step late s) (st w') /\ (bits_some (st w) -> bits_some (st w'))).
Proof.
  intros Hok Hso. pose proof Hok as [Hb Hle]. destruct s as [[|reason| | |]| |]; cbn [wifi_do late_step].
  - unfold wifi_event_handler, wifi. by repeat wp_step.
  - apply disconnected_cases; intros Hn ? v He Hr; [|intros Hap].
    + unfold bits_ok, bits_some, sock_ok. cbn [st]. rewrite He, Hr. unfold dropped. case_match; eval_bits; repeat split; try done; lia.
    + apply ap_opened_ok in Hap; [|cbn [st]; rewrite Hr; unfold WIFI_MAX_RETRY; lia]. destruct Hap as (? & ? & Hn').
      split_and!; [done| |done]. unfold sock_ok. by rewrite Hn'.
  - by cbn.
  - by cbn.
  - unfold wifi_event_handler, stop_dns_server, stop_http_server, wifi.
    repeat wp_step; unfold bits_ok, bits_some, sock_ok; cbn [st wm_dns_sock set_retry] in *; cbn; eval_bits;
      repeat split; try done; unfold WIFI_MAX_RETRY; lia.
  - unfold dns_open. repeat wp_step; (split; [|done]); (split; [|done]); cbn; intros Hr; by destruct (Hb Hr) as (? & ? & ? & ? & ? & ?).
  - unfold dns_exit. repeat wp_step; (split; [|done]); (split; [|done]); cbn; intros Hr; by destruct (Hb Hr) as (? & ? & ? & ? & ? & ?).
Qed.
Lemma wifi_run_ok late l w :
  bits_ok (st w) -> sock_ok late (st w) -> bits_some (st w) ->
  wp (wifi_run l) E w (fun _ w' => bits_ok (st w') /\ sock_ok (foldl late_step late l) (st w') /\ bits_some (st w')).
Proof.
  revert late w. induction l as [|s l IH]; intros late w Hok Hso Hs; [done|]. cbn [wifi_run foldl]. apply wp_bind.
  eapply wp_mono; [|by apply wifi_do_ok]. intros _ w' (? & ? & Hs'). apply IH; auto.
Qed.

(** An address takes the portal down: its DNS socket is closed and its HTTP server stopped. *)
Lemma got_ip_run w :
  exists w', wifi_event_handler GotIp E w = Some (tt, w') /\ is_ready (st w') = true /\
    wm_http (st w') = false /\ wm_dns_task (st w') = false /\ wm_dns_sock (st w') < 0 /\
    calls (tr w') = calls (tr w) ++ (if 0 <=? wm_dns_sock (st w) then [CClose (wm_dns_sock (st w))] else []) ++
      (if wm_http (st w) then [CWifi WHttpStop] else []).
Proof.
  assert (wp (wifi_event_handler GotIp) E w (fun _ w' => is_ready (st w') = true /\
    wm_http (st w') = false /\ wm_dns_task (st w') = false /\ wm_dns_sock (st w') < 0 /\
    calls (tr w') = calls (tr w) ++ (if 0 <=? wm_dns_sock (st w) then [CClose (wm_dns_sock (st w))] else []) ++
      (if wm_http (st w) then [CWifi WHttpStop] else []))) as Hw.
  { unfold wifi_event_handler, stop_dns_server, stop_http_server, wifi. destruct w as [[g http rt sc ac task sock scan] t].
    cbn [st wm_http wm_dns_sock]. destruct (Z.leb_spec 0 sock) as [Hs|Hs]; apply Z.leb_le in Hs || apply Z.leb_gt in Hs;
      repeat (wp_step; cbn [set_retry set_dns wm_dns_sock wm_http wm_dns_task st] in *; rewrite ?Hs in * ); try done; subst;
      cbn [wm_dns_sock wm_http wm_dns_task wm_eg upd_eg set_http set_dns set_retry tr]; eval_bits;
      (split_and!; [done|done|done|by apply Z.leb_gt in Hs || done|]); rewrite ?fmap_app, <- ?app_assoc, ?app_nil_r; done. }
  destruct (wp_run _ _ _ _ Hw) as ([] & w' & Hr & ?). by exists w'.
Qed.

Lemma wp_wifi_run_app l1 l2 w Q :
  wp (wifi_run l1) E w (fun _ w' => wp (wifi_run l2) E w' Q) -> wp (wifi_run (l1 ++ l2)) E w Q.
Proof.
  revert w. induction l1 as [|s l1 IH]; intros w Hw; [done|]. cbn [app wifi_run] in *. apply wp_bind.
  unfold wp at 1 in Hw. unfold mbind, M_bind in Hw. unfold wp at 1. destruct (wifi_do s E w) as [[a w']|]; [|done]. by apply IH.
Qed.

Lemma boot_ok w :
  wm_eg (st w) = eg_create -> wm_retry (st w) = 0 ->
  wp wifi_manager_task E w (fun _ w' => bits_ok (st w') /\ bits_some (st w') /\ is_ready (st w') = false).
Proof.
  intros He Hr. unfold wifi_manager_task.
  do 3 (apply wp_silent; [silent_tac|]; intros ? ? ?).
  apply wp_silent; [apply silent_load|]. intros creds ? ?.
  apply wp_silent; [unfold when; destruct creds; [apply silent_ret|apply silent_scan]|]. intros _ ? ?.
  apply wp_silent; [silent_tac|]. intros ? ? ?. apply wp_silent; [silent_tac|]. intros _ w1 K.
  assert (keeps w w1) as (He1 & Hr1 & _) by (repeat (etransitivity; [|eassumption]); reflexivity).
  rewrite He in He1. rewrite Hr in Hr1. destruct creds as [[ssid pass]|].
  - unfold start_sta_mode. do 2 (apply wp_bind, wp_modify; cbn [st tr]). set (w2 := World _ _).
    do 4 (apply wp_silent; [silent_tac|]; intros ? ? ?).
    eapply wp_mono; [|apply silent_check; reflexivity]. intros [] w3 K3.
    assert (keeps w2 w3) as (He3 & Hr3 & _) by (repeat (etransitivity; [|eassumption]); reflexivity).
    unfold bits_ok, bits_some. rewrite He3, Hr3. cbn. rewrite He1, Hr1. eval_bits. done.
  - eapply wp_mono; [|apply start_ap_opens]. intros [] w3 Hap. apply (ap_opened_ok _ _ Hap).
    rewrite Hr1. done.
Qed.

(** C27: Over every sequence of WiFi events after boot, interleaved with the DNS task opening and closing
    its socket in any order, the event group is consistent: with WIFI_READY set no other status bit is
    set, the portal's HTTP server is stopped, the handle of the DNS task is cleared and, unless the
    DNS task opened a socket after the last GOT_IP, the DNS socket is closed; one of READY, LOST and
    CONNECTING is always set; the retry counter stays within 0..WIFI_MAX_RETRY.  And whenever GOT_IP
    is handled, the DNS socket is closed if it is open, the HTTP server is stopped if it is running,
    and READY is set. *)
Theorem wifi_bits_consistent g t l :
  wp (wifi_manager_start ;; wifi_manager_task ;; wifi_run l) E (World (wifi_static g) t) (fun _ w' =>
    bits_ok (st w') /\ sock_ok (late_open l) (st w') /\ bits_some (st w') /\
    exists w'', wifi_event_handler GotIp E w' = Some (tt, w'') /\ is_ready (st w'') = true /\
      wm_http (st w'') = false /\ wm_dns_task (st w'') = false /\ wm_dns_sock (st w'') < 0 /\
      calls (tr w'') = calls (tr w') ++ (if 0 <=? wm_dns_sock (st w') then [CClose (wm_dns_sock (st w'))] else []) ++
        (if wm_http (st w') then [CWifi WHttpStop] else [])).
Proof.
  unfold wifi_manager_start. repeat wp_step.
  eapply wp_mono; [|by apply boot_ok]. intros _ w' (? & ? & Hr).
  eapply wp_mono; [|apply (wifi_run_ok false l); [done| |done]; unfold sock_ok; by rewrite Hr]. intros _ w1 (? & ? & ?).
  split_and!; [done..|]. apply got_ip_run.
Qed.

Abbreviation retrying v := (is_connecting v = true /\ is_lost v = true /\ is_ready v = false).

Lemma retries_run rs w :
  wm_retry (st w) + len rs <= WIFI_MAX_RETRY ->
  wp (wifi_run ((fun r => WEvent (StaDisconnected r)) <$> rs)) E w (fun _ w' =>
    wm_retry (st w') = wm_retry (st w) + len rs /\
    (rs <> [] \/ retrying (st w) -> retrying (st w')) /\
    exists d, tr w' = tr w ++ d /\ calls d = replicate (length rs) (CWifi WConnect)).
Proof.
  revert w. induction rs as [|r rs IH]; intros w Hle; cbn [fmap list_fmap wifi_run].
  - apply wp_ret. split_and!; [cbn; lia|by intros [?|?]|]. exists []. by rewrite app_nil_r.
  - cbn [length] in Hle. apply wp_bind. apply disconnected_cases; intros Hn; [|unfold WIFI_MAX_RETRY in *; lia].
    intros x v He Hr. eapply wp_mono; [|apply IH; cbn [st]; lia]. cbn [st tr].
    intros _ w' (Hr' & Hbits & d & Ht & Hd). split_and!; [cbn [length]; lia| |].
    + intros _. apply Hbits. right. rewrite He. unfold dropped. case_match; eval_bits; done.
    + exists ((CWifi WConnect, x) :: d). rewrite Ht, <- app_assoc. split; [done|]. cbn. by rewrite Hd.
Qed.

(** C28: From a station with a fresh retry counter, six disconnections in a row,
    whatever their reasons, give exactly five new connection attempts; the sixth
    switches the radio to the setup access point, makes no attempt, and leaves
    the counter at zero with AP_MODE and LOST set and READY and CONNECTING clear. *)
Theorem fallback_after_retries rs w :
  wm_retry (st w) = 0 -> len rs = WIFI_MAX_RETRY + 1 ->
  wp (wifi_run ((fun r => WEvent (StaDisconnected r)) <$> rs)) E w (fun _ w' =>
    wm_retry (st w') = 0 /\
    is_ap (st w') = true /\ is_lost (st w') = true /\ is_ready (st w') = false /\ is_connecting (st w') = false /\
    exists d e, tr w' = tr w ++ d ++ e /\ calls d = replicate 5 (CWifi WConnect) /\
      CWifi WConnect ∉ calls e /\ CWifi (WSetMode true) ∈ calls e).
Proof.
  intros Hr. destruct rs as [|r0 rs _] using rev_ind; intros Hlen; [done|].
  rewrite length_app in Hlen. cbn in Hlen. unfold WIFI_MAX_RETRY in Hlen. rewrite fmap_app. apply wp_wifi_run_app.
  eapply wp_mono; [|apply retries_run; unfold WIFI_MAX_RETRY; lia]. intros [] w1 (Hr1 & _ & d & Ht & Hd).
  cbn [fmap list_fmap wifi_run]. apply wp_bind. apply disconnected_cases; unfold WIFI_MAX_RETRY; intros Hn; [lia|].
  intros v w' He Hrv (He' & Hr' & e & Ht' & Hne & Hin). apply wp_ret. cbn [st tr] in *.
  rewrite He', Hr', Hrv. split; [done|]. do 4 (split; [eval_bits; done|]).
  exists d, e. rewrite Ht', Ht, app_assoc. split_and!; [done| |done|done].
  rewrite Hd. f_equal. lia.
Qed.

(** After a disconnection for wrong credentials with attempts left, a new
    connection attempt has been started and AUTH_FAIL is still set together
    with CONNECTING, although wifi_manager.h says the bit is cleared when a new
    attempt starts. *)
Theorem auth_fail_kept_on_retry reason w :
  reason = WIFI_REASON_AUTH_FAIL \/ reason = WIFI_REASON_4WAY_HANDSHAKE_TIMEOUT ->
  wm_retry (st w) < WIFI_MAX_RETRY ->
  wp (wifi_event_handler (StaDisconnected reason)) E w (fun _ w' =>
    is_auth_fail (st w') = true /\ is_connecting (st w') = true /\ is_ready (st w') = false /\
    calls (tr w') = calls (tr w) ++ [CWifi WConnect]).
Proof.
  intros Hreason Hr. apply disconnected_cases; intros Hn; [|lia]. intros r v He _. cbn [st tr]. rewrite fmap_app, He.
  unfold dropped. replace (_ || _) with true by (by destruct Hreason as [-> | ->]). eval_bits. done.
Qed.
End WifiFacts.

(** ** Closed instances *)

(** Every call succeeds: credentials are stored and the station starts. *)
Definition calm_env : env := fun _ _ => Reply 0 [] 0 [].

Lemma calm_esp_ok : esp_ok calm_env.
Proof. done. Qed.

Lemma wifi_bits_consistent_witness :
  exists w', (wifi_manager_start ;; wifi_manager_task ;; wifi_run [WEvent StaStart; WDnsOpen; WEvent GotIp]) calm_env
      (World (wifi_static 0) []) = Some (tt, w') /\ is_ready (st w') = true /\ wm_dns_sock (st w') < 0 /\ CClose 0 ∈ calls (tr w').
Proof.
  destruct (wp_run _ _ _ _ (wifi_bits_consistent calm_env calm_esp_ok 0 [] [WEvent StaStart; WDnsOpen; WEvent GotIp])) as ([] & w' & Hr & _ & Hs & _).
  exists w'. split; [exact Hr|]. assert (is_ready (st w') = true) as Hready by (vm_compute in Hr; injection Hr as <-; reflexivity).
  split; [exact Hready|]. split; [exact (Hs Hready eq_refl)|]. vm_compute in Hr. injection Hr as <-. cbn. set_solver.
Defined.

(** A DNS task that opens its socket only after GOT_IP has been handled keeps it, with READY set:
    [stop_dns_server] had no socket to close and cleared the handle. *)
Example dns_opened_late :
  exists w', (wifi_manager_start ;; wifi_manager_task ;; wifi_run [WEvent GotIp; WDnsOpen]) calm_env (World (wifi_static 0) []) =
      Some (tt, w') /\ is_ready (st w') = true /\ wm_dns_task (st w') = false /\ wm_dns_sock (st w') = 0 /\ CClose 0 ∉ calls (tr w').
Proof. eexists. split; [vm_compute; reflexivity|]. do 3 (split; [reflexivity|]). cbn. set_solver. Qed.

Lemma fallback_after_retries_witness :
  wp (wifi_run ((fun r => WEvent (StaDisconnected r)) <$> [8; 8; 202; 15; 8; 8])) calm_env (World (wifi_static 0) [])
    (fun _ w' => wm_retry (st w') = 0 /\
      is_ap (st w') = true /\ is_lost (st w') = true /\ is_ready (st w') = false /\ is_connecting (st w') = false /\
      exists d e, tr w' = [] ++ d ++ e /\ calls d = replicate 5 (CWifi WConnect) /\
        CWifi WConnect ∉ calls e /\ CWifi (WSetMode true) ∈ calls e).
Proof.
  exact (fallback_after_retries calm_env calm_esp_ok [8; 8; 202; 15; 8; 8] (World (wifi_static 0) []) eq_refl eq_refl).
Defined.

Lemma auth_fail_kept_on_retry_witness :
  wp (wifi_event_handler (StaDisconnected 202)) calm_env (World (wifi_static 0) []) (fun _ w' =>
    is_auth_fail (st w') = true /\ is_connecting (st w') = true /\ is_ready (st w') = false /\
    calls (tr w') = calls [] ++ [CWifi WConnect]).
Proof.
  exact (auth_fail_kept_on_retry calm_env calm_esp_ok 202 (World (wifi_static 0) []) (or_introl eq_refl) eq_refl).
Defined.
