(* ===== verification/HubClient.v ===== *)
(** * Daemon discovery (esp-codes/main/hub_client.[ch])

    [hub_discover_task] is a loop around two waits on the WiFi event group; the
    states between which it blocks are [hub_pc], and [hub_step] is what it does
    from one to the next.  The task owns [s_hub] and sets the DAEMON bits. *)

From S2P Require Import Prelude Effects Descriptors Rtos Protocol WifiManager.

Definition DAEMON_FOUND_BIT : Z := BIT 0.
Definition DAEMON_LOST_BIT : Z := BIT 1.
Definition DISCOVER_TIMEOUT_SEC : Z := 3.
Definition DISCOVER_RETRY_SEC : Z := 5.
Definition INADDR_BROADCAST : Z := 0xFFFFFFFF.

Section Hub.
Context {G : Type} `{EventGroup G}.

(** [s_hub] and its event group. *)
Record hub_t := Hub { hb_found : bool; hb_ip : Z; hb_port : Z; hb_eg : G }.

Definition hub_client_daemon_found (h : hub_t) : bool := hb_found h.
Definition hub_client_daemon_ip (h : hub_t) : Z := hb_ip h.
Definition hub_client_daemon_port (h : hub_t) : Z := hb_port h.

Inductive hub_pc := HWaitWifi | HDiscover | HWaitLost.

(** Close the socket, wait, try again. *)
Definition retry_later (sock : option Z) : M hub_t hub_pc :=
  (match sock with Some fd => call_ext (CClose fd) ;; mret tt | None => mret tt end) ;;
  call_ext (CDelay (DISCOVER_RETRY_SEC * 1000)) ;; mret HDiscover.

(** One pass of the inner loop. *)
Definition discover_once : M hub_t hub_pc :=
  r ← call_ext (CSocket SOCK_DGRAM);
  let sock := r_ret r in
  if sock <? 0 then retry_later None else
  b ← call_ext (CSetsockopt sock SO_BROADCAST);
  if r_ret b <? 0 then retry_later (Some sock) else
  call_ext (CSetsockopt sock (SO_RCVTIMEO DISCOVER_TIMEOUT_SEC)) ;;
  let pkt := mkHeader CMD_DISCOVER 0 0 0 0 in
  sent ← call_ext (CSendto sock (encode pkt) INADDR_BROADCAST DAEMON_PORT);
  if r_ret sent <? 0 then retry_later (Some sock) else
  rcvd ← call_ext (CRecvfrom sock (sizeof Header + sizeof DiscoverReplyPayload));
  call_ext (CClose sock) ;;
  if r_ret rcvd <? sizeof Header + sizeof DiscoverReplyPayload then retry_later None else
  hdr ← checked (decode (r_out rcvd));
  if negb (h_cmd_type hdr =? CMD_DISCOVER_REPLY) then retry_later None else
  reply ← checked (decode (drop (Z.to_nat (sizeof Header)) (r_out rcvd)));
  modify (fun h => Hub true (r_aux rcvd) (dr_daemon_port reply)
                     (eg_set DAEMON_FOUND_BIT (eg_clear DAEMON_LOST_BIT (hb_eg h)))) ;;
  mret HWaitLost.

(** The task from one wait to the next. *)
Definition hub_step (pc : hub_pc) : M hub_t hub_pc :=
  match pc with
  | HWaitWifi => mret HDiscover
  | HDiscover => discover_once
  | HWaitLost =>
      modify (fun h => Hub false 0 0 (eg_set DAEMON_LOST_BIT (eg_clear DAEMON_FOUND_BIT (hb_eg h)))) ;;
      mret HWaitWifi
  end.

(** The wait the task is blocked in lets it go. *)
Definition hub_enabled (wifi : G) (pc : hub_pc) : bool :=
  match pc with
  | HWaitWifi => bits_set wifi WIFI_READY_BIT
  | HDiscover => true
  | HWaitLost => bits_set wifi WIFI_LOST_BIT
  end.

Definition hub_client_start : M hub_t unit :=
  modify (fun h => Hub (hb_found h) (hb_ip h) (hb_port h) eg_create) ;;
  call_ext (CTaskCreate hub_discover_task_id) ;; mret tt.
End Hub.
Arguments hub_t G : clear implicits.

(** ** Invariant *)

Section HubInvariant.
Context {G : Type} `{EventGroup G} (E : env).

(** The bits, the flag and the task's position agree; no socket is left open between steps. *)
Record hub_inv (rest : list Z) (pc : hub_pc) (w : world (hub_t G)) : Prop := {
  hi_found : hb_found (st w) = bits_set (hb_eg (st w)) DAEMON_FOUND_BIT;
  hi_pc : hb_found (st w) = true <-> pc = HWaitLost;
  hi_excl : bits_set (hb_eg (st w)) DAEMON_FOUND_BIT && bits_set (hb_eg (st w)) DAEMON_LOST_BIT = false;
  hi_gone : hb_found (st w) = false -> hb_ip (st w) = 0 /\ hb_port (st w) = 0;
  hi_fds : holds_fds (tr w) [] rest;
}.

(** What an attempt may do: nothing but traffic, or record the sender of a valid reply. *)
Definition discover_post (rest : list Z) (s : hub_t G) (pc : hub_pc) (w' : world (hub_t G)) : Prop :=
  holds_fds (tr w') [] rest /\
  ((pc = HDiscover /\ st w' = s) \/
   (pc = HWaitLost /\ exists fd r h rp,
      (CRecvfrom fd (sizeof Header + sizeof DiscoverReplyPayload), r) ∈ tr w' /\
      decode (r_out r) = Some h /\ h_cmd_type h = CMD_DISCOVER_REPLY /\
      decode (drop 6 (r_out r)) = Some rp /\
      st w' = Hub true (r_aux r) (dr_daemon_port rp)
        (eg_set DAEMON_FOUND_BIT (eg_clear DAEMON_LOST_BIT (hb_eg s))))).

Lemma retry_wp rest sock (w : world (hub_t G)) :
  holds_fds (tr w) (match sock with Some fd => [fd] | None => [] end) rest ->
  wp (retry_later sock) E w (discover_post rest (st w)).
Proof.
  intros Hf. unfold retry_later. destruct sock as [fd|]; repeat wp_step; (split; [|by left]); cbn [tr]; repeat holds_step; done.
Qed.

Lemma discover_wp rest (w : world (hub_t G)) :
  sockets_ok E -> holds_fds (tr w) [] rest -> wp discover_once E w (discover_post rest (st w)).
Proof.
  intros Hs Hf. unfold discover_once. apply wp_bind, wp_call. intros r _.
  pose proof (holds_socket _ [] rest SOCK_DGRAM r Hf) as Hf1.
  destruct (Z.leb_spec 0 (r_ret r)) as [Hr|Hr]; destruct (Z.ltb_spec (r_ret r) 0) as [Hr'|Hr']; try lia;
    [|by apply (retry_wp rest None (World _ _))].
  apply wp_bind, wp_call. intros b _. cbn [st tr].
  destruct (r_ret b <? 0); [apply (retry_wp rest (Some _) (World _ _)); cbn [tr]; by holds_step|].
  apply wp_bind, wp_call. intros o _. apply wp_bind, wp_call. intros sent _. cbn [st tr].
  destruct (r_ret sent <? 0); [apply (retry_wp rest (Some _) (World _ _)); cbn [tr]; by repeat holds_step|].
  apply wp_bind, wp_call. intros rcvd Hrcvd. apply wp_bind, wp_call. intros c _. cbn [st tr] in *.
  match type of Hrcvd with _ = E ?t (CRecvfrom ?fd ?n) => pose proof (Hs t fd n) as (Hle & Hlen & Hb) end.
  rewrite <- Hrcvd in Hle, Hlen, Hb. set (t := _ ++ [(CClose _, _)]).
  assert (holds_fds t [] rest) as Hf2 by (unfold t; by repeat holds_step).
  assert ((CRecvfrom (r_ret r) (sizeof Header + sizeof DiscoverReplyPayload), rcvd) ∈ t) as Hin.
  { unfold t. apply elem_of_app. left. apply elem_of_app. right. by apply list_elem_of_singleton. }
  clearbody t. clear Hrcvd Hf1 Hf.
  destruct (Z.ltb_spec (r_ret rcvd) (sizeof Header + sizeof DiscoverReplyPayload)) as [|Hge];
    [by apply (retry_wp rest None (World _ _))|].
  cbn in Hle, Hlen, Hge. destruct (r_out rcvd) as [|b0 [|b1 [|b2 [|b3 [|b4 [|b5 [|b6 [|b7 more]]]]]]]] eqn:Ho;
    cbn in Hlen; try lia.
  apply wp_bind. eapply wp_checked; [reflexivity|]. cbn [h_cmd_type].
  destruct (Z.eqb_spec b0 CMD_DISCOVER_REPLY); cbn [negb]; [|by apply (retry_wp rest None (World _ _))].
  apply wp_bind. eapply wp_checked; [reflexivity|]. repeat wp_step. split; [done|]. right. split; [done|].
  exists (r_ret r), rcvd. rewrite Ho. do 2 eexists. split_and!; [done|reflexivity|done|reflexivity|done].
Qed.

Lemma hub_step_wp rest pc (w : world (hub_t G)) :
  sockets_ok E -> hub_inv rest pc w -> wp (hub_step pc) E w (fun pc' w' => hub_inv rest pc' w').
Proof.
  intros Hs [Hfo Hpc Hex Hg Hf]. destruct pc; cbn [hub_step].
  - apply wp_ret. constructor; try done. rewrite Hpc. done.
  - eapply wp_mono; [|by apply discover_wp]. intros pc' w' [Hf' [[-> Hst]|(-> & fd & r & h & rp & _ & _ & _ & _ & Hst)]].
    + constructor; rewrite ?Hst; try done.
    + constructor; rewrite ?Hst; cbn; unfold DAEMON_FOUND_BIT, DAEMON_LOST_BIT; autorewrite with bits; cbn;
        rewrite ?orb_true_r, ?andb_false_r; done.
  - repeat wp_step. constructor; cbn; unfold DAEMON_FOUND_BIT, DAEMON_LOST_BIT; autorewrite with bits; cbn;
        rewrite ?orb_true_r, ?andb_false_r; done.
Qed.
End HubInvariant.

(** ** Any run of the task *)

(** A run of the task: each entry is the WiFi event group at one of its steps. *)
Fixpoint hub_run {G} `{EventGroup G} (wifi : list G) (pc : hub_pc) : M (hub_t G) hub_pc :=
  match wifi with
  | [] => mret pc
  | g :: rest => if hub_enabled g pc then pc' ← hub_step pc; hub_run rest pc' else hub_run rest pc
  end.

Definition hub0 {G} `{EventGroup G} : hub_t G := Hub false 0 0 eg_create.

(** C22: whatever the network does, the discovery task announces a daemon exactly while it has one:
    from start-up, after any number of steps, DAEMON_FOUND is set if and only if [found] is, it is
    never set together with DAEMON_LOST, the address and port read 0 when no daemon is known, and
    every discovery socket has been closed again. *)
Theorem hub_announces_daemon {G} `{EventGroup G} E (wifi : list G) :
  sockets_ok E ->
  exists pc w', hub_run wifi HWaitWifi E (World hub0 []) = Some (pc, w') /\
    hub_client_daemon_found (st w') = bits_set (hb_eg (st w')) DAEMON_FOUND_BIT /\
    (hub_client_daemon_found (st w') = true <-> pc = HWaitLost) /\
    bits_set (hb_eg (st w')) DAEMON_FOUND_BIT && bits_set (hb_eg (st w')) DAEMON_LOST_BIT = false /\
    (hub_client_daemon_found (st w') = false -> hub_client_daemon_ip (st w') = 0 /\ hub_client_daemon_port (st w') = 0) /\
    fd_run [] (tr w') = Some [].
Proof.
  intros Hs.
  assert (hub_inv [] HWaitWifi (World (hub0 (G := G)) [])) as Hi.
  { constructor; cbn; unfold DAEMON_FOUND_BIT; autorewrite with bits; try done. apply holds_nil. }
  revert Hi. generalize HWaitWifi as pc, (World (hub0 (G := G)) []) as w. intros pc w Hi.
  assert (wp (hub_run wifi pc) E w (fun pc' w' => hub_inv [] pc' w')) as Hw.
  { revert pc w Hi. induction wifi as [|g wifi IH]; intros pc w Hi; cbn [hub_run]; [done|].
    destruct (hub_enabled g pc); [|by apply IH]. apply wp_bind. eapply wp_mono; [|by apply hub_step_wp].
    intros pc' w' Hi'. by apply IH. }
  destruct (wp_run _ _ _ _ Hw) as (pc' & w' & Hr & [? ? ? ? (l & Hl & Hp)]). exists pc', w'.
  apply Permutation_nil_r in Hp as ->. done.
Qed.

(** A network on which the daemon at 1.2.3.4 answers every broadcast. *)
Definition discover_reply : bytes :=
  encode (mkHeader CMD_DISCOVER_REPLY 0 0 0 2) ++ encode (mkDiscoverReply DAEMON_PORT).
Definition answering_env : env := fun _ c =>
  match c with
  | CSocket _ => Reply 3 [] 0 []
  | CRecvfrom _ n => let d := take (Z.to_nat n) discover_reply in Reply (if 0 <=? n then len d else n) d 0x04030201 []
  | _ => Reply 0 [] 0 []
  end.

Lemma answering_env_ok : sockets_ok answering_env.
Proof.
  intros t fd n. cbn [answering_env r_ret r_out]. rewrite length_take. destruct (Z.leb_spec 0 n).
  - split; [lia|]. split; [lia|]. apply Forall_take. repeat (apply Forall_cons_2; [by vm_compute|]). constructor.
  - destruct n; [lia|lia|]. split; [lia|]. split; [lia|constructor].
Qed.

Lemma hub_announces_daemon_witness :
  exists w', hub_run [1; 1; 0] HWaitWifi answering_env (World hub0 []) = Some (HWaitLost, w') /\
    bits_set (hb_eg (st w')) DAEMON_FOUND_BIT = true.
Proof.
  destruct (hub_announces_daemon answering_env [1; 1; 0] answering_env_ok) as (pc & w' & Hr & Hb & Hpc & _).
  assert (pc = HWaitLost) as -> by (vm_compute in Hr; by injection Hr as <- <-).
  exists w'. split; [exact Hr|]. rewrite <- Hb. by apply Hpc.
Defined.

(** An attempt believes only a complete CMD_DISCOVER_REPLY: when it succeeds, the recorded address
    is the sender of a datagram that decodes as such a reply and the recorded port is the one in
    it; otherwise the daemon state is unchanged and the task tries again. *)
Theorem discover_believes_replies {G} `{EventGroup G} E (w : world (hub_t G)) l :
  sockets_ok E -> fd_run [] (tr w) = Some l ->
  exists pc w', discover_once E w = Some (pc, w') /\
    ((pc = HDiscover /\ st w' = st w) \/
     (pc = HWaitLost /\ exists fd r h rp, (CRecvfrom fd 8, r) ∈ tr w' /\
       decode (r_out r) = Some h /\ h_cmd_type h = CMD_DISCOVER_REPLY /\ decode (drop 6 (r_out r)) = Some rp /\
       hub_client_daemon_ip (st w') = r_aux r /\ hub_client_daemon_port (st w') = dr_daemon_port rp)).
Proof.
  intros Hs Hl. assert (holds_fds (tr w) [] l) as Hf by (exists l; done).
  destruct (wp_run _ _ _ _ (discover_wp E l w Hs Hf)) as (pc & w' & Hr & _ & Hd). exists pc, w'. split; [done|].
  destruct Hd as [?|(? & fd & r & h & rp & Hin & Hd1 & Hd2 & Hd3 & Hst)]; [by left|right]. split; [done|].
  exists fd, r, h, rp. by rewrite Hst.
Qed.

Lemma discover_believes_replies_witness :
  exists w', discover_once answering_env (World (hub0 (G := Z)) []) = Some (HWaitLost, w') /\
    hub_client_daemon_port (st w') = DAEMON_PORT.
Proof.
  destruct (discover_believes_replies answering_env (World (hub0 (G := Z)) []) [] answering_env_ok eq_refl)
    as (pc & w' & Hr & _).
  vm_compute in Hr. injection Hr as <- <-. eexists. split; vm_compute; reflexivity.
Defined.
