(* ===== verification/SessionTasks.v ===== *)
(** * The tasks of a session (esp-codes/main/device_session.c)

    A session runs three FreeRTOS tasks (control, up, down) against the event
    group of the session and that of the hub client.  The program counters
    below are the points where a task waits (event-group waits, delays,
    [ops->recv], [recvfrom], the USB transfer of a request, the TCP connection of
    a device event) and the return of [recvfrom]; [session_ctrl_task],
    [session_up_task] and [session_down_task] run a task from one such point to
    the next, and [sys_step] interleaves them with the discovery task, the USB
    driver's callbacks and one another in any order.  Code between two such
    points is one step, the [sendto]s of one frame included. *)

From stdpp Require Import relations.
From S2P Require Import Prelude Effects Descriptors Rtos Protocol Usbip Session Reasm UsbipProxy Traffic HubClient.

Definition SESSION_ACTIVE_BIT : Z := BIT 0.
Definition SESSION_LOST_BIT : Z := BIT 1.

(** [CPollDevice sock]: in the wait for a USB device, with the local [sock].  [CAnnounced]: the
    CONNECT event has been sent. *)
Inductive ctrl_pc := CWaitFound | CStagger | CPollDevice (sock : Z) | CAnnounced | CWaitLost | CTeardown.
(** [UGot n data]: [ops->recv] has returned. *)
Inductive up_pc := UWaitActive | UWaitLost | ULoop | UGot (n : Z) (data : bytes).
(** [DRecv sock]: blocked in [recvfrom] on the local [sock].  [DGot buf]: [recvfrom] has returned a
    datagram.  [DReply cmd actual status]: the USB transfer of a submit has ended. *)
Inductive down_pc :=
| DWaitActive | DLoop | DRecv (sock : Z) | DGot (buf : bytes)
| DReply (cmd : usbip_cmd_submit_t) (actual status : Z).

Section Tasks.
Context {D G : Type} `{DeviceOps D, UsbBackend D, EventGroup G}.

Record sys := Sys {
  y_node : node D;
  y_eg : G;
  y_hub : hub_t G;
  y_ctrl : ctrl_pc;
  y_up : up_pc;
  y_down : down_pc;
  y_eagain : list Z;
}.
Abbreviation MY := (M sys).

Definition set_node v s := let 'Sys _ b c d e f g := s in Sys v b c d e f g.
Definition set_eg v s := let 'Sys a _ c d e f g := s in Sys a v c d e f g.
Definition set_hub_st v s := let 'Sys a b _ d e f g := s in Sys a b v d e f g.
Definition set_ctrl v s := let 'Sys a b c _ e f g := s in Sys a b c v e f g.
Definition set_up v s := let 'Sys a b c d _ f g := s in Sys a b c d v f g.
Definition set_down v s := let 'Sys a b c d e _ g := s in Sys a b c d e v g.
Definition set_eagain v s := let 'Sys a b c d e f _ := s in Sys a b c d e f v.

Definition node_l : lens sys (node D) := Lens y_node set_node.
Definition upd_sess (f : session_t -> session_t) : MY unit :=
  modify (fun y => set_node (set_sess (f (n_sess (y_node y))) (y_node y)) y).
Definition upd_eg (f : G -> G) : MY unit := modify (fun y => set_eg (f (y_eg y)) y).
Definition y_sess (y : sys) : session_t := n_sess (y_node y).
Definition y_id (y : sys) : Z := cfg_device_id (s_cfg (y_sess y)).

(** ** Control task *)

(** Announce the session. *)
Definition ctrl_announce : MY unit :=
  zoom node_l (send_device_event DEVICE_EVENT_CONNECT) ;;
  modify (set_ctrl CAnnounced).

(** Mark it active. *)
Definition ctrl_activate : MY unit :=
  upd_eg (eg_clear SESSION_LOST_BIT) ;;
  upd_eg (eg_set SESSION_ACTIVE_BIT) ;;
  modify (set_ctrl CWaitLost).

(** A step of opening the socket failed: close it, wait, start over. *)
Definition ctrl_open_failed (sock : option Z) : MY unit :=
  (match sock with Some fd => call_ext (CClose fd) ;; mret tt | None => mret tt end) ;;
  call_ext (CDelay 1000) ;; modify (set_ctrl CWaitFound).

(** Open the reply socket, reset the session, wait for the device in USB/IP mode. *)
Definition ctrl_open : MY unit :=
  y ← get;
  upd_sess (set_daemon_ip (hub_client_daemon_ip (y_hub y))) ;;
  let reply_port := u16 (DEVICE_BASE_PORT + y_id y) in
  r ← call_ext (CSocket SOCK_DGRAM);
  let sock := r_ret r in
  if sock <? 0 then ctrl_open_failed None else
  b ← call_ext (CBind sock reply_port);
  if r_ret b <? 0 then ctrl_open_failed (Some sock) else
  o ← call_ext (CSetsockopt sock (SO_RCVTIMEO 1));
  if r_ret o <? 0 then ctrl_open_failed (Some sock) else
  upd_sess (fun s => set_out_transfer_seq 0 (set_seq 0 (set_reasm reasm_zero (set_sock sock s)))) ;;
  y ← get;
  if cfg_usbip_mode (s_cfg (y_sess y)) && negb (usb_is_device_ready (n_drv (y_node y)))
  then modify (set_ctrl (CPollDevice sock))
  else ctrl_announce.

(** One round of the 250 ms poll for a USB device. *)
Definition ctrl_poll (sock : Z) : MY unit :=
  call_ext (CDelay 250) ;;
  y ← get;
  if bits_set (hb_eg (y_hub y)) DAEMON_LOST_BIT then
    call_ext (CClose sock) ;; upd_sess (set_sock (-1)) ;; modify (set_ctrl CWaitFound)
  else if usb_is_device_ready (n_drv (y_node y)) then ctrl_announce
  else mret tt.

Definition ctrl_lost : MY unit :=
  upd_eg (eg_clear SESSION_ACTIVE_BIT) ;;
  upd_eg (eg_set SESSION_LOST_BIT) ;;
  y ← get;
  let old_sock := s_sock (y_sess y) in
  upd_sess (set_sock (-1)) ;;
  call_ext (CClose old_sock) ;;
  modify (set_ctrl CTeardown).

Definition ctrl_teardown : MY unit :=
  call_ext (CDelay 1500) ;;
  zoom node_l (send_device_event DEVICE_EVENT_DISCONNECT) ;;
  upd_eg (eg_clear SESSION_LOST_BIT) ;;
  modify (set_ctrl CWaitFound).

Definition ctrl_enabled (y : sys) : bool :=
  match y_ctrl y with
  | CWaitFound => bits_set (hb_eg (y_hub y)) DAEMON_FOUND_BIT
  | CWaitLost => bits_set (hb_eg (y_hub y)) DAEMON_LOST_BIT
  | _ => true
  end.

Definition session_ctrl_task : MY unit :=
  y ← get;
  match y_ctrl y with
  | CWaitFound => call_ext (CDelay (10 * y_id y)) ;; modify (set_ctrl CStagger)
  | CStagger => ctrl_open
  | CPollDevice sock => ctrl_poll sock
  | CAnnounced => ctrl_activate
  | CWaitLost => ctrl_lost
  | CTeardown => ctrl_teardown
  end.

(** ** Up task *)

Definition up_enabled (y : sys) : bool :=
  match y_up y with
  | UWaitActive => bits_set (y_eg y) SESSION_ACTIVE_BIT
  | UWaitLost => bits_set (y_eg y) SESSION_LOST_BIT
  | _ => true
  end.

Definition session_up_task : MY unit :=
  y ← get;
  match y_up y with
  | UWaitActive =>
      modify (set_up (if cfg_usbip_mode (s_cfg (y_sess y)) then UWaitLost else ULoop))
  | UWaitLost => modify (set_up UWaitActive)
  | ULoop =>
      if bits_set (y_eg y) SESSION_LOST_BIT then modify (set_up UWaitActive) else
      r ← zoom node_l (zoom drv_l (ops_recv TX_BUF));
      modify (set_up (UGot r.1 r.2))
  | UGot n data =>
      if n <=? 0 then call_ext (CDelay 10) ;; modify (set_up ULoop) else
      if s_sock (y_sess y) <? 0 then modify (set_up UWaitActive) else
      frame ← checked (buf_read data 0 n);
      zoom node_l (zoom sess_l (send_raw frame)) ;;
      modify (set_up ULoop)
  end.

(** ** Down task *)

Definition down_enabled (y : sys) : bool :=
  match y_down y with
  | DWaitActive => bits_set (y_eg y) SESSION_ACTIVE_BIT
  | _ => true
  end.

(** The USB/IP submit a datagram carries, if it is one: the request and the data behind its header. *)
Definition submit_of (usbip_mode : bool) (buf : bytes) : option (usbip_cmd_submit_t * bytes) :=
  if len buf <? HDR then None else
  hdr ← decode (A := Header) buf;
  let payload := drop (Z.to_nat HDR) buf in
  if (h_cmd_type hdr =? CMD_RAW_DATA) && usbip_mode && (USBIP_HDR <=? len payload) then
    cmd ← cmd_submit_decode payload;
    if USBIP_U32 (cs_command cmd) =? USBIP_CMD_SUBMIT then Some (cmd, drop (Z.to_nat USBIP_HDR) payload) else None
  else None.

Definition session_down_task : MY unit :=
  y ← get;
  match y_down y with
  | DWaitActive => modify (set_down DLoop)
  | DLoop =>
      let sock := s_sock (y_sess y) in
      modify (set_down (if sock <? 0 then DWaitActive else DRecv sock))
  | DRecv sock =>
      r ← call_ext (CRecvfrom sock RX_BUF);
      if r_ret r <? 0 then
        c ← checked (arr_get (y_eagain y) (y_id y));
        cnt ← checked (arr_set (y_eagain y) (y_id y) (u32 (c + 1)));
        modify (set_eagain cnt) ;;
        if bits_set (y_eg y) SESSION_LOST_BIT then modify (set_down DWaitActive)
        else call_ext (CDelay 10) ;; modify (set_down DLoop)
      else
        buf ← checked (buf_read (r_out r) 0 (r_ret r));
        modify (set_down (DGot buf))
  | DGot buf =>
      match submit_of (cfg_usbip_mode (s_cfg (y_sess y))) buf with
      | Some (cmd, data) =>
          p ← zoom node_l (submit_transfer cmd data);
          modify (set_down (DReply cmd p.1 p.2))
      | None =>
          zoom node_l (down_datagram buf) ;;
          modify (set_down DLoop)
      end
  | DReply cmd actual status =>
      zoom node_l (submit_reply cmd actual status) ;;
      modify (set_down DLoop)
  end.

(** ** Interleaving *)

(** One move of the system.  Driver callbacks may change the driver in any way [P] allows. *)
Inductive sys_step (P : D -> Prop) (E : env) : world sys -> world sys -> Prop :=
| step_ctrl w w' : ctrl_enabled (st w) = true -> session_ctrl_task E w = Some (tt, w') -> sys_step P E w w'
| step_up w w' : up_enabled (st w) = true -> session_up_task E w = Some (tt, w') -> sys_step P E w w'
| step_down w w' : down_enabled (st w) = true -> session_down_task E w = Some (tt, w') -> sys_step P E w w'
| step_hub w h : sys_step P E w (World (set_hub_st h (st w)) (tr w))
| step_driver w d : P d -> sys_step P E w (World (set_node (set_drv d (y_node (st w))) (st w)) (tr w)).

(** The state in which [device_session_start] leaves a session. *)
Definition sys_init (cfg : device_session_cfg_t) (drv : D) (hub : hub_t G) : sys :=
  Sys (Node (Session cfg (-1) 0 0 0 reasm_zero) (-1) false (zeros IN_BUF) drv)
    eg_create hub CWaitFound UWaitActive DWaitActive (zeros SESSION_MAX_ID).
End Tasks.
Arguments sys D G : clear implicits.

(** A submit is handled by its transfer and then its reply, the two steps of the down task. *)
Lemma down_datagram_submit {D} `{DeviceOps D, UsbBackend D} E buf cmd data (w : world (node D)) :
  submit_of (cfg_usbip_mode (s_cfg (n_sess (st w)))) buf = Some (cmd, data) ->
  down_datagram buf E w = (p ← submit_transfer cmd data; submit_reply cmd p.1 p.2) E w.
Proof.
  intros Hs. unfold submit_of in Hs. destruct (Z.ltb_spec (len buf) HDR) as [|Hl]; [done|].
  destruct (decode buf) as [hdr|] eqn:Hh; [|done]. cbn [mbind option_bind] in Hs.
  destruct (Z.eqb_spec (h_cmd_type hdr) CMD_RAW_DATA) as [Hc|]; [|done]. cbn [andb] in Hs.
  destruct (cfg_usbip_mode _) eqn:Hm; [|done]. cbn [andb] in Hs. set (payload := drop (Z.to_nat HDR) buf) in *.
  destruct (Z.leb_spec USBIP_HDR (len payload)); [|done].
  destruct (cmd_submit_decode payload) as [c|] eqn:Hd; [|done]. cbn [mbind option_bind] in Hs.
  destruct (Z.eqb_spec (USBIP_U32 (cs_command c)) USBIP_CMD_SUBMIT) as [Hsub|]; [|done]. injection Hs as -> <-.
  unfold down_datagram. destruct (Z.ltb_spec (len buf) HDR); [lia|]. rewrite Hh.
  do 2 (erewrite mbind_some by reflexivity). rewrite Hc, Hm, Z.eqb_refl. fold payload. unfold usb_handle_submit. rewrite Hd.
  destruct (Z.ltb_spec (len payload) USBIP_HDR); [lia|]. erewrite mbind_some by reflexivity. by rewrite Hsub.
Qed.

Lemma submit_of_ok mode buf cmd data :
  submit_of mode buf = Some (cmd, data) -> bytes_ok buf -> len (cs_setup cmd) = 8 /\ bytes_ok (cs_setup cmd) /\ bytes_ok data.
Proof.
  unfold submit_of. intros Hs Hb. destruct (len buf <? HDR); [done|]. destruct (decode buf); [|done]. cbn in Hs.
  destruct (_ && _); [|done]. destruct (cmd_submit_decode _) as [c|] eqn:Hd; [|done]. cbn in Hs.
  destruct (_ =? _); [|done]. injection Hs as -> <-.
  destruct (cmd_submit_setup _ _ Hd) as [? ?]; [by apply Forall_drop|]. split_and!; [done|done|by do 2 apply Forall_drop].
Qed.

(** ** Invariant *)

Section TasksInvariant.
Context {D G : Type} {ops : DeviceOps D} {E : env} {ok : DeviceOpsOk D E} {be : UsbBackend D} {bok : UsbBackendOk D E}.
Context `{EventGroup G}.
Implicit Types (w : world (sys D G)) (y : sys D G).

Abbreviation active y := (bits_set (y_eg y) SESSION_ACTIVE_BIT).
Abbreviation lost y := (bits_set (y_eg y) SESSION_LOST_BIT).

(** The control task's position decides the socket and the bits of the session. *)
Definition ctrl_inv (pc : ctrl_pc) (sock : Z) (a l : bool) : Prop :=
  match pc with
  | CWaitFound | CStagger => sock = -1 /\ a = false /\ l = false
  | CPollDevice k => sock = k /\ 0 <= k /\ a = false /\ l = false
  | CAnnounced => 0 <= sock /\ a = false /\ l = false
  | CWaitLost => 0 <= sock /\ a = true /\ l = false
  | CTeardown => sock = -1 /\ a = false /\ l = true
  end.

Definition up_inv (pc : up_pc) : Prop :=
  match pc with
  | UGot n data => n <= TX_BUF /\ (0 <= n -> len data = n) /\ bytes_ok data
  | _ => True
  end.

Definition down_inv (pc : down_pc) : Prop :=
  match pc with
  | DGot buf => bytes_ok buf /\ len buf <= RX_BUF
  | DReply _ actual _ => 0 <= actual <= IN_BUF
  | _ => True
  end.

Definition sock_fds y : list Z := if 0 <=? s_sock (y_sess y) then [s_sock (y_sess y)] else [].

(** What holds at every point, and at the points between steps. *)
Record sys_base w : Prop := {
  yi_node : node_ok (E := E) (y_node (st w));
  yi_id : 0 <= y_id (st w) < SESSION_MAX_ID;
  yi_eagain : length (y_eagain (st w)) = 5%nat;
  yi_up : up_inv (y_up (st w));
  yi_down : down_inv (y_down (st w));
  yi_fds : holds_at true (tr w) (event_fds (y_node (st w))) (sock_fds (st w));
  yi_event : n_event_connected (y_node (st w)) = true -> 0 <= n_event_sock (y_node (st w));
}.
Definition sys_inv w : Prop :=
  sys_base w /\ ctrl_inv (y_ctrl (st w)) (s_sock (y_sess (st w))) (active (st w)) (lost (st w)).

Ltac sys_unfold := unfold y_id, sock_fds, y_sess in *; cbn in *.
Ltac sys_open w Hi :=
  destruct Hi as [?Hn ?Hid ?Hea ?Hu ?Hdn ?Hf ?He]; destruct w as [[] ?t]; sys_unfold.
Ltac sys_close := constructor; unfold y_id, sock_fds, y_sess; cbn; try done.

(** A device event, seen from the system: everything but the sequence number and the channel stays. *)
Lemma sys_event_wp ev w :
  sys_base w ->
  wp (zoom node_l (send_device_event ev)) E w (fun _ w' => sys_base w' /\
    y_eg (st w') = y_eg (st w) /\ s_sock (y_sess (st w')) = s_sock (y_sess (st w))).
Proof.
  intros Hi. sys_open w Hi. destruct Hn as [Hs Hb Hd]. apply wp_zoom.
  eapply wp_mono; [|apply (send_device_event_wp E (if 0 <=? s_sock (n_sess y_node0) then [s_sock (n_sess y_node0)] else []) ev (World y_node0 t)); by split].
  intros [] v ([Hf' He'] & Hib & Hdr & Hse). cbn in *.
  assert (s_sock (n_sess (st v)) = s_sock (n_sess y_node0) /\ sess_ok (n_sess (st v)) /\
          s_cfg (n_sess (st v)) = s_cfg (n_sess y_node0)) as (Hsk & Hso & Hcf).
  { destruct Hse as [->|[-> _]]; [done|]. destruct Hs. split_and!; [done| |done]. constructor; cbn; auto with hub. }
  split; [|done]. sys_close; rewrite ?Hsk, ?Hcf; try done.
  constructor; [done|by rewrite Hib|by rewrite Hdr].
Qed.

Lemma announce_wp w :
  sys_base w -> active (st w) = false -> lost (st w) = false -> 0 <= s_sock (y_sess (st w)) ->
  wp ctrl_announce E w (fun _ w' => sys_inv w').
Proof.
  intros Hi Ha Hl Hs. unfold ctrl_announce. apply wp_bind. eapply wp_mono; [|by apply sys_event_wp].
  intros [] w' (Hi' & Heg & Hsk). rewrite <- Heg in Ha, Hl. rewrite <- Hsk in Hs. clear Hi Heg Hsk w.
  apply wp_modify. sys_open w' Hi'. split; [sys_close|done].
Qed.

Lemma activate_wp w :
  sys_inv w -> y_ctrl (st w) = CAnnounced -> wp ctrl_activate E w (fun _ w' => sys_inv w').
Proof.
  intros [Hi Hc] Hpc. rewrite Hpc in Hc. destruct Hc as (Hs & Ha & Hl). unfold ctrl_activate, upd_eg.
  repeat wp_step. sys_open w Hi. split; [sys_close|]. unfold y_sess. cbn.
  unfold SESSION_ACTIVE_BIT, SESSION_LOST_BIT in *. autorewrite with bits. cbn. rewrite Hl, orb_true_r. done.
Qed.

(** The socket of a failed attempt is closed and the session stays idle. *)
Lemma open_failed_wp s w :
  node_ok (E := E) (y_node (st w)) -> 0 <= y_id (st w) < SESSION_MAX_ID -> length (y_eagain (st w)) = 5%nat ->
  s_sock (y_sess (st w)) = -1 -> active (st w) = false -> lost (st w) = false -> up_inv (y_up (st w)) -> down_inv (y_down (st w)) ->
  holds_at true (tr w) (match s with Some fd => [fd] | None => [] end) (event_fds (y_node (st w))) ->
  (n_event_connected (y_node (st w)) = true -> 0 <= n_event_sock (y_node (st w))) ->
  wp (ctrl_open_failed s) E w (fun _ w' => sys_inv w').
Proof.
  intros Hn Hid Hea Hs Ha Hl Hu Hdn Hf He. unfold ctrl_open_failed.
  assert (forall t', holds_at true t' [] (event_fds (y_node (st w))) -> sys_inv (World (set_ctrl CWaitFound (st w)) t')) as Hfin.
  { intros t' Hf'. destruct w as [[] t]. sys_unfold. split; [|done]. sys_close. rewrite Hs. by apply holds_swap. }
  destruct s; repeat wp_step; apply Hfin; repeat holds_step; done.
Qed.

Lemma open_wp w :
  sys_inv w -> y_ctrl (st w) = CStagger -> wp ctrl_open E w (fun _ w' => sys_inv w').
Proof.
  intros [Hi Hc] Hpc. sys_open w Hi. subst. destruct Hc as (Hs & Ha & Hl). rewrite Hs in Hf. cbn in Hf. apply holds_swap in Hf.
  destruct Hn as [[] Hb Hd]. unfold ctrl_open, upd_sess.
  apply wp_bind, wp_get, wp_bind, wp_modify, wp_bind, wp_call. intros r _. cbn [st tr].
  pose proof (holds_socket _ _ _ SOCK_DGRAM r Hf) as Hf1.
  destruct (Z.leb_spec 0 (r_ret r)) as [Hr|Hr]; destruct (Z.ltb_spec (r_ret r) 0) as [Hr'|Hr']; try lia.
  2:{ apply open_failed_wp; unfold y_id, y_sess; cbn; try done. }
  apply wp_bind, wp_call. intros b _. cbn [st tr].
  destruct (r_ret b <? 0).
  { apply open_failed_wp; unfold y_id, y_sess; cbn; try done. by holds_step. }
  apply wp_bind, wp_call. intros o _. cbn [st tr].
  destruct (r_ret o <? 0).
  { apply open_failed_wp; unfold y_id, y_sess; cbn; try done. by repeat holds_step. }
  apply wp_bind, wp_modify, wp_bind, wp_get. cbn [st tr].
  set (t1 := _ ++ [(CSetsockopt _ _, _)]).
  assert (holds_at true t1 [r_ret r] (event_fds y_node0)) as Hf2 by (unfold t1; by repeat holds_step). clearbody t1. cbn [set_node].
  set (y1 := Sys _ _ _ _ _ _ _).
  assert (sys_base (World y1 t1)) as Hi1.
  { sys_close; [|by destruct (Z.leb_spec 0 (r_ret r)); [apply holds_swap|lia]].
    constructor; [|done|done]. constructor; [done|done|done|exact reasm_zero_ok]. }
  destruct (_ && _); repeat wp_step; [|by apply announce_wp].
  destruct Hi1. split; [by constructor|]. done.
Qed.

Lemma poll_wp k w :
  sys_inv w -> y_ctrl (st w) = CPollDevice k -> wp (ctrl_poll k) E w (fun _ w' => sys_inv w').
Proof.
  intros [Hi Hc] Hpc. rewrite Hpc in Hc. destruct Hc as (Hs & Hk & Ha & Hl). unfold ctrl_poll, upd_sess.
  apply wp_bind, wp_call. intros r _. apply wp_bind, wp_get. cbn [st tr].
  destruct (bits_set _ DAEMON_LOST_BIT).
  - repeat wp_step. sys_open w Hi. split; [|done]. rewrite Hs in Hf. destruct (Z.leb_spec 0 k); [|lia]. sys_close.
    + destruct Hn as [[] ? ?]. done.
    + apply holds_swap. holds_step. holds_step. by apply holds_swap.
  - assert (sys_base (World (st w) (tr w ++ [(CDelay 250, r)]))) as Hi'.
    { destruct Hi. constructor; try done. by apply holds_other. }
    destruct (usb_is_device_ready _); [apply announce_wp; cbn [st tr]; try done; lia|].
    apply wp_ret. split; [done|]. cbn. by rewrite Hpc.
Qed.

Lemma lost_wp w :
  sys_inv w -> y_ctrl (st w) = CWaitLost -> wp ctrl_lost E w (fun _ w' => sys_inv w').
Proof.
  intros [Hi Hc] Hpc. rewrite Hpc in Hc. destruct Hc as (Hs & Ha & Hl). unfold ctrl_lost, upd_eg, upd_sess.
  repeat wp_step. sys_open w Hi. destruct (Z.leb_spec 0 (s_sock (n_sess y_node0))); [|lia]. split.
  - sys_close; [by destruct Hn as [[] ? ?]|]. apply holds_swap. holds_step. by apply holds_swap.
  - unfold y_sess. cbn. unfold SESSION_ACTIVE_BIT, SESSION_LOST_BIT. autorewrite with bits. cbn.
    by rewrite orb_true_r, andb_false_r.
Qed.

Lemma teardown_wp w :
  sys_inv w -> y_ctrl (st w) = CTeardown -> wp ctrl_teardown E w (fun _ w' => sys_inv w').
Proof.
  intros [Hi Hc] Hpc. rewrite Hpc in Hc. destruct Hc as (Hs & Ha & Hl). unfold ctrl_teardown, upd_eg.
  apply wp_bind, wp_call. intros r _. apply wp_bind. eapply wp_mono; [|apply sys_event_wp].
  2:{ destruct Hi. constructor; try done. by apply holds_other. }
  cbn [st tr]. intros [] w' (Hi' & Heg & Hsk). rewrite <- Heg in Ha. rewrite <- Hsk in Hs. clear Hi Heg Hsk Hl Hpc w.
  repeat wp_step. sys_open w' Hi'. split; [sys_close|]. unfold y_sess. cbn.
  unfold SESSION_ACTIVE_BIT, SESSION_LOST_BIT in *. autorewrite with bits. cbn. by rewrite Ha, andb_false_r.
Qed.

Lemma ctrl_task_wp w : sys_inv w -> wp session_ctrl_task E w (fun _ w' => sys_inv w').
Proof.
  intros Hi. unfold session_ctrl_task. apply wp_bind, wp_get. destruct (y_ctrl (st w)) eqn:Hpc.
  - repeat wp_step. destruct Hi as [Hi Hc]. sys_open w Hi. subst. split; [|done]. sys_close. by holds_step.
  - by apply open_wp.
  - by apply poll_wp.
  - by apply activate_wp.
  - by apply lost_wp.
  - by apply teardown_wp.
Qed.

(** Work on the node that only sends on the session's socket keeps the invariant. *)
Lemma node_work_wp {A} (m : M (node D) A) w (P : A -> Prop) :
  sys_inv w -> (forall k, node_sends k m) ->
  wp m E (World (y_node (st w)) (tr w)) (fun a v => node_ok (E := E) (st v) /\ P a) ->
  wp (zoom node_l m) E w (fun a w' => sys_inv w' /\ P a).
Proof.
  intros [Hi Hc] Hm Hw. apply wp_zoom. unfold wp in *.
  destruct (m E _) as [[a v]|] eqn:Hr; [|done]. destruct Hw as [Hn' HP]. split; [|done].
  destruct (Hm (node_key (y_node (st w))) E (World (y_node (st w)) (tr w)) a v eq_refl Hr) as [Hk Ht]. injection Hk as Hsk Hcf He1 He2.
  sys_open w Hi. split; [sys_close|]; unfold y_sess; cbn; unfold event_fds in *; rewrite ?Hsk, ?Hcf, ?He1, ?He2; try done.
  apply holds_swap. eapply holds_traffic; [exact Ht| |by apply holds_swap].
  cbn. intros Hs. destruct (Z.leb_spec 0 (s_sock (n_sess y_node0))); [by apply list_elem_of_singleton|lia].
Qed.

Lemma up_task_wp w : sys_inv w -> wp session_up_task E w (fun _ w' => sys_inv w').
Proof.
  intros Hi. assert (forall w pc, sys_inv w -> up_inv pc -> sys_inv (World (set_up pc (st w)) (tr w))) as Hset.
  { clear. intros w pc [Hi Hc] Hp. sys_open w Hi. split; [by sys_close|done]. }
  unfold session_up_task. apply wp_bind, wp_get. destruct (y_up (st w)) as [| | |n data] eqn:Hpc.
  - apply wp_modify, Hset; [done|by destruct (cfg_usbip_mode _)].
  - by apply wp_modify, Hset.
  - destruct (bits_set _ _); [by apply wp_modify, Hset|]. apply wp_bind.
    eapply wp_mono; [|apply (node_work_wp _ _ (fun r => up_inv (UGot r.1 r.2))); [done| |]].
    + intros r w' [Hi' Hp]. by apply wp_modify, Hset.
    + intros k. apply zoom_drv_sends, (ops_recv_calls (E := E)).
    + destruct Hi as [[[Hs Hb Hd] _ _ _ _ _] _]. apply wp_zoom. eapply wp_mono; [|apply ops_recv_ok; [done|exact Hd]].
      intros r v (Hd' & Hm & _ & Hl & Hby). cbn. split; [by constructor|done].
  - pose proof (yi_up _ (proj1 Hi)) as Hp. rewrite Hpc in Hp. destruct Hp as (Hm & Hl & Hb).
    destruct (Z.leb_spec n 0).
    { repeat wp_step. apply (Hset (World _ _)); [|done]. destruct Hi as [[] Hc]. split; [constructor; try done; by apply holds_other|done]. }
    destruct (_ <? 0); [by apply wp_modify, Hset|]. apply wp_bind. unfold TX_BUF in Hm.
    eapply wp_checked; [apply buf_read_Some; lia|]. apply wp_bind.
    eapply wp_mono; [|apply (node_work_wp _ _ (fun _ => True)); [done| |]].
    + intros r w' [Hi' _]. by apply wp_modify, Hset.
    + intros k. apply zoom_sess_sends. intros k'. apply send_raw_sends.
    + destruct Hi as [[Hn _ _ _ _ _] _]. eapply wp_mono; [|apply send_raw_zoom; [|apply Hn]].
      * intros [] v [-> _]. split; [by apply node_ok_advance|done].
      * rewrite length_take, length_drop. lia.
Qed.

Lemma set_down_inv w pc : sys_inv w -> down_inv pc -> sys_inv (World (set_down pc (st w)) (tr w)).
Proof. intros [Hi Hc] Hp. sys_open w Hi. split; [by sys_close|done]. Qed.

Lemma got_wp w buf : sys_inv w -> y_down (st w) = DGot buf ->
  wp (match submit_of (cfg_usbip_mode (s_cfg (y_sess (st w)))) buf with
      | Some (cmd, data) => p ← zoom node_l (submit_transfer cmd data); modify (set_down (DReply cmd p.1 p.2))
      | None => zoom node_l (down_datagram buf) ;; modify (set_down DLoop)
      end) E w (fun _ w' => sys_inv w').
Proof.
  intros Hi Hpc. pose proof (yi_down _ (proj1 Hi)) as Hp. rewrite Hpc in Hp. destruct Hp as [Hb Hl].
  pose proof (yi_node _ (proj1 Hi)) as Hn. destruct (submit_of _ buf) as [[cmd data]|] eqn:Hs; apply wp_bind.
  - destruct (submit_of_ok _ _ _ _ Hs Hb) as (Hsl & Hsb & Hdb).
    eapply wp_mono; [|apply (node_work_wp _ _ (fun p => 0 <= p.1 <= IN_BUF)); [done| |]].
    + intros p w' [Hi' Ha]. by apply wp_modify, set_down_inv.
    + intros k. apply submit_transfer_sends.
    + eapply wp_mono; [|by apply submit_transfer_wp]. intros p v (Hn' & _ & _ & Ha & _). done.
  - eapply wp_mono; [|apply (node_work_wp _ _ (fun _ => True)); [done| |]].
    + intros [] w' [Hi' _]. by apply wp_modify, set_down_inv.
    + intros k. apply down_datagram_sends.
    + eapply wp_mono; [|by apply down_datagram_wp]. by intros [] v Hn'.
Qed.

Lemma reply_wp w cmd actual status : sys_inv w -> y_down (st w) = DReply cmd actual status ->
  wp (zoom node_l (submit_reply cmd actual status) ;; modify (set_down DLoop)) E w (fun _ w' => sys_inv w').
Proof.
  intros Hi Hpc. pose proof (yi_down _ (proj1 Hi)) as Ha. rewrite Hpc in Ha. pose proof (yi_node _ (proj1 Hi)) as Hn.
  apply wp_bind. eapply wp_mono; [|apply (node_work_wp _ _ (fun _ => True)); [done| |]].
  - intros [] w' [Hi' _]. by apply wp_modify, set_down_inv.
  - intros k. apply submit_reply_sends.
  - eapply wp_mono; [|apply submit_reply_wp; [apply Hn|apply Hn|exact Ha]]. cbn [st]. intros [] v [_ Hr]. split; [|done].
    destruct (_ =? 0); destruct Hr as [-> _]; [exact Hn|]. by apply node_ok_advance.
Qed.

Lemma down_task_wp w : sockets_ok E -> sys_inv w -> wp session_down_task E w (fun _ w' => sys_inv w').
Proof.
  intros Hso Hi. unfold session_down_task. apply wp_bind, wp_get. destruct (y_down (st w)) as [| |k|buf|cmd actual status] eqn:Hpc;
    [by apply wp_modify, set_down_inv|apply wp_modify, set_down_inv; [done|by destruct (_ <? 0)]| |by apply got_wp|by apply reply_wp].
  apply wp_bind, wp_call. intros r ->. destruct (Hso (tr w) k RX_BUF) as (Hle & Hlen & Hb).
  set (r := E (tr w) (CRecvfrom k RX_BUF)) in *. cbn [st tr].
  assert (forall c t', fd_still c -> fd_uses true c = [] ->
    sys_inv w -> sys_inv (World (st w) (tr w ++ [(c, t')]))) as Hcall.
  { clear. intros c t' Hc Hu [[] ?]. split; [constructor; try done; by apply holds_other|done]. }
  destruct (Z.ltb_spec (r_ret r) 0).
  - destruct Hi as [Hi Hc]. destruct (arr_get_Some (y_eagain (st w)) (y_id (st w))) as [c Hg].
    { rewrite (yi_eagain _ Hi). apply Hi. }
    apply wp_bind. eapply wp_checked; [exact Hg|]. apply wp_bind.
    eapply wp_checked; [apply arr_set_Some; rewrite (yi_eagain _ Hi); apply Hi|]. apply wp_bind, wp_modify. cbn [st tr].
    set (w1 := World (set_eagain _ _) _).
    assert (sys_inv w1) as Hi1.
    { unfold w1. sys_open w Hi. split; [|done]. sys_close; [by rewrite length_insert|by apply holds_other]. }
    destruct (bits_set _ SESSION_LOST_BIT); [by apply (wp_modify _ _ w1), set_down_inv|]. repeat wp_step.
    match goal with |- sys_inv (World _ ?t) => apply (set_down_inv (World (st w1) t)) end; [|done]. destruct Hi1 as [[] ?]. split; [constructor; try done; by apply holds_other|done].
  - unfold RX_BUF in *. apply wp_bind. eapply wp_checked; [apply buf_read_Some; lia|]. apply wp_modify, (set_down_inv (World _ _)).
    + by apply Hcall.
    + split; [by apply Forall_take, Forall_drop|]. rewrite length_take. unfold RX_BUF. lia.
Qed.
End TasksInvariant.

(** ** Every interleaving *)

Section Interleaving.
Context {D G : Type} {ops : DeviceOps D} {E : env} {ok : DeviceOpsOk D E} {be : UsbBackend D} {bok : UsbBackendOk D E}.
Context `{EventGroup G}.

Lemma sys_step_inv (w w' : world (sys D G)) :
  sockets_ok E -> sys_step d_inv E w w' -> sys_inv (E := E) w -> sys_inv (E := E) w'.
Proof.
  intros Hso Hst Hi. destruct Hst as [w w' _ Hr|w w' _ Hr|w w' _ Hr|w h|w d Hd].
  - pose proof (ctrl_task_wp w Hi) as Hw. unfold wp in Hw. by rewrite Hr in Hw.
  - pose proof (up_task_wp w Hi) as Hw. unfold wp in Hw. by rewrite Hr in Hw.
  - pose proof (down_task_wp w Hso Hi) as Hw. unfold wp in Hw. by rewrite Hr in Hw.
  - destruct Hi as [[] ?]. destruct w as [[] ?]. split; [by constructor|done].
  - destruct Hi as [[[]] ?]. destruct w as [[] ?]. split; [|done]. constructor; try done.
Qed.

Lemma sys_init_inv cfg (drv : D) (hub : hub_t G) :
  cfg_ok cfg -> cfg_device_id cfg < SESSION_MAX_ID -> d_inv drv -> sys_inv (E := E) (World (sys_init cfg drv hub) []).
Proof.
  intros Hc Hid Hd. pose proof Hc as ([? ?] & _).
  split; [constructor; unfold y_id, y_sess; cbn; try done|unfold y_sess; cbn].
  - constructor; cbn; [|split; [done|apply (zeros_ok IN_BUF)]|done]. constructor; cbn; [done|by split|by split|exact reasm_zero_ok].
  - apply holds_nil.
  - unfold SESSION_ACTIVE_BIT, SESSION_LOST_BIT. autorewrite with bits. done.
Qed.

Lemma reachable_inv cfg drv hub (w : world (sys D G)) :
  sockets_ok E -> cfg_ok cfg -> cfg_device_id cfg < SESSION_MAX_ID -> d_inv drv ->
  rtc (sys_step d_inv E) (World (sys_init cfg drv hub) []) w -> sys_inv (E := E) w.
Proof.
  intros Hso Hc Hid Hd Hr. pose proof (sys_init_inv cfg drv hub Hc Hid Hd) as Hi. revert Hr Hi.
  induction 1 as [|w1 w2 w3 Hs _ IH]; [done|]. intros Hi. by apply IH, (sys_step_inv w1).
Qed.
End Interleaving.

(** C5: the session is safe under every interleaving of its three tasks with the discovery task and the
    driver's callbacks, where a task runs from one of its program counters to the next without
    being interrupted (in particular the [sendto]s of one frame go to the socket read before them).
    In every reachable state ACTIVE and LOST are not both set, an active session has its reply
    socket, the open descriptors are exactly the reply socket and the event socket that the
    variables name (nothing leaks; nothing is bound, connected, sent on or closed after its close;
    only a [recvfrom] can meet a socket that the control task has closed), and each of the tasks can
    run its next step without undefined behaviour. *)
Theorem session_safe {D G : Type} {ops : DeviceOps D} (E : env) (ok : DeviceOpsOk D E) {be : UsbBackend D}
    (bok : UsbBackendOk D E) `{EventGroup G} cfg drv hub (w : world (sys D G)) :
  sockets_ok E -> cfg_ok cfg -> cfg_device_id cfg < SESSION_MAX_ID -> d_inv drv ->
  rtc (sys_step d_inv E) (World (sys_init cfg drv hub) []) w ->
  let y := st w in
  bits_set (y_eg y) SESSION_ACTIVE_BIT && bits_set (y_eg y) SESSION_LOST_BIT = false /\
  (bits_set (y_eg y) SESSION_ACTIVE_BIT = true -> 0 <= s_sock (y_sess y)) /\
  (exists l, fd_replay true [] (tr w) = Some l /\ l ≡ₚ event_fds (y_node y) ++ sock_fds y) /\
  (exists w1, session_ctrl_task E w = Some (tt, w1)) /\ (exists w2, session_up_task E w = Some (tt, w2)) /\
  (exists w3, session_down_task E w = Some (tt, w3)).
Proof.
  intros Hso Hc Hid Hd Hr y. pose proof (reachable_inv cfg drv hub w Hso Hc Hid Hd Hr) as Hi.
  pose proof (yi_fds _ (proj1 Hi)) as Hf. pose proof (proj2 Hi) as Hctrl. unfold ctrl_inv in Hctrl. fold y in Hf, Hctrl.
  split; [destruct (y_ctrl y); destruct_and! Hctrl; subst; by repeat match goal with H : bits_set _ _ = _ |- _ => rewrite H; clear H end|].
  split; [intros Ha; rewrite Ha in Hctrl; destruct (y_ctrl y); by destruct_and! Hctrl|].
  split; [exact Hf|].
  destruct (wp_run _ _ _ _ (ctrl_task_wp w Hi)) as ([] & w1 & ? & _).
  destruct (wp_run _ _ _ _ (up_task_wp w Hi)) as ([] & w2 & ? & _).
  destruct (wp_run _ _ _ _ (down_task_wp w Hso Hi)) as ([] & w3 & ? & _).
  split; [by exists w1|]. split; [by exists w2|by exists w3].
Qed.

Definition demo_sys : sys (list bytes) Z := sys_init demo_cfg [] (Hub true 0x04030201 DAEMON_PORT DAEMON_FOUND_BIT).

Lemma session_safe_witness :
  exists w, rtc (sys_step (d_inv (E := answering_env)) answering_env) (World demo_sys []) w /\ y_ctrl (st w) = CWaitLost /\
    0 <= s_sock (y_sess (st w)).
Proof.
  assert (exists w, rtc (sys_step (d_inv (E := answering_env)) answering_env) (World demo_sys []) w /\ y_ctrl (st w) = CWaitLost /\
    bits_set (y_eg (st w)) SESSION_ACTIVE_BIT = true) as (w & Hr & Hc & Ha).
  { eexists. split; [|split].
    - do 3 (eapply rtc_l; [apply step_ctrl; [reflexivity|vm_compute; reflexivity]|]). apply rtc_refl.
    - reflexivity.
    - reflexivity. }
  exists w. split; [exact Hr|]. split; [exact Hc|].
  apply (session_safe answering_env _ _ demo_cfg [] (Hub true 0x04030201 DAEMON_PORT DAEMON_FOUND_BIT) w).
  - exact answering_env_ok.
  - by repeat split.
  - done.
  - exact I.
  - exact Hr.
  - exact Ha.
Defined.

(** ** Coming up *)

(** A network on which every socket operation succeeds: the UDP socket is [sock], the TCP socket [ev]. *)
Definition network_up (E : env) (sock ev : Z) : Prop :=
  (forall t, r_ret (E t (CSocket SOCK_DGRAM)) = sock) /\ (forall t, r_ret (E t (CSocket SOCK_STREAM)) = ev) /\
  (forall t fd p, 0 <= r_ret (E t (CBind fd p))) /\ (forall t fd o, 0 <= r_ret (E t (CSetsockopt fd o))) /\
  (forall t fd ip p, 0 <= r_ret (E t (CConnect fd ip p))) /\ (forall t fd d, r_ret (E t (CSend fd d)) = len d).

(** A device event on a fresh channel. *)
Lemma event_run {D} E sock ev event (n : node D) t :
  network_up E sock ev -> 0 <= ev -> n_event_sock n = -1 -> n_event_connected n = false ->
  exists t', send_device_event event E (World n t) =
      Some (tt, World (set_sess (set_seq (u8 (s_seq (n_sess n) + 1)) (n_sess n)) (set_event ev true n)) t') /\
    calls t' = calls t ++ [CSocket SOCK_STREAM; CConnect ev (s_daemon_ip (n_sess n)) DAEMON_PORT; CSend ev (event_packet (n_sess n) event)].
Proof.
  intros (_ & Hs & _ & _ & Hc & Hse) Hev Hes Hec. destruct n as [s es ec ib drv]. cbn in Hes, Hec. subst.
  assert (forall t fd ip p, (r_ret (E t (CConnect fd ip p)) <? 0) = false) as Hc' by (intros; by apply Z.ltb_ge).
  assert ((ev <? 0) = false) as Hevk by (by apply Z.ltb_ge).
  unfold send_device_event, ensure_event_tcp_connected, event_open.
  eexists. split.
  - erewrite mbind_some.
    2:{ erewrite mbind_some by reflexivity. cbn [st tr n_event_sock n_event_connected Z.leb Z.compare andb when].
        repeat (erewrite mbind_some by reflexivity; cbn [st tr]; rewrite ?Hs, ?Hevk, ?Hc'). reflexivity. }
    erewrite mbind_some by reflexivity. cbn [st n_event_sock n_event_connected set_event]. rewrite Hevk. cbn [orb negb].
    repeat (erewrite mbind_some by reflexivity; cbn [st tr]; rewrite ?Hse). rewrite Z.eqb_refl. reflexivity.
  - rewrite !fmap_app, <- !app_assoc. reflexivity.
Qed.

(** C23: once the daemon is known, the device is there and the network works, the control task brings
    the session up.  If no event connection is open, its next step binds the reply socket to port
    7789 + device_id, resets the sequence numbers and the reassembly slot, connects to the daemon's
    address and sends the CONNECT event that names that port, with the event bits as they were; the
    step after that, which makes no call, raises ACTIVE and lowers LOST. *)
Theorem session_comes_up {D G : Type} {be : UsbBackend D} `{EventGroup G} E sock ev (y : sys D G) t :
  network_up E sock ev -> 0 <= sock -> 0 <= ev ->
  y_ctrl y = CStagger -> n_event_sock (y_node y) = -1 -> n_event_connected (y_node y) = false ->
  usb_is_device_ready (n_drv (y_node y)) = true ->
  exists w1 w2, session_ctrl_task E (World y t) = Some (tt, w1) /\ session_ctrl_task E w1 = Some (tt, w2) /\
    y_ctrl (st w1) = CAnnounced /\ y_eg (st w1) = y_eg y /\
    y_sess (st w1) = Session (s_cfg (y_sess y)) sock (hub_client_daemon_ip (y_hub y)) 1 0 reasm_zero /\
    calls (tr w1) = calls t ++ [CSocket SOCK_DGRAM; CBind sock (u16 (DEVICE_BASE_PORT + y_id y)); CSetsockopt sock (SO_RCVTIMEO 1);
      CSocket SOCK_STREAM; CConnect ev (hub_client_daemon_ip (y_hub y)) DAEMON_PORT;
      CSend ev (event_packet (Session (s_cfg (y_sess y)) sock (hub_client_daemon_ip (y_hub y)) 0 0 reasm_zero)
                  DEVICE_EVENT_CONNECT)] /\
    y_ctrl (st w2) = CWaitLost /\ bits_set (y_eg (st w2)) SESSION_ACTIVE_BIT = true /\
    bits_set (y_eg (st w2)) SESSION_LOST_BIT = false /\ y_node (st w2) = y_node (st w1) /\ tr w2 = tr w1.
Proof.
  intros Hnet Hsock Hev Hpc Hes Hec Hrd. pose proof Hnet as (Hd & _ & Hb & Ho & _ & _).
  destruct y as [[s es ec ib drv] eg hub pc up down cnt]; cbn in Hpc, Hes, Hec, Hrd; subst.
  assert (forall t fd p, (r_ret (E t (CBind fd p)) <? 0) = false) as Hb' by (intros; by apply Z.ltb_ge).
  assert (forall t fd o, (r_ret (E t (CSetsockopt fd o)) <? 0) = false) as Ho' by (intros; by apply Z.ltb_ge).
  assert ((sock <? 0) = false) as Hsk by (by apply Z.ltb_ge).
  unfold session_ctrl_task at 1, ctrl_open, upd_sess. erewrite mbind_some by reflexivity. cbn [y_ctrl st tr].
  repeat (erewrite mbind_some by reflexivity; cbn [st tr]; rewrite ?Hd, ?Hsk, ?Hb', ?Ho').
  cbn [y_node set_node set_sess n_drv]. rewrite Hrd, andb_false_r. unfold ctrl_announce.
  match goal with |- exists _ _, mbind _ _ E (World ?y1 ?t1) = _ /\ _ =>
    destruct (event_run E sock ev DEVICE_EVENT_CONNECT (y_node y1) t1 Hnet Hev eq_refl eq_refl) as (t2 & Hrun & Hcalls)
  end.
  erewrite mbind_some by (unfold zoom; cbn [st tr node_l l_get l_put]; rewrite Hrun; reflexivity).
  do 2 eexists. split; [reflexivity|]. split; [reflexivity|]. split; [reflexivity|]. split; [reflexivity|].
  unfold SESSION_ACTIVE_BIT, SESSION_LOST_BIT, y_sess, y_id. split; [reflexivity|].
  split; [cbn [tr]; rewrite Hcalls, !fmap_app, <- !app_assoc; reflexivity|]. split; [reflexivity|].
  split; [cbn; autorewrite with bits; by rewrite orb_true_r|].
  split; [cbn; autorewrite with bits; cbn; by rewrite andb_false_r|]. done.
Qed.

Definition up_env : env := fun _ c =>
  match c with
  | CSocket SOCK_DGRAM => Reply 3 [] 0 []
  | CSocket SOCK_STREAM => Reply 4 [] 0 []
  | CSend _ d => Reply (len d) [] 0 []
  | _ => Reply 0 [] 0 []
  end.

Lemma session_comes_up_witness :
  exists w1 w2, session_ctrl_task up_env (World (set_ctrl CStagger demo_sys) []) = Some (tt, w1) /\
    session_ctrl_task up_env w1 = Some (tt, w2) /\ length (calls (tr w1)) = 6%nat /\
    bits_set (y_eg (st w1)) SESSION_ACTIVE_BIT = false /\ bits_set (y_eg (st w2)) SESSION_ACTIVE_BIT = true.
Proof.
  destruct (session_comes_up up_env 3 4 (set_ctrl CStagger demo_sys) []) as (w1 & w2 & Hr1 & Hr2 & _ & Heg & _ & Ht & _ & Ha & _);
    [by repeat split|done|done|reflexivity|reflexivity|reflexivity|reflexivity|].
  exists w1, w2. split; [exact Hr1|]. split; [exact Hr2|]. split; [by rewrite Ht|]. split; [by rewrite Heg|exact Ha].
Defined.

(** ** Starting sessions *)

Section Start.
Context {D G : Type} `{DeviceOps D, EventGroup G}.

(** The fields of [s_sessions[i]] that starting a session touches, and the drivers. *)
Record sess_slot := Slot { sl_cfg : option device_session_cfg_t; sl_sock : Z; sl_eg : option G }.
Record sess_table := Table { tb_slots : list sess_slot; tb_drv : D }.

Definition table0 (d : D) : sess_table := Table (replicate (Z.to_nat SESSION_MAX_ID) (Slot None 0 None)) d.
Definition tb_drv_l : lens sess_table D := Lens tb_drv (fun d t => Table (tb_slots t) d).

Definition device_session_start (cfg : device_session_cfg_t) : M sess_table unit :=
  let id := cfg_device_id cfg in
  if SESSION_MAX_ID <=? id then mret tt else
  t ← get;
  s ← checked (arr_get (tb_slots t) id);
  match sl_eg s with
  | Some _ => mret tt
  | None =>
      slots ← checked (arr_set (tb_slots t) id (Slot (Some cfg) (-1) (Some eg_create)));
      modify (fun t => Table slots (tb_drv t)) ;;
      ok ← zoom tb_drv_l ops_init;
      if negb ok then mret tt else
      call_ext (CTaskCreate session_ctrl_task_id) ;; call_ext (CTaskCreate session_up_task_id) ;; call_ext (CTaskCreate session_down_task_id) ;; mret tt
  end.

Definition device_session_event_group (device_id : Z) (t : sess_table) : option G :=
  if SESSION_MAX_ID <=? device_id then None
  else match arr_get (tb_slots t) device_id with Some s => sl_eg s | None => None end.

(** Sessions start once.  Starting a free slot gives it its configuration, an inactive socket and an
    event group, leaves the other sessions alone and, when the driver comes up, creates the three
    tasks; starting it again does nothing; an id of 5 or more does nothing and has no event group. *)
Theorem session_starts_once E cfg (w : world sess_table) :
  length (tb_slots (st w)) = 5%nat -> 0 <= cfg_device_id cfg ->
  (forall v : world D, is_Some (ops_init E v)) ->
  let id := cfg_device_id cfg in
  exists w', device_session_start cfg E w = Some (tt, w') /\ device_session_start cfg E w' = Some (tt, w') /\
    (forall j, 0 <= j -> j <> id -> device_session_event_group j (st w') = device_session_event_group j (st w)) /\
    if SESSION_MAX_ID <=? id then w' = w /\ device_session_event_group id (st w) = None
    else is_Some (device_session_event_group id (st w')) /\
      (device_session_event_group id (st w) = None ->
       tb_slots (st w') !! Z.to_nat id = Some (Slot (Some cfg) (-1) (Some eg_create)) /\
       forall v, ops_init E (World (tb_drv (st w)) (tr w)) = Some (true, v) ->
         calls (tr w') = calls (tr v) ++ [CTaskCreate session_ctrl_task_id; CTaskCreate session_up_task_id; CTaskCreate session_down_task_id]).
Proof.
  intros Hl Hid Hinit id. unfold device_session_start, device_session_event_group. fold id. unfold SESSION_MAX_ID.
  destruct (Z.leb_spec 5 id); [by exists w|].
  destruct (arr_get_Some (tb_slots (st w)) id) as [s Hs]; [lia|].
  do 2 (erewrite mbind_some by (reflexivity || (unfold checked; rewrite Hs; reflexivity))).
  destruct (sl_eg s) as [g|] eqn:Hg.
  - exists w. split; [done|]. erewrite mbind_some by reflexivity. rewrite Hs. erewrite mbind_some by reflexivity.
    rewrite Hg. split_and!; [done|done|by eexists|done].
  - rewrite arr_set_Some by lia. erewrite mbind_some by reflexivity. erewrite mbind_some by reflexivity. cbn [st tr].
    set (slots := <[_ := _]> _). destruct (Hinit (World (tb_drv (st w)) (tr w))) as [[b v] Hv].
    assert (exists t', (if negb b then mret tt else
      call_ext (CTaskCreate session_ctrl_task_id) ;; call_ext (CTaskCreate session_up_task_id) ;; call_ext (CTaskCreate session_down_task_id) ;; mret tt) E
        (World (Table slots (st v)) (tr v)) = Some (tt, World (Table slots (st v)) t') /\
      (b = true -> calls t' = calls (tr v) ++ [CTaskCreate session_ctrl_task_id; CTaskCreate session_up_task_id; CTaskCreate session_down_task_id])) as (t' & Ht & Hcalls).
    { destruct b; cbn [negb]; eexists; (split; [reflexivity|]); [|done]. intros _. cbn. by rewrite !fmap_app, <- !app_assoc. }
    exists (World (Table slots (st v)) t'). split.
    { erewrite mbind_some by (unfold zoom; cbn [st tr tb_drv_l l_get tb_drv]; rewrite Hv; reflexivity). exact Ht. }
    assert (slots !! Z.to_nat id = Some (Slot (Some cfg) (-1) (Some eg_create))) as Hsl
      by (apply list_lookup_insert_eq; lia).
    assert (arr_get slots id = Some (Slot (Some cfg) (-1) (Some eg_create))) as Hag.
    { unfold arr_get. destruct (Z.leb_spec 0 id); [done|lia]. }
    cbn [st tb_slots]. rewrite Hag. erewrite mbind_some by reflexivity. cbn [st tb_slots]. rewrite Hag.
    split; [done|]. split; [|split; [by eexists|]].
    2:{ intros _. split; [done|]. intros v' Hv'. rewrite Hv in Hv'. injection Hv' as -> ->. by apply Hcalls. }
    intros j Hj Hne. destruct (5 <=? j); [done|]. unfold arr_get. destruct (0 <=? j); [|done].
    unfold slots. by rewrite list_lookup_insert_ne by lia.
Qed.
End Start.

Lemma session_starts_once_witness :
  exists w' : world (sess_table (D := list bytes) (G := Z)),
    device_session_start demo_cfg demo_env (World (table0 []) []) = Some (tt, w') /\
    device_session_start demo_cfg demo_env w' = Some (tt, w').
Proof.
  destruct (session_starts_once demo_env demo_cfg (World (table0 (D := list bytes) (G := Z) []) []))
    as (w' & Hr & Hr' & _); [reflexivity|done|by intros v; eexists|].
  exists w'. split; [exact Hr|exact Hr'].
Defined.
