(* ===== verification/LogForwarder.v ===== *)
(** * Log forwarder (esp-codes/main/log_forwarder.[ch])

    Every ESP_LOG line goes through [log_forwarder_vprintf], which may run in
    any task: it prints, feeds the crash ring, and queues a heap-allocated copy.
    [log_sender_task] takes the entries from the queue and sends them to the
    daemon over TCP.  The task is modelled by its blocking points; a call of
    the hook is one step, so two calls of it do not overlap here.  In the code
    the hook takes no lock: two tasks that log at the same time race on the
    write position of the crash ring, which this model does not show (the
    queue's operations are atomic in FreeRTOS). *)

From stdpp Require Import strings.
From S2P Require Import Prelude Effects Descriptors Rtos Protocol CrashReporter.

Definition LOG_MSG_MAX : Z := 256.
Definition LOG_QUEUE_LEN : Z := 256.
(** sizeof (log_entry_t) *)
Definition LOG_ENTRY_SIZE : Z := 260.
Definition LOG_PKT : Z := sizeof Header + sizeof LogPayload + LOG_MSG_MAX.

(** [log_entry_t]; only the initialised prefix of [msg] is kept. *)
Record log_entry_t := LogEntry { e_level : Z; e_len : Z; e_msg : bytes }.

(** ** Level detection *)

(** Past the parameters of a CSI sequence and its final 'm'. *)
Fixpoint skip_params (s : bytes) : bytes :=
  match s with
  | [] => []
  | c :: s' => if c =? 109 then s' else skip_params s'
  end.

(** [while ( *s == ESC) ...] on a NUL-terminated string; [n] bounds the rounds. *)
Fixpoint skip_ansi (n : nat) (s : bytes) : bytes :=
  match n, s with
  | S n', c :: s' =>
      if c =? 27 then
        match s' with
        | d :: s'' => if d =? 91 then skip_ansi n' (skip_params s'') else skip_ansi n' s'
        | [] => []
        end
      else s
  | _, _ => s
  end.

Definition level_of (c : Z) : Z :=
  if c =? 69 then LOG_LEVEL_ERROR else if c =? 87 then LOG_LEVEL_WARN else if c =? 73 then LOG_LEVEL_INFO else
  if c =? 68 then LOG_LEVEL_DEBUG else if c =? 86 then LOG_LEVEL_VERBOSE else LOG_LEVEL_INFO.

Definition detect_level (s : bytes) : Z :=
  match skip_ansi (length s) s with c :: _ => level_of c | [] => LOG_LEVEL_INFO end.

Section Log.
Context {Q : Type -> Type} `{Queue Q}.

Record log_t := Log {
  lg_sock : Z;
  lg_connected : bool;
  lg_queue : option (Q log_entry_t);
  lg_crash : crash_t;
  lg_delay : Z;
}.
Abbreviation ML := (M log_t).

Definition set_conn (sock : Z) (conn : bool) (l : log_t) : log_t := Log sock conn (lg_queue l) (lg_crash l) (lg_delay l).
Definition set_queue (q : option (Q log_entry_t)) (l : log_t) : log_t :=
  Log (lg_sock l) (lg_connected l) q (lg_crash l) (lg_delay l).
Definition set_crash (c : crash_t) (l : log_t) : log_t := Log (lg_sock l) (lg_connected l) (lg_queue l) c (lg_delay l).
Definition set_delay (d : Z) (l : log_t) : log_t := Log (lg_sock l) (lg_connected l) (lg_queue l) (lg_crash l) d.

(** ** vprintf hook *)

Definition log_forwarder_vprintf : ML Z :=
  p ← call_ext CVprintf;
  let ret := r_ret p in
  rt ← call_ext (CVsnprintf 128);
  let rn := r_ret rt in
  l ← get;
  c ← (if 0 <? rn then checked (crash_reporter_append (r_out rt) (if rn <? 128 then rn else 127) (lg_crash l))
       else mret (lg_crash l));
  modify (set_crash c) ;;
  match lg_queue l with
  | None => mret ret
  | Some q =>
      e ← call_ext (CMalloc LOG_ENTRY_SIZE);
      if r_ret e =? 0 then mret ret else
      f ← call_ext (CVsnprintf LOG_MSG_MAX);
      let n := r_ret f in
      if n <=? 0 then call_ext CFree ;; mret ret else
      let entry := LogEntry (detect_level (c_str (r_out f))) (u16 (if n <? LOG_MSG_MAX then n else LOG_MSG_MAX - 1)) (r_out f) in
      let sent := q_send entry q in
      modify (set_queue (Some sent.2)) ;;
      if negb sent.1 then call_ext CFree ;; mret ret else mret ret
  end.

(** ** Sender task *)

Inductive log_pc := LIdle | LRecv | LSend (e : log_entry_t).

Definition backoff (d : Z) : Z := if d <? 10000 then d * 2 else 10000.

(** [vTaskDelay (reconnect_delay_ms)] and the longer delay for next time. *)
Definition log_wait : ML unit :=
  l ← get; call_ext (CDelay (lg_delay l)) ;; modify (set_delay (backoff (lg_delay l))).

(** One round of the connection loop. *)
Definition log_connect (ip port : Z) : ML unit :=
  l ← get;
  when (0 <=? lg_sock l) (call_ext (CClose (lg_sock l)) ;; mret tt) ;;
  r ← call_ext (CSocket SOCK_STREAM);
  modify (set_conn (r_ret r) (lg_connected l)) ;;
  if r_ret r <? 0 then modify (set_conn (r_ret r) false) ;; log_wait else
  c ← call_ext (CConnect (r_ret r) ip port);
  if r_ret c <? 0 then call_ext (CClose (r_ret r)) ;; modify (set_conn (-1) false) ;; log_wait
  else modify (set_conn (r_ret r) true) ;; modify (set_delay 500).

Definition log_send (e : log_entry_t) : ML unit :=
  l ← get;
  let pay_len := sizeof LogPayload + e_len e in
  let hdr := mkHeader CMD_LOG 0 0 0 (u16 pay_len) in
  pkt ← checked (put_at LOG_PKT [] 0 (encode hdr));
  pkt ← checked (put_at LOG_PKT pkt (sizeof Header) (encode (mkLogPayload (e_level e))));
  m ← checked (buf_read (e_msg e) 0 (e_len e));
  pkt ← checked (put_at LOG_PKT pkt (sizeof Header + sizeof LogPayload) m);
  call_ext CFree ;;
  r ← call_ext (CSend (lg_sock l) pkt);
  if r_ret r <? 0 then call_ext (CClose (lg_sock l)) ;; modify (set_conn (-1) false) ;; log_wait
  else mret tt.

(** The task from one blocking point to the next; [found], [ip], [port] are what the hub client reports. *)
Definition log_sender_task (found : bool) (ip port : Z) (pc : log_pc) : ML log_pc :=
  match pc with
  | LIdle => if found then mret LRecv else call_ext (CDelay 100) ;; mret LIdle
  | LRecv =>
      l ← get;
      q ← checked (lg_queue l);
      match q_recv q with
      | Some (e, q') => modify (set_queue (Some q')) ;; mret (LSend e)
      | None => mret LRecv
      end
  | LSend e =>
      l ← get;
      if (lg_sock l <? 0) || negb (lg_connected l) then log_connect ip port ;; mret (LSend e)
      else log_send e ;; mret LIdle
  end.

Definition log_forwarder_init : ML bool :=
  modify (set_conn (-1) false) ;;
  r ← call_ext (CQueueCreate LOG_QUEUE_LEN);
  modify (set_queue (if r_ret r =? 0 then None else Some (q_create LOG_QUEUE_LEN))) ;;
  if r_ret r =? 0 then mret false else
  call_ext (CTaskCreate log_sender_task_id) ;; mret true.
End Log.
Arguments log_t Q : clear implicits.

(** ** Invariant *)

(** [vsnprintf] writes at most [size - 1] characters and returns the untruncated length. *)
Definition fmt_ok (E : env) : Prop := forall t size, 0 < size -> let r := E t (CVsnprintf size) in
  (0 <= r_ret r -> len (r_out r) = Z.min (r_ret r) (size - 1)) /\ bytes_ok (r_out r).

(** Blocks allocated and not yet freed. *)
Definition heap_delta (e : call * reply) : Z :=
  match e.1 with CMalloc _ => if r_ret e.2 =? 0 then 0 else 1 | CFree => -1 | _ => 0 end.
Definition heap_balance (t : trace) : Z := foldl (fun n e => n + heap_delta e) 0 t.

#[local] Arguments heap_balance : simpl never.

Lemma heap_balance_snoc t e : heap_balance (t ++ [e]) = heap_balance t + heap_delta e.
Proof. unfold heap_balance. by rewrite foldl_app. Qed.

(** The reconnection delays the back-off goes through. *)
Definition delays : list Z := [500; 1000; 2000; 4000; 8000; 16000; 10000].

Definition entry_ok (e : log_entry_t) : Prop := 0 <= e_len e < LOG_MSG_MAX /\ len (e_msg e) = e_len e.

Section LogInvariant.
Context {Q : Type -> Type} `{Queue Q} (E : env).

Definition log_fds (l : log_t Q) : list Z := if 0 <=? lg_sock l then [lg_sock l] else [].

Record log_inv (pc : log_pc) (w : world (log_t Q)) : Prop := {
  li_queue : exists q, lg_queue (st w) = Some q /\ Forall entry_ok (q_items q) /\ q_cap q = LOG_QUEUE_LEN /\
    heap_balance (tr w) = len (q_items q) + match pc with LSend _ => 1 | _ => 0 end;
  li_entry : match pc with LSend e => entry_ok e | _ => True end;
  li_fds : holds_fds (tr w) (log_fds (st w)) [];
  li_conn : lg_connected (st w) = true -> 0 <= lg_sock (st w);
  li_crash : crash_ok (lg_crash (st w));
  li_delay : lg_delay (st w) ∈ delays;
}.

Lemma crash_append_ok msg n c :
  crash_ok c -> 0 <= n <= len msg -> exists c', crash_reporter_append msg n c = Some c' /\ crash_ok c'.
Proof.
  intros Hok Hn. unfold crash_reporter_append. destruct (negb _); [by exists c|].
  rewrite buf_read_Some by lia. cbn [mbind option_bind]. destruct (append_bytes_spec (take (Z.to_nat n) (drop (Z.to_nat 0) msg)) c Hok) as (c' & ? & ? & _). eauto.
Qed.

Lemma hook_wp pc w :
  fmt_ok E -> log_inv pc w -> wp log_forwarder_vprintf E w (fun _ w' => log_inv pc w').
Proof.
  intros Hfmt [(q & Hq & Hqe & Hcap & Hh) He Hf Hc Hcr Hd]. unfold log_forwarder_vprintf.
  apply wp_bind, wp_call. intros p _. apply wp_bind, wp_call. intros rt Hrt. apply wp_bind, wp_get. cbn [st tr] in *.
  match type of Hrt with _ = E ?t _ => destruct (Hfmt t 128 ltac:(lia)) as [Hl _]; rewrite <- Hrt in Hl end.
  apply wp_bind. eapply (wp_mono _ _ _ (fun c w' => crash_ok c /\ w' = World (st w) ((tr w ++ [(CVprintf, p)]) ++ [(CVsnprintf 128, rt)]))).
  2:{ destruct (Z.ltb_spec 0 (r_ret rt)) as [Hr|Hr]; [|by apply wp_ret].
      destruct (crash_append_ok (r_out rt) (if r_ret rt <? 128 then r_ret rt else 127) (lg_crash (st w)) Hcr) as (c' & Hc' & Hok').
      - specialize (Hl ltac:(lia)). case_bool; lia.
      - by eapply wp_checked; [exact Hc'|]. }
  intros c w' [Hok ->]. apply wp_bind, wp_modify. cbn [st tr]. rewrite Hq. clear Hl Hrt.
  assert (holds_fds ((tr w ++ [(CVprintf, p)]) ++ [(CVsnprintf 128, rt)]) (log_fds (st w)) []) as Hf1 by (by repeat holds_step).
  assert (heap_balance ((tr w ++ [(CVprintf, p)]) ++ [(CVsnprintf 128, rt)]) = heap_balance (tr w)) as Hh1
    by (rewrite !heap_balance_snoc; cbn; lia).
  rewrite <- Hh1 in Hh. clear Hh1 Hf. set (t1 := _ ++ [(CVsnprintf 128, rt)]) in *. clearbody t1.
  apply wp_bind, wp_call. intros e _. cbn [st tr].
  destruct (Z.eqb_spec (r_ret e) 0) as [Hz|Hnz].
  { apply wp_ret. destruct (st w). cbn in *. constructor; cbn; try done.
    - exists q. split_and!; try done. rewrite heap_balance_snoc. unfold heap_delta. cbn [fst snd]. by rewrite Hz, Z.add_0_r.
    - by holds_step. }
  assert (heap_delta (CMalloc LOG_ENTRY_SIZE, e) = 1) as Hdel.
  { unfold heap_delta. cbn [fst snd]. apply Z.eqb_neq in Hnz. by rewrite Hnz. }
  apply wp_bind, wp_call. intros f Hfe. cbn [st tr] in *.
  match type of Hfe with _ = E ?t _ => destruct (Hfmt t LOG_MSG_MAX ltac:(done)) as [Hl _]; rewrite <- Hfe in Hl end. clear Hfe.
  destruct (Z.leb_spec (r_ret f) 0).
  { repeat wp_step. destruct (st w). cbn in *. constructor; cbn; try done.
    - exists q. split_and!; try done. rewrite !heap_balance_snoc. cbn. lia.
    - by repeat holds_step. }
  set (entry := LogEntry _ _ _).
  assert (entry_ok entry) as Hent.
  { specialize (Hl ltac:(lia)). unfold entry_ok, entry, LOG_MSG_MAX in *. cbn. case_bool; rewrite u16_id by solve_width; lia. }
  apply wp_bind, wp_modify. cbn [st tr].
  destruct (Z.ltb_spec (len (q_items q)) (q_cap q)) as [Hroom|Hfull].
  - destruct (q_send_ok _ entry q Hroom) as (q' & -> & Hi' & Hc'). cbn [fst snd negb]. apply wp_ret.
    destruct (st w). cbn in *. constructor; cbn; try done.
    + exists q'. split_and!; [done|rewrite Hi'; apply Forall_app_2; [done|by apply Forall_cons_2]|by rewrite Hc'|].
      rewrite !heap_balance_snoc, Hi', length_app, Nat2Z.inj_add. cbn. lia.
    + by repeat holds_step.
  - rewrite (q_send_full _ entry q Hfull). cbn [fst snd negb]. repeat wp_step.
    destruct (st w). cbn in *. constructor; cbn; try done.
    + exists q. split_and!; try done. rewrite !heap_balance_snoc. cbn. lia.
    + by repeat holds_step.
Qed.

Lemma backoff_range d : d ∈ delays -> backoff d ∈ delays.
Proof. unfold delays. rewrite !list_elem_of_In. cbn. intros Hd. destruct_or! Hd; subst; unfold backoff; cbn; tauto. Qed.

Lemma log_wait_wp pc (w : world (log_t Q)) : log_inv pc w -> wp log_wait E w (fun _ w' => log_inv pc w').
Proof.
  intros [(q & Hq & Hqe & Hcap & Hh) He Hf Hc Hcr Hd]. unfold log_wait. repeat wp_step. constructor; cbn; try done.
  - exists q. split_and!; try done. rewrite heap_balance_snoc. cbn. lia.
  - by apply holds_other.
  - by apply backoff_range.
Qed.

(** Only the connection changes. *)
Lemma conn_inv pc (w : world (log_t Q)) sock conn t :
  log_inv pc w -> heap_balance t = heap_balance (tr w) -> holds_fds t (if 0 <=? sock then [sock] else []) [] ->
  (conn = true -> 0 <= sock) -> log_inv pc (World (set_conn sock conn (st w)) t).
Proof.
  intros [(q & Hq & Hqe & Hcap & Hh) He Hf Hc Hcr Hd] Hb Hf' Hc'. constructor; cbn; try done.
  exists q. split_and!; try done. rewrite <- Hh. exact Hb.
Qed.

Lemma log_connect_wp ip port pc (w : world (log_t Q)) :
  log_inv pc w -> wp (log_connect ip port) E w (fun _ w' => log_inv pc w').
Proof.
  intros Hi. pose proof (li_fds _ _ Hi) as Hf. unfold log_connect, log_fds in *. apply wp_bind, wp_get. apply wp_bind.
  eapply (wp_mono _ _ _ (fun _ w' => st w' = st w /\ heap_balance (tr w') = heap_balance (tr w) /\ holds_fds (tr w') [] [])).
  2:{ unfold when. destruct (0 <=? lg_sock (st w)); repeat wp_step; (split_and!; [done| |]); cbn;
        rewrite ?heap_balance_snoc; cbn; try lia; try done. by holds_step. }
  intros [] w1 (Hst & Hb & Hf1). apply wp_bind, wp_call. intros r _. pose proof (holds_socket _ [] [] SOCK_STREAM r Hf1) as Hf2.
  rewrite Hst. apply wp_bind, wp_modify. cbn [st tr].
  destruct (Z.leb_spec 0 (r_ret r)) as [Hr|Hr]; destruct (Z.ltb_spec (r_ret r) 0); try lia.
  - apply wp_bind, wp_call. intros c _. cbn [st tr]. destruct (r_ret c <? 0).
    + apply wp_bind, wp_call. intros cl _. apply wp_bind, wp_modify. cbn [st tr].
      apply log_wait_wp. apply (conn_inv pc w); [done| | |done].
      * rewrite !heap_balance_snoc. cbn. lia.
      * cbn. by repeat holds_step.
    + apply wp_bind, wp_modify, wp_modify. cbn [st tr].
      assert (log_inv pc (World (set_conn (r_ret r) true (st w)) ((tr w1 ++ [(CSocket SOCK_STREAM, r)]) ++
        [(CConnect (r_ret r) ip port, c)]))) as [].
      { apply conn_inv; [done| | |done]; [rewrite !heap_balance_snoc; cbn; lia|].
        destruct (Z.leb_spec 0 (r_ret r)); [|lia]. by holds_step. }
      constructor; try done. apply list_elem_of_here.
  - apply wp_bind, wp_modify. cbn [st tr]. apply log_wait_wp. apply (conn_inv pc w); [done| | |done].
    + rewrite heap_balance_snoc. cbn. lia.
    + by destruct (Z.leb_spec 0 (r_ret r)); [lia|].
Qed.

(** The packet of an entry. *)
Definition log_packet (e : log_entry_t) : bytes :=
  encode (mkHeader CMD_LOG 0 0 0 (sizeof LogPayload + e_len e)) ++ encode (mkLogPayload (e_level e)) ++ e_msg e.

Lemma log_send_wp e (w : world (log_t Q)) :
  log_inv (LSend e) w -> 0 <= lg_sock (st w) ->
  wp (log_send e) E w (fun _ w' => log_inv LIdle w' /\ lg_queue (st w') = lg_queue (st w) /\ exists rest,
    calls (tr w') = calls (tr w) ++ [CFree; CSend (lg_sock (st w)) (log_packet e)] ++ rest /\
    (rest = [] \/ rest = [CClose (lg_sock (st w)); CDelay (lg_delay (st w))])).
Proof.
  intros Hi Hs. pose proof Hi as [(q & Hq & Hqe & Hcap & Hh) [He Hlen] Hf Hc Hcr Hd]. unfold log_send, LOG_MSG_MAX in *.
  apply wp_bind, wp_get. rewrite u16_id by (cbn; solve_width).
  apply wp_bind, wp_put_at; [done|by rewrite encode_size|].
  apply wp_bind, wp_put_at; [by rewrite app_nil_l, encode_size|by rewrite encode_size|].
  apply wp_bind. eapply wp_checked; [apply buf_read_Some; lia|].
  replace (take (Z.to_nat (e_len e)) (drop (Z.to_nat 0) (e_msg e))) with (e_msg e)
    by (change (Z.to_nat 0) with 0%nat; rewrite drop_0, take_ge; [done|lia]).
  apply wp_bind, wp_put_at.
  { rewrite app_nil_l, length_app, Nat2Z.inj_add, !encode_size. done. }
  { unfold LOG_PKT, LOG_MSG_MAX. cbn. lia. }
  rewrite app_nil_l, <- app_assoc. fold (log_packet e).
  apply wp_bind, wp_call. intros r1 _. apply wp_bind, wp_call. intros r2 _. cbn [st tr].
  unfold log_fds in Hf. destruct (Z.leb_spec 0 (lg_sock (st w))); [|lia].
  assert (forall sock conn t, heap_balance t = heap_balance (tr w) - 1 -> holds_fds t (if 0 <=? sock then [sock] else []) [] ->
    (conn = true -> 0 <= sock) -> log_inv LIdle (World (set_conn sock conn (st w)) t)) as Hfin.
  { intros sock conn t Hb' Hf' Hc'. constructor; cbn; try done. exists q. split_and!; try done. lia. }
  destruct (r_ret r2 <? 0).
  - apply wp_bind, wp_call. intros r3 _. apply wp_bind, wp_modify. cbn [st tr]. unfold log_wait. repeat wp_step.
    split; [|split; [done|eexists; split; [rewrite !fmap_app, <- !app_assoc; done|by right]]].
    destruct (Hfin (-1) false ((((tr w ++ [(CFree, r1)]) ++ [(CSend (lg_sock (st w)) (log_packet e), r2)]) ++
      [(CClose (lg_sock (st w)), r3)]) ++ [(CDelay (lg_delay (st w)), r)])) as [].
    + rewrite !heap_balance_snoc. cbn. lia.
    + cbn. by repeat holds_step.
    + done.
    + constructor; try done. cbn. by apply backoff_range.
  - apply wp_ret. split; [|split; [done|exists []; cbn [tr]; split; [by rewrite !fmap_app, <- !app_assoc|by left]]].
    replace (st w) with (set_conn (lg_sock (st w)) (lg_connected (st w)) (st w)) at 1 by (by destruct (st w)).
    apply Hfin; [rewrite !heap_balance_snoc; cbn; lia| |done].
    destruct (Z.leb_spec 0 (lg_sock (st w))); [by repeat holds_step|lia].
Qed.

Lemma log_task_wp found ip port pc (w : world (log_t Q)) :
  log_inv pc w -> wp (log_sender_task found ip port pc) E w (fun pc' w' => log_inv pc' w').
Proof.
  intros Hi. pose proof Hi as [(q & Hq & Hqe & Hcap & Hh) He Hf Hc Hcr Hd]. destruct pc as [| |e]; cbn [log_sender_task].
  - destruct found; repeat wp_step; constructor; cbn; try done.
    + exists q. done.
    + exists q. split_and!; try done. rewrite heap_balance_snoc. cbn. lia.
    + by apply holds_other.
  - apply wp_bind, wp_get, wp_bind. eapply wp_checked; [exact Hq|]. pose proof (q_recv_cases q) as Hr.
    destruct (q_recv q) as [[e q']|]; [|by apply wp_ret]. destruct Hr as [Hit Hcap']. rewrite Hit in *.
    apply Forall_cons_1 in Hqe as [He' Hqe]. repeat wp_step. constructor; cbn; try done.
    exists q'. split_and!; [done|done|congruence|]. cbn in Hh. lia.
  - apply wp_bind, wp_get. destruct (Z.ltb_spec (lg_sock (st w)) 0) as [|Hs]; cbn [orb].
    { apply wp_bind. eapply wp_mono; [|by apply log_connect_wp]. intros [] w' Hi'. by apply wp_ret. }
    destruct (lg_connected (st w)); cbn [negb].
    + apply wp_bind. eapply wp_mono; [|by apply log_send_wp]. intros [] w' [Hi' _]. by apply wp_ret.
    + apply wp_bind. eapply wp_mono; [|by apply log_connect_wp]. intros [] w' Hi'. by apply wp_ret.
Qed.
End LogInvariant.

(** ** Properties *)

(** What the hook may call: no socket, no wait, no delay. *)
Definition hook_call (c : call) : Prop :=
  match c with CVprintf | CVsnprintf _ | CMalloc _ | CFree => True | _ => False end.

(** The design rule of the hook holds: whatever state the forwarder is in and whatever its
    callees answer, the hook makes no socket call and no call that can block; it only formats,
    allocates and frees. *)
Theorem hook_never_blocks {Q} `{Queue Q} E (w w' : world (log_t Q)) ret :
  log_forwarder_vprintf E w = Some (ret, w') ->
  exists d, tr w' = tr w ++ d /\ Forall hook_call (calls d).
Proof. assert (only_calls hook_call (log_forwarder_vprintf (Q := Q))) as Hc by (unfold log_forwarder_vprintf; repeat only_step). apply Hc. Qed.

Definition log0 : log_t list_queue := Log (-1) false (Some (ListQueue LOG_QUEUE_LEN [])) crash0 500.
(** Formatting yields the line [msg], truncated; everything else succeeds. *)
Definition log_env (msg : bytes) : env := fun t c =>
  match c with
  | CVsnprintf n => Reply (len msg) (take (Z.to_nat (n - 1)) msg) 0 []
  | CSocket _ => Reply 6 [] 0 []
  | _ => Reply 1 [] 0 []
  end.

Lemma hook_never_blocks_witness :
  exists w' d, log_forwarder_vprintf (log_env (str "E (12) x")) (World log0 []) = Some (1, w') /\
    tr w' = d /\ Forall hook_call (calls d) /\ length d = 4%nat.
Proof.
  destruct (log_forwarder_vprintf (log_env (str "E (12) x")) (World log0 [])) as [[ret w']|] eqn:Hr; [|by vm_compute in Hr].
  destruct (hook_never_blocks _ _ _ _ Hr) as (d & Hd & Hf). exists w', d.
  vm_compute in Hr. injection Hr as <- <-. split; [reflexivity|]. split; [exact Hd|]. split; [exact Hf|].
  cbn in Hd. by rewrite <- Hd.
Defined.

(** Hook calls and sender steps in any order; a sender step comes with what the hub client reports. *)
Inductive log_op := OHook | OSender (found : bool) (ip port : Z).

Fixpoint run_log {Q} `{Queue Q} (os : list log_op) (pc : log_pc) : M (log_t Q) log_pc :=
  match os with
  | [] => mret pc
  | OHook :: os' => log_forwarder_vprintf ;; run_log os' pc
  | OSender found ip port :: os' => pc' ← log_sender_task found ip port pc; run_log os' pc'
  end.

Lemma run_log_wp {Q} `{Queue Q} E os pc (w : world (log_t Q)) :
  fmt_ok E -> log_inv pc w -> wp (run_log os pc) E w (fun pc' w' => log_inv pc' w').
Proof.
  intros Hf. revert pc w. induction os as [|[|found ip port] os IH]; intros pc w Hi; cbn [run_log]; [done| |]; apply wp_bind.
  - eapply wp_mono; [|by apply hook_wp]. intros ret w' Hi'. by apply IH.
  - eapply wp_mono; [|by apply log_task_wp]. intros pc' w' Hi'. by apply IH.
Qed.

(** C25: forwarding neither leaks nor corrupts.  For any interleaving of log calls and sender steps from
    the initialised state, whatever the network and the heap do, nothing goes out of bounds, the
    entries allocated and not freed are exactly those in the queue plus the one being sent, the only
    open socket is the one in s_sock, and the crash ring stays intact. *)
Theorem forwarder_balanced {Q} `{Queue Q} E os c q :
  fmt_ok E -> crash_ok c -> q_items q = [] -> q_cap q = LOG_QUEUE_LEN ->
  exists pc w' q', run_log os LIdle E (World (Log (Q := Q) (-1) false (Some q) c 500) []) = Some (pc, w') /\
    lg_queue (st w') = Some q' /\
    heap_balance (tr w') = len (q_items q') + (match pc with LSend _ => 1 | _ => 0 end) /\
    fd_run [] (tr w') = Some (log_fds (st w')) /\ crash_ok (lg_crash (st w')) /\ lg_delay (st w') ∈ delays.
Proof.
  intros Hf Hc Hq Hcap.
  assert (log_inv LIdle (World (Log (Q := Q) (-1) false (Some q) c 500) [])) as Hi.
  { constructor; cbn; try done; [|apply holds_nil|apply list_elem_of_here]. exists q. rewrite Hq. split_and!; [done|constructor|done|done]. }
  destruct (wp_run _ _ _ _ (run_log_wp E os LIdle _ Hf Hi)) as (pc & w' & Hr & [(q' & Hq' & _ & _ & Hh) _ (l & Hl & Hp) _ Hcr Hd]).
  exists pc, w', q'. split_and!; try done. rewrite Hl. f_equal. rewrite app_nil_r in Hp. unfold log_fds in *.
  destruct (0 <=? lg_sock (st w')); [by apply Permutation_singleton_r in Hp|by apply Permutation_nil_r in Hp].
Qed.

Lemma forwarder_balanced_witness :
  exists pc w' q', run_log [OHook; OSender true 1 2; OHook; OSender true 1 2; OSender true 1 2; OSender true 1 2] LIdle
      (log_env (str "E (12) x")) (World log0 []) = Some (pc, w') /\ lg_queue (st w') = Some q' /\
    heap_balance (tr w') = len (q_items q') + (match pc with LSend _ => 1 | _ => 0 end).
Proof.
  destruct (forwarder_balanced (log_env (str "E (12) x"))
    [OHook; OSender true 1 2; OHook; OSender true 1 2; OSender true 1 2; OSender true 1 2] crash0 (ListQueue LOG_QUEUE_LEN []))
    as (pc & w' & q' & Hr & Hq & Hh & _).
  - intros t size Hs. cbn [log_env r_ret r_out]. rewrite length_take. split; [lia|]. apply Forall_take.
    repeat (apply Forall_cons_2; [by vm_compute|]). constructor.
  - by constructor.
  - reflexivity.
  - reflexivity.
  - exists pc, w', q'. split; [exact Hr|]. split; [exact Hq|exact Hh].
Defined.

(** The sender takes the oldest entry off the queue and, when the connection stands, sends it and
    nothing else: two steps of the task. *)
Lemma log_entry_forwarded {Q} `{Queue Q} E e es found ip port q (w : world (log_t Q)) :
  log_inv LRecv w -> lg_queue (st w) = Some q -> q_items q = e :: es -> lg_connected (st w) = true ->
  exists w' q' rest, run_log [OSender found ip port; OSender found ip port] LRecv E w = Some (LIdle, w') /\ log_inv LIdle w' /\
    lg_queue (st w') = Some q' /\ q_items q' = es /\ entry_ok e /\
    calls (tr w') = calls (tr w) ++ [CFree; CSend (lg_sock (st w)) (log_packet e)] ++ rest /\
    (rest = [] \/ rest = [CClose (lg_sock (st w)); CDelay (lg_delay (st w))]).
Proof.
  intros Hi Hq Hit Hc. pose proof (log_task_wp E found ip port LRecv w Hi) as Hwp.
  assert (exists q', log_sender_task found ip port LRecv E w = Some (LSend e, World (set_queue (Some q') (st w)) (tr w)) /\ q_items q' = es) as (q' & Hr1 & Hq').
  { cbn [log_sender_task]. erewrite mbind_some by reflexivity. rewrite Hq. erewrite mbind_some by reflexivity.
    pose proof (q_recv_cases q) as Hqr. rewrite Hit in Hqr. destruct (q_recv q) as [[e1 q']|]; [|done]. destruct Hqr as [Heq _].
    injection Heq as -> ->. exists q'. split; [by erewrite mbind_some by reflexivity|done]. }
  unfold wp in Hwp. rewrite Hr1 in Hwp. set (w1 := World _ _) in *.
  pose proof (li_conn _ _ Hwp Hc) as Hs. pose proof (li_entry _ _ Hwp) as He. cbn in He.
  destruct (wp_run _ _ _ _ (log_send_wp E e w1 Hwp Hs)) as ([] & w' & Hr2 & Hi' & Hqq & rest & Htr & Hrest).
  exists w', q', rest. split; [|by rewrite Hqq].
  cbn [run_log]. rewrite (mbind_some _ _ _ _ _ _ Hr1). cbn [log_sender_task]. erewrite mbind_some; [reflexivity|].
  erewrite mbind_some by reflexivity. destruct (Z.ltb_spec (lg_sock (st w1)) 0) as [|_]; [lia|].
  change (lg_connected (st w1)) with (lg_connected (st w)). rewrite Hc. cbn [orb negb]. by rewrite (mbind_some _ _ _ _ _ _ Hr2).
Qed.

(** An entry goes out as one CMD_LOG packet: when the connection stands, the sender frees the entry
    and sends header, level and text, the header's payload_len counting exactly the bytes after it. *)
Theorem log_entry_sent {Q} `{Queue Q} E e found ip port (w : world (log_t Q)) :
  log_inv (LSend e) w -> lg_connected (st w) = true -> is_u8 (e_level e) ->
  exists pc w' rest, log_sender_task found ip port (LSend e) E w = Some (pc, w') /\ pc = LIdle /\
    calls (tr w') = calls (tr w) ++ [CFree; CSend (lg_sock (st w)) (log_packet e)] ++ rest /\
    (exists h, decode (log_packet e) = Some h /\ h_cmd_type h = CMD_LOG /\ len (log_packet e) = sizeof Header + h_payload_len h) /\
    drop 7 (log_packet e) = e_msg e.
Proof.
  intros Hi Hc Hlv. pose proof (li_conn _ _ Hi Hc) as Hs. pose proof (li_entry _ _ Hi) as [Hel Hml]. unfold LOG_MSG_MAX in Hel.
  cbn [log_sender_task]. erewrite mbind_some by reflexivity. rewrite Hc. destruct (Z.ltb_spec (lg_sock (st w)) 0); [lia|].
  cbn [orb negb]. destruct (wp_run _ _ _ _ (log_send_wp E e w Hi Hs)) as ([] & w' & Hr & _ & _ & rest & Htr & _).
  exists LIdle, w', rest. split; [by rewrite (mbind_some _ _ _ _ _ _ Hr)|]. split_and!; [done|done| |done].
  eexists. split; [apply decode_encode; unfold wf, header_wire, header_wf, CMD_LOG; cbn; split_and!; solve_width|].
  split; [done|]. unfold log_packet. rewrite !length_app, !Nat2Z.inj_add, !encode_size. cbn. lia.
Qed.

Lemma log_entry_sent_witness :
  exists w', log_sender_task true 1 2 (LSend (LogEntry 1 3 (str "abc"))) (log_env [])
    (World (Log (Q := list_queue) 6 true (Some (ListQueue LOG_QUEUE_LEN [])) crash0 500)
       [(CSocket SOCK_STREAM, Reply 6 [] 0 []); (CMalloc 260, Reply 1 [] 0 [])]) = Some (LIdle, w').
Proof.
  destruct (log_entry_sent (log_env []) (LogEntry 1 3 (str "abc")) true 1 2
    (World (Log (Q := list_queue) 6 true (Some (ListQueue LOG_QUEUE_LEN [])) crash0 500)
       [(CSocket SOCK_STREAM, Reply 6 [] 0 []); (CMalloc 260, Reply 1 [] 0 [])])) as (pc & w' & rest & Hr & -> & _).
  - constructor; cbn; try done.
    + eexists. split_and!; [done|constructor|done|done].
    + by exists [6].
    + apply list_elem_of_here.
  - reflexivity.
  - by split.
  - exists w'. exact Hr.
Defined.

(** The reconnection back-off is not capped at ten seconds: from 0.5 s the fifth failure in a row
    makes the next delay 16 s; only then does it settle at 10 s. *)
Theorem backoff_overshoots n :
  Nat.iter 5 backoff 500 = 16000 /\ Nat.iter (n + 6) backoff 500 = 10000.
Proof.
  split; [reflexivity|]. rewrite Nat.iter_add. change (Nat.iter 6 backoff 500) with 10000.
  induction n as [|k IH]; [done|]. change (Nat.iter (S k) backoff 10000) with (backoff (Nat.iter k backoff 10000)).
  by rewrite IH.
Qed.

(** ** Level detection *)

(** An ANSI colour sequence with the given parameters. *)
Definition csi (params : bytes) : bytes := [27; 91] ++ params ++ [109].

Lemma skip_params_csi ps rest : Forall (fun c => c <> 109) ps -> skip_params (ps ++ 109 :: rest) = rest.
Proof. induction 1 as [|c ps Hc _ IH]; cbn; [done|]. by destruct (Z.eqb_spec c 109). Qed.

Lemma skip_ansi_csi pss c rest n :
  Forall (Forall (fun c => c <> 109)) pss -> c <> 27 -> (length pss < n)%nat ->
  skip_ansi n (mjoin (csi <$> pss) ++ c :: rest) = c :: rest.
Proof.
  intros Hp Hc. revert n. induction Hp as [|ps pss Hps _ IH]; intros [|n] Hn; try (cbn in Hn; lia).
  - cbn. by destruct (Z.eqb_spec c 27).
  - cbn [fmap list_fmap mjoin list_join]. unfold csi at 1. rewrite <- !app_assoc. cbn [app skip_ansi Z.eqb Pos.eqb].
    rewrite skip_params_csi by done. apply IH. cbn in Hn. lia.
Qed.

(** The level of a line is the letter after its colour sequences: any number of ANSI sequences
    before the level letter are skipped, and the letter decides the level. *)
Lemma detect_level_skips_colour pss c rest :
  Forall (Forall (fun c => c <> 109)) pss -> c <> 27 ->
  detect_level (mjoin (csi <$> pss) ++ c :: rest) = level_of c.
Proof.
  intros Hp Hc. unfold detect_level. rewrite skip_ansi_csi; [done|done|done|].
  rewrite length_app. cbn. assert (length pss <= length (mjoin (csi <$> pss)))%nat; [|lia].
  clear Hp. induction pss as [|ps pss IH]; [cbn; lia|].
  change (mjoin (csi <$> ps :: pss)) with (csi ps ++ mjoin (csi <$> pss)). rewrite length_app. cbn [length csi app]. lia.
Qed.

Example detect_level_coloured : detect_level (csi (str "0;31") ++ str "E (5) tag: x") = LOG_LEVEL_ERROR.
Proof. reflexivity. Qed.
