(* ===== verification/Dns.v ===== *)
(** * Captive-portal DNS server (esp-codes/main/wifi_manager.c, [dns_server_task])

    The server answers every query with the address of the access point.
    [dns_handle] is the work on one datagram: it copies the queried name into a
    128-byte local array for the log, finds the end of the question and builds
    the reply in a static 512-byte array.  [None] is an access outside one of
    the arrays. *)

From S2P Require Import Prelude Effects Descriptors Addr.

Definition DNS_BUF : Z := 512.
Definition QNAME_SIZE : Z := 128.
(** inet_addr ("4.3.2.1"), as the four bytes in memory *)
Definition AP_IP : bytes := [4; 3; 2; 1].

(** [for (k = 0; k < l && qi < len; k++) qname[qo++] = buf[qi++];] *)
Fixpoint copy_label (k : nat) (buf : bytes) (n qi qo : Z) (qname : bytes) : option (Z * Z * bytes) :=
  match k with
  | O => Some (qi, qo, qname)
  | S k' =>
      if qi <? n then
        c ← arr_get buf qi;
        qname ← arr_set qname qo c;
        copy_label k' buf n (qi + 1) (qo + 1) qname
      else Some (qi, qo, qname)
  end.

(** The loop that extracts the name; every round consumes a byte, so [fuel] = datagram length is enough. *)
Fixpoint qname_loop (fuel : nat) (buf : bytes) (n qi qo : Z) (qname : bytes) : option (Z * bytes) :=
  match fuel with
  | O => Some (qo, qname)
  | S fuel' =>
      if qi <? n then
        l ← arr_get buf qi;
        if negb (l =? 0) && (qo <? QNAME_SIZE - 2) then
          if Z.land l 0xC0 =? 0xC0 then Some (qo, qname) else
          r ← copy_label (Z.to_nat l) buf n (qi + 1) qo qname;
          let '(qi, qo, qname) := r in
          qname ← arr_set qname qo 46;
          qname_loop fuel' buf n qi (qo + 1) qname
        else Some (qo, qname)
      else Some (qo, qname)
  end.

Definition dns_qname (buf : bytes) (n : Z) : option bytes :=
  r ← qname_loop (Z.to_nat n) buf n 12 0 (zeros QNAME_SIZE);
  if r.1 =? 0 then Some r.2 else arr_set r.2 (r.1 - 1) 0.

(** The end of the question's name; [fuel] as above. *)
Fixpoint question_end (fuel : nat) (buf : bytes) (n ne : Z) : option Z :=
  match fuel with
  | O => Some (ne + 1)
  | S fuel' =>
      if ne <? n then
        l ← arr_get buf ne;
        if l =? 0 then Some (ne + 1)
        else if Z.land l 0xC0 =? 0xC0 then Some (ne + 2)
        else question_end fuel' buf n (ne + l + 1)
      else Some (ne + 1)
  end.

Definition dns_header (buf : bytes) : option bytes :=
  a ← arr_get buf 0; b ← arr_get buf 1;
  Some [a; b; 0x81; 0x80; 0; 1; 0; 1; 0; 0; 0; 0].
Definition dns_answer : bytes := [0xC0; 0x0C; 0x00; 0x01; 0x00; 0x01; 0x00; 0x00; 0x00; 0x03; 0x00; 0x04] ++ AP_IP.

(** One datagram of [n >= 12] bytes in [buf]: the reply, if any, and the reply array. *)
Definition dns_handle (buf : bytes) (n : Z) (resp : bytes) : option (option bytes * bytes) :=
  _ ← dns_qname buf n;
  ne ← question_end (Z.to_nat n) buf n 12;
  let qend := ne + 4 in
  if n <? qend then Some (None, resp) else
  let qlen := qend - 12 in
  hdr ← dns_header buf;
  resp ← buf_write resp 0 hdr;
  q ← buf_read buf 12 qlen;
  resp ← buf_write resp 12 q;
  let pos := 12 + qlen in
  resp ← buf_write resp pos dns_answer;
  out ← buf_read resp 0 (pos + 16);
  Some (Some out, resp).

(** [s_dns_sock] and the two static arrays. *)
Record dns_t := Dns { dn_sock : Z; dn_buf : bytes; dn_resp : bytes }.

(** One round of the server loop; [false] when the task ends. *)
Definition dns_serve : M dns_t bool :=
  d ← get;
  r ← call_ext (CRecvfrom (dn_sock d) (DNS_BUF - 1));
  d ← get;
  if r_ret r <? 12 then
    call_ext (CClose (dn_sock d)) ;; modify (fun d => Dns (-1) (dn_buf d) (dn_resp d)) ;; mret false
  else
    let client := sender_of (r_aux r) in
    buf ← checked (buf_write (dn_buf d) 0 (r_out r));
    p ← checked (dns_handle buf (r_ret r) (dn_resp d));
    modify (fun d => Dns (dn_sock d) buf p.2) ;;
    match p.1 with
    | Some out => call_ext (CSendto (dn_sock d) out (sin_addr client) (sin_port client)) ;; mret true
    | None => mret true
    end.

(** ** Queries *)

Definition dns_label (l : bytes) : bytes := len l :: l.
Definition dns_name (ls : list bytes) : bytes := mjoin (dns_label <$> ls).
(** A query for the name [ls]: header, name, terminator, type and class. *)
Definition dns_query (hdr : bytes) (ls : list bytes) (tc : bytes) : bytes := hdr ++ dns_name ls ++ [0] ++ tc.

(** A label as DNS has it: 1 to 63 bytes. *)
Definition label_ok (l : bytes) : Prop := (1 <= length l <= 63)%nat.

Lemma label_not_pointer l : label_ok l -> Z.land (len l) 0xC0 =? 0xC0 = false /\ (len l =? 0) = false.
Proof.
  intros Hl. unfold label_ok in Hl. split; [|apply Z.eqb_neq; lia].
  apply Z.eqb_neq. intros He. apply (f_equal (fun z => Z.testbit z 7)) in He.
  rewrite Z.land_spec in He. change (Z.testbit 0xC0 7) with true in He. rewrite andb_true_r in He.
  rewrite Z.bits_above_log2 in He; [done|lia|]. apply Z.log2_lt_pow2; lia.
Qed.

Lemma arr_get_app (pre : bytes) c rest : arr_get (pre ++ c :: rest) (len pre) = Some c.
Proof.
  unfold arr_get. destruct (Z.leb_spec 0 (len pre)); [|lia]. rewrite Nat2Z.id.
  by rewrite list_lookup_middle.
Qed.

(** Copying a label that fits puts it at the write position. *)
Lemma copy_label_run l pre rest n qo qn :
  0 <= qo -> qo + len l <= len qn -> len pre + len l <= n ->
  copy_label (length l) (pre ++ l ++ rest) n (len pre) qo qn =
  Some (len pre + len l, qo + len l, take (Z.to_nat qo) qn ++ l ++ drop (Z.to_nat qo + length l) qn).
Proof.
  revert pre qo qn. induction l as [|c l IH]; intros pre qo qn Hq Hl Hn; cbn [length copy_label].
  - rewrite !Z.add_0_r, Nat.add_0_r. cbn [app]. by rewrite take_drop.
  - cbn [length] in Hn. destruct (Z.ltb_spec (len pre) n) as [_|Hge]; [|lia].
    change ((c :: l) ++ rest) with (c :: (l ++ rest)). rewrite arr_get_app. cbn [mbind option_bind].
    cbn [length] in Hl. rewrite arr_set_Some by lia. cbn [mbind option_bind].
    replace (pre ++ c :: l ++ rest) with ((pre ++ [c]) ++ l ++ rest) by (by rewrite <- app_assoc).
    replace (len pre + 1) with (len (pre ++ [c])) by (rewrite length_app; cbn; lia).
    rewrite IH by (rewrite ?length_insert, ?length_app; cbn; lia). f_equal. f_equal; [f_equal; rewrite ?length_app; cbn; lia|].
    replace (Z.to_nat (qo + 1)) with (S (Z.to_nat qo)) by lia.
    rewrite take_insert_lt by lia. rewrite drop_insert_lt by lia.
    destruct (lookup_lt_is_Some_2 qn (Z.to_nat qo)) as [x Hx]; [lia|].
    rewrite (take_S_r _ _ _ Hx), insert_app_r_alt by (rewrite length_take; lia).
    rewrite length_take, Nat.min_l, Nat.sub_diag by lia. cbn. rewrite <- app_assoc. cbn.
    by replace (Z.to_nat qo + S (length l))%nat with (S (Z.to_nat qo + length l)) by lia.
Qed.

(** Copying a label past the end of the array is out of bounds. *)
Lemma copy_label_overflow l pre rest n qo qn :
  0 <= qo <= len qn -> len qn < qo + len l -> len pre + len l <= n ->
  copy_label (length l) (pre ++ l ++ rest) n (len pre) qo qn = None.
Proof.
  revert pre qo qn. induction l as [|c l IH]; intros pre qo qn Hq Hl Hn; cbn [length copy_label] in *; [lia|].
  destruct (Z.ltb_spec (len pre) n) as [_|Hge]; [|lia].
  change ((c :: l) ++ rest) with (c :: (l ++ rest)). rewrite arr_get_app. cbn [mbind option_bind].
  destruct (arr_set qn qo c) as [qn'|] eqn:Hs; cbn [mbind option_bind]; [|done].
  apply arr_set_inv in Hs as [Hr ->].
  replace (pre ++ c :: l ++ rest) with ((pre ++ [c]) ++ l ++ rest) by (by rewrite <- app_assoc).
  replace (len pre + 1) with (len (pre ++ [c])) by (rewrite length_app; cbn; lia).
  apply IH; rewrite ?length_insert, ?length_app; cbn; lia.
Qed.

(** Writing right behind a known prefix. *)
Lemma write_prefix p rest off src :
  off = len p -> off + len src <= len (p ++ rest) ->
  buf_write (p ++ rest) off src = Some ((p ++ src) ++ drop (length src) rest).
Proof.
  intros -> Hl. rewrite buf_write_Some by lia. rewrite Nat2Z.id, take_app_length, <- app_assoc.
  rewrite drop_app_ge by lia. by replace (length p + length src - length p)%nat with (length src) by lia.
Qed.

(** The number of bytes the labels take in the log string, one dot each. *)
Definition name_len (ls : list bytes) : nat := length (dns_name ls).

Lemma dns_name_cons l ls : dns_name (l :: ls) = len l :: l ++ dns_name ls.
Proof. done. Qed.

(** The end of a well-formed question is found after its terminator. *)
Lemma question_end_name ls pre rest n fuel :
  Forall label_ok ls -> len pre + len (dns_name ls) < n -> (length ls < fuel)%nat ->
  question_end fuel (pre ++ dns_name ls ++ 0 :: rest) n (len pre) = Some (len pre + len (dns_name ls) + 1).
Proof.
  intros Hls. revert pre fuel. induction Hls as [|l ls Hl _ IH]; intros pre [|fuel] Hn Hf; try (cbn in Hf; lia); cbn [question_end].
  - cbn [dns_name fmap list_fmap mjoin list_join app length] in *. destruct (Z.ltb_spec (len pre) n); [|cbn in Hn; lia].
    rewrite arr_get_app. cbn. by rewrite Z.add_0_r.
  - destruct (label_not_pointer l Hl) as [Hp Hz]. rewrite dns_name_cons in *. rewrite length_cons, length_app in *.
    destruct (Z.ltb_spec (len pre) n); [|lia]. cbn [app]. rewrite arr_get_app. cbn [mbind option_bind]. rewrite Hz, Hp.
    replace (pre ++ len l :: (l ++ dns_name ls) ++ 0 :: rest) with ((pre ++ len l :: l) ++ dns_name ls ++ 0 :: rest)
      by (by rewrite <- !app_assoc).
    replace (len pre + len l + 1) with (len (pre ++ len l :: l)) by (rewrite length_app; cbn; lia).
    rewrite IH; [f_equal; rewrite length_app; cbn; lia|rewrite length_app; cbn; lia|cbn in Hf; lia].
Qed.

(** The log string of a name that fits is filled without leaving the array. *)
Lemma qname_loop_name ls pre rest n fuel qo qn :
  Forall label_ok ls -> len pre + len (dns_name ls) < n -> 0 <= qo -> qo + len (dns_name ls) <= 127 -> len qn = 128 ->
  exists qo' qn', qname_loop fuel (pre ++ dns_name ls ++ 0 :: rest) n (len pre) qo qn = Some (qo', qn') /\
    0 <= qo' <= 127 /\ len qn' = 128.
Proof.
  intros Hls. revert pre fuel qo qn. induction Hls as [|l ls Hl _ IH]; intros pre [|fuel] qo qn Hn Hq Hfit Hqn; cbn [qname_loop].
  - eexists _, _. split; [done|]. lia.
  - cbn [dns_name fmap list_fmap mjoin list_join app length] in *. destruct (Z.ltb_spec (len pre) n); [|eexists _, _; split; [done|lia]].
    rewrite arr_get_app. cbn. eexists _, _. split; [done|]. lia.
  - eexists _, _. split; [done|]. lia.
  - destruct (label_not_pointer l Hl) as [Hp Hz]. rewrite dns_name_cons in *. rewrite length_cons, length_app in *.
    destruct (Z.ltb_spec (len pre) n); [|lia]. cbn [app]. rewrite arr_get_app. cbn [mbind option_bind].
    rewrite Hz, Hp. cbn [negb andb]. unfold QNAME_SIZE.
    destruct (Z.ltb_spec qo (128 - 2)); [|eexists _, _; split; [done|lia]]. rewrite Nat2Z.id.
    replace (pre ++ len l :: (l ++ dns_name ls) ++ 0 :: rest) with ((pre ++ [len l]) ++ l ++ dns_name ls ++ 0 :: rest)
      by (by rewrite <- !app_assoc).
    replace (len pre + 1) with (len (pre ++ [len l])) by (rewrite length_app; cbn; lia).
    rewrite copy_label_run; [|lia|lia|rewrite length_app; cbn; lia]. cbn [mbind option_bind].
    set (qn1 := take _ qn ++ _). assert (len qn1 = 128) as Hq1.
    { unfold qn1. rewrite !length_app, length_take, length_drop. lia. }
    rewrite arr_set_Some by lia. cbn [mbind option_bind].
    replace ((pre ++ [len l]) ++ l ++ dns_name ls ++ 0 :: rest) with ((pre ++ len l :: l) ++ dns_name ls ++ 0 :: rest)
      by (by rewrite <- !app_assoc).
    replace (len (pre ++ [len l]) + len l) with (len (pre ++ len l :: l)) by (rewrite !length_app; cbn; lia).
    apply IH; rewrite ?length_insert, ?length_app; cbn; lia.
Qed.

Lemma dns_name_count ls : (length ls <= length (dns_name ls))%nat.
Proof. induction ls as [|l ls IH]; [done|]. rewrite dns_name_cons. cbn. rewrite length_app. lia. Qed.

(** The answer to a query: same transaction id and question, no error, one A record of 4.3.2.1 with
    a time to live of three seconds. *)
Definition dns_reply (t0 t1 : Z) (ls : list bytes) (tc : bytes) : bytes :=
  [t0; t1; 0x81; 0x80; 0; 1; 0; 1; 0; 0; 0; 0] ++ dns_name ls ++ [0] ++ tc ++
  [0xC0; 0x0C; 0; 1; 0; 1; 0; 0; 0; 3; 0; 4; 4; 3; 2; 1].

(** The reply to a query whose name fits the log string; stale bytes behind the datagram do not matter. *)
Lemma dns_handle_answers t0 t1 hdr ls tc stale resp :
  Forall label_ok ls -> length hdr = 10%nat -> length tc = 4%nat -> len (dns_name ls) <= 127 -> len resp = DNS_BUF ->
  let q := dns_query (t0 :: t1 :: hdr) ls tc in
  exists resp', dns_handle (q ++ stale) (len q) resp =
      Some (Some (dns_reply t0 t1 ls tc), resp') /\ len resp' = DNS_BUF.
Proof.
  intros Hls Hh Htc Hfit Hr q. unfold DNS_BUF, dns_reply in *. set (pre := t0 :: t1 :: hdr) in *.
  assert (len pre = 12) as Hpre by (unfold pre; cbn; lia).
  assert (len q = 12 + len (dns_name ls) + 5) as Hq by (unfold q, dns_query; fold pre; rewrite !length_app; cbn; lia).
  assert (q ++ stale = pre ++ dns_name ls ++ 0 :: (tc ++ stale)) as Hqs
    by (unfold q, dns_query; fold pre; by rewrite <- !app_assoc).
  unfold dns_handle, dns_qname.
  destruct (qname_loop_name ls pre (tc ++ stale) (len q) (Z.to_nat (len q)) 0 (zeros QNAME_SIZE)) as (qo & qn & Hl & Hqo & Hqn);
    [done|lia|lia|lia|done|]. pose proof (dns_name_count ls).
  pose proof (question_end_name ls pre (tc ++ stale) (len q) (Z.to_nat (len q)) Hls ltac:(lia) ltac:(lia)) as Hqe.
  rewrite Hpre, <- Hqs in Hl, Hqe. rewrite Hl. cbn [mbind option_bind fst snd].
  assert (exists x, (if qo =? 0 then Some qn else arr_set qn (qo - 1) 0) = Some x) as [x ->].
  { destruct (Z.eqb_spec qo 0); [by eexists|]. rewrite arr_set_Some by lia. by eexists. }
  cbn [mbind option_bind]. rewrite Hqe. cbn [mbind option_bind].
  destruct (Z.ltb_spec (len q) (12 + len (dns_name ls) + 1 + 4)); [lia|].
  assert (dns_header (q ++ stale) = Some [t0; t1; 0x81; 0x80; 0; 1; 0; 1; 0; 0; 0; 0]) as -> by (by rewrite Hqs).
  cbn [mbind option_bind]. set (h := [t0; t1; 0x81; 0x80; 0; 1; 0; 1; 0; 0; 0; 0]).
  rewrite <- (app_nil_l resp), (write_prefix [] resp 0 h) by (cbn; lia). cbn [mbind option_bind app].
  assert (buf_read (q ++ stale) 12 (12 + len (dns_name ls) + 1 + 4 - 12) = Some (dns_name ls ++ [0] ++ tc)) as ->.
  { rewrite buf_read_Some; [|lia|lia|rewrite length_app; lia]. rewrite Hqs. f_equal.
    rewrite drop_app_ge by lia. replace (Z.to_nat 12 - length pre)%nat with 0%nat by lia. rewrite drop_0.
    replace (dns_name ls ++ 0 :: tc ++ stale) with ((dns_name ls ++ [0] ++ tc) ++ stale) by (by rewrite <- !app_assoc).
    rewrite take_app_le by (rewrite !length_app; cbn; lia). apply take_ge. rewrite !length_app. cbn. lia. }
  cbn [mbind option_bind].
  rewrite (write_prefix h) by (rewrite ?length_app, ?length_drop; cbn; lia). cbn [mbind option_bind].
  rewrite (write_prefix (h ++ _)) by (rewrite ?length_app, ?length_drop, ?length_drop; cbn; lia). cbn [mbind option_bind].
  set (r3 := drop _ (drop _ _)).
  rewrite buf_read_Some; [|lia|lia|unfold r3; rewrite !length_app, !length_drop; cbn; lia]. cbn [mbind option_bind].
  eexists ((_ ++ _) ++ r3). split.
  - do 3 f_equal. change (Z.to_nat 0) with 0%nat. rewrite drop_0, take_app_le by (rewrite !length_app; cbn; lia).
    rewrite take_ge by (rewrite !length_app; cbn; lia). by rewrite <- !app_assoc.
  - unfold r3. rewrite !length_app, !length_drop. cbn. lia.
Qed.

Definition demo_labels : list bytes := [[101; 120]; [105; 111]].

(** C29: a name of up to 127 bytes on the wire is answered.  When such a query comes in, one round of the
    server loop sends exactly one datagram back to its sender's address and port and goes on: the same transaction id and
    question, no error, and one A record of the access point 4.3.2.1 with a time to live of three
    seconds; nothing is accessed outside the arrays, which keep their sizes. *)
Theorem dns_answers E t0 t1 hdr ls tc (w : world dns_t) :
  let q := dns_query (t0 :: t1 :: hdr) ls tc in
  let r := E (tr w) (CRecvfrom (dn_sock (st w)) 511) in
  Forall label_ok ls -> length hdr = 10%nat -> length tc = 4%nat -> len (dns_name ls) <= 127 ->
  len (dn_buf (st w)) = DNS_BUF -> len (dn_resp (st w)) = DNS_BUF -> r_ret r = len q -> r_out r = q ->
  exists w', dns_serve E w = Some (true, w') /\ dn_sock (st w') = dn_sock (st w) /\
    len (dn_buf (st w')) = DNS_BUF /\ len (dn_resp (st w')) = DNS_BUF /\
    calls (tr w') = calls (tr w) ++
      [CRecvfrom (dn_sock (st w)) 511; CSendto (dn_sock (st w)) (dns_reply t0 t1 ls tc)
        (sin_addr (sender_of (r_aux r))) (sin_port (sender_of (r_aux r)))].
Proof.
  intros q r Hls Hh Htc Hfit Hb Hr Hret Hout.
  assert (len q = 12 + len (dns_name ls) + 5) as Hq by (unfold q, dns_query; rewrite !length_app; cbn [length]; lia).
  unfold dns_serve. change (DNS_BUF - 1) with 511. do 3 (erewrite mbind_some by reflexivity). fold r. rewrite Hret, Hout.
  destruct (Z.ltb_spec (len q) 12); [lia|]. unfold DNS_BUF in *.
  cbn [st]. rewrite (buf_write_Some (dn_buf (st w)) 0 q); [|lia|lia]. erewrite mbind_some by reflexivity.
  change (Z.to_nat 0) with 0%nat. rewrite take_0, app_nil_l, Nat.add_0_l. cbn [st].
  destruct (dns_handle_answers t0 t1 hdr ls tc (drop (length q) (dn_buf (st w))) (dn_resp (st w)) Hls Hh Htc Hfit Hr)
    as (resp' & Hrun & Hl). fold q in Hrun. rewrite Hrun. do 2 (erewrite mbind_some by reflexivity). cbn [fst snd].
  erewrite mbind_some by reflexivity. eexists. split; [reflexivity|]. cbn [st tr dn_sock dn_buf dn_resp]. split_and!; [done| |done|].
  - rewrite length_app, length_drop. lia.
  - by rewrite !fmap_app, <- app_assoc.
Qed.

Definition dns_env (q : bytes) : env := fun _ c =>
  match c with CRecvfrom _ _ => Reply (len q) q 0x14E90100007F [] | _ => Reply 0 [] 0 [] end.

Lemma dns_answers_witness :
  exists w', dns_serve (dns_env (dns_query (7 :: 8 :: zeros 10) demo_labels [0; 1; 0; 1]))
      (World (Dns 3 (zeros DNS_BUF) (zeros DNS_BUF)) []) = Some (true, w') /\
    calls (tr w') = [CRecvfrom 3 511; CSendto 3 (dns_reply 7 8 demo_labels [0; 1; 0; 1]) 0x0100007F 0x14E9].
Proof.
  destruct (dns_answers (dns_env (dns_query (7 :: 8 :: zeros 10) demo_labels [0; 1; 0; 1])) 7 8 (zeros 10) demo_labels
    [0; 1; 0; 1] (World (Dns 3 (zeros DNS_BUF) (zeros DNS_BUF)) [])) as (w' & Hr & _ & _ & _ & Hc).
  - repeat (apply Forall_cons_2; [unfold label_ok; cbn; lia|]). constructor.
  - reflexivity.
  - reflexivity.
  - by vm_compute.
  - by vm_compute.
  - by vm_compute.
  - reflexivity.
  - reflexivity.
  - exists w'. split; [exact Hr|exact Hc].
Defined.

(** A name whose first labels leave the write position below the loop's guard but whose next label
    does not fit behind it. *)
Lemma qname_loop_overflow ls l pre rest n fuel qo qn :
  Forall label_ok ls -> label_ok l -> 0 <= qo -> qo + len (dns_name ls) < 126 -> 128 < qo + len (dns_name ls) + len l ->
  len qn = 128 -> len pre + len (dns_name ls) + len l < n -> (length ls < fuel)%nat ->
  qname_loop fuel (pre ++ dns_name ls ++ dns_label l ++ rest) n (len pre) qo qn = None.
Proof.
  intros Hls Hl. revert pre fuel qo qn.
  induction Hls as [|l' ls Hl' _ IH]; intros pre [|fuel] qo qn Hq Hlo Hhi Hqn Hn Hf; try (cbn in Hf; lia); cbn [qname_loop].
  - change (dns_name [] ++ dns_label l ++ rest) with (len l :: l ++ rest). cbn [dns_name fmap list_fmap mjoin list_join length] in *.
    destruct (label_not_pointer l Hl) as [Hp Hz]. destruct (Z.ltb_spec (len pre) n); [|lia].
    rewrite arr_get_app. cbn [mbind option_bind]. rewrite Hz, Hp. cbn [negb andb]. unfold QNAME_SIZE.
    destruct (Z.ltb_spec qo (128 - 2)); [|lia]. rewrite Nat2Z.id.
    replace (pre ++ len l :: l ++ rest) with ((pre ++ [len l]) ++ l ++ rest) by (by rewrite <- app_assoc).
    replace (len pre + 1) with (len (pre ++ [len l])) by (rewrite length_app; cbn; lia).
    rewrite copy_label_overflow; [done|lia|lia|rewrite length_app; cbn; lia].
  - rewrite dns_name_cons in Hlo, Hhi, Hn |- *. rewrite length_cons, length_app in Hlo, Hhi, Hn. cbn [length] in Hf.
    destruct (label_not_pointer l' Hl') as [Hp Hz]. destruct (Z.ltb_spec (len pre) n); [|lia]. cbn [app].
    rewrite arr_get_app. cbn [mbind option_bind]. rewrite Hz, Hp. cbn [negb andb]. unfold QNAME_SIZE.
    destruct (Z.ltb_spec qo (128 - 2)); [|lia]. rewrite Nat2Z.id. rewrite <- (app_assoc l').
    set (tl := dns_name ls ++ dns_label l ++ rest) in *.
    replace (pre ++ len l' :: l' ++ tl) with ((pre ++ [len l']) ++ l' ++ tl) by (by rewrite <- app_assoc).
    replace (len pre + 1) with (len (pre ++ [len l'])) by (rewrite length_app; cbn; lia).
    rewrite copy_label_run; [|lia|lia|rewrite length_app; cbn; lia]. cbn [mbind option_bind].
    set (qn1 := take _ qn ++ _). assert (len qn1 = 128) as Hq1.
    { unfold qn1. rewrite !length_app, length_take, length_drop. lia. }
    rewrite arr_set_Some by lia. cbn [mbind option_bind].
    replace ((pre ++ [len l']) ++ l' ++ tl) with ((pre ++ len l' :: l') ++ tl) by (by rewrite <- !app_assoc).
    replace (len (pre ++ [len l']) + len l') with (len (pre ++ len l' :: l')) by (rewrite !length_app; cbn; lia).
    apply IH; rewrite ?length_insert, ?length_app; cbn; lia.
Qed.

(** C40: a legal name can write past the log string: if the first labels of the queried name take fewer
    than 126 bytes and the next label ends beyond byte 128, handling the query is undefined behaviour
    (the inner copy loop does not check the array), whatever the labels contain. *)
Theorem dns_name_overflow hdr ls l more tc resp :
  length hdr = 12%nat -> Forall label_ok (ls ++ [l]) -> len (dns_name ls) < 126 -> 128 < len (dns_name ls) + len l ->
  let q := dns_query hdr (ls ++ l :: more) tc in
  dns_handle q (len q) resp = None.
Proof.
  intros Hh Hok Hlo Hhi q. apply Forall_app in Hok as [Hls Hl]. apply Forall_cons_1 in Hl as [Hl _].
  assert (exists rest, q = hdr ++ dns_name ls ++ dns_label l ++ rest) as [rest Hq].
  { exists (dns_name more ++ [0] ++ tc). unfold q, dns_query.
    assert (dns_name (ls ++ l :: more) = dns_name ls ++ dns_label l ++ dns_name more) as ->
      by (unfold dns_name; by rewrite fmap_app, join_app).
    by rewrite <- !app_assoc. }
  assert (len q = 12 + len (dns_name ls) + len l + 1 + len rest) as Hlen.
  { rewrite Hq, !length_app. unfold dns_label. cbn. lia. }
  pose proof (dns_name_count ls). unfold dns_handle, dns_qname.
  pose proof (qname_loop_overflow ls l hdr rest (len q) (Z.to_nat (len q)) 0 (zeros QNAME_SIZE) Hls Hl) as Ho.
  rewrite <- Hq in Ho. replace (len hdr) with 12 in Ho by lia. rewrite Ho; [done|lia|lia|lia|done|lia|lia].
Qed.

Lemma dns_name_overflow_witness :
  dns_handle (dns_query (zeros 12) [replicate 60 97; replicate 63 98; replicate 63 99] [0; 1; 0; 1]) 206 (zeros DNS_BUF) = None.
Proof.
  apply (dns_name_overflow (zeros 12) [replicate 60 97; replicate 63 98] (replicate 63 99) [] [0; 1; 0; 1] (zeros DNS_BUF)).
  - reflexivity.
  - repeat (apply Forall_cons_2; [unfold label_ok; vm_compute; lia|]). constructor.
  - by vm_compute.
  - by vm_compute.
Defined.
