(* ===== verification/Portal.v ===== *)
(** * Captive portal: form handling (esp-codes/main/wifi_manager.c)

    The portal page posts an url-encoded form; [post_save_handler] extracts the
    network name and the password and stores them.  C strings are lists of
    non-zero bytes; the functions below work on the string held in a buffer. *)

From stdpp Require Import strings.
From S2P Require Import Prelude Effects CrashReporter WifiManager.

(** ** [strtol (s, NULL, 16)] *)

Definition is_space (c : Z) : bool := (c =? 32) || ((9 <=? c) && (c <=? 13)).
Definition hex_val (c : Z) : option Z :=
  if (48 <=? c) && (c <=? 57) then Some (c - 48)
  else if (65 <=? c) && (c <=? 70) then Some (c - 55)
  else if (97 <=? c) && (c <=? 102) then Some (c - 87)
  else None.

Fixpoint skip_space (s : bytes) : bytes :=
  match s with c :: s' => if is_space c then skip_space s' else s | [] => [] end.
Fixpoint hex_digits (acc : Z) (s : bytes) : Z :=
  match s with
  | c :: s' => match hex_val c with Some d => hex_digits (acc * 16 + d) s' | None => acc end
  | [] => acc
  end.
Definition strtol16 (s : bytes) : Z :=
  let s := skip_space s in
  let '(neg, s) := match s with c :: s' => if c =? 45 then (true, s') else if c =? 43 then (false, s') else (false, s) | [] => (false, s) end in
  let s := match s with
           | a :: b :: s' => if (a =? 48) && ((b =? 120) || (b =? 88)) then s' else s
           | _ => s
           end in
  if neg then - hex_digits 0 s else hex_digits 0 s.

(** ** [url_decode] *)

(** [room] bytes are left before the terminator. *)
Fixpoint url_decode_go (room : nat) (src : bytes) : bytes :=
  match src with
  | [] => []
  | c :: r =>
      match room with
      | O => []
      | S room' =>
          if c =? 43 then 32 :: url_decode_go room' r
          else if c =? 37 then
            match r with
            | a :: b :: r2 => u8 (strtol16 [a; b]) :: url_decode_go room' r2
            | _ => c :: url_decode_go room' r
            end
          else c :: url_decode_go room' r
      end
  end.

Definition url_decode (src : bytes) (dst_len : Z) : bytes := url_decode_go (Z.to_nat (dst_len - 1)) src.

(** ** [form_field] *)

Fixpoint strip_prefix (p s : bytes) : option bytes :=
  match p, s with
  | [], _ => Some s
  | a :: p', b :: s' => if a =? b then strip_prefix p' s' else None
  | _ :: _, [] => None
  end.

(** What follows the first occurrence of [p] in [s]: [strstr (s, p) + strlen (p)]. *)
Fixpoint strstr_after (s p : bytes) : option bytes :=
  match strip_prefix p s with
  | Some rest => Some rest
  | None => match s with [] => None | _ :: s' => strstr_after s' p end
  end.

(** Up to the next '&', or to the end. *)
Fixpoint until_amp (s : bytes) : bytes :=
  match s with [] => [] | c :: s' => if c =? 38 then [] else c :: until_amp s' end.

(** The string written to [out], or [None] when the function returns false. *)
Definition form_field (body key : bytes) (out_len : Z) : option bytes :=
  let search := take 63 (key ++ [61]) in
  p ← strstr_after body search;
  let raw := take 255 (until_amp p) in
  Some (c_str (url_decode raw out_len)).

(** ** [post_save_handler] *)

Definition ESP_FAIL : Z := -1.
Definition nvs_save_credentials (ssid pass : bytes) : M unit unit :=
  esp_check (WNvsOpen WIFI_NVS_NAMESPACE true) ;;
  esp_check (WNvsSet WIFI_NVS_KEY_SSID ssid) ;;
  esp_check (WNvsSet WIFI_NVS_KEY_PASS pass) ;;
  esp_check WNvsCommit ;;
  call_ext (CWifi WNvsClose) ;; mret tt.

Definition post_save_handler : M unit Z :=
  r ← call_ext (CWifi (WHttpRecv 511));
  if r_ret r <=? 0 then call_ext (CWifi (WHttpSendErr 400 (str "Empty body"))) ;; mret ESP_FAIL else
  recvd ← checked (buf_read (r_out r) 0 (r_ret r));
  let body := c_str recvd in
  let ssid := match form_field body (str "ssid_manual") 32 with Some (c :: s) => c :: s | _ =>
                match form_field body (str "ssid_list") 32 with Some s => s | None => [] end
              end in
  match ssid with
  | [] => call_ext (CWifi (WHttpSendErr 400 (str "Missing SSID"))) ;; mret ESP_FAIL
  | _ =>
      let pass := match form_field body (str "pass") 64 with Some p => p | None => [] end in
      nvs_save_credentials ssid pass ;;
      call_ext (CWifi (WHttpType (str "text/html"))) ;;
      call_ext (CWifi (WHttpSend (str "<h3>Saved! Restarting...</h3>"))) ;;
      call_ext (CDelay 500) ;;
      call_ext (CWifi WRestart) ;;
      mret 0
  end.

(** ** [html_escape] and the option lines of the portal page *)

Definition esc_byte (c : Z) : bytes :=
  if c =? 38 then str "&amp;" else if c =? 34 then str "&quot;" else
  if c =? 60 then str "&lt;" else if c =? 62 then str "&gt;" else [c].

Fixpoint html_escape_go (o lim : Z) (src : bytes) : bytes :=
  match src with
  | [] => []
  | c :: src' => if o <? lim then esc_byte c ++ html_escape_go (o + len (esc_byte c)) lim src' else []
  end.
Definition html_escape (src : bytes) (dst_len : Z) : bytes := html_escape_go 0 (dst_len - 7) src.

(** [snprintf (opt, sizeof opt, ...)]: at most 319 characters are kept. *)
Definition portal_option (ssid : bytes) : bytes :=
  let esc := html_escape ssid 140 in
  take 319 (str "<option value=" ++ [34] ++ esc ++ [34; 62] ++ esc ++ str "</option>").

(** ** The reference encoding of a form value *)

Definition hex_digit (d : Z) : Z := if d <? 10 then 48 + d else 55 + d.
Definition unreserved (c : Z) : bool :=
  ((48 <=? c) && (c <=? 57)) || ((65 <=? c) && (c <=? 90)) || ((97 <=? c) && (c <=? 122)) ||
  (c =? 42) || (c =? 45) || (c =? 46) || (c =? 95).
Definition enc_byte (c : Z) : bytes :=
  if unreserved c then [c] else if c =? 32 then [43] else [37; hex_digit (c / 16); hex_digit (c mod 16)].
Definition url_encode (s : bytes) : bytes := mjoin (enc_byte <$> s).

(** All bytes, for facts checked by computation. *)
Definition all_bytes : list Z := Z.of_nat <$> List.seq 0 256.
Lemma all_bytes_in c : is_u8 c -> c ∈ all_bytes.
Proof.
  intros [H0 H1]. apply list_elem_of_fmap. exists (Z.to_nat c). split; [lia|]. apply elem_of_seq. change (2 ^ 8) with 256 in H1. lia.
Qed.
Lemma byte_check (f : Z -> bool) c : forallb f all_bytes = true -> is_u8 c -> f c = true.
Proof. intros Hf Hc. rewrite forallb_forall in Hf. apply Hf. by apply list_elem_of_In, all_bytes_in. Qed.

(** Decoding one encoded byte. *)
Lemma decode_enc_byte c room rest :
  is_u8 c -> url_decode_go (S room) (enc_byte c ++ rest) = c :: url_decode_go room rest.
Proof.
  intros Hc.
  assert ((if unreserved c then negb (c =? 43) && negb (c =? 37)
           else (c =? 32) || (u8 (strtol16 [hex_digit (c / 16); hex_digit (c mod 16)]) =? c)) = true) as Hb.
  { apply (byte_check (fun c => if unreserved c then negb (c =? 43) && negb (c =? 37)
           else (c =? 32) || (u8 (strtol16 [hex_digit (c / 16); hex_digit (c mod 16)]) =? c))); [by vm_compute|done]. }
  unfold enc_byte. destruct (unreserved c).
  - apply andb_prop in Hb as [H1%negb_true_iff H2%negb_true_iff]. cbn [app url_decode_go]. by rewrite H1, H2.
  - destruct (Z.eqb_spec c 32) as [->|]; [done|]. cbn [orb] in Hb. apply Z.eqb_eq in Hb.
    cbn [app url_decode_go Z.eqb Pos.eqb]. by rewrite Hb.
Qed.

Lemma url_roundtrip_go s room rest :
  bytes_ok s -> url_decode_go (length s + room) (url_encode s ++ rest) = s ++ url_decode_go room rest.
Proof.
  induction 1 as [|c s Hc _ IH]; [done|]. change (url_encode (c :: s)) with (enc_byte c ++ url_encode s).
  rewrite <- app_assoc. cbn [length Nat.add]. rewrite decode_enc_byte by done. by rewrite IH.
Qed.

(** Url decoding inverts the encoding browsers use: any byte string that fits the destination with
    its terminator comes back unchanged; a longer one comes back cut to the destination. *)
Theorem url_roundtrip s dst_len :
  bytes_ok s -> 1 <= dst_len -> url_decode (url_encode s) dst_len = take (Z.to_nat (dst_len - 1)) s.
Proof.
  intros Hs Hd. unfold url_decode. set (room := Z.to_nat (dst_len - 1)). clearbody room. clear Hd.
  revert room. induction Hs as [|c s Hc _ IH]; intros room; [by destruct room|].
  change (url_encode (c :: s)) with (enc_byte c ++ url_encode s). destruct room as [|room].
  - unfold enc_byte. destruct (unreserved c); [done|]. by destruct (c =? 32).
  - rewrite decode_enc_byte by done. cbn. by rewrite IH.
Qed.

Lemma url_roundtrip_witness : url_decode (url_encode (str "My Net&1=%")) 32 = str "My Net&1=%".
Proof.
  apply (url_roundtrip (str "My Net&1=%") 32).
  - repeat (apply Forall_cons_2; [by vm_compute|]). constructor.
  - done.
Defined.

(** ** The form *)

Abbreviation no_eq s := (Forall (fun c : Z => c <> 61) s).

Lemma url_encode_clean s : bytes_ok s -> Forall (fun x => x <> 61 /\ x <> 38 /\ x <> 0) (url_encode s).
Proof.
  induction 1 as [|c s Hc _ IH]; [constructor|]. change (url_encode (c :: s)) with (enc_byte c ++ url_encode s).
  apply Forall_app_2; [|done].
  assert (forallb (fun x => negb (x =? 61) && negb (x =? 38) && negb (x =? 0)) (enc_byte c) || (c =? 0) = true) as Hb.
  { apply (byte_check (fun c => forallb (fun x => negb (x =? 61) && negb (x =? 38) && negb (x =? 0)) (enc_byte c) || (c =? 0))); [by vm_compute|done]. }
  apply orb_prop in Hb as [Hb|Hz].
  - rewrite forallb_forall in Hb. apply Forall_forall. intros x Hx%list_elem_of_In. apply Hb in Hx. revert Hx. repeat case_bool; done.
  - apply Z.eqb_eq in Hz as ->. repeat (apply Forall_cons_2; [by vm_compute|]). constructor.
Qed.

Lemma url_encode_length s : (length (url_encode s) <= 3 * length s)%nat.
Proof.
  induction s as [|c s IH]; [done|]. change (url_encode (c :: s)) with (enc_byte c ++ url_encode s).
  rewrite length_app. unfold enc_byte. destruct (unreserved c); [cbn; lia|]. destruct (c =? 32); cbn; lia.
Qed.

Lemma strip_prefix_eq k seg rest :
  no_eq k -> no_eq seg -> strip_prefix (k ++ [61]) (seg ++ 61 :: rest) = if decide (seg = k) then Some rest else None.
Proof.
  intros Hk. revert seg. induction Hk as [|a k Ha _ IH]; intros seg Hs.
  - destruct Hs as [|b seg Hb _]; [done|]. rewrite decide_False by done. cbn [app strip_prefix]. by destruct (Z.eqb_spec 61 b); [congruence|].
  - destruct Hs as [|b seg Hb Hs].
    + rewrite decide_False by done. cbn [app strip_prefix]. by destruct (Z.eqb_spec a 61).
    + cbn [app strip_prefix]. destruct (Z.eqb_spec a b) as [->|]; [|by rewrite decide_False by congruence].
      rewrite IH by done. destruct (decide (seg = k)) as [->|]; [by rewrite decide_True|]. by rewrite decide_False by congruence.
Qed.

Lemma strstr_after_eq s p :
  strstr_after s p = match strip_prefix p s with
                     | Some rest => Some rest
                     | None => match s with [] => None | _ :: s' => strstr_after s' p end
                     end.
Proof. by destruct s. Qed.

(** The first occurrence of [key=] is at the first '='-free segment that ends in [key]. *)
Lemma strstr_hit k x rest :
  no_eq k -> no_eq x -> strstr_after ((x ++ k) ++ 61 :: rest) (k ++ [61]) = Some rest.
Proof.
  intros Hk. induction 1 as [|c x Hc Hx IH].
  - rewrite strstr_after_eq. cbn [app]. by rewrite strip_prefix_eq, decide_True by done.
  - cbn [app strstr_after]. change (c :: (x ++ k) ++ 61 :: rest) with ((c :: x ++ k) ++ 61 :: rest).
    rewrite strip_prefix_eq; [|done|apply Forall_cons_2; [done|by apply Forall_app_2]].
    rewrite decide_False; [done|]. intros Hl%(f_equal length). cbn in Hl. rewrite length_app in Hl. lia.
Qed.

Lemma strstr_miss k seg rest :
  no_eq k -> k <> [] -> no_eq seg -> (forall x, seg <> x ++ k) ->
  strstr_after (seg ++ 61 :: rest) (k ++ [61]) = strstr_after rest (k ++ [61]).
Proof.
  intros Hk Hne. induction 1 as [|c seg Hc Hs IH]; intros Hsuf; cbn [app strstr_after].
  - change (61 :: rest) with ([] ++ 61 :: rest). rewrite strip_prefix_eq by (done || constructor). by rewrite decide_False by congruence.
  - change (c :: seg ++ 61 :: rest) with ((c :: seg) ++ 61 :: rest). rewrite strip_prefix_eq by (done || by apply Forall_cons_2).
    rewrite decide_False by (intros He; by apply (Hsuf [])). apply IH. intros x ->. by apply (Hsuf (c :: x)).
Qed.

Lemma until_amp_stop s rest : Forall (fun c => c <> 38) s -> until_amp (s ++ 38 :: rest) = s.
Proof. induction 1 as [|c s Hc _ IH]; cbn; [done|]. destruct (Z.eqb_spec c 38); [done|]. by rewrite IH. Qed.
Lemma until_amp_end s : Forall (fun c => c <> 38) s -> until_amp s = s.
Proof. induction 1 as [|c s Hc _ IH]; cbn; [done|]. destruct (Z.eqb_spec c 38); [done|]. by rewrite IH. Qed.

(** A value that a form can carry to a C string of capacity [n]. *)
Definition value_ok (n : nat) (s : bytes) : Prop := bytes_ok s /\ no_nul s /\ (length s < n)%nat.

(** Reading back the value behind [key=]. *)
Lemma field_value body key v p n :
  value_ok n v -> (n <= 64)%nat -> (length key < 63)%nat -> strstr_after body (key ++ [61]) = Some p ->
  until_amp p = url_encode v -> form_field body key (Z.of_nat n) = Some v.
Proof.
  intros (Hb & Hn & Hl) Hn64 Hk Hs Hu. unfold form_field. rewrite (take_ge (key ++ [61])) by (rewrite length_app; cbn; lia).
  rewrite Hs. cbn [mbind option_bind]. rewrite Hu. pose proof (url_encode_length v). rewrite take_ge by lia.
  unfold url_decode. pose proof (url_roundtrip_go v (n - 1 - length v) [] Hb) as Hr. rewrite app_nil_r in Hr.
  replace (Z.to_nat (Z.of_nat n - 1)) with (length v + (n - 1 - length v))%nat by lia. rewrite Hr.
  replace (url_decode_go (n - 1 - length v) []) with (@nil Z) by (by destruct (n - 1 - length v)%nat).
  rewrite app_nil_r. by rewrite c_str_id.
Qed.

(** The body a browser posts for the portal's form. *)
Definition form_body (l m p : bytes) : bytes :=
  str "ssid_list" ++ 61 :: (url_encode l ++ str "&ssid_manual") ++ 61 :: (url_encode m ++ str "&pass") ++ 61 :: url_encode p.

Lemma not_suffix (seg k : bytes) : last k <> None -> last seg <> last k -> forall x, seg <> x ++ k.
Proof. intros Hk Hne x ->. rewrite last_app in Hne. by destruct (last k). Qed.

Lemma clean_no_eq v t : bytes_ok v -> no_eq t -> no_eq (url_encode v ++ t).
Proof. intros Hv Ht. apply Forall_app_2; [|done]. eapply Forall_impl; [by apply url_encode_clean|]. by intros x [? _]. Qed.
Lemma clean_no_amp v : bytes_ok v -> Forall (fun c => c <> 38) (url_encode v).
Proof. intros Hv. eapply Forall_impl; [by apply url_encode_clean|]. by intros x (_ & ? & _). Qed.

Ltac const_no_eq := repeat (apply Forall_cons_2; [done|]); constructor.

Lemma form_body_fields l m p :
  value_ok 32 l -> value_ok 32 m -> value_ok 64 p ->
  form_field (form_body l m p) (str "ssid_list") 32 = Some l /\
  form_field (form_body l m p) (str "ssid_manual") 32 = Some m /\
  form_field (form_body l m p) (str "pass") 64 = Some p.
Proof.
  intros Hl Hm Hp. pose proof Hl as [Hlb _]. pose proof Hm as [Hmb _]. pose proof Hp as [Hpb _]. unfold form_body.
  split; [|split].
  - eapply (field_value _ _ _ _ 32); [done|lia|cbn; lia| |].
    + apply (strstr_hit (str "ssid_list") []); [const_no_eq|constructor].
    + rewrite <- app_assoc. by apply until_amp_stop, clean_no_amp.
  - eapply (field_value _ _ _ _ 32); [done|lia|cbn; lia| |].
    + rewrite strstr_miss; [|const_no_eq|done|const_no_eq|by apply not_suffix].
      change (str "&ssid_manual") with ([38] ++ str "ssid_manual"). rewrite (app_assoc (url_encode l)).
      apply (strstr_hit (str "ssid_manual")); [const_no_eq|apply clean_no_eq; [done|const_no_eq]].
    + rewrite <- app_assoc. by apply until_amp_stop, clean_no_amp.
  - eapply (field_value _ _ _ _ 64); [done|lia|cbn; lia| |].
    + rewrite strstr_miss; [|const_no_eq|done|const_no_eq|by apply not_suffix].
      rewrite strstr_miss; [|const_no_eq|done|apply clean_no_eq; [done|const_no_eq]|].
      2:{ apply not_suffix; [done|]. rewrite last_app. done. }
      change (str "&pass") with ([38] ++ str "pass"). rewrite (app_assoc (url_encode m)).
      apply (strstr_hit (str "pass")); [const_no_eq|apply clean_no_eq; [done|const_no_eq]].
    + by apply until_amp_end, clean_no_amp.
Qed.

Lemma form_body_no_nul l m p : bytes_ok l -> bytes_ok m -> bytes_ok p -> no_nul (form_body l m p).
Proof.
  intros Hl Hm Hp. assert (forall v, bytes_ok v -> no_nul (url_encode v)) as Hc.
  { intros v Hv. eapply Forall_impl; [by apply url_encode_clean|]. by intros x (_ & _ & ?). }
  unfold form_body. repeat first [apply Forall_app_2 | apply Forall_cons_2; [done|] | by apply Hc | const_no_eq].
Qed.

(** The flash calls under ESP_ERROR_CHECK. *)
Definition nvs_write (c : wifi_call) : bool :=
  match c with WNvsOpen _ _ | WNvsSet _ _ | WNvsCommit => true | _ => false end.

Lemma nvs_save_run E ssid pass t :
  (forall t c, nvs_write c = true -> r_ret (E t (CWifi c)) = 0) ->
  exists t', nvs_save_credentials ssid pass E (World tt t) = Some (tt, World tt t') /\
    calls t' = calls t ++ (CWifi <$> [WNvsOpen WIFI_NVS_NAMESPACE true; WNvsSet WIFI_NVS_KEY_SSID ssid; WNvsSet WIFI_NVS_KEY_PASS pass; WNvsCommit; WNvsClose]).
Proof.
  intros HE. unfold nvs_save_credentials.
  do 4 (erewrite mbind_some by (by apply esp_check_some, HE); cbn [st tr]).
  eexists. split; [reflexivity|]. cbn [st tr]. rewrite !fmap_app, <- !app_assoc. done.
Qed.

(** The run of the handler on a submitted form. *)
Lemma post_save_run E l m p t :
  value_ok 32 l -> value_ok 32 m -> value_ok 64 p ->
  (forall t c, nvs_write c = true -> r_ret (E t (CWifi c)) = 0) ->
  r_out (E t (CWifi (WHttpRecv 511))) = form_body l m p -> r_ret (E t (CWifi (WHttpRecv 511))) = len (form_body l m p) ->
  exists ret w', post_save_handler E (World tt t) = Some (ret, w') /\
    calls (tr w') = calls t ++ CWifi (WHttpRecv 511) ::
      match (if decide (m = []) then l else m) with
      | [] => [CWifi (WHttpSendErr 400 (str "Missing SSID"))]
      | ssid => (CWifi <$> [WNvsOpen WIFI_NVS_NAMESPACE true; WNvsSet WIFI_NVS_KEY_SSID ssid; WNvsSet WIFI_NVS_KEY_PASS p; WNvsCommit; WNvsClose;
                           WHttpType (str "text/html"); WHttpSend (str "<h3>Saved! Restarting...</h3>")])
                ++ [CDelay 500; CWifi WRestart]
      end.
Proof.
  intros Hl Hm Hp HE Hout Hret. destruct (form_body_fields l m p Hl Hm Hp) as (Hfl & Hfm & Hfp).
  unfold post_save_handler. erewrite mbind_some by reflexivity. cbn [st tr]. rewrite Hret, Hout.
  assert (0 < len (form_body l m p)) by (unfold form_body; rewrite length_app; cbn; lia).
  destruct (Z.leb_spec (len (form_body l m p)) 0); [lia|].
  rewrite buf_read_Some by lia. rewrite Nat2Z.id. change (Z.to_nat 0) with 0%nat. rewrite drop_0, take_ge by lia.
  erewrite mbind_some by reflexivity. rewrite c_str_id by (apply form_body_no_nul; [apply Hl|apply Hm|apply Hp]).
  rewrite Hfl, Hfm, Hfp.
  destruct m as [|c m]; [rewrite decide_True by done; destruct l as [|d l]|rewrite decide_False by done].
  1: by eexists _, _; split; [reflexivity|]; cbn [tr]; rewrite !fmap_app, <- !app_assoc.
  all: match goal with |- context [nvs_save_credentials ?s ?q] => destruct (nvs_save_run E s q (t ++ [(CWifi (WHttpRecv 511), E t (CWifi (WHttpRecv 511)))]) HE) as (t' & Hrun & Hcalls) end;
    rewrite (mbind_some _ _ _ _ _ _ Hrun); eexists _, _; (split; [reflexivity|]); cbn [tr];
    rewrite !fmap_app, Hcalls, !fmap_app, <- !app_assoc; done.
Qed.

(** The portal saves what the user entered.  For any network chosen from the list, any name typed by
    hand and any password, each within its field's limit and sent as a browser encodes the form, the
    handler stores exactly the typed name (or the chosen one if none was typed) and the password,
    answers, and restarts the device; with neither name it stores nothing and answers 400.  (The
    firmware aborts if the flash storage fails, so that its calls are assumed to succeed.) *)
Theorem save_stores_credentials E l m p t :
  value_ok 32 l -> value_ok 32 m -> value_ok 64 p ->
  (forall t c, nvs_write c = true -> r_ret (E t (CWifi c)) = 0) ->
  r_out (E t (CWifi (WHttpRecv 511))) = form_body l m p -> r_ret (E t (CWifi (WHttpRecv 511))) = len (form_body l m p) ->
  exists ret w', post_save_handler E (World tt t) = Some (ret, w') /\
    calls (tr w') = calls t ++ CWifi (WHttpRecv 511) ::
      match (if decide (m = []) then l else m) with
      | [] => [CWifi (WHttpSendErr 400 (str "Missing SSID"))]
      | ssid => (CWifi <$> [WNvsOpen WIFI_NVS_NAMESPACE true; WNvsSet WIFI_NVS_KEY_SSID ssid; WNvsSet WIFI_NVS_KEY_PASS p; WNvsCommit; WNvsClose;
                           WHttpType (str "text/html"); WHttpSend (str "<h3>Saved! Restarting...</h3>")])
                ++ [CDelay 500; CWifi WRestart]
      end.
Proof. apply post_save_run. Qed.

Definition form_env (body : bytes) : env := fun _ c =>
  match c with CWifi (WHttpRecv _) => Reply (len body) body 0 [] | _ => Reply 0 [] 0 [] end.

Lemma save_stores_credentials_witness :
  exists ret w', post_save_handler (form_env (form_body (str "Cafe") (str "My Net") (str "s3cret&=")))
      (World tt []) = Some (ret, w') /\
    CWifi (WNvsSet WIFI_NVS_KEY_SSID (str "My Net")) ∈ calls (tr w') /\ CWifi (WNvsSet WIFI_NVS_KEY_PASS (str "s3cret&=")) ∈ calls (tr w').
Proof.
  destruct (save_stores_credentials (form_env (form_body (str "Cafe") (str "My Net") (str "s3cret&=")))
    (str "Cafe") (str "My Net") (str "s3cret&=") []) as (ret & w' & Hr & Hc); [| | |by intros t []|reflexivity|reflexivity|].
  - split_and!; [repeat (apply Forall_cons_2; [by vm_compute|]); constructor|const_no_eq|cbn; lia].
  - split_and!; [repeat (apply Forall_cons_2; [by vm_compute|]); constructor|const_no_eq|cbn; lia].
  - split_and!; [repeat (apply Forall_cons_2; [by vm_compute|]); constructor|const_no_eq|cbn; lia].
  - exists ret, w'. split; [exact Hr|]. rewrite Hc. cbn. split; set_solver.
Defined.

(** ** Escaping *)

Definition html_safe (c : Z) : Prop := c <> 34 /\ c <> 60 /\ c <> 62.

Lemma esc_byte_length c : (1 <= length (esc_byte c) <= 6)%nat.
Proof. unfold esc_byte. repeat case_bool; cbn; lia. Qed.
Lemma esc_byte_safe c : Forall html_safe (esc_byte c).
Proof.
  unfold esc_byte. repeat case_bool; [repeat (apply Forall_cons_2; [by vm_compute|]); constructor..|].
  apply Forall_cons_2; [done|constructor].
Qed.

Lemma escaped_safe s : Forall html_safe (mjoin (esc_byte <$> s)).
Proof.
  induction s as [|c s IH]; [constructor|]. change (mjoin (esc_byte <$> c :: s)) with (esc_byte c ++ mjoin (esc_byte <$> s)).
  apply Forall_app_2; [apply esc_byte_safe|done].
Qed.

Lemma html_escape_go_spec src o lim :
  0 <= o -> exists k, html_escape_go o lim src = mjoin (esc_byte <$> take k src) /\
    (k <= length src)%nat /\ len (html_escape_go o lim src) <= Z.max 0 (lim + 5 - o) /\
    (o + 6 * (len src - 1) < lim -> k = length src).
Proof.
  revert o. induction src as [|c src IH]; intros o Ho; cbn [html_escape_go].
  - exists 0%nat. split_and!; [done|cbn; lia|cbn; lia|done].
  - destruct (Z.ltb_spec o lim) as [Hlt|Hge].
    + pose proof (esc_byte_length c) as Hc. destruct (IH (o + len (esc_byte c))) as (k & Hk & Hkl & Hl & Hfull); [lia|].
      exists (S k). rewrite Hk at 1. split_and!; [done|cbn; lia|rewrite length_app; lia|].
      intros Hx. cbn [length] in Hx |- *. rewrite Hfull; lia.
    + exists 0%nat. split_and!; [done|lia|cbn; lia|]. intros Hx. cbn in Hx. lia.
Qed.

(** The line of a network: a prefix of its name, escaped, at both places; all of it if there is room. *)
Lemma html_escape_full src o lim : o + len (mjoin (esc_byte <$> src)) <= lim -> html_escape_go o lim src = mjoin (esc_byte <$> src).
Proof.
  revert o. induction src as [|c src IH]; intros o; [done|]. change (mjoin (esc_byte <$> c :: src)) with (esc_byte c ++ mjoin (esc_byte <$> src)).
  rewrite length_app. intros Hl. cbn [html_escape_go]. pose proof (esc_byte_length c). destruct (Z.ltb_spec o lim); [|lia]. rewrite IH by lia. done.
Qed.

Lemma portal_option_shape ssid :
  exists k, let esc := mjoin (esc_byte <$> take k ssid) in
    portal_option ssid = str "<option value=" ++ [34] ++ esc ++ [34; 62] ++ esc ++ str "</option>" /\
    len (portal_option ssid) < 320 /\ (k <= length ssid)%nat /\ (len ssid <= 23 -> take k ssid = ssid) /\
    (len (mjoin (esc_byte <$> ssid)) <= 133 -> mjoin (esc_byte <$> take k ssid) = mjoin (esc_byte <$> ssid)).
Proof.
  destruct (html_escape_go_spec ssid 0 (140 - 7)) as (k & Hk & Hkl & Hl & Hfull); [lia|].
  exists k. cbn zeta. set (esc := mjoin (esc_byte <$> take k ssid)). unfold portal_option, html_escape. rewrite Hk in Hl |- *. fold esc in Hl |- *.
  assert (len (str "<option value=" ++ [34] ++ esc ++ [34; 62] ++ esc ++ str "</option>") <= 319) as Hlen.
  { rewrite !length_app. change (length (str "<option value=")) with 14%nat. change (length (str "</option>")) with 9%nat.
    cbn [length]. lia. }
  rewrite take_ge by lia. split_and!; [done|lia|done|intros; rewrite Hfull by lia; by apply take_ge|].
  intros Hm. unfold esc. rewrite <- Hk. by apply html_escape_full.
Qed.

(** The network list of the portal page cannot be broken by a network's name: for every name, the
    option line is complete (never cut by its 320-byte buffer), both places where the name appears
    hold the escaped name, which contains no quote and no angle bracket, and a name of up to 23
    bytes is shown in full. *)
Theorem portal_option_safe ssid :
  exists k, let esc := mjoin (esc_byte <$> take k ssid) in
    portal_option ssid = str "<option value=" ++ [34] ++ esc ++ [34; 62] ++ esc ++ str "</option>" /\
    len (portal_option ssid) < 320 /\ Forall html_safe esc /\
    if len ssid <=? 23 then take k ssid = ssid else (k <= length ssid)%nat.
Proof.
  destruct (portal_option_shape ssid) as (k & Hs & Hl & Hk & Hfull & _). exists k. split_and!; [done..|apply escaped_safe|].
  destruct (Z.leb_spec (len ssid) 23); [by apply Hfull|done].
Qed.
