(* ===== verification/Http.v ===== *)
(** * The portal's HTTP server (esp-codes/main/wifi_manager.c)

    The handlers behind the URIs of [routes]: the setup page with the networks
    found by the scan, the redirects and probe answers that make a client open
    it, and [post_save_handler].  A handler's answer is the calls it makes to
    the HTTP server; how the server finds a handler is a parameter. *)

From stdpp Require Import strings.
From S2P Require Import Prelude Effects Rtos CrashReporter WifiManager Portal.

Definition WIFI_AP_IP_URL : bytes := str "http://4.3.2.1".

(** ** The page *)

Definition HEAD : bytes :=
  str "<!DOCTYPE html><html><head>" ++
  str "<meta charset='utf-8'>" ++
  str "<meta name='viewport' content='width=device-width,initial-scale=1'>" ++
  str "<title>WirelessHub Setup</title>" ++
  str "<style>" ++
  str "*{box-sizing:border-box;margin:0;padding:0}" ++
  str "body{font-family:-apple-system,BlinkMacSystemFont,'Segoe UI',sans-serif;" ++
  str "background:#f0f2f5;display:flex;align-items:center;justify-content:center;" ++
  str "min-height:100vh;padding:16px}" ++
  str ".card{background:#fff;border-radius:16px;padding:32px 24px;width:100%;" ++
  str "max-width:400px;box-shadow:0 4px 24px rgba(0,0,0,.08)}" ++
  str "h2{font-size:1.25rem;font-weight:700;color:#111;margin-bottom:4px}" ++
  str "p{font-size:.85rem;color:#888;margin-bottom:24px}" ++
  str "label{display:block;font-size:.78rem;font-weight:600;color:#555;" ++
  str "margin-bottom:6px;margin-top:18px}" ++
  str "select,input{width:100%;padding:12px 14px;border:1.5px solid #e0e0e0;" ++
  str "border-radius:10px;font-size:1rem;outline:none;background:#fafafa;" ++
  str "-webkit-appearance:none;appearance:none;color:#111}" ++
  str "select{background-image:url(" ++ [34] ++ str "data:image/svg+xml,%3Csvg xmlns='http://www.w3.org/2000/svg' " ++
  str "width='12' height='8' viewBox='0 0 12 8'%3E%3Cpath d='M1 1l5 5 5-5' stroke='%23888' " ++
  str "stroke-width='1.5' fill='none' stroke-linecap='round'/%3E%3C/svg%3E" ++ [34] ++ str ");" ++
  str "background-repeat:no-repeat;background-position:right 14px center;padding-right:36px}" ++
  str "select:focus,input:focus{border-color:#4f8ef7;background:#fff}" ++
  str ".sep{text-align:center;color:#bbb;font-size:.78rem;margin-top:14px;margin-bottom:2px}" ++
  str "button{margin-top:28px;width:100%;padding:14px;background:#4f8ef7;" ++
  str "color:#fff;border:none;border-radius:10px;font-size:1rem;font-weight:600;cursor:pointer}" ++
  str "button:active{background:#3a7de0}" ++
  str "</style></head><body><div class='card'>" ++
  str "<h2>WirelessHub Setup</h2>" ++
  str "<p>Connect the device to your WiFi network.</p>" ++
  str "<form method='POST' action='/save'>".

Definition SEL_OPEN : bytes :=
  str "<label>Network</label>" ++ str "<select name='ssid_list'>" ++ str "<option value=''>— choose network —</option>".
Definition SEL_CLOSE : bytes := str "</select>".
Definition TAIL : bytes :=
  str "<p class='sep'>or type manually</p>" ++
  str "<input name='ssid_manual' placeholder='SSID' maxlength='31'>" ++
  str "<label>Password</label>" ++
  str "<input name='pass' type='password' placeholder='Leave empty if open' maxlength='63'>" ++
  str "<button type='submit'>Connect</button>" ++
  str "</form></div></body></html>".

Section Handlers.
Context {G : Type}.
Abbreviation MW := (M (wifi_t G)).

Definition http (c : wifi_call) : MW unit := call_ext (CWifi c) ;; mret tt.
(** [httpd_resp_send_chunk (req, s, HTTPD_RESP_USE_STRLEN)] *)
Definition send_chunk (s : bytes) : MW unit := http (WHttpChunk (c_str s)).

(** [for (int i = 0; i < s_scan_count; i++)] *)
Fixpoint send_options (ssids : list bytes) : MW unit :=
  match ssids with
  | [] => mret tt
  | s :: l => (match c_str s with [] => mret tt | s' => send_chunk (portal_option s') end) ;; send_options l
  end.

(** The chunks of the page. *)
Definition portal_list (ssids : list bytes) : MW unit :=
  if 0 <? len ssids then send_chunk SEL_OPEN ;; send_options ssids ;; send_chunk SEL_CLOSE else mret tt.
Definition portal_body : MW Z :=
  send_chunk HEAD ;;
  w ← get;
  portal_list (wm_scan w) ;;
  send_chunk TAIL ;;
  http (WHttpChunk []) ;;
  mret 0.

Definition send_portal_html : MW Z :=
  http (WHttpStatus (str "200 OK")) ;;
  http (WHttpType (str "text/html")) ;;
  http (WHttpHdr (str "Cache-Control") (str "no-store, no-cache, must-revalidate")) ;;
  http (WHttpHdr (str "Pragma") (str "no-cache")) ;;
  http (WHttpHdr (str "Connection") (str "close")) ;;
  portal_body.

(** ** The handlers *)

Definition captive_redirect_handler : MW Z := send_portal_html.
Definition portal_html_handler : MW Z := send_portal_html.

Definition redirect_to_portal_handler : MW Z :=
  http (WHttpStatus (str "302 Found")) ;; http (WHttpHdr (str "Location") WIFI_AP_IP_URL) ;; http (WHttpSend []) ;; mret 0.
Definition windows_connecttest_handler : MW Z :=
  http (WHttpStatus (str "302 Found")) ;; http (WHttpHdr (str "Location") (str "http://logout.net")) ;; http (WHttpSend []) ;; mret 0.
Definition not_found_handler : MW Z := http (WHttpSendErr 404 (str "Not Found")) ;; mret 0.

Definition captive_json : bytes :=
  [123; 34] ++ str "captive" ++ [34] ++ str ":true," ++ [34] ++ str "user-portal-url" ++ [34; 58; 34] ++ WIFI_AP_IP_URL ++ str "/" ++ [34; 125].
Definition api_captive_handler : MW Z :=
  http (WHttpType (str "application/captive+json")) ;;
  http (WHttpHdr (str "Cache-Control") (str "private, no-store")) ;;
  http (WHttpSend (c_str captive_json)) ;;
  mret 0.

(** [post_save_handler] does not use the manager's variables. *)
Definition no_state : lens (wifi_t G) unit := Lens (fun _ => tt) (fun _ w => w).

(** The function behind a registered handler. *)
Definition run_handler (h : http_handler) : MW Z :=
  match h with
  | H_api_captive => api_captive_handler
  | H_portal_html => portal_html_handler
  | H_post_save => zoom no_state post_save_handler
  | H_windows_connecttest => windows_connecttest_handler
  | H_redirect_to_portal => redirect_to_portal_handler
  | H_not_found => not_found_handler
  end.
End Handlers.

(** ** Requests *)

(** What the server finds for a request. *)
Inductive found := FHandler (h : http_handler) | FNotFound | FBadMethod.
Abbreviation route := (bytes * http_method * http_handler)%type.

(** The server looks a request up by URI and method among the pages registered, provided there was room
    for them all and no two have the same URI and method. *)
Record httpd_ok (httpd_find : Z -> list route -> http_method -> bytes -> found) : Prop := {
  hf_hit mx rs m u h : len rs <= mx -> NoDup (fst <$> rs) -> (u, m, h) ∈ rs -> httpd_find mx rs m u = FHandler h;
  hf_miss mx rs m u : len rs <= mx -> NoDup (fst <$> rs) -> u ∉ (fst <$> (fst <$> rs)) -> httpd_find mx rs m u = FNotFound;
}.

Section Requests.
Context {G : Type} (httpd_find : Z -> list route -> http_method -> bytes -> found).

(** A request on the started server; one for a known page with another method is refused by the server itself. *)
Definition serve (m : http_method) (uri : bytes) : M (wifi_t G) Z :=
  match httpd_find MAX_URI_HANDLERS routes m uri with
  | FHandler h => run_handler h
  | FNotFound => captive_redirect_handler
  | FBadMethod => mret ESP_FAIL
  end.
End Requests.

(** ** The page as the client sees it *)

(** The networks with a name. *)
Definition named (ssids : list bytes) : list bytes := filter (fun s => s <> []) (c_str <$> ssids).

(** The page for the networks of a scan. *)
Definition page_text (ssids : list bytes) : bytes :=
  HEAD ++ (match ssids with [] => [] | _ => SEL_OPEN ++ mjoin (portal_option <$> named ssids) ++ SEL_CLOSE end) ++ TAIL.

(** The data of the chunks among some calls; an empty one ends the response. *)
Definition chunks (cs : list call) : list bytes := omap (fun c => match c with CWifi (WHttpChunk d) => Some d | _ => None end) cs.

#[local] Arguments HEAD : simpl never.
#[local] Arguments SEL_OPEN : simpl never.
#[local] Arguments SEL_CLOSE : simpl never.
#[local] Arguments TAIL : simpl never.
#[local] Arguments portal_option : simpl never.

Lemma const_strings : c_str HEAD = HEAD /\ c_str SEL_OPEN = SEL_OPEN /\ c_str SEL_CLOSE = SEL_CLOSE /\ c_str TAIL = TAIL /\
  c_str captive_json = captive_json.
Proof. vm_compute. done. Qed.

Lemma esc_no_nul s : no_nul s -> no_nul (mjoin (esc_byte <$> s)).
Proof.
  induction 1 as [|c s Hc _ IH]; [constructor|]. change (mjoin (esc_byte <$> c :: s)) with (esc_byte c ++ mjoin (esc_byte <$> s)).
  apply Forall_app_2; [|done]. unfold esc_byte. repeat case_bool; [repeat (apply Forall_cons_2; [done|]); constructor..|].
  apply Forall_cons_2; [done|constructor].
Qed.
Lemma option_string s : no_nul s -> c_str (portal_option s) = portal_option s /\ portal_option s <> [].
Proof.
  intros Hs. destruct (portal_option_shape s) as (k & -> & _). split; [|done]. apply c_str_id.
  assert (no_nul (mjoin (esc_byte <$> take k s))) by (by apply esc_no_nul, Forall_take).
  repeat (apply Forall_app_2; [done || (repeat (apply Forall_cons_2; [done|]); constructor)|]). repeat (apply Forall_cons_2; [done|]). constructor.
Qed.

Section Page.
Context {G : Type} (E : env).
Implicit Types (w : world (wifi_t G)).

(** [m] makes exactly the calls [cs] and leaves the state alone. *)
Definition answers_with (m : M (wifi_t G) Z) (cs : list wifi_call) : Prop :=
  forall w, exists w', m E w = Some (0, w') /\ st w' = st w /\ calls (tr w') = calls (tr w) ++ (CWifi <$> cs).
(** The same for a part of a handler. *)
Definition sends (m : M (wifi_t G) unit) (cs : list wifi_call) : Prop :=
  forall w, exists t, m E w = Some (tt, World (st w) t) /\ calls t = calls (tr w) ++ (CWifi <$> cs).

Lemma sends_http c : sends (http c) [c].
Proof. intros w. eexists. split; [reflexivity|]. by rewrite fmap_app. Qed.
Lemma sends_nil : sends (mret tt) [].
Proof. intros [s t]. exists t. split; [done|]. cbn. by rewrite app_nil_r. Qed.
Lemma sends_app m1 m2 cs1 cs2 : sends m1 cs1 -> sends m2 cs2 -> sends (m1 ;; m2) (cs1 ++ cs2).
Proof.
  intros H1 H2 w. destruct (H1 w) as (t1 & Hr1 & Hc1). destruct (H2 (World (st w) t1)) as (t2 & Hr2 & Hc2). exists t2.
  unfold mbind, M_bind. rewrite Hr1, Hr2. cbn [st tr] in *. by rewrite Hc2, Hc1, fmap_app, app_assoc.
Qed.
Lemma sends_then m (k : M (wifi_t G) Z) cs1 cs2 : sends m cs1 -> answers_with k cs2 -> answers_with (m ;; k) (cs1 ++ cs2).
Proof.
  intros H1 H2 w. destruct (H1 w) as (t1 & Hr1 & Hc1). destruct (H2 (World (st w) t1)) as (w' & Hr2 & Hs & Hc2). exists w'.
  unfold mbind, M_bind. rewrite Hr1, Hr2. cbn [st tr] in *. by rewrite Hc2, Hc1, fmap_app, app_assoc.
Qed.
Lemma answers_ok : answers_with (mret 0) [].
Proof. intros w. exists w. split_and!; [done..|]. cbn. by rewrite app_nil_r. Qed.
Lemma sends_chunk s : c_str s = s -> sends (send_chunk s) [WHttpChunk s].
Proof. intros Hs. unfold send_chunk. rewrite Hs. apply sends_http. Qed.

Lemma sends_options ssids : sends (send_options ssids) ((fun s => WHttpChunk (portal_option s)) <$> named ssids).
Proof.
  induction ssids as [|s l IH]; cbn [send_options]; [apply sends_nil|]. unfold named. rewrite fmap_cons.
  pose proof (c_str_no_nul s) as Hn. destruct (c_str s) as [|c s'] eqn:Hs.
  - rewrite filter_cons_False by (by intros []). apply (sends_app _ _ []); [apply sends_nil|exact IH].
  - rewrite filter_cons_True by done. apply (sends_app _ _ [_]); [|exact IH]. by apply sends_chunk, option_string.
Qed.
End Page.

(** The calls of the page. *)
Definition list_calls (ssids : list bytes) : list wifi_call :=
  match ssids with
  | [] => []
  | _ => [WHttpChunk SEL_OPEN] ++ ((fun s => WHttpChunk (portal_option s)) <$> named ssids) ++ [WHttpChunk SEL_CLOSE]
  end.
Definition body_calls (ssids : list bytes) : list wifi_call :=
  [WHttpChunk HEAD] ++ list_calls ssids ++ [WHttpChunk TAIL; WHttpChunk []].
Definition page_calls (ssids : list bytes) : list wifi_call :=
  [WHttpStatus (str "200 OK"); WHttpType (str "text/html");
   WHttpHdr (str "Cache-Control") (str "no-store, no-cache, must-revalidate"); WHttpHdr (str "Pragma") (str "no-cache");
   WHttpHdr (str "Connection") (str "close")] ++ body_calls ssids.

Section PageCalls.
Context {G : Type} (E : env).
Implicit Types (w : world (wifi_t G)).

Lemma sends_list ssids : sends (G := G) E (portal_list ssids) (list_calls ssids).
Proof.
  destruct const_strings as (_ & Ho & Hc & _). unfold portal_list. destruct ssids as [|s l]; [apply sends_nil|].
  apply (sends_app E _ _ [_]); [by apply sends_chunk|]. apply (sends_app E _ _ _ [_]); [apply sends_options|by apply sends_chunk].
Qed.

Lemma body_sent w :
  exists w', portal_body E w = Some (0, w') /\ st w' = st w /\ calls (tr w') = calls (tr w) ++ (CWifi <$> body_calls (wm_scan (st w))).
Proof.
  destruct const_strings as (Hh & _ & _ & Ht & _). destruct (sends_chunk E HEAD Hh w) as (t1 & Hr1 & Hc1).
  assert (answers_with (G := G) E (send_chunk TAIL ;; http (WHttpChunk []) ;; mret 0) [WHttpChunk TAIL; WHttpChunk []]) as Htail.
  { apply (sends_then E _ _ [_] [_]); [by apply sends_chunk|]. apply (sends_then E _ _ [_] []); [apply sends_http|apply answers_ok]. }
  destruct (sends_then E _ _ _ _ (sends_list (wm_scan (st w))) Htail (World (st w) t1)) as (w' & Hr & Hst & Hcalls).
  exists w'. unfold portal_body. unfold mbind at 1 2, M_bind at 1 2, get. rewrite Hr1. cbn [st tr] in *. rewrite Hr, Hst, Hcalls, Hc1.
  split_and!; [done..|]. unfold body_calls. by rewrite (fmap_app _ [_]), app_assoc.
Qed.

Lemma page_sent w :
  exists w', send_portal_html E w = Some (0, w') /\ st w' = st w /\ calls (tr w') = calls (tr w) ++ (CWifi <$> page_calls (wm_scan (st w))).
Proof.
  unfold send_portal_html. do 5 (erewrite mbind_some by reflexivity; cbn [st tr]).
  match goal with |- context [portal_body E ?v] => destruct (body_sent v) as (w' & Hr & Hst & Hcalls) end.
  exists w'. split; [exact Hr|]. split; [exact Hst|]. rewrite Hcalls. cbn [st tr]. unfold page_calls. rewrite !fmap_app, <- !app_assoc. done.
Qed.
End PageCalls.

Lemma chunks_app cs ds : chunks (cs ++ ds) = chunks cs ++ chunks ds.
Proof. apply omap_app. Qed.
Lemma chunks_options l : chunks (CWifi <$> ((fun s => WHttpChunk (portal_option s)) <$> l)) = portal_option <$> l.
Proof. induction l as [|s l IH]; [done|]. rewrite !fmap_cons, <- IH. done. Qed.

Lemma named_options ssids : Forall (fun d => d <> []) (portal_option <$> named ssids).
Proof.
  apply Forall_fmap, Forall_forall. intros s [_ (x & -> & _)%list_elem_of_fmap]%list_elem_of_filter.
  apply option_string, c_str_no_nul.
Qed.

(** The setup page arrives whole.  Whatever the scan has found, the page handler answers with status
    200 and a sequence of chunks of which only the last is empty (an empty chunk ends the response),
    and whose text is the page with one option per named network, in the order of the scan. *)
Theorem portal_page {G} E (w : world (wifi_t G)) :
  exists w' d data, send_portal_html E w = Some (0, w') /\ st w' = st w /\ calls (tr w') = calls (tr w) ++ d /\
    CWifi (WHttpStatus (str "200 OK")) ∈ d /\
    chunks d = data ++ [[]] /\ Forall (fun c => c <> []) data /\ mjoin data = page_text (wm_scan (st w)).
Proof.
  destruct (page_sent E w) as (w' & Hr & Hst & Hc).
  exists w', (CWifi <$> page_calls (wm_scan (st w))), ([HEAD] ++
    match wm_scan (st w) with [] => [] | l => [SEL_OPEN] ++ (portal_option <$> named l) ++ [SEL_CLOSE] end ++ [TAIL]).
  split_and!; [done..|apply list_elem_of_here| | |].
  - unfold page_calls, body_calls, list_calls. destruct (wm_scan (st w)) as [|s l]; [done|].
    rewrite !fmap_app, !chunks_app, chunks_options. cbn [app]. by rewrite <- !app_assoc.
  - apply Forall_cons_2; [done|]. apply Forall_app_2; [|by apply Forall_cons_2]. destruct (wm_scan (st w)) as [|s l]; [constructor|].
    apply Forall_cons_2; [done|]. apply Forall_app_2; [apply named_options|by apply Forall_cons_2].
  - unfold page_text. rewrite join_app. destruct (wm_scan (st w)) as [|s l]; cbn; rewrite ?join_app; cbn; by rewrite ?app_nil_r, <- ?app_assoc.
Qed.

(** ** Picking a network *)

(** What a browser makes of a character reference. *)
Definition entity (s : bytes) : option (Z * bytes) :=
  match strip_prefix (str "&amp;") s, strip_prefix (str "&quot;") s, strip_prefix (str "&lt;") s, strip_prefix (str "&gt;") s with
  | Some r, _, _, _ => Some (38, r)
  | _, Some r, _, _ => Some (34, r)
  | _, _, Some r, _ => Some (60, r)
  | _, _, _, Some r => Some (62, r)
  | _, _, _, _ => None
  end.
Fixpoint unescape_go (n : nat) (s : bytes) : bytes :=
  match n, s with
  | S n', c :: r => match entity s with Some (e, r') => e :: unescape_go n' r' | None => c :: unescape_go n' r end
  | _, _ => []
  end.
Definition html_unescape (s : bytes) : bytes := unescape_go (length s) s.

Fixpoint until_quote (s : bytes) : bytes :=
  match s with [] => [] | c :: s' => if c =? 34 then [] else c :: until_quote s' end.
(** The value of an option element. *)
Definition option_value (line : bytes) : option bytes :=
  html_unescape ∘ until_quote <$> strip_prefix (str "<option value=" ++ [34]) line.

Lemma strip_prefix_app p s : strip_prefix p (p ++ s) = Some s.
Proof. induction p as [|c p IH]; [done|]. cbn. by rewrite Z.eqb_refl. Qed.
Lemma strip_other a p c s : c <> a -> strip_prefix (a :: p) (c :: s) = None.
Proof. intros Hc. cbn. by destruct (Z.eqb_spec a c); [congruence|]. Qed.

Lemma entity_esc c s : entity (esc_byte c ++ s) = if (c =? 38) || (c =? 34) || (c =? 60) || (c =? 62) then Some (c, s) else None.
Proof.
  unfold esc_byte. destruct (Z.eqb_spec c 38) as [->|H1]; [done|]. destruct (Z.eqb_spec c 34) as [->|]; [done|].
  destruct (Z.eqb_spec c 60) as [->|]; [done|]. destruct (Z.eqb_spec c 62) as [->|]; [done|]. cbn [orb app]. unfold entity.
  change (str "&amp;") with (38 :: str "amp;"). change (str "&quot;") with (38 :: str "quot;"). change (str "&lt;") with (38 :: str "lt;").
  change (str "&gt;") with (38 :: str "gt;"). by rewrite !strip_other.
Qed.

Lemma unescape_esc s n : (length (mjoin (esc_byte <$> s)) <= n)%nat -> unescape_go n (mjoin (esc_byte <$> s)) = s.
Proof.
  revert n. induction s as [|c s IH]; intros n; [by destruct n|].
  change (mjoin (esc_byte <$> c :: s)) with (esc_byte c ++ mjoin (esc_byte <$> s)). rewrite length_app. intros Hl.
  pose proof (esc_byte_length c). destruct n as [|n]; [lia|]. pose proof (entity_esc c (mjoin (esc_byte <$> s))) as He.
  assert (exists x y, esc_byte c ++ mjoin (esc_byte <$> s) = x :: y) as (x & y & Hxy).
  { destruct (esc_byte c) as [|x y]; [cbn in *; lia|]. by eexists _, _. }
  rewrite Hxy in *. cbn [unescape_go]. rewrite He. destruct ((c =? 38) || (c =? 34) || (c =? 60) || (c =? 62)) eqn:Hc; [by rewrite IH by lia|].
  assert (esc_byte c = [c]) as Hec.
  { unfold esc_byte. apply orb_false_elim in Hc as [[[Ha Hb]%orb_false_elim Hd]%orb_false_elim Hf]. by rewrite Ha, Hb, Hd, Hf. }
  rewrite Hec in *. injection Hxy as <- <-. cbn in Hl. by rewrite IH by lia.
Qed.

Lemma until_quote_safe s rest : Forall html_safe s -> until_quote (s ++ 34 :: rest) = s.
Proof. induction 1 as [|c s [Hc _] _ IH]; [done|]. cbn. destruct (Z.eqb_spec c 34); [done|]. by rewrite IH. Qed.

(** The value of a network's option is its name, if the escaped name fits. *)
Lemma option_value_name s : len (mjoin (esc_byte <$> s)) <= 133 -> option_value (portal_option s) = Some s.
Proof.
  intros Hl. destruct (portal_option_shape s) as (k & -> & _ & _ & _ & Hfull). rewrite Hfull by done. unfold option_value.
  rewrite (app_assoc (str _) [34]), strip_prefix_app. cbn [fmap option_fmap option_map compose].
  cbn [app]. rewrite until_quote_safe by apply escaped_safe. unfold html_unescape. by rewrite unescape_esc by done.
Qed.

(** C30: a network picked from the page is stored, if its name is short enough.  For a network of the
    scan with a name of 1 to 31 bytes whose HTML-escaped form has at most 133 bytes (a name of 32
    bytes, or one with more escapes, is cut short), the page has an option line whose
    value, as a browser reads it, is the name; and when a form body with that value, no manual name
    and a password of at most 63 bytes is delivered by a single [httpd_req_recv], and writing to
    flash does not fail, [post_save_handler] writes exactly that name and password to flash. *)
Theorem picked_network_stored {G} E (w : world (wifi_t G)) s p t :
  s ∈ wm_scan (st w) -> s <> [] -> value_ok 32 s -> len (mjoin (esc_byte <$> s)) <= 133 -> value_ok 64 p ->
  (forall t c, nvs_write c = true -> r_ret (E t (CWifi c)) = 0) ->
  exists w' line v, send_portal_html E w = Some (0, w') /\ line ∈ chunks (calls (tr w')) /\ option_value line = Some v /\ v = s /\
    (r_out (E t (CWifi (WHttpRecv 511))) = form_body v [] p -> r_ret (E t (CWifi (WHttpRecv 511))) = len (form_body v [] p) ->
     exists ret w2, post_save_handler E (World tt t) = Some (ret, w2) /\
       CWifi (WNvsSet WIFI_NVS_KEY_SSID s) ∈ calls (tr w2) /\ CWifi (WNvsSet WIFI_NVS_KEY_PASS p) ∈ calls (tr w2)).
Proof.
  intros Hin Hne Hs Hl Hp HE. destruct (page_sent E w) as (w' & Hr & _ & Hc). exists w', (portal_option s), s.
  pose proof Hs as (_ & Hnn & _). split_and!; [done| |by apply option_value_name|done|].
  - rewrite Hc, chunks_app. apply elem_of_app. right. unfold page_calls, body_calls, list_calls. rewrite !fmap_app, !chunks_app.
    destruct (wm_scan (st w)) as [|s0 l] eqn:Hw; [by apply not_elem_of_nil in Hin|]. rewrite !fmap_app, !chunks_app, chunks_options.
    apply elem_of_app. right. apply elem_of_app. right. apply elem_of_app. left. apply elem_of_app. right. apply elem_of_app. left.
    apply list_elem_of_fmap. exists s. split; [done|]. apply list_elem_of_filter. split; [done|]. apply list_elem_of_fmap. exists s.
    by rewrite c_str_id.
  - intros Hout Hret. destruct (post_save_run E s [] p t) as (ret & w2 & Hr2 & Hc2); try done; [by split_and!; [constructor..|cbn; lia]|].
    exists ret, w2. split; [done|]. rewrite Hc2. rewrite decide_True by done. destruct s as [|c s]; [done|]. cbn [fmap list_fmap app]. split; set_solver.
Qed.

(** A scan that found two networks, one of them with markup in its name, and the second being picked. *)
Definition scanned : wifi_t Z := set_scan [str "Cafe"; str "Tom & <Ann>"] (wifi_static eg_create).
Definition picked_env : env := form_env (form_body (str "Tom & <Ann>") [] (str "secret")).

Lemma picked_network_stored_witness :
  exists w' line ret w2, send_portal_html picked_env (World scanned []) = Some (0, w') /\ line ∈ chunks (calls (tr w')) /\
    option_value line = Some (str "Tom & <Ann>") /\
    post_save_handler picked_env (World tt []) = Some (ret, w2) /\ CWifi (WNvsSet WIFI_NVS_KEY_SSID (str "Tom & <Ann>")) ∈ calls (tr w2).
Proof.
  destruct (picked_network_stored picked_env (World scanned []) (str "Tom & <Ann>") (str "secret") [])
    as (w' & line & v & Hr & Hin & Hv & -> & Hpost).
  - cbn. apply list_elem_of_further, list_elem_of_here.
  - discriminate.
  - split_and!; [repeat (apply Forall_cons_2; [by vm_compute|]); constructor|repeat (apply Forall_cons_2; [done|]); constructor|cbn; lia].
  - vm_compute. discriminate.
  - split_and!; [repeat (apply Forall_cons_2; [by vm_compute|]); constructor|repeat (apply Forall_cons_2; [done|]); constructor|cbn; lia].
  - by intros t [].
  - destruct (Hpost eq_refl eq_refl) as (ret & w2 & Hr2 & Hs & _). exists w', line, ret, w2.
    split; [exact Hr|]. split; [exact Hin|]. split; [exact Hv|]. split; [exact Hr2|exact Hs].
Defined.

(** ** Every request is answered *)

(** The answer to a GET request, page by page; what is not listed gets the setup page. *)
Definition get_answer (uri : bytes) (ssids : list bytes) : list wifi_call :=
  if decide (uri = str "/api") then
    [WHttpType (str "application/captive+json"); WHttpHdr (str "Cache-Control") (str "private, no-store"); WHttpSend captive_json]
  else if decide (uri = str "/connecttest.txt") then
    [WHttpStatus (str "302 Found"); WHttpHdr (str "Location") (str "http://logout.net"); WHttpSend []]
  else if decide (uri ∈ [str "/ncsi.txt"; str "/redirect"; str "/canonical.html"; str "/success.txt"]) then
    [WHttpStatus (str "302 Found"); WHttpHdr (str "Location") WIFI_AP_IP_URL; WHttpSend []]
  else if decide (uri ∈ [str "/wpad.dat"; str "/favicon.ico"]) then [WHttpSendErr 404 (str "Not Found")]
  else page_calls ssids.

(** The registrations fit the server's table and do not collide. *)
Lemma routes_fit : len routes <= MAX_URI_HANDLERS /\ NoDup (fst <$> routes).
Proof.
  split; [vm_compute; discriminate|]. apply (bool_decide_unpack _). by vm_compute.
Qed.

Lemma post_routes u h : (u, HTTP_POST, h) ∈ routes -> u = str "/save" /\ h = H_post_save.
Proof.
  intros Hin. assert (Forall (fun r : route => match r with (u, HTTP_POST, h) => u = str "/save" /\ h = H_post_save | _ => True end) routes) as Hf
    by (repeat (apply Forall_cons_2; [exact I || done|]); constructor).
  rewrite Forall_forall in Hf. exact (Hf _ Hin).
Qed.

(** A GET request either names a registered page or one that is unknown, but for "/save". *)
Lemma get_routes u : u <> str "/save" -> (exists h, (u, HTTP_GET, h) ∈ routes) \/ u ∉ (fst <$> (fst <$> routes)).
Proof.
  intros Hs. destruct (decide (u ∈ (fst <$> (fst <$> routes)))) as [Hin|]; [left|by right].
  apply list_elem_of_fmap in Hin as ((u1 & m) & -> & Hin). apply list_elem_of_fmap in Hin as ([[u2 m2] h] & Heq & Hin).
  injection Heq as -> ->. destruct m2; [by exists h|]. by destruct (post_routes _ _ Hin).
Qed.

Section Served.
Context {G : Type} (httpd_find : Z -> list route -> http_method -> bytes -> found) (Hfind : httpd_ok httpd_find) (E : env).
Implicit Types (w : world (wifi_t G)).

Lemma served_route u m h : (u, m, h) ∈ routes -> serve (G := G) httpd_find m u = run_handler h.
Proof. intros Hin. destruct routes_fit. unfold serve. by rewrite (hf_hit _ Hfind _ _ _ _ h). Qed.
Lemma served_unknown u m : u ∉ (fst <$> (fst <$> routes)) -> serve (G := G) httpd_find m u = send_portal_html.
Proof. intros Hin. destruct routes_fit. unfold serve. by rewrite (hf_miss _ Hfind). Qed.

(** The calls of a handler other than that of the form. *)
Definition handler_calls (h : http_handler) (ssids : list bytes) : list wifi_call :=
  match h with
  | H_api_captive => [WHttpType (str "application/captive+json"); WHttpHdr (str "Cache-Control") (str "private, no-store"); WHttpSend captive_json]
  | H_windows_connecttest => [WHttpStatus (str "302 Found"); WHttpHdr (str "Location") (str "http://logout.net"); WHttpSend []]
  | H_redirect_to_portal => [WHttpStatus (str "302 Found"); WHttpHdr (str "Location") WIFI_AP_IP_URL; WHttpSend []]
  | H_not_found => [WHttpSendErr 404 (str "Not Found")]
  | _ => page_calls ssids
  end.

Lemma handler_run h w : h <> H_post_save ->
  exists w', run_handler h E w = Some (0, w') /\ st w' = st w /\ calls (tr w') = calls (tr w) ++ (CWifi <$> handler_calls h (wm_scan (st w))).
Proof.
  intros Hh. destruct const_strings as (_ & _ & _ & _ & Hj).
  assert (forall c1 c2 c3, answers_with (G := G) E (http c1 ;; http c2 ;; http c3 ;; mret 0) [c1; c2; c3]) as H3.
  { intros c1 c2 c3. do 3 (apply (sends_then E _ _ [_]); [apply sends_http|]). apply answers_ok. }
  destruct h; try done; cbn [run_handler handler_calls].
  - unfold api_captive_handler. rewrite Hj. apply H3.
  - apply page_sent.
  - apply H3.
  - apply H3.
  - unfold not_found_handler. apply (sends_then E _ _ [_] []); [apply sends_http|apply answers_ok].
Qed.

(** The reference answers are those of the registered handlers. *)
Lemma get_answer_route u h ssids : (u, HTTP_GET, h) ∈ routes -> handler_calls h ssids = get_answer u ssids /\ h <> H_post_save.
Proof.
  intros Hin. assert (Forall (fun r : route => match r with (u, HTTP_GET, h) => handler_calls h ssids = get_answer u ssids /\ h <> H_post_save | _ => True end) routes) as Hf.
  { repeat (apply Forall_cons_2; [exact I || (split; [reflexivity|discriminate])|]). constructor. }
  rewrite Forall_forall in Hf. exact (Hf _ Hin).
Qed.
Lemma get_answer_unknown u ssids : u ∉ (fst <$> (fst <$> routes)) -> get_answer u ssids = page_calls ssids.
Proof.
  intros Hu. assert (forall x, x ∈ (fst <$> (fst <$> routes)) -> u <> x) as Hne by (by intros x Hx ->). unfold get_answer.
  repeat (rewrite decide_False; [|first [apply Hne; by apply (bool_decide_unpack _); vm_compute
    | intros Hin; repeat (apply elem_of_cons in Hin as [Hin|Hin]; [revert Hin; apply Hne; by apply (bool_decide_unpack _); vm_compute|]); by apply not_elem_of_nil in Hin]]).
  done.
Qed.
End Served.

(** C31: whatever a client asks for, it is led to the setup page.  Every GET request other than for the form
    target is answered, without touching the manager's state: unknown URIs and the probes of Android,
    iOS and Linux with the setup page, the probes that expect a redirect with a redirect, the
    captive-portal API with the portal's address, and only /wpad.dat and /favicon.ico with 404; a POST
    to /save runs [post_save_handler].  The server is assumed to find what was registered. *)
Theorem portal_catches_all {G} httpd_find E uri (w : world (wifi_t G)) :
  httpd_ok httpd_find -> uri <> str "/save" ->
  (exists w', serve httpd_find HTTP_GET uri E w = Some (0, w') /\ st w' = st w /\
     calls (tr w') = calls (tr w) ++ (CWifi <$> get_answer uri (wm_scan (st w)))) /\
  serve (G := G) httpd_find HTTP_POST (str "/save") = zoom no_state post_save_handler.
Proof.
  intros Hfind Hs. split.
  - destruct (get_routes uri Hs) as [[h Hin]|Hun].
    + rewrite (served_route _ Hfind _ _ h Hin). destruct (get_answer_route uri h (wm_scan (st w)) Hin) as [<- Hne]. by apply handler_run.
    + rewrite (served_unknown _ Hfind), get_answer_unknown by done. apply page_sent.
  - apply (served_route _ Hfind _ _ H_post_save). apply list_elem_of_further, list_elem_of_further, list_elem_of_here.
Qed.

(** A server that compares URI and method. *)
Definition exact_find (mx : Z) (rs : list route) (m : http_method) (u : bytes) : found :=
  match List.find (fun r => bool_decide (r.1 = (u, m))) rs with
  | Some (_, h) => FHandler h
  | None => if bool_decide (u ∈ (fst <$> (fst <$> rs))) then FBadMethod else FNotFound
  end.

Lemma exact_find_ok : httpd_ok exact_find.
Proof.
  constructor.
  - intros mx rs m u h _ Hnd Hin. unfold exact_find. induction rs as [|[k h'] rs IH]; [by apply not_elem_of_nil in Hin|].
    cbn [List.find fst]. rewrite fmap_cons in Hnd. apply NoDup_cons in Hnd as [Hk Hnd]. apply elem_of_cons in Hin as [[= <- <-]|Hin].
    + by rewrite bool_decide_true.
    + rewrite bool_decide_false; [|intros ->; apply Hk, list_elem_of_fmap; by exists (u, m, h)]. specialize (IH Hnd Hin).
      destruct (List.find _ rs) as [[? ?]|]; [done|]. exfalso. by destruct (bool_decide _).
  - intros mx rs m u _ _ Hu. unfold exact_find. destruct (List.find _ rs) as [[[u' m'] h]|] eqn:Hf.
    + apply find_some in Hf as [Hin%list_elem_of_In Hd%bool_decide_eq_true]. injection Hd as -> ->. destruct Hu.
      apply list_elem_of_fmap. exists (u, m). split; [done|]. apply list_elem_of_fmap. by exists (u, m, h).
    + by rewrite bool_decide_false.
Qed.

Lemma portal_catches_all_witness :
  exists w', serve exact_find HTTP_GET (str "/ncsi.txt") picked_env (World scanned []) = Some (0, w') /\
    calls (tr w') = CWifi <$> [WHttpStatus (str "302 Found"); WHttpHdr (str "Location") WIFI_AP_IP_URL; WHttpSend []].
Proof.
  destruct (portal_catches_all exact_find picked_env (str "/ncsi.txt") (World scanned [])) as [(w' & Hr & _ & Hc) _].
  - exact exact_find_ok.
  - discriminate.
  - exists w'. split; [exact Hr|]. rewrite Hc. reflexivity.
Defined.
