(* ===== verification/App.v ===== *)
(** * Start-up (esp-codes/main/app_main.c)

    [app_main] brings the components up in order: WiFi manager, discovery, log
    forwarder, crash reporter, USB session.  [app] is the static state of the
    firmware that it touches.  Once the log forwarder is installed, log lines go
    through its hook and from there into the crash ring; the lines that
    [app_main] and [crash_reporter_init] print from then on are therefore part
    of the model. *)

From stdpp Require Import strings.
From S2P Require Import Prelude Effects Descriptors Rtos Protocol Session UsbDriver.
From S2P Require Import HubClient SessionTasks CrashReporter LogForwarder WifiManager.

Definition ESP_ERR_NVS_NO_FREE_PAGES : Z := 0x110d.
Definition ESP_ERR_NVS_NEW_VERSION_FOUND : Z := 0x1110.

(** [usb_cfg] of [app_main]. *)
Definition usb_cfg : device_session_cfg_t :=
  {| cfg_device_id := DEVICE_ID_USB0; cfg_speed := USB_SPEED_FULL; cfg_usb_class := 0; cfg_subclass := 0;
     cfg_protocol := 0; cfg_usbip_mode := true |}.

Section App.
Context {G : Type} `{EventGroup G} {Q : Type -> Type} `{Queue Q}.

Record app := mkApp {
  a_wifi : wifi_t G;
  a_hub : hub_t G;
  a_log : log_t Q;
  a_sess : sess_table (D := usb_state Q) (G := G);
}.
Abbreviation MA := (M app).

Definition wifi_l : lens app (wifi_t G) := Lens a_wifi (fun v a => mkApp v (a_hub a) (a_log a) (a_sess a)).
Definition hub_l : lens app (hub_t G) := Lens a_hub (fun v a => mkApp (a_wifi a) v (a_log a) (a_sess a)).
Definition log_l : lens app (log_t Q) := Lens a_log (fun v a => mkApp (a_wifi a) (a_hub a) v (a_sess a)).
Definition sess_table_l : lens app sess_table := Lens a_sess (fun v a => mkApp (a_wifi a) (a_hub a) (a_log a) v).

(** A log line, once the hook is installed. *)
Definition log_line (hooked : bool) : M (log_t Q) unit := when hooked (log_forwarder_vprintf ;; mret tt).

(** [crash_reporter_init] with the line it logs and the task it starts. *)
Definition crash_boot (reason : Z) (hooked : bool) : M (log_t Q) unit :=
  l ← get;
  p ← checked (crash_reporter_init reason (lg_crash l));
  modify (set_crash p.2) ;;
  log_line hooked ;;
  when p.1 (call_ext (CTaskCreate crash_send_task_id) ;; mret tt).

(** [nvs_flash_init], with the erase and retry of a stale partition. *)
Definition nvs_boot : M (wifi_t G) unit :=
  err ← wifi WNvsInit;
  if (r_ret err =? ESP_ERR_NVS_NO_FREE_PAGES) || (r_ret err =? ESP_ERR_NVS_NEW_VERSION_FOUND)
  then esp_check WNvsErase ;; esp_check WNvsInit
  else checked (if r_ret err =? 0 then Some tt else None).

Definition app_main (reason : Z) : MA unit :=
  zoom wifi_l nvs_boot ;;
  call_ext (CDelay 2000) ;;
  zoom wifi_l wifi_manager_start ;;
  zoom hub_l hub_client_start ;;
  hooked ← zoom log_l log_forwarder_init;
  zoom log_l (log_line hooked) ;;
  zoom log_l (crash_boot reason hooked) ;;
  zoom sess_table_l (device_session_start usb_cfg).

(** ** Boot *)

(** The bytes one call of the hook adds to the crash ring. *)
Definition logged (rt : reply) : bytes :=
  if 0 <? r_ret rt then take (Z.to_nat (if r_ret rt <? 128 then r_ret rt else 127)) (r_out rt) else [].
End App.
Arguments app G Q : clear implicits.

Lemma append_keeps_pending msg n c c' :
  crash_reporter_append msg n c = Some c' ->
  c_pending c' = c_pending c /\ c_has_pending c' = c_has_pending c /\ c_pending_reason c' = c_pending_reason c.
Proof.
  unfold crash_reporter_append. destruct (negb _); [by intros [= <-]|].
  destruct (buf_read msg 0 n) as [m|]; [cbn [mbind option_bind]|done]. revert c. induction m as [|b m IH]; cbn [append_bytes]; intros c.
  - by intros [= <-].
  - unfold append_byte. destruct (arr_set _ _ _); cbn [mbind option_bind]; [|done]. intros (-> & -> & ->)%IH. by case_match.
Qed.

(** A line added to the crash ring. *)
Definition ring_logged (line : bytes) (c c' : crash_t) : Prop :=
  crash_ok c' /\ c_magic c' = CRASH_MAGIC /\ ring_contents c' = lastn 600 (ring_contents c ++ line) /\
  c_pending c' = c_pending c /\ c_has_pending c' = c_has_pending c.

Lemma ring_append_logged rt size c :
  crash_ok c -> c_magic c = CRASH_MAGIC -> size = 128 ->
  (0 <= r_ret rt -> len (r_out rt) = Z.min (r_ret rt) (size - 1)) ->
  exists c', (if 0 <? r_ret rt then crash_reporter_append (r_out rt) (if r_ret rt <? 128 then r_ret rt else 127) c else Some c) = Some c' /\
    ring_logged (logged rt) c c'.
Proof.
  intros Hok Hm -> Hl. unfold logged. destruct (Z.ltb_spec 0 (r_ret rt)) as [Hpos|Hneg].
  - specialize (Hl ltac:(lia)). set (n := if _ <? 128 then _ else _). assert (0 <= n <= len (r_out rt)) by (unfold n; case_bool; lia).
    unfold crash_reporter_append at 1. rewrite Hm, Z.eqb_refl. cbn [negb]. rewrite buf_read_Some by lia. cbn [mbind option_bind].
    change (Z.to_nat 0) with 0%nat. rewrite drop_0.
    destruct (append_bytes_spec (take (Z.to_nat n) (r_out rt)) c Hok) as (c' & Hr & Hok' & Hm' & Hc).
    exists c'. split; [done|]. rewrite Hm in Hm'. split_and!; [done|done|done| |];
      apply (append_keeps_pending (r_out rt) n); unfold crash_reporter_append; rewrite Hm, Z.eqb_refl; cbn [negb];
      rewrite buf_read_Some by lia; cbn [mbind option_bind]; change (Z.to_nat 0) with 0%nat; by rewrite drop_0.
  - exists c. split; [done|]. split_and!; [done|done| |done|done]. rewrite app_nil_r, lastn_le; [done|].
    rewrite ring_contents_length by done. destruct Hok. unfold RTC_BUF_SIZE in *. destruct (c_wrapped c); lia.
Qed.

(** The tasks created by some calls. *)
Definition created (cs : list call) : list Z := cs ≫= (fun c => match c with CTaskCreate n => [n] | _ => [] end).
Lemma created_app c1 c2 : created (c1 ++ c2) = created c1 ++ created c2.
Proof. apply bind_app. Qed.
Lemma created_hook cs : Forall hook_call cs -> created cs = [].
Proof. induction 1 as [|c cs Hc _ IH]; [done|]. unfold created in *. cbn. rewrite IH. by destruct c. Qed.

(** What the hook does to the crash state: one formatted line, at most 127 bytes of it, is appended. *)
Lemma hook_ring {Q} `{Queue Q} E (w : world (log_t Q)) :
  fmt_ok E -> crash_ok (lg_crash (st w)) -> c_magic (lg_crash (st w)) = CRASH_MAGIC ->
  wp log_forwarder_vprintf E w (fun _ w' => exists t,
    ring_logged (logged (E t (CVsnprintf 128))) (lg_crash (st w)) (lg_crash (st w')) /\
    (is_Some (lg_queue (st w)) -> is_Some (lg_queue (st w'))) /\ created (calls (tr w')) = created (calls (tr w))).
Proof.
  intros Hfmt Hok Hm.
  assert (only_calls hook_call (log_forwarder_vprintf (Q := Q))) as Hcalls by (unfold log_forwarder_vprintf; repeat only_step).
  eapply (wp_mono _ _ _ (fun _ w' => (exists t, ring_logged (logged (E t (CVsnprintf 128))) (lg_crash (st w)) (lg_crash (st w')) /\
    (is_Some (lg_queue (st w)) -> is_Some (lg_queue (st w')))) /\ exists d, tr w' = tr w ++ d /\ Forall hook_call (calls d))).
  { intros ret w' [(t & ? & ?) (d & Hd & Hf)]. exists t. split_and!; [done..|]. by rewrite Hd, fmap_app, created_app, (created_hook _ Hf), app_nil_r. }
  apply wp_calls; [done|]. clear Hcalls. unfold log_forwarder_vprintf.
  apply wp_bind, wp_call. intros p _. apply wp_bind, wp_call. intros rt Hrt. apply wp_bind, wp_get. cbn [st tr] in *.
  match type of Hrt with _ = E ?t _ => destruct (Hfmt t 128 ltac:(lia)) as [Hl _]; rewrite <- Hrt in Hl end.
  destruct (ring_append_logged rt 128 _ Hok Hm eq_refl Hl) as (c' & Hc' & Hring). rewrite Hrt in Hring.
  apply wp_bind. apply (wp_mono _ _ _ (fun c v => c = c' /\ st v = st w)).
  2:{ destruct (0 <? r_ret rt); [by eapply wp_checked|apply wp_ret; cbn; split; [congruence|done]]. }
  intros ? v [-> Hv]. apply wp_bind, wp_modify. rewrite Hv.
  destruct (lg_queue (st w)) eqn:Hq; repeat wp_step; eexists; (split; [exact Hring|]); cbn; rewrite ?Hq; done.
Qed.

(** The host stack takes the calls of [usb_drv_init]. *)
Definition usb_host_up (E : env) : Prop :=
  (forall t n, r_ret (E t (CQueueCreate n)) <> 0) /\ (forall t, r_ret (E t CSemCreate) <> 0) /\
  (forall t, r_ret (E t CUsbNewPhy) = ESP_OK) /\ (forall t, r_ret (E t CUsbHostInstall) = ESP_OK) /\
  (forall t, r_ret (E t CUsbClientRegister) = ESP_OK).

Definition usb_tasks : list Z := [usb_lib_task_id; usb_client_task_id; usb_watchdog_task_id].
Definition session_tasks : list Z := [session_ctrl_task_id; session_up_task_id; session_down_task_id].

Lemma usb_drv_init_tasks {Q} `{Queue Q} E (w : world (usb_state Q)) :
  wp usb_drv_init E w (fun b w' => created (calls (tr w')) = created (calls (tr w)) ++ (if b then usb_tasks else []) /\
    (usb_host_up E -> b = true)).
Proof.
  unfold usb_drv_init. repeat wp_step; (split; [rewrite !fmap_app, !created_app; cbn; by rewrite ?app_nil_r, <- ?app_assoc|]);
    intros (Hq & Hs & Hp & Hh & Hr); try done; exfalso; unfold ESP_OK in *;
    repeat match goal with
    | He : ?r = E ?t ?c |- _ =>
        let K := fresh "K" in
        first [pose proof (Hs t) as K; rewrite <- He in K | pose proof (Hp t) as K; rewrite <- He in K
              | pose proof (Hh t) as K; rewrite <- He in K | pose proof (Hr t) as K; rewrite <- He in K
              | match c with CQueueCreate ?n => pose proof (Hq t n) as K; rewrite <- He in K end]; clear He
    | He : _ || _ = true |- _ => apply orb_true_iff in He as [He|He]
    end; lia.
Qed.

(** What the crash reporter has after a boot whose hook logged [line] before it and [line'] after it. *)
Definition crash_booted (reason : Z) (line line' : bytes) (c c' : crash_t) : Prop :=
  crash_ok c' /\ c_magic c' = CRASH_MAGIC /\ ring_contents c' = line' /\
  (if is_crash reason
   then line <> [] -> c_has_pending c' = true /\ c_str (c_pending c') = sanitise_byte <$> lastn 600 (ring_contents c ++ line)
   else c_has_pending c' = c_has_pending c).

Lemma ring_nonempty_reports reason c :
  crash_ok c -> c_magic c = CRASH_MAGIC -> is_crash reason = true -> ring_contents c <> [] -> reports reason c = true.
Proof.
  intros Hok Hm Hcr Hne. unfold reports. rewrite Hcr, Hm, Z.eqb_refl. cbn [andb].
  pose proof (ring_contents_length c Hok) as Hl. destruct (c_wrapped c); [by rewrite orb_true_r|].
  destruct (ring_contents c); [done|]. cbn in Hl. rewrite orb_false_r. apply Z.ltb_lt. lia.
Qed.

Lemma logged_short rt : (length (logged rt) <= 127)%nat.
Proof. unfold logged. destruct (0 <? r_ret rt); [|cbn; lia]. rewrite length_take. case_bool; lia. Qed.

Lemma crash_boot_wp {Q} `{Queue Q} E reason line c0 (w : world (log_t Q)) :
  fmt_ok E -> ring_logged line c0 (lg_crash (st w)) -> is_Some (lg_queue (st w)) ->
  wp (crash_boot reason true) E w (fun _ w' =>
    (exists t, crash_booted reason line (logged (E t (CVsnprintf 128))) c0 (lg_crash (st w')) /\ is_Some (lg_queue (st w'))) /\
    created (calls (tr w')) = created (calls (tr w)) ++ (if c_has_pending (lg_crash (st w')) then [crash_send_task_id] else [])).
Proof.
  intros Hfmt (Hok & Hm & Hr & Hp0 & Hhp0) Hq. unfold crash_boot, log_line, when. apply wp_bind, wp_get, wp_bind.
  destruct (crash_reporter_init_spec reason _ Hok) as (c1 & Hi & Hok1 & Hm1 & Hr1 & Hrep).
  eapply wp_checked; [exact Hi|]. cbn [fst snd]. apply wp_bind, wp_modify. apply wp_bind, wp_bind.
  eapply wp_mono; [|by apply hook_ring]. cbn [st lg_crash set_crash]. intros ret w' (t & (Hok2 & Hm2 & Hr2 & Hp & Hhp) & Hq' & Hcr').
  cbn [tr] in Hcr'. apply wp_ret.
  assert (crash_booted reason line (logged (E t (CVsnprintf 128))) c0 (lg_crash (st w'))) as Hb.
  { rewrite Hr1, app_nil_l in Hr2. rewrite lastn_le in Hr2 by (pose proof (logged_short (E t (CVsnprintf 128))); lia).
    split_and!; [done|done|exact Hr2|]. destruct (is_crash reason) eqn:Hcr.
    - intros Hne. rewrite ring_nonempty_reports in Hrep; [|done|done|done|].
      + destruct Hrep as (Hh & _ & _ & Hs). by rewrite Hhp, Hp, Hs, Hr.
      + rewrite Hr. intros Hz%(f_equal length). unfold lastn in Hz. rewrite length_drop, length_app in Hz.
        destruct line; [done|cbn in Hz; lia].
    - unfold reports in Hrep. rewrite Hcr in Hrep. cbn [andb] in Hrep. by rewrite Hhp, (proj1 Hrep). }
  destruct (c_has_pending c1); repeat wp_step; (split; [exists t; split; [exact Hb|apply Hq', Hq]|]); rewrite ?Hhp.
  - by rewrite fmap_app, created_app, Hcr'.
  - by rewrite Hcr', app_nil_r.
Qed.

Lemma log_init_wp {Q} `{Queue Q} E (w : world (log_t Q)) :
  (forall t n, r_ret (E t (CQueueCreate n)) <> 0) ->
  wp log_forwarder_init E w (fun b w' => b = true /\ is_Some (lg_queue (st w')) /\
    lg_crash (st w') = lg_crash (st w) /\ created (calls (tr w')) = created (calls (tr w)) ++ [log_sender_task_id]).
Proof.
  intros Hq. unfold log_forwarder_init. apply wp_bind, wp_modify, wp_bind, wp_call. intros r Hr. apply wp_bind, wp_modify.
  specialize (Hq (tr w) LOG_QUEUE_LEN). cbn [tr] in Hr. rewrite <- Hr in Hq. apply Z.eqb_neq in Hq. rewrite Hq.
  repeat wp_step. split_and!; [done..|]. by rewrite !fmap_app, !created_app, <- app_assoc.
Qed.

Lemma usb_session_started {G Q} `{EventGroup G, Queue Q} E (w : world (sess_table (D := usb_state Q) (G := G))) :
  tb_slots (st w) = replicate 5 (Slot None 0 None) ->
  wp (device_session_start usb_cfg) E w (fun _ w' =>
    tb_slots (st w') !! 0%nat = Some (Slot (Some usb_cfg) (-1) (Some eg_create)) /\
    exists b, (usb_host_up E -> b = true) /\
      created (calls (tr w')) = created (calls (tr w)) ++ (if b then usb_tasks ++ session_tasks else [])).
Proof.
  intros Hs. unfold device_session_start. cbn [Z.leb usb_cfg cfg_device_id DEVICE_ID_USB0 SESSION_MAX_ID Z.compare].
  apply wp_bind, wp_get. rewrite Hs. apply wp_bind. eapply wp_checked; [reflexivity|]. cbn [sl_eg].
  apply wp_bind. eapply wp_checked; [reflexivity|]. apply wp_bind, wp_modify, wp_bind, wp_zoom.
  eapply wp_mono; [|apply usb_drv_init_tasks]. cbn [st tr]. intros b v [Hc Hup].
  destruct b; cbn [negb]; repeat wp_step; (split; [done|]); eexists; (split; [exact Hup|]); cbn [l_put tb_drv_l tr]; [|exact Hc].
  by rewrite !fmap_app, !created_app, Hc, <- !app_assoc.
Qed.

Section Boot.
Context {G : Type} `{EventGroup G} {Q : Type -> Type} `{Queue Q} (E : env).

#[local] Arguments created : simpl never.

End Boot.

(** Queues can be created, a line formats as [msg], every other call answers 0. *)
Definition boot_env (msg : bytes) : env := fun _ c =>
  match c with
  | CQueueCreate _ | CSemCreate => Reply 1 [] 0 []
  | CVsnprintf n => Reply (len msg) (take (Z.to_nat (n - 1)) msg) 0 []
  | _ => Reply 0 [] 0 []
  end.

Definition boot_state : app Z list_queue :=
  mkApp (wifi_static 0) (Hub false 0 0 0) log0 (Table (replicate 5 (Slot None 0 None)) usb_state0).

Lemma boot_host_up msg : usb_host_up (boot_env msg).
Proof. split; [discriminate|]. split; [discriminate|]. split; [reflexivity|]. split; reflexivity. Qed.

