(* ===== verification/Linux.v ===== *)
(** * The daemon's operating system

    What the daemon (src/daemon) relies on of Linux: the contract [linux_ok] of
    the system calls it makes, how long a call may ask to be retried
    ([patient]), the byte streams a trace shows on each descriptor ([sent],
    [received], [written], [kernel_reads]), and its log lines
    (daemon/src/Log.h).

    Loops around a system call carry fuel; running out of it has no result, so
    a [wp] shows that the loop ends.  [patient K] bounds the number of
    consecutive retries ([EINTR], a full or empty buffer) on one descriptor by
    [K], and consecutive reads that find data by [K]. *)

From stdpp Require Import pretty.
From S2P Require Import Prelude Effects Descriptors CrashReporter.

Definition EINTR : Z := 4.
Definition EAGAIN : Z := 11.
Definition EWOULDBLOCK : Z := EAGAIN.

Definition EPOLLIN : Z := 0x001.
Definition EPOLLERR : Z := 0x008.
Definition EPOLLHUP : Z := 0x010.
Definition EPOLLRDHUP : Z := 0x2000.

Definition SIGINT : Z := 2.
Definition SIGTERM : Z := 15.

(** ** Contracts *)

(** A call that fills the caller's buffer writes what it reports, and no more than the size. *)
Definition reader_ok (E : env) (c : Z -> Z -> call) : Prop :=
  forall t fd n, 0 <= n -> let r := E t (c fd n) in
    r_ret r <= n /\ (0 <= r_ret r -> len (r_out r) = r_ret r) /\ bytes_ok (r_out r).
Definition writer_ok (E : env) (c : Z -> bytes -> call) : Prop :=
  forall t fd d, r_ret (E t (c fd d)) <= len d.

Record linux_ok (E : env) : Prop := {
  lx_recv : reader_ok E CRecv;
  lx_read : reader_ok E CRead;
  lx_recvfrom : reader_ok E CRecvfrom;
  lx_send : writer_ok E CSend;
  lx_write : writer_ok E CWrite;
  lx_pair t nb : 0 <= r_ret (E t (CSocketpair nb)) -> exists a b, r_out (E t (CSocketpair nb)) = [a; b];
  lx_wait t epfd n ms : let r := E t (CEpollWait epfd n ms) in 0 <= r_ret r -> len (r_out r) = 2 * r_ret r;
  lx_clock t : exists h m s ns, r_out (E t CClock) = [h; m; s; ns];
  (* a new descriptor is not one that is open *)
  lx_fresh t c open : fd_run [] t = Some open -> NoDup open -> NoDup (fd_opens c (E t c) ++ open);
  lx_fd t c : Forall (fun fd => 0 <= fd) (fd_opens c (E t c));
}.

(** ** Retries *)

Definition again (r : reply) : bool := (r_ret r <? 0) && ((r_aux r =? EINTR) || (r_aux r =? EAGAIN)).

(** A call on [fd] that made no progress and will be repeated. *)
Definition is_retry (fd : Z) (e : call * reply) : bool :=
  match e.1 with
  | CRecv f _ | CSend f _ => (f =? fd) && again e.2
  | CWrite f d => (f =? fd) && ((negb (len d =? 0) && (r_ret e.2 =? 0)) || again e.2)
  | _ => false
  end.

(** How many calls on [fd] at the end of a trace (given newest first) were retries. *)
Fixpoint retries_rev (fd : Z) (t : trace) : Z :=
  match t with
  | [] => 0
  | e :: t' =>
      match e.1 with
      | CUsleep _ => retries_rev fd t'
      | _ => if is_retry fd e then 1 + retries_rev fd t' else 0
      end
  end.
Definition retries (fd : Z) (t : trace) : Z := retries_rev fd (reverse t).

(** How many reads of [fd] at the end of a trace found data, what was sent on meanwhile left out. *)
Fixpoint reads_rev (fd : Z) (t : trace) : Z :=
  match t with
  | [] => 0
  | e :: t' =>
      match e.1 with
      | CUsleep _ | CSend _ _ => reads_rev fd t'
      | CRead f _ => if (f =? fd) && (0 <? r_ret e.2) then 1 + reads_rev fd t' else 0
      | _ => 0
      end
  end.
Definition reads (fd : Z) (t : trace) : Z := reads_rev fd (reverse t).

Record patient (K : Z) (E : env) : Prop := {
  pt_nonneg : 0 <= K;
  pt_retry t fd c : K <= retries fd t -> is_retry fd (c, E t c) = false;
  pt_read t fd n : K <= reads fd t -> r_ret (E t (CRead fd n)) <= 0;
}.

Lemma retries_snoc fd t c r :
  match c with CUsleep _ => False | _ => True end ->
  retries fd (t ++ [(c, r)]) = if is_retry fd (c, r) then 1 + retries fd t else 0.
Proof. intros Hc. unfold retries. rewrite reverse_snoc. by destruct c. Qed.
Lemma retries_usleep fd t us r : retries fd (t ++ [(CUsleep us, r)]) = retries fd t.
Proof. unfold retries. by rewrite reverse_snoc. Qed.
Lemma retries_nonneg fd t : 0 <= retries fd t.
Proof. unfold retries. induction (reverse t) as [|[c r] l IH]; [done|]. destruct c; cbn; try lia; case_match; lia. Qed.
Lemma reads_nonneg fd t : 0 <= reads fd t.
Proof. unfold reads. induction (reverse t) as [|[c r] l IH]; [done|]. destruct c; cbn; try lia; case_match; lia. Qed.

(** Rounds a loop needs for [m] bytes when [s] retries have just been made. *)
Definition budget (K m s : Z) : Z := m * (K + 1) + Z.max 0 (K - s) + 1.

Lemma budget_pos K m s : 0 <= K -> 0 <= m -> 1 <= budget K m s.
Proof. unfold budget. nia. Qed.
Lemma budget_retry K m s : s < K -> budget K m (1 + s) + 1 <= budget K m s.
Proof. unfold budget. lia. Qed.
Lemma budget_progress K m m' s : 0 <= K -> m' < m -> 0 <= s -> budget K m' 0 + 1 <= budget K m s.
Proof. unfold budget. nia. Qed.
Lemma budget_start K m s : 0 <= K -> 0 <= s -> budget K m s <= (m + 1) * (K + 1).
Proof. unfold budget. nia. Qed.

Section Budget.
Context (E : env) (K : Z) (Hp : patient K E).

(** A retried call is within the limit. *)
Lemma patient_retry t fd c m r :
  r = E t c -> is_retry fd (c, r) = true -> budget K m (retries fd (t ++ [(c, r)])) + 1 <= budget K m (retries fd t).
Proof.
  intros -> Hr. rewrite retries_snoc by (by destruct c). rewrite Hr. apply budget_retry.
  destruct (decide (K <= retries fd t)) as [Hk|]; [|lia]. rewrite (pt_retry _ _ Hp _ _ _ Hk) in Hr. done.
Qed.

Lemma patient_progress t fd c m m' r :
  match c with CUsleep _ => False | _ => True end -> is_retry fd (c, r) = false -> m' < m ->
  budget K m' (retries fd (t ++ [(c, r)])) + 1 <= budget K m (retries fd t).
Proof.
  intros Hc Hr Hm. rewrite retries_snoc by done. rewrite Hr.
  apply budget_progress; [apply (pt_nonneg _ _ Hp)|done|apply retries_nonneg].
Qed.

Lemma patient_start t fd m : budget K m (retries fd t) <= (m + 1) * (K + 1).
Proof. apply budget_start; [apply (pt_nonneg _ _ Hp)|apply retries_nonneg]. Qed.
End Budget.

Lemma again_neg r : r_ret r < 0 -> again r = (r_aux r =? EINTR) || (r_aux r =? EAGAIN).
Proof. intros. unfold again. by destruct (Z.ltb_spec (r_ret r) 0); [|lia]. Qed.
Lemma again_nonneg r : 0 <= r_ret r -> again r = false.
Proof. intros. unfold again. by destruct (Z.ltb_spec (r_ret r) 0); [lia|]. Qed.

(** ** Calls that use descriptors *)

(** A call on descriptors of [fds] that opens and closes none. *)
Definition io_call (fds : list Z) (c : call) : Prop := fd_still c /\ Forall (.∈ fds) (fd_uses false c).
Definition io_since (fds : list Z) (t t' : trace) : Prop := exists d, t' = t ++ d /\ Forall (io_call fds) (calls d).

Lemma io_refl fds t : io_since fds t t.
Proof. exists []. rewrite app_nil_r. split; [done|constructor]. Qed.
Lemma io_trans fds t1 t2 t3 : io_since fds t1 t2 -> io_since fds t2 t3 -> io_since fds t1 t3.
Proof.
  intros (d1 & -> & H1) (d2 & -> & H2). exists (d1 ++ d2). rewrite app_assoc, fmap_app. split; [done|]. by apply Forall_app_2.
Qed.
Lemma io_snoc fds t t' c r : io_call fds c -> io_since fds t t' -> io_since fds t (t' ++ [(c, r)]).
Proof. intros Hc Ht. eapply io_trans; [exact Ht|]. eexists. split; [done|]. by apply Forall_cons_2. Qed.
Lemma io_mono fds fds' t t' : fds ⊆ fds' -> io_since fds t t' -> io_since fds' t t'.
Proof.
  intros Hs (d & -> & Hd). exists d. split; [done|]. eapply Forall_impl; [exact Hd|]. intros c [Hc Hu]. split; [done|].
  eapply Forall_impl; [exact Hu|]. intros x. apply Hs.
Qed.
Lemma io_holds fds t t' own rest : fds ⊆ own -> io_since fds t t' -> holds_fds t own rest -> holds_fds t' own rest.
Proof.
  intros Hs (d & -> & Hd). revert t. induction d as [|[c r] d IH]; intros t Hf; [by rewrite app_nil_r|].
  apply Forall_cons_1 in Hd as [[Hc Hu] Hd]. change (t ++ (c, r) :: d) with (t ++ [(c, r)] ++ d). rewrite app_assoc.
  apply IH; [done|]. apply holds_uses; [done| |done]. eapply Forall_impl; [exact Hu|]. intros x. apply Hs.
Qed.
#[export] Hint Resolve io_refl io_snoc : hub.

(** ** The byte streams of a descriptor *)

Definition sent_by (fd : Z) (e : call * reply) : bytes :=
  match e.1 with CSend f d => if (f =? fd) && (0 <? r_ret e.2) then take (Z.to_nat (r_ret e.2)) d else [] | _ => [] end.
Definition received_by (fd : Z) (e : call * reply) : bytes :=
  match e.1 with CRecv f _ => if (f =? fd) && (0 <? r_ret e.2) then r_out e.2 else [] | _ => [] end.
Definition written_by (fd : Z) (e : call * reply) : bytes :=
  match e.1 with CWrite f d => if (f =? fd) && (0 <? r_ret e.2) then take (Z.to_nat (r_ret e.2)) d else [] | _ => [] end.

Definition sent (fd : Z) (t : trace) : bytes := t ≫= sent_by fd.
Definition received (fd : Z) (t : trace) : bytes := t ≫= received_by fd.
Definition written (fd : Z) (t : trace) : bytes := t ≫= written_by fd.

Lemma sent_app fd t1 t2 : sent fd (t1 ++ t2) = sent fd t1 ++ sent fd t2.
Proof. apply bind_app. Qed.
Lemma received_app fd t1 t2 : received fd (t1 ++ t2) = received fd t1 ++ received fd t2.
Proof. apply bind_app. Qed.
Lemma written_app fd t1 t2 : written fd (t1 ++ t2) = written fd t1 ++ written fd t2.
Proof. apply bind_app. Qed.

Lemma stream_one {A} (f : call * reply -> list A) e : [e] ≫= f = f e.
Proof. cbn. by rewrite app_nil_r. Qed.

Lemma sent_send fd t d r : 0 < r_ret r -> sent fd (t ++ [(CSend fd d, r)]) = sent fd t ++ take (Z.to_nat (r_ret r)) d.
Proof.
  intros Hr. rewrite sent_app. f_equal. unfold sent. rewrite stream_one. cbn. rewrite Z.eqb_refl.
  by destruct (Z.ltb_spec 0 (r_ret r)); [|lia].
Qed.
Lemma received_recv fd t n r : 0 < r_ret r -> received fd (t ++ [(CRecv fd n, r)]) = received fd t ++ r_out r.
Proof.
  intros Hr. rewrite received_app. f_equal. unfold received. rewrite stream_one. cbn. rewrite Z.eqb_refl.
  by destruct (Z.ltb_spec 0 (r_ret r)); [|lia].
Qed.
Lemma written_write fd t d r : 0 < r_ret r -> written fd (t ++ [(CWrite fd d, r)]) = written fd t ++ take (Z.to_nat (r_ret r)) d.
Proof.
  intros Hr. rewrite written_app. f_equal. unfold written. rewrite stream_one. cbn. rewrite Z.eqb_refl.
  by destruct (Z.ltb_spec 0 (r_ret r)); [|lia].
Qed.
(** A call that fails moves nothing, and neither does any other call. *)
Lemma stream_none fd t c r :
  match c with CSend _ _ | CRecv _ _ | CWrite _ _ => r_ret r <= 0 | _ => True end ->
  sent fd (t ++ [(c, r)]) = sent fd t /\ received fd (t ++ [(c, r)]) = received fd t /\ written fd (t ++ [(c, r)]) = written fd t.
Proof.
  intros Hc. rewrite sent_app, received_app, written_app. unfold sent, received, written. rewrite !stream_one.
  destruct c; cbn; rewrite ?app_nil_r; try done; destruct (Z.ltb_spec 0 (r_ret r)); try lia;
    by rewrite ?andb_false_r, ?app_nil_r.
Qed.
Lemma sent_none fd t c r :
  match c with CSend _ _ | CRecv _ _ | CWrite _ _ => r_ret r <= 0 | _ => True end -> sent fd (t ++ [(c, r)]) = sent fd t.
Proof. apply stream_none. Qed.
Lemma received_none fd t c r :
  match c with CSend _ _ | CRecv _ _ | CWrite _ _ => r_ret r <= 0 | _ => True end -> received fd (t ++ [(c, r)]) = received fd t.
Proof. apply stream_none. Qed.
Lemma written_none fd t c r :
  match c with CSend _ _ | CRecv _ _ | CWrite _ _ => r_ret r <= 0 | _ => True end -> written fd (t ++ [(c, r)]) = written fd t.
Proof. apply stream_none. Qed.

(** What successive reads of a descriptor returned. *)
Definition read_by (fd : Z) (e : call * reply) : list bytes :=
  match e.1 with CRead f _ => if (f =? fd) && (0 <? r_ret e.2) then [r_out e.2] else [] | _ => [] end.
Definition kernel_reads (fd : Z) (t : trace) : list bytes := t ≫= read_by fd.

Lemma kernel_reads_read fd t n r :
  kernel_reads fd (t ++ [(CRead fd n, r)]) = kernel_reads fd t ++ (if 0 <? r_ret r then [r_out r] else []).
Proof. unfold kernel_reads. rewrite bind_app, stream_one. cbn. by rewrite Z.eqb_refl. Qed.

(** ** Log.h *)

(** [%0wd]. *)
Definition padded (w : nat) (x : Z) : bytes := let d := str (pretty x) in replicate (w - length d) 48 ++ d.

(** [wh_log::ts]: the time of day in a 16-byte buffer. *)
Definition ts {S} : M S bytes :=
  r ← call_ext CClock;
  tp ← checked (match r_out r with [h; m; s; ns] => Some (h, m, s, ns) | _ => None end);
  let '(h, m, s, ns) := tp in
  mret (take 15 (padded 2 h ++ str ":" ++ padded 2 m ++ str ":" ++ padded 2 s ++ str "." ++ padded 3 (ns / 1000000))).

Definition ESC : bytes := [27].
Definition log_line {S} (to_stderr : bool) (tag msg : bytes) : M S unit :=
  t ← ts; call_ext (CFprintf to_stderr (t ++ str " " ++ tag ++ msg ++ [10])) ;; mret tt.

Definition LOG_ERR {S} (msg : bytes) : M S unit := log_line true (ESC ++ str "[31m[ERR] " ++ ESC ++ str "[0m") msg.
Definition LOG_WARN {S} (msg : bytes) : M S unit := log_line true (ESC ++ str "[33m[WARN]" ++ ESC ++ str "[0m ") msg.
Definition LOG_INFO {S} (msg : bytes) : M S unit := log_line false (ESC ++ str "[32m[INFO]" ++ ESC ++ str "[0m ") msg.
Definition LOG_DBG {S} (msg : bytes) : M S unit := log_line false (ESC ++ str "[36m[DBG] " ++ ESC ++ str "[0m") msg.

(** ** Blocking descriptors *)

(** The newest call that opened [fd] (trace given newest first) is a [socketpair] without SOCK_NONBLOCK. *)
Fixpoint blocking_rev (fd : Z) (t : trace) : bool :=
  match t with
  | [] => false
  | e :: t' =>
      if bool_decide (fd ∈ fd_opens e.1 e.2)
      then match e.1 with CSocketpair nonblock => negb nonblock | _ => false end
      else blocking_rev fd t'
  end.
Definition blocking (fd : Z) (t : trace) : bool := blocking_rev fd (reverse t).

(** A read of a blocking descriptor waits for data instead of failing with EAGAIN. *)
Definition blocking_ok (E : env) : Prop :=
  forall t fd n, blocking fd t = true -> let r := E t (CRead fd n) in r_ret r < 0 -> r_aux r <> EAGAIN.

Lemma blocking_snoc fd t c r : fd_opens c r = [] -> blocking fd (t ++ [(c, r)]) = blocking fd t.
Proof. intros Hc. unfold blocking. rewrite reverse_snoc. cbn. rewrite Hc. by rewrite bool_decide_false by set_solver. Qed.
