(* ===== verification/SimOs.v ===== *)
(** * A concrete operating system

    An environment that meets the contracts of Linux.v, to run the daemon on:
    descriptors are numbered above those open, each connection delivers a given
    byte stream in pieces of a given size and then ends, each read of a
    socketpair returns the next of a given list of messages, and [epoll_wait]
    and [recvfrom] work through given lists.  It shows that the contracts can be
    met, and the examples of the daemon's files run on it. *)

From S2P Require Import Prelude Effects Descriptors Linux.

Record sim := Sim {
  sim_recv : Z -> bytes;
  sim_chunk : Z;
  sim_read : Z -> list bytes;
  sim_udp : list (bytes * Z);
  sim_events : list (list (Z * Z));
}.

(** How often a call of some kind has been made. *)
Fixpoint count (p : call -> bool) (t : trace) : nat :=
  match t with [] => 0 | e :: t' => (if p e.1 then 1 else 0) + count p t' end.
Definition is_read (fd : Z) (c : call) : bool := match c with CRead f _ => f =? fd | _ => false end.
Definition is_recvfrom (c : call) : bool := match c with CRecvfrom _ _ => true | _ => false end.
Definition is_wait (c : call) : bool := match c with CEpollWait _ _ _ => true | _ => false end.

Definition fresh_fd (t : trace) : Z := 1 + foldr Z.max 2 (default [] (fd_run [] t)).
Definition deliver (n : Z) (d : bytes) (from : Z) : reply := let d' := take (Z.to_nat n) d in Reply (len d') d' from [].

Definition sim_env (s : sim) : env := fun t c =>
  match c with
  | CSocket _ | CAccept _ | COpen _ | CEpollCreate => Reply (fresh_fd t) [] 0 []
  | CSocketpair _ => Reply 0 [fresh_fd t; fresh_fd t + 1] 0 []
  | CRecv fd n => deliver (Z.min n (sim_chunk s)) (drop (length (received fd t)) (sim_recv s fd)) 0
  | CRead fd n =>
      match sim_read s fd !! count (is_read fd) t with Some d => deliver n d 0 | None => Reply (-1) [] EAGAIN [] end
  | CRecvfrom _ n =>
      match sim_udp s !! count is_recvfrom t with Some (d, from) => deliver n d from | None => Reply (-1) [] EAGAIN [] end
  | CSend _ d | CSendto _ d _ _ | CWrite _ d => Reply (len d) [] 0 []
  | CEpollWait _ _ _ =>
      let evs := default [] (sim_events s !! count is_wait t) in Reply (len evs) (evs ≫= (fun e => [e.1; e.2])) 0 []
  | CClock => Reply 0 [12; 34; 56; 7000000] 0 []
  | _ => Reply 0 [] 0 []
  end.

Record sim_ok (s : sim) (K : Z) : Prop := {
  so_recv fd : bytes_ok (sim_recv s fd);
  so_chunk : 0 <= sim_chunk s;
  so_read fd : Forall (fun d => bytes_ok d) (sim_read s fd) /\ len (sim_read s fd) <= K;
  so_udp : Forall (fun d => bytes_ok d.1) (sim_udp s);
}.

Lemma deliver_ok n d from :
  0 <= n -> bytes_ok d -> let r := deliver n d from in
  r_ret r <= n /\ (0 <= r_ret r -> len (r_out r) = r_ret r) /\ bytes_ok (r_out r).
Proof. intros Hn Hd. cbn. rewrite length_take. split_and!; [lia|done|by apply Forall_take]. Qed.

Lemma fresh_above t l x : fd_run [] t = Some l -> x ∈ l -> x < fresh_fd t.
Proof.
  intros Hl Hx. unfold fresh_fd. rewrite Hl. cbn. clear Hl. induction Hx; cbn; lia.
Qed.
Lemma fresh_pos t : 3 <= fresh_fd t.
Proof. unfold fresh_fd. induction (default [] (fd_run [] t)); cbn in *; lia. Qed.

Lemma count_app p t1 t2 : count p (t1 ++ t2) = (count p t1 + count p t2)%nat.
Proof. induction t1 as [|e t1 IH]; cbn; [done|]. rewrite IH. lia. Qed.
Lemma count_reverse p t : count p (reverse t) = count p t.
Proof. induction t as [|e t IH]; [done|]. rewrite reverse_cons, count_app, IH. cbn. lia. Qed.

Lemma reads_count fd t : reads fd t <= Z.of_nat (count (is_read fd) t).
Proof.
  unfold reads. rewrite <- (count_reverse _ t). generalize (reverse t). clear t.
  induction l as [|[c r] t IH]; [done|]. destruct c; cbn; try lia. destruct (fd0 =? fd); cbn; [destruct (0 <? r_ret r); lia|lia].
Qed.

Lemma sim_linux_ok s K : sim_ok s K -> linux_ok (sim_env s).
Proof.
  intros [Hrecv Hch Hread Hudp]. constructor.
  - intros t fd n Hn. cbn [sim_env]. pose proof (deliver_ok (Z.min n (sim_chunk s)) (drop (length (received fd t)) (sim_recv s fd)) 0
      ltac:(lia) ltac:(by apply Forall_drop)) as (? & ? & ?). split_and!; [lia|done..].
  - intros t fd n Hn. cbn [sim_env]. destruct (sim_read s fd !! _) as [d|] eqn:Hd; [|split_and!; cbn; [lia..|constructor]].
    apply deliver_ok; [done|]. by eapply Forall_lookup_1; [apply Hread|].
  - intros t fd n Hn. cbn [sim_env]. destruct (sim_udp s !! _) as [[d from]|] eqn:Hd; [|split_and!; cbn; [lia..|constructor]].
    apply deliver_ok; [done|]. by apply (Forall_lookup_1 _ _ _ _ Hudp Hd).
  - intros t fd d. cbn. lia.
  - intros t fd d. cbn. lia.
  - intros t nb _. cbn. eauto.
  - intros t epfd n ms. cbn. intros _. induction (default _ _) as [|e l IH]; [done|]. cbn in *. lia.
  - intros t. cbn. eauto.
  - intros t c l Hl Hnd. pose proof (fun x => fresh_above t l x Hl) as Hab. pose proof (fresh_pos t).
    destruct c; cbn; try done; try (destruct (Z.leb_spec 0 (fresh_fd t)); [|lia]).
    all: repeat (apply NoDup_cons; split; [|done]).
    all: try (intros Hx%Hab; lia).
    apply NoDup_cons. split; [|apply NoDup_cons; split; [intros Hx%Hab; lia|done]].
    intros [Hx|Hx%Hab]%elem_of_cons; lia.
  - intros t c. pose proof (fresh_pos t).
    destruct c; cbn; try (destruct (Z.leb_spec 0 (fresh_fd t)); [|lia]); repeat (apply Forall_cons_2; [lia|]); constructor.
Qed.

Lemma sim_patient s K : sim_ok s K -> 0 <= K -> patient K (sim_env s).
Proof.
  intros [Hrecv Hch Hread Hudp] HK. constructor; [done| |].
  - intros t fd c _. destruct c; cbn; try done; unfold again; cbn; rewrite ?andb_false_r; try done.
    all: repeat case_bool; cbn; rewrite ?andb_false_r; try done; lia.
  - intros t fd n Hk. cbn [sim_env]. pose proof (reads_count fd t). destruct (Hread fd) as [_ Hl].
    rewrite lookup_ge_None_2 by lia. cbn. lia.
Qed.
