(* ===== verification/DaemonNet.v ===== *)
(** * The daemon's sockets (daemon/src/network/TcpSocket, UdpSocket)

    Each class owns one descriptor; an object is its [fd_], -1 when it owns
    none.  [sendExactly] and [recvExactly] loop until the whole buffer has gone
    through; [sent] and [received] are the byte streams of a descriptor as the
    trace shows them, and the loops are specified against those streams,
    however the network cuts them up. *)

From S2P Require Import Prelude Effects Descriptors Protocol Linux SimOs.

Section Net.
Context {S : Type}.

(** ** Ownership *)

(** [if (fd_ >= 0) ::close(fd_)] *)
Definition close_owned (fd : Z) : M S unit := if 0 <=? fd then call_ext (CClose fd) ;; mret tt else mret tt.

Definition TcpSocket_dtor (fd : Z) : M S unit := close_owned fd.
Definition TcpServer_dtor (fd : Z) : M S unit := close_owned fd.
Definition UdpSocket_dtor (fd : Z) : M S unit := close_owned fd.

(** Moves: the descriptors of the target and of the source afterwards. *)
Definition TcpSocket_move (o : Z) : Z * Z := (o, -1).
Definition TcpServer_move (o : Z) : Z * Z := (o, -1).
Definition UdpSocket_move (o : Z) : Z * Z := (o, -1).

(** Move assignment; [self] is [this == &o]. *)
Definition move_assign (self : bool) (this o : Z) : M S (Z * Z) :=
  if self then mret (this, this) else close_owned this ;; mret (o, -1).
Definition TcpSocket_assign (self : bool) (this o : Z) : M S (Z * Z) := move_assign self this o.
Definition TcpServer_assign (self : bool) (this o : Z) : M S (Z * Z) := move_assign self this o.
Definition UdpSocket_assign (self : bool) (this o : Z) : M S (Z * Z) := move_assign self this o.

(** ** Constructors: [None] when an exception is thrown *)

Definition UdpSocket_ctor (bind_port : Z) : M S (option Z) :=
  r ← call_ext (CSocket SOCK_DGRAM);
  let fd := r_ret r in
  if fd <? 0 then mret None else
  call_ext (CSetsockopt fd SO_REUSEADDR) ;;
  b ← call_ext (CBind fd bind_port);
  if r_ret b <? 0 then call_ext (CClose fd) ;; mret None else mret (Some fd).

Definition TcpServer_ctor (bind_port : Z) : M S (option Z) :=
  r ← call_ext (CSocket SOCK_STREAM);
  let fd := r_ret r in
  if fd <? 0 then mret None else
  call_ext (CSetsockopt fd SO_REUSEADDR) ;;
  b ← call_ext (CBind fd bind_port);
  if r_ret b <? 0 then call_ext (CClose fd) ;; mret None else
  l ← call_ext (CListen fd);
  if r_ret l <? 0 then call_ext (CClose fd) ;; mret None else mret (Some fd).

(** ** TcpServer, UdpSocket *)

Definition acceptConnection (fd : Z) : M S reply := call_ext (CAccept fd).
Definition sendTo (fd : Z) (ip port : Z) (buf : bytes) : M S Z := r ← call_ext (CSendto fd buf ip port); mret (r_ret r).
(** The reply carries the datagram and its sender. *)
Definition recvFrom (fd n : Z) : M S reply := call_ext (CRecvfrom fd n).

(** ** TcpSocket *)

(** [while (written < len)] *)
Fixpoint send_loop (fuel : nat) (fd : Z) (data : bytes) (written : Z) : M S bool :=
  match fuel with
  | O => checked None
  | Datatypes.S fuel' =>
      if written <? len data then
        r ← call_ext (CSend fd (drop (Z.to_nat written) data));
        if r_ret r <? 0 then
          if r_aux r =? EINTR then send_loop fuel' fd data written
          else if (r_aux r =? EAGAIN) || (r_aux r =? EWOULDBLOCK) then
            call_ext (CUsleep 1000) ;; send_loop fuel' fd data written
          else mret false
        else if r_ret r =? 0 then mret false
        else send_loop fuel' fd data (written + r_ret r)
      else mret true
  end.
Definition sendExactly (fuel : nat) (fd : Z) (buf : bytes) : M S bool := send_loop fuel fd buf 0.

(** [while (bytes_read < len)]; [data] is the part of the buffer filled so far. *)
Fixpoint recv_loop (fuel : nat) (fd n : Z) (data : bytes) : M S (Z * bytes) :=
  match fuel with
  | O => checked None
  | Datatypes.S fuel' =>
      if len data <? n then
        r ← call_ext (CRecv fd (n - len data));
        if r_ret r <? 0 then
          if r_aux r =? EINTR then recv_loop fuel' fd n data
          else if (r_aux r =? EAGAIN) || (r_aux r =? EWOULDBLOCK) then
            if len data =? 0 then mret (-1, data)
            else call_ext (CUsleep 1000) ;; recv_loop fuel' fd n data
          else mret (-1, data)
        else if r_ret r =? 0 then mret (0, data)
        else recv_loop fuel' fd n (data ++ r_out r)
      else mret (len data, data)
  end.
Definition recvExactly (fuel : nat) (fd n : Z) : M S (Z * bytes) := recv_loop fuel fd n [].
End Net.

(** ** The loops *)

Section Loops.
Context {S : Type} (E : env) (K : Z) (Hok : linux_ok E) (Hp : patient K E).
Implicit Types (w : world S).

Lemma io_one fd c : fd_still c -> fd_uses false c = [fd] -> io_call [fd] c.
Proof. intros Hc Hu. split; [done|]. rewrite Hu. apply Forall_singleton. by apply list_elem_of_singleton. Qed.
Lemma io_usleep fds us : io_call fds (CUsleep us).
Proof. by split. Qed.
Local Hint Resolve io_usleep : hub.

(** What [recvExactly] leaves: the bytes it took off the stream, and why it stopped. *)
Definition recv_post (fd n : Z) (data : bytes) w (res : Z * bytes) (w' : world S) : Prop :=
  st w' = st w /\ io_since [fd] (tr w) (tr w') /\
  (exists more, res.2 = data ++ more /\ received fd (tr w') = received fd (tr w) ++ more /\ bytes_ok more) /\
  ((res.1 = n /\ len res.2 = n) \/ ((res.1 = 0 \/ res.1 = -1) /\ len res.2 < n)).

Lemma recv_post_stop fd n data w t' r :
  io_since [fd] (tr w) t' -> received fd t' = received fd (tr w) ->
  ((r = n /\ len data = n) \/ ((r = 0 \/ r = -1) /\ len data < n)) ->
  recv_post fd n data w (r, data) (World (st w) t').
Proof.
  intros Hio Hr Hres. split_and!; [done..| |done]. exists []. rewrite !app_nil_r. split_and!; [done..|constructor].
Qed.

Lemma recv_post_step fd n data d w t1 res w' :
  io_since [fd] (tr w) t1 -> received fd t1 = received fd (tr w) ++ d -> bytes_ok d ->
  recv_post fd n (data ++ d) (World (st w) t1) res w' -> recv_post fd n data w res w'.
Proof.
  intros Hio Hr Hd (Hst & Hio' & (more & Hres & Hr' & Hm) & Ho). split_and!; [done|by eapply io_trans| |done].
  exists (d ++ more). rewrite Hres, Hr'. cbn [tr] in *. rewrite Hr, !app_assoc. split_and!; [done..|]. by apply Forall_app_2.
Qed.

Lemma recv_loop_wp fuel fd n data w :
  len data <= n -> budget K (n - len data) (retries fd (tr w)) <= Z.of_nat fuel ->
  wp (recv_loop fuel fd n data) E w (recv_post fd n data w).
Proof.
  revert data w. induction fuel as [|fuel IH]; intros data w Hn Hf.
  { pose proof (budget_pos K (n - len data) (retries fd (tr w)) (pt_nonneg _ _ Hp)). lia. }
  cbn [recv_loop]. destruct (Z.ltb_spec (len data) n).
  2:{ apply wp_ret. destruct w as [s t]. apply (recv_post_stop fd n data (World s t)); [apply io_refl|done|left; lia]. }
  apply wp_bind, wp_call. intros r Hr. destruct (lx_recv _ Hok (tr w) fd (n - len data) ltac:(lia)) as (Hle & Hlen & Hb).
  rewrite <- Hr in Hle, Hlen, Hb.
  assert (forall w0 : world S, io_since [fd] (tr w0) (tr w0 ++ [(CRecv fd (n - len data), r)])) as Hio by (intros; apply io_snoc; [by apply io_one|apply io_refl]).
  destruct (Z.ltb_spec (r_ret r) 0).
  - assert (received fd (tr w ++ [(CRecv fd (n - len data), r)]) = received fd (tr w)) as Hrc by (apply received_none; lia).
    pose proof (patient_retry E K Hp (tr w) fd (CRecv fd (n - len data)) (n - len data) r Hr) as Hag.
    cbn [is_retry fst snd] in Hag. rewrite Z.eqb_refl, again_neg in Hag by done. cbn [andb] in Hag.
    unfold EWOULDBLOCK. rewrite orb_diag. destruct (r_aux r =? EINTR).
    + specialize (Hag eq_refl). eapply wp_mono; [|apply (IH data (World _ _)); cbn [tr]; [done|lia]]. intros res w' Hpost.
      eapply recv_post_step with (d := []); [apply Hio|by rewrite app_nil_r|constructor|]. by rewrite app_nil_r.
    + destruct (r_aux r =? EAGAIN); [|apply wp_ret, recv_post_stop; [auto|done|right; lia]].
      destruct (Z.eqb_spec (len data) 0); [apply wp_ret, recv_post_stop; [auto|done|right; lia]|].
      specialize (Hag eq_refl). apply wp_bind, wp_call. intros u _. cbn [st tr].
      eapply wp_mono; [|apply (IH data (World _ _)); cbn [tr]; [done|rewrite retries_usleep; lia]]. intros res w' Hpost.
      eapply recv_post_step with (d := []); [apply io_snoc; [auto with hub|apply Hio]| |constructor|by rewrite app_nil_r].
      rewrite app_nil_r. by rewrite received_none.
  - destruct (Z.eqb_spec (r_ret r) 0); [apply wp_ret, recv_post_stop; [auto|apply received_none; lia|right; lia]|].
    specialize (Hlen ltac:(lia)). rewrite <- Hlen in *.
    eapply wp_mono; [|apply (IH (data ++ r_out r) (World _ _)); cbn [tr]; rewrite length_app; [lia|]].
    { intros res w' Hpost. eapply recv_post_step; [apply Hio|apply received_recv; lia|done..]. }
    pose proof (patient_progress E K Hp (tr w) fd (CRecv fd (n - len data)) (n - len data)
      (n - Z.of_nat (length data + length (r_out r))) r I) as Hpr.
    cbn [is_retry fst snd] in Hpr. rewrite again_nonneg, andb_false_r in Hpr by lia. specialize (Hpr eq_refl ltac:(lia)). lia.
Qed.

Lemma recvExactly_wp fuel fd n w :
  0 <= n -> (n + 1) * (K + 1) <= Z.of_nat fuel -> wp (recvExactly fuel fd n) E w (recv_post fd n [] w).
Proof.
  intros Hn Hf. apply recv_loop_wp; [done|]. cbn. rewrite Z.sub_0_r. pose proof (patient_start E K Hp (tr w) fd n). lia.
Qed.

(** What a sending loop leaves: the part of [data] that is on the stream [out]. *)
Definition send_post (out : trace -> bytes) (fd : Z) (data : bytes) (from : Z) w (res : bool) (w' : world S) : Prop :=
  st w' = st w /\ io_since [fd] (tr w) (tr w') /\
  exists k, from <= k <= len data /\ (res = true <-> k = len data) /\
    out (tr w') = out (tr w) ++ take (Z.to_nat (k - from)) (drop (Z.to_nat from) data).

Lemma send_post_stop out fd data from w t' res :
  0 <= from <= len data -> io_since [fd] (tr w) t' -> out t' = out (tr w) -> (res = true <-> from = len data) ->
  send_post out fd data from w res (World (st w) t').
Proof.
  intros Hfrom Hio Ho Hres. split_and!; [done..|]. exists from. split_and!; [lia..|done|].
  by rewrite Z.sub_diag, take_0, app_nil_r.
Qed.

Lemma send_post_step out fd data from n w t1 res w' :
  0 <= from -> 0 <= n -> from + n <= len data -> io_since [fd] (tr w) t1 ->
  out t1 = out (tr w) ++ take (Z.to_nat n) (drop (Z.to_nat from) data) ->
  send_post out fd data (from + n) (World (st w) t1) res w' -> send_post out fd data from w res w'.
Proof.
  intros Hfrom Hn Hle Hio Ho (Hst & Hio' & k & Hk & Hres & Ho'). split_and!; [done|by eapply io_trans|].
  exists k. split_and!; [lia..|done|]. rewrite Ho'. cbn [tr]. rewrite Ho, <- app_assoc. f_equal.
  replace (Z.to_nat (k - from)) with (Z.to_nat n + Z.to_nat (k - (from + n)))%nat by lia.
  rewrite <- take_take_drop, drop_drop. by rewrite <- Z2Nat.inj_add by lia.
Qed.

Lemma send_loop_wp fuel fd data from w :
  0 <= from <= len data -> budget K (len data - from) (retries fd (tr w)) <= Z.of_nat fuel ->
  wp (send_loop fuel fd data from) E w (send_post (sent fd) fd data from w).
Proof.
  revert from w. induction fuel as [|fuel IH]; intros from w Hfrom Hf.
  { pose proof (budget_pos K (len data - from) (retries fd (tr w)) (pt_nonneg _ _ Hp)). lia. }
  cbn [send_loop]. destruct (Z.ltb_spec from (len data)).
  2:{ apply wp_ret. destruct w as [s t]. apply (send_post_stop _ fd data from (World s t)); [done|apply io_refl|done|split; lia || done]. }
  apply wp_bind, wp_call. intros r Hr. set (d := drop (Z.to_nat from) data) in *.
  assert (len d = len data - from) as Hd by (unfold d; rewrite length_drop; lia).
  pose proof (lx_send _ Hok (tr w) fd d) as Hle. rewrite <- Hr in Hle.
  assert (io_since [fd] (tr w) (tr w ++ [(CSend fd d, r)])) as Hio by (apply io_snoc; [by apply io_one|apply io_refl]).
  destruct (Z.ltb_spec (r_ret r) 0).
  - assert (sent fd (tr w ++ [(CSend fd d, r)]) = sent fd (tr w)) as Hs by (apply sent_none; lia).
    pose proof (patient_retry E K Hp (tr w) fd (CSend fd d) (len data - from) r Hr) as Hag.
    cbn [is_retry fst snd] in Hag. rewrite Z.eqb_refl, again_neg in Hag by done. cbn [andb] in Hag.
    unfold EWOULDBLOCK. rewrite orb_diag.
    destruct (r_aux r =? EINTR); [|destruct (r_aux r =? EAGAIN)].
    + specialize (Hag eq_refl). eapply wp_mono; [|apply (IH from (World _ _)); cbn [tr]; [done|lia]]. intros res w' Hpost.
      apply (send_post_step _ fd data from 0 w (tr w ++ [(CSend fd d, r)])); [lia..|done| |by rewrite Z.add_0_r].
      by rewrite take_0, app_nil_r.
    + specialize (Hag eq_refl). apply wp_bind, wp_call. intros u _. cbn [st tr].
      eapply wp_mono; [|apply (IH from (World _ _)); cbn [tr]; [done|rewrite retries_usleep; lia]]. intros res w' Hpost.
      apply (send_post_step _ fd data from 0 w ((tr w ++ [(CSend fd d, r)]) ++ [(CUsleep 1000, u)]));
        [lia..|auto with hub| |by rewrite Z.add_0_r].
      rewrite take_0, app_nil_r. by rewrite sent_none.
    + apply wp_ret, send_post_stop; [lia|done..|]. split; [done|lia].
  - destruct (Z.eqb_spec (r_ret r) 0).
    { apply wp_ret, send_post_stop; [lia|done|apply sent_none; lia|]. split; [done|lia]. }
    eapply wp_mono; [|apply (IH (from + r_ret r) (World _ _)); cbn [tr]; [lia|]].
    { intros res w' Hpost. eapply send_post_step; [..|exact Hpost]; [lia..|done|apply sent_send; lia]. }
    pose proof (patient_progress E K Hp (tr w) fd (CSend fd d) (len data - from) (len data - (from + r_ret r)) r I) as Hpr.
    cbn [is_retry fst snd] in Hpr. rewrite again_nonneg, andb_false_r in Hpr by lia. specialize (Hpr eq_refl ltac:(lia)). lia.
Qed.

Lemma sendExactly_wp fuel fd data w :
  (len data + 1) * (K + 1) <= Z.of_nat fuel -> wp (sendExactly fuel fd data) E w (send_post (sent fd) fd data 0 w).
Proof.
  intros Hf. apply send_loop_wp; [lia|]. rewrite Z.sub_0_r. pose proof (patient_start E K Hp (tr w) fd (len data)). lia.
Qed.
End Loops.

(** ** Sending only *)

Definition send_call (fd : Z) (c : call) : Prop :=
  match c with CSend f _ => f = fd | CUsleep _ => True | _ => False end.

Lemma send_loop_calls {S} fuel fd data from : only_calls (send_call fd) (send_loop (S := S) fuel fd data from).
Proof. revert from. induction fuel as [|fuel IH]; intros from; cbn [send_loop]; repeat only_step. Qed.
Lemma sendExactly_calls {S} fuel fd data : only_calls (send_call fd) (sendExactly (S := S) fuel fd data).
Proof. apply send_loop_calls. Qed.

(** The connection takes data, at once or after a retry. *)
Definition send_works (E : env) (fd : Z) : Prop :=
  forall t d, d <> [] -> let r := E t (CSend fd d) in 0 < r_ret r \/ again r = true.

Lemma send_loop_works {S} E fuel fd data from (w w' : world S) b :
  send_works E fd -> 0 <= from -> send_loop fuel fd data from E w = Some (b, w') -> b = true.
Proof.
  intros Hs. revert from w. induction fuel as [|fuel IH]; intros from w Hfrom; cbn [send_loop]; [done|].
  destruct (Z.ltb_spec from (len data)); [|by intros [= <- _]].
  unfold mbind, M_bind, call_ext. set (r := E (tr w) (CSend fd (drop (Z.to_nat from) data))).
  assert (0 < r_ret r \/ again r = true) as Hr.
  { apply Hs. intros He. apply (f_equal length) in He. rewrite length_drop in He. cbn in He. lia. }
  unfold EWOULDBLOCK. rewrite orb_diag. destruct (Z.ltb_spec (r_ret r) 0).
  - destruct Hr as [|Hr]; [lia|]. rewrite again_neg in Hr by done.
    destruct (r_aux r =? EINTR); [by apply IH|]. cbn in Hr. rewrite Hr. by apply IH.
  - destruct (Z.eqb_spec (r_ret r) 0); [|apply IH; lia]. destruct Hr as [|Hr]; [lia|].
    rewrite again_nonneg in Hr by lia. done.
Qed.

(** With such a connection the whole buffer goes out. *)
Lemma sendExactly_works {S} E K fuel fd data (w : world S) :
  linux_ok E -> patient K E -> send_works E fd -> (len data + 1) * (K + 1) <= Z.of_nat fuel ->
  wp (sendExactly fuel fd data) E w (fun b w' => b = true /\ st w' = st w /\ io_since [fd] (tr w) (tr w') /\
    sent fd (tr w') = sent fd (tr w) ++ data).
Proof.
  intros Hok Hp Hs Hf. pose proof (sendExactly_wp E K Hok Hp fuel fd data w Hf) as Hw.
  destruct (wp_run _ _ _ _ Hw) as (b & w' & Hr & Hst & Hio & k & Hk & Hb & Ho).
  pose proof (send_loop_works E fuel fd data 0 w w' b Hs ltac:(lia) Hr) as ->.
  unfold wp. rewrite Hr. split_and!; [done..|]. rewrite Ho, (proj1 Hb eq_refl). f_equal.
  rewrite Z.sub_0_r, Nat2Z.id. by rewrite drop_0, firstn_all.
Qed.

(** ** A peer that sends [bs] *)

(** After [t0] the connection delivers the bytes [bs], in pieces of any size and with any retries, except
    that it does not answer EAGAIN at the positions [cuts]. *)
Definition delivers (E : env) (fd : Z) (t0 : trace) (bs : bytes) (cuts : list nat) : Prop :=
  forall t pre rest n, received fd t = received fd t0 ++ pre -> bs = pre ++ rest -> rest <> [] -> 0 < n ->
    let r := E t (CRecv fd n) in
    (0 < r_ret r /\ exists more, rest = r_out r ++ more) \/
    (r_ret r < 0 /\ (r_aux r = EINTR \/ (r_aux r = EAGAIN /\ length pre ∉ cuts))).

Lemma recv_loop_delivers {S} E fuel fd t0 bs cuts base tail data todo (w w' : world S) res buf :
  linux_ok E -> delivers E fd t0 bs cuts -> bs = base ++ (data ++ todo) ++ tail -> length base ∈ cuts ->
  received fd (tr w) = received fd t0 ++ base ++ data ->
  recv_loop fuel fd (len (data ++ todo)) data E w = Some ((res, buf), w') -> res = len (data ++ todo) /\ buf = data ++ todo.
Proof.
  intros Hok Hd. revert data todo w. induction fuel as [|fuel IH]; intros data todo w Hbs Hcut Hrec; cbn [recv_loop]; [done|].
  destruct (Z.ltb_spec (len data) (len (data ++ todo))) as [Hlt|Hge].
  2:{ rewrite length_app in Hge. assert (todo = []) as -> by (apply length_zero_iff_nil; lia). rewrite app_nil_r. by intros [= <- <- _]. }
  assert (todo <> []) as Htodo by (intros ->; rewrite app_nil_r in Hlt; lia).
  unfold mbind, M_bind, call_ext. set (n := len (data ++ todo) - len data). set (r := E (tr w) (CRecv fd n)).
  assert (0 < n) as Hn by (unfold n; lia).
  assert (n = len todo) as Hnt by (unfold n; rewrite length_app; lia).
  destruct (lx_recv _ Hok (tr w) fd n ltac:(lia)) as (Hle & Hlen & _). fold r in Hle, Hlen.
  assert (todo ++ tail <> []) as Hne by (by destruct todo).
  pose proof (Hd (tr w) (base ++ data) (todo ++ tail) n Hrec ltac:(by rewrite Hbs, !app_assoc) Hne Hn) as Hcase. cbn zeta in Hcase. fold r in Hcase.
  clearbody r. clearbody n. destruct Hcase as [[Hpos [more Hmore]]|[Hneg Hre]].
  - destruct (Z.ltb_spec (r_ret r) 0); [lia|]. destruct (Z.eqb_spec (r_ret r) 0); [lia|]. specialize (Hlen ltac:(lia)).
    assert (exists todo', todo = r_out r ++ todo') as [todo' ->].
    { exists (drop (length (r_out r)) todo). apply (f_equal (take (length (r_out r)))) in Hmore.
      rewrite take_app_length, take_app_le in Hmore by lia. rewrite <- Hmore at 1. by rewrite take_drop. }
    rewrite (app_assoc data). apply IH; [by rewrite <- (app_assoc data)|done|]. cbn [tr]. rewrite received_recv by lia.
    by rewrite Hrec, !app_assoc.
  - destruct (Z.ltb_spec (r_ret r) 0); [|lia].
    assert (received fd (tr w ++ [(CRecv fd n, r)]) = received fd t0 ++ base ++ data) as Hrec' by (rewrite received_none; [done|lia]).
    unfold EWOULDBLOCK. rewrite orb_diag. destruct (Z.eqb_spec (r_aux r) EINTR); [by apply IH|].
    destruct Hre as [|[-> Hcut']]; [done|]. destruct (Z.eqb_spec EAGAIN EAGAIN); [|done].
    destruct (Z.eqb_spec (len data) 0) as [H0|]; [|apply IH; [done..|]; cbn [tr]; by rewrite received_none].
    rewrite length_app in Hcut'. exfalso. apply Hcut'. by replace (length base + length data)%nat with (length base) by lia.
Qed.

(** A piece of [n] bytes that starts at a cut is received whole. *)
Lemma recv_loop_calls {S} (P : call -> Prop) fuel fd n data :
  (forall m, P (CRecv fd m)) -> (forall us, P (CUsleep us)) -> only_calls P (recv_loop (S := S) fuel fd n data).
Proof.
  intros Hr Hu. revert data. induction fuel as [|fuel IH]; intros data; cbn [recv_loop]; repeat only_step; by apply only_call.
Qed.

Lemma recvExactly_delivers {S} E K fuel fd t0 bs cuts base piece tail (w : world S) :
  linux_ok E -> patient K E -> delivers E fd t0 bs cuts -> bs = base ++ piece ++ tail -> length base ∈ cuts ->
  received fd (tr w) = received fd t0 ++ base -> (len piece + 1) * (K + 1) <= Z.of_nat fuel ->
  wp (recvExactly fuel fd (len piece)) E w (fun res w' => res = (len piece, piece) /\ st w' = st w /\
    io_since [fd] (tr w) (tr w') /\ received fd (tr w') = received fd t0 ++ base ++ piece).
Proof.
  intros Hok Hp Hd Hbs Hcut Hrec Hf. destruct (wp_run _ _ _ _ (recvExactly_wp E K Hok Hp fuel fd (len piece) w ltac:(lia) Hf))
    as ([res buf] & w' & Hr & Hst & Hio & (more & Heq & Hmore & _) & _).
  destruct (recv_loop_delivers E fuel fd t0 bs cuts base tail [] piece w w' res buf Hok Hd Hbs Hcut) as [-> ->];
    [by rewrite app_nil_r|exact Hr|]. cbn [app] in *. unfold wp. rewrite Hr. split_and!; [done..|].
  cbn in Heq. subst more. by rewrite Hmore, Hrec, app_assoc.
Qed.

(** ** What the loops guarantee *)

(** C12: [recvExactly] ends and is exact.  However the network cuts up the stream, if at most [K] retries
    come in a row the loop returns within (n + 1)(K + 1) rounds; what it has put into the buffer is
    the next part of the connection's byte stream, nothing lost or repeated; it reports [n] exactly
    when that part is [n] bytes long, and 0 or -1 when the stream ended or failed before. *)
Theorem recv_exactly {S} E K fuel fd n (w : world S) :
  linux_ok E -> patient K E -> 0 <= n -> (n + 1) * (K + 1) <= Z.of_nat fuel ->
  exists res buf w', recvExactly fuel fd n E w = Some ((res, buf), w') /\
    st w' = st w /\ io_since [fd] (tr w) (tr w') /\ received fd (tr w') = received fd (tr w) ++ buf /\
    ((res = n /\ len buf = n) \/ ((res = 0 \/ res = -1) /\ len buf < n)).
Proof.
  intros Hok Hp Hn Hf.
  destruct (wp_run _ _ _ _ (recvExactly_wp E K Hok Hp fuel fd n w Hn Hf)) as ([res buf] & w' & Hr & Hst & Hio & (more & Heq & Hm & _) & Ho).
  cbn in Heq. subst more. by exists res, buf, w'.
Qed.

(** A connection that delivers ten bytes, three at a time. *)
Definition chunked : sim := Sim (fun _ => [1; 2; 3; 4; 5; 6; 7; 8; 9; 10]) 3 (fun _ => []) [] [].
Lemma chunked_ok : sim_ok chunked 0.
Proof.
  constructor; [intros ?; cbn; repeat (apply Forall_cons_2; [done|]); constructor|done|by split|constructor].
Qed.

Lemma recv_exactly_witness :
  exists w', recvExactly 20 5 7 (sim_env chunked) (World tt []) = Some ((7, [1; 2; 3; 4; 5; 6; 7]), w') /\
    received 5 (tr w') = [1; 2; 3; 4; 5; 6; 7].
Proof.
  destruct (recv_exactly (sim_env chunked) 0 20 5 7 (World tt []) (sim_linux_ok _ _ chunked_ok)
    (sim_patient _ _ chunked_ok ltac:(lia)) ltac:(lia) ltac:(lia)) as (res & buf & w' & Hr & _ & _ & Hrec & _).
  assert (res = 7 /\ buf = [1; 2; 3; 4; 5; 6; 7]) as [-> ->] by (vm_compute in Hr; by injection Hr as <- <- _).
  exists w'. split; [exact Hr|exact Hrec].
Defined.
