(* ===== verification/Vhci.v ===== *)
(** * The vhci driver (daemon/src/usbip/VhciDriver)

    The daemon's side of the kernel's vhci-hcd: a table of eight ports, attached
    and detached by writing to two sysfs files. *)

From stdpp Require Import strings pretty gmap.
From S2P Require Import Prelude Effects Descriptors CrashReporter Linux DaemonNet.

Record VhciDriver := Vhci { vhci_fd_ : Z; ports_ : list bool }.
Definition max_ports_ : Z := 8.
Definition VhciDriver0 : VhciDriver := Vhci (-1) (replicate 8 false).

Definition SYSFS_ATTACH : bytes := str "/sys/devices/platform/vhci_hcd.0/attach".
Definition SYSFS_DETACH : bytes := str "/sys/devices/platform/vhci_hcd.0/detach".
Definition VHCI_DEV : bytes := str "/dev/vhci".

Definition set_ports (p : list bool) (v : VhciDriver) : VhciDriver := Vhci (vhci_fd_ v) p.

Definition init : M VhciDriver bool :=
  call_ext (CSystem (str "modprobe vhci-hcd")) ;;
  r ← call_ext (COpen VHCI_DEV);
  modify (fun v => Vhci (r_ret r) (ports_ v)) ;;
  mret (negb (r_ret r <? 0)).

Definition sysfsWrite (path value : bytes) : M VhciDriver bool :=
  r ← call_ext (COpen path);
  let fd := r_ret r in
  if fd <? 0 then mret false else
  n ← call_ext (CWrite fd value);
  call_ext (CClose fd) ;;
  mret (r_ret n =? len value).

(** [for (i = 0; i < max_ports_; ++i) if (!ports_[i]) { port = i; break; }] *)
Fixpoint find_free (rounds : nat) (i : Z) (ports : list bool) : option Z :=
  match rounds with
  | O => Some (-1)
  | S n => used ← arr_get ports i; if negb used then Some i else find_free n (i + 1) ports
  end.

(** The text for the attach file, in a 64-byte buffer. *)
Definition attach_line (port socket_fd devid speed : Z) : bytes :=
  take 63 (str (pretty port) ++ str " " ++ str (pretty socket_fd) ++ str " " ++ str (pretty devid) ++ str " " ++ str (pretty speed)).
Definition detach_line (port : Z) : bytes := take 15 (str (pretty port)).

Definition attach (socket_fd devid speed : Z) : M VhciDriver Z :=
  v ← get;
  port ← checked (find_free (Z.to_nat max_ports_) 0 (ports_ v));
  if port <? 0 then mret (-1) else
  ok ← sysfsWrite SYSFS_ATTACH (attach_line port socket_fd devid speed);
  if negb ok then mret (-1) else
  v ← get;
  p ← checked (arr_set (ports_ v) port true);
  modify (set_ports p) ;;
  mret port.

Definition detach (port : Z) : M VhciDriver bool :=
  v ← get;
  unused ← (if (port <? 0) || (max_ports_ <=? port) then mret true
            else used ← checked (arr_get (ports_ v) port); mret (negb used));
  if (unused : bool) then mret false else
  ok ← sysfsWrite SYSFS_DETACH (detach_line port);
  if negb ok then mret false else
  v ← get;
  p ← checked (arr_set (ports_ v) port false);
  modify (set_ports p) ;;
  mret true.

Definition freePort (port : Z) : M VhciDriver unit :=
  if (0 <=? port) && (port <? max_ports_) then
    v ← get; p ← checked (arr_set (ports_ v) port false); modify (set_ports p)
  else mret tt.

Definition getFd (v : VhciDriver) : Z := vhci_fd_ v.

Definition readRequest (buf_len : Z) : M VhciDriver reply := v ← get; call_ext (CRead (vhci_fd_ v) buf_len).
Definition writeResponse (buf : bytes) : M VhciDriver Z :=
  v ← get; r ← call_ext (CWrite (vhci_fd_ v) buf); mret (r_ret r).

Definition detachAll : M VhciDriver unit :=
  for_range (Z.to_nat max_ports_) 0 (fun i =>
    v ← get; used ← checked (arr_get (ports_ v) i);
    when used (detach i ;; mret tt)).

Definition VhciDriver_dtor : M VhciDriver unit :=
  detachAll ;; v ← get; close_owned (vhci_fd_ v).

(** ** What was written to sysfs *)

(** The file just opened, and the complete writes so far (file and text). *)
Definition sysfs_step (s : option (bytes * Z) * list (bytes * bytes)) (e : call * reply) : option (bytes * Z) * list (bytes * bytes) :=
  match e.1 with
  | COpen path => (Some (path, r_ret e.2), s.2)
  | CWrite fd v =>
      match s.1 with
      | Some (path, fd') => (None, if (fd =? fd') && (r_ret e.2 =? len v) then s.2 ++ [(path, v)] else s.2)
      | None => s
      end
  | _ => (None, s.2)
  end.
Definition sysfs_log (t : trace) : list (bytes * bytes) := (foldl sysfs_step (None, []) t).2.

Lemma sysfs_log_other t c r : match c with CWrite _ _ => False | _ => True end -> sysfs_log (t ++ [(c, r)]) = sysfs_log t.
Proof. intros Hc. unfold sysfs_log. rewrite foldl_snoc. by destruct c. Qed.
Lemma sysfs_log_write t path r1 v r2 :
  sysfs_log ((t ++ [(COpen path, r1)]) ++ [(CWrite (r_ret r1) v, r2)]) =
  sysfs_log t ++ (if r_ret r2 =? len v then [(path, v)] else []).
Proof.
  unfold sysfs_log. rewrite !foldl_snoc. cbn. rewrite Z.eqb_refl. cbn. case_match; [done|by rewrite app_nil_r].
Qed.

(** Without writes nothing reaches sysfs. *)
Definition no_write (c : call) : Prop := match c with CWrite _ _ => False | _ => True end.
Lemma sysfs_log_quiet t d : Forall no_write (calls d) -> sysfs_log (t ++ d) = sysfs_log t.
Proof.
  revert t. induction d as [|[c r] d IH]; intros t Hd; [by rewrite app_nil_r|]. apply Forall_cons_1 in Hd as [Hc Hd].
  change (t ++ (c, r) :: d) with (t ++ [(c, r)] ++ d). rewrite app_assoc, IH by done. by apply sysfs_log_other.
Qed.
Lemma written_quiet fd t d : Forall no_write (calls d) -> written fd (t ++ d) = written fd t.
Proof.
  rewrite written_app. intros Hd. replace (written fd d) with (@nil Z); [by rewrite app_nil_r|].
  induction d as [|[c r] d IH]; [done|]. apply Forall_cons_1 in Hd as [Hc Hd]. change (written fd ((c, r) :: d)) with (written_by fd (c, r) ++ written fd d).
  rewrite <- IH by done. by destruct c.
Qed.
Lemma wp_quiet {S A} E (m : M S A) w Q :
  only_calls no_write m -> wp m E w Q -> wp m E w (fun a w' => Q a w' /\ sysfs_log (tr w') = sysfs_log (tr w)).
Proof.
  intros Hm Hw. eapply wp_mono; [|by apply (wp_calls no_write)]. intros a w' [HQ (d & -> & Hd)]. split; [done|by apply sysfs_log_quiet].
Qed.

Section Specs.
Context (E : env).
Implicit Types (w : world VhciDriver).

(** sysfs takes every write. *)
Definition sysfs_works : Prop :=
  (forall t path, 0 <= r_ret (E t (COpen path))) /\
  (forall t path r d, r_ret (E (t ++ [(COpen path, r)]) (CWrite (r_ret r) d)) = len d).

(** At a point of a run: the file opens and takes the text. *)
Definition sysfs_takes (t : trace) (path value : bytes) : Prop :=
  let r := E t (COpen path) in 0 <= r_ret r /\ r_ret (E (t ++ [(COpen path, r)]) (CWrite (r_ret r) value)) = len value.
Lemma sysfs_works_takes t path value : sysfs_works -> sysfs_takes t path value.
Proof. intros [Ho Hw]. by split. Qed.

Lemma sysfsWrite_wp path value w own rest :
  holds_fds (tr w) own rest ->
  wp (sysfsWrite path value) E w (fun ok w' => st w' = st w /\ holds_fds (tr w') own rest /\
    sysfs_log (tr w') = sysfs_log (tr w) ++ (if ok then [(path, value)] else []) /\ (sysfs_takes (tr w) path value -> ok = true)).
Proof.
  intros Hf. unfold sysfsWrite. apply wp_bind, wp_call. intros r Hr. pose proof (holds_call _ _ _ (COpen path) r I (Forall_nil_2 _) Hf) as Hf1.
  cbn [fd_opens] in Hf1. destruct (Z.leb_spec 0 (r_ret r)); destruct (Z.ltb_spec (r_ret r) 0); try lia.
  - apply wp_bind, wp_call. intros n Hn. apply wp_bind, wp_call. intros c _. apply wp_ret. cbn [st tr] in *. split_and!; [done| | |].
    + repeat holds_step. done.
    + by rewrite sysfs_log_other, sysfs_log_write.
    + unfold sysfs_takes. cbn zeta. rewrite <- Hr. intros [_ Hw]. by rewrite Hn, Hw, Z.eqb_refl.
  - apply wp_ret. cbn [st tr]. split_and!; [done..| |].
    + by rewrite sysfs_log_other, app_nil_r.
    + unfold sysfs_takes. cbn zeta. rewrite <- Hr. intros [Ho _]. lia.
Qed.

(** [p] is the lowest free port. *)
Definition lowest_free (ports : list bool) (p : Z) : Prop :=
  arr_get ports p = Some false /\ forall q, 0 <= q < p -> arr_get ports q = Some true.

Lemma find_free_spec rounds i ports :
  0 <= i -> i + Z.of_nat rounds = len ports -> (forall q, 0 <= q < i -> arr_get ports q = Some true) ->
  exists p, find_free rounds i ports = Some p /\
    ((p = -1 /\ forall q, 0 <= q < len ports -> arr_get ports q = Some true) \/ (0 <= p /\ lowest_free ports p)).
Proof.
  revert i. induction rounds as [|n IH]; intros i Hi Hl Hlow; cbn [find_free].
  - exists (-1). split; [done|]. left. split; [done|]. intros q Hq. apply Hlow. lia.
  - destruct (arr_get_Some ports i) as [b Hb]; [lia|]. rewrite Hb. cbn. destruct b; cbn.
    + apply IH; [lia..|]. intros q Hq. destruct (decide (q = i)) as [->|]; [done|]. apply Hlow. lia.
    + exists i. split; [done|]. right. by split.
Qed.

(** The table has eight entries. *)
Definition vhci_ok (v : VhciDriver) : Prop := len (ports_ v) = max_ports_.

Lemma vhci_ok_insert i b v : vhci_ok v -> vhci_ok (set_ports (<[i := b]> (ports_ v)) v).
Proof. unfold vhci_ok. cbn. by rewrite length_insert. Qed.

Lemma attach_wp fd devid speed w own rest :
  vhci_ok (st w) -> holds_fds (tr w) own rest ->
  wp (attach fd devid speed) E w (fun p w' => holds_fds (tr w') own rest /\
    ((p = -1 /\ st w' = st w /\ sysfs_log (tr w') = sysfs_log (tr w) /\
      ((forall line, sysfs_takes (tr w) SYSFS_ATTACH line) -> forall q, 0 <= q < max_ports_ -> arr_get (ports_ (st w)) q = Some true)) \/
     (0 <= p < max_ports_ /\ lowest_free (ports_ (st w)) p /\ st w' = set_ports (<[Z.to_nat p := true]> (ports_ (st w))) (st w) /\
      sysfs_log (tr w') = sysfs_log (tr w) ++ [(SYSFS_ATTACH, attach_line p fd devid speed)]))).
Proof.
  intros Hv Hf. unfold attach. apply wp_bind, wp_get. apply wp_bind.
  destruct (find_free_spec (Z.to_nat max_ports_) 0 (ports_ (st w))) as (p & Hp & Hcase); [lia|done|lia|].
  eapply wp_checked; [exact Hp|]. destruct (Z.ltb_spec p 0) as [|Hp0]; [apply wp_ret; split; [done|left]; rewrite Hv in Hcase; destruct Hcase as [[-> ?]|]; [done|lia]|].
  destruct Hcase as [[-> _]|[_ Hlow]]; [lia|]. pose proof (arr_get_inv _ _ _ (proj1 Hlow)) as [Hrange _].
  apply wp_bind. eapply wp_mono; [|by apply sysfsWrite_wp]. intros [|] w1 (Hst & Hf1 & Hlog & Hok); cbn [negb].
  - apply wp_bind, wp_get. rewrite Hst. apply wp_bind. eapply wp_checked; [by apply arr_set_Some|].
    apply wp_bind, wp_modify, wp_ret. rewrite Hst. split; [done|right]. rewrite Hv in Hrange. by split_and!; [lia..|done|done|].
  - apply wp_ret. split; [done|left]. rewrite Hlog, app_nil_r. split_and!; [done..|]. intros Hw. by specialize (Hok (Hw _)).
Qed.

Lemma detach_wp port w own rest :
  vhci_ok (st w) -> holds_fds (tr w) own rest ->
  wp (detach port) E w (fun ok w' => holds_fds (tr w') own rest /\
    if ok then arr_get (ports_ (st w)) port = Some true /\ st w' = set_ports (<[Z.to_nat port := false]> (ports_ (st w))) (st w) /\
      sysfs_log (tr w') = sysfs_log (tr w) ++ [(SYSFS_DETACH, detach_line port)]
    else st w' = st w /\ sysfs_log (tr w') = sysfs_log (tr w) /\ (sysfs_takes (tr w) SYSFS_DETACH (detach_line port) -> arr_get (ports_ (st w)) port <> Some true)).
Proof.
  intros Hv Hf. unfold detach. apply wp_bind, wp_get. apply wp_bind.
  destruct ((port <? 0) || (max_ports_ <=? port)) eqn:Hr.
  { apply wp_ret, wp_ret. split_and!; [done..|]. intros _ Hu%arr_get_inv. rewrite Hv in Hu. apply orb_true_iff in Hr as [?%Z.ltb_lt|?%Z.leb_le]; lia. }
  apply orb_false_iff in Hr as [?%Z.ltb_ge ?%Z.leb_gt].
  destruct (arr_get_Some (ports_ (st w)) port) as [used Hu]; [rewrite Hv; lia|].
  apply wp_bind. eapply wp_checked; [exact Hu|]. apply wp_ret. destruct used; cbn [negb]; [|apply wp_ret; split_and!; [done..|congruence]].
  apply wp_bind. eapply wp_mono; [|by apply sysfsWrite_wp]. intros [|] w1 (Hst & Hf1 & Hlog & Hok); cbn [negb].
  - apply wp_bind, wp_get. rewrite Hst. apply wp_bind. eapply wp_checked; [apply arr_set_Some; rewrite Hv; lia|].
    apply wp_bind, wp_modify, wp_ret. by rewrite Hst.
  - apply wp_ret. rewrite Hlog, app_nil_r. split_and!; [done..|]. intros Hw. by specialize (Hok Hw).
Qed.

Lemma freePort_wp port w :
  vhci_ok (st w) ->
  wp (freePort port) E w (fun _ w' => tr w' = tr w /\
    st w' = (if (0 <=? port) && (port <? max_ports_) then set_ports (<[Z.to_nat port := false]> (ports_ (st w))) (st w) else st w)).
Proof.
  intros Hv. unfold freePort. destruct ((0 <=? port) && (port <? max_ports_)) eqn:Hr; [|by apply wp_ret].
  apply andb_true_iff in Hr as [?%Z.leb_le ?%Z.ltb_lt]. apply wp_bind, wp_get. apply wp_bind.
  eapply wp_checked; [apply arr_set_Some; rewrite Hv; lia|]. by apply wp_modify.
Qed.

(** Detaching all ports keeps the descriptors; when sysfs takes the writes no port is left. *)
Lemma detachAll_wp w own rest :
  vhci_ok (st w) -> holds_fds (tr w) own rest ->
  wp detachAll E w (fun _ w' => holds_fds (tr w') own rest /\ vhci_ok (st w') /\ vhci_fd_ (st w') = vhci_fd_ (st w) /\
    (sysfs_works -> forall q, 0 <= q < max_ports_ -> arr_get (ports_ (st w')) q = Some false)).
Proof.
  intros Hv Hf. apply (wp_for_range E _ _ _ (fun i w' => holds_fds (tr w') own rest /\ vhci_ok (st w') /\
    vhci_fd_ (st w') = vhci_fd_ (st w) /\ (sysfs_works -> forall q, 0 <= q < i -> arr_get (ports_ (st w')) q = Some false))).
  - split_and!; [done..|]. intros _ q Hq. lia.
  - intros i w' Hi (Hf' & Hv' & Hfd & Hlow). change (Z.of_nat (Z.to_nat max_ports_)) with max_ports_ in Hi.
    apply wp_bind, wp_get. destruct (arr_get_Some (ports_ (st w')) i) as [u Hu]; [rewrite Hv'; lia|].
    apply wp_bind. eapply wp_checked; [exact Hu|]. unfold when. destruct u.
    + apply wp_bind. eapply wp_mono; [|by apply detach_wp]. intros ok w2 [Hf2 Hd]. apply wp_ret. destruct ok.
      * destruct Hd as (_ & -> & _). cbn. split_and!; [done|by apply vhci_ok_insert|done|]. intros Hw q Hq.
        unfold arr_get. rewrite list_lookup_insert. unfold arr_get in Hlow. destruct (Z.leb_spec 0 q); [|lia].
        case_decide; [done|]. specialize (Hlow Hw q). destruct (Z.leb_spec 0 q); [|lia]. apply Hlow. apply arr_get_inv in Hu as [Hu _]. lia.
      * destruct Hd as (-> & _ & Hno). split_and!; [done..|]. intros Hw. by destruct (Hno (sysfs_works_takes _ _ _ Hw)).
    + apply wp_ret. split_and!; [done..|]. intros Hw q Hq. destruct (decide (q = i)) as [->|]; [done|]. apply Hlow; [done|lia].
  - intros w' (? & ? & ? & Hl). split_and!; [done..|]. intros Hw q Hq. apply Hl; [done|]. change (0 + Z.of_nat (Z.to_nat max_ports_)) with max_ports_. lia.
Qed.
End Specs.

(** ** The port table as a port allocator *)

Inductive port_ev := PAttach (p fd devid speed : Z) | PDetach (p : Z) | PFree (p : Z).

(** The abstract allocator: the set of ports in use; a new device gets the lowest free one. *)
Inductive port_step : gset Z -> port_ev -> gset Z -> Prop :=
| ps_attach A p fd devid speed :
    0 <= p < max_ports_ -> p ∉ A -> (forall q, 0 <= q < p -> q ∈ A) -> port_step A (PAttach p fd devid speed) ({[p]} ∪ A)
| ps_detach A p : p ∈ A -> port_step A (PDetach p) (A ∖ {[p]})
| ps_free A p : 0 <= p < max_ports_ -> port_step A (PFree p) (A ∖ {[p]}).

Inductive port_steps : gset Z -> list port_ev -> gset Z -> Prop :=
| pss_nil A : port_steps A [] A
| pss_snoc A evs B e C : port_steps A evs B -> port_step B e C -> port_steps A (evs ++ [e]) C.

Lemma port_steps_app A evs B evs' C : port_steps A evs B -> port_steps B evs' C -> port_steps A (evs ++ evs') C.
Proof.
  intros H1. induction 1 as [B|B evs' B' e C H2 IH H3]; [by rewrite app_nil_r|]. rewrite app_assoc. econstructor; [by apply IH|done].
Qed.
Lemma port_steps_one A e B : port_step A e B -> port_steps A [e] B.
Proof. intros. by apply (pss_snoc _ [] A); [constructor|]. Qed.

(** The write that tells the kernel; a freed port is one the kernel has released itself. *)
Definition ev_write (e : port_ev) : option (bytes * bytes) :=
  match e with
  | PAttach p fd devid speed => Some (SYSFS_ATTACH, attach_line p fd devid speed)
  | PDetach p => Some (SYSFS_DETACH, detach_line p)
  | PFree _ => None
  end.

Definition abs_ports (ports : list bool) (A : gset Z) : Prop := forall p, p ∈ A <-> arr_get ports p = Some true.

Lemma arr_get_insert ports i (b : bool) p :
  0 <= i < len ports -> arr_get (<[Z.to_nat i := b]> ports) p = if p =? i then Some b else arr_get ports p.
Proof.
  intros Hi. unfold arr_get. destruct (Z.eqb_spec p i) as [->|Hne].
  - destruct (Z.leb_spec 0 i); [|lia]. apply list_lookup_insert_eq. lia.
  - destruct (Z.leb_spec 0 p); [|done]. apply list_lookup_insert_ne. lia.
Qed.

Lemma abs_set ports A p :
  0 <= p < len ports -> abs_ports ports A -> abs_ports (<[Z.to_nat p := true]> ports) ({[p]} ∪ A).
Proof.
  intros Hp HA q. rewrite elem_of_union, elem_of_singleton, (HA q), arr_get_insert by done. destruct (Z.eqb_spec q p); naive_solver.
Qed.
Lemma abs_clear ports A p :
  0 <= p < len ports -> abs_ports ports A -> abs_ports (<[Z.to_nat p := false]> ports) (A ∖ {[p]}).
Proof.
  intros Hp HA q. rewrite elem_of_difference, elem_of_singleton, (HA q), arr_get_insert by done. destruct (Z.eqb_spec q p); naive_solver.
Qed.

(** The operations of the driver that other code calls. *)
Inductive vop := OpAttach (fd devid speed : Z) | OpDetach (p : Z) | OpFree (p : Z) | OpDetachAll.
Definition run_vop (op : vop) : M VhciDriver Z :=
  match op with
  | OpAttach fd devid speed => attach fd devid speed
  | OpDetach p => ok ← detach p; mret (if (ok : bool) then 1 else 0)
  | OpFree p => freePort p ;; mret 0
  | OpDetachAll => detachAll ;; mret 0
  end.
Fixpoint run_vops (ops : list vop) : M VhciDriver (list Z) :=
  match ops with
  | [] => mret []
  | op :: ops' => r ← run_vop op; rs ← run_vops ops'; mret (r :: rs)
  end.

(** What an operation that answers [res] did to the allocator. *)
Definition op_did (op : vop) (res : Z) (evs : list port_ev) : Prop :=
  match op with
  | OpAttach fd devid speed => if res =? -1 then evs = [] else evs = [PAttach res fd devid speed]
  | OpDetach p => if res =? 1 then evs = [PDetach p] else evs = []
  | OpFree p => evs = if (0 <=? p) && (p <? max_ports_) then [PFree p] else []
  | OpDetachAll => Forall (fun e => exists p, e = PDetach p) evs
  end.

Section Refine.
Context (E : env).
Implicit Types (w : world VhciDriver).

(** From [w] to [w'] the driver made the steps [evs] of the allocator. *)
Definition vhci_sim (A : gset Z) w (evs : list port_ev) (A' : gset Z) w' : Prop :=
  port_steps A evs A' /\ abs_ports (ports_ (st w')) A' /\ vhci_ok (st w') /\
  sysfs_log (tr w') = sysfs_log (tr w) ++ omap ev_write evs.

Lemma sim_refl A w : vhci_ok (st w) -> abs_ports (ports_ (st w)) A -> vhci_sim A w [] A w.
Proof. intros. split_and!; [constructor|done..|]. cbn. by rewrite app_nil_r. Qed.
Lemma sim_trans A w evs A1 w1 evs' A2 w2 :
  vhci_sim A w evs A1 w1 -> vhci_sim A1 w1 evs' A2 w2 -> vhci_sim A w (evs ++ evs') A2 w2.
Proof.
  intros (H1 & _ & _ & L1) (H2 & ? & ? & L2). split_and!; [by eapply port_steps_app|done..|].
  by rewrite L2, L1, omap_app, app_assoc.
Qed.
(** A step that sets or clears one entry. *)
Lemma sim_step A w e A' p b t' :
  vhci_ok (st w) -> 0 <= p < max_ports_ -> port_step A e A' ->
  abs_ports (<[Z.to_nat p := b]> (ports_ (st w))) A' -> sysfs_log t' = sysfs_log (tr w) ++ omap ev_write [e] ->
  vhci_sim A w [e] A' (World (set_ports (<[Z.to_nat p := b]> (ports_ (st w))) (st w)) t').
Proof. intros. split_and!; [by apply port_steps_one|done|by apply vhci_ok_insert|done]. Qed.

Lemma sim_same A w w' :
  vhci_ok (st w) -> abs_ports (ports_ (st w)) A -> st w' = st w -> sysfs_log (tr w') = sysfs_log (tr w) -> vhci_sim A w [] A w'.
Proof. intros Hv HA Hst Hl. split_and!; [constructor|by rewrite Hst..|]. cbn. by rewrite app_nil_r. Qed.

Lemma detach_sim A p w own rest :
  vhci_ok (st w) -> abs_ports (ports_ (st w)) A -> holds_fds (tr w) own rest ->
  wp (detach p) E w (fun ok w' => holds_fds (tr w') own rest /\ exists A', vhci_sim A w (if ok then [PDetach p] else []) A' w').
Proof.
  intros Hv HA Hf. eapply wp_mono; [|by apply detach_wp]. intros [|] w' [Hf' H]; (split; [done|]).
  - destruct H as (Hu & Hst & Hl). pose proof (arr_get_inv _ _ _ Hu) as [Hr _]. exists (A ∖ {[p]}).
    destruct w' as [s' t']. cbn [st tr] in *. subst s'. apply sim_step; [done|by rewrite <- Hv|constructor; by apply HA|by apply abs_clear|done].
  - destruct H as (? & ? & _). exists A. by apply sim_same.
Qed.

Lemma detachAll_sim A w own rest :
  vhci_ok (st w) -> abs_ports (ports_ (st w)) A -> holds_fds (tr w) own rest ->
  wp detachAll E w (fun _ w' => holds_fds (tr w') own rest /\
    exists evs A', vhci_sim A w evs A' w' /\ Forall (fun e => exists p, e = PDetach p) evs).
Proof.
  intros Hv HA Hf.
  apply (wp_for_range E _ _ _ (fun _ w' => holds_fds (tr w') own rest /\
    exists evs A', vhci_sim A w evs A' w' /\ Forall (fun e => exists p, e = PDetach p) evs)).
  - split; [done|]. exists [], A. split; [by apply sim_refl|constructor].
  - intros i w' Hi (Hf' & evs & A' & Hs & Hall). destruct (Hs) as (_ & HA' & Hv' & _).
    apply wp_bind, wp_get. destruct (arr_get_Some (ports_ (st w')) i) as [u Hu]; [rewrite Hv'; change (Z.of_nat (Z.to_nat max_ports_)) with max_ports_ in Hi; lia|].
    apply wp_bind. eapply wp_checked; [exact Hu|]. unfold when. destruct u; [|by apply wp_ret; eauto 10].
    apply wp_bind. eapply wp_mono; [|by eapply detach_sim]. intros ok w2 (Hf2 & A2 & Hs2). apply wp_ret. split; [done|].
    eexists _, A2. split; [by eapply sim_trans|]. apply Forall_app_2; [done|]. destruct ok; [|constructor].
    apply Forall_singleton. eauto.
  - by intros w' H.
Qed.

Lemma run_vop_sim op A w own rest :
  vhci_ok (st w) -> abs_ports (ports_ (st w)) A -> holds_fds (tr w) own rest ->
  wp (run_vop op) E w (fun res w' => holds_fds (tr w') own rest /\
    exists evs A', vhci_sim A w evs A' w' /\ op_did op res evs).
Proof.
  intros Hv HA Hf. destruct op as [fd devid speed|p|p|]; cbn [run_vop].
  - eapply wp_mono; [|by apply attach_wp]. intros p w' [Hf' [(-> & Hst & Hl & _)|(Hp & [Hfree Hlow] & Hst & Hl)]]; (split; [done|]).
    + exists [], A. split; [by apply sim_same|done].
    + exists [PAttach p fd devid speed], ({[p]} ∪ A). cbn [op_did]. destruct (Z.eqb_spec p (-1)); [lia|]. split; [|done].
      destruct w' as [s' t']. cbn [st tr] in *. subst s'. apply sim_step; [done..| |apply abs_set; [by rewrite Hv|done]|done].
      constructor; [done|by rewrite (HA p), Hfree|]. intros q Hq. by apply HA, Hlow.
  - apply wp_bind. eapply wp_mono; [|by eapply detach_sim]. intros ok w' (Hf' & A' & Hs). apply wp_ret. split; [done|].
    eexists _, A'. split; [done|]. by destruct ok.
  - apply wp_bind. eapply wp_mono; [|by apply freePort_wp]. intros [] w' [Ht Hst]. apply wp_ret. rewrite Ht. split; [done|].
    cbn [op_did]. destruct ((0 <=? p) && (p <? max_ports_)) eqn:Hr.
    + apply andb_true_iff in Hr as [?%Z.leb_le ?%Z.ltb_lt]. exists [PFree p], (A ∖ {[p]}). split; [|done].
      destruct w' as [s' t']. cbn [st tr] in *. subst s' t'. apply sim_step; [done|lia|by constructor| |by rewrite app_nil_r].
      apply abs_clear; [rewrite Hv; lia|done].
    + exists [], A. split; [|done]. by apply sim_same; [..|rewrite Ht].
  - apply wp_bind. eapply wp_mono; [|by apply detachAll_sim]. intros [] w' (Hf' & evs & A' & Hs). apply wp_ret. eauto 6.
Qed.
End Refine.

(** C6: the port table is a port allocator.  Whatever sequence of attach, detach, free and detach-all
    the daemon performs, and however sysfs behaves, the driver's table is the state of the abstract
    allocator after some events: an attach that succeeds takes the lowest free port and reports it,
    a detach releases the named port, and the texts written to the attach and detach files of sysfs
    are exactly those of the events, in order; every file is closed again. *)
Theorem vhci_refines E ops :
  exists res w', run_vops ops E (World VhciDriver0 []) = Some (res, w') /\
    exists evss A, Forall3 op_did ops res evss /\ port_steps ∅ (mjoin evss) A /\ abs_ports (ports_ (st w')) A /\
      sysfs_log (tr w') = omap ev_write (mjoin evss) /\ fd_run [] (tr w') = Some [].
Proof.
  assert (forall ops A w, vhci_ok (st w) -> abs_ports (ports_ (st w)) A -> holds_fds (tr w) [] [] ->
    wp (run_vops ops) E w (fun res w' => holds_fds (tr w') [] [] /\
      exists evss A', vhci_sim A w (mjoin evss) A' w' /\ Forall3 op_did ops res evss)) as Hrun.
  { clear ops. induction ops as [|op ops IH]; intros A w Hv HA Hf; cbn [run_vops].
    - apply wp_ret. split; [done|]. exists [], A. split; [by apply sim_refl|constructor].
    - apply wp_bind. eapply wp_mono; [|by eapply run_vop_sim]. intros r w1 (Hf1 & evs & A1 & Hs1 & Hd1).
      destruct (Hs1) as (_ & HA1 & Hv1 & _). apply wp_bind. eapply wp_mono; [|by eapply (IH A1)].
      intros rs w2 (Hf2 & evss & A2 & Hs2 & Hd2). apply wp_ret. split; [done|]. exists (evs :: evss), A2.
      split; [|by constructor]. cbn. by eapply sim_trans. }
  assert (abs_ports (ports_ VhciDriver0) ∅) as H0.
  { intros p. split; [set_solver|]. intros Hp. apply arr_get_inv in Hp as [_ Hp]. by apply lookup_replicate in Hp as [? _]. }
  destruct (wp_run _ _ _ _ (Hrun ops ∅ (World VhciDriver0 []) eq_refl H0 holds_nil))
    as (res & w' & Hr & (l & Hl & Hp) & evss & A & (H1 & H2 & _ & H3) & H4).
  exists res, w'. split; [done|]. apply Permutation_nil_r in Hp as ->. by exists evss, A.
Qed.
