(* ===== verification/Passthrough.v ===== *)
(** * The pass-through handler (daemon/src/handlers/PassthroughHandler)

    One handler per session: what the kernel writes to the socketpair goes to
    the device's TCP socket as RAW_DATA packets, and RAW_DATA payloads from the
    device are written to the socketpair.  The TCP socket a handler refers to is
    the descriptor it owns. *)

From S2P Require Import Prelude Effects Descriptors Protocol Linux SimOs DaemonNet.

Definition READ_BUF : Z := 65536.

Record PassthroughHandler := Passthrough {
  ph_vhci_fd : Z;
  ph_sock : Z;
  ph_device_id : Z;
  ph_seq : Z;
}.
Definition PassthroughHandler_ctor (vhci_fd sock device_id : Z) : PassthroughHandler := Passthrough vhci_fd sock device_id 0.
Definition set_seq (q : Z) (h : PassthroughHandler) : PassthroughHandler :=
  Passthrough (ph_vhci_fd h) (ph_sock h) (ph_device_id h) q.

Section Handler.
Context (fuel : nat).

Definition sendRawDataPacket (data : bytes) : M PassthroughHandler unit :=
  h ← get;
  modify (set_seq (u8 (ph_seq h + 1))) ;;
  let actual_len := if 65535 <? len data then 65535 else len data in
  let hdr := mkHeader CMD_RAW_DATA (ph_device_id h) 0x00 (ph_seq h) (u16 actual_len) in
  ok ← sendExactly fuel (ph_sock h) (encode hdr);
  if negb ok then mret tt else
  d ← checked (buf_read data 0 actual_len);
  sendExactly fuel (ph_sock h) d ;;
  mret tt.

(** [while (written < len)] *)
Fixpoint write_loop (rounds : nat) (fd : Z) (data : bytes) (written : Z) : M PassthroughHandler bool :=
  match rounds with
  | O => checked None
  | S n =>
      if written <? len data then
        w ← call_ext (CWrite fd (drop (Z.to_nat written) data));
        if r_ret w <? 0 then
          if r_aux w =? EINTR then write_loop n fd data written else mret false
        else write_loop n fd data (written + r_ret w)
      else mret true
  end.
Definition writeToKernel (data : bytes) : M PassthroughHandler bool :=
  h ← get; write_loop fuel (ph_vhci_fd h) data 0.

(** [while (true)] *)
Fixpoint drain_loop (rounds : nat) : M PassthroughHandler bool :=
  match rounds with
  | O => checked None
  | S n =>
      h ← get;
      r ← call_ext (CRead (ph_vhci_fd h) READ_BUF);
      if r_ret r =? 0 then mret false else
      if r_ret r <? 0 then mret ((r_aux r =? EAGAIN) || (r_aux r =? EWOULDBLOCK)) else
      sendRawDataPacket (r_out r) ;;
      drain_loop n
  end.
Definition onVhciReadable : M PassthroughHandler bool := drain_loop fuel.

Definition onDeviceData (payload : bytes) : M PassthroughHandler bool := writeToKernel payload.
End Handler.

(** ** Streams *)

(** The packet for one read of the kernel's side. *)
Definition raw_packet (id seq : Z) (d : bytes) : bytes :=
  encode (mkHeader CMD_RAW_DATA id 0 seq (len (take (Z.to_nat 65535) d))) ++ take (Z.to_nat 65535) d.
(** The packets for successive reads, numbered from [seq]. *)
Fixpoint raw_packets (id seq : Z) (ds : list bytes) : bytes :=
  match ds with
  | [] => []
  | d :: ds' => raw_packet id seq d ++ raw_packets id (u8 (seq + 1)) ds'
  end.

Section Specs.
Context (E : env) (K : Z) (Hok : linux_ok E) (Hp : patient K E).
Context (fuel : nat) (Hfuel : 65536 * (K + 1) <= Z.of_nat fuel).
Implicit Types (w : world PassthroughHandler).

Lemma K_nonneg : 0 <= K.
Proof. apply (pt_nonneg _ _ Hp). Qed.

Lemma reads_sends fd sock t t' :
  (exists d, t' = t ++ d /\ Forall (send_call sock) (calls d)) ->
  reads fd t' = reads fd t /\ kernel_reads fd t' = kernel_reads fd t.
Proof.
  intros (d & -> & Hd). revert t. induction d as [|[c r] d IH]; intros t; [by rewrite app_nil_r|].
  apply Forall_cons_1 in Hd as [Hc Hd]. change (t ++ (c, r) :: d) with (t ++ [(c, r)] ++ d). rewrite app_assoc.
  destruct (IH Hd (t ++ [(c, r)])) as [-> ->]. unfold reads, kernel_reads. rewrite reverse_snoc, bind_app, stream_one.
  destruct c; try done; cbn; by rewrite app_nil_r.
Qed.

(** A packet went out whole, if the connection works; nothing was read meanwhile. *)
Definition packet_sent (data : bytes) w w' : Prop :=
  st w' = set_seq (u8 (ph_seq (st w) + 1)) (st w) /\ io_since [ph_sock (st w)] (tr w) (tr w') /\
  (forall fd, reads fd (tr w') = reads fd (tr w) /\ kernel_reads fd (tr w') = kernel_reads fd (tr w)) /\
  (send_works E (ph_sock (st w)) ->
   sent (ph_sock (st w)) (tr w') = sent (ph_sock (st w)) (tr w) ++ raw_packet (ph_device_id (st w)) (ph_seq (st w)) data).

Lemma sendExactly_either fd data w :
  len data <= 65535 ->
  wp (sendExactly fuel fd data) E w (fun b w' => st w' = st w /\ io_since [fd] (tr w) (tr w') /\
    (forall f, reads f (tr w') = reads f (tr w) /\ kernel_reads f (tr w') = kernel_reads f (tr w)) /\
    (send_works E fd -> b = true /\ sent fd (tr w') = sent fd (tr w) ++ data)).
Proof.
  intros Hl. assert ((len data + 1) * (K + 1) <= Z.of_nat fuel) as Hf by (pose proof K_nonneg; nia).
  pose proof (wp_calls _ _ _ _ _ (sendExactly_calls fuel fd data) (sendExactly_wp E K Hok Hp fuel fd data w Hf)) as Hw.
  destruct (wp_run _ _ _ _ Hw) as (b & w' & Hr & (Hst & Hio & _) & Hd). unfold wp. rewrite Hr.
  split_and!; [done..| |]; [intros f; by eapply reads_sends|]. intros Hs.
  pose proof (sendExactly_works E K fuel fd data w Hok Hp Hs Hf) as Hw2. unfold wp in Hw2. rewrite Hr in Hw2. tauto.
Qed.

Lemma take_cap (data : bytes) : take (Z.to_nat (if 65535 <? len data then 65535 else len data)) data = take (Z.to_nat 65535) data.
Proof. destruct (Z.ltb_spec 65535 (len data)); [done|]. rewrite Nat2Z.id, !take_ge; [done|lia..]. Qed.

Lemma sendRawDataPacket_wp data w : wp (sendRawDataPacket fuel data) E w (fun _ w' => packet_sent data w w').
Proof.
  unfold sendRawDataPacket. apply wp_bind, wp_get. apply wp_bind, wp_modify. cbn [st tr].
  set (n := if 65535 <? len data then 65535 else len data).
  assert (0 <= n <= 65535 /\ n <= len data) as Hn by (unfold n; destruct (Z.ltb_spec 65535 (len data)); lia).
  assert (take (Z.to_nat n) data = take (Z.to_nat 65535) data) as Ht by apply take_cap. clearbody n.
  assert (len (take (Z.to_nat 65535) data) = n) as Hlt by (rewrite <- Ht, length_take; lia).
  apply wp_bind. eapply wp_mono; [|apply sendExactly_either; rewrite encode_size; cbn; lia].
  intros ok w1 (Hst1 & Hio1 & Hr1 & Hw1). cbn [st tr] in *. destruct ok; cbn [negb].
  2:{ apply wp_ret. split_and!; [done..|]. intros Hs. destruct (Hw1 Hs). done. }
  apply wp_bind. eapply wp_checked; [apply buf_read_Some; lia|]. rewrite drop_0, Ht.
  apply wp_bind. eapply wp_mono; [|apply sendExactly_either; lia]. intros b w2 (Hst2 & Hio2 & Hr2 & Hw2). apply wp_ret.
  split_and!; [by rewrite Hst2|by eapply io_trans| |].
  - intros f. destruct (Hr2 f) as [-> ->]. apply Hr1.
  - intros Hs. destruct (Hw2 Hs) as [_ ->]. destruct (Hw1 Hs) as [_ ->]. rewrite <- app_assoc. unfold raw_packet.
    rewrite Hlt. by rewrite u16_id by solve_width.
Qed.

(** Draining: the reads made, the packets they became, and why it stopped. *)
Definition drained w (res : bool) w' : Prop :=
  exists ds, kernel_reads (ph_vhci_fd (st w)) (tr w') = kernel_reads (ph_vhci_fd (st w)) (tr w) ++ ds /\
    (exists q, st w' = set_seq q (st w)) /\
    io_since [ph_sock (st w); ph_vhci_fd (st w)] (tr w) (tr w') /\
    (exists r, last (tr w') = Some (CRead (ph_vhci_fd (st w)) READ_BUF, r) /\
       (exists t, r = E t (CRead (ph_vhci_fd (st w)) READ_BUF)) /\ r_ret r <= 0 /\
       res = (r_ret r <? 0) && (r_aux r =? EAGAIN)) /\
    (send_works E (ph_sock (st w)) ->
     sent (ph_sock (st w)) (tr w') = sent (ph_sock (st w)) (tr w) ++ raw_packets (ph_device_id (st w)) (ph_seq (st w)) ds).

Lemma reads_read fd t r : 0 < r_ret r -> reads fd (t ++ [(CRead fd READ_BUF, r)]) = 1 + reads fd t.
Proof.
  intros. unfold reads. rewrite reverse_snoc. cbn. rewrite Z.eqb_refl. by destruct (Z.ltb_spec 0 (r_ret r)); [|lia].
Qed.

Lemma io_read fds fd n t r : fd ∈ fds -> io_since fds t (t ++ [(CRead fd n, r)]).
Proof. intros. apply io_snoc; [|apply io_refl]. split; [done|]. by apply Forall_singleton. Qed.

Lemma drain_loop_wp rounds w :
  Z.max 0 (K - reads (ph_vhci_fd (st w)) (tr w)) < Z.of_nat rounds -> wp (drain_loop fuel rounds) E w (drained w).
Proof.
  revert w. induction rounds as [|n IH]; intros w Hn; [lia|].
  cbn [drain_loop]. apply wp_bind, wp_get. apply wp_bind, wp_call. intros r Hr. set (fd := ph_vhci_fd (st w)) in *.
  assert (io_since [ph_sock (st w); fd] (tr w) (tr w ++ [(CRead fd READ_BUF, r)])) as Hio by (apply io_read; set_solver).
  assert (r_ret r <= 0 -> drained w ((r_ret r <? 0) && (r_aux r =? EAGAIN)) (World (st w) (tr w ++ [(CRead fd READ_BUF, r)]))) as Hstop.
  { intros Hle. exists []. cbn [st tr]. fold fd. rewrite kernel_reads_read. destruct (Z.ltb_spec 0 (r_ret r)); [lia|].
    split_and!; [done|exists (ph_seq (st w)); by destruct (st w)|done|exists r; rewrite last_snoc; by split_and!; [|exists (tr w)|..]|].
    intros _. cbn. by rewrite sent_none, app_nil_r. }
  unfold EWOULDBLOCK. rewrite orb_diag. destruct (Z.eqb_spec (r_ret r) 0) as [He|].
  { apply wp_ret. rewrite He in Hstop. by apply Hstop. }
  destruct (Z.ltb_spec (r_ret r) 0); [apply wp_ret, Hstop; lia|]. clear Hstop.
  assert (reads fd (tr w) < K) as Hk.
  { destruct (decide (K <= reads fd (tr w))) as [Hle|]; [|lia].
    pose proof (pt_read _ _ Hp _ _ READ_BUF Hle) as Hz. rewrite <- Hr in Hz. lia. }
  apply wp_bind. eapply wp_mono; [|apply sendRawDataPacket_wp]. intros [] w1 (Hst1 & Hio1 & Hr1 & Hs1). cbn [st tr] in *.
  destruct (Hr1 fd) as [Hrd Hkr]. rewrite reads_read in Hrd by lia. rewrite kernel_reads_read in Hkr.
  destruct (Z.ltb_spec 0 (r_ret r)); [|lia].
  eapply wp_mono; [|apply IH; rewrite Hst1; cbn [set_seq ph_vhci_fd]; fold fd; lia].
  intros res w2 (ds & H1 & (q & H2) & H3 & H4 & H5). rewrite Hst1 in *. cbn [set_seq ph_vhci_fd ph_sock ph_device_id ph_seq] in *.
  fold fd in H1, H3, H4. exists (r_out r :: ds). fold fd. split_and!; [|by exists q| |done|].
  - by rewrite H1, Hkr, <- app_assoc.
  - eapply io_trans; [exact Hio|]. eapply io_trans; [|exact H3]. eapply io_mono; [|exact Hio1]. set_solver.
  - intros Hs. rewrite (H5 Hs), (Hs1 Hs). cbn [raw_packets]. rewrite <- app_assoc. f_equal. apply sent_none. done.
Qed.

Lemma onVhciReadable_wp w : wp (onVhciReadable fuel) E w (drained w).
Proof.
  apply drain_loop_wp. pose proof K_nonneg. pose proof (reads_nonneg (ph_vhci_fd (st w)) (tr w)). lia.
Qed.

Lemma write_loop_wp rounds fd data from w :
  0 <= from <= len data -> budget K (len data - from) (retries fd (tr w)) <= Z.of_nat rounds ->
  wp (write_loop rounds fd data from) E w (send_post (written fd) fd data from w).
Proof.
  revert from w. induction rounds as [|n IH]; intros from w Hfrom Hf.
  { pose proof (budget_pos K (len data - from) (retries fd (tr w)) K_nonneg). lia. }
  cbn [write_loop]. destruct (Z.ltb_spec from (len data)).
  2:{ apply wp_ret. destruct w as [s t]. apply (send_post_stop _ fd data from (World s t)); [done|apply io_refl|done|split; lia || done]. }
  apply wp_bind, wp_call. intros r Hr. set (d := drop (Z.to_nat from) data) in *.
  assert (len d = len data - from) as Hd by (unfold d; rewrite length_drop; lia).
  pose proof (lx_write _ Hok (tr w) fd d) as Hle. rewrite <- Hr in Hle.
  assert (io_since [fd] (tr w) (tr w ++ [(CWrite fd d, r)])) as Hio by (apply io_snoc; [by apply io_one|apply io_refl]).
  pose proof (patient_retry E K Hp (tr w) fd (CWrite fd d) (len data - from) r Hr) as Hag.
  pose proof (fun m' => patient_progress E K Hp (tr w) fd (CWrite fd d) (len data - from) m' r I) as Hpr.
  cbn [is_retry fst snd] in Hag, Hpr. rewrite Z.eqb_refl in Hag, Hpr. cbn [andb] in Hag, Hpr.
  replace (negb (len d =? 0)) with true in Hag, Hpr by (destruct (Z.eqb_spec (len d) 0); [lia|done]). cbn [andb] in Hag, Hpr.
  assert (0 <= r_ret r -> budget K (len data - (from + r_ret r)) (retries fd (tr w ++ [(CWrite fd d, r)])) <= Z.of_nat n) as Hb.
  { intros Hr0. destruct (Z.eqb_spec (r_ret r) 0) as [He|]; cbn [orb] in *.
    - rewrite He, Z.add_0_r. specialize (Hag eq_refl). lia.
    - rewrite again_nonneg in Hpr by done. specialize (Hpr (len data - (from + r_ret r)) eq_refl ltac:(lia)). lia. }
  destruct (Z.ltb_spec (r_ret r) 0).
  - assert (written fd (tr w ++ [(CWrite fd d, r)]) = written fd (tr w)) as Hs by (apply written_none; lia).
    destruct (r_aux r =? EINTR) eqn:Hei; [|apply wp_ret, send_post_stop; [lia|done..|]; split; [done|lia]].
    rewrite again_neg, Hei, orb_true_r in Hag by done. specialize (Hag eq_refl).
    eapply wp_mono; [|apply (IH from (World _ _)); cbn [tr]; [done|lia]]. intros res w' Hpost.
    apply (send_post_step _ fd data from 0 w (tr w ++ [(CWrite fd d, r)])); [lia..|done| |by rewrite Z.add_0_r].
    by rewrite take_0, app_nil_r.
  - eapply wp_mono; [|apply (IH (from + r_ret r) (World _ _)); cbn [tr]; [lia|auto]].
    intros res w' Hpost. eapply send_post_step; [..|exact Hpost]; [lia..|done|].
    destruct (Z.eqb_spec (r_ret r) 0) as [He|]; [rewrite He, take_0, app_nil_r; apply written_none; lia|apply written_write; lia].
Qed.

Lemma onDeviceData_wp data w :
  len data <= 65535 -> wp (onDeviceData fuel data) E w (send_post (written (ph_vhci_fd (st w))) (ph_vhci_fd (st w)) data 0 w).
Proof.
  intros Hl. apply wp_bind, wp_get. apply write_loop_wp; [lia|]. rewrite Z.sub_0_r.
  pose proof (patient_start E K Hp (tr w) (ph_vhci_fd (st w)) (len data)). pose proof K_nonneg. nia.
Qed.

(** Writes to the socketpair go through, retries apart. *)
Definition write_works (fd : Z) : Prop :=
  forall t d, d <> [] -> let r := E t (CWrite fd d) in 0 <= r_ret r \/ r_aux r = EINTR.

Lemma write_loop_works rounds fd data from w w' b :
  write_works fd -> 0 <= from -> write_loop rounds fd data from E w = Some (b, w') -> b = true.
Proof.
  intros Hw. revert from w. induction rounds as [|n IH]; intros from w Hfrom; cbn [write_loop]; [done|].
  destruct (Z.ltb_spec from (len data)); [|by intros [= <- _]].
  unfold mbind, M_bind, call_ext. set (r := E (tr w) (CWrite fd (drop (Z.to_nat from) data))).
  assert (0 <= r_ret r \/ r_aux r = EINTR) as Hr.
  { apply Hw. intros He. apply (f_equal length) in He. rewrite length_drop in He. cbn in He. lia. }
  destruct (Z.ltb_spec (r_ret r) 0); [|apply IH; lia]. destruct Hr as [|Hr]; [lia|]. rewrite Hr, Z.eqb_refl. by apply IH.
Qed.

(** The kernel gets a prefix of the data, and all of it when the writes go through. *)
Lemma onDeviceData_written data w :
  len data <= 65535 -> wp (onDeviceData fuel data) E w (fun _ w' => exists n,
    written (ph_vhci_fd (st w)) (tr w') = written (ph_vhci_fd (st w)) (tr w) ++ take n data /\
    (write_works (ph_vhci_fd (st w)) -> take n data = data)).
Proof.
  intros Hl. destruct (wp_run _ _ _ _ (onDeviceData_wp data w Hl)) as (b & w' & Hr & _ & _ & k & Hk & Hb & Hw).
  unfold wp. rewrite Hr. exists (Z.to_nat k). rewrite Hw, Z.sub_0_r, drop_0. split; [done|]. intros Hworks.
  apply write_loop_works in Hr; [|done|lia]. apply take_ge. apply Hb in Hr. lia.
Qed.
End Specs.

(** ** What the handler guarantees *)

(** C14: draining forwards the kernel's requests in order.  [onVhciReadable] ends when the kernel's side
    has no more data, reports whether it ended because nothing was left (true) or because the
    socketpair was closed or failed (false), and on a connection that takes data the device has been
    sent one RAW_DATA packet per read, in the order of the reads, with consecutive sequence numbers
    modulo 256; a packet carries the first 65535 bytes of its read. *)
Theorem drain_forwards E K fuel (w : world PassthroughHandler) :
  linux_ok E -> patient K E -> 65536 * (K + 1) <= Z.of_nat fuel -> send_works E (ph_sock (st w)) ->
  exists res w' ds r, onVhciReadable fuel E w = Some (res, w') /\
    kernel_reads (ph_vhci_fd (st w)) (tr w') = kernel_reads (ph_vhci_fd (st w)) (tr w) ++ ds /\
    sent (ph_sock (st w)) (tr w') = sent (ph_sock (st w)) (tr w) ++ raw_packets (ph_device_id (st w)) (ph_seq (st w)) ds /\
    last (tr w') = Some (CRead (ph_vhci_fd (st w)) READ_BUF, r) /\ r_ret r <= 0 /\
    res = (r_ret r <? 0) && (r_aux r =? EAGAIN).
Proof.
  intros Hok Hp Hf Hs. destruct (wp_run _ _ _ _ (onVhciReadable_wp E K Hok Hp fuel Hf w)) as (res & w' & Hr & ds & H1 & _ & _ & (r & ? & _ & ? & ?) & H2).
  exists res, w', ds, r. split_and!; try done. by apply H2.
Qed.

(** Two requests are waiting on descriptor 6. *)
Definition two_requests : sim := Sim (fun _ => []) 1 (fun fd => if fd =? 6 then [[1; 2; 3]; [4; 5]] else []) [] [].
Lemma two_requests_ok : sim_ok two_requests 2.
Proof.
  constructor; [constructor|done| |constructor]. intros fd. cbn. destruct (fd =? 6); cbn; (split; [|lia]); repeat constructor; done.
Qed.
Lemma sim_send_works s fd : send_works (sim_env s) fd.
Proof. intros t [|x d] Hd; [done|]. left. cbn. lia. Qed.

Lemma drain_forwards_witness :
  exists res w', onVhciReadable (Z.to_nat 200000) (sim_env two_requests) (World (Passthrough 6 7 3 255) []) = Some (res, w') /\
    sent 7 (tr w') = raw_packet 3 255 [1; 2; 3] ++ raw_packet 3 0 [4; 5].
Proof.
  destruct (drain_forwards (sim_env two_requests) 2 (Z.to_nat 200000) (World (Passthrough 6 7 3 255) [])
    (sim_linux_ok _ _ two_requests_ok) (sim_patient _ _ two_requests_ok ltac:(lia)) ltac:(lia) (sim_send_works _ _))
    as (res & w' & ds & r & Hr & Hk & Hs & _).
  exists res, w'. split; [exact Hr|]. cbn [st tr ph_vhci_fd ph_sock ph_device_id ph_seq] in *. rewrite Hs.
  assert (ds = [[1; 2; 3]; [4; 5]]) as ->.
  { vm_compute in Hr. injection Hr as <- <-. vm_compute in Hk. by rewrite <- Hk. }
  vm_compute. reflexivity.
Defined.

Lemma send_loop_st {S} E fuel fd data from (w w' : world S) b : send_loop fuel fd data from E w = Some (b, w') -> st w' = st w.
Proof.
  revert from w. induction fuel as [|fuel IH]; intros from w; cbn [send_loop]; [done|].
  destruct (from <? len data); [|by intros [= _ <-]]. unfold mbind, M_bind, call_ext.
  repeat case_match; intros Hr; try (injection Hr as _ <-; done); by apply IH in Hr.
Qed.

Lemma sendRawDataPacket_calls fuel data : only_calls (fun c => exists fd, send_call fd c) (sendRawDataPacket fuel data).
Proof.
  unfold sendRawDataPacket. repeat only_step; (eapply only_mono; [|apply sendExactly_calls]); eauto.
Qed.

(** A packet keeps the handler's descriptors, and no descriptor is opened. *)
Lemma sendRawDataPacket_keeps E fuel data w w' :
  sendRawDataPacket fuel data E w = Some (tt, w') ->
  ph_vhci_fd (st w') = ph_vhci_fd (st w) /\ forall fd, blocking fd (tr w') = blocking fd (tr w).
Proof.
  intros Hr. split.
  - revert Hr. unfold sendRawDataPacket, mbind, M_bind, get, modify. cbn [st tr].
    destruct (sendExactly fuel _ _ E _) as [[[] w1]|] eqn:H1; cbn [negb]; [| |done].
    + unfold checked. destruct (buf_read _ _ _) as [d|]; [|done].
      destruct (sendExactly fuel _ _ E w1) as [[b w2]|] eqn:H2; [|done]. intros [= <-].
      apply send_loop_st in H1, H2. by rewrite H2, H1.
    + intros [= <-]. apply send_loop_st in H1. by rewrite H1.
  - intros fd. destruct (sendRawDataPacket_calls _ _ _ _ _ _ Hr) as (d & -> & Hd). clear Hr. generalize (tr w) as t.
    induction d as [|[c r] d IH]; intros t; [by rewrite app_nil_r|]. apply Forall_cons_1 in Hd as [[f Hc] Hd].
    change (t ++ (c, r) :: d) with (t ++ [(c, r)] ++ d). rewrite app_assoc, IH by done. apply blocking_snoc. by destruct c.
Qed.

(** On a blocking socketpair the loop stops only at a read that returns 0 or fails for another reason
    than EAGAIN. *)
Lemma drain_blocking E fuel rounds w w' res :
  blocking_ok E -> blocking (ph_vhci_fd (st w)) (tr w) = true -> drain_loop fuel rounds E w = Some (res, w') ->
  res = false /\ exists r, last (tr w') = Some (CRead (ph_vhci_fd (st w)) READ_BUF, r) /\
    (r_ret r = 0 \/ r_ret r < 0 /\ r_aux r <> EAGAIN).
Proof.
  intros Hb. revert w. induction rounds as [|n IH]; intros w Hbl; cbn [drain_loop]; [done|].
  unfold mbind at 1 2, M_bind at 1 2, get, call_ext. set (r := E (tr w) (CRead (ph_vhci_fd (st w)) READ_BUF)).
  destruct (Z.eqb_spec (r_ret r) 0) as [Hz|_].
  { intros [= <- <-]. split; [done|]. exists r. cbn [tr]. rewrite last_snoc. auto. }
  destruct (Z.ltb_spec (r_ret r) 0) as [Hlt|].
  { intros [= <- <-]. pose proof (Hb _ _ READ_BUF Hbl Hlt) as Ha. fold r in Ha. unfold EWOULDBLOCK.
    destruct (Z.eqb_spec (r_aux r) EAGAIN); [done|]. split; [done|]. exists r. cbn [tr]. rewrite last_snoc. auto. }
  unfold mbind, M_bind. destruct (sendRawDataPacket fuel (r_out r) E _) as [[[] w1]|] eqn:Hs; [|done].
  destruct (sendRawDataPacket_keeps _ _ _ _ _ Hs) as [Hfd Hk]. cbn [st tr] in *. intros Hr.
  destruct (IH w1) as (-> & Hl); [by rewrite Hfd, Hk, blocking_snoc|done|]. split; [done|]. by rewrite Hfd in Hl.
Qed.

(** C38: the drain loop does not hand control back while the kernel's side is open.  The socketpair is
    created without SOCK_NONBLOCK, and a read of a blocking descriptor never fails with EAGAIN.
    Whenever [onVhciReadable] has a result it is false, and its last call is a read of the
    socketpair that returned 0 (the kernel closed it) or failed for another reason; so until then
    the event loop stands still.  And if after [K] messages the kernel does stop, it has that
    result, having read some messages and forwarded each of them, in order, when the connection
    takes data. *)
Theorem drain_never_idle E fuel (w : world PassthroughHandler) :
  let fd := ph_vhci_fd (st w) in
  blocking_ok E -> blocking fd (tr w) = true ->
  (forall res w', onVhciReadable fuel E w = Some (res, w') ->
     res = false /\ exists r, last (tr w') = Some (CRead fd READ_BUF, r) /\ (r_ret r = 0 \/ r_ret r < 0 /\ r_aux r <> EAGAIN)) /\
  (forall K, linux_ok E -> patient K E -> 65536 * (K + 1) <= Z.of_nat fuel ->
     exists w' ds, onVhciReadable fuel E w = Some (false, w') /\ kernel_reads fd (tr w') = kernel_reads fd (tr w) ++ ds /\
       (send_works E (ph_sock (st w)) ->
        sent (ph_sock (st w)) (tr w') = sent (ph_sock (st w)) (tr w) ++ raw_packets (ph_device_id (st w)) (ph_seq (st w)) ds)).
Proof.
  intros fd Hb Hbl. split; [intros res w'; by apply drain_blocking|]. intros K Hok Hp Hf.
  destruct (wp_run _ _ _ _ (onVhciReadable_wp E K Hok Hp fuel Hf w)) as (res & w' & Hr & ds & H1 & _ & _ & _ & H2).
  pose proof (drain_blocking E fuel fuel w w' res Hb Hbl Hr) as [-> _]. by exists w', ds.
Qed.

(** The kernel sends one request and closes. *)
Definition one_request : sim := Sim (fun _ => []) 1 (fun fd => if fd =? 6 then [[1; 2; 3]; []] else []) [] [].
Definition blocking_env : env := fun t c =>
  match c with CRead _ _ => let r := sim_env one_request t c in Reply (Z.max 0 (r_ret r)) (r_out r) 0 [] | _ => sim_env one_request t c end.

Lemma drain_never_idle_witness :
  exists w' r, onVhciReadable 10 blocking_env
    (World (Passthrough 6 7 3 0) [(CSocketpair false, Reply 0 [5; 6] 0 [])]) = Some (false, w') /\
    last (tr w') = Some (CRead 6 READ_BUF, r) /\ r_ret r = 0.
Proof.
  destruct (onVhciReadable 10 blocking_env (World (Passthrough 6 7 3 0) [(CSocketpair false, Reply 0 [5; 6] 0 [])]))
    as [[res w']|] eqn:Hr; [|vm_compute in Hr; discriminate].
  destruct (drain_never_idle blocking_env 10 (World (Passthrough 6 7 3 0) [(CSocketpair false, Reply 0 [5; 6] 0 [])])) as [Hd _].
  - intros t fd n _. cbn [blocking_env r_ret]. lia.
  - vm_compute. reflexivity.
  - destruct (Hd res w' Hr) as (-> & r & Hl & _). exists w', r. split; [reflexivity|]. split; [exact Hl|].
    vm_compute in Hr. injection Hr as <-. vm_compute in Hl. injection Hl as <-. reflexivity.
Defined.
