(* ===== verification/HubServer.v ===== *)
(** * The daemon's session table (daemon/src/network/HubServer)

    [HubServer] owns the UDP and TCP listening sockets, the sockets that have
    not announced a device yet, and the sessions.  [sessions_] owns the
    [DeviceSession] objects; [vhci_fd_map_] and [tcp_fd_map_] hold raw pointers
    to them.  The objects live in [heap], pointers are its keys, and following a
    pointer to an object that has been destroyed has no result.  A
    [std::unique_ptr<TcpSocket>] is the descriptor of the socket it owns, [None]
    when it is null.

    The callbacks into main are the interface [HubCallbacks]; what the hub's
    handlers guarantee is proved for any implementation that keeps an
    invariant. *)

From stdpp Require Import strings gmap.
From S2P Require Import Prelude Effects Descriptors Protocol Addr CrashReporter Linux SimOs DaemonNet Passthrough.

Record DeviceSession := mkDeviceSession {
  ds_device_id : Z;
  ds_vhci_port : Z;
  ds_vhci_fd : Z;
  ds_kernel_fd : Z;
  ds_dev_addr : sockaddr_in;
  ds_tcp_sock : option Z;
  ds_handler : option PassthroughHandler;
}.
Definition set_handler (h : PassthroughHandler) (s : DeviceSession) : DeviceSession :=
  mkDeviceSession (ds_device_id s) (ds_vhci_port s) (ds_vhci_fd s) (ds_kernel_fd s) (ds_dev_addr s) (ds_tcp_sock s) (Some h).
Definition set_tcp_sock (t : option Z) (s : DeviceSession) : DeviceSession :=
  mkDeviceSession (ds_device_id s) (ds_vhci_port s) (ds_vhci_fd s) (ds_kernel_fd s) (ds_dev_addr s) t (ds_handler s).

Record HubServer := mkHubServer {
  udp_sock_ : Z;
  tcp_server_ : Z;
  heap : gmap Z DeviceSession;
  next_ptr : Z;
  sessions_ : gmap Z Z;
  vhci_fd_map_ : gmap Z Z;
  tcp_fd_map_ : gmap Z Z;
  pending_tcp_socks_ : gmap Z Z;
}.
Definition set_heap (m : gmap Z DeviceSession) (h : HubServer) : HubServer :=
  mkHubServer (udp_sock_ h) (tcp_server_ h) m (next_ptr h) (sessions_ h) (vhci_fd_map_ h) (tcp_fd_map_ h) (pending_tcp_socks_ h).
Definition set_next (n : Z) (h : HubServer) : HubServer :=
  mkHubServer (udp_sock_ h) (tcp_server_ h) (heap h) n (sessions_ h) (vhci_fd_map_ h) (tcp_fd_map_ h) (pending_tcp_socks_ h).
Definition set_sessions (m : gmap Z Z) (h : HubServer) : HubServer :=
  mkHubServer (udp_sock_ h) (tcp_server_ h) (heap h) (next_ptr h) m (vhci_fd_map_ h) (tcp_fd_map_ h) (pending_tcp_socks_ h).
Definition set_vhci_map (m : gmap Z Z) (h : HubServer) : HubServer :=
  mkHubServer (udp_sock_ h) (tcp_server_ h) (heap h) (next_ptr h) (sessions_ h) m (tcp_fd_map_ h) (pending_tcp_socks_ h).
Definition set_tcp_map (m : gmap Z Z) (h : HubServer) : HubServer :=
  mkHubServer (udp_sock_ h) (tcp_server_ h) (heap h) (next_ptr h) (sessions_ h) (vhci_fd_map_ h) m (pending_tcp_socks_ h).
Definition set_pending_socks (m : gmap Z Z) (h : HubServer) : HubServer :=
  mkHubServer (udp_sock_ h) (tcp_server_ h) (heap h) (next_ptr h) (sessions_ h) (vhci_fd_map_ h) (tcp_fd_map_ h) m.

(** Following a pointer. *)
Definition deref (p : Z) : M HubServer DeviceSession := h ← get; checked (heap h !! p).

(** Calling a method of the handler of the session at [p]. *)
Definition with_handler {A} (p : Z) (m : M PassthroughHandler A) : M HubServer A := fun E w =>
  s ← heap (st w) !! p;
  ph ← ds_handler s;
  match m E (World ph (tr w)) with
  | Some (a, v) => Some (a, World (set_heap (<[p := set_handler (st v) s]> (heap (st w))) (st w)) (tr v))
  | None => None
  end.

(** ** Sessions *)

(** [~DeviceSession], then its members: the handler, then the socket. *)
Definition DeviceSession_dtor (p : Z) : M HubServer unit :=
  s ← deref p;
  close_owned (ds_vhci_fd s) ;;
  close_owned (ds_kernel_fd s) ;;
  (match ds_tcp_sock s with Some fd => TcpSocket_dtor fd | None => mret tt end) ;;
  modify (fun h => set_heap (delete p (heap h)) h).

Definition extractPendingSocket (fd : Z) : M HubServer (option Z) :=
  h ← get;
  match pending_tcp_socks_ h !! fd with
  | Some sock => modify (fun h => set_pending_socks (delete fd (pending_tcp_socks_ h)) h) ;; mret (Some sock)
  | None => mret None
  end.

Definition addSession (device_id vhci_port vhci_fd kernel_fd : Z) (dev_addr : sockaddr_in) (tcp_sock : option Z) : M HubServer unit :=
  h ← get;
  let p := next_ptr h in
  let handler := match tcp_sock with Some fd => Some (PassthroughHandler_ctor vhci_fd fd device_id) | None => None end in
  modify (fun h => set_next (p + 1) (set_heap (<[p := mkDeviceSession device_id vhci_port vhci_fd kernel_fd dev_addr tcp_sock handler]> (heap h)) h)) ;;
  (match tcp_sock with Some tcp_fd => modify (fun h => set_tcp_map (<[tcp_fd := p]> (tcp_fd_map_ h)) h) | None => mret tt end) ;;
  modify (fun h => set_vhci_map (<[vhci_fd := p]> (vhci_fd_map_ h)) h) ;;
  h ← get;
  modify (fun h => set_sessions (<[device_id := p]> (sessions_ h)) h) ;;
  match sessions_ h !! device_id with Some old => DeviceSession_dtor old | None => mret tt end.

Definition removeSession (device_id : Z) : M HubServer unit :=
  h ← get;
  match sessions_ h !! device_id with
  | None => mret tt
  | Some p =>
      s ← deref p;
      modify (fun h => set_vhci_map (delete (ds_vhci_fd s) (vhci_fd_map_ h)) h) ;;
      (match ds_tcp_sock s with Some fd => modify (fun h => set_tcp_map (delete fd (tcp_fd_map_ h)) h) | None => mret tt end) ;;
      modify (fun h => set_sessions (delete device_id (sessions_ h)) h) ;;
      DeviceSession_dtor p
  end.

Definition findByDeviceId (device_id : Z) : M HubServer (option Z) := h ← get; mret (sessions_ h !! device_id).
Definition findByVhciFd (vhci_fd : Z) : M HubServer (option Z) := h ← get; mret (vhci_fd_map_ h !! vhci_fd).
Definition findByTcpFd (tcp_fd : Z) : M HubServer (option Z) := h ← get; mret (tcp_fd_map_ h !! tcp_fd).

(** ** Construction and destruction *)

Definition udpFd (h : HubServer) : Z := udp_sock_ h.
Definition tcpServerFd (h : HubServer) : Z := tcp_server_ h.
Definition hub_empty (udp tcp : Z) : HubServer := mkHubServer udp tcp ∅ 1 ∅ ∅ ∅ ∅.

(** [None] when a socket cannot be opened and the exception leaves main. *)
Definition HubServer_ctor {S} : M S (option HubServer) :=
  udp ← UdpSocket_ctor DAEMON_PORT;
  match udp with
  | None => mret None
  | Some u =>
      tcp ← TcpServer_ctor DAEMON_PORT;
      match tcp with None => mret None | Some t => mret (Some (hub_empty u t)) end
  end.

Fixpoint each {S A} (f : A -> M S unit) (l : list A) : M S unit :=
  match l with [] => mret tt | x :: l' => f x ;; each f l' end.

(** The members are destroyed in reverse order of declaration. *)
Definition HubServer_dtor : M HubServer unit :=
  h ← get;
  each TcpSocket_dtor (map_to_list (pending_tcp_socks_ h)).*2 ;;
  each DeviceSession_dtor (map_to_list (sessions_ h)).*2 ;;
  TcpServer_dtor (tcp_server_ h) ;;
  UdpSocket_dtor (udp_sock_ h).

(** ** Events *)

Definition onUdpReadable : M HubServer unit :=
  h ← get;
  r ← recvFrom (udp_sock_ h) MAX_PACKET;
  let sender := sender_of (r_aux r) in
  if r_ret r <? sizeof Header then mret tt else
  hdr ← checked (decode (r_out r));
  if h_cmd_type hdr =? CMD_DISCOVER then
    let resp := mkDiscoverReply DAEMON_PORT in
    let respHeader := mkHeader CMD_DISCOVER_REPLY 0 0 0 (sizeof DiscoverReplyPayload) in
    sendTo (udp_sock_ h) (sin_addr sender) (sin_port sender) (encode respHeader ++ encode resp) ;;
    mret tt
  else mret tt.

Definition onTcpAccept : M HubServer unit :=
  h ← get;
  r ← acceptConnection (tcp_server_ h);
  let client_fd := r_ret r in
  if client_fd <? 0 then mret tt else
  modify (fun h => set_pending_socks (<[client_fd := client_fd]> (pending_tcp_socks_ h)) h) ;;
  match pending_tcp_socks_ h !! client_fd with Some old => TcpSocket_dtor old | None => mret tt end.

(** Where the socket of a descriptor lives. *)
Definition socket_of (fd : Z) : M HubServer (option Z) :=
  h ← get;
  match pending_tcp_socks_ h !! fd with
  | Some sock => mret (Some sock)
  | None =>
      match tcp_fd_map_ h !! fd with
      | Some p => s ← deref p; mret (ds_tcp_sock s)
      | None => mret None
      end
  end.

(** The header, then as many bytes as it announces. *)
Definition read_packet (fuel : nat) (sock : Z) : M HubServer (option (Header * bytes)) :=
  hb ← recvExactly fuel sock (sizeof Header);
  if hb.1 <=? 0 then mret None else
  hdr ← checked (decode hb.2);
  let plen := h_payload_len hdr in
  if 0 <? plen then
    pb ← recvExactly fuel sock plen;
    if pb.1 <=? 0 then mret None else mret (Some (hdr, pb.2))
  else mret (Some (hdr, [])).

Definition readTcpPacket (fuel : nat) (fd : Z) : M HubServer (option (Header * bytes)) :=
  sock ← socket_of fd;
  match sock with
  | None => mret None
  | Some sock => read_packet fuel sock
  end.

(** [while (msg_len > 0 && (msg[msg_len - 1] == '\n' || msg[msg_len - 1] == '\r')) --msg_len;] *)
Fixpoint trim_len (msg : bytes) (msg_len : nat) : option nat :=
  match msg_len with
  | O => Some O
  | S n => c ← msg !! n; if (c =? 10) || (c =? 13) then trim_len msg n else Some msg_len
  end.

(** The line of a CMD_LOG packet: [%.*s] stops at a NUL. *)
Definition log_packet_line {S} (payload : bytes) : M S unit :=
  if len payload <? sizeof LogPayload then mret tt else
  lp ← checked (decode payload);
  let msg := drop (Z.to_nat (sizeof LogPayload)) payload in
  msg_len ← checked (trim_len msg (length msg));
  let line := str "[ESP TCP] " ++ c_str (take msg_len msg) in
  let level := lp_log_level lp in
  if level =? LOG_LEVEL_ERROR then LOG_ERR line else
  if level =? LOG_LEVEL_WARN then LOG_WARN line else
  if (level =? LOG_LEVEL_DEBUG) || (level =? LOG_LEVEL_VERBOSE) then LOG_DBG line else
  LOG_INFO line.

(** ** The callbacks of main *)

(** The state main shares with the hub, and the callbacks it has set. *)
Class HubCallbacks (S : Type) := {
  hub_l : lens S HubServer;
  on_connect_ : Z -> Z -> sockaddr_in -> M S unit;
  on_disconnect_ : Z -> M S unit;
}.

Section OnTcpReadable.
Context {S : Type} `{HubCallbacks S} (fuel : nat).

(** [readTcpPacket] failed: drop a pending socket, or report the end of a session. *)
Definition tcp_failed (client_fd : Z) : M S unit :=
  h ← zoom hub_l get;
  match pending_tcp_socks_ h !! client_fd with
  | Some sock =>
      zoom hub_l (modify (fun h => set_pending_socks (delete client_fd (pending_tcp_socks_ h)) h)) ;;
      TcpSocket_dtor sock
  | None =>
      match tcp_fd_map_ h !! client_fd with
      | Some p => s ← zoom hub_l (deref p); on_disconnect_ (ds_device_id s)
      | None => mret tt
      end
  end.

Definition device_event (client_fd : Z) (dep : DeviceEventPayload) : M S unit :=
  if de_event dep =? DEVICE_EVENT_CONNECT then
    old ← zoom hub_l (findByDeviceId (de_device_id dep));
    (match old with Some _ => on_disconnect_ (de_device_id dep) | None => mret tt end) ;;
    h ← zoom hub_l get;
    match pending_tcp_socks_ h !! client_fd with
    | Some _ => on_connect_ (de_device_id dep) (de_speed dep) (Sockaddr 0 (htons client_fd))
    | None => mret tt
    end
  else if de_event dep =? DEVICE_EVENT_DISCONNECT then on_disconnect_ (de_device_id dep)
  else mret tt.

Definition onTcpReadable (client_fd : Z) : M S unit :=
  pkt ← zoom hub_l (readTcpPacket fuel client_fd);
  match pkt with
  | None => tcp_failed client_fd
  | Some (hdr, payload) =>
      let cmd := h_cmd_type hdr in
      if cmd =? CMD_DEVICE_EVENT then
        if len payload <? sizeof DeviceEventPayload then mret tt else
        dep ← checked (decode payload);
        device_event client_fd dep
      else if cmd =? CMD_RAW_DATA then
        h ← zoom hub_l get;
        match sessions_ h !! h_device_id hdr with
        | None => mret tt
        | Some p => zoom hub_l (with_handler p (onDeviceData fuel payload)) ;; mret tt
        end
      else if cmd =? CMD_LOG then log_packet_line payload
      else mret tt
  end.
End OnTcpReadable.

(** ** The descriptors of the hub *)

Definition session_fds (s : DeviceSession) : list Z :=
  ds_vhci_fd s :: ds_kernel_fd s :: match ds_tcp_sock s with Some fd => [fd] | None => [] end.
#[global] Arguments session_fds : simpl never.
Definition heap_fds (m : gmap Z DeviceSession) : list Z := map_to_list m ≫= (fun ps => session_fds ps.2).
Definition pending_fds (m : gmap Z Z) : list Z := (map_to_list m).*2.
Definition hub_fds (h : HubServer) : list Z :=
  udp_sock_ h :: tcp_server_ h :: pending_fds (pending_tcp_socks_ h) ++ heap_fds (heap h).

Lemma heap_fds_insert m p s : m !! p = None -> heap_fds (<[p := s]> m) ≡ₚ session_fds s ++ heap_fds m.
Proof. intros Hp. unfold heap_fds. by rewrite (map_to_list_insert m p s Hp). Qed.
Lemma heap_fds_delete m p s : m !! p = Some s -> heap_fds m ≡ₚ session_fds s ++ heap_fds (delete p m).
Proof.
  intros Hp. rewrite <- heap_fds_insert by apply lookup_delete_eq. by rewrite insert_delete_id.
Qed.
Lemma pending_fds_insert m fd x : m !! fd = None -> pending_fds (<[fd := x]> m) ≡ₚ x :: pending_fds m.
Proof. intros Hp. unfold pending_fds. by rewrite (map_to_list_insert m fd x Hp). Qed.
Lemma pending_fds_delete m fd x : m !! fd = Some x -> pending_fds m ≡ₚ x :: pending_fds (delete fd m).
Proof.
  intros Hp. rewrite <- (pending_fds_insert _ fd) by apply lookup_delete_eq. by rewrite insert_delete_id.
Qed.

(** ** Well-formed sessions *)

Record session_ok (s : DeviceSession) : Prop := {
  so_sock : exists fd q, ds_tcp_sock s = Some fd /\ ds_handler s = Some (Passthrough (ds_vhci_fd s) fd (ds_device_id s) q);
  so_fds : Forall (fun fd => 0 <= fd) (session_fds s);
}.

(** The three maps index the live sessions, and nothing else; pending sockets own their key. *)
Record hub_inv (h : HubServer) : Prop := {
  hi_sess id p : sessions_ h !! id = Some p <-> exists s, heap h !! p = Some s /\ ds_device_id s = id;
  hi_vhci fd p : vhci_fd_map_ h !! fd = Some p <-> exists s, heap h !! p = Some s /\ ds_vhci_fd s = fd;
  hi_tcp fd p : tcp_fd_map_ h !! fd = Some p <-> exists s, heap h !! p = Some s /\ ds_tcp_sock s = Some fd;
  hi_next p s : heap h !! p = Some s -> p < next_ptr h;
  hi_obj p s : heap h !! p = Some s -> session_ok s;
  hi_pending fd x : pending_tcp_socks_ h !! fd = Some x -> x = fd /\ 0 <= fd;
}.

Lemma hub_empty_inv udp tcp : hub_inv (hub_empty udp tcp).
Proof.
  constructor; cbn [hub_empty sessions_ vhci_fd_map_ tcp_fd_map_ heap pending_tcp_socks_ next_ptr]; intros; try (split; intros); destruct_and?;
    repeat match goal with H : exists _, _ |- _ => destruct H as (? & ? & _) end; by simplify_map_eq.
Qed.

(** ** The effect of adding and removing a session *)

Definition drop_session (p : Z) (s : DeviceSession) (h : HubServer) : HubServer :=
  mkHubServer (udp_sock_ h) (tcp_server_ h) (delete p (heap h)) (next_ptr h) (delete (ds_device_id s) (sessions_ h))
    (delete (ds_vhci_fd s) (vhci_fd_map_ h))
    (match ds_tcp_sock s with Some fd => delete fd (tcp_fd_map_ h) | None => tcp_fd_map_ h end) (pending_tcp_socks_ h).

Definition new_session (id port vfd kfd : Z) (addr : sockaddr_in) (fd : Z) : DeviceSession :=
  mkDeviceSession id port vfd kfd addr (Some fd) (Some (PassthroughHandler_ctor vfd fd id)).
Definition add_session (s : DeviceSession) (fd : Z) (h : HubServer) : HubServer :=
  mkHubServer (udp_sock_ h) (tcp_server_ h) (<[next_ptr h := s]> (heap h)) (next_ptr h + 1) (<[ds_device_id s := next_ptr h]> (sessions_ h))
    (<[ds_vhci_fd s := next_ptr h]> (vhci_fd_map_ h)) (<[fd := next_ptr h]> (tcp_fd_map_ h)) (pending_tcp_socks_ h).

(** An index of the live sessions by a key that tells them apart. *)
Lemma index_delete {K} `{Countable K} (idx : gmap K Z) (objs : gmap Z DeviceSession) (key : DeviceSession -> option K) p s k0 :
  (forall k q, idx !! k = Some q <-> exists s, objs !! q = Some s /\ key s = Some k) ->
  objs !! p = Some s -> key s = Some k0 ->
  forall k q, delete k0 idx !! k = Some q <-> exists s, delete p objs !! q = Some s /\ key s = Some k.
Proof.
  intros Hi Hp Hk k q. pose proof (proj2 (Hi k0 p) (ex_intro _ s (conj Hp Hk))) as Hk0. split.
  - intros [Hne Hq]%lookup_delete_Some. apply Hi in Hq as (s' & Hq & Hks). exists s'. split; [|done].
    rewrite lookup_delete_ne; [done|]. intros ->. congruence.
  - intros (s' & [Hne Hq]%lookup_delete_Some & Hks). rewrite lookup_delete_ne; [apply Hi; eauto|]. intros ->.
    assert (idx !! k = Some q) by (apply Hi; eauto). congruence.
Qed.

Lemma index_insert {K} `{Countable K} (idx : gmap K Z) (objs : gmap Z DeviceSession) (key : DeviceSession -> option K) p s k0 :
  (forall k q, idx !! k = Some q <-> exists s, objs !! q = Some s /\ key s = Some k) ->
  objs !! p = None -> key s = Some k0 -> (forall q s', objs !! q = Some s' -> key s' <> Some k0) ->
  forall k q, <[k0 := p]> idx !! k = Some q <-> exists s', <[p := s]> objs !! q = Some s' /\ key s' = Some k.
Proof.
  intros Hi Hp Hk Hfresh k q. split.
  - intros [[<- <-]|[Hne Hq]]%lookup_insert_Some.
    + exists s. by rewrite lookup_insert_eq.
    + apply Hi in Hq as (s' & Hq & Hks). exists s'. rewrite lookup_insert_ne; [done|]. intros ->. congruence.
  - intros (s' & [[<- <-]|[Hne Hq]]%lookup_insert_Some & Hks).
    + assert (k = k0) as -> by congruence. by rewrite lookup_insert_eq.
    + rewrite lookup_insert_ne; [apply Hi; eauto|]. intros ->. by apply (Hfresh q s').
Qed.

Lemma drop_session_inv p s h : hub_inv h -> heap h !! p = Some s -> hub_inv (drop_session p s h).
Proof.
  intros Hi Hp. destruct (so_sock _ (hi_obj _ Hi _ _ Hp)) as (fd & q & Hfd & _). unfold drop_session. rewrite Hfd.
  constructor; cbn.
  - intros id q'. rewrite (index_delete (sessions_ h) (heap h) (fun s => Some (ds_device_id s)) p s (ds_device_id s)); [naive_solver|..|done|done].
    intros k r. rewrite (hi_sess _ Hi). naive_solver.
  - intros k q'. rewrite (index_delete (vhci_fd_map_ h) (heap h) (fun s => Some (ds_vhci_fd s)) p s (ds_vhci_fd s)); [naive_solver|..|done|done].
    intros k' r. rewrite (hi_vhci _ Hi). naive_solver.
  - intros k q'. by apply (index_delete (tcp_fd_map_ h) (heap h) ds_tcp_sock p s fd); [apply (hi_tcp _ Hi)|..].
  - intros r s' [_ Hs]%lookup_delete_Some. by eapply hi_next.
  - intros r s' [_ Hs]%lookup_delete_Some. by eapply hi_obj.
  - apply (hi_pending _ Hi).
Qed.

Lemma heap_fds_elem m p s x : m !! p = Some s -> x ∈ session_fds s -> x ∈ heap_fds m.
Proof. intros Hp Hx. rewrite (heap_fds_delete _ _ _ Hp), elem_of_app. by left. Qed.

Lemma add_session_inv s fd h :
  hub_inv h -> session_ok s -> ds_tcp_sock s = Some fd -> sessions_ h !! ds_device_id s = None ->
  (forall x, x ∈ session_fds s -> x ∉ heap_fds (heap h)) -> hub_inv (add_session s fd h).
Proof.
  intros Hi Hs Hfd Hid Hfresh.
  assert (heap h !! next_ptr h = None) as Hp.
  { destruct (heap h !! next_ptr h) as [s'|] eqn:Hp; [|done]. pose proof (hi_next _ Hi _ _ Hp). lia. }
  constructor; cbn.
  - intros id q'. rewrite (index_insert (sessions_ h) (heap h) (fun s => Some (ds_device_id s)) (next_ptr h) s (ds_device_id s)); [naive_solver|..|done|done|].
    + intros k r. rewrite (hi_sess _ Hi). naive_solver.
    + intros q s' Hq [= He]. assert (sessions_ h !! ds_device_id s = Some q) by (apply (hi_sess _ Hi); eauto). congruence.
  - intros k q'. rewrite (index_insert (vhci_fd_map_ h) (heap h) (fun s => Some (ds_vhci_fd s)) (next_ptr h) s (ds_vhci_fd s)); [naive_solver|..|done|done|].
    + intros k' r. rewrite (hi_vhci _ Hi). naive_solver.
    + intros q s' Hq [= He]. apply (Hfresh (ds_vhci_fd s)); [apply elem_of_cons; by left|].
      eapply heap_fds_elem; [exact Hq|]. rewrite <- He. apply elem_of_cons. by left.
  - intros k q'. apply (index_insert (tcp_fd_map_ h) (heap h) ds_tcp_sock (next_ptr h) s fd); [apply (hi_tcp _ Hi)|done|done|].
    intros q s' Hq He. apply (Hfresh fd); [unfold session_fds; rewrite Hfd; set_solver|].
    eapply heap_fds_elem; [exact Hq|]. unfold session_fds. rewrite He. set_solver.
  - intros r s' [[<- <-]|[_ Hr]]%lookup_insert_Some; [lia|]. pose proof (hi_next _ Hi _ _ Hr). lia.
  - intros r s' [[<- <-]|[_ Hr]]%lookup_insert_Some; [done|]. by eapply hi_obj.
  - apply (hi_pending _ Hi).
Qed.

(** ** The operations *)

Section HubSpecs.
Context (E : env).

Lemma close_owned_wp {S} fd (w : world S) own rest :
  0 <= fd -> holds_fds (tr w) (fd :: own) rest ->
  wp (close_owned fd) E w (fun _ w' => st w' = st w /\ holds_fds (tr w') own rest).
Proof.
  intros Hfd Hf. unfold close_owned. destruct (Z.leb_spec 0 fd); [|lia]. repeat wp_step. split; [done|]. by holds_step.
Qed.

Implicit Types (w : world HubServer).

Lemma DeviceSession_dtor_wp p s w own rest :
  heap (st w) !! p = Some s -> Forall (fun fd => 0 <= fd) (session_fds s) -> holds_fds (tr w) (session_fds s ++ own) rest ->
  wp (DeviceSession_dtor p) E w (fun _ w' => st w' = set_heap (delete p (heap (st w))) (st w) /\ holds_fds (tr w') own rest).
Proof.
  intros Hp Hs Hf. unfold session_fds in *. apply Forall_cons_1 in Hs as [H1 Hs]. apply Forall_cons_1 in Hs as [H2 Hs].
  unfold DeviceSession_dtor, deref. apply wp_bind, wp_bind, wp_get. eapply wp_checked; [exact Hp|].
  apply wp_bind. eapply wp_mono; [|by apply close_owned_wp]. intros [] w1 [Hst1 Hf1].
  apply wp_bind. eapply wp_mono; [|by apply close_owned_wp]. intros [] w2 [Hst2 Hf2]. apply wp_bind.
  destruct (ds_tcp_sock s) as [fd|].
  - apply Forall_cons_1 in Hs as [H3 _]. eapply wp_mono; [|by apply close_owned_wp]. intros [] w3 [Hst3 Hf3].
    apply wp_modify. cbn [st tr]. by rewrite Hst3, Hst2, Hst1.
  - apply wp_ret, wp_modify. cbn [st tr]. by rewrite Hst2, Hst1.
Qed.

Lemma removeSession_wp p s w own rest :
  sessions_ (st w) !! ds_device_id s = Some p -> heap (st w) !! p = Some s ->
  Forall (fun fd => 0 <= fd) (session_fds s) -> holds_fds (tr w) (session_fds s ++ own) rest ->
  wp (removeSession (ds_device_id s)) E w (fun _ w' => st w' = drop_session p s (st w) /\ holds_fds (tr w') own rest).
Proof.
  intros Hid Hp Hs Hf. unfold removeSession, deref. apply wp_bind, wp_get. rewrite Hid. apply wp_bind, wp_bind, wp_get.
  eapply wp_checked; [exact Hp|]. apply wp_bind, wp_modify. apply wp_bind. unfold drop_session.
  destruct (ds_tcp_sock s) as [fd|] eqn:Hfd; [apply wp_modify|apply wp_ret]; apply wp_bind, wp_modify; cbn [st tr];
    (eapply wp_mono; [|by apply (DeviceSession_dtor_wp p s (World _ _))]; by intros [] w' [-> ?]).
Qed.

(** A session whose socket has been taken out closes the two ends of its socketpair, in this order. *)
Lemma removeSession_closes p s w :
  sessions_ (st w) !! ds_device_id s = Some p -> heap (st w) !! p = Some s -> ds_tcp_sock s = None ->
  0 <= ds_vhci_fd s -> 0 <= ds_kernel_fd s ->
  wp (removeSession (ds_device_id s)) E w (fun _ w' =>
    exists r1 r2, tr w' = tr w ++ [(CClose (ds_vhci_fd s), r1); (CClose (ds_kernel_fd s), r2)]).
Proof.
  intros Hid Hp Hs Hv Hk. unfold removeSession, DeviceSession_dtor, deref, close_owned.
  apply wp_bind, wp_get. rewrite Hid. apply wp_bind, wp_bind, wp_get. eapply wp_checked; [exact Hp|].
  apply wp_bind, wp_modify. rewrite Hs. apply wp_bind, wp_ret, wp_bind, wp_modify. cbn [st tr].
  apply wp_bind, wp_bind, wp_get. eapply wp_checked; [exact Hp|]. rewrite Hs.
  destruct (Z.leb_spec 0 (ds_vhci_fd s)); [|lia]. destruct (Z.leb_spec 0 (ds_kernel_fd s)); [|lia].
  repeat wp_step. rewrite <- app_assoc. eauto.
Qed.

Lemma removeSession_none id w : sessions_ (st w) !! id = None -> wp (removeSession id) E w (fun _ w' => w' = w).
Proof. intros Hid. unfold removeSession. apply wp_bind, wp_get. by rewrite Hid. Qed.

Lemma addSession_wp id port vfd kfd addr fd w :
  sessions_ (st w) !! id = None ->
  wp (addSession id port vfd kfd addr (Some fd)) E w (fun _ w' =>
    w' = World (add_session (new_session id port vfd kfd addr fd) fd (st w)) (tr w)).
Proof.
  intros Hid. unfold addSession. do 4 wp_step. repeat wp_step; cbn in *; [congruence|done].
Qed.

Lemma onUdpReadable_wp w :
  linux_ok E -> wp onUdpReadable E w (fun _ w' => st w' = st w /\ io_since [udp_sock_ (st w)] (tr w) (tr w')).
Proof.
  intros Hok. unfold onUdpReadable, recvFrom. apply wp_bind, wp_get. apply wp_bind, wp_call. intros r Hr.
  destruct (lx_recvfrom _ Hok (tr w) (udp_sock_ (st w)) MAX_PACKET ltac:(done)) as (Hle & Hlen & Hb). rewrite <- Hr in Hle, Hlen, Hb.
  assert (io_since [udp_sock_ (st w)] (tr w) (tr w ++ [(CRecvfrom (udp_sock_ (st w)) MAX_PACKET, r)])) as Hio.
  { apply io_snoc; [split; [done|by apply Forall_singleton, list_elem_of_here]|apply io_refl]. }
  destruct (Z.ltb_spec (r_ret r) (sizeof Header)) as [|Hge]; [by apply wp_ret|]. cbn in Hge. specialize (Hlen ltac:(lia)).
  destruct (r_out r) as [|b0 [|b1 [|b2 [|b3 [|b4 [|b5 more]]]]]] eqn:Ho; cbn in Hlen; try lia.
  apply wp_bind. eapply wp_checked; [reflexivity|]. cbn [h_cmd_type]. unfold sendTo. repeat wp_step; (split; [done|]); cbn [tr]; [|done].
  apply io_snoc; [|done]. split; [done|]. apply Forall_singleton. by apply list_elem_of_singleton.
Qed.

(** A socket of the hub. *)
Lemma socket_of_wp fd w :
  hub_inv (st w) -> wp (socket_of fd) E w (fun sock w' => w' = w /\
    (forall x, sock = Some x -> x = fd /\ fd ∈ hub_fds (st w)) /\
    (sock = None -> pending_tcp_socks_ (st w) !! fd = None /\ tcp_fd_map_ (st w) !! fd = None)).
Proof.
  intros Hi. unfold socket_of, deref. apply wp_bind, wp_get. destruct (pending_tcp_socks_ (st w) !! fd) as [x|] eqn:Hpe.
  - apply wp_ret. split_and!; [done| |done]. intros ? [= <-]. destruct (hi_pending _ Hi _ _ Hpe) as [-> _]. split; [done|].
    unfold hub_fds. rewrite (pending_fds_delete _ _ _ Hpe). set_solver.
  - destruct (tcp_fd_map_ (st w) !! fd) as [p|] eqn:Ht; [|by apply wp_ret].
    apply (hi_tcp _ Hi) in Ht as (s & Hs & Hfd). apply wp_bind, wp_bind, wp_get. eapply wp_checked; [exact Hs|]. apply wp_ret.
    rewrite Hfd. split_and!; [done| |done]. intros ? [= <-]. split; [done|]. unfold hub_fds.
    assert (fd ∈ heap_fds (heap (st w))); [|set_solver]. eapply heap_fds_elem; [exact Hs|]. unfold session_fds. rewrite Hfd. set_solver.
Qed.

(** A packet that was read is a header and as many bytes as it announces. *)
Definition packet_ok (pkt : option (Header * bytes)) : Prop :=
  match pkt with Some (hdr, payload) => header_wf hdr /\ len payload = h_payload_len hdr /\ bytes_ok payload | None => True end.

Section ReadPacket.
Context (K : Z) (Hok : linux_ok E) (Hp : patient K E) (fuel : nat) (Hfuel : 65536 * (K + 1) <= Z.of_nat fuel).

Lemma read_packet_wp sock w :
  wp (read_packet fuel sock) E w (fun pkt w' => st w' = st w /\ io_since [sock] (tr w) (tr w') /\ packet_ok pkt /\
    (forall hdr payload, pkt = Some (hdr, payload) -> received sock (tr w') = received sock (tr w) ++ encode hdr ++ payload)).
Proof.
  pose proof (pt_nonneg _ _ Hp) as HK. unfold read_packet. apply wp_bind.
  eapply wp_mono; [|apply (recvExactly_wp E K Hok Hp); cbn; lia].
  intros [res buf] w1 (Hst & Hio & (more & Hm & Hrec & Hb) & Hres). cbn [fst snd app] in *. subst more.
  destruct (Z.leb_spec res 0) as [|Hpos]; [by apply wp_ret|]. destruct Hres as [[-> Hlen]|[[->| ->] _]]; [|lia..].
  destruct (encode_decode buf Hb Hlen) as (hdr & Hdec & Hwf & Henc).
  apply wp_bind. eapply wp_checked; [exact Hdec|]. cbn zeta. pose proof Hwf as (_ & _ & _ & _ & Hpl). unfold is_u16 in Hpl.
  destruct (Z.ltb_spec 0 (h_payload_len hdr)).
  - apply wp_bind. eapply wp_mono; [|apply (recvExactly_wp E K Hok Hp); change (2 ^ 16) with 65536 in Hpl; nia].
    intros [res pb] w2 (Hst2 & Hio2 & (more & Hm & Hrec2 & Hb2) & Hres). cbn [fst snd app] in *. subst more.
    assert (io_since [sock] (tr w) (tr w2)) by (by eapply io_trans).
    destruct (Z.leb_spec res 0); [apply wp_ret; rewrite Hst2; done|]. destruct Hres as [[-> Hl2]|[[->| ->] _]]; [|lia..].
    apply wp_ret. split_and!; [by rewrite Hst2|done|by split_and!|]. intros ? ? [= <- <-]. by rewrite Hrec2, Hrec, Henc, app_assoc.
  - apply wp_ret. split_and!; [done..|split_and!; [done|cbn; lia|constructor]|]. intros ? ? [= <- <-].
    by rewrite Hrec, Henc, app_nil_r.
Qed.

Lemma readTcpPacket_wp fd w :
  hub_inv (st w) -> wp (readTcpPacket fuel fd) E w (fun pkt w' => st w' = st w /\ io_since (hub_fds (st w)) (tr w) (tr w') /\ packet_ok pkt).
Proof.
  intros Hi. unfold readTcpPacket. apply wp_bind. eapply wp_mono; [|by apply socket_of_wp]. intros sock w' (-> & Hsome & _).
  destruct sock as [x|]; [|apply wp_ret; split_and!; [done|apply io_refl|done]]. destruct (Hsome _ eq_refl) as [-> Hin].
  eapply wp_mono; [|apply read_packet_wp]. intros pkt w' (Hst & Hio & Hpk & _). split_and!; [done| |done].
  eapply io_mono; [|exact Hio]. set_solver.
Qed.
End ReadPacket.
End HubSpecs.

(** ** Log lines *)

(** A line without its trailing line ends. *)
Definition is_eol (c : Z) : bool := (c =? 10) || (c =? 13).
Fixpoint rtrim (msg : bytes) : bytes :=
  match msg with
  | [] => []
  | c :: rest => match rtrim rest with [] => if is_eol c then [] else [c] | r => c :: r end
  end.

Lemma rtrim_snoc msg c : rtrim (msg ++ [c]) = if is_eol c then rtrim msg else msg ++ [c].
Proof.
  induction msg as [|x msg IH]; cbn; [done|]. rewrite IH. destruct (is_eol c); [done|]. by destruct msg.
Qed.

Lemma trim_len_spec msg n :
  (n <= length msg)%nat -> exists k, trim_len msg n = Some k /\ take k msg = rtrim (take n msg).
Proof.
  induction n as [|n IH]; intros Hn; cbn [trim_len]; [by exists O; rewrite take_0|].
  destruct (lookup_lt_is_Some_2 msg n) as [c Hc]; [lia|]. rewrite Hc. cbn. rewrite (take_S_r _ _ _ Hc), rtrim_snoc. unfold is_eol.
  destruct ((c =? 10) || (c =? 13)); [apply IH; lia|]. exists (S n). by rewrite (take_S_r _ _ _ Hc).
Qed.

(** How a level is shown: the stream and the tag. *)
Definition level_tag (level : Z) : bool * bytes :=
  if level =? LOG_LEVEL_ERROR then (true, ESC ++ str "[31m[ERR] " ++ ESC ++ str "[0m") else
  if level =? LOG_LEVEL_WARN then (true, ESC ++ str "[33m[WARN]" ++ ESC ++ str "[0m ") else
  if (level =? LOG_LEVEL_DEBUG) || (level =? LOG_LEVEL_VERBOSE) then (false, ESC ++ str "[36m[DBG] " ++ ESC ++ str "[0m") else
  (false, ESC ++ str "[32m[INFO]" ++ ESC ++ str "[0m ").

Section LogLine.
Context {S : Type} (E : env) (Hok : linux_ok E).

Lemma log_line_wp b tag msg (w : world S) :
  wp (log_line b tag msg) E w (fun _ w' => st w' = st w /\ exists r1 r2 time,
    tr w' = tr w ++ [(CClock, r1); (CFprintf b (time ++ str " " ++ tag ++ msg ++ [10]), r2)]).
Proof.
  unfold log_line, ts. apply wp_bind, wp_bind, wp_call. intros r Hr. destruct (lx_clock _ Hok (tr w)) as (h & m & s & ns & Ho).
  rewrite <- Hr in Ho. apply wp_bind. eapply wp_checked; [by rewrite Ho|]. apply wp_ret. apply wp_bind, wp_call. intros r2 _. apply wp_ret.
  split; [done|]. cbn [tr]. rewrite <- app_assoc. eauto.
Qed.

Lemma log_packet_line_wp payload (w : world S) :
  wp (log_packet_line payload) E w (fun _ w' => st w' = st w /\
    match payload with
    | [] => tr w' = tr w
    | level :: msg => exists r1 r2 time, tr w' = tr w ++ [(CClock, r1);
        (CFprintf (level_tag level).1 (time ++ str " " ++ (level_tag level).2 ++ (str "[ESP TCP] " ++ c_str (rtrim msg)) ++ [10]), r2)]
    end).
Proof.
  unfold log_packet_line. destruct payload as [|level msg]; [by apply wp_ret|].
  destruct (Z.ltb_spec (len (level :: msg)) (sizeof LogPayload)) as [Hl|_]; [cbn in Hl; lia|].
  apply wp_bind. eapply wp_checked; [reflexivity|]. change (drop (Z.to_nat (sizeof LogPayload)) (level :: msg)) with msg.
  destruct (trim_len_spec msg (length msg) ltac:(lia)) as (k & Hk & Ht). apply wp_bind. eapply wp_checked; [exact Hk|].
  rewrite Ht, firstn_all. unfold level_tag, LOG_ERR, LOG_WARN, LOG_INFO, LOG_DBG. cbn [lp_log_level].
  destruct (level =? LOG_LEVEL_ERROR); [apply log_line_wp|]. destruct (level =? LOG_LEVEL_WARN); [apply log_line_wp|].
  destruct ((level =? LOG_LEVEL_DEBUG) || (level =? LOG_LEVEL_VERBOSE)); apply log_line_wp.
Qed.

Lemma log_packet_line_io payload (w : world S) :
  wp (log_packet_line payload) E w (fun _ w' => st w' = st w /\ io_since [] (tr w) (tr w')).
Proof.
  eapply wp_mono; [|apply log_packet_line_wp]. intros [] w' [Hst Ht]. split; [done|]. destruct payload as [|level msg].
  - rewrite Ht. apply io_refl.
  - destruct Ht as (r1 & r2 & time & ->). eexists. split; [done|]. cbn. repeat (apply Forall_cons_2; [by split|]). constructor.
Qed.
End LogLine.

Lemma session_fds_in h p s x : heap h !! p = Some s -> x ∈ session_fds s -> x ∈ hub_fds h.
Proof. intros Hs Hx. unfold hub_fds. pose proof (heap_fds_elem _ _ _ _ Hs Hx). set_solver. Qed.

(** ** What main promises the hub *)

Class HubLaws (E : env) {S : Type} `{HubCallbacks S} (I : world S -> Prop) : Prop := {
  law_lens s : l_put hub_l (l_get hub_l s) s = s;
  law_put h s : l_get hub_l (l_put hub_l h s) = h;
  law_hub w : I w -> hub_inv (l_get hub_l (st w));
  (* traffic on the hub's sockets *)
  law_io w t' : I w -> io_since (hub_fds (l_get hub_l (st w))) (tr w) t' -> I (World (st w) t');
  (* dropping a pending socket *)
  law_pending w fd r : I w -> let h := l_get hub_l (st w) in pending_tcp_socks_ h !! fd = Some fd ->
    I (World (l_put hub_l (set_pending_socks (delete fd (pending_tcp_socks_ h)) h) (st w)) (tr w ++ [(CClose fd, r)]));
  (* a handler counting its packets *)
  law_handler w p s ph q t' : I w -> let h := l_get hub_l (st w) in
    heap h !! p = Some s -> ds_handler s = Some ph -> io_since (hub_fds h) (tr w) t' ->
    I (World (l_put hub_l (set_heap (<[p := set_handler (set_seq q ph) s]> (heap h)) h) (st w)) t');
  law_disconnect id w : I w -> wp (on_disconnect_ id) E w (fun _ w' => I w' /\ sessions_ (l_get hub_l (st w')) !! id = None);
  law_connect id speed addr w : I w -> sessions_ (l_get hub_l (st w)) !! id = None -> wp (on_connect_ id speed addr) E w (fun _ w' => I w');
}.

Section OnTcpSpec.
Context (E : env) {S : Type} `{HubCallbacks S} (I : world S -> Prop) `{!HubLaws E I}.

Lemma world_put (w : world S) : World (l_put hub_l (l_get hub_l (st w)) (st w)) (tr w) = w.
Proof. rewrite law_lens. by destruct w. Qed.

Lemma wp_hub_get (w : world S) (Q : HubServer -> world S -> Prop) : Q (l_get hub_l (st w)) w -> wp (zoom hub_l get) E w Q.
Proof. intros HQ. apply wp_zoom, wp_get. cbn [st tr]. by rewrite world_put. Qed.

Lemma tcp_failed_wp fd w : I w -> wp (tcp_failed fd) E w (fun _ w' => I w').
Proof.
  intros Hi. pose proof (law_hub _ Hi) as Hh. unfold tcp_failed. apply wp_bind, wp_hub_get.
  destruct (pending_tcp_socks_ (l_get hub_l (st w)) !! fd) as [x|] eqn:Hpe.
  - destruct (hi_pending _ Hh _ _ Hpe) as [-> Hpos]. apply wp_bind, wp_zoom, wp_modify. cbn [st tr].
    unfold TcpSocket_dtor, close_owned. destruct (Z.leb_spec 0 fd); [|lia]. repeat wp_step. by apply (law_pending w).
  - destruct (tcp_fd_map_ (l_get hub_l (st w)) !! fd) as [p|] eqn:Ht; [|by apply wp_ret].
    apply (hi_tcp _ Hh) in Ht as (s & Hs & Hfd). unfold deref. apply wp_bind, wp_zoom, wp_bind, wp_get.
    eapply wp_checked; [exact Hs|]. cbn [st tr]. rewrite world_put. eapply wp_mono; [|by apply law_disconnect]. by intros [] w' [? _].
Qed.

Lemma device_event_wp fd dep w : I w -> wp (device_event fd dep) E w (fun _ w' => I w').
Proof.
  intros Hi. unfold device_event. destruct (de_event dep =? DEVICE_EVENT_CONNECT).
  - apply wp_bind. unfold findByDeviceId. apply wp_zoom, wp_bind, wp_get, wp_ret. cbn [st tr]. rewrite world_put. apply wp_bind.
    apply (wp_mono _ _ _ (fun _ w' => I w' /\ sessions_ (l_get hub_l (st w')) !! de_device_id dep = None)).
    { intros [] w' [Hi' Hn]. apply wp_bind, wp_hub_get. case_match; [|by apply wp_ret]. by apply law_connect. }
    destruct (sessions_ (l_get hub_l (st w)) !! de_device_id dep) eqn:Hs; [by apply law_disconnect|by apply wp_ret].
  - destruct (de_event dep =? DEVICE_EVENT_DISCONNECT); [|by apply wp_ret].
    eapply wp_mono; [|by apply law_disconnect]. by intros [] w' [? _].
Qed.

(** A method of a session's handler that only moves data and counts packets. *)
Lemma with_handler_wp {A} p s (m : M PassthroughHandler A) w :
  I w -> heap (l_get hub_l (st w)) !! p = Some s ->
  (forall ph, ds_handler s = Some ph -> ph_vhci_fd ph = ds_vhci_fd s -> ds_tcp_sock s = Some (ph_sock ph) ->
    wp m E (World ph (tr w)) (fun _ v => (exists q, st v = set_seq q ph) /\ io_since [ph_sock ph; ph_vhci_fd ph] (tr w) (tr v))) ->
  wp (zoom hub_l (with_handler p m)) E w (fun _ w' => I w' /\
    exists ph, heap (l_get hub_l (st w')) !! p = Some (set_handler ph s)).
Proof.
  intros Hi Hs Hm. destruct (so_sock _ (hi_obj _ (law_hub _ Hi) _ _ Hs)) as (fd & q & Hfd & Hph).
  specialize (Hm _ Hph eq_refl Hfd). apply wp_zoom. unfold wp, with_handler in *. cbn [st tr]. rewrite Hs. cbn. rewrite Hph. cbn.
  destruct (m E _) as [[a v]|]; [|done]. destruct Hm as [[q' Hq] Hio]. cbn [st tr]. rewrite Hq. split.
  2:{ eexists. rewrite law_put. cbn. by rewrite lookup_insert_eq. }
  apply (law_handler w p s _ q'); [done..|]. eapply io_mono; [|exact Hio]. cbn [ph_sock ph_vhci_fd].
  intros x [->|[->|[]%not_elem_of_nil]%elem_of_cons]%elem_of_cons; (eapply session_fds_in; [exact Hs|]);
    unfold session_fds; rewrite Hfd; set_solver.
Qed.

Context (K : Z) (Hok : linux_ok E) (Hp : patient K E) (fuel : nat) (Hfuel : 65536 * (K + 1) <= Z.of_nat fuel).

Lemma onTcpReadable_wp fd w : I w -> wp (onTcpReadable fuel fd) E w (fun _ w' => I w').
Proof.
  intros Hi. unfold onTcpReadable. apply wp_bind, wp_zoom. eapply wp_mono; [|by apply (readTcpPacket_wp E K Hok Hp fuel Hfuel), law_hub].
  intros pkt [h t'] (Hst & Hio & Hpk). cbn [st tr] in *. subst h. rewrite law_lens. pose proof (law_io _ _ Hi Hio) as Hi1.
  destruct pkt as [[hdr payload]|]; [|by apply tcp_failed_wp]. destruct Hpk as (Hw & Hlen & Hb).
  destruct (h_cmd_type hdr =? CMD_DEVICE_EVENT).
  { destruct (Z.ltb_spec (len payload) (sizeof DeviceEventPayload)); [by apply wp_ret|]. cbn in *.
    destruct payload as [|b0 [|b1 [|b2 [|b3 [|b4 [|b5 [|b6 [|b7 more]]]]]]]]; cbn in *; try lia.
    apply wp_bind. eapply wp_checked; [reflexivity|]. by apply device_event_wp. }
  destruct (h_cmd_type hdr =? CMD_RAW_DATA).
  { apply wp_bind, wp_hub_get. cbn [st]. destruct (sessions_ _ !! _) as [p|] eqn:Hp1; [|by apply wp_ret].
    apply (hi_sess _ (law_hub _ Hi1)) in Hp1 as (s & Hs & _). apply wp_bind. eapply wp_mono; [|eapply with_handler_wp; [exact Hi1|exact Hs|]].
    - intros b w' [? _]. by apply wp_ret.
    - intros ph Hph Hfd _. destruct Hw as (_ & _ & _ & _ & Hpl). unfold is_u16 in Hpl. change (2 ^ 16) with 65536 in Hpl.
      eapply wp_mono; [|apply (onDeviceData_wp E K Hok Hp fuel Hfuel payload (World ph t')); lia].
      intros b v (Hst & Hio2 & _). cbn [st tr] in *. split; [exists (ph_seq ph); by destruct ph|]. eapply io_mono; [|exact Hio2]. set_solver. }
  destruct (h_cmd_type hdr =? CMD_LOG); [|by apply wp_ret].
  eapply wp_mono; [|by apply log_packet_line_io]. intros [] [s' t2] [Hst2 Hio2]. cbn [st tr] in *. subst s'.
  apply (law_io _ _ Hi1). eapply io_mono; [|exact Hio2]. set_solver.
Qed.
End OnTcpSpec.

(** ** Destruction *)

Section Dtor.
Context (E : env).

Lemma each_close_wp {S} fds (w : world S) own rest :
  Forall (fun fd => 0 <= fd) fds -> holds_fds (tr w) (fds ++ own) rest ->
  wp (each TcpSocket_dtor fds) E w (fun _ w' => st w' = st w /\ holds_fds (tr w') own rest).
Proof.
  revert w. induction fds as [|fd fds IH]; intros w Hn Hf; cbn [each]; [by apply wp_ret|]. apply Forall_cons_1 in Hn as [Hfd Hn].
  apply wp_bind. eapply wp_mono; [|by apply close_owned_wp]. intros [] w1 [Hst Hf1]. rewrite <- Hst. by apply IH.
Qed.

Lemma each_session_wp ps (w : world HubServer) own rest :
  NoDup ps -> (forall p, p ∈ ps <-> is_Some (heap (st w) !! p)) ->
  (forall p s, heap (st w) !! p = Some s -> Forall (fun fd => 0 <= fd) (session_fds s)) ->
  holds_fds (tr w) (heap_fds (heap (st w)) ++ own) rest ->
  wp (each DeviceSession_dtor ps) E w (fun _ w' => holds_fds (tr w') own rest).
Proof.
  revert w. induction ps as [|p ps IH]; intros w Hnd Hdom Hn Hf; cbn [each].
  - apply wp_ret. assert (heap (st w) = ∅) as He; [|by rewrite He in Hf].
    apply map_empty. intros p. destruct (heap (st w) !! p) eqn:Hp; [|done].
    assert (p ∈ []) as []%not_elem_of_nil by (apply Hdom; eauto).
  - apply NoDup_cons in Hnd as [Hp Hnd]. destruct (proj1 (Hdom p)) as [s Hs]; [apply elem_of_cons; by left|].
    apply wp_bind. eapply wp_mono; [|apply (DeviceSession_dtor_wp E p s w (heap_fds (delete p (heap (st w))) ++ own) rest Hs)].
    + intros [] w1 [Hst Hf1]. apply IH; [done|..]; rewrite Hst; cbn [set_heap heap].
      * intros q. destruct (decide (q = p)) as [->|Hne]; [rewrite lookup_delete_eq; split; [done|by intros [? ?]]|].
        rewrite lookup_delete_ne, <- Hdom by done. rewrite elem_of_cons. naive_solver.
      * intros q s' [_ Hq]%lookup_delete_Some. by eapply Hn.
      * done.
    + by eapply Hn.
    + rewrite app_assoc. eapply holds_perm; [|exact Hf]. by rewrite (heap_fds_delete _ _ _ Hs).
Qed.

Lemma session_ptrs_NoDup h : hub_inv h -> NoDup (map_to_list (sessions_ h)).*2.
Proof.
  intros Hi. apply NoDup_fmap_2_strong; [|apply NoDup_map_to_list].
  intros [i p] [j q] H1%elem_of_map_to_list H2%elem_of_map_to_list Heq. cbn in Heq. subst q.
  apply (hi_sess _ Hi) in H1 as (s & Hs & <-), H2 as (s' & Hs' & <-). congruence.
Qed.

Lemma HubServer_dtor_wp (w : world HubServer) rest :
  hub_inv (st w) -> 0 <= udp_sock_ (st w) -> 0 <= tcp_server_ (st w) -> holds_fds (tr w) (hub_fds (st w)) rest ->
  wp HubServer_dtor E w (fun _ w' => holds_fds (tr w') [] rest).
Proof.
  intros Hi Hu Ht Hf. set (h := st w) in *. unfold HubServer_dtor. apply wp_bind, wp_get. apply wp_bind. fold h.
  assert (hub_fds h ≡ₚ pending_fds (pending_tcp_socks_ h) ++ heap_fds (heap h) ++ [tcp_server_ h; udp_sock_ h]) as Hperm.
  { unfold hub_fds. rewrite app_assoc, (Permutation_app_comm (pending_fds _ ++ _)). apply Permutation_swap. }
  apply (holds_perm _ _ _ _ Hperm) in Hf.
  eapply wp_mono; [|eapply (each_close_wp _ w); [|exact Hf]].
  2:{ apply Forall_forall. intros x (kv & -> & Hkv)%list_elem_of_fmap. destruct kv as [k y]. apply elem_of_map_to_list in Hkv.
      by destruct (hi_pending _ Hi _ _ Hkv) as [-> ?]. }
  intros [] w1 [Hst1 Hf1]. apply wp_bind. fold h in Hst1.
  eapply wp_mono; [|eapply (each_session_wp _ w1 [tcp_server_ h; udp_sock_ h] rest)]; rewrite ?Hst1; [| | | |done].
  - intros [] w2 Hf2. apply wp_bind. eapply wp_mono; [|by apply close_owned_wp]. intros [] w3 [_ Hf3].
    eapply wp_mono; [|by apply close_owned_wp]. by intros [] w4 [_ ?].
  - by apply session_ptrs_NoDup.
  - intros p. rewrite list_elem_of_fmap. split.
    + intros ([i q] & -> & Hq). apply elem_of_map_to_list in Hq. apply (hi_sess _ Hi) in Hq as (s & Hs & _). cbn. eauto.
    + intros [s Hs]. exists (ds_device_id s, p). split; [done|]. apply elem_of_map_to_list, (hi_sess _ Hi). eauto.
  - intros p s Hs. apply (so_fds _ (hi_obj _ Hi _ _ Hs)).
Qed.

(** The two listening sockets. *)
Lemma HubServer_ctor_wp {S} (w : world S) own :
  linux_ok E -> NoDup own -> holds_fds (tr w) own [] ->
  wp HubServer_ctor E w (fun h w' => st w' = st w /\
    match h with
    | Some h => exists u t, h = hub_empty u t /\ 0 <= u /\ 0 <= t /\ NoDup (u :: t :: own) /\ holds_fds (tr w') (u :: t :: own) []
    | None => True
    end).
Proof.
  intros Hok Hnd Hf. unfold HubServer_ctor, UdpSocket_ctor, TcpServer_ctor.
  assert (forall t own ty, NoDup own -> holds_fds t own [] -> 0 <= r_ret (E t (CSocket ty)) -> NoDup (r_ret (E t (CSocket ty)) :: own)) as Hfresh.
  { clear -Hok. intros t own ty Hnd (l & Hl & Hp) Hr. rewrite app_nil_r in Hp. pose proof (lx_fresh _ Hok t (CSocket ty) l Hl) as Hx.
    cbn in Hx. destruct (Z.leb_spec 0 (r_ret (E t (CSocket ty)))); [|lia]. rewrite <- Hp. apply Hx. by rewrite Hp. }
  apply wp_bind, wp_bind, wp_call. intros r Hr. pose proof (Hfresh (tr w) own SOCK_DGRAM Hnd Hf) as Hnd1.
  pose proof (holds_socket _ _ _ SOCK_DGRAM r Hf) as Hf1. rewrite <- Hr in Hnd1.
  destruct (Z.leb_spec 0 (r_ret r)), (Z.ltb_spec (r_ret r) 0); try lia; [|by repeat wp_step].
  apply wp_bind, wp_call. intros o _. apply wp_bind, wp_call. intros b _. cbn [st tr].
  destruct (r_ret b <? 0); [by repeat wp_step|]. apply wp_ret. apply wp_bind, wp_bind, wp_call. intros r2 Hr2. cbn [st tr] in *.
  set (t2 := (_ ++ [(CSetsockopt _ _, _)]) ++ _) in *. assert (holds_fds t2 (r_ret r :: own) []) as Hf2 by (unfold t2; by repeat holds_step).
  pose proof (Hfresh t2 _ SOCK_STREAM (Hnd1 ltac:(lia)) Hf2) as Hnd2. rewrite <- Hr2 in Hnd2. pose proof (holds_socket _ _ _ SOCK_STREAM r2 Hf2) as Hf3.
  destruct (Z.leb_spec 0 (r_ret r2)), (Z.ltb_spec (r_ret r2) 0); try lia; [|by repeat wp_step].
  apply wp_bind, wp_call. intros o2 _. apply wp_bind, wp_call. intros b2 _. cbn [st tr].
  destruct (r_ret b2 <? 0); [by repeat wp_step|]. apply wp_bind, wp_call. intros l _. cbn [st tr].
  destruct (r_ret l <? 0); [by repeat wp_step|]. apply wp_ret, wp_ret. split; [done|]. exists (r_ret r), (r_ret r2).
  split_and!; [done..| |].
  - specialize (Hnd2 ltac:(lia)). eapply NoDup_Permutation_proper; [apply Permutation_swap|done].
  - cbn [tr]. eapply holds_perm; [apply Permutation_swap|]. by repeat holds_step.
Qed.
End Dtor.

(** ** What the hub guarantees *)

Section Delivered.
Context (E : env) (K : Z) (Hok : linux_ok E) (Hp : patient K E) (fuel : nat) (Hfuel : 65536 * (K + 1) <= Z.of_nat fuel).

(** A packet the peer has sent is read whole, however it was cut up. *)
Lemma readTcpPacket_delivers fd hdr payload tail w :
  hub_inv (st w) -> pending_tcp_socks_ (st w) !! fd = Some fd \/ is_Some (tcp_fd_map_ (st w) !! fd) ->
  header_wf hdr -> len payload = h_payload_len hdr -> delivers E fd (tr w) (encode hdr ++ payload ++ tail) [0; 6]%nat ->
  wp (readTcpPacket fuel fd) E w (fun pkt w' => pkt = Some (hdr, payload) /\ st w' = st w /\
    io_since (hub_fds (st w)) (tr w) (tr w') /\ received fd (tr w') = received fd (tr w) ++ encode hdr ++ payload).
Proof.
  intros Hi Hin Hw Hlen Hd. pose proof (pt_nonneg _ _ Hp) as HK. pose proof Hw as (_ & _ & _ & _ & Hpl). unfold is_u16 in Hpl.
  change (2 ^ 16) with 65536 in Hpl. unfold readTcpPacket. apply wp_bind. eapply wp_mono; [|by apply socket_of_wp].
  intros sock w' (-> & Hsome & Hnone). destruct sock as [x|].
  2:{ destruct (Hnone eq_refl) as [Hn1 Hn2]. rewrite Hn1, Hn2 in Hin. destruct Hin as [|[? ?]]; done. }
  destruct (Hsome _ eq_refl) as [-> Hfd]. clear Hsome Hnone. assert ([fd] ⊆ hub_fds (st w)) as Hsub by set_solver.
  unfold read_packet. apply wp_bind. change (sizeof Header) with (len (encode hdr)).
  eapply wp_mono; [|eapply (recvExactly_delivers E K fuel fd (tr w) _ _ [] (encode hdr) (payload ++ tail)); try done];
    [|apply list_elem_of_here|by rewrite app_nil_r|cbn; lia].
  intros res w1 (-> & Hst1 & Hio1 & Hrec1). cbn [fst snd]. change (len (encode hdr) <=? 0) with false. cbn iota.
  apply wp_bind. eapply wp_checked; [rewrite <- (app_nil_r (encode hdr)); by apply decode_encode|]. cbn zeta.
  destruct (Z.ltb_spec 0 (h_payload_len hdr)).
  - apply wp_bind. rewrite <- Hlen. eapply wp_mono; [|eapply (recvExactly_delivers E K fuel fd (tr w) _ _ (encode hdr) payload tail); try done];
      [|cbn; apply list_elem_of_further, list_elem_of_here|nia].
    intros res w2 (-> & Hst2 & Hio2 & Hrec2). cbn [fst snd]. destruct (Z.leb_spec (len payload) 0); [lia|]. apply wp_ret.
    split_and!; [done|by rewrite Hst2|eapply io_mono; [exact Hsub|by eapply io_trans]|done].
  - apply wp_ret. assert (payload = []) as -> by (apply length_zero_iff_nil; lia).
    split_and!; [done..|by eapply io_mono|by rewrite app_nil_r].
Qed.
End Delivered.

(** C13: a packet is read back whole.  When the peer of a socket the hub knows has sent a well-formed
    packet, [readTcpPacket] returns exactly that header and payload and leaves the stream at the
    packet's end, in whatever pieces and with whatever retries the bytes arrive, as long as the
    socket does not run dry (EAGAIN) before the first byte of the header or of the payload, where
    [recvExactly] gives up (see [DaemonMain.split_packet_drops_socket]). *)
Theorem packet_roundtrip E K fuel fd hdr payload tail w :
  linux_ok E -> patient K E -> 65536 * (K + 1) <= Z.of_nat fuel -> hub_inv (st w) ->
  pending_tcp_socks_ (st w) !! fd = Some fd \/ is_Some (tcp_fd_map_ (st w) !! fd) ->
  header_wf hdr -> len payload = h_payload_len hdr -> delivers E fd (tr w) (encode hdr ++ payload ++ tail) [0; 6]%nat ->
  exists w', readTcpPacket fuel fd E w = Some (Some (hdr, payload), w') /\ st w' = st w /\
    received fd (tr w') = received fd (tr w) ++ encode hdr ++ payload.
Proof.
  intros Hok Hp Hf Hi Hin Hw Hl Hd.
  destruct (wp_run _ _ _ _ (readTcpPacket_delivers E K Hok Hp fuel Hf fd hdr payload tail w Hi Hin Hw Hl Hd)) as (pkt & w' & Hr & -> & Hst & _ & Hrec).
  by exists w'.
Qed.

(** The simulated connection delivers its stream. *)
Lemma sim_delivers s fd t0 {cuts} : 0 < sim_chunk s -> received fd t0 = [] -> delivers (sim_env s) fd t0 (sim_recv s fd) cuts.
Proof.
  intros Hc Ht0 t pre rest n Hrec Hbs Hne Hn. rewrite Ht0 in Hrec. cbn [app] in Hrec. left. cbn [sim_env].
  unfold deliver. cbn [r_ret r_out]. rewrite Hrec, Hbs, drop_app_length. split.
  - rewrite length_take. destruct rest; [done|]. cbn. lia.
  - exists (drop (Z.to_nat (Z.min n (sim_chunk s))) rest). by rewrite take_drop.
Qed.

(** A log packet, five bytes at a time, on a pending socket. *)
Definition log_hdr : Header := mkHeader CMD_LOG 0 0 0 4.
Definition log_sim : sim := Sim (fun fd => if fd =? 7 then encode log_hdr ++ [1; 72; 105; 10] else []) 5 (fun _ => []) [] [].
Definition log_hub : HubServer := set_pending_socks {[7 := 7]} (hub_empty 5 6).
Lemma log_sim_ok : sim_ok log_sim 0.
Proof.
  constructor; [|done|by split|constructor]. intros fd. cbn. destruct (fd =? 7); [|constructor].
  repeat (apply Forall_cons_2; [by vm_compute|]). constructor.
Qed.
Lemma log_hub_inv : hub_inv log_hub.
Proof.
  destruct (hub_empty_inv 5 6). constructor; try done. intros fd x Hx. cbn [log_hub set_pending_socks pending_tcp_socks_] in Hx.
  by apply lookup_singleton_Some in Hx as [<- <-].
Qed.

Lemma packet_roundtrip_witness :
  exists w', readTcpPacket (Z.to_nat 65536) 7 (sim_env log_sim) (World log_hub []) = Some (Some (log_hdr, [1; 72; 105; 10]), w').
Proof.
  destruct (packet_roundtrip (sim_env log_sim) 0 (Z.to_nat 65536) 7 log_hdr [1; 72; 105; 10] [] (World log_hub [])
    (sim_linux_ok _ _ log_sim_ok) (sim_patient _ _ log_sim_ok ltac:(lia)) ltac:(lia) log_hub_inv) as (w' & Hr & _).
  - left. vm_compute. reflexivity.
  - split_and!; vm_compute; split; discriminate || reflexivity.
  - reflexivity.
  - apply (sim_delivers log_sim 7 []); reflexivity.
  - by exists w'.
Defined.

(** C21: a log packet is printed as the reference formatting of its text: one line, on the stream and with the
    tag of its level, holding the message up to its first NUL and without its trailing line ends;
    an empty payload prints nothing, and nothing else changes. *)
Theorem log_printed {S} E (payload : bytes) (w : world S) :
  linux_ok E -> exists w', log_packet_line payload E w = Some (tt, w') /\ st w' = st w /\
    match payload with
    | [] => tr w' = tr w
    | level :: msg => exists r1 r2 time, tr w' = tr w ++ [(CClock, r1);
        (CFprintf (level_tag level).1 (time ++ str " " ++ (level_tag level).2 ++ (str "[ESP TCP] " ++ c_str (rtrim msg)) ++ [10]), r2)]
    end.
Proof. intros Hok. destruct (wp_run _ _ _ _ (log_packet_line_wp E Hok payload w)) as ([] & w' & Hr & H). by exists w'. Qed.

Lemma log_printed_witness :
  exists w' r1 r2 time, log_packet_line [2; 104; 105; 13; 10] (sim_env log_sim) (World tt []) = Some (tt, w') /\
    tr w' = [(CClock, r1); (CFprintf true (time ++ str " " ++ (level_tag 2).2 ++ (str "[ESP TCP] " ++ [104; 105]) ++ [10]), r2)].
Proof.
  destruct (log_printed (sim_env log_sim) [2; 104; 105; 13; 10] (World tt []) (sim_linux_ok _ _ log_sim_ok)) as (w' & Hr & _ & r1 & r2 & time & Ht).
  by exists w', r1, r2, time.
Defined.
