(* ===== verification/DaemonMain.v ===== *)
(** * The daemon's main (daemon/src/main.cpp)

    The event loop over the hub, the vhci driver and epoll, with the callbacks
    the hub calls back into.  [main rounds] runs the program with [rounds]
    passes of the loop before a signal clears [g_running]; an exception that
    leaves main ends the process. *)

From stdpp Require Import gmap.
From S2P Require Import Prelude Effects Descriptors Protocol Addr CrashReporter Linux SimOs DaemonNet Vhci Passthrough HubServer.

Definition MAX_EVENTS : Z := 16.

Record Daemon := mkDaemon { d_vhci : VhciDriver; d_epfd : Z; d_hub : HubServer }.
Definition vhci_l : lens Daemon VhciDriver := Lens d_vhci (fun v d => mkDaemon v (d_epfd d) (d_hub d)).
Definition d_hub_l : lens Daemon HubServer := Lens d_hub (fun h d => mkDaemon (d_vhci d) (d_epfd d) h).
(** Before the hub is constructed. *)
Definition Daemon0 : Daemon := mkDaemon VhciDriver0 (-1) (hub_empty (-1) (-1)).

Definition epollAdd (fd evts : Z) : M Daemon unit := d ← get; call_ext (CEpollAdd (d_epfd d) fd evts) ;; mret tt.
Definition epollDel (fd : Z) : M Daemon unit := d ← get; call_ext (CEpollDel (d_epfd d) fd) ;; mret tt.

(** [(1u << 16) | (dev_id + 1u)] *)
Definition usb_devid (dev_id : Z) : Z := Z.lor (Z.shiftl 1 16) (u32 (dev_id + 1)).
(** [int spv[2]] after [socketpair]. *)
Definition pair_of (r : reply) : option (Z * Z) := match r_out r with [a; b] => Some (a, b) | _ => None end.
Definition close_pair (spv : Z * Z) : M Daemon unit := call_ext (CClose spv.1) ;; call_ext (CClose spv.2) ;; mret tt.

Definition doUsbAttach (dev_id speed : Z) (dev_addr : sockaddr_in) : M Daemon unit :=
  r ← call_ext (CSocketpair false);
  if r_ret r <? 0 then mret tt else
  spv ← checked (pair_of r);
  port ← zoom vhci_l (attach spv.1 (usb_devid dev_id) speed);
  if port <? 0 then close_pair spv else
  let client_fd := ntohs (sin_port dev_addr) in
  tcp_sock ← zoom d_hub_l (extractPendingSocket client_fd);
  match tcp_sock with
  | None => close_pair spv
  | Some sock =>
      epollAdd sock (Z.lor EPOLLIN EPOLLRDHUP) ;;
      zoom d_hub_l (addSession dev_id port spv.2 spv.1 dev_addr (Some sock)) ;;
      epollAdd spv.2 (Z.lor EPOLLIN EPOLLRDHUP)
  end.

Definition connect_cb (dev_id speed : Z) (dev_addr : sockaddr_in) : M Daemon unit := doUsbAttach dev_id speed dev_addr.

Definition disconnect_cb (dev_id : Z) : M Daemon unit :=
  s ← zoom d_hub_l (findByDeviceId dev_id);
  match s with
  | None => mret tt
  | Some p =>
      s ← zoom d_hub_l (deref p);
      epollDel (ds_vhci_fd s) ;;
      (match ds_tcp_sock s with Some fd => epollDel fd | None => mret tt end) ;;
      (if 0 <=? ds_vhci_port s then zoom vhci_l (detach (ds_vhci_port s)) ;; mret tt else mret tt) ;;
      zoom d_hub_l (removeSession dev_id)
  end.

#[global] Instance main_callbacks : HubCallbacks Daemon := {|
  hub_l := d_hub_l; on_connect_ := connect_cb; on_disconnect_ := disconnect_cb |}.

Section Main.
Context (fuel : nat).

(** A new socketpair and port for a device whose socket is [tcp_sock]; the socket is closed when that fails. *)
Definition usb_reattach (dev_id : Z) (dev_addr : sockaddr_in) (tcp_sock : option Z) : M Daemon unit :=
  let drop_sock := match tcp_sock with Some fd => TcpSocket_dtor fd | None => mret tt end in
  r ← call_ext (CSocketpair false);
  if r_ret r =? 0 then
    spv ← checked (pair_of r);
    port ← zoom vhci_l (attach spv.1 (usb_devid dev_id) 2);
    if 0 <=? port then
      sock ← checked tcp_sock;
      zoom d_hub_l (addSession dev_id port spv.2 spv.1 dev_addr (Some sock)) ;;
      epollAdd spv.2 (Z.lor EPOLLIN EPOLLRDHUP)
    else close_pair spv ;; drop_sock
  else drop_sock.

(** The kernel has closed its end: attach the same device again. *)
Definition usb_reset (p ev_fd : Z) : M Daemon unit :=
  s ← zoom d_hub_l (deref p);
  if 0 <=? ds_vhci_port s then
    zoom d_hub_l (modify (fun h => set_heap (<[p := set_tcp_sock None s]> (heap h)) h)) ;;
    epollDel ev_fd ;;
    zoom vhci_l (freePort (ds_vhci_port s)) ;;
    zoom d_hub_l (removeSession (ds_device_id s)) ;;
    usb_reattach (ds_device_id s) (ds_dev_addr s) (ds_tcp_sock s)
  else mret tt.

Definition hup (mask evts : Z) : bool := negb (Z.land evts mask =? 0).
Definition HUP_MASK : Z := Z.lor EPOLLRDHUP (Z.lor EPOLLHUP EPOLLERR).

(** An event on a socket that is neither the UDP nor the listening socket. *)
Definition session_event (ev_fd evts : Z) : M Daemon unit :=
  tcp_sess ← zoom d_hub_l (findByTcpFd ev_fd);
  match tcp_sess with
  | Some p =>
      if hup HUP_MASK evts then
        s ← zoom d_hub_l (deref p);
        zoom d_hub_l (removeSession (ds_device_id s))
      else if hup EPOLLIN evts then onTcpReadable fuel ev_fd
      else mret tt
  | None =>
      s ← zoom d_hub_l (findByVhciFd ev_fd);
      match s with
      | Some p =>
          if hup HUP_MASK evts then usb_reset p ev_fd
          else if hup EPOLLIN evts then
            ok ← zoom d_hub_l (with_handler p (onVhciReadable fuel));
            if (ok : bool) then mret tt else
            s ← zoom d_hub_l (deref p);
            zoom d_hub_l (removeSession (ds_device_id s))
          else mret tt
      | None => if hup EPOLLIN evts then onTcpReadable fuel ev_fd else mret tt
      end
  end.

(** One iteration of the loop over the events. *)
Definition dispatch (ev : Z * Z) : M Daemon unit :=
  let '(ev_fd, evts) := ev in
  d ← get;
  if ev_fd =? udpFd (d_hub d) then zoom d_hub_l onUdpReadable else
  if ev_fd =? tcpServerFd (d_hub d) then zoom d_hub_l onTcpAccept else
  pending_it ← zoom d_hub_l (extractPendingSocket (-2));
  session_event ev_fd evts ;;
  match pending_it with Some fd => TcpSocket_dtor fd | None => mret tt end.

(** [events[0..n)] as [epoll_wait] filled it. *)
Fixpoint events_of (n : nat) (l : list Z) : option (list (Z * Z)) :=
  match n with
  | O => Some []
  | S n' => match l with fd :: evts :: l' => ((fd, evts) ::.) <$> events_of n' l' | _ => None end
  end.

(** [while (g_running)] *)
Fixpoint event_loop (rounds : nat) : M Daemon unit :=
  match rounds with
  | O => mret tt
  | S n =>
      d ← get;
      r ← call_ext (CEpollWait (d_epfd d) MAX_EVENTS 500);
      if r_ret r <? 0 then
        if r_aux r =? EINTR then event_loop n else mret tt
      else
        evs ← checked (events_of (Z.to_nat (r_ret r)) (r_out r));
        each dispatch evs ;;
        event_loop n
  end.

Inductive exit := Exit (code : Z) | Terminated.

(** After the loop; then the objects are destroyed, the last one first. *)
Definition shutdown : M Daemon exit :=
  zoom vhci_l detachAll ;;
  d ← get;
  call_ext (CClose (d_epfd d)) ;;
  zoom d_hub_l HubServer_dtor ;;
  zoom vhci_l VhciDriver_dtor ;;
  mret (Exit 0).

Definition main (rounds : nat) : M Daemon exit :=
  call_ext (CSigaction SIGINT) ;;
  call_ext (CSigaction SIGTERM) ;;
  ok ← zoom vhci_l init;
  if negb ok then zoom vhci_l VhciDriver_dtor ;; mret (Exit 1) else
  r ← call_ext CEpollCreate;
  if r_ret r <? 0 then zoom vhci_l VhciDriver_dtor ;; mret (Exit 1) else
  modify (fun d => mkDaemon (d_vhci d) (r_ret r) (d_hub d)) ;;
  hub ← HubServer_ctor;
  match hub with
  | None => mret Terminated
  | Some h =>
      modify (fun d => mkDaemon (d_vhci d) (d_epfd d) h) ;;
      epollAdd (udpFd h) EPOLLIN ;;
      epollAdd (tcpServerFd h) EPOLLIN ;;
      event_loop rounds ;;
      shutdown
  end.
End Main.

(** ** The invariant *)

Definition daemon_fds (d : Daemon) : list Z := vhci_fd_ (d_vhci d) :: d_epfd d :: hub_fds (d_hub d).

(** Every session has a port of its own, marked in the driver's table; the descriptors are distinct. *)
Record daemon_ok (d : Daemon) : Prop := {
  dk_hub : hub_inv (d_hub d);
  dk_vhci : vhci_ok (d_vhci d);
  dk_ports p s : heap (d_hub d) !! p = Some s -> arr_get (ports_ (d_vhci d)) (ds_vhci_port s) = Some true;
  dk_distinct p q s s' : heap (d_hub d) !! p = Some s -> heap (d_hub d) !! q = Some s' ->
    ds_vhci_port s = ds_vhci_port s' -> p = q;
  dk_nonneg : Forall (fun fd => 0 <= fd) [vhci_fd_ (d_vhci d); d_epfd d; udp_sock_ (d_hub d); tcp_server_ (d_hub d)];
  dk_nodup : NoDup (daemon_fds d);
}.

(** In addition, the open descriptors are exactly those of the daemon's objects. *)
Definition daemon_inv (w : world Daemon) : Prop := daemon_ok (st w) /\ holds_fds (tr w) (daemon_fds (st w)) [].

Lemma fds_drop v e h p s :
  heap h !! p = Some s -> daemon_fds (mkDaemon v e h) ≡ₚ session_fds s ++ daemon_fds (mkDaemon v e (drop_session p s h)).
Proof.
  intros Hp. unfold daemon_fds, hub_fds.
  cbn [d_vhci d_epfd d_hub drop_session add_session set_pending_socks udp_sock_ tcp_server_ heap pending_tcp_socks_].
  rewrite (heap_fds_delete _ _ _ Hp), Permutation_app_swap_app.
  generalize (session_fds s). intros l. by rewrite <- !Permutation_middle.
Qed.
Lemma fds_add v e h s fd :
  hub_inv h -> daemon_fds (mkDaemon v e (add_session s fd h)) ≡ₚ session_fds s ++ daemon_fds (mkDaemon v e h).
Proof.
  intros Hi. assert (heap h !! next_ptr h = None) as Hn.
  { destruct (heap h !! next_ptr h) as [s'|] eqn:Hp; [|done]. pose proof (hi_next _ Hi _ _ Hp). lia. }
  unfold daemon_fds, hub_fds.
  cbn [d_vhci d_epfd d_hub drop_session add_session set_pending_socks udp_sock_ tcp_server_ heap pending_tcp_socks_].
  rewrite (heap_fds_insert _ _ _ Hn), Permutation_app_swap_app.
  generalize (session_fds s). intros l. by rewrite <- !Permutation_middle.
Qed.
Lemma fds_pending v e h fd x :
  pending_tcp_socks_ h !! fd = Some x ->
  daemon_fds (mkDaemon v e h) ≡ₚ x :: daemon_fds (mkDaemon v e (set_pending_socks (delete fd (pending_tcp_socks_ h)) h)).
Proof.
  intros Hp. unfold daemon_fds, hub_fds.
  cbn [d_vhci d_epfd d_hub drop_session add_session set_pending_socks udp_sock_ tcp_server_ heap pending_tcp_socks_].
  rewrite (pending_fds_delete _ _ _ Hp).
  cbn [app]. by rewrite !(Permutation_swap x).
Qed.

Lemma ok_drop v v' e h p s :
  daemon_ok (mkDaemon v e h) -> heap h !! p = Some s -> vhci_ok v' -> vhci_fd_ v' = vhci_fd_ v ->
  (forall q, q <> ds_vhci_port s -> arr_get (ports_ v') q = arr_get (ports_ v) q) ->
  daemon_ok (mkDaemon v' e (drop_session p s h)).
Proof.
  intros [Hh Hv Hpo Hd Hn Hnd] Hp Hv' Hfd Hq. cbn in *. constructor; cbn; [by apply drop_session_inv|done|..].
  - intros q s' [Hne Hs]%lookup_delete_Some. rewrite Hq; [by eapply Hpo|]. intros He. by apply Hne, (Hd p q s s').
  - intros q q' s1 s2 [_ H1]%lookup_delete_Some [_ H2]%lookup_delete_Some. by eapply Hd.
  - by rewrite Hfd.
  - rewrite (fds_drop v e h p s Hp) in Hnd. apply NoDup_app in Hnd as (_ & _ & Hnd). unfold daemon_fds in *. cbn in *. by rewrite Hfd.
Qed.

Lemma ok_ports v v' e h :
  daemon_ok (mkDaemon v e h) -> vhci_ok v' -> vhci_fd_ v' = vhci_fd_ v ->
  (forall q, arr_get (ports_ v) q = Some true -> arr_get (ports_ v') q = Some true) -> daemon_ok (mkDaemon v' e h).
Proof.
  intros [Hh Hv Hpo Hd Hn Hnd] Hv' Hfd Hq. cbn in *. constructor; cbn; [done..| |done|by rewrite Hfd|].
  - intros p s Hs. by eapply Hq, Hpo.
  - unfold daemon_fds in *. cbn in *. by rewrite Hfd.
Qed.

Lemma ok_add v e h s fd :
  daemon_ok (mkDaemon v e h) -> session_ok s -> ds_tcp_sock s = Some fd -> sessions_ h !! ds_device_id s = None ->
  arr_get (ports_ v) (ds_vhci_port s) = Some true ->
  (forall p s', heap h !! p = Some s' -> ds_vhci_port s' <> ds_vhci_port s) ->
  NoDup (session_fds s ++ daemon_fds (mkDaemon v e h)) -> daemon_ok (mkDaemon v e (add_session s fd h)).
Proof.
  intros [Hh Hv Hpo Hd Hn Hnd0] Hs Hfd Hid Hport Hfree Hnd. cbn in *. constructor; cbn; [|done|..|done|].
  - apply add_session_inv; [done..|]. intros x Hx Hx'. apply NoDup_app in Hnd as (_ & Hdis & _). apply (Hdis x Hx).
    unfold daemon_fds, hub_fds. cbn. set_solver.
  - intros p s' [[<- <-]|[_ Hp]]%lookup_insert_Some; [done|by eapply Hpo].
  - intros p q s1 s2 [[<- <-]|[_ Hp]]%lookup_insert_Some [[<- <-]|[_ Hq]]%lookup_insert_Some He; [done|..|by eapply Hd].
    + by apply Hfree in Hq.
    + by apply Hfree in Hp.
  - by rewrite fds_add.
Qed.

Lemma ok_pending v e h fd x :
  daemon_ok (mkDaemon v e h) -> pending_tcp_socks_ h !! fd = Some x ->
  daemon_ok (mkDaemon v e (set_pending_socks (delete fd (pending_tcp_socks_ h)) h)).
Proof.
  intros [Hh Hv Hpo Hd Hn Hnd] Hp. constructor; cbn; try done.
  - destruct Hh. constructor; cbn; try done. intros k y [_ ?]%lookup_delete_Some. auto.
  - rewrite (fds_pending v e h fd x Hp) in Hnd. by apply NoDup_cons in Hnd as [_ ?].
Qed.

(** The handler's sequence number is not part of the invariant. *)
Lemma ok_handler v e h p s ph q :
  daemon_ok (mkDaemon v e h) -> heap h !! p = Some s -> ds_handler s = Some ph ->
  daemon_ok (mkDaemon v e (set_heap (<[p := set_handler (set_seq q ph) s]> (heap h)) h)) /\
  daemon_fds (mkDaemon v e (set_heap (<[p := set_handler (set_seq q ph) s]> (heap h)) h)) ≡ₚ daemon_fds (mkDaemon v e h).
Proof.
  intros Hok Hp Hph. set (s' := set_handler (set_seq q ph) s).
  assert (heap_fds (<[p := s']> (heap h)) ≡ₚ heap_fds (heap h)) as Hfds.
  { rewrite <- insert_delete_eq, heap_fds_insert by apply lookup_delete_eq. by rewrite (heap_fds_delete _ _ _ Hp). }
  assert (daemon_fds (mkDaemon v e (set_heap (<[p := s']> (heap h)) h)) ≡ₚ daemon_fds (mkDaemon v e h)) as Hd.
  { unfold daemon_fds, hub_fds. cbn [d_vhci d_epfd d_hub set_heap udp_sock_ tcp_server_ heap pending_tcp_socks_]. by rewrite Hfds. }
  split; [|done]. destruct Hok as [[Hs Hvf Ht Hnx Ho Hpe] Hv Hpo Hdi Hn Hnd]. cbn in *.
  assert (forall (P : DeviceSession -> Prop) r, (P s' <-> P s) ->
    (exists s0, <[p := s']> (heap h) !! r = Some s0 /\ P s0) <-> (exists s0, heap h !! r = Some s0 /\ P s0)) as Hex.
  { intros P r HP. destruct (decide (r = p)) as [->|]; [rewrite lookup_insert_eq, Hp; naive_solver|by rewrite lookup_insert_ne]. }
  constructor; cbn; [constructor; cbn|done|..|done|by rewrite Hd].
  - intros id r. rewrite Hs. symmetry. by apply (Hex (fun x => ds_device_id x = id)).
  - intros fd r. rewrite Hvf. symmetry. by apply (Hex (fun x => ds_vhci_fd x = fd)).
  - intros fd r. rewrite Ht. symmetry. by apply (Hex (fun x => ds_tcp_sock x = Some fd)).
  - intros r s0 [[<- _]|[_ ?]]%lookup_insert_Some; by eapply Hnx.
  - intros r s0 [[<- <-]|[_ ?]]%lookup_insert_Some; [|by eapply Ho]. destruct (Ho _ _ Hp) as [(fd & q' & Hfd & Hh) Hf]. constructor; [|done].
    rewrite Hh in Hph. injection Hph as <-. exists fd, q. done.
  - done.
  - intros r s0 [[<- <-]|[_ ?]]%lookup_insert_Some; [by apply (Hpo p s)|by eapply Hpo].
  - intros r r' s1 s2 [[<- <-]|[_ H1]]%lookup_insert_Some [[<- <-]|[_ H2]]%lookup_insert_Some He; [done|..|by eapply Hdi].
    + by eapply (Hdi p r' s s2).
    + by eapply (Hdi r p s1 s).
Qed.

Lemma fds_epfd d : d_epfd d ∈ daemon_fds d.
Proof. unfold daemon_fds. set_solver. Qed.
Lemma fds_session d p s x : heap (d_hub d) !! p = Some s -> x ∈ session_fds s -> x ∈ daemon_fds d.
Proof. intros Hp Hx. pose proof (session_fds_in _ _ _ _ Hp Hx). unfold daemon_fds. set_solver. Qed.
Lemma session_fd_vhci s : ds_vhci_fd s ∈ session_fds s.
Proof. unfold session_fds. set_solver. Qed.
Lemma session_fd_tcp s fd : ds_tcp_sock s = Some fd -> fd ∈ session_fds s.
Proof. intros Hfd. unfold session_fds. rewrite Hfd. set_solver. Qed.

(** ** The callbacks keep the invariant *)

(** At a point of a run: the system makes a socketpair, and then opens the attach file and takes what
    is written to it. *)
Definition plug_works (E : env) (t : trace) : Prop :=
  let r := E t (CSocketpair false) in
  r_ret r = 0 /\ forall line, sysfs_takes E (t ++ [(CSocketpair false, r)]) SYSFS_ATTACH line.

(** The point of a reset at which main attaches the device again: it has taken the socketpair off
    epoll and closed both ends.  A session that is removed for another reason has its TCP socket
    closed after them, so main gets to such a point in a reset only. *)
Definition reset_point (t : trace) : Prop :=
  exists t0 epfd fd a b r0 r1 r2, t = t0 ++ [(CEpollDel epfd fd, r0); (CClose a, r1); (CClose b, r2)].

(** Attaching a device again after a reset does not fail. *)
Definition reattach_ok (E : env) : Prop := forall t, reset_point t -> plug_works E t.

Lemma works_plug E t : sysfs_works E -> (forall t, r_ret (E t (CSocketpair false)) = 0) -> plug_works E t.
Proof. intros Hs Hp. split; [apply Hp|]. intros line. by apply sysfs_works_takes. Qed.

Definition mark_port (p : Z) (v : VhciDriver) : VhciDriver := set_ports (<[Z.to_nat p := true]> (ports_ v)) v.
Definition free_port (p : Z) (v : VhciDriver) : VhciDriver := set_ports (<[Z.to_nat p := false]> (ports_ v)) v.

(** What a CONNECT with the socket number in [addr] can do to the daemon. *)
Definition connect_outcome (E : env) (id speed : Z) (addr : sockaddr_in) (w w' : world Daemon) : Prop :=
  let k := ntohs (sin_port addr) in let d := st w in let d' := st w' in
  (d' = d /\ (plug_works E (tr w) -> forall q, 0 <= q < max_ports_ -> arr_get (ports_ (d_vhci d)) q = Some true)) \/
  (exists v, (exists p, lowest_free (ports_ (d_vhci d)) p /\ v = mark_port p (d_vhci d)) /\
     d' = mkDaemon v (d_epfd d) (d_hub d) /\ pending_tcp_socks_ (d_hub d) !! k = None) \/
  (exists p a b, (lowest_free (ports_ (d_vhci d)) p /\ pending_tcp_socks_ (d_hub d) !! k = Some k) /\
     sysfs_log (tr w') = sysfs_log (tr w) ++ [(SYSFS_ATTACH, attach_line p a (usb_devid id) speed)] /\
     d' = mkDaemon (mark_port p (d_vhci d)) (d_epfd d)
            (add_session (new_session id p b a addr k) k (set_pending_socks (delete k (pending_tcp_socks_ (d_hub d))) (d_hub d)))).

(** What a DISCONNECT can do: nothing, or remove the device's session, whose port is free afterwards
    if the kernel took the detach. *)
Definition disconnect_outcome (id : Z) (w w' : world Daemon) : Prop :=
  let d := st w in let d' := st w' in
  (sessions_ (d_hub d) !! id = None /\ d' = d) \/
  (exists p s v, heap (d_hub d) !! p = Some s /\ ds_device_id s = id /\
     (v = d_vhci d \/ v = free_port (ds_vhci_port s) (d_vhci d)) /\ d' = mkDaemon v (d_epfd d) (drop_session p s (d_hub d))).

(** Accepting a connection. *)
Definition accept_outcome (w w' : world Daemon) : Prop :=
  let d := st w in
  st w' = d \/ (exists k, k ∉ daemon_fds d /\
    st w' = mkDaemon (d_vhci d) (d_epfd d) (set_pending_socks (<[k := k]> (pending_tcp_socks_ (d_hub d))) (d_hub d))).

(** A reset puts the session of a device on the lowest port that is free without its own. *)
Definition reset_outcome (s : DeviceSession) (p : Z) (w w' : world Daemon) : Prop :=
  let d := st w in let v := free_port (ds_vhci_port s) (d_vhci d) in
  exists fd q a b, ds_tcp_sock s = Some fd /\ lowest_free (ports_ v) q /\
    st w' = mkDaemon (mark_port q v) (d_epfd d) (add_session (new_session (ds_device_id s) q b a (ds_dev_addr s) fd) fd (drop_session p s (d_hub d))).

Section Callbacks.
Context (E : env) (Hok : linux_ok E).
Implicit Types (w : world Daemon).

(** New descriptors differ from those that are open. *)
Lemma fresh_opens t own c : holds_fds t own [] -> NoDup own -> NoDup (fd_opens c (E t c) ++ own).
Proof.
  intros (l & Hl & Hp) Hnd. rewrite app_nil_r in Hp. rewrite <- Hp. apply (lx_fresh _ Hok); [done|]. by rewrite Hp.
Qed.

Lemma inv_io w t' : daemon_inv w -> io_since (daemon_fds (st w)) (tr w) t' -> daemon_inv (World (st w) t').
Proof. intros [Hd Hf] Hio. split; [done|]. by eapply io_holds; [|exact Hio|exact Hf]. Qed.

Lemma epoll_wp (m : M Daemon unit) c fd w own :
  (m = (d ← get; call_ext (c (d_epfd d)) ;; mret tt)) -> (forall e, fd_still (c e) /\ fd_uses false (c e) = [e; fd]) ->
  d_epfd (st w) ∈ own -> fd ∈ own -> holds_fds (tr w) own [] ->
  wp m E w (fun _ w' => st w' = st w /\ holds_fds (tr w') own []).
Proof.
  intros -> Hc He Hfd Hf. repeat wp_step. split; [done|]. cbn [tr]. destruct (Hc (d_epfd (st w))) as [Hs Hu].
  apply holds_uses; [done| |done]. rewrite Hu. by repeat (apply Forall_cons_2; [done|]).
Qed.
Lemma epollAdd_wp fd ev w own :
  d_epfd (st w) ∈ own -> fd ∈ own -> holds_fds (tr w) own [] ->
  wp (epollAdd fd ev) E w (fun _ w' => st w' = st w /\ holds_fds (tr w') own []).
Proof. by apply (epoll_wp _ (fun e => CEpollAdd e fd ev)). Qed.
Lemma epollDel_wp fd w own :
  d_epfd (st w) ∈ own -> fd ∈ own -> holds_fds (tr w) own [] ->
  wp (epollDel fd) E w (fun _ w' => st w' = st w /\ holds_fds (tr w') own []).
Proof. by apply (epoll_wp _ (fun e => CEpollDel e fd)). Qed.

Lemma epollDel_tr fd w : wp (epollDel fd) E w (fun _ w' => exists r, tr w' = tr w ++ [(CEpollDel (d_epfd (st w)) fd, r)]).
Proof. unfold epollDel. repeat wp_step. eauto. Qed.

Lemma close_pair_wp spv w own :
  holds_fds (tr w) (spv.1 :: spv.2 :: own) [] -> wp (close_pair spv) E w (fun _ w' => st w' = st w /\ holds_fds (tr w') own []).
Proof. intros Hf. unfold close_pair. repeat wp_step. split; [done|]. cbn [tr]. by repeat holds_step. Qed.

(** Removing a session, whatever happened to its port. *)
Lemma remove_inv v p s w :
  daemon_ok (mkDaemon v (d_epfd (st w)) (d_hub (st w))) -> heap (d_hub (st w)) !! p = Some s ->
  vhci_ok (d_vhci (st w)) -> vhci_fd_ (d_vhci (st w)) = vhci_fd_ v ->
  (forall q, q <> ds_vhci_port s -> arr_get (ports_ (d_vhci (st w))) q = arr_get (ports_ v) q) ->
  holds_fds (tr w) (daemon_fds (st w)) [] ->
  wp (zoom d_hub_l (removeSession (ds_device_id s))) E w (fun _ w' => daemon_inv w' /\
    st w' = mkDaemon (d_vhci (st w)) (d_epfd (st w)) (drop_session p s (d_hub (st w)))).
Proof.
  intros Hd Hp Hv Hfd Hq Hf. destruct w as [[v' e h] t]. cbn [st tr d_vhci d_epfd d_hub] in *.
  apply wp_zoom. cbn [st tr l_get d_hub_l d_hub]. eapply wp_mono; [|apply (removeSession_wp E p s (World h t) (daemon_fds (mkDaemon v' e (drop_session p s h))) [])]; cbn [st tr].
  - intros [] w' [Hst Hf']. cbn [l_put d_hub_l st tr d_vhci d_epfd]. rewrite Hst. split; [|done]. split; [|done]. by apply (ok_drop v).
  - apply (hi_sess _ (dk_hub _ Hd)). eauto.
  - done.
  - apply (so_fds _ (hi_obj _ (dk_hub _ Hd) _ _ Hp)).
  - eapply holds_perm; [|exact Hf]. by apply fds_drop.
Qed.

Local Hint Resolve fds_epfd fds_session session_fd_vhci session_fd_tcp : hub.

Lemma disconnect_wp id w :
  daemon_inv w -> wp (disconnect_cb id) E w (fun _ w' => (daemon_inv w' /\ sessions_ (d_hub (st w')) !! id = None) /\ disconnect_outcome id w w').
Proof.
  intros [Hd Hf]. destruct w as [[v e h] t]. cbn [st tr] in *. unfold disconnect_cb, findByDeviceId, deref.
  apply wp_bind, wp_zoom, wp_bind, wp_get, wp_ret. cbn [st tr l_get l_put d_hub_l d_hub d_vhci d_epfd].
  destruct (sessions_ h !! id) as [p|] eqn:Hid; [|apply wp_ret; split; [done|by left]].
  apply (hi_sess _ (dk_hub _ Hd)) in Hid as (s & Hp & <-). cbn [d_hub] in Hp.
  apply wp_bind, wp_zoom, wp_bind, wp_get. eapply wp_checked; [exact Hp|]. cbn [st tr l_get l_put d_hub_l d_hub d_vhci d_epfd].
  destruct (so_sock _ (hi_obj _ (dk_hub _ Hd) _ _ Hp)) as (fd & q & Hfd & _).
  apply wp_bind. eapply wp_mono; [|apply (epollDel_wp _ _ (daemon_fds (mkDaemon v e h)))]; [|eauto with hub..].
  intros [] [d1 t1] [Hst1 Hf1]. cbn [st tr] in *. subst d1. rewrite Hfd.
  apply wp_bind. eapply wp_mono; [|apply (epollDel_wp _ _ (daemon_fds (mkDaemon v e h)))]; [|eauto with hub..].
  intros [] [d2 t2] [Hst2 Hf2]. cbn [st tr] in *. subst d2.
  pose proof (dk_ports _ Hd _ _ Hp) as Hport. cbn [d_vhci] in Hport. pose proof (arr_get_inv _ _ _ Hport) as [Hrange _].
  apply wp_bind. destruct (Z.leb_spec 0 (ds_vhci_port s)); [|lia]. apply wp_bind, wp_zoom. cbn [st tr l_get vhci_l d_vhci].
  eapply wp_mono; [|apply (detach_wp E _ (World v t2) (daemon_fds (mkDaemon v e h)) []); [apply (dk_vhci _ Hd)|done]].
  intros ok [v' t3] [Hf3 Hcase]. cbn [st tr] in *. apply wp_ret. cbn [st tr l_put vhci_l d_epfd d_hub].
  assert (v' = v \/ v' = free_port (ds_vhci_port s) v) as Hvv by (destruct ok; [right; apply Hcase|left; apply Hcase]).
  assert (vhci_ok v' /\ vhci_fd_ v' = vhci_fd_ v /\ forall q, q <> ds_vhci_port s -> arr_get (ports_ v') q = arr_get (ports_ v) q) as (Hv' & Hvf & Hq).
  { destruct ok; [destruct Hcase as (_ & -> & _)|destruct Hcase as [-> _]; split; [apply (dk_vhci _ Hd)|done]].
    split; [apply vhci_ok_insert, (dk_vhci _ Hd)|]. split; [done|]. intros r Hr. cbn. rewrite arr_get_insert by lia.
    by destruct (Z.eqb_spec r (ds_vhci_port s)). }
  eapply wp_mono; [|apply (remove_inv v p s (World (mkDaemon v' e h) t3)); cbn [st tr d_vhci d_epfd d_hub]; try done].
  - intros [] w' [Hi Hst]. split; [split; [done|]|].
    + rewrite Hst. cbn. apply lookup_delete_eq.
    + right. exists p, s, v'. by rewrite Hst.
  - unfold daemon_fds in *. cbn in *. by rewrite Hvf.
Qed.

(** The two descriptors of a new socketpair. *)
Lemma pair_wp w own (Q : Z * Z -> world Daemon -> Prop) r :
  r = E (tr w) (CSocketpair false) -> 0 <= r_ret r -> holds_fds (tr w) own [] -> NoDup own ->
  (forall a b, r_out r = [a; b] -> 0 <= a -> 0 <= b -> NoDup (a :: b :: own) ->
    holds_fds (tr w ++ [(CSocketpair false, r)]) (a :: b :: own) [] -> Q (a, b) (World (st w) (tr w ++ [(CSocketpair false, r)]))) ->
  wp (checked (pair_of r)) E (World (st w) (tr w ++ [(CSocketpair false, r)])) Q.
Proof.
  intros Hr Hpos Hf Hnd HQ. destruct (lx_pair _ Hok (tr w) false) as (a & b & Hab); [by rewrite <- Hr|].
  pose proof (fresh_opens _ _ (CSocketpair false) Hf Hnd) as Hnd'. pose proof (lx_fd _ Hok (tr w) (CSocketpair false)) as Hnn.
  pose proof (holds_call _ _ _ (CSocketpair false) r I (Forall_nil_2 _) Hf) as Hf'.
  rewrite <- Hr in Hab, Hnd', Hnn. cbn [fd_opens] in *. destruct (Z.leb_spec 0 (r_ret r)); [|lia]. rewrite Hab in *.
  apply Forall_cons_1 in Hnn as [Ha Hnn]. apply Forall_cons_1 in Hnn as [Hb _].
  eapply wp_checked; [unfold pair_of; by rewrite Hab|]. by apply HQ.
Qed.

(** Attaching changes nothing, or marks the lowest free port. *)
Lemma attach_port v e h t own fd devid speed (Q : Z -> world Daemon -> Prop) :
  daemon_ok (mkDaemon v e h) -> holds_fds t own [] ->
  (forall t', holds_fds t' own [] -> ((forall line, sysfs_takes E t SYSFS_ATTACH line) -> forall q, 0 <= q < max_ports_ -> arr_get (ports_ v) q = Some true) ->
    Q (-1) (World (mkDaemon v e h) t')) ->
  (forall p v' t', holds_fds t' own [] -> 0 <= p -> daemon_ok (mkDaemon v' e h) -> v' = mark_port p v ->
    lowest_free (ports_ v) p -> arr_get (ports_ v') p = Some true ->
    sysfs_log t' = sysfs_log t ++ [(SYSFS_ATTACH, attach_line p fd devid speed)] -> Q p (World (mkDaemon v' e h) t')) ->
  wp (zoom vhci_l (attach fd devid speed)) E (World (mkDaemon v e h) t) Q.
Proof.
  intros Hd Hf Hfail Hdone. apply wp_zoom. cbn [st tr l_get vhci_l d_vhci]. pose proof (dk_vhci _ Hd) as Hv. cbn in Hv.
  eapply wp_mono; [|apply (attach_wp E _ _ _ (World v t) own [] Hv Hf)].
  intros p [v' t'] [Hf' [(-> & Hst & _ & Hall)|(Hp & Hlow & Hst & Hlog)]]; cbn [st tr l_put vhci_l d_epfd d_hub] in *; subst v'.
  - by apply Hfail.
  - assert (0 <= p < len (ports_ v)) as Hr by (rewrite Hv; lia).
    assert (arr_get (<[Z.to_nat p := true]> (ports_ v)) p = Some true) as Hset by (rewrite arr_get_insert by done; by rewrite Z.eqb_refl).
    apply Hdone; [done|lia| |done..]. apply (ok_ports v); [done|by apply vhci_ok_insert|done|].
    intros q Hq. cbn. rewrite arr_get_insert by done. by destruct (q =? p).
Qed.

(** Adding a session for a new socketpair, when the hub [h1] agrees with a good one [h] but for the
    index entry that is overwritten. *)
Lemma adopt_wp v e h h1 id p a b addr k t :
  let s := new_session id p b a addr k in
  daemon_ok (mkDaemon v e h) -> 0 <= a -> 0 <= b -> 0 <= k ->
  sessions_ h !! id = None -> sessions_ h1 !! id = None -> add_session s k h1 = add_session s k h ->
  arr_get (ports_ v) p = Some true -> (forall q s', heap h !! q = Some s' -> ds_vhci_port s' <> p) ->
  NoDup (session_fds s ++ daemon_fds (mkDaemon v e h)) -> holds_fds t (session_fds s ++ daemon_fds (mkDaemon v e h)) [] ->
  wp (zoom d_hub_l (addSession id p b a addr (Some k)) ;; epollAdd b (Z.lor EPOLLIN EPOLLRDHUP)) E (World (mkDaemon v e h1) t)
    (fun _ w' => daemon_inv w' /\ st w' = mkDaemon v e (add_session s k h)).
Proof.
  intros s Hd Ha Hb Hk Hid Hid1 Heq Hset Hfree Hnd Hf.
  assert (daemon_ok (mkDaemon v e (add_session s k h))) as Hd4.
  { apply ok_add; try done. constructor; [by exists k, 0|]. repeat (apply Forall_cons_2; [done|]). constructor. }
  apply wp_bind, wp_zoom. eapply wp_mono; [|by apply addSession_wp]. intros [] w6 ->.
  cbn [st tr l_get l_put d_hub_l d_hub d_vhci d_epfd]. fold s. rewrite Heq. set (d := mkDaemon v e (add_session s k h)) in *.
  assert (holds_fds t (daemon_fds d) []) as Hf6.
  { eapply holds_perm; [|exact Hf]. symmetry. apply fds_add, (dk_hub _ Hd). }
  eapply wp_mono; [|apply (epollAdd_wp _ _ (World d t) (daemon_fds d)); [apply (fds_epfd d)| |exact Hf6]].
  - intros [] [d7 t7] [Hst7 Hf7]. cbn [st tr] in *. by subst d7.
  - eapply (fds_session _ (next_ptr h) s); [cbn; apply lookup_insert_eq|apply (session_fd_vhci s)].
Qed.

Lemma adopt_quiet id p a b addr k ev :
  only_calls no_write (zoom d_hub_l (addSession id p b a addr (Some k)) ;; epollAdd b ev).
Proof. unfold addSession, epollAdd, DeviceSession_dtor, deref, TcpSocket_dtor, close_owned. by repeat only_step. Qed.

Lemma connect_wp id speed addr w :
  daemon_inv w -> sessions_ (d_hub (st w)) !! id = None -> wp (connect_cb id speed addr) E w (fun _ w' => daemon_inv w' /\ connect_outcome E id speed addr w w').
Proof.
  intros [Hd Hf] Hid. destruct w as [[v e h] t]. cbn [st tr] in *. unfold connect_cb, doUsbAttach.
  apply wp_bind, wp_call. intros r Hr. cbn [st tr] in *. destruct (Z.ltb_spec (r_ret r) 0).
  { apply wp_ret. split; [|left; split; [done|]; unfold plug_works; cbn [st tr]; rewrite <- Hr; intros [Hpair _]; lia].
    split; [done|]. cbn [tr st]. pose proof (holds_call _ _ _ (CSocketpair false) r I (Forall_nil_2 _) Hf) as Hf'.
    cbn [fd_opens] in Hf'. by destruct (Z.leb_spec 0 (r_ret r)); [lia|]. }
  apply wp_bind. apply (pair_wp (World (mkDaemon v e h) t) (daemon_fds (mkDaemon v e h)) _ r Hr); [lia|done|apply (dk_nodup _ Hd)|].
  intros a b _ Ha Hb Hnd Hf1. cbn [fst snd st].
  apply wp_bind. apply (attach_port v e h _ (a :: b :: daemon_fds (mkDaemon v e h))); [done..| |].
  { intros t2 Hf2 Hall. cbn. eapply wp_mono; [|by apply close_pair_wp]. intros [] [d3 t3] [Hst3 Hf3]. cbn [st tr] in *. subst d3.
    split; [done|left]. split; [done|]. unfold plug_works. cbn [tr]. rewrite <- Hr. intros [_ Hw]. by apply Hall. }
  intros p v' t2 Hf2 Hp0 Hd2 Hv' Hlow Hset Hlog. rewrite sysfs_log_other in Hlog by done. destruct (Z.ltb_spec p 0); [lia|]. assert (vhci_fd_ v' = vhci_fd_ v) as Hvf by (by subst v').
  assert (daemon_fds (mkDaemon v e h) = daemon_fds (mkDaemon v' e h)) as Hfds by (unfold daemon_fds; cbn; by rewrite Hvf).
  rewrite Hfds in Hf2, Hnd. apply wp_bind. unfold extractPendingSocket. apply wp_zoom, wp_bind, wp_get.
  cbn [st tr l_get l_put d_hub_l d_hub d_vhci d_epfd]. set (k := ntohs (sin_port addr)).
  destruct (pending_tcp_socks_ h !! k) as [sock|] eqn:Hpe.
  2:{ apply wp_ret. cbn [st tr]. eapply wp_mono; [|by apply close_pair_wp]. intros [] [d3 t3] [Hst3 Hf3]. cbn [st tr] in *. subst d3.
      split; [done|right; left]. exists v'. split; [by exists p|done]. }
  destruct (hi_pending _ (dk_hub _ Hd) _ _ Hpe) as [-> Hpos].
  apply wp_bind, wp_modify, wp_ret. cbn [st tr l_get l_put d_hub_l d_hub d_vhci d_epfd].
  pose proof (ok_pending v' e h k k Hd2 Hpe) as Hd3. pose proof (fds_pending v' e h k k Hpe) as Hperm.
  set (h2 := set_pending_socks (delete k (pending_tcp_socks_ h)) h) in *.
  set (s := new_session id p b a addr k).
  assert (a :: b :: daemon_fds (mkDaemon v' e h) ≡ₚ session_fds s ++ daemon_fds (mkDaemon v' e h2)) as Ho.
  { rewrite Hperm. cbn. apply Permutation_swap. }
  rewrite Ho in Hnd. apply (holds_perm _ _ _ _ Ho) in Hf2.
  apply wp_bind. eapply wp_mono; [|apply (wp_quiet E _ (World _ t2)), (epollAdd_wp _ _ _ (session_fds s ++ daemon_fds (mkDaemon v' e h2)))];
    [|unfold epollAdd; by repeat only_step|apply elem_of_app; right; apply (fds_epfd (mkDaemon v' e h2))|apply elem_of_app; left; by apply session_fd_tcp|done].
  intros [] [d5 t5] [[Hst5 Hf5] Hlog5]. cbn [st tr] in *. subst d5.
  eapply wp_mono; [|apply (wp_quiet E), (adopt_wp v' e h2 h2); [apply adopt_quiet|try done..]].
  - intros [] w' [[? Hst] Hlog6]. split; [done|right; right]. exists p, a, b. rewrite Hst, Hlog6. cbn [tr]. rewrite Hlog5. by subst v'.
  - intros q s' Hq He. pose proof (dk_ports _ Hd _ _ Hq) as Hpt. cbn in Hpt. rewrite He in Hpt. destruct Hlow. congruence.
Qed.
End Callbacks.

(** Main keeps its promises to the hub. *)
#[global] Instance main_laws E (Hok : linux_ok E) : HubLaws E daemon_inv.
Proof.
  constructor.
  - by intros [].
  - done.
  - intros w [Hd _]. apply (dk_hub _ Hd).
  - intros w t' Hi Hio. apply inv_io; [done|]. eapply io_mono; [|exact Hio]. unfold daemon_fds. set_solver.
  - intros [[v e h] t] fd r [Hd Hf] h' Hp. cbn in h', Hp. split; cbn [st tr] in *; [by eapply ok_pending|].
    apply holds_close. eapply holds_perm; [|exact Hf]. by apply fds_pending.
  - intros [[v e h] t] p s ph q t' [Hd Hf] h' Hp Hph Hio. cbn in h', Hp, Hio. destruct (ok_handler v e h p s ph q Hd Hp Hph) as [Hd' Hfds].
    split; cbn [st tr] in *; [done|]. eapply holds_perm; [symmetry; exact Hfds|].
    eapply io_holds; [|exact Hio|exact Hf]. unfold daemon_fds, h'. set_solver.
  - intros id w Hi. eapply wp_mono; [|by apply disconnect_wp]. by intros [] w' [? _].
  - intros id speed addr w Hi Hid. eapply wp_mono; [|by apply connect_wp]. by intros [] w' [? _].
Qed.

(** ** The event loop keeps the invariant *)

Lemma events_of_Some n l : length l = (2 * n)%nat -> exists evs, events_of n l = Some evs.
Proof.
  revert l. induction n as [|n IH]; intros l Hl; cbn; [eauto|]. destruct l as [|a [|b l]]; cbn in Hl; try lia.
  destruct (IH l) as [evs ->]; [lia|]. cbn. eauto.
Qed.

Section Outcomes.
Context (E : env) (Hok : linux_ok E).
Implicit Types (w : world Daemon).

(** Taking the socket out of a session before removing it leaves one index entry behind,
    which adding the session again overwrites. *)
Lemma add_after_drop p s fd h s' :
  ds_tcp_sock s = Some fd ->
  add_session s' fd (drop_session p (set_tcp_sock None s) (set_heap (<[p := set_tcp_sock None s]> (heap h)) h)) =
  add_session s' fd (drop_session p s h).
Proof.
  intros Hfd. unfold add_session, drop_session. cbn. rewrite Hfd. f_equal.
  - by rewrite delete_insert_eq.
  - by rewrite insert_delete_eq.
Qed.

Lemma fds_reset v e h p s fd :
  heap h !! p = Some s -> ds_tcp_sock s = Some fd ->
  daemon_fds (mkDaemon v e h) ≡ₚ session_fds (set_tcp_sock None s) ++ fd :: daemon_fds (mkDaemon v e (drop_session p s h)).
Proof.
  intros Hs Hfd. rewrite (fds_drop v e h p s Hs). unfold session_fds. rewrite Hfd. done.
Qed.

(** The second half: [h1] is the hub with the entry for [fd] left behind. *)
Lemma usb_reattach_wp v e h h1 id addr fd t :
  plug_works E t -> daemon_ok (mkDaemon v e h) -> 0 <= fd -> sessions_ h !! id = None -> sessions_ h1 !! id = None ->
  (forall s', add_session s' fd h1 = add_session s' fd h) -> heap h1 = heap h ->
  (exists q, 0 <= q < max_ports_ /\ arr_get (ports_ v) q = Some false) ->
  NoDup (fd :: daemon_fds (mkDaemon v e h)) -> holds_fds t (fd :: daemon_fds (mkDaemon v e h)) [] ->
  wp (usb_reattach id addr (Some fd)) E (World (mkDaemon v e h1) t) (fun _ w' => daemon_inv w' /\
    exists q a b, lowest_free (ports_ v) q /\ st w' = mkDaemon (mark_port q v) e (add_session (new_session id q b a addr fd) fd h)).
Proof.
  intros [Hre0 Hre] Hd Hfd Hid Hid1 Heq Hheap (q & Hq & Hfree) Hnd Hf. unfold usb_reattach. apply wp_bind, wp_call. intros r Hr. cbn [st tr] in *.
  rewrite <- Hr in Hre0, Hre. rename Hre0 into Hr0. rewrite Hr0. cbn [Z.eqb].
  apply wp_bind, (pair_wp E Hok (World (mkDaemon v e h1) t) _ _ r Hr ltac:(lia) Hf Hnd).
  intros a b _ Ha Hb Hnd' Hf1. cbn [fst snd st]. apply wp_bind, wp_zoom. cbn [st tr l_get vhci_l d_vhci].
  pose proof (dk_vhci _ Hd) as Hv. cbn in Hv.
  eapply wp_mono; [|apply (attach_wp E _ _ _ (World v _) _ [] Hv Hf1)].
  intros p [v' t'] [Hf' [(-> & _ & _ & Hall)|(Hpr & Hlow & Hst & _)]]; cbn [st tr l_put vhci_l d_epfd d_hub] in *.
  { rewrite (Hall Hre q Hq) in Hfree. done. }
  pose proof (proj1 Hlow) as Hpf. subst v'. set (v' := set_ports _ v) in *. assert (0 <= p < len (ports_ v)) as Hr' by (rewrite Hv; lia).
  assert (daemon_ok (mkDaemon v' e h)) as Hd'.
  { apply (ok_ports v); [done|by apply vhci_ok_insert|done|]. intros x Hx. cbn. rewrite arr_get_insert by done. by destruct (x =? p). }
  assert (daemon_fds (mkDaemon v e h) = daemon_fds (mkDaemon v' e h)) as Hfds by done. rewrite Hfds in Hnd', Hf'.
  destruct (Z.leb_spec 0 p); [|lia]. apply wp_bind. eapply wp_checked; [done|].
  assert (a :: b :: fd :: daemon_fds (mkDaemon v' e h) ≡ₚ session_fds (new_session id p b a addr fd) ++ daemon_fds (mkDaemon v' e h)) as Ho
    by apply Permutation_swap.
  rewrite Ho in Hnd'. apply (holds_perm _ _ _ _ Ho) in Hf'.
  eapply wp_mono; [|apply (adopt_wp E v' e h h1); try done].
  - intros [] w' [? Hst]. split; [done|]. by exists p, a, b.
  - cbn. rewrite arr_get_insert by done. by rewrite Z.eqb_refl.
  - intros x s' Hx He. pose proof (dk_ports _ Hd _ _ Hx) as Hpt. cbn in Hpt. rewrite He in Hpt. congruence.
Qed.

(** The hub after the first half: the entry for the session's socket is left behind. *)
Definition torn_down (p : Z) (s : DeviceSession) (h : HubServer) : HubServer :=
  drop_session p (set_tcp_sock None s) (set_heap (<[p := set_tcp_sock None s]> (heap h)) h).

Lemma usb_teardown_wp p s w fd (Q : unit -> world Daemon -> Prop) :
  daemon_inv w -> heap (d_hub (st w)) !! p = Some s -> ds_tcp_sock s = Some fd ->
  (forall v t, let d := mkDaemon v (d_epfd (st w)) (drop_session p s (d_hub (st w))) in
    v = free_port (ds_vhci_port s) (d_vhci (st w)) -> daemon_ok d -> arr_get (ports_ v) (ds_vhci_port s) = Some false -> NoDup (fd :: daemon_fds d) -> holds_fds t (fd :: daemon_fds d) [] -> reset_point t ->
    wp (usb_reattach (ds_device_id s) (ds_dev_addr s) (Some fd)) E (World (mkDaemon v (d_epfd (st w)) (torn_down p s (d_hub (st w)))) t) Q) ->
  wp (usb_reset p (ds_vhci_fd s)) E w Q.
Proof.
  intros [Hd Hf] Hs Hfd HQ. destruct w as [[v e h] t]. cbn [st tr d_hub d_epfd] in *. unfold usb_reset, deref.
  pose proof (so_fds _ (hi_obj _ (dk_hub _ Hd) _ _ Hs)) as Hnn.
  pose proof (dk_ports _ Hd _ _ Hs) as Hport. cbn [d_vhci] in Hport. pose proof (arr_get_inv _ _ _ Hport) as [Hrange _].
  pose proof (dk_vhci _ Hd) as Hv. cbn [d_vhci] in Hv.
  apply wp_bind, wp_zoom, wp_bind, wp_get. eapply wp_checked; [exact Hs|]. cbn [st tr l_get l_put d_hub_l d_hub d_vhci d_epfd].
  destruct (Z.leb_spec 0 (ds_vhci_port s)); [|lia]. rewrite Hfd. apply wp_bind, wp_zoom, wp_modify.
  cbn [st tr l_get l_put d_hub_l d_hub d_vhci d_epfd]. set (s1 := set_tcp_sock None s). set (h1 := set_heap (<[p := s1]> (heap h)) h).
  apply wp_bind. eapply wp_mono; [|apply wp_and; [apply (epollDel_wp _ _ (World (mkDaemon v e h1) t) (daemon_fds (mkDaemon v e h)))|apply (epollDel_tr _ _ (World (mkDaemon v e h1) t))]];
    [|apply (fds_epfd (mkDaemon v e h))|eapply fds_session; [exact Hs|apply session_fd_vhci]|done].
  intros [] [d2 t2] [[Hst2 Hf2] [rd Htr2]]. cbn [st tr d_epfd] in *. subst d2.
  apply wp_bind, wp_zoom. cbn [st tr l_get vhci_l d_vhci]. eapply wp_mono; [|by apply (freePort_wp E _ (World v t2))].
  intros [] [v1 t3] [Ht3 Hv1]. cbn [st tr l_put vhci_l d_epfd d_hub] in *. subst t3.
  replace ((0 <=? ds_vhci_port s) && (ds_vhci_port s <? max_ports_)) with true in Hv1.
  2:{ rewrite <- Hv. symmetry. apply andb_true_iff. split; [apply Z.leb_le|apply Z.ltb_lt]; lia. }
  assert (forall r, arr_get (ports_ v1) r = if r =? ds_vhci_port s then Some false else arr_get (ports_ v) r) as Hget
    by (intros r; subst v1; by apply arr_get_insert).
  assert (vhci_ok v1 /\ vhci_fd_ v1 = vhci_fd_ v) as [Hv1ok Hv1fd] by (subst v1; split; [by apply vhci_ok_insert|done]).
  assert (daemon_fds (mkDaemon v e (drop_session p s h)) = daemon_fds (mkDaemon v1 e (drop_session p s h))) as Hfds1
    by (unfold daemon_fds; cbn; by rewrite Hv1fd).
  pose proof (fds_reset v e h p s fd Hs Hfd) as Hperm. rewrite Hfds1 in Hperm.
  apply wp_bind, wp_zoom. cbn [l_get d_hub_l d_hub].
  change (ds_device_id s) with (ds_device_id s1) at 1.
  eapply wp_mono; [|apply wp_and; [apply (removeSession_wp E p s1)|apply (removeSession_closes E p s1)]]; cbn [st tr].
  - intros [] [h2 t4] [[Hst4 Hf4] (r1 & r2 & Htr4)]. cbn [st tr l_put d_hub_l d_vhci d_epfd] in *. subst h2. apply HQ; [exact Hv1| |by rewrite Hget, Z.eqb_refl| |done|].
    + apply (ok_drop v); [done..|]. intros r Hr. rewrite Hget. by destruct (Z.eqb_spec r (ds_vhci_port s)).
    + pose proof (dk_nodup _ Hd) as Hnd. rewrite Hperm in Hnd. by apply NoDup_app in Hnd as (_ & _ & ?).
    + rewrite Htr4, Htr2, <- app_assoc. by eexists t, _, _, _, _, _, _, _.
  - cbn. apply (hi_sess _ (dk_hub _ Hd)). eauto.
  - cbn. apply lookup_insert_eq.
  - unfold session_fds in *. rewrite Hfd in Hnn. cbn. by inversion_clear Hnn as [|? ? ? H1]; inversion_clear H1; repeat constructor.
  - by eapply holds_perm.
  - cbn. apply (hi_sess _ (dk_hub _ Hd)). eauto.
  - cbn. apply lookup_insert_eq.
  - done.
  - by inversion_clear Hnn.
  - inversion_clear Hnn as [|? ? ? H1]. by inversion_clear H1.
Qed.

Lemma remove_session_wp p s w :
  daemon_inv w -> heap (d_hub (st w)) !! p = Some s ->
  wp (zoom d_hub_l (removeSession (ds_device_id s))) E w (fun _ w' => daemon_inv w' /\
    st w' = mkDaemon (d_vhci (st w)) (d_epfd (st w)) (drop_session p s (d_hub (st w)))).
Proof.
  intros [Hd Hf] Hs. apply (remove_inv E (d_vhci (st w)) p s w); try done.
  - by destruct (st w).
  - apply (dk_vhci _ Hd).
Qed.

Lemma wp_deref p s w (Q : DeviceSession -> world Daemon -> Prop) :
  heap (d_hub (st w)) !! p = Some s -> Q s w -> wp (zoom d_hub_l (deref p)) E w Q.
Proof.
  intros Hs HQ. apply wp_zoom, wp_bind, wp_get. eapply wp_checked; [exact Hs|]. by destruct w as [[] ?].
Qed.

Lemma wp_find (f : HubServer -> option Z) w (Q : option Z -> world Daemon -> Prop) :
  Q (f (d_hub (st w))) w -> wp (zoom d_hub_l (h ← get; mret (f h))) E w Q.
Proof. intros HQ. apply wp_zoom, wp_bind, wp_get, wp_ret. by destruct w as [[] ?]. Qed.

Lemma accept_wp w : daemon_inv w -> wp (zoom d_hub_l onTcpAccept) E w (fun _ w' => daemon_inv w' /\ accept_outcome w w').
Proof.
  intros [Hd Hf]. destruct w as [[v e h] t]. cbn [st tr] in *. apply wp_zoom. unfold onTcpAccept, acceptConnection.
  apply wp_bind, wp_get. apply wp_bind, wp_call. intros r Hr. cbn [st tr l_get l_put d_hub_l d_hub d_vhci d_epfd] in *.
  assert (holds_fds (t ++ [(CAccept (tcp_server_ h), r)]) (fd_opens (CAccept (tcp_server_ h)) r ++ daemon_fds (mkDaemon v e h)) []) as Hf1.
  { apply holds_call; [done| |done]. apply Forall_singleton. unfold daemon_fds, hub_fds. set_solver. }
  pose proof (fresh_opens E Hok _ _ (CAccept (tcp_server_ h)) Hf (dk_nodup _ Hd)) as Hnd. rewrite <- Hr in Hnd.
  cbn [fd_opens] in *. destruct (Z.leb_spec 0 (r_ret r)), (Z.ltb_spec (r_ret r) 0); try lia; [|apply wp_ret; split; [done|by left]].
  set (k := r_ret r) in *. apply NoDup_cons in Hnd as [Hk Hnd].
  assert (pending_tcp_socks_ h !! k = None) as Hpe.
  { destruct (pending_tcp_socks_ h !! k) as [x|] eqn:Hx; [|done]. exfalso. apply Hk.
    pose proof (hi_pending _ (dk_hub _ Hd) _ _ Hx) as [-> _]. rewrite (fds_pending v e h k k Hx). apply elem_of_cons. by left. }
  assert (daemon_fds (mkDaemon v e (set_pending_socks (<[k := k]> (pending_tcp_socks_ h)) h)) ≡ₚ k :: daemon_fds (mkDaemon v e h)) as Hperm.
  { rewrite (fds_pending v e _ k k) by (cbn; apply lookup_insert_eq). cbn. by rewrite delete_insert_id. }
  apply wp_bind, wp_modify. cbn [st tr]. rewrite Hpe. apply wp_ret. cbn [st tr]. split; [|right; by exists k].
  split; cbn [st tr]; [|by eapply holds_perm; [symmetry|]].
  destruct Hd as [Hh Hv Hpo Hdi Hn Hnd0]. constructor; cbn; try done.
  - destruct Hh. constructor; cbn; try done. intros fd x [[<- <-]|[_ ?]]%lookup_insert_Some; [done|auto].
  - rewrite Hperm. by apply NoDup_cons.
Qed.

Context (Hre : reattach_ok E).

Lemma usb_reset_wp p s w :
  daemon_inv w -> heap (d_hub (st w)) !! p = Some s -> wp (usb_reset p (ds_vhci_fd s)) E w (fun _ w' => daemon_inv w' /\ reset_outcome s p w w').
Proof.
  intros Hi Hs. pose proof (hi_obj _ (dk_hub _ (proj1 Hi)) _ _ Hs) as [(fd & q & Hfd & _) Hnn].
  pose proof (dk_ports _ (proj1 Hi) _ _ Hs) as Hport. pose proof (arr_get_inv _ _ _ Hport) as [Hrange _].
  rewrite (dk_vhci _ (proj1 Hi)) in Hrange. eapply usb_teardown_wp; [done..|]. intros v t d Hv Hd Hfree Hnd Hf Hpt.
  eapply wp_mono; [|apply (usb_reattach_wp v _ (drop_session p s (d_hub (st w)))); try done].
  - intros [] w' [? (q' & a & b & Hlow & Hst)]. split; [done|]. exists fd, q', a, b. by subst v.
  - by apply Hre.
  - rewrite Forall_forall in Hnn. by apply Hnn, session_fd_tcp.
  - cbn. apply lookup_delete_eq.
  - cbn. apply lookup_delete_eq.
  - intros s'. by apply add_after_drop.
  - cbn. by rewrite delete_insert_eq.
  - by exists (ds_vhci_port s).
Qed.

(** What an invariant of the event loop must survive. *)
Class MainLaws (I : world Daemon -> Prop) : Prop := {
  ml_hub :: HubLaws E I;
  ml_inv w : I w -> daemon_inv w;
  ml_io w t' : I w -> io_since (daemon_fds (st w)) (tr w) t' -> I (World (st w) t');
  ml_accept w : I w -> wp (zoom d_hub_l onTcpAccept) E w (fun _ w' => I w');
  ml_remove p s w : I w -> heap (d_hub (st w)) !! p = Some s -> wp (zoom d_hub_l (removeSession (ds_device_id s))) E w (fun _ w' => I w');
  ml_reset p s w : I w -> heap (d_hub (st w)) !! p = Some s -> wp (usb_reset p (ds_vhci_fd s)) E w (fun _ w' => I w');
}.

#[global] Instance daemon_inv_laws : MainLaws daemon_inv.
Proof.
  constructor.
  - by apply main_laws.
  - done.
  - intros w t'. apply inv_io.
  - intros w Hi. eapply wp_mono; [|by apply accept_wp]. by intros [] w' [? _].
  - intros p s w Hi Hs. eapply wp_mono; [|by apply (remove_session_wp p)]. by intros [] w' [? _].
  - intros p s w Hi Hs. eapply wp_mono; [|by apply usb_reset_wp]. by intros [] w' [? _].
Qed.

End Outcomes.
#[global] Arguments ml_inv {E I _} w _.
#[global] Arguments ml_io {E I _} w t' _ _.
#[global] Arguments ml_accept {E I _} w _.
#[global] Arguments ml_remove {E I _} p s w _ _.
#[global] Arguments ml_reset {E I _} p s w _ _.

Section Loop.
Context (E : env) (K : Z) (Hok : linux_ok E) (Hp : patient K E).
Context (fuel : nat) (Hfuel : 65536 * (K + 1) <= Z.of_nat fuel).
Context (I : world Daemon -> Prop) `{!MainLaws E I}.
Implicit Types (w : world Daemon).

Lemma session_event_wp ev_fd evts w : I w -> wp (session_event fuel ev_fd evts) E w (fun _ w' => I w').
Proof.
  intros Hi. pose proof (dk_hub _ (proj1 (ml_inv _ Hi))) as Hh. unfold session_event.
  assert (wp (onTcpReadable fuel ev_fd) E w (fun _ w' => I w')) as Hread.
  { by apply (onTcpReadable_wp E I K Hok Hp fuel Hfuel). }
  apply wp_bind, (wp_find E (fun h => tcp_fd_map_ h !! ev_fd)). destruct (tcp_fd_map_ _ !! ev_fd) as [p|] eqn:Ht.
  { apply (hi_tcp _ Hh) in Ht as (s & Hs & _). destruct (hup HUP_MASK evts); [|by destruct (hup EPOLLIN evts); [|apply wp_ret]].
    apply wp_bind, (wp_deref E p s); [done|]. by apply (ml_remove p). }
  apply wp_bind, (wp_find E (fun h => vhci_fd_map_ h !! ev_fd)). destruct (vhci_fd_map_ _ !! ev_fd) as [p|] eqn:Hv.
  2:{ by destruct (hup EPOLLIN evts); [|apply wp_ret]. }
  apply (hi_vhci _ Hh) in Hv as (s & Hs & <-). destruct (hup HUP_MASK evts); [by apply (ml_reset p s)|].
  destruct (hup EPOLLIN evts); [|by apply wp_ret]. apply wp_bind.
  eapply wp_mono; [|eapply (with_handler_wp E I (H := main_callbacks)); [exact Hi|exact Hs|]].
  - intros ok w' (Hi' & ph & Hs'). destruct ok; [by apply wp_ret|]. cbn in Hs'. apply wp_bind, (wp_deref E p (set_handler ph s)); [done|].
    by apply (ml_remove p (set_handler ph s)).
  - intros ph Hph Hfd _. eapply wp_mono; [|apply (onVhciReadable_wp E K Hok Hp fuel Hfuel)]. intros b v (ds & _ & Hq & Hio & _).
    by split.
Qed.

Lemma dispatch_wp ev w : I w -> wp (dispatch fuel ev) E w (fun _ w' => I w').
Proof.
  intros Hi. unfold dispatch. destruct ev as [ev_fd evts]. apply wp_bind, wp_get.
  destruct (ev_fd =? udpFd (d_hub (st w))).
  { apply wp_zoom. eapply wp_mono; [|by apply onUdpReadable_wp]. intros [] [h' t'] [Hst Hio]. destruct w as [[v e h] t].
    cbn [st tr l_get l_put d_hub_l d_hub d_vhci d_epfd] in *. subst h'. apply (ml_io (World _ t)); [done|].
    eapply io_mono; [|exact Hio]. unfold daemon_fds, hub_fds. set_solver. }
  destruct (ev_fd =? tcpServerFd (d_hub (st w))); [by apply ml_accept|].
  apply wp_bind. unfold extractPendingSocket. apply wp_zoom, wp_bind, wp_get. cbn [st tr l_get d_hub_l].
  destruct (pending_tcp_socks_ (d_hub (st w)) !! -2) as [x|] eqn:Hpe.
  { destruct (hi_pending _ (dk_hub _ (proj1 (ml_inv _ Hi))) _ _ Hpe) as [_ Hneg]. lia. }
  apply wp_ret. replace (World _ _) with w by (by destruct w as [[] ?]). apply wp_bind.
  eapply wp_mono; [|by apply session_event_wp]. intros [] w' Hi'. by apply wp_ret.
Qed.

Lemma event_loop_wp rounds w : I w -> wp (event_loop fuel rounds) E w (fun _ w' => I w').
Proof.
  revert w. induction rounds as [|n IH]; intros w Hi; cbn [event_loop]; [by apply wp_ret|].
  apply wp_bind, wp_get. apply wp_bind, wp_call. intros r Hr.
  assert (I (World (st w) (tr w ++ [(CEpollWait (d_epfd (st w)) MAX_EVENTS 500, r)]))) as Hi1.
  { apply ml_io; [done|]. apply io_snoc; [|apply io_refl]. split; [done|]. apply Forall_singleton, fds_epfd. }
  destruct (Z.ltb_spec (r_ret r) 0); [by destruct (r_aux r =? EINTR); [apply IH|apply wp_ret]|].
  pose proof (lx_wait _ Hok (tr w) (d_epfd (st w)) MAX_EVENTS 500) as Hl. rewrite <- Hr in Hl. cbn in Hl.
  destruct (events_of_Some (Z.to_nat (r_ret r)) (r_out r)) as [evs Hevs]; [lia|].
  apply wp_bind. eapply wp_checked; [exact Hevs|]. clear Hevs. apply wp_bind.
  apply (wp_mono _ _ _ (fun _ w' => I w')); [by intros [] w' ?; apply IH|].
  generalize dependent (World (st w) (tr w ++ [(CEpollWait (d_epfd (st w)) MAX_EVENTS 500, r)])).
  intros w1 Hi1. revert w1 Hi1. induction evs as [|ev evs IHe]; intros w1 Hi1; cbn [each]; [by apply wp_ret|].
  apply wp_bind. eapply wp_mono; [|by apply dispatch_wp]. intros [] w2 Hi2. by apply IHe.
Qed.
End Loop.

(** ** Start-up and shutdown *)

Section Whole.
Context (E : env) (K : Z) (Hok : linux_ok E) (Hp : patient K E).
Context (fuel : nat) (Hfuel : 65536 * (K + 1) <= Z.of_nat fuel) (Hre : reattach_ok E).

Lemma VhciDriver_dtor_wp v t own :
  vhci_ok v -> holds_fds t (if 0 <=? vhci_fd_ v then vhci_fd_ v :: own else own) [] ->
  wp VhciDriver_dtor E (World v t) (fun _ w' => holds_fds (tr w') own [] /\
    (sysfs_works E -> forall q, 0 <= q < max_ports_ -> arr_get (ports_ (st w')) q = Some false)).
Proof.
  intros Hv Hf. unfold VhciDriver_dtor. apply wp_bind. eapply wp_mono; [|by apply detachAll_wp].
  intros [] [v' t'] (Hf' & Hv' & Hfd & Hfree). cbn [st tr] in *. apply wp_bind, wp_get. cbn [st].
  rewrite Hfd. destruct (Z.leb_spec 0 (vhci_fd_ v)).
  - eapply wp_mono; [|by apply close_owned_wp]. intros [] w' [Hst Hf2]. by rewrite Hst.
  - unfold close_owned. destruct (Z.leb_spec 0 (vhci_fd_ v)); [lia|]. by apply wp_ret.
Qed.

(** What the daemon has when it enters the event loop. *)
Lemma start_inv v e u s t :
  vhci_ok v -> ports_ v = replicate 8 false -> 0 <= vhci_fd_ v -> 0 <= e -> 0 <= u -> 0 <= s ->
  NoDup (u :: s :: e :: [vhci_fd_ v]) -> holds_fds t (u :: s :: e :: [vhci_fd_ v]) [] ->
  daemon_inv (World (mkDaemon v e (hub_empty u s)) t).
Proof.
  intros Hv Hpo Hvf He Hu Hs Hnd Hf.
  assert ([u; s; e; vhci_fd_ v] ≡ₚ daemon_fds (mkDaemon v e (hub_empty u s))) as Hperm.
  { unfold daemon_fds, hub_fds, pending_fds, heap_fds. cbn. rewrite !map_to_list_empty. cbn.
    symmetry. change ([vhci_fd_ v; e] ++ [u; s] ≡ₚ [u; s; e; vhci_fd_ v]). rewrite (Permutation_app_comm [vhci_fd_ v; e]). cbn.
    do 2 apply Permutation_skip. apply Permutation_swap. }
  split; [constructor; cbn|by eapply holds_perm].
  - apply hub_empty_inv.
  - done.
  - intros p x Hx. by rewrite lookup_empty in Hx.
  - intros p q x x' Hx. by rewrite lookup_empty in Hx.
  - by repeat (apply Forall_cons_2; [done|]).
  - by rewrite <- Hperm.
Qed.

(** From the event loop to the end of main. *)
Lemma shutdown_wp (w : world Daemon) :
  daemon_inv w ->
  wp shutdown E w (fun ex w' => ex = Exit 0 /\ fd_run [] (tr w') = Some [] /\
    (sysfs_works E -> forall q, 0 <= q < max_ports_ -> arr_get (ports_ (d_vhci (st w'))) q = Some false)).
Proof.
  intros [Hd Hf]. destruct w as [[v e h] t]. cbn [st tr] in *. pose proof (dk_nonneg _ Hd) as Hn. cbn in Hn.
  apply Forall_cons_1 in Hn as [Hv Hn]. apply Forall_cons_1 in Hn as [_ Hn]. apply Forall_cons_1 in Hn as [Hu Hn]. apply Forall_cons_1 in Hn as [Ht _].
  unfold shutdown. apply wp_bind, wp_zoom. cbn [st tr l_get vhci_l d_vhci].
  eapply wp_mono; [|apply (detachAll_wp E (World v t) _ [] (dk_vhci _ Hd) Hf)].
  intros [] [v1 t1] (Hf1 & Hv1 & Hvf & _). cbn [st tr l_put vhci_l d_epfd d_hub] in *.
  apply wp_bind, wp_get. apply wp_bind, wp_call. intros c _. cbn [st tr d_epfd].
  assert (holds_fds (t1 ++ [(CClose e, c)]) (hub_fds h) [vhci_fd_ v1]) as Hf2.
  { apply holds_close. destruct Hf1 as (l & Hl & Hperm). exists l. split; [done|]. rewrite Hperm, Hvf. unfold daemon_fds. cbn [d_vhci d_epfd d_hub].
    rewrite app_nil_r. change ((e :: hub_fds h) ++ [vhci_fd_ v]) with (e :: (hub_fds h ++ [vhci_fd_ v])).
    rewrite (Permutation_app_comm (hub_fds h)). apply Permutation_swap. }
  apply wp_bind, wp_zoom. cbn [st tr l_get l_put d_hub_l d_hub d_vhci d_epfd].
  eapply wp_mono; [|apply (HubServer_dtor_wp E (World h _) [vhci_fd_ v1]); [apply (dk_hub _ Hd)|done..]].
  intros [] [h2 t2] Hf3. cbn [st tr l_get l_put d_hub_l d_hub d_vhci d_epfd] in *.
  apply wp_bind, wp_zoom. cbn [st tr l_get vhci_l d_vhci].
  eapply wp_mono; [|apply (VhciDriver_dtor_wp v1 t2 []); [done|]].
  - intros [] [v3 t3] [(l & Hl & Hperm) Hfree]. cbn [st tr] in *. apply Permutation_nil_r in Hperm as ->. by apply wp_ret.
  - rewrite Hvf. destruct (Z.leb_spec 0 (vhci_fd_ v)); [|lia]. apply holds_swap. by rewrite <- Hvf.
Qed.

(** Either the hub's sockets could not be opened, or everything has been given back. *)
Definition main_post (ex : exit) (w : world Daemon) : Prop :=
  ex = Terminated \/ (fd_run [] (tr w) = Some [] /\ (sysfs_works E -> forall q, 0 <= q < max_ports_ -> arr_get (ports_ (d_vhci (st w))) q = Some false)).

(** An early return: only the vhci driver has been constructed. *)
Lemma early_exit_wp v e h t :
  vhci_ok v -> holds_fds t (if 0 <=? vhci_fd_ v then [vhci_fd_ v] else []) [] ->
  wp (zoom vhci_l VhciDriver_dtor ;; mret (Exit 1)) E (World (mkDaemon v e h) t) main_post.
Proof.
  intros Hv Hf. apply wp_bind, wp_zoom. cbn [st tr l_get vhci_l d_vhci]. eapply wp_mono; [|by apply (VhciDriver_dtor_wp v t [])].
  intros [] [v3 t3] [(l & Hl & Hperm) Hfree]. cbn [st tr] in *. apply Permutation_nil_r in Hperm as ->. apply wp_ret. by right.
Qed.

Lemma main_wp rounds : wp (main fuel rounds) E (World Daemon0 []) main_post.
Proof.
  unfold main, init, Daemon0. apply wp_bind, wp_call. intros g1 _. apply wp_bind, wp_call. intros g2 _. apply wp_bind, wp_zoom.
  cbn [st tr l_get vhci_l d_vhci app].
  apply wp_bind, wp_call. intros m _. apply wp_bind, wp_call. intros o Ho. apply wp_bind, wp_modify, wp_ret.
  cbn [l_put vhci_l st tr d_epfd d_hub ports_ VhciDriver0 app]. set (v := Vhci (r_ret o) _). set (t1 := [(CSigaction SIGINT, g1); (CSigaction SIGTERM, g2); (CSystem _, m); (COpen VHCI_DEV, o)]).
  assert (vhci_ok v) as Hv by done.
  assert (holds_fds t1 (fd_opens (COpen VHCI_DEV) o) []) as Hf.
  { rewrite <- (app_nil_r (fd_opens _ _)). apply (holds_call [(CSigaction SIGINT, g1); (CSigaction SIGTERM, g2); (CSystem _, m)] [] [] (COpen VHCI_DEV) o I (Forall_nil_2 _)).
    apply (holds_other [_; _] [] [] (CSystem _) m I eq_refl), (holds_other [_] [] [] (CSigaction SIGTERM) g2 I eq_refl),
      (holds_other [] [] [] (CSigaction SIGINT) g1 I eq_refl), holds_nil. }
  assert (fd_opens (COpen VHCI_DEV) o = if 0 <=? vhci_fd_ v then [vhci_fd_ v] else []) as Hopen by done. rewrite Hopen in Hf.
  destruct (Z.ltb_spec (r_ret o) 0) as [|Hpos]; [by apply early_exit_wp|]. cbn [negb].
  assert ((0 <=? vhci_fd_ v) = true) as Hvt by (by apply Z.leb_le). 
  apply wp_bind, wp_call. intros r Hr. cbn [st tr] in *.
  assert (NoDup (if 0 <=? vhci_fd_ v then [vhci_fd_ v] else [])) as Hnd0 by (rewrite Hvt; apply NoDup_singleton).
  pose proof (fresh_opens E Hok _ _ CEpollCreate Hf Hnd0) as Hnd1. rewrite <- Hr in Hnd1.
  pose proof (holds_call _ _ _ CEpollCreate r I (Forall_nil_2 _) Hf) as Hf1. cbn [fd_opens] in *.
  destruct (Z.leb_spec 0 (r_ret r)), (Z.ltb_spec (r_ret r) 0); try lia; [|by apply early_exit_wp]. rewrite Hvt in *.
  apply wp_bind, wp_modify. cbn [st tr d_vhci d_hub]. apply wp_bind. eapply wp_mono; [|by apply HubServer_ctor_wp].
  intros [h|] [d t2] [Hst Hh]; cbn [st tr] in *; subst d; [|apply wp_ret; by left].
  destruct Hh as (u & s & -> & Hu & Hs & Hnd2 & Hf2). apply wp_bind, wp_modify. cbn [st tr d_vhci d_epfd].
  set (d := mkDaemon v (r_ret r) (hub_empty u s)). assert (daemon_inv (World d t2)) as Hi by (by apply start_inv).
  apply wp_bind. eapply wp_mono; [|apply (epollAdd_wp E _ _ (World d t2) (daemon_fds d)); [apply fds_epfd| |apply Hi]].
  2:{ unfold daemon_fds, hub_fds. set_solver. }
  intros [] [d3 t3] [Hst3 Hf3]. cbn [st tr] in Hst3, Hf3. subst d3.
  apply wp_bind. eapply wp_mono; [|apply (epollAdd_wp E _ _ (World d t3) (daemon_fds d)); [apply fds_epfd| |apply Hf3]].
  2:{ unfold daemon_fds, hub_fds. set_solver. }
  intros [] [d4 t4] [Hst4 Hf4]. cbn [st tr] in Hst4, Hf4. subst d4.
  apply wp_bind. eapply wp_mono; [|apply (event_loop_wp E K Hok Hp fuel Hfuel daemon_inv (MainLaws0 := daemon_inv_laws E Hok Hre) rounds (World d t4)); split; [apply Hi|done]].
  intros [] w5 Hi5. eapply wp_mono; [|by apply shutdown_wp]. intros ex w6 (_ & Hfd & Hports). by right.
Qed.
End Whole.

(** ** What the daemon guarantees *)

(** A device connects on descriptor 7 after a discovery, the kernel sends a request on descriptor 9,
    the device answers, the kernel resets the device, which later disconnects. *)
Definition event_bytes (event : Z) : bytes :=
  encode (mkHeader CMD_DEVICE_EVENT 0 0 0 8) ++ encode (mkDeviceEvent 0 event USB_SPEED_FULL 3 1 2 7789).
Definition plug_sim : sim := Sim
  (fun fd => if fd =? 7 then event_bytes DEVICE_EVENT_CONNECT ++ encode (mkHeader CMD_RAW_DATA 0 0 0 2) ++ [9; 9] ++
                             event_bytes DEVICE_EVENT_DISCONNECT else [])
  10 (fun fd => if fd =? 9 then [[1; 2; 3]] else [])
  [(encode (mkHeader CMD_DISCOVER 0 0 0 0), 0x123404030201)]
  [[(5, EPOLLIN)]; [(6, EPOLLIN)]; [(7, EPOLLIN)]; [(9, EPOLLIN)]; [(7, EPOLLIN)]; [(9, EPOLLHUP)]; [(7, EPOLLIN)]].
Lemma plug_sim_ok : sim_ok plug_sim 1.
Proof.
  constructor; [|done| |].
  - intros fd. cbn [plug_sim sim_recv]. destruct (fd =? 7); [|constructor]. repeat (apply Forall_cons_2; [by vm_compute|]). constructor.
  - intros fd. cbn. destruct (fd =? 9); cbn; (split; [|lia]); repeat constructor; done.
  - repeat constructor; done.
Qed.
Lemma sim_plug s t : plug_works (sim_env s) t.
Proof.
  apply works_plug; [|done]. split; [|done]. intros t' path. cbn. pose proof (fresh_pos t'). lia.
Qed.
Lemma sim_reattach s : reattach_ok (sim_env s).
Proof. intros t _. apply sim_plug. Qed.

(** C10: the daemon gives everything back.  Whatever events arrive, for however long it runs and
    whichever system calls fail, if attaching a device again after a reset does not fail
    ([reattach_ok]) and a descriptor answers at most [K] retries or messages in a row ([patient]),
    [main] comes to an end without undefined behaviour, and unless its listening sockets could not be opened
    it has then closed every descriptor it ever opened, each exactly once and none used after.  If
    sysfs takes what is written to it, every port is then marked as free. *)
Theorem daemon_gives_back E K fuel rounds :
  linux_ok E -> patient K E -> 65536 * (K + 1) <= Z.of_nat fuel -> reattach_ok E ->
  exists ex w', main fuel rounds E (World Daemon0 []) = Some (ex, w') /\
    (ex = Terminated \/ (fd_run [] (tr w') = Some [] /\
       (sysfs_works E -> forall q, 0 <= q < max_ports_ -> arr_get (ports_ (d_vhci (st w'))) q = Some false))).
Proof. intros Hok Hp Hf Hre. exact (wp_run _ _ _ _ (main_wp E K Hok Hp fuel Hf Hre rounds)). Qed.

Lemma daemon_gives_back_witness :
  exists w', main (Z.to_nat 200000) 7 (sim_env plug_sim) (World Daemon0 []) = Some (Exit 0, w') /\ fd_run [] (tr w') = Some [].
Proof.
  destruct (daemon_gives_back (sim_env plug_sim) 1 (Z.to_nat 200000) 7 (sim_linux_ok _ _ plug_sim_ok)
    (sim_patient _ _ plug_sim_ok ltac:(lia)) ltac:(lia) (sim_reattach _)) as (ex & w' & Hr & Hpost).
  assert (fst <$> main (Z.to_nat 200000) 7 (sim_env plug_sim) (World Daemon0 []) = Some (Exit 0)) as Hex by (vm_compute; reflexivity).
  rewrite Hr in Hex. injection Hex as ->.
  exists w'. split; [exact Hr|]. destruct Hpost as [Hex|[Hfd _]]; [discriminate Hex|exact Hfd].
Defined.

(** The daemon as it enters the loop on the simulated system. *)
Definition boot_daemon : Daemon := mkDaemon (Vhci 3 (replicate 8 false)) 4 (hub_empty 5 6).
Definition boot_trace : trace :=
  [(COpen VHCI_DEV, Reply 3 [] 0 []); (CEpollCreate, Reply 4 [] 0 []); (CSocket SOCK_DGRAM, Reply 5 [] 0 []);
   (CSocket SOCK_STREAM, Reply 6 [] 0 []); (CEpollAdd 4 5 EPOLLIN, Reply 0 [] 0 []); (CEpollAdd 4 6 EPOLLIN, Reply 0 [] 0 [])].
Lemma boot_inv : daemon_inv (World boot_daemon boot_trace).
Proof.
  apply (start_inv (Vhci 3 (replicate 8 false)) 4 5 6); try done.
  - repeat (apply NoDup_cons; split; [set_solver|]). by apply NoDup_nil.
  - exists [6; 5; 4; 3]. split; [by vm_compute|]. apply Permutation_swap.
Qed.

(** C4: the event loop keeps the session tables consistent.  Through any number of rounds, any
    sequence of events on any descriptors and whichever system calls fail, if attaching a device
    again after a reset does not fail ([reattach_ok]) and a descriptor answers at most [K] retries or
    messages in a row ([patient]), no step is undefined (no dangling pointer is followed, no
    index is out of bounds), the three tables index exactly the live sessions, every session owns
    one marked port of its own and a handler for its own descriptors, and the open descriptors are
    exactly those the daemon's objects own, all distinct. *)
Theorem event_loop_invariant E K fuel rounds w :
  linux_ok E -> patient K E -> 65536 * (K + 1) <= Z.of_nat fuel -> reattach_ok E -> daemon_inv w ->
  exists w', event_loop fuel rounds E w = Some (tt, w') /\ daemon_inv w'.
Proof.
  intros Hok Hp Hf Hre Hi. destruct (wp_run _ _ _ _ (event_loop_wp E K Hok Hp fuel Hf daemon_inv (MainLaws0 := daemon_inv_laws E Hok Hre) rounds w Hi)) as ([] & w' & Hr & ?). by exists w'.
Qed.

Lemma event_loop_invariant_witness :
  exists w', event_loop (Z.to_nat 200000) 5 (sim_env plug_sim) (World boot_daemon boot_trace) = Some (tt, w') /\
    daemon_inv w' /\ dom (sessions_ (d_hub (st w'))) = {[0]}.
Proof.
  destruct (event_loop_invariant (sim_env plug_sim) 1 (Z.to_nat 200000) 5 (World boot_daemon boot_trace) (sim_linux_ok _ _ plug_sim_ok)
    (sim_patient _ _ plug_sim_ok ltac:(lia)) ltac:(lia) (sim_reattach _) boot_inv) as (w' & Hr & Hi).
  exists w'. split; [exact Hr|]. split; [exact Hi|].
  assert ((fun r => dom (sessions_ (d_hub (st r.2)))) <$> event_loop (Z.to_nat 200000) 5 (sim_env plug_sim) (World boot_daemon boot_trace)
    = Some {[0]}) as Hdom by (vm_compute; reflexivity).
  rewrite Hr in Hdom. injection Hdom as ->. reflexivity.
Defined.

(** ** Connecting a device *)

(** When nothing fails, the outcome of a CONNECT is a session on the lowest free port. *)
Lemma connect_success E id speed k w w' p :
  let d := st w in let d' := st w' in
  daemon_ok d -> plug_works E (tr w) -> pending_tcp_socks_ (d_hub d) !! k = Some k -> k < 65536 -> lowest_free (ports_ (d_vhci d)) p ->
  connect_outcome E id speed (Sockaddr 0 (htons k)) w w' ->
  exists a b, sysfs_log (tr w') = sysfs_log (tr w) ++ [(SYSFS_ATTACH, attach_line p a (usb_devid id) speed)] /\ d' = mkDaemon (mark_port p (d_vhci d)) (d_epfd d)
    (add_session (new_session id p b a (Sockaddr 0 (htons k)) k) k (set_pending_socks (delete k (pending_tcp_socks_ (d_hub d))) (d_hub d))).
Proof.
  intros d d'. subst d d'. intros Hd Hre Hpe Hk Hlow Hout. pose proof (hi_pending _ (dk_hub _ Hd) _ _ Hpe) as [_ Hk0].
  unfold connect_outcome in Hout. cbn [sin_port] in Hout. rewrite ntohs_htons, u16_id in Hout by solve_width.
  pose proof (arr_get_inv _ _ _ (proj1 Hlow)) as [Hrange _]. rewrite (dk_vhci _ Hd) in Hrange.
  destruct Hout as [[_ Hall]|[(v & _ & _ & Hnone)|(p' & a & b & [Hlow' _] & Hlog & Hst)]]; [|congruence|].
  - destruct Hlow as [Hlow _]. rewrite (Hall Hre p) in Hlow by lia. done.
  - assert (p' = p) as ->; [|eauto]. destruct Hlow as [Hf Hl], Hlow' as [Hf' Hl']. pose proof (arr_get_inv _ _ _ Hf') as [Hr' _].
    destruct (decide (p' < p)); [rewrite Hl in Hf' by lia; done|]. destruct (decide (p < p')); [rewrite Hl' in Hf by lia; done|]. lia.
Qed.

Lemma mark_port_get p v : lowest_free (ports_ v) p -> arr_get (ports_ (mark_port p v)) p = Some true.
Proof.
  intros [Hf _]. pose proof (arr_get_inv _ _ _ Hf) as [Hr _]. cbn. rewrite arr_get_insert by done. by rewrite Z.eqb_refl.
Qed.

(** The state after a connection has been accepted on descriptor 7. *)
Definition accepted : Daemon := mkDaemon (Vhci 3 (replicate 8 false)) 4 (set_pending_socks {[7 := 7]} (hub_empty 5 6)).
Definition accepted_trace : trace := boot_trace ++ [(CAccept 6, Reply 7 [] 0 [])].
Lemma accepted_inv : daemon_inv (World accepted accepted_trace).
Proof.
  destruct boot_inv as [[Hh Hv Hpo Hdi Hn _] _]. split.
  - constructor; try done.
    + destruct Hh. constructor; try done. intros fd x Hx. cbn [st accepted d_hub set_pending_socks pending_tcp_socks_] in Hx.
      by apply lookup_singleton_Some in Hx as [<- <-].
    + unfold daemon_fds, hub_fds, pending_fds, heap_fds. cbn -[singletonM]. rewrite map_to_list_singleton, map_to_list_empty. cbn.
      repeat (apply NoDup_cons; split; [set_solver|]). by apply NoDup_nil.
  - exists [7; 6; 5; 4; 3]. split; [by vm_compute|]. unfold daemon_fds, hub_fds, pending_fds, heap_fds. cbn -[singletonM].
    rewrite map_to_list_singleton, map_to_list_empty. cbn.
    change [7; 6; 5; 4; 3] with (reverse [3; 4; 5; 6; 7]). apply reverse_Permutation.
Qed.
Lemma first_port_free : lowest_free (replicate 8 false) 0.
Proof. split; [done|]. intros q Hq. lia. Qed.

(** ** Where the daemon falls short *)

(** A descriptor is watched once [epoll_ctl] has added it. *)
Definition watched (t : trace) (fd : Z) : Prop := exists epfd ev r, (CEpollAdd epfd fd ev, r) ∈ t.
(** [epoll_wait] reports descriptors that are watched. *)
Definition epoll_ok (E : env) : Prop :=
  forall t epfd n ms evs, let r := E t (CEpollWait epfd n ms) in 0 <= r_ret r ->
    events_of (Z.to_nat (r_ret r)) (r_out r) = Some evs -> Forall (fun ev => watched t ev.1) evs.

(** The calls of a daemon that only answers discoveries and accepts connections. *)
Definition idle_call (epfd udp server : Z) (c : call) : Prop :=
  match c with
  | CEpollWait fd _ _ => fd = epfd
  | CRecvfrom fd _ | CSendto fd _ _ _ => fd = udp
  | CAccept fd => fd = server
  | CClose _ => True
  | _ => False
  end.

Section Idle.
Context (E : env) (Hok : linux_ok E) (Hep : epoll_ok E) (fuel : nat) (v : VhciDriver) (e u s : Z) (t0 : trace).
Context (Hw0 : forall fd, watched t0 fd -> fd = u \/ fd = s).

(** Only the pending table has changed, and only idle calls were made. *)
Definition idle (w : world Daemon) : Prop :=
  (exists m, st w = mkDaemon v e (set_pending_socks m (hub_empty u s))) /\ exists d, tr w = t0 ++ d /\ Forall (idle_call e u s) (calls d).

Lemma idle_watched w fd : idle w -> watched (tr w) fd -> fd = u \/ fd = s.
Proof.
  intros [_ (d & -> & Hd)] (epfd & ev & r & [Hin|Hin]%elem_of_app); [apply Hw0; by exists epfd, ev, r|].
  rewrite Forall_fmap in Hd. rewrite Forall_forall in Hd. by apply Hd in Hin.
Qed.
Lemma idle_extend w w' :
  idle w -> (exists m, st w' = mkDaemon v e (set_pending_socks m (hub_empty u s))) ->
  (exists d, tr w' = tr w ++ d /\ Forall (idle_call e u s) (calls d)) -> idle w'.
Proof.
  intros [_ (d & Ht & Hd)] Hm (d' & Ht' & Hd'). split; [done|]. exists (d ++ d'). rewrite Ht', Ht, app_assoc, fmap_app.
  split; [done|]. by apply Forall_app_2.
Qed.

(** The calls of the two handlers of the hub. *)
Lemma hub_calls m w w' (h := set_pending_socks m (hub_empty u s)) :
  st w = h -> onUdpReadable E w = Some (tt, w') \/ onTcpAccept E w = Some (tt, w') ->
  exists d, tr w' = tr w ++ d /\ Forall (idle_call e u s) (calls d).
Proof.
  intros Hst [Hr|Hr]; unfold onUdpReadable, onTcpAccept in Hr; erewrite mbind_some in Hr by reflexivity; rewrite Hst in Hr;
    revert Hr; (match goal with |- ?m E w = Some _ -> _ => enough (only_calls (idle_call e u s) m) as Hm by (intros Hr; exact (Hm _ _ _ _ Hr)) end);
    unfold recvFrom, sendTo, acceptConnection, TcpSocket_dtor, close_owned; by repeat only_step.
Qed.
Lemma accept_frame (h : HubServer) t :
  wp onTcpAccept E (World h t) (fun _ w' => exists m, st w' = set_pending_socks m h).
Proof.
  unfold onTcpAccept, acceptConnection, TcpSocket_dtor, close_owned.
  apply wp_bind, wp_get. apply wp_bind, wp_call. intros r _. repeat wp_step; eauto. exists (pending_tcp_socks_ h). by destruct h.
Qed.

Lemma idle_dispatch ev w : idle w -> ev.1 = u \/ ev.1 = s -> wp (dispatch fuel ev) E w (fun _ w' => idle w').
Proof.
  intros Hi Hev. destruct (Hi) as [[m Hst] _]. destruct ev as [fd evts]. cbn [fst] in Hev. unfold dispatch. apply wp_bind, wp_get. rewrite Hst.
  cbn [d_hub udpFd tcpServerFd set_pending_socks hub_empty udp_sock_ tcp_server_]. destruct (Z.eqb_spec fd u).
  - apply wp_zoom. pose proof (onUdpReadable_wp E (World (d_hub (st w)) (tr w)) Hok) as Hu. unfold wp in *.
    destruct (onUdpReadable E _) as [[[] w']|] eqn:Hr; [|done]. destruct Hu as [Hst' _]. rewrite Hst in Hr.
    pose proof (hub_calls m (World _ _) w' eq_refl (or_introl Hr)) as Hd.
    cbn [st tr l_put l_get d_hub_l] in *. apply (idle_extend w); [done| |done]. exists m. by rewrite Hst', Hst.
  - destruct Hev as [|Hs]; [done|]. destruct (Z.eqb_spec fd s); [|done].
    apply wp_zoom. pose proof (accept_frame (d_hub (st w)) (tr w)) as Hu. unfold wp in *.
    destruct (onTcpAccept E _) as [[[] w']|] eqn:Hr; [|done]. destruct Hu as [m' Hst']. rewrite Hst in Hr.
    pose proof (hub_calls m (World _ _) w' eq_refl (or_intror Hr)) as Hd.
    cbn [st tr l_put l_get d_hub_l] in *. apply (idle_extend w); [done| |done]. exists m'. by rewrite Hst', Hst.
Qed.

Lemma idle_loop rounds w : idle w -> wp (event_loop fuel rounds) E w (fun _ w' => idle w').
Proof.
  revert w. induction rounds as [|n IH]; intros w Hi; cbn [event_loop]; [by apply wp_ret|].
  apply wp_bind, wp_get. apply wp_bind, wp_call. intros r Hr. set (c := CEpollWait (d_epfd (st w)) MAX_EVENTS 500) in *.
  assert (idle (World (st w) (tr w ++ [(c, r)]))) as Hi1.
  { apply (idle_extend w); [done|by destruct Hi as [[m ->] _]; eauto|]. eexists. split; [done|]. destruct Hi as [[m Hm] _]. apply Forall_cons_2; [|done]. cbn. by rewrite Hm. }
  destruct (Z.ltb_spec (r_ret r) 0); [by destruct (r_aux r =? EINTR); [apply IH|apply wp_ret]|].
  pose proof (lx_wait _ Hok (tr w) (d_epfd (st w)) MAX_EVENTS 500) as Hl. fold c in Hl. rewrite <- Hr in Hl. cbn in Hl.
  destruct (events_of_Some (Z.to_nat (r_ret r)) (r_out r)) as [evs Hevs]; [lia|].
  pose proof (Hep (tr w) (d_epfd (st w)) MAX_EVENTS 500 evs) as Hwt. fold c in Hwt. rewrite <- Hr in Hwt. specialize (Hwt ltac:(lia) Hevs).
  apply wp_bind. eapply wp_checked; [exact Hevs|]. apply wp_bind.
  apply (wp_mono _ _ _ (fun _ w' => idle w')); [by intros [] w' ?; apply IH|].
  assert (Forall (fun ev => ev.1 = u \/ ev.1 = s) evs) as Hus.
  { eapply Forall_impl; [exact Hwt|]. intros ev. by apply idle_watched. }
  clear Hwt Hevs. revert Hi1. generalize (World (st w) (tr w ++ [(c, r)])). intros w1 Hi1. revert w1 Hi1.
  induction Hus as [|ev evs Hev _ IHe]; intros w1 Hi1; cbn [each]; [by apply wp_ret|].
  apply wp_bind. eapply wp_mono; [|by apply idle_dispatch]. intros [] w2 Hi2. by apply IHe.
Qed.
End Idle.

(** C33: the daemon never attaches a device.  Accepted sockets are not added to epoll, so no event ever
    arrives on them: from the start of the loop, through any number of rounds, no session exists and
    the port table is unchanged; accepted connections only accumulate in the pending table.  The
    daemon waits on epoll, receives and answers datagrams and accepts connections, and makes no other
    call but [close]: no packet of any connection is ever read. *)
Theorem daemon_never_attaches E fuel rounds v e u s t0 :
  linux_ok E -> epoll_ok E -> (forall fd, watched t0 fd -> fd = u \/ fd = s) ->
  exists w' m d, event_loop fuel rounds E (World (mkDaemon v e (hub_empty u s)) t0) = Some (tt, w') /\
    st w' = mkDaemon v e (set_pending_socks m (hub_empty u s)) /\
    tr w' = t0 ++ d /\ Forall (idle_call e u s) (calls d).
Proof.
  intros Hok Hep Hw. assert (idle v e u s t0 (World (mkDaemon v e (hub_empty u s)) t0)) as Hi.
  { split; [by exists ∅|]. exists []. rewrite app_nil_r. split; [done|constructor]. }
  destruct (wp_run _ _ _ _ (idle_loop E Hok Hep fuel v e u s t0 Hw rounds _ Hi)) as ([] & w' & Hr & [m Hm] & d & Ht & Hd).
  by exists w', m, d.
Qed.

(** Two connections arrive; the events are those of the watched descriptors. *)
Definition accept_sim : sim := Sim (fun _ => []) 1 (fun _ => []) [] [[(6, EPOLLIN)]; [(6, EPOLLIN)]].
Lemma accept_sim_ok : sim_ok accept_sim 0.
Proof. constructor; [constructor|done|by split|constructor]. Qed.
(** Only watched descriptors are reported. *)
Definition watched_env : env := fun t c =>
  match c with
  | CEpollWait _ _ _ => if bool_decide ((6 : Z) ∈ (t ≫= fun e => match e.1 with CEpollAdd _ fd _ => [fd] | _ => [] end))
                        then sim_env accept_sim t c else Reply 0 [] 0 []
  | _ => sim_env accept_sim t c
  end.
Lemma watched_env_ok : linux_ok watched_env.
Proof.
  destruct (sim_linux_ok _ _ accept_sim_ok) as [H1 H2 H3 H4 H5 H6 H7 H8 H9 H10]. constructor; try done.
  - intros t epfd n ms. unfold watched_env. case_bool_decide; [apply H7|done].
  - intros t c l Hl Hnd. destruct c; try (by apply H9). done.
  - intros t c. destruct c; try (by apply H10); constructor.
Qed.
Lemma watched_env_epoll : epoll_ok watched_env.
Proof.
  intros t epfd n ms evs. unfold watched_env. case_bool_decide as Hin; cbn [r_ret r_out].
  - apply list_elem_of_bind in Hin as ([c r] & Hc & Ht).
    assert (watched t 6) as Hw.
    { destruct c; cbn in Hc; try (by apply not_elem_of_nil in Hc). apply list_elem_of_singleton in Hc as <-. by eexists _, _, _. }
    cbn [sim_env r_ret r_out accept_sim sim_events]. destruct (count is_wait t) as [|[|k]]; cbn; intros _ [= <-]; repeat constructor; done.
  - intros _ [= <-]. constructor.
Qed.

Lemma daemon_never_attaches_witness :
  exists w' m, event_loop 10 3 watched_env (World boot_daemon boot_trace) = Some (tt, w') /\
    d_hub (st w') = set_pending_socks m (hub_empty 5 6).
Proof.
  destruct (daemon_never_attaches watched_env 10 3 (Vhci 3 (replicate 8 false)) 4 5 6 boot_trace watched_env_ok watched_env_epoll)
    as (w' & m & d & Hr & Hst & _).
  - intros fd (epfd & ev & r & Hin). unfold boot_trace in Hin. repeat (apply elem_of_cons in Hin as [Heq|Hin]; [try discriminate Heq; injection Heq; intros; subst; auto|]).
    by apply not_elem_of_nil in Hin.
  - exists w', m. split; [exact Hr|]. rewrite Hst. reflexivity.
Defined.

(** A daemon with one attached device. *)
Lemma one_attached :
  exists w s, daemon_inv w /\ heap (d_hub (st w)) !! 1 = Some s /\ ds_tcp_sock s = Some 7 /\ ds_vhci_port s = 0.
Proof.
  destruct (wp_run _ _ _ _ (connect_wp (sim_env plug_sim) (sim_linux_ok _ _ plug_sim_ok) 0 USB_SPEED_FULL (Sockaddr 0 (htons 7))
    (World accepted accepted_trace) accepted_inv ltac:(vm_compute; reflexivity))) as ([] & w & _ & Hi & Hout).
  destruct Hout as [[_ Hall]|[(v & _ & _ & Hnone)|(p & a & b & [Hlow _] & _ & Hst)]].
  - specialize (Hall (sim_plug _ _) 0 ltac:(done)). vm_compute in Hall. discriminate.
  - vm_compute in Hnone. discriminate.
  - assert (p = 0) as ->.
    { destruct Hlow as [Hf Hl]. pose proof (arr_get_inv _ _ _ Hf) as [Hr _]. destruct (decide (p = 0)); [done|].
      specialize (Hl 0 ltac:(lia)). vm_compute in Hl. discriminate. }
    exists w, (new_session 0 0 b a (Sockaddr 0 (htons 7)) 7). split; [done|]. rewrite Hst. cbn -[Z.to_nat]. by rewrite lookup_insert_eq.
Qed.

(** The listening sockets are not session sockets. *)
Lemma session_not_listening d p s x :
  daemon_ok d -> heap (d_hub d) !! p = Some s -> x ∈ session_fds s -> x <> udp_sock_ (d_hub d) /\ x <> tcp_server_ (d_hub d).
Proof.
  intros Hd Hp Hx. pose proof (dk_nodup _ Hd) as Hnd. unfold daemon_fds, hub_fds in Hnd.
  assert (x ∈ pending_fds (pending_tcp_socks_ (d_hub d)) ++ heap_fds (heap (d_hub d))) as Hin.
  { apply elem_of_app. right. by eapply heap_fds_elem. }
  do 2 apply NoDup_cons in Hnd as [_ Hnd]. apply NoDup_cons in Hnd as [Hu Hnd]. apply NoDup_cons in Hnd as [Ht _].
  split; intros ->; [|done]. apply Hu, elem_of_cons. by right.
Qed.

(** An event on a session's socket reaches [session_event]. *)
Lemma dispatch_session E fuel w fd evts p s Q :
  daemon_inv w -> heap (d_hub (st w)) !! p = Some s -> fd ∈ session_fds s ->
  wp (session_event fuel fd evts) E w Q -> wp (dispatch fuel (fd, evts)) E w Q.
Proof.
  intros [Hd _] Hp Hfd HQ. destruct (session_not_listening _ _ _ _ Hd Hp Hfd) as [Hu Ht]. unfold dispatch, udpFd, tcpServerFd.
  apply wp_bind, wp_get. destruct (Z.eqb_spec fd (udp_sock_ (d_hub (st w)))); [done|].
  destruct (Z.eqb_spec fd (tcp_server_ (d_hub (st w)))); [done|].
  apply wp_bind. unfold extractPendingSocket. apply wp_zoom, wp_bind, wp_get. cbn [st tr l_get d_hub_l].
  destruct (pending_tcp_socks_ (d_hub (st w)) !! -2) as [x|] eqn:Hpe.
  { destruct (hi_pending _ (dk_hub _ Hd) _ _ Hpe) as [_ Hneg]. lia. }
  apply wp_ret. replace (World _ _) with w by (by destruct w as [[] ?]). apply wp_bind.
  eapply wp_mono; [|exact HQ]. intros [] w' HQ'. by apply wp_ret.
Qed.

Lemma removeSession_quiet id : only_calls no_write (removeSession id).
Proof.
  unfold removeSession, DeviceSession_dtor, deref, TcpSocket_dtor, close_owned. by repeat only_step.
Qed.

(** A hang-up on the socket of a session removes the session and nothing else. *)
Lemma tcp_eof_wp E fuel w p s fd evts :
  daemon_inv w -> heap (d_hub (st w)) !! p = Some s -> ds_tcp_sock s = Some fd -> hup HUP_MASK evts = true ->
  wp (dispatch fuel (fd, evts)) E w (fun _ w' => (daemon_inv w' /\
    st w' = mkDaemon (d_vhci (st w)) (d_epfd (st w)) (drop_session p s (d_hub (st w)))) /\ sysfs_log (tr w') = sysfs_log (tr w)).
Proof.
  intros Hi Hp Hfd Hup. pose proof (dk_hub _ (proj1 Hi)) as Hh.
  assert (tcp_fd_map_ (d_hub (st w)) !! fd = Some p) as Ht by (apply (hi_tcp _ Hh); eauto).
  eapply dispatch_session; [done..|by apply session_fd_tcp|]. unfold session_event.
  apply wp_bind, (wp_find E (fun h => tcp_fd_map_ h !! fd)). rewrite Ht, Hup. apply wp_bind, (wp_deref E p s); [done|].
  apply wp_quiet; [apply only_zoom, removeSession_quiet|]. by apply (remove_session_wp E).
Qed.

(** A lost TCP connection costs a port: its port stays marked although no session uses it any more,
    and the kernel is not told to detach it. *)
Theorem tcp_eof_leaks_port E fuel w p s fd evts :
  daemon_inv w -> heap (d_hub (st w)) !! p = Some s -> ds_tcp_sock s = Some fd -> hup HUP_MASK evts = true ->
  exists w', dispatch fuel (fd, evts) E w = Some (tt, w') /\ daemon_inv w' /\
    sessions_ (d_hub (st w')) !! ds_device_id s = None /\
    arr_get (ports_ (d_vhci (st w'))) (ds_vhci_port s) = Some true /\
    (forall q s', heap (d_hub (st w')) !! q = Some s' -> ds_vhci_port s' <> ds_vhci_port s) /\
    sysfs_log (tr w') = sysfs_log (tr w).
Proof.
  intros Hi Hp Hfd Hup.
  destruct (wp_run _ _ _ _ (tcp_eof_wp E fuel w p s fd evts Hi Hp Hfd Hup)) as ([] & w' & Hr & [Hi' Hst] & Hlog). exists w'. rewrite Hst. cbn [d_hub d_vhci].
  split_and!; [done|done|cbn; apply lookup_delete_eq|by apply (dk_ports _ (proj1 Hi) p)| |done].
  intros q s' Hq Heq. cbn in Hq. apply lookup_delete_Some in Hq as [Hne Hq]. apply Hne. by apply (dk_distinct _ (proj1 Hi) p q s s').
Qed.

Lemma tcp_eof_leaks_port_witness :
  exists w w', dispatch 10 (7, EPOLLHUP) (sim_env plug_sim) w = Some (tt, w') /\ arr_get (ports_ (d_vhci (st w'))) 0 = Some true.
Proof.
  destruct one_attached as (w & s & Hi & Hs & Hfd & Hport).
  destruct (tcp_eof_leaks_port (sim_env plug_sim) 10 w 1 s 7 EPOLLHUP Hi Hs Hfd eq_refl) as (w' & Hr & _ & _ & Hp & _).
  exists w, w'. split; [exact Hr|]. rewrite <- Hport. exact Hp.
Defined.

(** C35: a reset that cannot re-attach leaves a dangling pointer.  The socket is taken out of the session
    before the session is removed, so its entry in [tcp_fd_map_] stays behind; when no new socketpair
    can be made, that entry points to the destroyed session, and the next hang-up reported for that
    descriptor number follows it. *)
Theorem reset_leaves_dangling E fuel w p s fd :
  daemon_inv w -> heap (d_hub (st w)) !! p = Some s -> ds_tcp_sock s = Some fd ->
  (forall t, r_ret (E t (CSocketpair false)) < 0) ->
  exists w', usb_reset p (ds_vhci_fd s) E w = Some (tt, w') /\
    heap (d_hub (st w')) !! p = None /\ tcp_fd_map_ (d_hub (st w')) !! fd = Some p /\
    forall evts, hup HUP_MASK evts = true -> session_event fuel fd evts E w' = None.
Proof.
  intros Hi Hs Hfd Hpair. pose proof (dk_hub _ (proj1 Hi)) as Hh. pose proof (hi_obj _ Hh _ _ Hs) as [_ Hnn].
  assert (0 <= fd) as Hpos by (rewrite Forall_forall in Hnn; by apply Hnn, session_fd_tcp).
  assert (wp (usb_reset p (ds_vhci_fd s)) E w (fun _ w' => d_hub (st w') = torn_down p s (d_hub (st w)))) as Hwp.
  { eapply usb_teardown_wp; [done..|]. intros v t d _ _ _ _ _ _. unfold usb_reattach. apply wp_bind, wp_call. intros r Hr. cbn [st tr] in *.
    pose proof (Hpair t) as Hn. rewrite <- Hr in Hn. destruct (Z.eqb_spec (r_ret r) 0); [lia|].
    unfold TcpSocket_dtor, close_owned. destruct (Z.leb_spec 0 fd); [|lia]. by repeat wp_step. }
  destruct (wp_run _ _ _ _ Hwp) as ([] & w' & Hr & Hst). exists w'. rewrite Hst.
  assert (heap (torn_down p s (d_hub (st w))) !! p = None) as Hgone by (cbn; apply lookup_delete_eq).
  assert (tcp_fd_map_ (torn_down p s (d_hub (st w))) !! fd = Some p) as Ht by (cbn; apply (hi_tcp _ Hh); eauto).
  split_and!; [done..|]. intros evts Hup.
  unfold session_event, findByTcpFd, deref, zoom, mbind, M_bind, get, mret, M_ret, checked.
  cbn [st tr l_get d_hub_l]. rewrite Hst, Ht, Hup. cbn [st tr l_get l_put d_hub_l d_hub]. by rewrite Hgone.
Qed.

(** No socketpair can be had. *)
Definition no_pair_env : env := fun t c => match c with CSocketpair _ => Reply (-1) [] 24 [] | _ => sim_env plug_sim t c end.

Lemma reset_leaves_dangling_witness :
  exists w w' s, usb_reset 1 (ds_vhci_fd s) no_pair_env w = Some (tt, w') /\ session_event 10 7 EPOLLHUP no_pair_env w' = None.
Proof.
  destruct one_attached as (w & s & Hi & Hs & Hfd & _).
  destruct (reset_leaves_dangling no_pair_env 10 w 1 s 7 Hi Hs Hfd) as (w' & Hr & _ & _ & Hub).
  - intros t. cbn. lia.
  - exists w, w', s. split; [exact Hr|]. apply Hub. reflexivity.
Defined.

(** A packet whose payload has not arrived yet costs the connection.  If the header of a packet with a
    payload is there and the next read finds nothing, [recvExactly] reports the same -1 as for an
    error, and the event handler closes the pending socket; the device is never attached. *)
Theorem split_packet_drops_socket E fuel w k hdr r1 r2 :
  daemon_inv w -> pending_tcp_socks_ (d_hub (st w)) !! k = Some k -> (2 <= fuel)%nat -> header_wf hdr -> 0 < h_payload_len hdr ->
  E (tr w) (CRecv k 6) = r1 -> r_ret r1 = 6 -> r_out r1 = encode hdr ->
  E (tr w ++ [(CRecv k 6, r1)]) (CRecv k (h_payload_len hdr)) = r2 -> r_ret r2 < 0 -> r_aux r2 = EAGAIN ->
  exists w', onTcpReadable fuel k E w = Some (tt, w') /\ daemon_inv w' /\
    pending_tcp_socks_ (d_hub (st w')) !! k = None /\ sessions_ (d_hub (st w')) = sessions_ (d_hub (st w)) /\
    calls (tr w') = calls (tr w) ++ [CRecv k 6; CRecv k (h_payload_len hdr); CClose k].
Proof.
  intros [Hd Hf] Hpe Hfuel Hw Hpl Hr1 Hret Hout Hr2 Hneg Hag. destruct w as [[v e h] t]. cbn [st tr d_hub] in *.
  destruct (hi_pending _ (dk_hub _ Hd) _ _ Hpe) as [_ Hk]. destruct fuel as [|[|n]]; [lia..|].
  set (t2 := (t ++ [(CRecv k 6, r1)]) ++ [(CRecv k (h_payload_len hdr), r2)]).
  assert (readTcpPacket (S (S n)) k E (World h t) = Some (None, World h t2)) as Hread.
  { unfold readTcpPacket, read_packet, socket_of, mbind, M_bind, get, mret, M_ret. cbn [st]. rewrite Hpe. unfold recvExactly.
    assert (recv_loop (S (S n)) k (sizeof Header) [] E (World h t) = Some ((6, encode hdr), World h (t ++ [(CRecv k 6, r1)]))) as ->.
    { cbn [recv_loop]. change (len [] <? sizeof Header) with true. unfold mbind, M_bind, call_ext. cbn [st tr]. change (sizeof Header - len []) with 6.
      rewrite Hr1, Hret. cbn [Z.ltb Z.eqb Z.compare]. rewrite app_nil_l, Hout. change (len (encode hdr) <? sizeof Header) with false. done. }
    cbn [fst snd]. change (6 <=? 0) with false. unfold checked. rewrite <- (app_nil_r (encode hdr)), decode_encode by done.
    destruct (Z.ltb_spec 0 (h_payload_len hdr)); [|lia]. cbn [recv_loop]. change (len []) with 0. rewrite Z.sub_0_r.
    destruct (Z.ltb_spec 0 (h_payload_len hdr)); [|lia]. unfold mbind, M_bind, call_ext. cbn [st tr]. rewrite Hr2, Hag.
    destruct (Z.ltb_spec (r_ret r2) 0); [|lia]. done. }
  set (r3 := E t2 (CClose k)).
  exists (World (mkDaemon v e (set_pending_socks (delete k (pending_tcp_socks_ h)) h)) (t2 ++ [(CClose k, r3)])).
  split; [|split; [split|]]; cbn [st tr d_hub].
  - unfold onTcpReadable, zoom, mbind, M_bind. cbn [st tr l_get l_put hub_l main_callbacks d_hub_l d_hub d_vhci d_epfd].
    change (hub_l (S := Daemon)) with d_hub_l. cbn [st tr l_get l_put d_hub_l d_hub d_vhci d_epfd]. rewrite Hread.
    cbn [st tr l_get l_put d_hub_l d_hub d_vhci d_epfd]. unfold tcp_failed, zoom, get, modify, mbind, M_bind, mret, M_ret.
    change (hub_l (S := Daemon)) with d_hub_l. cbn [st tr l_get l_put d_hub_l d_hub d_vhci d_epfd]. rewrite Hpe.
    unfold TcpSocket_dtor, close_owned. destruct (Z.leb_spec 0 k); [|lia]. done.
  - by eapply ok_pending.
  - apply holds_close. eapply holds_perm; [by apply fds_pending|]. unfold t2.
    apply holds_use with (fd := k); [done..| |apply holds_use with (fd := k); [done..| |done]].
    all: rewrite (fds_pending v e h k k Hpe); apply elem_of_cons; by left.
  - split_and!; [apply lookup_delete_eq|done|]. unfold t2. rewrite !fmap_app, <- !app_assoc. done.
Qed.

(** The header of a CONNECT has arrived, its payload has not. *)
Definition connect_hdr : Header := mkHeader CMD_DEVICE_EVENT 0 0 0 8.
Definition header_only_env : env := fun _ c =>
  match c with CRecv _ n => if n =? 6 then Reply 6 (encode connect_hdr) 0 [] else Reply (-1) [] EAGAIN [] | _ => Reply 0 [] 0 [] end.

Lemma split_packet_drops_socket_witness :
  exists w', onTcpReadable 5 7 header_only_env (World accepted accepted_trace) = Some (tt, w') /\
    pending_tcp_socks_ (d_hub (st w')) !! 7 = None.
Proof.
  destruct (split_packet_drops_socket header_only_env 5 (World accepted accepted_trace) 7 connect_hdr
    (Reply 6 (encode connect_hdr) 0 []) (Reply (-1) [] EAGAIN []) accepted_inv) as (w' & Hr & _ & Hp & _).
  - vm_compute. reflexivity.
  - lia.
  - split_and!; vm_compute; split; discriminate || reflexivity.
  - vm_compute. reflexivity.
  - reflexivity.
  - reflexivity.
  - reflexivity.
  - reflexivity.
  - cbn. lia.
  - reflexivity.
  - exists w'. split; [exact Hr|exact Hp].
Defined.
