(* ===== verification/HubSpec.v ===== *)
(** * What the daemon promises, and that it does

    An abstract daemon: the connections that have announced no device, the
    attached devices with their connection and port, and the ports in use.
    [hub_step] is what an event may do to them.  The event loop of main.cpp,
    with the hub, the driver and every failure of the system calls, refines
    it: through [abs], each run of the loop is a sequence of abstract steps.
    Facts about all runs of the daemon then follow by induction on abstract
    steps; the last theorems use it for the ports that lost connections cost. *)

From stdpp Require Import gmap fin_maps.
From S2P Require Import Prelude Effects Descriptors Protocol Addr Linux SimOs DaemonNet Vhci Passthrough HubServer DaemonMain.

(** ** The abstract daemon *)

Record hub_state := Hub {
  h_pending : gset Z;
  (* by device id: the connection and the port *)
  h_sessions : gmap Z (Z * Z);
  h_busy : gset Z;
}.

Definition first_free (busy : gset Z) (p : Z) : Prop :=
  0 <= p < max_ports_ /\ p ∉ busy /\ forall q, 0 <= q < p -> q ∈ busy.

Inductive hub_step (a : hub_state) : hub_state -> Prop :=
(* a connection is accepted *)
| HAccept k : k ∉ h_pending a -> (forall id x, h_sessions a !! id = Some x -> x.1 <> k) ->
    hub_step a (Hub ({[k]} ∪ h_pending a) (h_sessions a) (h_busy a))
(* a connection ends before it announces a device *)
| HDrop k : k ∈ h_pending a -> hub_step a (Hub (h_pending a ∖ {[k]}) (h_sessions a) (h_busy a))
(* a device is attached on the lowest free port *)
| HConnect id k p : k ∈ h_pending a -> h_sessions a !! id = None -> first_free (h_busy a) p ->
    hub_step a (Hub (h_pending a ∖ {[k]}) (<[id := (k, p)]> (h_sessions a)) ({[p]} ∪ h_busy a))
(* a port is taken although the connection cannot be found again *)
| HLeak p : first_free (h_busy a) p -> hub_step a (Hub (h_pending a) (h_sessions a) ({[p]} ∪ h_busy a))
(* a device disconnects *)
| HDetach id k p : h_sessions a !! id = Some (k, p) ->
    hub_step a (Hub (h_pending a) (delete id (h_sessions a)) (h_busy a ∖ {[p]}))
(* a device is removed without its port being given back *)
| HLost id k p : h_sessions a !! id = Some (k, p) -> hub_step a (Hub (h_pending a) (delete id (h_sessions a)) (h_busy a))
(* the kernel resets a device *)
| HReset id k p q : h_sessions a !! id = Some (k, p) -> first_free (h_busy a ∖ {[p]}) q ->
    hub_step a (Hub (h_pending a) (<[id := (k, q)]> (h_sessions a)) ({[q]} ∪ h_busy a ∖ {[p]})).

(** ** The abstraction *)

Definition busy (ports : list bool) : gset Z :=
  list_to_set (filter (fun q => arr_get ports q = Some true) (seqZ 0 (len ports))).

Definition session_entry (h : HubServer) (p : Z) : option (Z * Z) :=
  s ← heap h !! p; fd ← ds_tcp_sock s; Some (fd, ds_vhci_port s).
Definition session_table (h : HubServer) : gmap Z (Z * Z) := omap (session_entry h) (sessions_ h).

Definition abs (d : Daemon) : hub_state :=
  Hub (dom (pending_tcp_socks_ (d_hub d))) (session_table (d_hub d)) (busy (ports_ (d_vhci d))).

(** *** Ports *)

Lemma elem_of_busy ports q : q ∈ busy ports <-> arr_get ports q = Some true.
Proof.
  unfold busy. rewrite elem_of_list_to_set, list_elem_of_filter, elem_of_seqZ. split; [by intros [? _]|].
  intros Hq. pose proof (arr_get_inv _ _ _ Hq) as [? _]. split; [done|lia].
Qed.
Lemma busy_mark v p : 0 <= p < len (ports_ v) -> busy (ports_ (mark_port p v)) = {[p]} ∪ busy (ports_ v).
Proof.
  intros Hp. apply set_eq. intros q. rewrite elem_of_union, elem_of_singleton, !elem_of_busy. cbn. rewrite arr_get_insert by done.
  destruct (Z.eqb_spec q p); naive_solver.
Qed.
Lemma busy_free v p : 0 <= p < len (ports_ v) -> busy (ports_ (free_port p v)) = busy (ports_ v) ∖ {[p]}.
Proof.
  intros Hp. apply set_eq. intros q. rewrite elem_of_difference, elem_of_singleton, !elem_of_busy. cbn. rewrite arr_get_insert by done.
  destruct (Z.eqb_spec q p); naive_solver.
Qed.
Lemma first_free_busy ports p : len ports = max_ports_ -> lowest_free ports p -> first_free (busy ports) p.
Proof.
  intros Hl [Hp Hq]. pose proof (arr_get_inv _ _ _ Hp) as [Hr _]. rewrite Hl in Hr. split; [done|]. rewrite elem_of_busy. split; [congruence|].
  intros q Hqp. rewrite elem_of_busy. by apply Hq.
Qed.
Lemma lowest_free_range v p : lowest_free (ports_ v) p -> 0 <= p < len (ports_ v).
Proof. intros [Hp _]. by apply arr_get_inv in Hp as [? _]. Qed.

(** *** Sessions *)

Lemma session_table_Some h id k port :
  hub_inv h -> session_table h !! id = Some (k, port) <->
    exists p s, heap h !! p = Some s /\ ds_device_id s = id /\ ds_tcp_sock s = Some k /\ ds_vhci_port s = port.
Proof.
  intros Hi. unfold session_table. rewrite lookup_omap. split.
  - destruct (sessions_ h !! id) as [p|] eqn:Hid; [|done]. apply (hi_sess _ Hi) in Hid as (s & Hs & Hid). cbn. unfold session_entry.
    rewrite Hs. cbn. destruct (ds_tcp_sock s) eqn:Hk; [|done]. intros [= <- <-]. by exists p, s.
  - intros (p & s & Hs & Hid & Hk & Hport). assert (sessions_ h !! id = Some p) as -> by (apply (hi_sess _ Hi); eauto).
    cbn. unfold session_entry. rewrite Hs. cbn. rewrite Hk. cbn. by rewrite Hport.
Qed.
Lemma session_table_heap h p s k :
  hub_inv h -> heap h !! p = Some s -> ds_tcp_sock s = Some k -> session_table h !! ds_device_id s = Some (k, ds_vhci_port s).
Proof. intros Hi Hs Hk. apply session_table_Some; [done|]. by exists p, s. Qed.

Lemma table_drop h p s :
  hub_inv h -> heap h !! p = Some s -> session_table (drop_session p s h) = delete (ds_device_id s) (session_table h).
Proof.
  intros Hi Hs. apply map_eq. intros id. unfold session_table. cbn. rewrite lookup_omap.
  destruct (decide (id = ds_device_id s)) as [->|Hne]; [by rewrite !lookup_delete_eq|].
  rewrite !lookup_delete_ne, lookup_omap by done. destruct (sessions_ h !! id) as [q|] eqn:Hq; [|done]. cbn. unfold session_entry. cbn.
  rewrite lookup_delete_ne; [done|]. intros ->. apply (hi_sess _ Hi) in Hq as (s' & Hs' & Hid). congruence.
Qed.
Lemma table_add h s k :
  hub_inv h -> ds_tcp_sock s = Some k -> session_table (add_session s k h) = <[ds_device_id s := (k, ds_vhci_port s)]> (session_table h).
Proof.
  intros Hi Hk. apply map_eq. intros id. unfold session_table. cbn. rewrite lookup_omap.
  destruct (decide (id = ds_device_id s)) as [->|Hne].
  - rewrite !lookup_insert_eq. cbn. unfold session_entry. cbn. rewrite lookup_insert_eq. cbn. by rewrite Hk.
  - rewrite !lookup_insert_ne, lookup_omap by done. destruct (sessions_ h !! id) as [q|] eqn:Hq; [|done]. cbn. unfold session_entry. cbn.
    rewrite lookup_insert_ne; [done|]. intros <-. apply (hi_sess _ Hi) in Hq as (s' & Hs' & _). pose proof (hi_next _ Hi _ _ Hs'). lia.
Qed.
Lemma table_handler h p s ph : heap h !! p = Some s -> session_table (set_heap (<[p := set_handler ph s]> (heap h)) h) = session_table h.
Proof.
  intros Hs. apply map_eq. intros id. unfold session_table. cbn. rewrite !lookup_omap.
  destruct (sessions_ h !! id) as [q|]; [|done]. cbn. unfold session_entry. cbn.
  destruct (decide (p = q)) as [->|]; [by rewrite lookup_insert_eq, Hs|by rewrite lookup_insert_ne].
Qed.

Lemma abs_handler d p s ph :
  heap (d_hub d) !! p = Some s -> abs (d_hub_l.(l_put) (set_heap (<[p := set_handler ph s]> (heap (d_hub d))) (d_hub d)) d) = abs d.
Proof. intros Hs. unfold abs. cbn [l_put d_hub_l d_hub d_vhci]. by rewrite table_handler. Qed.
Lemma rtc_same (a b : hub_state) : a = b -> rtc hub_step a b.
Proof. by intros ->. Qed.

(** ** The steps of the daemon are abstract steps *)

Lemma drop_step d p s v :
  daemon_ok d -> heap (d_hub d) !! p = Some s -> v = d_vhci d \/ v = free_port (ds_vhci_port s) (d_vhci d) ->
  hub_step (abs d) (abs (mkDaemon v (d_epfd d) (drop_session p s (d_hub d)))).
Proof.
  intros Hd Hs Hv. pose proof (dk_hub _ Hd) as Hi. destruct (so_sock _ (hi_obj _ Hi _ _ Hs)) as (k & q & Hk & _).
  pose proof (session_table_heap _ _ _ _ Hi Hs Hk) as Ht. pose proof (arr_get_inv _ _ _ (dk_ports _ Hd _ _ Hs)) as [Hr _].
  unfold abs. cbn [d_hub d_vhci d_epfd]. rewrite (table_drop _ _ _ Hi Hs). destruct Hv as [->| ->].
  - by eapply (HLost (abs d)).
  - rewrite busy_free by done. by eapply (HDetach (abs d)).
Qed.

Lemma disconnect_steps id w w' : daemon_ok (st w) -> disconnect_outcome id w w' -> rtc hub_step (abs (st w)) (abs (st w')).
Proof.
  intros Hd [[_ ->]|(p & s & v & Hs & _ & Hv & ->)]; [done|]. by apply rtc_once, drop_step.
Qed.

Lemma add_step d s k p :
  daemon_ok d -> pending_tcp_socks_ (d_hub d) !! k = Some k -> sessions_ (d_hub d) !! ds_device_id s = None ->
  ds_tcp_sock s = Some k -> ds_vhci_port s = p -> lowest_free (ports_ (d_vhci d)) p ->
  hub_step (abs d) (abs (mkDaemon (mark_port p (d_vhci d)) (d_epfd d)
    (add_session s k (set_pending_socks (delete k (pending_tcp_socks_ (d_hub d))) (d_hub d))))).
Proof.
  intros Hd Hk Hid Hs Hp Hlow. pose proof (dk_hub _ Hd) as Hi. destruct (d) as [v e h]. cbn [d_hub d_vhci d_epfd] in *.
  assert (hub_inv (set_pending_socks (delete k (pending_tcp_socks_ h)) h)) as Hi' by (by apply (dk_hub _ (ok_pending v e h k k Hd Hk))).
  unfold abs. cbn [d_hub d_vhci d_epfd]. rewrite (table_add _ _ _ Hi' Hs), busy_mark by (by apply lowest_free_range).
  change (session_table (set_pending_socks _ h)) with (session_table h).
  change (dom (pending_tcp_socks_ (add_session _ _ _))) with (dom (delete k (pending_tcp_socks_ h)) : gset Z). rewrite dom_delete_L, Hp.
  apply (HConnect (abs (mkDaemon v e h))); cbn.
  - apply elem_of_dom. by rewrite Hk.
  - unfold session_table. rewrite lookup_omap. by rewrite Hid.
  - apply first_free_busy; [apply (dk_vhci _ Hd)|done].
Qed.

Lemma connect_steps E id speed addr w w' :
  daemon_ok (st w) -> sessions_ (d_hub (st w)) !! id = None -> connect_outcome E id speed addr w w' ->
  rtc hub_step (abs (st w)) (abs (st w')).
Proof.
  intros Hd Hid Hout.
  destruct Hout as [[-> _]|[(v & (p & Hlow & ->) & -> & _)|(p & a & b & [Hlow Hk] & _ & Hst)]]; [done|..]; apply rtc_once.
  - unfold abs. cbn [d_hub d_vhci d_epfd]. rewrite busy_mark by (by apply lowest_free_range).
    apply (HLeak (abs (st w))), first_free_busy; [apply (dk_vhci _ Hd)|done].
  - rewrite Hst. by apply add_step.
Qed.

Lemma accept_steps w w' : daemon_ok (st w) -> accept_outcome w w' -> rtc hub_step (abs (st w)) (abs (st w')).
Proof.
  intros Hd [-> |(k & Hk & ->)]; [done|]. apply rtc_once. pose proof (dk_hub _ Hd) as Hi. unfold abs. cbn [d_hub d_vhci d_epfd].
  change (session_table (set_pending_socks _ ?h)) with (session_table h). cbn [pending_tcp_socks_ set_pending_socks]. rewrite dom_insert_L.
  apply (HAccept (abs (st w))); cbn.
  - intros [x Hx]%elem_of_dom. destruct (hi_pending _ Hi _ _ Hx) as [-> _]. apply Hk. unfold daemon_fds, hub_fds.
    rewrite (pending_fds_delete _ _ _ Hx). set_solver.
  - intros id [k' port] Hx Heq. cbn in Heq. subst k'. apply (session_table_Some _ _ _ _ Hi) in Hx as (p & s & Hs & _ & Hfd & _).
    apply Hk. eapply fds_session; [exact Hs|]. by apply session_fd_tcp.
Qed.

Lemma reset_steps s p w w' :
  daemon_ok (st w) -> heap (d_hub (st w)) !! p = Some s -> reset_outcome s p w w' -> rtc hub_step (abs (st w)) (abs (st w')).
Proof.
  intros Hd Hs (k & q & a & b & Hk & Hlow & ->). apply rtc_once. pose proof (dk_hub _ Hd) as Hi.
  pose proof (session_table_heap _ _ _ _ Hi Hs Hk) as Ht. pose proof (arr_get_inv _ _ _ (dk_ports _ Hd _ _ Hs)) as [Hr _].
  unfold abs. cbn [d_hub d_vhci d_epfd]. rewrite busy_mark by (by apply lowest_free_range). rewrite busy_free by done.
  rewrite table_add, table_drop, insert_delete_eq by (done || by apply drop_session_inv).
  eapply (HReset (abs (st w))); [exact Ht|]. change (h_busy (abs (st w))) with (busy (ports_ (d_vhci (st w)))). rewrite <- busy_free by done.
  apply first_free_busy; [apply vhci_ok_insert, (dk_vhci _ Hd)|done].
Qed.

(** ** The event loop refines the abstract daemon *)

Section Refinement.
Context (E : env) (Hok : linux_ok E) (Hre : reattach_ok E) (A : hub_state).

(** The daemon has got here from [A] by abstract steps. *)
Definition tracks (w : world Daemon) : Prop := daemon_inv w /\ rtc hub_step A (abs (st w)).

Lemma tracks_step w w' : tracks w -> daemon_inv w' -> rtc hub_step (abs (st w)) (abs (st w')) -> tracks w'.
Proof. intros [_ Ha] Hi Hs. split; [done|]. by etrans. Qed.

#[local] Instance tracks_hub : HubLaws E tracks.
Proof.
  pose proof (main_laws E Hok) as Hl. constructor.
  - apply (law_lens (I := daemon_inv)).
  - apply (law_put (I := daemon_inv)).
  - intros w [Hi _]. by apply (law_hub (I := daemon_inv)).
  - intros w t' Hw Hio. apply (tracks_step w); [done|apply (law_io (I := daemon_inv)); [apply Hw|done]|done].
  - intros w fd r Hw h Hp. apply (tracks_step w); [done|apply (law_pending (I := daemon_inv)); [apply Hw|done]|].
    apply rtc_once. unfold abs. cbn. rewrite dom_delete_L. apply (HDrop (abs (st w))). cbn. apply elem_of_dom. change (is_Some (pending_tcp_socks_ h !! fd)). by rewrite Hp.
  - intros w p s ph q t' Hw h Hs Hph Hio. apply (tracks_step w); [done|by apply (law_handler (I := daemon_inv)); [apply Hw|..]|].
    apply rtc_same. symmetry. exact (abs_handler (st w) p s (set_seq q ph) Hs).
  - intros id w Hw. eapply wp_mono; [|apply (disconnect_wp E); apply Hw]. intros [] w' [[Hi Hn] Hout]. split; [|done].
    apply (tracks_step w); [done..|]. by apply (disconnect_steps id); [apply Hw|].
  - intros id speed addr w Hw Hid. eapply wp_mono; [|apply (connect_wp E Hok); [apply Hw|done]]. intros [] w' [Hi Hout].
    apply (tracks_step w); [done..|]. by apply (connect_steps E id speed addr); [apply Hw|..].
Qed.

#[local] Instance tracks_laws : MainLaws E tracks.
Proof.
  constructor.
  - apply _.
  - by intros w [? _].
  - intros w t' Hw Hio. apply (tracks_step w); [done|apply inv_io; [apply Hw|done]|done].
  - intros w Hw. eapply wp_mono; [|apply (accept_wp E Hok); apply Hw]. intros [] w' [Hi Hout].
    apply (tracks_step w); [done..|]. apply accept_steps; [apply Hw|done].
  - intros p s w Hw Hs. eapply wp_mono; [|apply (remove_session_wp E p); [apply Hw|done]]. intros [] w' [Hi Hst].
    apply (tracks_step w); [done..|]. rewrite Hst. apply rtc_once, drop_step; [apply Hw|done|by left].
  - intros p s w Hw Hs. eapply wp_mono; [|apply (usb_reset_wp E Hok Hre); [apply Hw|done]]. intros [] w' [Hi Hout].
    apply (tracks_step w); [done..|]. by apply (reset_steps s p); [apply Hw|..].
Qed.

Lemma loop_tracks K fuel rounds w :
  patient K E -> 65536 * (K + 1) <= Z.of_nat fuel -> tracks w -> wp (event_loop fuel rounds) E w (fun _ w' => tracks w').
Proof. intros Hp Hf Hw. by apply (event_loop_wp E K Hok Hp fuel Hf tracks). Qed.
End Refinement.

(** C3: the daemon does what it promises.  Whatever events arrive in whatever order, whatever the peers
    send and whichever system calls fail, if attaching a device again after a reset does not fail
    ([reattach_ok]) and a descriptor answers at most [K] retries or messages in a row ([patient]),
    the event loop returns, and what it has done to the connections, the devices and the ports is a
    sequence of abstract steps: each connection is accepted, dropped or given to one device, each
    device is attached on the lowest free port, and leaves by disconnecting, by losing its
    connection, or by a reset. *)
Theorem event_loop_refines E K fuel rounds w :
  linux_ok E -> patient K E -> 65536 * (K + 1) <= Z.of_nat fuel -> reattach_ok E -> daemon_inv w ->
  exists w', event_loop fuel rounds E w = Some (tt, w') /\ daemon_inv w' /\ rtc hub_step (abs (st w)) (abs (st w')).
Proof.
  intros Hok Hp Hf Hre Hi.
  destruct (wp_run _ _ _ _ (loop_tracks E Hok Hre (abs (st w)) K fuel rounds w Hp Hf (conj Hi (rtc_refl _ _)))) as ([] & w' & Hr & Hi' & Ha).
  by exists w'.
Qed.

(** A device is plugged in, reset and unplugged. *)
Lemma event_loop_refines_witness :
  exists w', event_loop (Z.to_nat 200000) 7 (sim_env plug_sim) (World boot_daemon boot_trace) = Some (tt, w') /\
    rtc hub_step (Hub ∅ ∅ ∅) (abs (st w')).
Proof.
  destruct (event_loop_refines (sim_env plug_sim) 1 (Z.to_nat 200000) 7 (World boot_daemon boot_trace) (sim_linux_ok _ _ plug_sim_ok)
    (sim_patient _ _ plug_sim_ok ltac:(lia)) ltac:(lia) (sim_reattach _) boot_inv) as (w' & Hr & _ & Ha).
  exists w'. split; [exact Hr|]. assert (abs boot_daemon = Hub ∅ ∅ ∅) as Hb by (vm_compute; reflexivity).
  cbn [st] in Ha. rewrite Hb in Ha. exact Ha.
Defined.

(** ** What follows about all runs *)

Definition used_ports (a : hub_state) : list Z := (map_to_list (h_sessions a)).*2.*2.

Lemma elem_of_used a p : p ∈ used_ports a <-> exists id k, h_sessions a !! id = Some (k, p).
Proof.
  unfold used_ports. rewrite list_elem_of_fmap. split.
  - intros ([k q] & -> & Hin). apply list_elem_of_fmap in Hin as ([id x] & Hx & Hin). apply elem_of_map_to_list in Hin. cbn in Hx. subst x. eauto.
  - intros (id & k & Hs). exists (k, p). split; [done|]. apply list_elem_of_fmap. exists (id, (k, p)). split; [done|]. by apply elem_of_map_to_list.
Qed.

(** Every device has a port of its own, which is marked; ports are those of the table. *)
Record hub_wf (a : hub_state) : Prop := {
  wf_used id k p : h_sessions a !! id = Some (k, p) -> p ∈ h_busy a;
  wf_ports id1 id2 k1 k2 p : h_sessions a !! id1 = Some (k1, p) -> h_sessions a !! id2 = Some (k2, p) -> id1 = id2;
  wf_range p : p ∈ h_busy a -> 0 <= p < max_ports_;
}.

Lemma abs_wf d : daemon_ok d -> hub_wf (abs d).
Proof.
  intros Hd. pose proof (dk_hub _ Hd) as Hi. constructor; cbn.
  - intros id k p (q & s & Hs & _ & _ & <-)%session_table_Some; [|done]. apply elem_of_busy. by apply (dk_ports _ Hd q).
  - intros id1 id2 k1 k2 p (q1 & s1 & Hs1 & <- & _ & Hp1)%session_table_Some (q2 & s2 & Hs2 & <- & _ & Hp2)%session_table_Some; [|done..].
    assert (q1 = q2) as -> by (apply (dk_distinct _ Hd _ _ _ _ Hs1 Hs2); congruence). congruence.
  - intros p Hp%elem_of_busy. apply arr_get_inv in Hp as [Hr _]. by rewrite (dk_vhci _ Hd) in Hr.
Qed.

(** Ports that are marked although no device uses them. *)
Definition leaked (a : hub_state) (p : Z) : Prop := p ∈ h_busy a /\ p ∉ used_ports a.

Lemma leaked_step a a' p : hub_step a a' -> leaked a p -> leaked a' p.
Proof.
  intros Hst [Hb Hu]. unfold leaked. rewrite elem_of_used in Hu |- *.
  destruct Hst as [k _ _|k _|id k q _ _ Hf|q Hf|id k q Hs|id k q Hs|id k q r Hs Hf]; cbn; try done.
  - split; [set_solver|]. intros (id' & k' & [[_ Heq]|[_ Hs]]%lookup_insert_Some); [|eauto]. injection Heq as _ ->. by destruct Hf as (_ & Hf & _).
  - split; [set_solver|done].
  - split; [|intros (id' & k' & [_ Hs']%lookup_delete_Some); eauto].
    apply elem_of_difference. split; [done|]. rewrite elem_of_singleton. intros ->. eauto.
  - split; [done|]. intros (id' & k' & [_ Hs']%lookup_delete_Some). eauto.
  - assert (p ≠ q) as Hpq by (intros ->; eauto). destruct Hf as (_ & Hf & _). split; [set_solver|].
    intros (id' & k' & [[_ Heq]|[_ Hs']]%lookup_insert_Some); [|eauto]. injection Heq as _ ->. set_solver.
Qed.
Lemma leaked_steps a a' p : rtc hub_step a a' -> leaked a p -> leaked a' p.
Proof. induction 1; eauto using leaked_step. Qed.

(** The devices and the leaked ports together fit into the table. *)
Lemma hub_capacity a (L : gset Z) :
  hub_wf a -> (forall p, p ∈ L -> leaked a p) -> (size (h_sessions a) + size L <= 8)%nat.
Proof.
  intros Hwf HL. assert (NoDup (used_ports a)) as Hnd.
  { unfold used_ports. rewrite <- list_fmap_compose. apply NoDup_fmap_2_strong; [|apply NoDup_map_to_list].
    intros [id1 [k1 p1]] [id2 [k2 p2]] H1%elem_of_map_to_list H2%elem_of_map_to_list. cbn. intros ->.
    pose proof (wf_ports _ Hwf _ _ _ _ _ H1 H2) as ->. congruence. }
  assert (size (h_sessions a) = size (list_to_set (used_ports a) : gset Z)) as ->.
  { rewrite size_list_to_set by done. unfold used_ports. by rewrite !length_fmap, length_map_to_list. }
  rewrite <- size_union. 2:{ intros p Hp%elem_of_list_to_set Hl. by destruct (HL p Hl). }
  transitivity (size (list_to_set (seqZ 0 max_ports_) : gset Z)).
  - apply subseteq_size. intros p Hp. apply elem_of_list_to_set, elem_of_seqZ. cbn.
    assert (p ∈ h_busy a) as Hb; [|pose proof (wf_range _ Hwf _ Hb); unfold max_ports_ in *; lia].
    apply elem_of_union in Hp as [Hp|Hp]; [|by apply HL].
    apply elem_of_list_to_set, elem_of_used in Hp as (id & k & Hs). by eapply wf_used.
  - rewrite size_list_to_set by apply NoDup_seqZ. by rewrite length_seqZ.
Qed.

(** Leaked ports stay leaked whatever events arrive. *)
Lemma loop_keeps_leaked E K fuel rounds w (L : gset Z) :
  linux_ok E -> patient K E -> 65536 * (K + 1) <= Z.of_nat fuel -> reattach_ok E -> daemon_inv w ->
  (forall p, p ∈ L -> leaked (abs (st w)) p) ->
  wp (event_loop fuel rounds) E w (fun _ w' => daemon_inv w' /\ (forall p, p ∈ L -> leaked (abs (st w')) p) /\
    (size (h_sessions (abs (st w'))) + size L <= 8)%nat /\ (size L = 8%nat -> sessions_ (d_hub (st w')) = ∅)).
Proof.
  intros Hok Hp Hf Hre Hi HL. eapply wp_mono; [|apply (loop_tracks E Hok Hre (abs (st w)) K fuel rounds w Hp Hf (conj Hi (rtc_refl _ _)))].
  intros [] w' [Hi' Ha]. assert (forall p, p ∈ L -> leaked (abs (st w')) p) as HL' by eauto using leaked_steps.
  pose proof (hub_capacity _ L (abs_wf _ (proj1 Hi')) HL') as Hcap. split_and!; [done..|].
  intros Hsz. assert (h_sessions (abs (st w')) = ∅) as He by (apply map_size_empty_inv; lia).
  apply map_empty. intros id. destruct (sessions_ (d_hub (st w')) !! id) as [p|] eqn:Hid; [|done].
  pose proof (dk_hub _ (proj1 Hi')) as Hh. apply (hi_sess _ Hh) in Hid as (s & Hs & <-).
  destruct (so_sock _ (hi_obj _ Hh _ _ Hs)) as (k & q & Hk & _). pose proof (session_table_heap _ _ _ _ Hh Hs Hk) as Ht.
  change (session_table (d_hub (st w'))) with (h_sessions (abs (st w'))) in Ht. rewrite He in Ht. done.
Qed.

(** C34: every lost connection costs a port for good.  When the connection of a device hangs up, the
    daemon forgets the device but keeps its port marked, and does not tell the kernel to detach it.
    With the ports [L] lost before in the same way, whatever events come after, none of these ports
    is ever given to a device again, so that at most [8 - (size L + 1)] devices can be attached; after
    eight such losses none can, until the daemon is restarted. *)
Theorem lost_connection_costs_port E K fuel rounds w p s fd evts (L : gset Z) :
  linux_ok E -> patient K E -> 65536 * (K + 1) <= Z.of_nat fuel -> reattach_ok E -> daemon_inv w ->
  heap (d_hub (st w)) !! p = Some s -> ds_tcp_sock s = Some fd -> hup HUP_MASK evts = true ->
  (forall q, q ∈ L -> leaked (abs (st w)) q) ->
  let L' := {[ds_vhci_port s]} ∪ L in
  exists w1 w', dispatch fuel (fd, evts) E w = Some (tt, w1) /\ sysfs_log (tr w1) = sysfs_log (tr w) /\
    event_loop fuel rounds E w1 = Some (tt, w') /\ daemon_inv w' /\ size L' = S (size L) /\
    (forall q, q ∈ L' -> leaked (abs (st w')) q) /\
    (size (h_sessions (abs (st w'))) + size L' <= 8)%nat /\ (size L' = 8%nat -> sessions_ (d_hub (st w')) = ∅).
Proof.
  intros Hok Hp Hf Hre Hi Hs Hfd Hup HL L'. pose proof (dk_hub _ (proj1 Hi)) as Hh.
  pose proof (session_table_heap _ _ _ _ Hh Hs Hfd) as Ht.
  destruct (wp_run _ _ _ _ (tcp_eof_wp E fuel w p s fd evts Hi Hs Hfd Hup)) as ([] & w1 & Hr1 & [Hi1 Hst1] & Hlog).
  assert (forall q, q ∈ L' -> leaked (abs (st w1)) q) as HL1.
  { intros q [->%elem_of_singleton|Hq]%elem_of_union.
    - rewrite Hst1. split; [apply elem_of_busy; by apply (dk_ports _ (proj1 Hi) p)|]. rewrite elem_of_used. intros (id & k & Hk).
      cbn [abs h_sessions d_hub] in Hk. rewrite (table_drop _ _ _ Hh Hs) in Hk. apply lookup_delete_Some in Hk as [Hne Hk].
      apply Hne. symmetry. by apply (wf_ports _ (abs_wf _ (proj1 Hi)) id (ds_device_id s) k fd (ds_vhci_port s)).
    - eapply leaked_step; [|by apply HL]. rewrite Hst1. apply drop_step; [apply Hi|done|by left]. }
  destruct (wp_run _ _ _ _ (loop_keeps_leaked E K fuel rounds w1 L' Hok Hp Hf Hre Hi1 HL1)) as ([] & w' & Hr & Hi' & HL' & Hcap & He).
  exists w1, w'. split_and!; [done..| |done|done|done]. unfold L'. rewrite size_union, size_singleton; [done|].
  intros q Hq%elem_of_singleton Hl. subst q. destruct (HL _ Hl) as [_ Hu]. apply Hu, elem_of_used. eauto.
Qed.

(** Seven ports have been lost and the eighth device is attached on the last one; its connection
    breaks, and another device tries. *)
Definition worn_daemon : Daemon := mkDaemon (Vhci 3 (replicate 7 true ++ [false])) 4 (hub_empty 5 6).
Lemma worn_inv : daemon_inv (World worn_daemon boot_trace).
Proof.
  pose proof boot_inv as [Hd Hf]. split; [|exact Hf]. apply (ok_ports _ (Vhci 3 (replicate 7 true ++ [false])) 4 (hub_empty 5 6) Hd); [done|done|].
  intros q Hq. exfalso. apply arr_get_inv in Hq as [_ Hq]. by apply lookup_replicate in Hq as [Hq _].
Qed.
Definition last_sim : sim := Sim (fun fd => if fd =? 7 then mjoin (replicate 2 (event_bytes DEVICE_EVENT_CONNECT)) else [])
  14 (fun _ => []) [] [[(6, EPOLLIN)]; [(7, EPOLLIN)]; [(6, EPOLLIN)]; [(7, EPOLLIN)]].
Lemma last_sim_ok : sim_ok last_sim 0.
Proof.
  constructor; [|done|by split|constructor]. intros fd. cbn [last_sim sim_recv]. destruct (fd =? 7); [|constructor].
  apply (bool_decide_unpack _). by vm_compute.
Qed.
Definition lost_before : gset Z := list_to_set (seqZ 0 7).
Lemma worn_leaked q : q ∈ lost_before -> leaked (abs worn_daemon) q.
Proof.
  intros Hq. apply elem_of_list_to_set, elem_of_seqZ in Hq. split.
  - apply elem_of_busy. unfold arr_get. destruct (Z.leb_spec 0 q); [|lia]. apply lookup_app_l_Some, lookup_replicate. split; [done|lia].
  - intros (id & k & Hs)%elem_of_used. discriminate Hs.
Qed.

Lemma lost_connection_costs_port_witness :
  exists w w1 w', dispatch (Z.to_nat 65536) (7, EPOLLHUP) (sim_env last_sim) w = Some (tt, w1) /\
    event_loop (Z.to_nat 65536) 2 (sim_env last_sim) w1 = Some (tt, w') /\ sessions_ (d_hub (st w')) = ∅.
Proof.
  pose proof (sim_linux_ok _ _ last_sim_ok) as Hok. pose proof (sim_patient _ _ last_sim_ok ltac:(lia)) as Hp.
  destruct (wp_run _ _ _ _ (loop_keeps_leaked (sim_env last_sim) 0 (Z.to_nat 65536) 2 (World worn_daemon boot_trace) lost_before
    Hok Hp ltac:(lia) (sim_reattach _) worn_inv worn_leaked)) as ([] & w & Hr & Hi & HL & _).
  assert ((fun r => (fun s => (ds_tcp_sock s, ds_vhci_port s)) <$> heap (d_hub (st r.2)) !! 1) <$>
    event_loop (Z.to_nat 65536) 2 (sim_env last_sim) (World worn_daemon boot_trace) = Some (Some (Some 7, 7))) as Hheap by (vm_compute; reflexivity).
  rewrite Hr in Hheap. injection Hheap as Hheap. apply fmap_Some in Hheap as (s & Hs & [= Hfd Hport]).
  destruct (lost_connection_costs_port (sim_env last_sim) 0 (Z.to_nat 65536) 2 w 1 s 7 EPOLLHUP lost_before
    Hok Hp ltac:(lia) (sim_reattach _) Hi Hs (eq_sym Hfd) eq_refl HL) as (w1 & w' & Hr1 & _ & Hr' & _ & Hsz & _ & _ & He).
  exists w, w1, w'. split; [exact Hr1|]. split; [exact Hr'|]. apply He. rewrite Hsz. vm_compute. reflexivity.
Defined.

(** From a fresh daemon: a device connects and its connection breaks, eight times; the ninth time it
    is not attached. *)
Definition cycle : list (list (Z * Z)) := [[(6, EPOLLIN)]; [(7, EPOLLIN)]; [(7, EPOLLHUP)]].
Definition wear_sim : sim := Sim (fun fd => if fd =? 7 then mjoin (replicate 9 (event_bytes DEVICE_EVENT_CONNECT)) else [])
  14 (fun _ => []) [] (mjoin (replicate 8 cycle) ++ [[(6, EPOLLIN)]; [(7, EPOLLIN)]]).
Example eight_losses :
  (fun r => (ports_ (d_vhci (st r.2)), map_to_list (sessions_ (d_hub (st r.2))))) <$>
    event_loop 100 26 (sim_env wear_sim) (World boot_daemon boot_trace) = Some (replicate 8 true, []).
Proof. by vm_compute. Qed.
