(* ===== verification/TwoEnds.v ===== *)
(** * The firmware and the daemon together

    What one end sends and the other receives, for the kinds of traffic:
    discovery, device events, device data, log lines and USB/IP replies.  Each end runs in an
    environment of its own; the theorems assume that the bytes one end hands to
    the network arrive at the other, a TCP packet without a gap (EAGAIN) before
    it and between its header and its payload. *)

From stdpp Require Import strings gmap.
From S2P Require Import Prelude Effects Descriptors Rtos Protocol Addr Session UsbipProxy CrashReporter HubClient SessionTasks LogForwarder.
From S2P Require Import Linux SimOs DaemonNet Vhci Passthrough HubServer DaemonMain.

(** The next datagram on the hub's UDP socket is [dgram], from [from]. *)
Definition udp_delivery (E : env) (w : world HubServer) (dgram : bytes) (from : Z) : Prop :=
  let r := E (tr w) (CRecvfrom (udp_sock_ (st w)) MAX_PACKET) in r_ret r = len dgram /\ r_out r = dgram /\ r_aux r = from.

(** The datagram a discovery broadcasts. *)
Definition discover_dgram : bytes := encode (mkHeader CMD_DISCOVER 0 0 0 0).

(** The firmware has found the daemon at [ip]. *)
Definition found {G} (h : hub_t G) (ip : Z) : Prop := hb_found h = true /\ hb_ip h = ip /\ hb_port h = DAEMON_PORT.

(** A network on which the firmware's calls succeed and the answer [dgram] comes from [ip]. *)
Record answers (E : env) (dgram : bytes) (ip : Z) : Prop := {
  an_socket t ty : 0 <= r_ret (E t (CSocket ty));
  an_opt t fd o : 0 <= r_ret (E t (CSetsockopt fd o));
  an_send t fd d i p : 0 <= r_ret (E t (CSendto fd d i p));
  an_recv t fd n : let r := E t (CRecvfrom fd n) in r_ret r = len dgram /\ r_out r = dgram /\ r_aux r = ip;
}.

Lemma discover_once_found {G} `{EventGroup G} E dgram ip (w : world (hub_t G)) :
  answers E dgram ip -> dgram = encode (mkHeader CMD_DISCOVER_REPLY 0 0 0 2) ++ encode (mkDiscoverReply DAEMON_PORT) ->
  wp discover_once E w (fun pc w' => pc = HWaitLost /\ found (st w') ip /\
    exists fd, CSendto fd discover_dgram INADDR_BROADCAST DAEMON_PORT ∈ calls (tr w')).
Proof.
  intros [Hs Ho Hse Hr] Hd. unfold discover_once. apply wp_bind, wp_call. intros r1 ->.
  destruct (Z.ltb_spec (r_ret (E (tr w) (CSocket SOCK_DGRAM))) 0) as [Hlt|_]; [specialize (Hs (tr w) SOCK_DGRAM); lia|].
  set (fd := r_ret (E (tr w) (CSocket SOCK_DGRAM))). apply wp_bind, wp_call. intros r2 Hr2. cbn [st tr] in *.
  match type of Hr2 with _ = E ?t _ => specialize (Ho t fd SO_BROADCAST); rewrite <- Hr2 in Ho end. destruct (Z.ltb_spec (r_ret r2) 0); [lia|].
  apply wp_bind, wp_call. intros r3 _. apply wp_bind, wp_call. intros r4 Hr4. cbn [st tr] in *.
  match type of Hr4 with _ = E ?t (CSendto ?a ?b ?c ?d) => specialize (Hse t a b c d); rewrite <- Hr4 in Hse end. destruct (Z.ltb_spec (r_ret r4) 0); [lia|].
  apply wp_bind, wp_call. intros r5 Hr5. cbn [st tr] in *.
  match type of Hr5 with _ = E ?t (CRecvfrom ?a ?b) => specialize (Hr t a b); rewrite <- Hr5 in Hr end. destruct Hr as (Hret & Hout & Haux).
  apply wp_bind, wp_call. intros r6 _. rewrite Hret, Hout, Haux, Hd. cbn [st tr].
  change (len _ <? _) with false. apply wp_bind. eapply wp_checked; [reflexivity|].
  match goal with |- context [negb ?b] => change (negb b) with false end. cbn iota. apply wp_bind. eapply wp_checked; [reflexivity|].
  repeat wp_step. split; [done|]. split; [done|]. exists fd. rewrite !fmap_app. cbn [fmap list_fmap fst]. set_solver.
Qed.

Lemma onUdpReadable_discover E (w : world HubServer) from :
  udp_delivery E w discover_dgram from ->
  wp onUdpReadable E w (fun _ w' => st w' = st w /\
    calls (tr w') = calls (tr w) ++ [CRecvfrom (udp_sock_ (st w)) MAX_PACKET;
      CSendto (udp_sock_ (st w)) (encode (mkHeader CMD_DISCOVER_REPLY 0 0 0 2) ++ encode (mkDiscoverReply DAEMON_PORT))
        (sin_addr (sender_of from)) (sin_port (sender_of from))]).
Proof.
  intros (Hret & Hout & Haux). unfold onUdpReadable, recvFrom, sendTo. apply wp_bind, wp_get. apply wp_bind, wp_call. intros r ->.
  rewrite Hret, Hout, Haux. change (len discover_dgram <? sizeof Header) with false. apply wp_bind. eapply wp_checked; [reflexivity|].
  match goal with |- context [?b =? CMD_DISCOVER] => change (b =? CMD_DISCOVER) with true end. cbn iota. repeat wp_step. split; [done|].
  rewrite !fmap_app, <- app_assoc. done.
Qed.

(** C20: discovery works end to end.  When the firmware's broadcast reaches the daemon's UDP socket, the
    daemon answers its sender with one datagram; and a firmware that receives that datagram from
    [ip], having sent such a broadcast, records [ip] and the daemon's port and reports the daemon as
    found. *)
Theorem discovery_end_to_end {G} `{EventGroup G} Ed (wd : world HubServer) from :
  udp_delivery Ed wd discover_dgram from ->
  exists wd' reply, onUdpReadable Ed wd = Some (tt, wd') /\ st wd' = st wd /\
    last (calls (tr wd')) = Some (CSendto (udp_sock_ (st wd)) reply (from mod 2 ^ 32) (from / 2 ^ 32)) /\
    forall Ef ip (wf : world (hub_t G)), answers Ef reply ip ->
      exists wf', discover_once Ef wf = Some (HWaitLost, wf') /\ found (st wf') ip /\
        exists fd, CSendto fd discover_dgram INADDR_BROADCAST DAEMON_PORT ∈ calls (tr wf').
Proof.
  intros Hu. destruct (wp_run _ _ _ _ (onUdpReadable_discover Ed wd from Hu)) as ([] & wd' & Hr & Hst & Hc).
  eexists wd', _. split_and!; [done..| |].
  - rewrite Hc. change ([?a; ?b]) with ([a] ++ [b]). rewrite app_assoc, last_snoc. done.
  - intros Ef ip wf Ha. destruct (wp_run _ _ _ _ (discover_once_found Ef _ ip wf Ha eq_refl)) as (pc & wf' & Hrf & -> & Hf & Hfd).
    by exists wf'.
Qed.

(** A daemon that receives the broadcast from port 5000 of 10.0.0.2, and a firmware that gets its answer. *)
Definition disc_sim : sim := Sim (fun _ => []) 1 (fun _ => []) [(discover_dgram, 5000 * 2 ^ 32 + 0x0200000A)] [].
Definition disc_env (reply : bytes) : env := fun _ c =>
  match c with CSocket _ => Reply 3 [] 0 [] | CRecvfrom _ _ => Reply (len reply) reply 0x0100000A [] | _ => Reply 0 [] 0 [] end.
Lemma disc_env_answers reply : answers (disc_env reply) reply 0x0100000A.
Proof. by constructor. Qed.

Lemma discovery_end_to_end_witness :
  exists wd' reply wf', onUdpReadable (sim_env disc_sim) (World (hub_empty 5 6) []) = Some (tt, wd') /\
    last (calls (tr wd')) = Some (CSendto 5 reply 0x0200000A 5000) /\
    discover_once (disc_env reply) (World (hub0 (G := Z)) []) = Some (HWaitLost, wf') /\ found (st wf') 0x0100000A.
Proof.
  destruct (discovery_end_to_end (G := Z) (sim_env disc_sim) (World (hub_empty 5 6) []) (5000 * 2 ^ 32 + 0x0200000A))
    as (wd' & reply & Hr & _ & Hl & Hf); [vm_compute; split; [|split]; reflexivity|].
  destruct (Hf (disc_env reply) 0x0100000A (World hub0 []) (disc_env_answers reply)) as (wf' & Hrf & Hfound & _).
  exists wd', reply, wf'. split; [exact Hr|]. split; [exact Hl|]. split; [exact Hrf|exact Hfound].
Defined.

(** ** Device events *)

(** The daemon serves the device of the firmware session [s] on socket [k] and port [p], with the
    socketpair end [a] at the kernel. *)
Definition serves (d : Daemon) (s : session_t) (k p a : Z) : Prop :=
  exists q ds, sessions_ (d_hub d) !! cfg_device_id (s_cfg s) = Some q /\ heap (d_hub d) !! q = Some ds /\
    ds_tcp_sock ds = Some k /\ ds_vhci_port ds = p /\ ds_kernel_fd ds = a /\ tcp_fd_map_ (d_hub d) !! k = Some q /\
    vhci_fd_map_ (d_hub d) !! ds_vhci_fd ds = Some q /\ arr_get (ports_ (d_vhci d)) p = Some true.

(** A connection the hub reads packets from: accepted and not yet announced, or a session's. *)
Definition known_socket (h : HubServer) (k : Z) : Prop :=
  pending_tcp_socks_ h !! k = Some k \/ is_Some (tcp_fd_map_ h !! k).

Definition event_header (s : session_t) : Header :=
  mkHeader CMD_DEVICE_EVENT (cfg_device_id (s_cfg s)) 0 (s_seq s) (sizeof DeviceEventPayload).
Definition event_payload (s : session_t) (event : Z) : DeviceEventPayload :=
  let c := s_cfg s in
  mkDeviceEvent (cfg_device_id c) event (cfg_speed c) (cfg_usb_class c) (cfg_subclass c) (cfg_protocol c)
    (u16 (DEVICE_BASE_PORT + cfg_device_id c)).

Lemma event_packet_eq s event : event_packet s event = encode (event_header s) ++ encode (event_payload s event).
Proof. done. Qed.
Lemma event_header_wf s : cfg_ok (s_cfg s) -> is_u8 (s_seq s) -> header_wf (event_header s).
Proof. intros (Hd & _) Hs. unfold header_wf, event_header. cbn. unfold CMD_DEVICE_EVENT. repeat split; solve_width. Qed.
Lemma event_payload_wf s event : cfg_ok (s_cfg s) -> is_u8 event -> device_event_wf (event_payload s event).
Proof. intros (? & ? & ? & ? & ?) ?. unfold device_event_wf, event_payload. cbn. split_and!; auto with hub. Qed.

Section Daemon.
Context (E : env) (K : Z) (Hok : linux_ok E) (Hp : patient K E) (fuel : nat) (Hfuel : 65536 * (K + 1) <= Z.of_nat fuel).

Lemma readTcpPacket_quiet fd : only_calls no_write (readTcpPacket fuel fd).
Proof.
  unfold readTcpPacket, read_packet, socket_of, deref, recvExactly. repeat (only_step || apply recv_loop_calls); done.
Qed.

(** A packet that arrives on a known socket is handed to its handler, the state unchanged. *)
Lemma onTcpReadable_packet k hdr payload tail (w : world Daemon) (Q : unit -> world Daemon -> Prop) :
  daemon_inv w -> known_socket (d_hub (st w)) k ->
  header_wf hdr -> len payload = h_payload_len hdr -> delivers E k (tr w) (encode hdr ++ payload ++ tail) [0; 6]%nat ->
  (forall d, let t := tr w ++ d in daemon_inv (World (st w) t) -> Forall no_write (calls d) ->
    received k t = received k (tr w) ++ encode hdr ++ payload ->
    wp (let cmd := h_cmd_type hdr in
        if cmd =? CMD_DEVICE_EVENT then
          if len payload <? sizeof DeviceEventPayload then mret tt else dep ← checked (decode payload); device_event k dep
        else if cmd =? CMD_RAW_DATA then
          h ← zoom d_hub_l get;
          match sessions_ h !! h_device_id hdr with
          | None => mret tt
          | Some p => zoom d_hub_l (with_handler p (onDeviceData fuel payload)) ;; mret tt
          end
        else if cmd =? CMD_LOG then log_packet_line payload else mret tt) E (World (st w) t) Q) ->
  wp (onTcpReadable fuel k) E w Q.
Proof.
  intros Hi Hin Hw Hlen Hd HQ. unfold onTcpReadable. apply wp_bind, wp_zoom. change (hub_l (S := Daemon)) with d_hub_l.
  destruct w as [[v e h] t]. cbn [st tr l_get l_put d_hub_l d_hub d_vhci d_epfd] in *.
  eapply wp_mono; [|apply (wp_calls no_write), (readTcpPacket_delivers E K Hok Hp fuel Hfuel k hdr payload tail (World h t));
    [apply readTcpPacket_quiet|apply (dk_hub _ (proj1 Hi))|done..]].
  intros pkt [h' t'] [(-> & Hst & Hio & Hrec) (d & Ht' & Hquiet)]. cbn [st tr] in *. subst h' t'. apply HQ; [|done..].
  apply (inv_io (World _ t)); [done|]. eapply io_mono; [|exact Hio]. unfold daemon_fds. cbn [st d_hub]. set_solver.
Qed.
End Daemon.

Lemma connect_packet_wp E K fuel (w : world Daemon) s tail k p :
  linux_ok E -> patient K E -> 65536 * (K + 1) <= Z.of_nat fuel ->
  (forall d, Forall no_write (calls d) -> plug_works E (tr w ++ d)) -> daemon_inv w ->
  cfg_ok (s_cfg s) -> is_u8 (s_seq s) -> delivers E k (tr w) (event_packet s DEVICE_EVENT_CONNECT ++ tail) [0; 6]%nat ->
  pending_tcp_socks_ (d_hub (st w)) !! k = Some k -> k < 65536 ->
  sessions_ (d_hub (st w)) !! cfg_device_id (s_cfg s) = None -> lowest_free (ports_ (d_vhci (st w))) p ->
  wp (onTcpReadable fuel k) E w (fun _ w' => daemon_inv w' /\ exists a, serves (st w') s k p a /\
    sysfs_log (tr w') = sysfs_log (tr w) ++ [(SYSFS_ATTACH, attach_line p a (usb_devid (cfg_device_id (s_cfg s))) (cfg_speed (s_cfg s)))]).
Proof.
  intros Hok Hp Hf Hre Hi Hc Hq Hd Hpe Hk Hid Hlow.
  destruct (hi_pending _ (dk_hub _ (proj1 Hi)) _ _ Hpe) as [_ Hk0].
  pose proof (event_payload_wf s DEVICE_EVENT_CONNECT Hc ltac:(done)) as Hpw.
  rewrite event_packet_eq, <- app_assoc in Hd.
  apply (onTcpReadable_packet E K Hok Hp fuel Hf k (event_header s) (encode (event_payload s DEVICE_EVENT_CONNECT)) tail w);
    [done|by left|by apply event_header_wf|done|exact Hd|].
  intros d t Hi1 Hlog1 _. specialize (Hre d Hlog1). fold t in Hre.
  apply (sysfs_log_quiet (tr w)) in Hlog1. fold t in Hlog1. clearbody t. cbn [h_cmd_type event_header].
  change (CMD_DEVICE_EVENT =? CMD_DEVICE_EVENT) with true. cbn iota.
  rewrite encode_size. change (sizeof DeviceEventPayload <? sizeof DeviceEventPayload) with false. cbn iota.
  apply wp_bind. eapply wp_checked; [rewrite <- (app_nil_r (encode _)); by apply decode_encode|].
  unfold device_event. change (de_event _ =? DEVICE_EVENT_CONNECT) with true. cbn iota.
  apply wp_bind. unfold findByDeviceId. apply (wp_find E (fun h => sessions_ h !! de_device_id (event_payload s DEVICE_EVENT_CONNECT)) (World (st w) t)).
  cbn [st de_device_id event_payload]. rewrite Hid. apply wp_bind, wp_ret. apply wp_bind, wp_zoom, wp_get.
  cbn [st tr l_get l_put hub_l main_callbacks d_hub_l]. change (hub_l (S := Daemon)) with d_hub_l. cbn [st tr l_get l_put d_hub_l].
  rewrite Hpe. change (on_connect_ (S := Daemon)) with connect_cb.
  replace (mkDaemon (d_vhci (st w)) (d_epfd (st w)) (d_hub (st w))) with (st w) by (by destruct (st w)).
  eapply wp_mono; [|by apply (connect_wp E Hok)]. intros [] w' [Hi' Hout]. split; [done|]. cbn [st] in Hout.
  destruct (connect_success E _ _ k (World (st w) t) _ p (proj1 Hi) Hre Hpe Hk Hlow Hout) as (a & b & Hlog & Hst). cbn [tr] in Hlog.
  exists a. split; [|by rewrite Hlog, Hlog1]. rewrite Hst.
  exists (next_ptr (d_hub (st w))), (new_session (cfg_device_id (s_cfg s)) p b a (Sockaddr 0 (htons k)) k).
  cbn -[Z.to_nat mark_port ports_]. rewrite !lookup_insert_eq, mark_port_get by done. by split_and!.
Qed.

(** C7: plugging in works end to end.  On a network where its calls succeed, and with no event connection
    open, the firmware's [send_device_event] connects to the daemon's address and sends one packet for
    CONNECT.  When those bytes are the first to arrive on a socket the daemon has accepted, in any
    pieces as long as the socket does not run dry (EAGAIN) before the packet's first byte or between
    its header and its payload, and the kernel makes a socketpair and takes the attach line, the
    daemon attaches the device: if it serves no device of that id yet, it serves this one on that
    socket and on the lowest free port; the kernel is told that port, the device's number and the
    speed the firmware's configuration has, and nothing else; and the daemon's tables stay
    consistent. *)
Theorem connect_end_to_end {D} Ef sock ev (n : node D) tf :
  network_up Ef sock ev -> 0 <= ev -> n_event_sock n = -1 -> n_event_connected n = false ->
  cfg_ok (s_cfg (n_sess n)) -> is_u8 (s_seq (n_sess n)) ->
  exists wf' pkt, send_device_event DEVICE_EVENT_CONNECT Ef (World n tf) = Some (tt, wf') /\
    calls (tr wf') = calls tf ++ [CSocket SOCK_STREAM; CConnect ev (s_daemon_ip (n_sess n)) DAEMON_PORT; CSend ev pkt] /\
    forall E K fuel w tail k p,
      let cfg := s_cfg (n_sess n) in
      linux_ok E -> patient K E -> 65536 * (K + 1) <= Z.of_nat fuel -> daemon_inv w ->
      (forall d, Forall no_write (calls d) -> plug_works E (tr w ++ d)) ->
      delivers E k (tr w) (pkt ++ tail) [0; 6]%nat ->
      pending_tcp_socks_ (d_hub (st w)) !! k = Some k -> k < 65536 ->
      sessions_ (d_hub (st w)) !! cfg_device_id cfg = None -> lowest_free (ports_ (d_vhci (st w))) p ->
      exists w', onTcpReadable fuel k E w = Some (tt, w') /\ daemon_inv w' /\
        exists a, serves (st w') (n_sess n) k p a /\
          sysfs_log (tr w') = sysfs_log (tr w) ++ [(SYSFS_ATTACH, attach_line p a (usb_devid (cfg_device_id cfg)) (cfg_speed cfg))].
Proof.
  intros Hnet Hev Hes Hec Hc Hq. destruct (event_run Ef sock ev DEVICE_EVENT_CONNECT n tf Hnet Hev Hes Hec) as (tf' & Hrun & Hcalls).
  eexists _, _. split; [exact Hrun|]. split; [exact Hcalls|]. intros E K fuel w tail k p cfg Hok Hp Hf Hi Hre Hd Hpe Hk Hid Hlow.
  destruct (wp_run _ _ _ _ (connect_packet_wp E K fuel w (n_sess n) tail k p Hok Hp Hf Hre Hi Hc Hq Hd Hpe Hk Hid Hlow)) as ([] & w' & Hr & ?).
  by exists w'.
Qed.

(** The CONNECT of the example session arrives on the accepted socket. *)
Definition plugged_sim (pkt : bytes) : sim := Sim (fun fd => if fd =? 7 then pkt else []) 4 (fun _ => []) [] [].
Lemma plugged_sim_ok pkt : bytes_ok pkt -> sim_ok (plugged_sim pkt) 0.
Proof. intros Hb. constructor; [|done|by split|constructor]. intros fd. cbn. destruct (fd =? 7); [done|constructor]. Qed.

Lemma connect_end_to_end_witness :
  exists wf' pkt, send_device_event DEVICE_EVENT_CONNECT up_env (World demo_node []) = Some (tt, wf') /\
    last (calls (tr wf')) = Some (CSend 4 pkt) /\
    exists w', onTcpReadable (Z.to_nat 65536) 7 (sim_env (plugged_sim pkt)) (World accepted accepted_trace) = Some (tt, w') /\
      exists a, serves (st w') demo_session 7 0 a.
Proof.
  destruct (connect_end_to_end up_env 3 4 demo_node []) as (wf' & pkt & Hrun & Hcalls & Hd);
    [by repeat split|done|reflexivity|reflexivity|split_and!; vm_compute; split; discriminate || reflexivity
    |vm_compute; split; discriminate || reflexivity|].
  assert (bytes_ok pkt) as Hb.
  { vm_compute in Hrun. injection Hrun as <-. vm_compute in Hcalls. injection Hcalls as <-.
    repeat (apply Forall_cons_2; [by vm_compute|]). constructor. }
  exists wf', pkt. split; [exact Hrun|]. split; [by rewrite Hcalls|].
  destruct (Hd (sim_env (plugged_sim pkt)) 0 (Z.to_nat 65536) (World accepted accepted_trace) [] 7 0) as (w' & Hr & _ & a & Hs & _).
  - by apply (sim_linux_ok _ 0), plugged_sim_ok.
  - apply (sim_patient _ 0); [by apply plugged_sim_ok|lia].
  - lia.
  - exact accepted_inv.
  - intros d _. apply sim_plug.
  - rewrite app_nil_r. apply (sim_delivers (plugged_sim pkt) 7 accepted_trace); [reflexivity|vm_compute; reflexivity].
  - vm_compute. reflexivity.
  - lia.
  - vm_compute. reflexivity.
  - exact first_port_free.
  - exists w'. split; [exact Hr|]. exists a. exact Hs.
Defined.

(** ** Device data *)

Lemma write_loop_calls rounds fd data from : only_calls (fun c => exists d, c = CWrite fd d) (write_loop rounds fd data from).
Proof. revert from. induction rounds as [|n IH]; intros from; cbn [write_loop]; repeat (only_step || (apply only_call; eauto)). Qed.
Lemma onDeviceData_calls fuel data : only_calls (fun c => exists fd d, c = CWrite fd d) (onDeviceData fuel data).
Proof.
  apply only_bind; [apply only_get|]. intros h. eapply only_mono; [|apply write_loop_calls]. intros c [d ->]. eauto.
Qed.
Lemma received_writes k t d : Forall (fun c => exists fd b, c = CWrite fd b) (calls d) -> received k (t ++ d) = received k t.
Proof.
  intros Hd. rewrite received_app. induction d as [|[c r] d IH]; [by rewrite app_nil_r|]. apply Forall_cons_1 in Hd as [(fd & b & Hc) Hd].
  cbn in Hc. subst c. by apply IH.
Qed.

Section Data.
Context (E : env) (K : Z) (Hok : linux_ok E) (Hp : patient K E) (fuel : nat) (Hfuel : 65536 * (K + 1) <= Z.of_nat fuel).

(** The session's handler writes the data; the daemon's state does not change. *)
Lemma handler_data_wp p s data (w : world Daemon) :
  daemon_inv w -> heap (d_hub (st w)) !! p = Some s -> len data <= 65535 ->
  wp (zoom d_hub_l (with_handler p (onDeviceData fuel data))) E w (fun _ w' => st w' = st w /\ daemon_inv w' /\
    (forall k, received k (tr w') = received k (tr w)) /\ exists n,
    written (ds_vhci_fd s) (tr w') = written (ds_vhci_fd s) (tr w) ++ take n data /\
    (write_works E (ds_vhci_fd s) -> take n data = data)).
Proof.
  intros Hi Hs Hl. destruct (so_sock _ (hi_obj _ (dk_hub _ (proj1 Hi)) _ _ Hs)) as (fd & q & Hfd & Hph).
  set (ph := Passthrough _ _ _ q) in Hph.
  pose proof (onDeviceData_wp E K Hok Hp fuel Hfuel data (World ph (tr w)) Hl) as H1.
  pose proof (onDeviceData_written E K Hok Hp fuel Hfuel data (World ph (tr w)) Hl) as H2.
  pose proof (onDeviceData_calls fuel data E (World ph (tr w))) as H3.
  apply wp_zoom. unfold wp, with_handler in *. cbn [st tr l_get d_hub_l]. rewrite Hs. cbn. rewrite Hph. cbn.
  destruct (onDeviceData fuel data E _) as [[b v]|]; [|done]. destruct H1 as (Hst & Hio & _). destruct (H3 _ _ eq_refl) as (d & Htr & Hd).
  cbn [st tr] in *. rewrite Hst.
  assert (set_heap (<[p := set_handler ph s]> (heap (d_hub (st w)))) (d_hub (st w)) = d_hub (st w)) as Hsame.
  { rewrite insert_id; [by destruct (d_hub (st w))|]. rewrite Hs. unfold set_handler. destruct s. cbn in *. by subst. }
  rewrite Hsame. replace (mkDaemon _ _ _) with (st w) by (by destruct (st w)).
  split; [done|]. split; [|split; [|exact H2]].
  - apply (inv_io w); [done|]. eapply io_mono; [|exact Hio]. intros x ->%list_elem_of_singleton.
    eapply fds_session; [exact Hs|]. apply session_fd_vhci.
  - intros k. rewrite Htr. by apply received_writes.
Qed.

(** A RAW_DATA packet on a known socket: it is taken from the stream and its payload goes to the
    socketpair of its session. *)
Lemma raw_data_wp k hdr payload tail p s (w : world Daemon) :
  daemon_inv w -> known_socket (d_hub (st w)) k ->
  header_wf hdr -> h_cmd_type hdr = CMD_RAW_DATA -> len payload = h_payload_len hdr ->
  delivers E k (tr w) (encode hdr ++ payload ++ tail) [0; 6]%nat ->
  sessions_ (d_hub (st w)) !! h_device_id hdr = Some p -> heap (d_hub (st w)) !! p = Some s ->
  wp (onTcpReadable fuel k) E w (fun _ w' => st w' = st w /\ daemon_inv w' /\
    received k (tr w') = received k (tr w) ++ encode hdr ++ payload /\ exists n,
    written (ds_vhci_fd s) (tr w') = written (ds_vhci_fd s) (tr w) ++ take n payload /\
    (write_works E (ds_vhci_fd s) -> take n payload = payload)).
Proof.
  intros Hi Hin Hw Hcmd Hlen Hd Hid Hs.
  apply (onTcpReadable_packet E K Hok Hp fuel Hfuel k hdr payload tail w); [done..|]. intros d t Hi1 Hquiet Hrec. rewrite Hcmd.
  change (CMD_RAW_DATA =? CMD_DEVICE_EVENT) with false. change (CMD_RAW_DATA =? CMD_RAW_DATA) with true. cbn iota zeta.
  apply wp_bind, wp_zoom, wp_get. cbn [st tr l_get l_put d_hub_l]. rewrite Hid. apply wp_bind.
  replace (mkDaemon (d_vhci (st w)) (d_epfd (st w)) (d_hub (st w))) with (st w) by (by destruct (st w)).
  pose proof Hw as (_ & _ & _ & _ & Hpl). unfold is_u16 in Hpl. change (2 ^ 16) with 65536 in Hpl.
  eapply wp_mono; [|apply (handler_data_wp p s payload (World (st w) t)); [done..|lia]].
  intros b w' (Hst & Hi' & Hr & n & Hwn & Hall). cbn [st tr] in *. apply wp_ret. split_and!; [done..|by rewrite Hr, Hrec|].
  exists n. split; [|done]. rewrite Hwn. unfold t. by rewrite written_quiet.
Qed.
End Data.

(** Data of the device reaches the kernel.  When a RAW_DATA packet for a session arrives on a socket the
    daemon knows, in any pieces as long as the socket does not run dry before the packet or between
    its header and its payload, the daemon writes its payload, and nothing else, to that
    session's socketpair: in order, from the start, and all of it unless a write fails. *)
Theorem device_data_to_kernel E K fuel w hdr payload tail k p s :
  linux_ok E -> patient K E -> 65536 * (K + 1) <= Z.of_nat fuel -> daemon_inv w ->
  known_socket (d_hub (st w)) k ->
  header_wf hdr -> h_cmd_type hdr = CMD_RAW_DATA -> len payload = h_payload_len hdr ->
  delivers E k (tr w) (encode hdr ++ payload ++ tail) [0; 6]%nat ->
  sessions_ (d_hub (st w)) !! h_device_id hdr = Some p -> heap (d_hub (st w)) !! p = Some s ->
  exists w' n, onTcpReadable fuel k E w = Some (tt, w') /\ daemon_inv w' /\
    written (ds_vhci_fd s) (tr w') = written (ds_vhci_fd s) (tr w) ++ take n payload /\
    (write_works E (ds_vhci_fd s) -> take n payload = payload).
Proof.
  intros Hok Hp Hf Hi Hin Hw Hcmd Hlen Hd Hid Hs.
  destruct (wp_run _ _ _ _ (raw_data_wp E K Hok Hp fuel Hf k hdr payload tail p s w Hi Hin Hw Hcmd Hlen Hd Hid Hs))
    as ([] & w' & Hr & _ & Hi' & _ & n & ?). by exists w', n.
Qed.

(** Three bytes from the device of the session on descriptor 7. *)
Definition raw_hdr : Header := mkHeader CMD_RAW_DATA 0 0 0 3.
Definition raw_sim : sim := Sim (fun fd => if fd =? 7 then encode raw_hdr ++ [1; 2; 3] else []) 4 (fun _ => []) [] [].
Lemma raw_sim_ok : sim_ok raw_sim 0.
Proof.
  constructor; [|done|by split|constructor]. intros fd. cbn [raw_sim sim_recv]. destruct (fd =? 7); [|constructor].
  repeat (apply Forall_cons_2; [by vm_compute|]). constructor.
Qed.
(** The daemon after the device has been attached. *)
Lemma raw_attached :
  exists w s, daemon_inv w /\ heap (d_hub (st w)) !! 1 = Some s /\ sessions_ (d_hub (st w)) !! 0 = Some 1 /\
    tcp_fd_map_ (d_hub (st w)) !! 7 = Some 1 /\ received 7 (tr w) = [].
Proof.
  destruct (wp_run _ _ _ _ (connect_wp (sim_env raw_sim) (sim_linux_ok _ _ raw_sim_ok) 0 USB_SPEED_FULL (Sockaddr 0 (htons 7))
    (World accepted accepted_trace) accepted_inv ltac:(vm_compute; reflexivity))) as ([] & w & Hr & Hi & Hout).
  assert ((fun r => received 7 (tr r.2)) <$> connect_cb 0 USB_SPEED_FULL (Sockaddr 0 (htons 7)) (sim_env raw_sim) (World accepted accepted_trace) = Some []) as Hrec
    by (vm_compute; reflexivity).
  rewrite Hr in Hrec. injection Hrec as Hrec.
  destruct (connect_success (sim_env raw_sim) 0 USB_SPEED_FULL 7 _ w 0 (proj1 accepted_inv) (sim_plug _ _)) as (a & b & _ & Hst);
    [reflexivity|lia|exact first_port_free|exact Hout|].
  exists w, (new_session 0 0 b a (Sockaddr 0 (htons 7)) 7). split; [done|]. rewrite Hst. cbn -[Z.to_nat]. by rewrite !lookup_insert_eq.
Qed.

Lemma device_data_to_kernel_witness :
  exists w w' s, onTcpReadable (Z.to_nat 65536) 7 (sim_env raw_sim) w = Some (tt, w') /\ heap (d_hub (st w)) !! 1 = Some s /\
    written (ds_vhci_fd s) (tr w') = written (ds_vhci_fd s) (tr w) ++ [1; 2; 3].
Proof.
  destruct raw_attached as (w & s & Hi & Hs & Hid & Ht & Hrec).
  destruct (device_data_to_kernel (sim_env raw_sim) 0 (Z.to_nat 65536) w raw_hdr [1; 2; 3] [] 7 1 s
    (sim_linux_ok _ _ raw_sim_ok) (sim_patient _ _ raw_sim_ok ltac:(lia)) ltac:(lia) Hi) as (w' & n & Hr & _ & Hw & Hall).
  - right. exists 1. exact Ht.
  - repeat split; vm_compute; discriminate || reflexivity.
  - reflexivity.
  - reflexivity.
  - exact (sim_delivers raw_sim 7 (tr w) eq_refl Hrec).
  - exact Hid.
  - exact Hs.
  - exists w, w', s. split; [exact Hr|]. split; [exact Hs|]. rewrite Hw. rewrite Hall; [reflexivity|]. intros t d _. left. cbn. lia.
Defined.

(** ** Log lines *)

(** The line the daemon prints for an entry of the firmware's log. *)
Definition printed (time : bytes) (e : log_entry_t) : call :=
  CFprintf (level_tag (e_level e)).1 (time ++ str " " ++ (level_tag (e_level e)).2 ++ (str "[ESP TCP] " ++ c_str (rtrim (e_msg e))) ++ [10]).

Lemma log_packet_wp E K fuel (w : world Daemon) e tail k :
  linux_ok E -> patient K E -> 65536 * (K + 1) <= Z.of_nat fuel -> daemon_inv w ->
  known_socket (d_hub (st w)) k -> entry_ok e -> is_u8 (e_level e) ->
  delivers E k (tr w) (log_packet e ++ tail) [0; 6]%nat ->
  wp (onTcpReadable fuel k) E w (fun _ w' => st w' = st w /\ daemon_inv w' /\ exists time, last (calls (tr w')) = Some (printed time e)).
Proof.
  intros Hok Hp Hf Hi Hin [Hmax Hlen] Hlv Hd. unfold log_packet in Hd. rewrite <- app_assoc in Hd. unfold LOG_MSG_MAX in Hmax.
  eapply (onTcpReadable_packet E K Hok Hp fuel Hf k _ (encode (mkLogPayload (e_level e)) ++ e_msg e) tail w); [done|done| | |exact Hd|].
  - unfold header_wf, CMD_LOG. cbn. repeat split; solve_width.
  - rewrite length_app, Nat2Z.inj_add, encode_size. cbn. lia.
  - intros d0 t Hi1 _ _. clearbody t. cbn [h_cmd_type]. change (CMD_LOG =? CMD_DEVICE_EVENT) with false. change (CMD_LOG =? CMD_RAW_DATA) with false.
    change (CMD_LOG =? CMD_LOG) with true. cbn iota. eapply wp_mono; [|by apply (log_packet_line_wp E Hok)].
    intros [] [d' t'] [Hst (r1 & r2 & time & Ht)]. cbn [st tr] in *. subst d' t'. split; [done|]. split.
    + apply (inv_io (World (st w) t)); [done|]. eexists. split; [done|]. repeat (apply Forall_cons_2; [by split|]). constructor.
    + exists time. rewrite fmap_app. change ([?a; ?b]) with ([a] ++ [b]). rewrite fmap_app, app_assoc. apply last_snoc.
Qed.

(** C19: a log line goes from the firmware's queue to the daemon's console.  The forwarder, connected,
    takes the oldest entry off its queue, frees it and sends one packet for it.  When those bytes are
    the next to arrive on a socket the daemon reads packets from (one it has accepted or gave to a
    session), in any pieces as long as the socket does not run dry (EAGAIN) before the packet's first
    byte or between its header and its payload, and the daemon is told that the socket is readable,
    then it prints one line at the entry's level with the entry's text, less what follows a NUL and
    trailing line ends, and its state does not change. *)
Theorem log_end_to_end {Q} `{Queue Q} Ef e es found ip port q (wf : world (log_t Q)) :
  log_inv LRecv wf -> lg_queue (st wf) = Some q -> q_items q = e :: es -> lg_connected (st wf) = true -> is_u8 (e_level e) ->
  exists wf' q' pkt rest,
    run_log [OSender found ip port; OSender found ip port] LRecv Ef wf = Some (LIdle, wf') /\ log_inv LIdle wf' /\
    lg_queue (st wf') = Some q' /\ q_items q' = es /\
    calls (tr wf') = calls (tr wf) ++ [CFree; CSend (lg_sock (st wf)) pkt] ++ rest /\
    (rest = [] \/ rest = [CClose (lg_sock (st wf)); CDelay (lg_delay (st wf))]) /\
    forall E K fuel w tail k,
      linux_ok E -> patient K E -> 65536 * (K + 1) <= Z.of_nat fuel -> daemon_inv w -> known_socket (d_hub (st w)) k ->
      delivers E k (tr w) (pkt ++ tail) [0; 6]%nat ->
      exists w' time, onTcpReadable fuel k E w = Some (tt, w') /\ st w' = st w /\ daemon_inv w' /\
        last (calls (tr w')) = Some (printed time e).
Proof.
  intros Hi Hq Hit Hc Hlv.
  destruct (log_entry_forwarded Ef e es found ip port q wf Hi Hq Hit Hc) as (wf' & q' & rest & Hrun & Hi' & Hq' & Hes & He & Hcalls & Hrest).
  exists wf', q', (log_packet e), rest. split_and!; [done..|]. intros E K fuel w tail k Hok Hp Hf Hiw Hin Hd.
  destruct (wp_run _ _ _ _ (log_packet_wp E K fuel w e tail k Hok Hp Hf Hiw Hin He Hlv Hd)) as ([] & w' & Hr & ? & ? & time & ?). by exists w', time.
Qed.

(** A connected forwarder with one entry queued. *)
Definition demo_entry : log_entry_t := LogEntry LOG_LEVEL_WARN 4 [72; 105; 33; 10].
Definition queued : world (log_t list_queue) :=
  World (Log 6 true (Some (ListQueue LOG_QUEUE_LEN [demo_entry])) crash0 500)
    [(CSocket SOCK_STREAM, Reply 6 [] 0 []); (CMalloc 260, Reply 1 [] 0 [])].
Lemma queued_inv : log_inv LRecv queued.
Proof.
  constructor; cbn; try done.
  - eexists. split_and!; [done| |done|done]. apply Forall_singleton. by vm_compute.
  - by exists [6].
  - apply list_elem_of_here.
Qed.
Definition entry_sim (pkt : bytes) : sim := Sim (fun fd => if fd =? 7 then pkt else []) 4 (fun _ => []) [] [].
Lemma entry_sim_ok pkt : bytes_ok pkt -> sim_ok (entry_sim pkt) 0.
Proof. intros Hb. constructor; [|done|by split|constructor]. intros fd. cbn. destruct (fd =? 7); [done|constructor]. Qed.

Lemma log_end_to_end_witness :
  exists wf' pkt w' time, run_log [OSender true 1 2; OSender true 1 2] LRecv (log_env []) queued = Some (LIdle, wf') /\
    onTcpReadable (Z.to_nat 65536) 7 (sim_env (entry_sim pkt)) (World accepted accepted_trace) = Some (tt, w') /\
    last (calls (tr w')) = Some (printed time demo_entry).
Proof.
  destruct (log_end_to_end (log_env []) demo_entry [] true 1 2 _ queued queued_inv eq_refl eq_refl eq_refl ltac:(by split))
    as (wf' & q' & pkt & rest & Hrun & _ & _ & _ & Hcalls & _ & Hd).
  assert (bytes_ok pkt) as Hb.
  { vm_compute in Hrun. injection Hrun as <-. vm_compute in Hcalls. injection Hcalls as <- _.
    repeat (apply Forall_cons_2; [by vm_compute|]). constructor. }
  destruct (Hd (sim_env (entry_sim pkt)) 0 (Z.to_nat 65536) (World accepted accepted_trace) [] 7) as (w' & time & Hr & _ & _ & Hl).
  - by apply (sim_linux_ok _ 0), entry_sim_ok.
  - apply (sim_patient _ 0); [by apply entry_sim_ok|lia].
  - lia.
  - exact accepted_inv.
  - left. vm_compute. reflexivity.
  - rewrite app_nil_r. apply (sim_delivers (entry_sim pkt) 7 accepted_trace); [reflexivity|vm_compute; reflexivity].
  - exists wf', pkt, w', time. split; [exact Hrun|]. split; [exact Hr|exact Hl].
Defined.

(** ** USB/IP replies *)

(** The only call the daemon makes for a datagram is to receive it. *)
Definition ignored (w w' : world HubServer) : Prop :=
  st w' = st w /\ calls (tr w') = calls (tr w) ++ [CRecvfrom (udp_sock_ (st w)) MAX_PACKET].

Lemma not_discover_ignored E (w : world HubServer) dgram from h :
  decode dgram = Some h -> h_cmd_type h <> CMD_DISCOVER -> udp_delivery E w dgram from ->
  exists w', onUdpReadable E w = Some (tt, w') /\ ignored w w'.
Proof.
  intros Hdec Hcmd (Hret & Hout & _).
  assert (wp onUdpReadable E w (fun _ w' => ignored w w')) as Hwp.
  { unfold onUdpReadable, recvFrom. apply wp_bind, wp_get. apply wp_bind, wp_call. intros r ->. rewrite Hret, Hout.
    assert (ignored w (World (st w) (tr w ++ [(CRecvfrom (udp_sock_ (st w)) MAX_PACKET, E (tr w) (CRecvfrom (udp_sock_ (st w)) MAX_PACKET))]))) as Hig.
    { split; [done|]. cbn [tr]. by rewrite fmap_app. }
    destruct (Z.ltb_spec (len dgram) (sizeof Header)); [by apply wp_ret|]. apply wp_bind. eapply wp_checked; [exact Hdec|].
    destruct (Z.eqb_spec (h_cmd_type h) CMD_DISCOVER); [done|by apply wp_ret]. }
  destruct (wp_run _ _ _ _ Hwp) as ([] & w' & Hr & ?). by exists w'.
Qed.

(** C36: USB/IP replies do not reach the kernel.  The firmware sends its replies as RAW_DATA and RAW_FRAG
    datagrams to the daemon's UDP port; the daemon receives each of them and drops it, whatever it
    carries: nothing is written to any socketpair and the state is unchanged. *)
Theorem raw_datagrams_ignored E (w : world HubServer) s data dgram from :
  cfg_ok (s_cfg s) -> is_u8 (s_seq s) -> is_u16 (s_out_transfer_seq s) -> dgram ∈ raw_datagrams s data ->
  udp_delivery E w dgram from -> exists w', onUdpReadable E w = Some (tt, w') /\ ignored w w'.
Proof.
  intros Hc Hq Ht Hin Hd. destruct (raw_datagrams_framed s data dgram Hc Hq Ht Hin) as (h & Hdec & _ & _ & _ & Hcmd).
  apply (not_discover_ignored E w dgram from h); [done| |done]. by destruct Hcmd as [-> | ->].
Qed.

Definition reply_sim : sim := Sim (fun _ => []) 1 (fun _ => []) ((fun p => (p, 0)) <$> raw_datagrams demo_session [1; 2; 3]) [].

Lemma raw_datagrams_ignored_witness :
  exists w', onUdpReadable (sim_env reply_sim) (World (hub_empty 5 6) []) = Some (tt, w') /\ ignored (World (hub_empty 5 6) []) w'.
Proof.
  destruct (raw_datagrams demo_session [1; 2; 3]) as [|dgram ds] eqn:Hd; [vm_compute in Hd; discriminate|].
  apply (raw_datagrams_ignored (sim_env reply_sim) (World (hub_empty 5 6) []) demo_session [1; 2; 3] dgram 0).
  - split_and!; vm_compute; split; discriminate || reflexivity.
  - vm_compute. split; discriminate || reflexivity.
  - vm_compute. split; discriminate || reflexivity.
  - rewrite Hd. apply list_elem_of_here.
  - vm_compute in Hd. injection Hd as <- _. vm_compute. split; [|split]; reflexivity.
Defined.
