(* ===== verification/Relay.v ===== *)
(** * Requests served by the firmware

    In USB/IP mode the firmware is a USB/IP server on its UDP reply port: each
    request that arrives in a packet there is carried out and answered with one
    datagram.  [answer_to] states what a client may expect of an answer, in
    terms of the bytes of the USB/IP protocol and without reference to the
    program; the theorem is about the session's down task, with any USB device
    behind the driver's interface.

    The packets have the form the daemon gives them ([Passthrough.raw_packets]),
    but the daemon of this repository sends them over TCP and takes answers from
    TCP, so it is not such a client: see [DaemonMain.daemon_never_attaches] and
    [TwoEnds.raw_datagrams_ignored]. *)

From S2P Require Import Prelude Effects Descriptors Rtos Protocol Usbip Session Reasm UsbipProxy EndToEnd HubClient SessionTasks.

(** ** The USB/IP protocol *)

(** The [k]-th 32-bit field of a message. *)
Definition field (k : nat) (b : bytes) : bytes := take 4 (drop (4 * k) b).

(** Messages the hub handles: a command and a header, in one datagram. *)
Definition request (raw : bytes) : Prop :=
  bytes_ok raw /\ USBIP_HDR <= len raw <= RX_BUF - HDR /\
  (field 0 raw = be32 USBIP_CMD_SUBMIT \/ field 0 raw = be32 USBIP_CMD_UNLINK).

(** The reply to a message: the sequence number comes back, with the direction and endpoint of a
    submit, its status and length, and the bytes read; at most as many as a read asked for. *)
Inductive answer_to (raw : bytes) : bytes -> Prop :=
| answer_submit status actual data :
    field 0 raw = be32 USBIP_CMD_SUBMIT -> (status = 0 \/ status = 1) ->
    (if decide (field 3 raw = be32 USBIP_DIR_IN) then len data = actual /\ actual <= IN_BUF else actual = 0 /\ data = []) ->
    (forall L, is_u32 L -> 0 < L -> field 6 raw = be32 L -> actual <= L) ->
    answer_to raw (be32 USBIP_RET_SUBMIT ++ field 1 raw ++ be32 0 ++ field 3 raw ++ field 4 raw ++
      be32 status ++ be32 actual ++ be32 0 ++ be32 0xFFFFFFFF ++ zeros 12 ++ data)
| answer_unlink :
    field 0 raw = be32 USBIP_CMD_UNLINK -> answer_to raw (be32 USBIP_RET_UNLINK ++ field 1 raw ++ zeros 40).

(** Packets for messages one after the other, numbered from [q]. *)
Fixpoint numbered (dev q : Z) (l : list bytes) : list bytes :=
  match l with [] => [] | d :: l' => raw_packet dev q d :: numbered dev (u8 (q + 1)) l' end.

(** The [sendto]s among some calls, and the [recvfrom]s on a socket in a trace. *)
Definition sendtos (cs : list call) : list call :=
  cs ≫= (fun c => match c with CSendto _ _ _ _ => [c] | _ => [] end).
Definition recvs (sock : Z) (t : trace) : list call :=
  calls t ≫= (fun c => match c with CRecvfrom fd _ => if fd =? sock then [c] else [] | _ => [] end).

(** After [t0] the socket receives the datagrams [ds] one after the other. *)
Definition arrive (E : env) (sock : Z) (t0 : trace) (ds : list bytes) : Prop :=
  forall t i d, length (recvs sock t) = (length (recvs sock t0) + i)%nat -> ds !! i = Some d ->
    let r := E t (CRecvfrom sock RX_BUF) in r_ret r = len d /\ r_out r = d.

(** ** Fields of a request *)

Lemma le32_inj x y : is_u32 x -> is_u32 y -> le32 x = le32 y -> x = y.
Proof.
  intros Hx Hy He. rewrite <- (u32_id x), <- (u32_id y), <- !le32_round by done. unfold le32 in He. by injection He as -> -> -> ->.
Qed.

(** A field loaded and swapped has the value its big-endian bytes denote. *)
Lemma word_value raw k x v :
  word_at raw k = Some x -> bytes_ok raw -> is_u32 v -> USBIP_U32 x = v <-> field k raw = be32 v.
Proof.
  intros Hx Hb Hv. unfold field. rewrite <- (word_at_bytes raw k x Hx Hb).
  assert (is_u32 x) as Hux.
  { unfold word_at in Hx. pose proof (Forall_drop _ (4 * k) _ Hb) as Hd.
    destruct (drop (4 * k) raw) as [|b0 [|b1 [|b2 [|b3 rest]]]]; try done. injection Hx as <-.
    do 4 (let H := fresh in apply Forall_cons_1 in Hd as [H Hd]). rewrite of_le32_add by done. solve_width. }
  rewrite <- le32_swap. split.
  - intros <-. by rewrite USBIP_U32_involutive.
  - intros ->%le32_inj; [by rewrite USBIP_U32_involutive|done|apply USBIP_U32_range].
Qed.

Lemma submit_words raw cmd :
  cmd_submit_decode raw = Some cmd ->
  word_at raw 0 = Some (cs_command cmd) /\ word_at raw 3 = Some (cs_direction cmd) /\
  word_at raw 6 = Some (cs_transfer_buffer_length cmd).
Proof.
  unfold cmd_submit_decode. intros Hd.
  repeat match goal with
  | Hd : context [word_at raw ?k] |- _ => destruct (word_at raw k); cbn [mbind option_bind] in Hd; [|done]
  end.
  destruct (buf_read raw 40 8); cbn [mbind option_bind] in Hd; [|done]. by injection Hd as <-.
Qed.

Lemma sendtos_app c1 c2 : sendtos (c1 ++ c2) = sendtos c1 ++ sendtos c2.
Proof. apply bind_app. Qed.
Lemma sendtos_quiet cs : Forall non_socket cs -> sendtos cs = [].
Proof. induction 1 as [|c cs Hc _ IH]; [done|]. unfold sendtos in *. cbn. rewrite IH. by destruct c. Qed.

Lemma recvs_app sock t1 t2 : recvs sock (t1 ++ t2) = recvs sock t1 ++ recvs sock t2.
Proof. unfold recvs. by rewrite fmap_app, bind_app. Qed.
(** Calls that are not [recvfrom]. *)
Definition no_recvfrom (c : call) : Prop := match c with CRecvfrom _ _ => False | _ => True end.
Lemma quiet_no_recvfrom cs : Forall non_socket cs -> Forall no_recvfrom cs.
Proof. intros H. eapply Forall_impl; [exact H|]. by intros []. Qed.
Lemma recvs_quiet sock t t' d : Forall no_recvfrom d -> calls t' = calls t ++ d -> recvs sock t' = recvs sock t.
Proof.
  intros Hd Ht. unfold recvs. rewrite Ht, bind_app. assert (d ≫= (fun c => match c with CRecvfrom fd _ => if fd =? sock then [c] else [] | _ => [] end) = []) as ->;
    [|by rewrite app_nil_r]. clear Ht. induction Hd as [|c d Hc _ IH]; [done|]. cbn. rewrite IH. by destruct c.
Qed.

(** ** The firmware *)

Section Firmware.
Context {D : Type} {ops : DeviceOps D} (E : env) {ok : DeviceOpsOk D E} {be : UsbBackend D} {bok : UsbBackendOk D E}.
Context (Hm : forall t n, r_ret (E t (CMalloc n)) <> 0).
Implicit Types (w : world (node D)).

(** One message: the reply is an answer to it, in one datagram; of the session only the packet
    counter changes. *)
Lemma message_answered raw w :
  node_ok (E := E) (st w) -> request raw -> 0 <= s_sock (n_sess (st w)) ->
  let s := n_sess (st w) in
  exists w' reply, usb_handle_submit raw E w = Some (tt, w') /\ node_ok (E := E) (st w') /\ answer_to raw reply /\
    n_sess (st w') = set_seq (u8 (s_seq s + 1)) s /\
    exists d, calls (tr w') = calls (tr w) ++ d /\ Forall no_recvfrom d /\
      sendtos d = [CSendto (s_sock s) (raw_packet (cfg_device_id (s_cfg s)) (s_seq s) reply) (s_daemon_ip s) DAEMON_PORT].
Proof.
  intros Hn (Hb & [Hl _] & Hcmd) Hsock s. destruct (cmd_submit_decode_Some raw Hl) as [cmd Hd].
  destruct (submit_words _ _ Hd) as (H0 & H3 & H6). destruct Hcmd as [Hc|Hc].
  - pose proof (proj2 (word_value raw 0 _ USBIP_CMD_SUBMIT H0 Hb ltac:(by vm_compute)) Hc) as Hc'.
    destruct (submit_answered_run E ok bok raw cmd w Hn Hb Hl Hd Hc' Hsock Hm)
      as (w' & actual & status & data & Hr & Hn' & Hse & (usb & Hq & Htr) & Hst & Hdata & Hmax).
    assert (is_u32 status /\ is_u32 actual) as [Hus Hua].
    { destruct (USBIP_U32 (cs_direction cmd) =? USBIP_DIR_IN); unfold IN_BUF in Hdata; split; destruct Hst as [-> | ->]; solve_width. }
    exists w'. eexists. split; [exact Hr|]. split; [done|]. split; [|split; [exact Hse|]].
    2:{ eexists. split; [exact Htr|]. rewrite sendtos_app, (sendtos_quiet usb) by done. split; [|reflexivity].
        apply Forall_app_2; [by apply quiet_no_recvfrom|]. do 3 (apply Forall_cons_2; [exact I|]). apply Forall_nil_2. }
    rewrite (ret_submit_wire raw cmd status actual Hd Hb Hus Hua), <- !app_assoc.
    apply answer_submit; [done|done| |].
    + destruct (Z.eqb_spec (USBIP_U32 (cs_direction cmd)) USBIP_DIR_IN) as [He|He];
        rewrite (word_value raw 3 _ USBIP_DIR_IN H3 Hb ltac:(by vm_compute)) in He; by destruct (decide _).
    + intros L HL Hpos He. apply (word_value raw 6 _ L H6 Hb HL) in He. rewrite He in Hmax. by apply Hmax.
  - pose proof (proj2 (word_value raw 0 _ USBIP_CMD_UNLINK H0 Hb ltac:(by vm_compute)) Hc) as Hc'.
    destruct (unlink_replied E raw cmd w (nok_sess _ Hn) Hb Hl Hd Hc' Hsock) as (w' & Hr & Hst & Htr).
    exists w'. eexists. split; [exact Hr|]. rewrite Hst. split; [|split; [by apply answer_unlink|split; [done|]]].
    + destruct Hn as [[] Hbuf Hdrv]. constructor; [constructor; cbn; auto with hub|done|done].
    + eexists. split; [exact Htr|]. split; [apply Forall_singleton; exact I|reflexivity].
Qed.

Lemma numbered_header dev q (d : bytes) :
  is_u8 dev -> is_u8 q -> len d <= RX_BUF -> header_wf (mkHeader CMD_RAW_DATA dev 0 q (len d)).
Proof.
  intros ? ? ?. unfold header_wf, RX_BUF, HDR, FHDR, MTU_PAYLOAD, CMD_RAW_DATA in *. cbn in *. repeat split; solve_width.
Qed.

Context {G : Type} `{EventGroup G}.
Implicit Types (y : sys D G).

(** [n] steps of the down task. *)
Fixpoint down_steps (n : nat) : M (sys D G) unit :=
  match n with O => mret tt | S n' => session_down_task ;; down_steps n' end.

Lemma down_steps_add m n (w w1 : world (sys D G)) : down_steps m E w = Some (tt, w1) -> down_steps (m + n) E w = down_steps n E w1.
Proof.
  revert w. induction m as [|m IH]; intros w; cbn [down_steps Nat.add]; [by intros [= <-]|].
  unfold mbind, M_bind. destruct (session_down_task E w) as [[[] w2]|]; [apply IH|done].
Qed.

Lemma down_step n (w w1 : world (sys D G)) : session_down_task E w = Some (tt, w1) -> down_steps (S n) E w = down_steps n E w1.
Proof. intros Hr. cbn [down_steps]. by rewrite (mbind_some _ _ _ _ _ _ Hr). Qed.

Lemma zoom_node {A} (m : M (node D) A) y t a v :
  m E (World (y_node y) t) = Some (a, v) -> zoom node_l m E (World y t) = Some (a, World (set_node (st v) y) (tr v)).
Proof. unfold zoom. cbn [st tr node_l l_get l_put]. by intros ->. Qed.

(** A received datagram is handled in one step, or two when a transfer comes between them. *)
Lemma got_run buf y t v :
  y_down y = DGot buf -> down_datagram buf E (World (y_node y) t) = Some (tt, v) ->
  exists n, (n <= 2)%nat /\ down_steps n E (World y t) = Some (tt, World (set_down DLoop (set_node (st v) y)) (tr v)).
Proof.
  intros Hpc Hr. destruct y as [nd eg hb pc up dn ea]. cbn in Hpc, Hr. subst dn.
  destruct (submit_of (cfg_usbip_mode (s_cfg (n_sess nd))) buf) as [[cmd data]|] eqn:Hs.
  - rewrite (down_datagram_submit E buf cmd data (World nd t) Hs) in Hr. unfold mbind at 1, M_bind at 1 in Hr.
    destruct (submit_transfer cmd data E (World nd t)) as [[[actual status] v1]|] eqn:Ht; [|done]. cbn [fst snd] in Hr.
    exists 2%nat. split; [done|].
    assert (session_down_task E (World (Sys nd eg hb pc up (DGot buf) ea) t) =
      Some (tt, World (Sys (st v1) eg hb pc up (DReply cmd actual status) ea) (tr v1))) as H1.
    { unfold session_down_task. erewrite mbind_some by reflexivity. cbn [st y_down]. unfold y_sess. cbn [y_node]. rewrite Hs.
      rewrite (mbind_some _ _ _ _ _ _ (zoom_node _ (Sys nd eg hb pc up (DGot buf) ea) t _ _ Ht)). reflexivity. }
    rewrite (down_step _ _ _ H1). apply (down_step 0). unfold session_down_task. erewrite mbind_some by reflexivity. cbn [st y_down].
    rewrite (mbind_some _ _ _ _ _ _ (zoom_node _ (Sys (st v1) eg hb pc up (DReply cmd actual status) ea) (tr v1) tt v ltac:(by destruct v1))).
    reflexivity.
  - exists 1%nat. split; [lia|]. apply (down_step 0). unfold session_down_task. erewrite mbind_some by reflexivity.
    cbn [st y_down]. unfold y_sess. cbn [y_node]. rewrite Hs.
    rewrite (mbind_some _ _ _ _ _ _ (zoom_node _ (Sys nd eg hb pc up (DGot buf) ea) t _ _ Hr)). reflexivity.
Qed.

(** One request, from the loop's head back to it. *)
Lemma request_served dev q raw y t rest :
  is_u8 dev -> is_u8 q -> request raw -> y_down y = DLoop ->
  node_ok (E := E) (y_node y) -> cfg_usbip_mode (s_cfg (y_sess y)) = true -> 0 <= s_sock (y_sess y) ->
  arrive E (s_sock (y_sess y)) t (raw_packet dev q raw :: rest) ->
  let s := y_sess y in
  exists n y' t' reply, (n <= 4)%nat /\ down_steps n E (World y t) = Some (tt, World y' t') /\ answer_to raw reply /\
    node_ok (E := E) (y_node y') /\ y_sess y' = set_seq (u8 (s_seq s + 1)) s /\ y_down y' = DLoop /\ arrive E (s_sock s) t' rest /\
    sendtos (calls t') = sendtos (calls t) ++
      [CSendto (s_sock s) (raw_packet (cfg_device_id (s_cfg s)) (s_seq s) reply) (s_daemon_ip s) DAEMON_PORT].
Proof.
  intros Hdev Hq Hreq Hpc Hn Hmode Hsock Harr s. pose proof Hreq as (Hb & [Hlo Hhi] & _). assert (0 <= s_sock s) as Hsock' by done.
  set (pkt := raw_packet dev q raw) in *. set (c := CRecvfrom (s_sock s) RX_BUF).
  destruct (Harr t 0%nat pkt ltac:(lia) eq_refl) as [Hret Hout]. fold s c in Hret, Hout.
  assert (header_wf (mkHeader CMD_RAW_DATA dev 0 q (len raw))) as Hh by (apply numbered_header; [done..|]; change HDR with 6 in Hhi; lia).
  set (t1 := t ++ [(c, E t c)]).
  destruct (message_answered raw (World (y_node y) t1) Hn Hreq Hsock) as (v & reply & Hr & Hn' & Ha & Hse & d & Htr & Hnr & Hsd).
  cbn [st tr] in *. change (n_sess (y_node y)) with s in *.
  destruct (got_run pkt (set_down (DGot pkt) y) t1 v) as (n & Hle & Hsteps).
  { by destruct y. }
  { unfold pkt, raw_packet. rewrite down_usbip; [by destruct y|exact Hh|done|by destruct y]. }
  exists (2 + n)%nat. do 2 eexists. exists reply. split; [lia|]. split.
  { rewrite (down_steps_add 2 n _ (World (set_down (DGot pkt) y) t1)); [exact Hsteps|].
    rewrite (down_step 1 _ (World (set_down (DRecv (s_sock s)) y) t)).
    2:{ unfold session_down_task. erewrite mbind_some by reflexivity. cbn [st]. rewrite Hpc. fold s.
        destruct (Z.ltb_spec (s_sock s) 0); [lia|]. reflexivity. }
    apply (down_step 0). unfold session_down_task. erewrite mbind_some by reflexivity. cbn [st].
    replace (y_down (set_down (DRecv (s_sock s)) y)) with (DRecv (s_sock s)) by (by destruct y).
    cbn iota. erewrite mbind_some by reflexivity. cbn [st tr]. fold c. rewrite Hret, Hout.
    destruct (Z.ltb_spec (len pkt) 0); [lia|]. rewrite buf_read_Some by lia. erewrite mbind_some by reflexivity.
    change (Z.to_nat 0) with 0%nat. rewrite drop_0, take_ge by lia. by destruct y. }
  split; [exact Ha|]. destruct y as [nd eg hb pc up dn ea]. unfold y_sess in *. cbn in *. split_and!; [done|exact Hse|done| |].
  - intros t2 i d2 Hlen Hd2. apply (Harr t2 (S i)); [|exact Hd2]. unfold s in Hlen. cbn in Hlen. rewrite Hlen, (recvs_quiet _ t1 (tr v) d Hnr Htr).
    unfold t1. rewrite recvs_app, length_app. unfold recvs at 2. cbn. rewrite Z.eqb_refl. cbn. lia.
  - rewrite Htr, sendtos_app, Hsd. unfold t1. rewrite fmap_app, sendtos_app. cbn. by rewrite app_nil_r.
Qed.

Lemma requests_run dev q raws y t :
  is_u8 dev -> is_u8 q -> Forall request raws -> y_down y = DLoop ->
  node_ok (E := E) (y_node y) -> cfg_usbip_mode (s_cfg (y_sess y)) = true -> 0 <= s_sock (y_sess y) ->
  arrive E (s_sock (y_sess y)) t (numbered dev q raws) ->
  let s := y_sess y in
  exists n y' t' replies, (n <= 4 * length raws)%nat /\ down_steps n E (World y t) = Some (tt, World y' t') /\
    Forall2 answer_to raws replies /\ node_ok (E := E) (y_node y') /\ y_down y' = DLoop /\
    sendtos (calls t') = sendtos (calls t) ++
      ((fun d => CSendto (s_sock s) d (s_daemon_ip s) DAEMON_PORT) <$> numbered (cfg_device_id (s_cfg s)) (s_seq s) replies).
Proof.
  intros Hdev Hq Hall. revert q Hq y t. induction Hall as [|raw raws Hraw Hall IH]; intros q Hq y t Hpc Hn Hmode Hsock Harr s.
  { exists 0%nat, y, t, []. cbn. rewrite app_nil_r. by split_and!. }
  cbn [numbered] in Harr.
  destruct (request_served dev q raw y t _ Hdev Hq Hraw Hpc Hn Hmode Hsock Harr)
    as (n & y1 & t1 & reply & Hle & Hr & Ha & Hn1 & Hs1 & Hpc1 & Harr1 & Hsd1). fold s in Hs1, Hsd1, Harr1.
  destruct (IH (u8 (q + 1)) ltac:(auto with hub) y1 t1 Hpc1 Hn1) as (n' & y' & t' & replies & Hle' & Hr' & Ha' & Hn' & Hpc' & Hsd');
    [by rewrite Hs1..|].
  exists (n + n')%nat, y', t', (reply :: replies). split_and!; [cbn; lia| |by constructor|done|done|].
  - by rewrite (down_steps_add n n' _ _ Hr).
  - rewrite Hsd', Hsd1, <- app_assoc. by rewrite Hs1.
Qed.
End Firmware.


(** A submit and an unlink arrive. *)
Definition demo_requests : list bytes := [demo_submit; demo_unlink].
Definition serving_env : env := fun t c =>
  match c with
  | CRecvfrom 5 _ => match numbered 0 0 demo_requests !! length (recvs 5 t) with Some d => Reply (len d) d 0 [] | None => Reply (-1) [] 0 [] end
  | _ => Reply 1 [] 0 []
  end.
Definition serving : sys (list bytes) Z :=
  Sys demo_node SESSION_ACTIVE_BIT (Hub true 0x0100007F DAEMON_PORT DAEMON_FOUND_BIT) CWaitLost UWaitLost DLoop (zeros SESSION_MAX_ID).

Lemma demo_requests_ok : Forall request demo_requests.
Proof.
  repeat (apply Forall_cons_2; [split; [repeat (apply Forall_cons_2; [by vm_compute|]); constructor|split; [by vm_compute|]]|]);
    [by left|by right|constructor].
Qed.


(** ** Requests that arrive together *)

(** A header is decoded from the first 48 bytes. *)
Lemma word_at_app raw more k : (4 * k + 4 <= length raw)%nat -> word_at (raw ++ more) k = word_at raw k.
Proof.
  intros Hk. unfold word_at. rewrite drop_app_le by lia.
  assert (4 <= length (drop (4 * k) raw))%nat as Hl by (rewrite length_drop; lia).
  destruct (drop (4 * k) raw) as [|b0 [|b1 [|b2 [|b3 rest]]]]; cbn in Hl; lia || done.
Qed.
Lemma buf_read_app raw more at_ n : 0 <= at_ -> 0 <= n -> at_ + n <= len raw -> buf_read (raw ++ more) at_ n = buf_read raw at_ n.
Proof.
  intros. rewrite !buf_read_Some by (rewrite ?length_app; lia). rewrite drop_app_le by lia. rewrite take_app_le; [done|]. rewrite length_drop. lia.
Qed.
Lemma decode_app raw more :
  USBIP_HDR <= len raw ->
  cmd_submit_decode (raw ++ more) = cmd_submit_decode raw /\ cmd_unlink_decode (raw ++ more) = cmd_unlink_decode raw.
Proof.
  unfold USBIP_HDR. intros Hl. unfold cmd_submit_decode, cmd_unlink_decode.
  rewrite !word_at_app, !buf_read_app by lia. done.
Qed.

(** The data behind the header of a request to read is not looked at. *)
Lemma submit_transfer_in {D} {ops : DeviceOps D} {be : UsbBackend D} cmd data data' :
  USBIP_U32 (cs_direction cmd) = USBIP_DIR_IN -> submit_transfer (D := D) cmd data = submit_transfer cmd data'.
Proof. intros Hdir. unfold submit_transfer. rewrite Hdir. by destruct (_ =? 0). Qed.

(** C37: of the requests in one packet only the first is served.  The daemon makes one packet of whatever a
    read of the socketpair returns, which can be several requests one after the other; the firmware
    takes the packet for one request, so behind a request to read, or to unlink, the rest of the
    packet has no effect: what it does and sends is the same as without it. *)
Theorem packed_requests_lost {D : Type} {ops : DeviceOps D} {be : UsbBackend D} (E : env) dev q raw more (w : world (node D)) :
  is_u8 dev -> is_u8 q -> request raw -> len (raw ++ more) <= RX_BUF - HDR ->
  field 0 raw = be32 USBIP_CMD_UNLINK \/ field 3 raw = be32 USBIP_DIR_IN ->
  cfg_usbip_mode (s_cfg (n_sess (st w))) = true ->
  down_datagram (raw_packet dev q (raw ++ more)) E w = down_datagram (raw_packet dev q raw) E w.
Proof.
  intros Hdev Hq (Hb & [Hlo Hhi] & Hcmd) Hl Hkind Hmode. unfold raw_packet.
  rewrite !down_usbip by (done || (apply numbered_header; [done..|]; change HDR with 6 in *; lia)).
  destruct (decode_app raw more Hlo) as [Hds Hdu]. destruct (cmd_submit_decode_Some raw Hlo) as [cmd Hd].
  destruct (submit_words _ _ Hd) as (H0 & H3 & _).
  unfold usb_handle_submit. rewrite Hds, Hdu, Hd, length_app.
  destruct (Z.ltb_spec (len raw) USBIP_HDR), (Z.ltb_spec (Z.of_nat (length raw + length more)) USBIP_HDR); try lia.
  erewrite !mbind_some by reflexivity. destruct (Z.eqb_spec (USBIP_U32 (cs_command cmd)) USBIP_CMD_UNLINK) as [|Hne]; [done|].
  destruct Hkind as [He%(word_value raw 0 _ USBIP_CMD_UNLINK H0 Hb)|He%(word_value raw 3 _ USBIP_DIR_IN H3 Hb)]; [|by vm_compute|..|by vm_compute].
  - done.
  - by rewrite (submit_transfer_in cmd _ (drop (Z.to_nat USBIP_HDR) raw) He).
Qed.

(** The second of two requests to read the device descriptor gets no answer. *)
Lemma packed_requests_lost_witness :
  down_datagram (raw_packet 0 0 (demo_submit ++ demo_submit)) rich_env (World demo_node []) =
  down_datagram (raw_packet 0 0 demo_submit) rich_env (World demo_node []).
Proof.
  apply (packed_requests_lost rich_env 0 0 demo_submit demo_submit (World demo_node [])).
  - by vm_compute.
  - by vm_compute.
  - exact (Forall_inv demo_requests_ok).
  - by vm_compute.
  - right. reflexivity.
  - reflexivity.
Defined.
