(* ===== verification/MouseTest.v ===== *)
(** * The mouse test (daemon/tests/WasdMouseTest.cpp)

    A program that plays the part of the firmware with a USB mouse plugged in:
    it announces the mouse to the daemon in a UDP datagram, answers the USB/IP
    requests it receives on its UDP port, and moves the mouse by the W, A, S and
    D keys.  What it prints on the terminal is left out.  [main rounds] runs it
    with [rounds] passes of the loop before a signal arrives; the handler runs
    while the program waits. *)

From stdpp Require Import strings.
From S2P Require Import Prelude Effects Protocol Addr Usbip Portal Linux SimOs HubServer DaemonMain TwoEnds.

(** ** State *)

(** What the program reads and changes of [struct termios]. *)
Record termios := Termios { c_lflag : Z; c_vmin : Z; c_vtime : Z }.

Record MouseTest := mkMouse {
  g_udp_fd : Z;
  g_daemon_addr : sockaddr_in;
  g_udp_seq : Z;
  MY_DEVICE_ID : Z;
  g_running : bool;
  g_dx : Z;
  g_dy : Z;
  g_buttons : Z;
  g_old_termios : termios;
}.
Definition MouseTest0 : MouseTest := mkMouse (-1) (Sockaddr 0 0) 0 0 true 0 0 0 (Termios 0 0 0).

Definition set_socket (fd : Z) (a : sockaddr_in) (s : MouseTest) : MouseTest :=
  mkMouse fd a (g_udp_seq s) (MY_DEVICE_ID s) (g_running s) (g_dx s) (g_dy s) (g_buttons s) (g_old_termios s).
Definition set_id (id : Z) (s : MouseTest) : MouseTest :=
  mkMouse (g_udp_fd s) (g_daemon_addr s) (g_udp_seq s) id (g_running s) (g_dx s) (g_dy s) (g_buttons s) (g_old_termios s).
(** [g_udp_seq++] *)
Definition bump_seq (s : MouseTest) : MouseTest :=
  mkMouse (g_udp_fd s) (g_daemon_addr s) (u8 (g_udp_seq s + 1)) (MY_DEVICE_ID s) (g_running s) (g_dx s) (g_dy s) (g_buttons s) (g_old_termios s).
Definition set_motion (dx dy : Z) (s : MouseTest) : MouseTest :=
  mkMouse (g_udp_fd s) (g_daemon_addr s) (g_udp_seq s) (MY_DEVICE_ID s) (g_running s) dx dy (g_buttons s) (g_old_termios s).
Definition stop (s : MouseTest) : MouseTest :=
  mkMouse (g_udp_fd s) (g_daemon_addr s) (g_udp_seq s) (MY_DEVICE_ID s) false (g_dx s) (g_dy s) (g_buttons s) (g_old_termios s).
Definition set_termios (t : termios) (s : MouseTest) : MouseTest :=
  mkMouse (g_udp_fd s) (g_daemon_addr s) (g_udp_seq s) (MY_DEVICE_ID s) (g_running s) (g_dx s) (g_dy s) (g_buttons s) t.

(** Conversion to [int8_t]. *)
Definition i8 (x : Z) : Z := (x + 2 ^ 7) mod 2 ^ 8 - 2 ^ 7.

(** ** USB/IP *)

(** The structures of the program have the layout of the firmware's, without padding. *)
Definition UsbipCmdSubmit : Type := usbip_cmd_submit_t.
Definition UsbipRetSubmit : Type := usbip_ret_submit_t.
Definition ntohl (x : Z) : Z := USBIP_U32 x.
Definition htonl (x : Z) : Z := USBIP_U32 x.
Definition EPIPE_STATUS : Z := -32.

Definition HID_REPORT_DESC : bytes :=
  [0x05; 0x01; 0x09; 0x02; 0xA1; 0x01; 0x09; 0x01; 0xA1; 0x00;
   0x05; 0x09; 0x19; 0x01; 0x29; 0x03; 0x15; 0x00; 0x25; 0x01;
   0x95; 0x03; 0x75; 0x01; 0x81; 0x02;
   0x95; 0x01; 0x75; 0x05; 0x81; 0x03;
   0x05; 0x01; 0x09; 0x30; 0x09; 0x31; 0x09; 0x38;
   0x15; 0x81; 0x25; 0x7F; 0x75; 0x08; 0x95; 0x03; 0x81; 0x06;
   0xC0; 0xC0].
Definition HID_REPORT_DESC_LEN : Z := len HID_REPORT_DESC.
Definition DEVICE_DESC : bytes :=
  [0x12; 0x01; 0x00; 0x02; 0x00; 0x00; 0x00; 0x40; 0x34; 0x12; 0x78; 0x56; 0x00; 0x01; 0x00; 0x00; 0x00; 0x01].
Definition CONFIG_DESC : bytes :=
  [0x09; 0x02; 0x22; 0x00; 0x01; 0x01; 0x00; 0xA0; 0x32;
   0x09; 0x04; 0x00; 0x00; 0x01; 0x03; 0x01; 0x02; 0x00;
   0x09; 0x21; 0x11; 0x01; 0x00; 0x01; 0x22; HID_REPORT_DESC_LEN; 0x00;
   0x07; 0x05; 0x81; 0x03; 0x04; 0x00; 0x0A].
Definition STRING_LANG_DESC : bytes := [0x04; 0x03; 0x09; 0x04].

(** A payload in a RAW_DATA packet, to the daemon. *)
Definition udpSend (payload : bytes) : M MouseTest unit :=
  s ← get;
  modify bump_seq ;;
  let hdr := mkHeader (cmd_value CmdType_RAW_DATA) (MY_DEVICE_ID s) 0 (g_udp_seq s) (u16 (len payload)) in
  call_ext (CSendto (g_udp_fd s) (encode hdr ++ payload) (sin_addr (g_daemon_addr s)) (sin_port (g_daemon_addr s))) ;;
  mret tt.

Definition ret_header (seqnum status payload_len : Z) : UsbipRetSubmit :=
  {| rs_command := htonl USBIP_RET_SUBMIT; rs_seqnum := htonl seqnum; rs_devid := 0; rs_direction := 0; rs_ep := 0;
     rs_status := htonl (u32 status); rs_actual_length := htonl payload_len; rs_start_frame := 0;
     rs_number_of_packets := 0; rs_error_count := 0; rs_padding := zeros 8 |}.

(** [payload] is the buffer pointed to, [None] for a null pointer. *)
Definition sendRetSubmit (seqnum status : Z) (payload : option bytes) (payload_len : Z) : M MouseTest unit :=
  body ← checked (match payload with
                  | Some p => if payload_len =? 0 then Some [] else buf_read p 0 payload_len
                  | None => Some (zeros payload_len)
                  end);
  udpSend (ret_submit_encode (ret_header seqnum status payload_len) ++ body).

(** Byte [i] of the setup packet. *)
Definition setup_byte (setup : bytes) (i : Z) : M MouseTest Z := checked (arr_get setup i).

Definition getWLength (setup : bytes) : M MouseTest Z :=
  lo ← setup_byte setup 6; hi ← setup_byte setup 7; mret (u16 (Z.lor lo (Z.shiftl hi 8))).

Definition stall (seqnum : Z) : M MouseTest unit := sendRetSubmit seqnum EPIPE_STATUS None 0.

(** The rest of GET_DESCRIPTOR, for the descriptor selected. *)
Definition send_desc (seqnum wLength : Z) (desc : option bytes) : M MouseTest unit :=
  match desc with
  | Some d =>
      if 0 <? len d then
        let send_len := if wLength <? len d then wLength else len d in
        sendRetSubmit seqnum 0 (Some d) send_len
      else stall seqnum
  | None => stall seqnum
  end.

Definition handleControlIn (seqnum : Z) (setup : bytes) : M MouseTest unit :=
  req_type ← setup_byte setup 0;
  bRequest ← setup_byte setup 1;
  desc_idx ← setup_byte setup 2;
  desc_type ← setup_byte setup 3;
  wLength ← getWLength setup;
  if bRequest =? 0x06 then
    if req_type =? 0x80 then
      if desc_type =? 0x01 then send_desc seqnum wLength (Some DEVICE_DESC)
      else if desc_type =? 0x02 then send_desc seqnum wLength (Some CONFIG_DESC)
      else if desc_type =? 0x03 then
        if desc_idx =? 0 then send_desc seqnum wLength (Some STRING_LANG_DESC) else stall seqnum
      else stall seqnum
    else if (req_type =? 0x81) && (desc_type =? 0x22) then send_desc seqnum wLength (Some HID_REPORT_DESC)
    else send_desc seqnum wLength None
  else if (req_type =? 0x80) && (bRequest =? 0x08) then sendRetSubmit seqnum 0 (Some [0x01]) 1
  else if (req_type =? 0x81) && (bRequest =? 0x0A) then sendRetSubmit seqnum 0 (Some [0x00]) 1
  else stall seqnum.

Definition handleControlOut (seqnum : Z) (setup : bytes) : M MouseTest unit := sendRetSubmit seqnum 0 None 0.

Definition handleInterruptIn (seqnum : Z) : M MouseTest unit :=
  s ← get;
  let report := [g_buttons s; u8 (g_dx s); u8 (g_dy s); 0] in
  modify (set_motion 0 0) ;;
  sendRetSubmit seqnum 0 (Some report) (len report).

(** The 48 bytes of a RET_UNLINK: three words written into a zeroed array. *)
Definition unlink_reply (seqnum : Z) : option bytes :=
  b ← buf_write (zeros 48) 0 (le32 (htonl USBIP_RET_UNLINK));
  b ← buf_write b 4 (le32 (htonl seqnum));
  buf_write b 20 (le32 (htonl 0)).

Definition dispatchUsbip (buf : bytes) : M MouseTest unit :=
  if len buf <? USBIP_HDR then mret tt else
  cmd ← checked (cmd_submit_decode buf);
  let command := ntohl (cs_command cmd) in
  let seqnum := ntohl (cs_seqnum cmd) in
  let direction := ntohl (cs_direction cmd) in
  let ep := ntohl (cs_ep cmd) in
  if command =? USBIP_CMD_UNLINK then
    reply ← checked (unlink_reply seqnum);
    udpSend reply
  else if negb (command =? USBIP_CMD_SUBMIT) then mret tt
  else if ep =? 0 then
    if direction =? USBIP_DIR_IN then handleControlIn seqnum (cs_setup cmd) else handleControlOut seqnum (cs_setup cmd)
  else if (ep =? 1) && (direction =? USBIP_DIR_IN) then handleInterruptIn seqnum
  else stall seqnum.

(** ** Events *)

Definition PKT_BUF : Z := 65536 + sizeof Header.

(** [while (offset + sizeof(UsbipCmdSubmit) <= pay_len)] *)
Fixpoint usbip_stream (fuel : nat) (payload : bytes) (offset : Z) : M MouseTest unit :=
  match fuel with
  | O => checked None
  | S fuel' =>
      if offset + USBIP_HDR <=? len payload then
        usbip_hdr ← checked (cmd_submit_decode (drop (Z.to_nat offset) payload));
        let extra := if ntohl (cs_direction usbip_hdr) =? USBIP_DIR_OUT then ntohl (cs_transfer_buffer_length usbip_hdr) else 0 in
        let pkt_sz := USBIP_HDR + extra in
        if len payload <? offset + pkt_sz then mret tt else
        pkt ← checked (buf_read payload offset pkt_sz);
        dispatchUsbip pkt ;;
        usbip_stream fuel' payload (offset + pkt_sz)
      else mret tt
  end.

(** A packet from the daemon; [true] when the rest of the pass is skipped by [continue]. *)
Definition udp_event : M MouseTest bool :=
  s ← get;
  r ← call_ext (CRecvfrom (g_udp_fd s) PKT_BUF);
  if r_ret r <? sizeof Header then mret true else
  rhdr ← checked (decode (r_out r));
  let payload := drop (Z.to_nat (sizeof Header)) (r_out r) in
  if negb (h_cmd_type rhdr =? cmd_value CmdType_RAW_DATA) then mret true else
  if negb (h_device_id rhdr =? MY_DEVICE_ID s) then mret true else
  usbip_stream (S (length payload)) payload 0 ;;
  mret false.

Definition STEP : Z := 8.
Definition STDIN_FILENO : Z := 0.

Definition restoreTerminal : M MouseTest unit :=
  s ← get; let t := g_old_termios s in
  call_ext (CTcSetattr (c_lflag t) (c_vmin t) (c_vtime t)) ;; mret tt.
Definition onSignal : M MouseTest unit := modify stop ;; restoreTerminal.

(** The effect of a key. *)
Definition key (ch : Z) (s : MouseTest) : MouseTest :=
  if (ch =? 119) || (ch =? 87) then set_motion (g_dx s) (i8 (g_dy s - STEP)) s
  else if (ch =? 115) || (ch =? 83) then set_motion (g_dx s) (i8 (g_dy s + STEP)) s
  else if (ch =? 97) || (ch =? 65) then set_motion (i8 (g_dx s - STEP)) (g_dy s) s
  else if (ch =? 100) || (ch =? 68) then set_motion (i8 (g_dx s + STEP)) (g_dy s) s
  else if (ch =? 113) || (ch =? 81) || (ch =? 3) then stop s
  else s.

Definition key_event : M MouseTest unit :=
  r ← call_ext (CRead STDIN_FILENO 1);
  if r_ret r =? 1 then ch ← checked (r_out r !! 0%nat); modify (key ch) else mret tt.

(** One iteration of the loop over the events. *)
Definition one_event (event : Z * Z) : M MouseTest unit :=
  let '(fd, ev) := event in
  s ← get;
  skip ← (if (fd =? g_udp_fd s) && hup EPOLLIN ev then udp_event else mret false);
  if (skip : bool) then mret tt else
  if (fd =? STDIN_FILENO) && hup EPOLLIN ev then key_event else mret tt.

(** [while (g_running)] *)
Fixpoint event_loop (epfd : Z) (rounds : nat) : M MouseTest unit :=
  match rounds with
  | O => s ← get; if g_running s then onSignal else mret tt
  | S n =>
      s ← get;
      if negb (g_running s) then mret tt else
      r ← call_ext (CEpollWait epfd 4 100);
      if r_ret r <? 0 then
        if r_aux r =? EINTR then event_loop epfd n else mret tt
      else
        evs ← checked (events_of (Z.to_nat (r_ret r)) (r_out r));
        each one_event evs ;;
        event_loop epfd n
  end.

(** ** main *)

(** [strtoul (s, nullptr, 0)]: the base is read off the prefix; too large a number gives ULONG_MAX. *)
Definition ULONG_MAX : Z := 2 ^ 64 - 1.
Fixpoint digits (base acc : Z) (s : bytes) : Z :=
  match s with
  | c :: s' => match hex_val c with Some d => if d <? base then digits base (acc * base + d) s' else acc | None => acc end
  | [] => acc
  end.
Definition is_hex (s : bytes) : bool := match s with c :: _ => bool_decide (is_Some (hex_val c)) | [] => false end.
Definition magnitude (s : bytes) : Z :=
  match s with
  | a :: s' =>
      if a =? 48 then
        match s' with
        | b :: s'' => if ((b =? 120) || (b =? 88)) && is_hex s'' then digits 16 0 s'' else digits 8 0 s
        | [] => 0
        end
      else digits 10 0 s
  | [] => 0
  end.
Definition strtoul0 (s : bytes) : Z :=
  let s := skip_space s in
  let '(neg, s) := match s with c :: s' => if c =? 45 then (true, s') else if c =? 43 then (false, s') else (false, s) | [] => (false, s) end in
  let m := magnitude s in
  if ULONG_MAX <? m then ULONG_MAX else if (neg : bool) then (- m) mod 2 ^ 64 else m.

(** [argv[1]] and [argv[2]], when they are given: the device id and the port. *)
Definition options (args : list bytes) : Z * Z :=
  match args with
  | [] => (0, DEVICE_BASE_PORT)
  | a :: args' =>
      let id := u8 (strtoul0 a) in
      (id, match args' with b :: _ => u16 (strtoul0 b) | [] => u16 (DEVICE_BASE_PORT + id) end)
  end.

(** A DEVICE_EVENT packet of the mouse. *)
Definition event_pkt (id seq port : Z) (event : DeviceEvent) : bytes :=
  encode (mkHeader (cmd_value CmdType_DEVICE_EVENT) id 0 seq (sizeof DeviceEventPayload)) ++
  encode (mkDeviceEvent id (device_event_value event) (speed_value UsbSpeed_FULL) 0x03 0x01 0x02 port).

Definition send_event (port : Z) (event : DeviceEvent) : M MouseTest unit :=
  s ← get;
  modify bump_seq ;;
  call_ext (CSendto (g_udp_fd s) (event_pkt (MY_DEVICE_ID s) (g_udp_seq s) port event) (sin_addr (g_daemon_addr s)) (sin_port (g_daemon_addr s))) ;;
  mret tt.

Definition ICANON : Z := 2.
Definition ECHO : Z := 8.
Definition O_NONBLOCK : Z := 2048.

(** [tcgetattr] leaves the structure as it is when it fails. *)
Definition tcgetattr : M MouseTest unit :=
  r ← call_ext CTcGetattr;
  match r_out r with
  | [l; mi; ti] => if r_ret r =? 0 then modify (set_termios (Termios l mi ti)) else mret tt
  | _ => mret tt
  end.

Definition raw_terminal : M MouseTest unit :=
  tcgetattr ;;
  s ← get;
  call_ext (CTcSetattr (Z.land (c_lflag (g_old_termios s)) (Z.lnot (Z.lor ICANON ECHO))) 0 0) ;;
  fl ← call_ext (CFcntlGetfl STDIN_FILENO);
  call_ext (CFcntlSetfl STDIN_FILENO (Z.lor (r_ret fl) O_NONBLOCK)) ;;
  mret tt.

(** The program with the arguments [args]; its exit status. *)
Definition main (args : list bytes) (rounds : nat) : M MouseTest Z :=
  let '(id, device_udp_port) := options args in
  modify (set_id id) ;;
  call_ext (CSigaction SIGINT) ;;
  call_ext (CSigaction SIGTERM) ;;
  r ← call_ext (CSocket SOCK_DGRAM);
  modify (set_socket (r_ret r) (Sockaddr 0 0)) ;;
  if r_ret r <? 0 then mret 1 else
  b ← call_ext (CBind (r_ret r) (ntohs (sin_port (makeAddr None device_udp_port))));
  if r_ret b <? 0 then mret 1 else
  modify (set_socket (r_ret r) (makeAddr (Some (str "127.0.0.1")) DAEMON_PORT)) ;;
  send_event device_udp_port DeviceEvent_CONNECT ;;
  raw_terminal ;;
  e ← call_ext CEpollCreate;
  if r_ret e <? 0 then mret 1 else
  call_ext (CEpollAdd (r_ret e) (r_ret r) EPOLLIN) ;;
  call_ext (CEpollAdd (r_ret e) STDIN_FILENO EPOLLIN) ;;
  event_loop (r_ret e) rounds ;;
  restoreTerminal ;;
  send_event device_udp_port DeviceEvent_DISCONNECT ;;
  call_ext (CClose (r_ret r)) ;;
  call_ext (CClose (r_ret e)) ;;
  mret 0.

(** ** What the mouse answers

    A request is given by the values the kernel put into it; [wire] is how they
    travel, big-endian.  [answer] says which data a request asks for, by the
    table of the mouse's descriptors. *)

Definition swap_cmd (c : usbip_cmd_submit_t) : usbip_cmd_submit_t :=
  {| cs_command := htonl (cs_command c); cs_seqnum := htonl (cs_seqnum c); cs_devid := htonl (cs_devid c);
     cs_direction := htonl (cs_direction c); cs_ep := htonl (cs_ep c); cs_transfer_flags := htonl (cs_transfer_flags c);
     cs_transfer_buffer_length := htonl (cs_transfer_buffer_length c); cs_start_frame := htonl (cs_start_frame c);
     cs_number_of_packets := htonl (cs_number_of_packets c); cs_interval := htonl (cs_interval c); cs_setup := cs_setup c |}.
Definition wire (c : usbip_cmd_submit_t) : bytes := cmd_submit_encode (swap_cmd c).

(** bmRequestType, descriptor type and descriptor. *)
Definition descriptor_table : list (Z * Z * bytes) :=
  [(0x80, 0x01, DEVICE_DESC); (0x80, 0x02, CONFIG_DESC); (0x80, 0x03, STRING_LANG_DESC); (0x81, 0x22, HID_REPORT_DESC)].

Definition find_desc (rt ty : Z) : option bytes :=
  (fun e => e.2.2) <$> list_find (fun e => e.1 = (rt, ty)) descriptor_table.

(** The data of a control read with the given setup packet: bmRequestType, bRequest, wValue (low, high),
    wIndex, wLength. *)
Definition control_data (setup : bytes) : option bytes :=
  match setup with
  | [rt; rq; idx; ty; _; _; l0; l1] =>
      if rq =? 0x06 then
        d ← find_desc rt ty;
        if (ty =? 0x03) && negb (idx =? 0) then None else Some (take (Z.to_nat (of_le16 l0 l1)) d)
      else if bool_decide ((rt, rq) = (0x80, 0x08)) then Some [1]
      else if bool_decide ((rt, rq) = (0x81, 0x0A)) then Some [0]
      else None
  | _ => None
  end.

(** Buttons, motion since the last report, wheel. *)
Definition report (s : MouseTest) : bytes := [g_buttons s; u8 (g_dx s); u8 (g_dy s); 0].

Definition is_interrupt_in (c : usbip_cmd_submit_t) : bool := (cs_ep c =? 1) && (cs_direction c =? USBIP_DIR_IN).

Definition answer (s : MouseTest) (c : usbip_cmd_submit_t) : option bytes :=
  if cs_ep c =? 0 then if cs_direction c =? USBIP_DIR_IN then control_data (cs_setup c) else Some []
  else if is_interrupt_in c then Some (report s) else None.

(** RET_SUBMIT for the request [seqnum], and RET_UNLINK. *)
Definition ret_submit_wire (seqnum status : Z) (data : bytes) : bytes :=
  be32 USBIP_RET_SUBMIT ++ be32 seqnum ++ zeros 12 ++ be32 (u32 status) ++ be32 (len data) ++ zeros 20 ++ data.
Definition ret_unlink_wire (seqnum : Z) : bytes := be32 USBIP_RET_UNLINK ++ be32 seqnum ++ zeros 40.

(** The reply to a request, if there is one, and the mouse after it. *)
Definition respond (s : MouseTest) (c : usbip_cmd_submit_t) : option bytes * MouseTest :=
  if cs_command c =? USBIP_CMD_UNLINK then (Some (ret_unlink_wire (cs_seqnum c)), s)
  else if cs_command c =? USBIP_CMD_SUBMIT then
    (Some (match answer s c with
           | Some data => ret_submit_wire (cs_seqnum c) 0 data
           | None => ret_submit_wire (cs_seqnum c) EPIPE_STATUS []
           end),
     if is_interrupt_in c then set_motion 0 0 s else s)
  else (None, s).

(** The packet [udpSend] makes of a payload. *)
Definition raw_packet (s : MouseTest) (payload : bytes) : bytes :=
  encode (mkHeader CMD_RAW_DATA (MY_DEVICE_ID s) 0 (g_udp_seq s) (u16 (len payload))) ++ payload.
Definition to_daemon (s : MouseTest) (packet : bytes) : call :=
  CSendto (g_udp_fd s) packet (sin_addr (g_daemon_addr s)) (sin_port (g_daemon_addr s)).

(** Requests one after the other. *)
Fixpoint respond_all (s : MouseTest) (cs : list usbip_cmd_submit_t) : list call * MouseTest :=
  match cs with
  | [] => ([], s)
  | c :: cs' =>
      match respond s c with
      | (Some p, s') => let '(out, s'') := respond_all (bump_seq s') cs' in (to_daemon s (raw_packet s p) :: out, s'')
      | (None, s') => respond_all s' cs'
      end
  end.

(** A request and the data that follow it. *)
Definition request_ok (q : usbip_cmd_submit_t * bytes) : Prop :=
  cmd_submit_wf q.1 /\ bytes_ok (cs_setup q.1) /\
  len q.2 = if cs_direction q.1 =? USBIP_DIR_OUT then cs_transfer_buffer_length q.1 else 0.
Definition request_bytes (q : usbip_cmd_submit_t * bytes) : bytes := wire q.1 ++ q.2.

(** *** The handlers compute it *)

Lemma swap_wf c : cmd_submit_wf c -> cmd_submit_wf (swap_cmd c).
Proof. intros [_ Hs]. split; [|done]. cbn. repeat (apply Forall_cons_2; [apply USBIP_U32_range|]). constructor. Qed.
Lemma wire_decode c rest : cmd_submit_wf c -> cmd_submit_decode (wire c ++ rest) = Some (swap_cmd c).
Proof. intros Hc. by apply cmd_submit_roundtrip, swap_wf. Qed.
Lemma wire_length c : cmd_submit_wf c -> len (wire c) = USBIP_HDR.
Proof. intros [_ Hs]. unfold wire, cmd_submit_encode, le32. rewrite !length_app. cbn -[Z.of_nat] in *. unfold USBIP_HDR. lia. Qed.
Lemma zeros_le32 : le32 0 = zeros 4.
Proof. done. Qed.
Lemma zeros_app n m : 0 <= n -> 0 <= m -> zeros n ++ zeros m = zeros (n + m).
Proof. intros. unfold zeros. rewrite <- replicate_add. f_equal. lia. Qed.

Lemma ret_submit_bytes seqnum status data :
  ret_submit_encode (ret_header seqnum status (len data)) ++ data = ret_submit_wire seqnum status data.
Proof.
  unfold ret_submit_encode, ret_header, ret_submit_wire, htonl. cbn [rs_command rs_seqnum rs_devid rs_direction rs_ep rs_status
    rs_actual_length rs_start_frame rs_number_of_packets rs_error_count rs_padding]. rewrite !le32_swap.
  change (le32 0) with (zeros 4). by rewrite <- !app_assoc.
Qed.
Lemma unlink_bytes seqnum : unlink_reply seqnum = Some (ret_unlink_wire seqnum).
Proof. unfold unlink_reply, htonl. rewrite !le32_swap. reflexivity. Qed.

Lemma find_desc_eq rt ty :
  find_desc rt ty =
    if rt =? 0x80 then
      if ty =? 0x01 then Some DEVICE_DESC else if ty =? 0x02 then Some CONFIG_DESC else if ty =? 0x03 then Some STRING_LANG_DESC else None
    else if (rt =? 0x81) && (ty =? 0x22) then Some HID_REPORT_DESC else None.
Proof.
  unfold find_desc, descriptor_table. cbn [list_find fst snd].
  repeat case_bool; subst; repeat case_decide; simplify_eq; done.
Qed.
Lemma pair_decide a b c d : bool_decide ((a, b) = (c, d) :> Z * Z) = (a =? c) && (b =? d).
Proof. repeat case_bool; cbn; case_bool_decide; naive_solver. Qed.

Section Handlers.
Context (E : env).
Implicit Types (w : world MouseTest) (Q : unit -> world MouseTest -> Prop).

(** What a handler that answers with [p] leaves behind. *)
Definition replied (w : world MouseTest) (p : bytes) (s' : MouseTest) (w' : world MouseTest) : Prop :=
  st w' = bump_seq s' /\ calls (tr w') = calls (tr w) ++ [to_daemon (st w) (raw_packet (st w) p)].

Lemma udpSend_wp p w : wp (udpSend p) E w (fun _ w' => replied w p (st w) w').
Proof. unfold udpSend. repeat wp_step. split; [done|]. cbn [tr]. by rewrite fmap_app. Qed.

Lemma sendRetSubmit_wp seqnum status payload n w :
  match payload with Some p => 0 <= n <= len p | None => n = 0 end ->
  wp (sendRetSubmit seqnum status payload n) E w
    (fun _ w' => replied w (ret_submit_wire seqnum status (match payload with Some p => take (Z.to_nat n) p | None => [] end)) (st w) w').
Proof.
  intros Hn. unfold sendRetSubmit. apply wp_bind.
  set (data := match payload with Some p => take (Z.to_nat n) p | None => [] end).
  assert (len data = n) as Hl by (unfold data; destruct payload; [rewrite length_take; lia|by subst]).
  eapply (wp_checked _ _ data).
  - unfold data. destruct payload as [p|]; [|by subst]. destruct (Z.eqb_spec n 0) as [->|]; [done|].
    rewrite buf_read_Some by lia. done.
  - rewrite <- Hl, ret_submit_bytes. apply udpSend_wp.
Qed.

Lemma stall_wp seqnum w : wp (stall seqnum) E w (fun _ w' => replied w (ret_submit_wire seqnum EPIPE_STATUS []) (st w) w').
Proof. by apply (sendRetSubmit_wp seqnum EPIPE_STATUS None 0). Qed.

Lemma send_desc_wp seqnum n d w :
  0 <= n -> 0 < len d ->
  wp (send_desc seqnum n (Some d)) E w (fun _ w' => replied w (ret_submit_wire seqnum 0 (take (Z.to_nat n) d)) (st w) w').
Proof.
  intros Hn Hd. unfold send_desc. destruct (Z.ltb_spec 0 (len d)); [|lia].
  eapply wp_mono; [|apply (sendRetSubmit_wp seqnum 0 (Some d)); destruct (Z.ltb_spec n (len d)); lia].
  intros [] w'. cbn beta iota. destruct (Z.ltb_spec n (len d)); [done|]. by rewrite !take_ge by lia.
Qed.

Lemma handleControlIn_wp seqnum setup w :
  len setup = 8 -> bytes_ok setup ->
  wp (handleControlIn seqnum setup) E w (fun _ w' =>
    replied w (match control_data setup with Some d => ret_submit_wire seqnum 0 d | None => ret_submit_wire seqnum EPIPE_STATUS [] end) (st w) w').
Proof.
  intros Hl Hb. destruct setup as [|rt [|rq [|idx [|ty [|i0 [|i1 [|l0 [|l1 [|]]]]]]]]]; try (cbn in Hl; lia).
  repeat (apply Forall_cons_1 in Hb as [? Hb]).
  unfold handleControlIn, getWLength, setup_byte. do 4 (apply wp_bind; eapply wp_checked; [reflexivity|]).
  apply wp_bind, wp_bind. eapply wp_checked; [reflexivity|]. apply wp_bind. eapply wp_checked; [reflexivity|]. apply wp_ret.
  change (Z.lor l0 (l1 ≪ 8)) with (of_le16 l0 l1). pose proof (of_le16_u16 l0 l1) as Hn. rewrite u16_id by auto.
  assert (0 <= of_le16 l0 l1) as Hn0 by (destruct Hn; auto). clear Hn.
  unfold control_data. rewrite find_desc_eq, !pair_decide.
  repeat case_bool; try (exfalso; lia); cbn [andb negb mbind option_bind];
    lazymatch goal with
    | |- wp (send_desc _ _ (Some _)) _ _ _ => apply send_desc_wp; [exact Hn0|reflexivity]
    | |- wp (sendRetSubmit _ _ (Some ?d) _) _ _ _ => apply (sendRetSubmit_wp _ _ (Some d) 1); cbn; lia
    | |- _ => apply stall_wp
    end.
Qed.

Lemma handleInterruptIn_wp seqnum w :
  wp (handleInterruptIn seqnum) E w (fun _ w' => replied w (ret_submit_wire seqnum 0 (report (st w))) (set_motion 0 0 (st w)) w').
Proof.
  unfold handleInterruptIn. apply wp_bind, wp_get, wp_bind, wp_modify.
  eapply wp_mono; [|apply (sendRetSubmit_wp seqnum 0 (Some (report (st w))) 4); cbn; lia]. by intros [] w'.
Qed.

Lemma mouse_dispatch_wp q w :
  request_ok q ->
  wp (dispatchUsbip (request_bytes q)) E w (fun _ w' =>
    match respond (st w) q.1 with
    | (Some p, s') => replied w p s' w'
    | (None, s') => st w' = s' /\ calls (tr w') = calls (tr w)
    end).
Proof.
  destruct q as [c data]. intros (Hwf & Hb & _). cbn [fst snd] in *. unfold dispatchUsbip, request_bytes. cbn [fst snd].
  pose proof (wire_length c Hwf) as Hl. rewrite length_app, Nat2Z.inj_add.
  destruct (Z.ltb_spec (len (wire c) + len data) USBIP_HDR); [lia|].
  apply wp_bind. eapply wp_checked; [by apply wire_decode|]. pose proof Hwf as [Hw Hs].
  cbn [swap_cmd cs_command cs_seqnum cs_direction cs_ep cs_setup]. unfold ntohl, htonl.
  repeat (apply Forall_cons_1 in Hw as [? Hw]). rewrite !USBIP_U32_involutive by done.
  unfold respond, answer. destruct (Z.eqb_spec (cs_command c) USBIP_CMD_UNLINK).
  { apply wp_bind. eapply wp_checked; [apply unlink_bytes|]. apply udpSend_wp. }
  destruct (Z.eqb_spec (cs_command c) USBIP_CMD_SUBMIT); cbn [negb]; [|by apply wp_ret].
  unfold is_interrupt_in. destruct (Z.eqb_spec (cs_ep c) 0) as [->|]; cbn [Z.eqb andb].
  - destruct (cs_direction c =? USBIP_DIR_IN); [by apply handleControlIn_wp|]. by apply (sendRetSubmit_wp _ 0 None 0).
  - destruct ((cs_ep c =? 1) && (cs_direction c =? USBIP_DIR_IN)); [apply handleInterruptIn_wp|apply stall_wp].
Qed.

Lemma request_length q : request_ok q -> len (request_bytes q) = USBIP_HDR + len q.2 /\ 0 <= len q.2.
Proof. intros (Hwf & _). unfold request_bytes. rewrite length_app, Nat2Z.inj_add, wire_length by done. lia. Qed.

Lemma usbip_stream_wp qs tail pre fuel w :
  Forall request_ok qs -> len tail < USBIP_HDR -> (length qs < fuel)%nat ->
  wp (usbip_stream fuel (pre ++ mjoin (request_bytes <$> qs) ++ tail) (len pre)) E w (fun _ w' =>
    st w' = (respond_all (st w) qs.*1).2 /\ calls (tr w') = calls (tr w) ++ (respond_all (st w) qs.*1).1).
Proof.
  intros Hq Ht. revert pre fuel w. induction Hq as [|q qs Hq _ IH]; intros pre fuel w Hf; (destruct fuel as [|fuel]; [cbn in Hf; lia|]).
  - cbn [usbip_stream]. change (mjoin (request_bytes <$> []) ++ tail) with tail.
    rewrite length_app. destruct (Z.leb_spec (len pre + USBIP_HDR) (Z.of_nat (length pre + length tail))); [lia|].
    apply wp_ret. cbn. by rewrite app_nil_r.
  - destruct (request_length q Hq) as [Hl Hd]. rewrite fmap_cons. change (mjoin (?x :: ?l)) with (x ++ mjoin l).
    set (rest := mjoin (request_bytes <$> qs) ++ tail). rewrite <- app_assoc. fold rest.
    assert (len (pre ++ request_bytes q ++ rest) = len pre + USBIP_HDR + len q.2 + len rest) as Hlen by (rewrite !length_app; lia).
    cbn [usbip_stream]. rewrite Hlen. destruct (Z.leb_spec (len pre + USBIP_HDR) (len pre + USBIP_HDR + len q.2 + len rest)); [|lia].
    apply wp_bind. pose proof Hq as (Hwf & _ & Hdata).
    eapply wp_checked. { rewrite Nat2Z.id, drop_app_length. unfold request_bytes. rewrite <- app_assoc. by apply wire_decode. }
    cbn [swap_cmd cs_direction cs_transfer_buffer_length]. unfold ntohl, htonl. pose proof Hwf as [Hw _].
    repeat (apply Forall_cons_1 in Hw as [? Hw]). rewrite !USBIP_U32_involutive by done. rewrite <- Hdata.
    destruct (Z.ltb_spec (len pre + USBIP_HDR + len q.2 + len rest) (len pre + (USBIP_HDR + len q.2))); [lia|].
    apply wp_bind. eapply (wp_checked _ _ (request_bytes q)).
    { rewrite buf_read_Some by (rewrite ?Hlen; unfold USBIP_HDR in *; lia). rewrite <- Hl, !Nat2Z.id, drop_app_length. by rewrite take_app_length. }
    apply wp_bind. eapply wp_mono; [|by apply mouse_dispatch_wp]. intros [] w1 Hw1. cbn [fst fmap list_fmap respond_all].
    rewrite <- Hl. rewrite app_assoc. rewrite <- Nat2Z.inj_add, <- length_app.
    eapply wp_mono; [|apply IH; cbn in Hf; lia]. intros [] w2 [Hst2 Ht2]. rewrite Hst2, Ht2. clear Hst2 Ht2.
    destruct (respond (st w) q.1) as [[p|] s']; destruct Hw1 as [-> ->]; [|done].
    destruct (respond_all (bump_seq s') (qs.*1)) as [out s'']. cbn [fst snd]. by rewrite <- app_assoc.
Qed.
End Handlers.

(** ** The mouse answers what it is asked *)

Definition is_command (c : usbip_cmd_submit_t) : bool := (cs_command c =? USBIP_CMD_UNLINK) || (cs_command c =? USBIP_CMD_SUBMIT).

Lemma respond_all_length s cs : length (respond_all s cs).1 = length (filter is_command cs).
Proof.
  revert s. induction cs as [|c cs IH]; intros s; [done|]. cbn [respond_all]. unfold respond.
  assert (is_command c = (cs_command c =? USBIP_CMD_UNLINK) || (cs_command c =? USBIP_CMD_SUBMIT)) as Hc by done.
  destruct (cs_command c =? USBIP_CMD_UNLINK); [|destruct (cs_command c =? USBIP_CMD_SUBMIT)].
  1,2: rewrite filter_cons_True by (by rewrite Hc); match goal with |- context [respond_all (bump_seq ?x) _] => pose proof (IH (bump_seq x)) as Hx; destruct (respond_all (bump_seq x)) end; cbn in *; by rewrite Hx.
  rewrite filter_cons_False by (rewrite Hc; by intros []). apply IH.
Qed.

(** C32: the mouse answers a batch of requests.  A RAW_DATA packet for the mouse may carry any number
    of USB/IP requests, each followed by its data, and an incomplete one at the end.  The loop over
    them ends; for every SUBMIT and every UNLINK it sends one reply packet, in order and with
    consecutive sequence numbers, and nothing else: the reply names its request, and carries what
    [answer] says, as many bytes of the descriptor asked for as the host wanted, the mouse's motion,
    or a stall. *)
Theorem mouse_answers E (w : world MouseTest) h qs tail :
  Forall request_ok qs -> len tail < USBIP_HDR ->
  header_wf h -> h_cmd_type h = CMD_RAW_DATA -> h_device_id h = MY_DEVICE_ID (st w) ->
  let r := E (tr w) (CRecvfrom (g_udp_fd (st w)) PKT_BUF) in
  r_out r = encode h ++ mjoin (request_bytes <$> qs) ++ tail -> r_ret r = len (r_out r) ->
  exists w', udp_event E w = Some (false, w') /\
    st w' = (respond_all (st w) qs.*1).2 /\
    calls (tr w') = calls (tr w) ++ CRecvfrom (g_udp_fd (st w)) PKT_BUF :: (respond_all (st w) qs.*1).1 /\
    length (respond_all (st w) qs.*1).1 = length (filter is_command qs.*1).
Proof.
  intros Hq Ht Hh Hcmd Hid r Hout Hret.
  assert (wp udp_event E w (fun a w' => a = false /\ st w' = (respond_all (st w) qs.*1).2 /\
    calls (tr w') = calls (tr w) ++ CRecvfrom (g_udp_fd (st w)) PKT_BUF :: (respond_all (st w) qs.*1).1)) as Hwp.
  { unfold udp_event. apply wp_bind, wp_get, wp_bind, wp_call. fold r. intros r' ->. pose proof (encode_size h) as Hs.
    destruct (Z.ltb_spec (r_ret r) (sizeof Header)) as [Hlt|_]; [rewrite Hret, Hout, length_app in Hlt; lia|].
    apply wp_bind. eapply wp_checked; [rewrite Hout; by apply decode_encode|].
    rewrite Hcmd, Hid, !Z.eqb_refl. cbn [negb]. rewrite Hout.
    rewrite drop_app_length' by (rewrite <- Hs; apply Nat2Z.id).
    apply wp_bind. eapply wp_mono; [|apply (usbip_stream_wp E qs tail []); [done..|]].
    - intros [] w' [Hst Hc]. apply wp_ret. split_and!; [done..|]. rewrite Hc. cbn [tr]. by rewrite fmap_app, <- app_assoc.
    - assert (length qs <= length (mjoin (request_bytes <$> qs)))%nat; [|rewrite length_app; lia].
      clear -Hq. induction Hq as [|q qs Hq _ IH]; [done|]. rewrite fmap_cons. change (mjoin (?x :: ?l)) with (x ++ mjoin l).
      pose proof (request_length q Hq). rewrite length_app. cbn [length]. unfold USBIP_HDR in *. lia. }
  destruct (wp_run _ _ _ _ Hwp) as (a & w' & Hr & -> & Hst & Hc). exists w'. split_and!; [done..|]. apply respond_all_length.
Qed.

(** The host reads the device descriptor's first eight bytes, and then the mouse. *)
Definition demo_cmd (seq ep : Z) (setup : bytes) : usbip_cmd_submit_t :=
  {| cs_command := USBIP_CMD_SUBMIT; cs_seqnum := seq; cs_devid := 65537; cs_direction := USBIP_DIR_IN; cs_ep := ep;
     cs_transfer_flags := 0; cs_transfer_buffer_length := 64; cs_start_frame := 0; cs_number_of_packets := 0; cs_interval := 0;
     cs_setup := setup |}.
Definition demo_batch : list (usbip_cmd_submit_t * bytes) :=
  [(demo_cmd 1 0 [0x80; 0x06; 0; 1; 0; 0; 8; 0], []); (demo_cmd 2 1 (zeros 8), [])].
Definition demo_hdr : Header := mkHeader CMD_RAW_DATA 0 0 0 96.
Definition demo_mouse : MouseTest := mkMouse 5 (makeAddr (Some (str "127.0.0.1")) DAEMON_PORT) 7 0 true 16 (-8) 0 (Termios 0 0 0).
Definition mouse_sim : sim := Sim (fun _ => []) 1 (fun _ => []) [(encode demo_hdr ++ mjoin (request_bytes <$> demo_batch), 0)] [].

Lemma mouse_answers_witness :
  exists w', udp_event (sim_env mouse_sim) (World demo_mouse []) = Some (false, w') /\
    calls (tr w') = [CRecvfrom 5 PKT_BUF;
      to_daemon demo_mouse (encode (mkHeader CMD_RAW_DATA 0 0 7 56) ++ ret_submit_wire 1 0 [0x12; 0x01; 0x00; 0x02; 0x00; 0x00; 0x00; 0x40]);
      to_daemon demo_mouse (encode (mkHeader CMD_RAW_DATA 0 0 8 52) ++ ret_submit_wire 2 0 [0; 16; 248; 0])] /\
    g_dx (st w') = 0 /\ g_udp_seq (st w') = 9.
Proof.
  destruct (mouse_answers (sim_env mouse_sim) (World demo_mouse []) demo_hdr demo_batch []) as (w' & Hr & Hst & Hc & _).
  - assert (Forall (fun q => request_ok q) demo_batch) as Hb; [|exact Hb].
    repeat (apply Forall_cons_2; [split_and!; [split; [repeat (apply Forall_cons_2; [vm_compute; split; discriminate || reflexivity|]); constructor|reflexivity]
      | apply (bool_decide_unpack _); vm_compute; exact I|reflexivity]|]). constructor.
  - reflexivity.
  - vm_compute. repeat split; discriminate || reflexivity.
  - reflexivity.
  - reflexivity.
  - vm_compute. reflexivity.
  - vm_compute. reflexivity.
  - exists w'. split; [exact Hr|]. rewrite Hst, Hc. vm_compute. split; [reflexivity|split; reflexivity].
Defined.

(** ** Motion *)

Definition keys (ks : bytes) (s : MouseTest) : MouseTest := foldl (fun s ch => key ch s) s ks.
(** How often one of two keys is pressed. *)
Definition presses (a b : Z) (ks : bytes) : Z := len (filter (fun ch => ch = a \/ ch = b) ks).
(** Presses of D less presses of A, and of S less W, in steps. *)
Definition moved_x (ks : bytes) : Z := STEP * (presses 100 68 ks - presses 97 65 ks).
Definition moved_y (ks : bytes) : Z := STEP * (presses 115 83 ks - presses 119 87 ks).

Lemma presses_cons a b ch ks : presses a b (ch :: ks) = (if (ch =? a) || (ch =? b) then 1 else 0) + presses a b ks.
Proof.
  unfold presses. destruct (Z.eqb_spec ch a), (Z.eqb_spec ch b); cbn [orb].
  all: try (rewrite filter_cons_True by tauto; cbn [length]; lia). rewrite filter_cons_False by tauto. lia.
Qed.
Lemma i8_add x y : i8 (i8 x + y) = i8 (x + y).
Proof. unfold i8. change (2 ^ 7) with 128. change (2 ^ 8) with 256. Z.to_euclidean_division_equations. lia. Qed.
Lemma i8_id x : -128 <= x < 128 -> i8 x = x.
Proof. unfold i8. change (2 ^ 7) with 128. change (2 ^ 8) with 256. Z.to_euclidean_division_equations. lia. Qed.
Lemma i8_range x : -128 <= i8 x < 128.
Proof. unfold i8. change (2 ^ 7) with 128. change (2 ^ 8) with 256. Z.to_euclidean_division_equations. lia. Qed.
Lemma i8_u8 x : i8 (u8 x) = i8 x.
Proof. unfold i8, u8. change (2 ^ 7) with 128. change (2 ^ 8) with 256. Z.to_euclidean_division_equations. lia. Qed.

(** One key moves both sums on. *)
Lemma key_motion ch s x y :
  g_dx s = i8 x -> g_dy s = i8 y -> g_dx (key ch s) = i8 (x + moved_x [ch]) /\ g_dy (key ch s) = i8 (y + moved_y [ch]).
Proof.
  intros Hx Hy. unfold moved_x, moved_y. rewrite !presses_cons. unfold presses. cbn [filter list_filter length]. unfold key, STEP.
  repeat case_bool; subst; try lia; cbn [orb set_motion stop g_dx g_dy]; rewrite ?Hx, ?Hy, ?i8_add, <- ?Z.add_opp_r, ?i8_add; split; f_equal; lia.
Qed.
Lemma keys_motion ks s x y :
  g_dx s = i8 x -> g_dy s = i8 y -> g_dx (keys ks s) = i8 (x + moved_x ks) /\ g_dy (keys ks s) = i8 (y + moved_y ks).
Proof.
  revert s x y. induction ks as [|ch ks IH]; intros s x y Hx Hy.
  - unfold moved_x, moved_y, presses. cbn. by rewrite !Z.add_0_r.
  - change (keys (ch :: ks) s) with (keys ks (key ch s)). destruct (key_motion ch s x y Hx Hy) as [Hx1 Hy1]. destruct (IH _ _ _ Hx1 Hy1) as [-> ->].
    unfold moved_x, moved_y. rewrite !(presses_cons _ _ ch). unfold presses. cbn [filter list_filter length]. split; f_equal; lia.
Qed.

(** The motion reported is the motion typed, in a signed byte.  After any keys, the next poll of
    the mouse reports [8 * (D - A)] and [8 * (S - W)] since the last report when these lie between
    -128 and 127, and wraps around otherwise; the next report starts from zero. *)
Theorem motion_reported ks s c seqnum :
  g_dx s = 0 -> g_dy s = 0 -> cs_command c = USBIP_CMD_SUBMIT -> cs_seqnum c = seqnum -> is_interrupt_in c = true ->
  exists dx dy, respond (keys ks s) c = (Some (ret_submit_wire seqnum 0 [g_buttons (keys ks s); dx; dy; 0]), set_motion 0 0 (keys ks s)) /\
    i8 dx = i8 (moved_x ks) /\ i8 dy = i8 (moved_y ks) /\
    (-128 <= moved_x ks < 128 <-> i8 dx = moved_x ks) /\ (-128 <= moved_y ks < 128 <-> i8 dy = moved_y ks).
Proof.
  intros Hx Hy Hc Hq Hi. destruct (keys_motion ks s 0 0) as [Hkx Hky]; [by rewrite Hx|by rewrite Hy|]. rewrite !Z.add_0_l in *.
  assert (cs_ep c <> 0) as He by (unfold is_interrupt_in in Hi; destruct (Z.eqb_spec (cs_ep c) 1); [lia|done]).
  exists (u8 (g_dx (keys ks s))), (u8 (g_dy (keys ks s))). rewrite !i8_u8, Hkx, Hky.
  assert (forall x, i8 (i8 x) = i8 x) as Hii by (intros; apply i8_id, i8_range). rewrite !Hii. split_and!; try done.
  - unfold respond, answer. rewrite Hc, Hq, Hi. destruct (Z.eqb_spec (cs_ep c) 0); [done|]. cbn [Z.eqb USBIP_CMD_SUBMIT USBIP_CMD_UNLINK Pos.eqb].
    unfold report. by rewrite Hkx, Hky.
  - split; [apply i8_id|]. intros <-. apply i8_range.
  - split; [apply i8_id|]. intros <-. apply i8_range.
Qed.

(** Sixteen presses of D between two polls move the mouse left. *)
Lemma motion_reported_witness :
  exists dx dy, respond (keys (replicate 16 100) MouseTest0) (demo_cmd 3 1 (zeros 8)) =
      (Some (ret_submit_wire 3 0 [0; dx; dy; 0]), MouseTest0) /\ i8 dx = -128 /\ i8 dy = 0.
Proof.
  destruct (motion_reported (replicate 16 100) MouseTest0 (demo_cmd 3 1 (zeros 8)) 3) as (dx & dy & Hr & Hx & Hy & _); [reflexivity..|].
  exists dx, dy. rewrite Hr, Hx, Hy. split; [vm_compute; reflexivity|]. split; vm_compute; reflexivity.
Defined.

(** ** The mouse and the daemon *)

(** A datagram the daemon does not answer. *)
Definition no_discover (c : call) : Prop :=
  match c with CSendto _ d _ _ => exists h, decode d = Some h /\ h_cmd_type h <> CMD_DISCOVER | _ => True end.

Lemma only_udpSend p : only_calls no_discover (udpSend p).
Proof. unfold udpSend. repeat only_step. apply only_call. eexists. split; [reflexivity|]. done. Qed.
Lemma only_send_event port ev : only_calls no_discover (send_event port ev).
Proof. unfold send_event. repeat only_step. apply only_call. eexists. split; [reflexivity|]. done. Qed.
Lemma only_sendRetSubmit seqnum status p n : only_calls no_discover (sendRetSubmit seqnum status p n).
Proof. unfold sendRetSubmit. only_step; [apply only_checked|]. apply only_udpSend. Qed.
Lemma only_send_desc seqnum n d : only_calls no_discover (send_desc seqnum n d).
Proof. unfold send_desc, stall. repeat only_step; apply only_sendRetSubmit. Qed.
Ltac only_reply :=
  lazymatch goal with
  | |- only_calls _ (udpSend _) => apply only_udpSend
  | |- only_calls _ (sendRetSubmit _ _ _ _) => apply only_sendRetSubmit
  | |- only_calls _ (send_desc _ _ _) => apply only_send_desc
  end.
Lemma only_dispatch buf : only_calls no_discover (dispatchUsbip buf).
Proof.
  unfold dispatchUsbip, handleControlIn, getWLength, setup_byte, handleControlOut, handleInterruptIn, stall.
  repeat first [only_step | only_reply].
Qed.
Lemma only_stream fuel payload off : only_calls no_discover (usbip_stream fuel payload off).
Proof.
  revert off. induction fuel as [|fuel IH]; intros off; cbn [usbip_stream]; repeat first [only_step | apply only_dispatch | apply IH].
Qed.
Lemma only_event ev : only_calls no_discover (one_event ev).
Proof. unfold one_event, udp_event, key_event. repeat first [only_step | apply only_stream]. Qed.
Lemma only_each {A} (f : A -> M MouseTest unit) l : (forall x, only_calls no_discover (f x)) -> only_calls no_discover (each f l).
Proof. intros Hf. induction l as [|x l IH]; cbn [each]; [apply only_ret|]. apply only_bind; [apply Hf|intros _; apply IH]. Qed.
Lemma only_restore : only_calls no_discover restoreTerminal.
Proof. unfold restoreTerminal. repeat only_step. Qed.
Lemma only_loop epfd rounds : only_calls no_discover (event_loop epfd rounds).
Proof.
  induction rounds as [|n IH]; cbn [event_loop]; unfold onSignal.
  all: repeat first [only_step | apply IH | apply only_restore | (apply only_each; intros; apply only_event)].
Qed.
Lemma only_main args rounds : only_calls no_discover (main args rounds).
Proof.
  unfold main, raw_terminal, tcgetattr. destruct (options args) as [id port].
  repeat first [only_step | apply only_send_event | apply only_loop | apply only_restore].
Qed.

(** The daemon never hears of the mouse.  Whatever the program sends in a run, its CONNECT and
    DISCONNECT and its replies, it sends as UDP datagrams; the daemon, when it receives one of
    them, drops it: its sessions stay as they are and it makes no further call. *)
Theorem mouse_never_attached E (w w' : world MouseTest) args rounds code d fd dgram ip port :
  main args rounds E w = Some (code, w') -> tr w' = tr w ++ d -> CSendto fd dgram ip port ∈ calls d ->
  forall Ed (wd : world HubServer) from, udp_delivery Ed wd dgram from ->
    exists wd', onUdpReadable Ed wd = Some (tt, wd') /\ ignored wd wd'.
Proof.
  intros Hr Ht Hin Ed wd from Hd. destruct (only_main _ _ _ _ _ _ Hr) as (d' & Ht' & Hall).
  rewrite Ht in Ht'. apply app_inv_head in Ht' as <-. rewrite Forall_forall in Hall.
  destruct (Hall _ Hin) as (h & Hdec & Hcmd). by apply (not_discover_ignored Ed wd dgram from h).
Qed.

(** The announcement of the default mouse. *)
Definition hello : bytes := event_pkt 0 0 DEVICE_BASE_PORT DeviceEvent_CONNECT.
Definition hello_sim : sim := Sim (fun _ => []) 1 (fun _ => []) [(hello, 0)] [].

Lemma mouse_never_attached_witness :
  exists wd', onUdpReadable (sim_env hello_sim) (World (hub_empty 5 6) []) = Some (tt, wd') /\ ignored (World (hub_empty 5 6) []) wd'.
Proof.
  destruct (main [] 0 (sim_env hello_sim) (World MouseTest0 [])) as [[code w']|] eqn:Hr; [|vm_compute in Hr; discriminate].
  refine (mouse_never_attached (sim_env hello_sim) (World MouseTest0 []) w' [] 0 code (tr w') 3 hello 0x0100007F (htons 7788) Hr
    _ _ (sim_env hello_sim) (World (hub_empty 5 6) []) 0 _).
  - reflexivity.
  - vm_compute in Hr. injection Hr as _ <-. vm_compute. repeat (first [apply list_elem_of_here | apply list_elem_of_further]).
  - vm_compute. split; [|split]; reflexivity.
Defined.

(** ** The program ends *)

Lemma decode_setup b c : cmd_submit_decode b = Some c -> bytes_ok b -> len (cs_setup c) = 8 /\ bytes_ok (cs_setup c).
Proof.
  unfold cmd_submit_decode. intros Hc Hb.
  repeat match type of Hc with mbind _ (word_at ?b ?k) = _ => destruct (word_at b k); [|done]; cbn [mbind option_bind] in Hc end.
  destruct (buf_read b 40 8) as [su|] eqn:Hs; [|done]. injection Hc as <-. cbn [cs_setup].
  split; [by apply buf_read_length in Hs|]. apply buf_read_inv in Hs as (_ & _ & _ & ->). by apply Forall_take, Forall_drop.
Qed.

(** What the terminal was last set to. *)
Definition tty_by (e : call * reply) : list termios := match e.1 with CTcSetattr l mi ti => [Termios l mi ti] | _ => [] end.
Definition terminal (t : trace) : option termios := last (t ≫= tty_by).

Lemma terminal_other t c r : match c with CTcSetattr _ _ _ => False | _ => True end -> terminal (t ++ [(c, r)]) = terminal t.
Proof. intros Hc. unfold terminal. rewrite bind_app. destruct c; cbn; by rewrite ?app_nil_r. Qed.
Lemma terminal_set t l mi ti r : terminal (t ++ [(CTcSetattr l mi ti, r)]) = Some (Termios l mi ti).
Proof. unfold terminal. rewrite bind_app. cbn. apply last_snoc. Qed.

Section Total.
Context (E : env) (Hok : linux_ok E).
Implicit Types (w : world MouseTest).

Lemma dispatch_total buf w : bytes_ok buf -> wp (dispatchUsbip buf) E w (fun _ _ => True).
Proof.
  intros Hb. unfold dispatchUsbip. destruct (Z.ltb_spec (len buf) USBIP_HDR); [done|].
  destruct (cmd_submit_decode_Some buf ltac:(lia)) as [c Hc]. destruct (decode_setup buf c Hc Hb) as [Hl Hs].
  apply wp_bind. eapply wp_checked; [exact Hc|]. cbv zeta. repeat wp_step.
  all: unfold handleControlOut; lazymatch goal with
    | |- wp (handleControlIn _ _) _ _ _ => eapply wp_mono; [|by apply handleControlIn_wp]
    | |- wp (handleInterruptIn _) _ _ _ => eapply wp_mono; [|apply handleInterruptIn_wp]
    | |- wp (stall _) _ _ _ => eapply wp_mono; [|apply stall_wp]
    | |- wp (checked _) _ _ _ => eapply wp_checked; [apply unlink_bytes|]; eapply wp_mono; [|apply udpSend_wp]
    | |- True => idtac
    | |- _ => eapply wp_mono; [|by apply (sendRetSubmit_wp E _ 0 None 0)]
    end; intros; exact I.
Qed.

(** Every pass takes at least a header off what is left. *)
Lemma usbip_stream_total fuel payload off w :
  bytes_ok payload -> 0 <= off <= len payload -> len payload < off + Z.of_nat fuel -> wp (usbip_stream fuel payload off) E w (fun _ _ => True).
Proof.
  intros Hb. revert off w. induction fuel as [|fuel IH]; intros off w Ho Hf; [lia|]. cbn [usbip_stream].
  destruct (Z.leb_spec (off + USBIP_HDR) (len payload)); [|done].
  destruct (cmd_submit_decode_Some (drop (Z.to_nat off) payload)) as [c Hc]; [rewrite length_drop; lia|].
  apply wp_bind. eapply wp_checked; [exact Hc|].
  set (extra := if ntohl (cs_direction c) =? USBIP_DIR_OUT then ntohl (cs_transfer_buffer_length c) else 0).
  assert (0 <= extra) as He by (unfold extra; case_match; [apply USBIP_U32_range|done]).
  destruct (Z.ltb_spec (len payload) (off + (USBIP_HDR + extra))); [done|]. unfold USBIP_HDR in *.
  apply wp_bind. eapply wp_checked; [apply buf_read_Some; lia|]. apply wp_bind.
  eapply wp_mono; [|apply dispatch_total; by apply Forall_take, Forall_drop]. intros [] w' _. apply IH; lia.
Qed.

Lemma udp_event_total w : wp udp_event E w (fun _ _ => True).
Proof.
  unfold udp_event. apply wp_bind, wp_get, wp_bind, wp_call. intros r ->.
  destruct (lx_recvfrom _ Hok (tr w) (g_udp_fd (st w)) PKT_BUF) as (_ & Hlen & Hb); [by vm_compute|].
  set (r := E (tr w) _) in *. change (sizeof Header) with 6. destruct (Z.ltb_spec (r_ret r) 6); [done|].
  specialize (Hlen ltac:(lia)). destruct (decode (r_out r)) as [h|] eqn:Hd.
  - apply wp_bind. eapply wp_checked; [reflexivity|]. repeat case_match; try done. apply wp_bind.
    eapply wp_mono; [|apply usbip_stream_total; [by apply Forall_drop|lia|lia]]. done.
  - exfalso. destruct (r_out r) as [|? [|? [|? [|? [|? [|? ?]]]]]]; cbn in *; lia || done.
Qed.

Lemma key_event_total w : wp key_event E w (fun _ _ => True).
Proof.
  unfold key_event. apply wp_bind, wp_call. intros r ->. destruct (lx_read _ Hok (tr w) STDIN_FILENO 1) as (_ & Hlen & _); [lia|].
  destruct (Z.eqb_spec (r_ret (E (tr w) (CRead STDIN_FILENO 1))) 1) as [H1|]; [|done]. rewrite H1 in Hlen. specialize (Hlen ltac:(lia)).
  destruct (r_out _) as [|c l]; [cbn in Hlen; lia|]. apply wp_bind. eapply wp_checked; [reflexivity|]. done.
Qed.
Lemma one_event_total ev w : wp (one_event ev) E w (fun _ _ => True).
Proof.
  destruct ev as [fd ev]. unfold one_event. apply wp_bind, wp_get, wp_bind.
  assert (forall skip w', wp (if (skip : bool) then mret tt else if (fd =? STDIN_FILENO) && hup EPOLLIN ev then key_event else mret tt) E w' (fun _ _ => True)) as Hk.
  { intros [] w'; [done|]. case_match; [apply key_event_total|done]. }
  destruct ((fd =? g_udp_fd (st w)) && hup EPOLLIN ev); [|apply (Hk false)]. eapply wp_mono; [|apply udp_event_total]. intros skip w' _. apply Hk.
Qed.
Lemma event_loop_total epfd rounds w : wp (event_loop epfd rounds) E w (fun _ _ => True).
Proof.
  revert w. induction rounds as [|n IH]; intros w; cbn [event_loop]; apply wp_bind, wp_get; [by destruct (g_running (st w))|].
  destruct (g_running (st w)); [|done]. cbn [negb]. apply wp_bind, wp_call. intros r ->.
  pose proof (lx_wait _ Hok (tr w) epfd 4 100) as Hlen. cbv zeta in Hlen. set (r := E (tr w) _) in *.
  destruct (Z.ltb_spec (r_ret r) 0); [destruct (r_aux r =? EINTR); [apply IH|done]|].
  destruct (events_of_Some (Z.to_nat (r_ret r)) (r_out r)) as [evs Hevs]; [lia|].
  apply wp_bind. eapply wp_checked; [exact Hevs|]. apply wp_bind.
  assert (forall v, wp (each one_event evs) E v (fun _ _ => True)) as Heach.
  { clear Hevs. induction evs as [|ev evs IHe]; intros v; cbn [each]; [done|].
    apply wp_bind. eapply wp_mono; [|apply one_event_total]. intros [] v' _. apply IHe. }
  eapply wp_mono; [|apply Heach]. intros [] v _. apply IH.
Qed.

Lemma tcgetattr_total w : wp tcgetattr E w (fun _ _ => True).
Proof. unfold tcgetattr. apply wp_bind, wp_call. intros r _. repeat case_match; done. Qed.
Lemma send_event_total port ev w : wp (send_event port ev) E w (fun _ _ => True).
Proof. unfold send_event. by repeat wp_step. Qed.

(** What [main] does once the loop has ended. *)
Lemma main_end fd epfd port w :
  wp (restoreTerminal ;; send_event port DeviceEvent_DISCONNECT ;; call_ext (CClose fd) ;; call_ext (CClose epfd) ;; mret 0) E w
    (fun code w' => code = 0 /\ terminal (tr w') = Some (g_old_termios (st w'))).
Proof.
  unfold restoreTerminal, send_event. repeat wp_step. split; [done|]. rewrite !terminal_other by exact I. rewrite terminal_set.
  cbn [bump_seq g_old_termios st]. by destruct (g_old_termios (st w)) eqn:Ht.
Qed.
End Total.

(** The mouse test ends, and leaves the terminal as it found it.  Whatever the daemon sends, of any
    length and contents, and whatever is typed, the program reads within its buffers, every loop
    ends, and once a signal or Q has ended the event loop the program exits with status 0 with the
    terminal set back to the settings it had saved; otherwise a system call failed at start and the
    status is 1. *)
Theorem mouse_main_returns E (w : world MouseTest) args rounds :
  linux_ok E ->
  exists code w', main args rounds E w = Some (code, w') /\
    (code = 1 \/ (code = 0 /\ terminal (tr w') = Some (g_old_termios (st w')))).
Proof.
  intros Hok.
  assert (wp (main args rounds) E w (fun code w' => code = 1 \/ (code = 0 /\ terminal (tr w') = Some (g_old_termios (st w'))))) as Hwp.
  { unfold main, raw_terminal. destruct (options args) as [id port].
    repeat first [wp_step | lazymatch goal with
      | |- wp tcgetattr _ _ _ => eapply wp_mono; [|apply tcgetattr_total]; intros [] ? _; cbn beta
      | |- wp (send_event _ DeviceEvent_CONNECT) _ _ _ => eapply wp_mono; [|apply send_event_total]; intros [] ? _; cbn beta
      end]; [by left..|].
    eapply wp_mono; [|by apply event_loop_total]. intros [] w1 _. cbn beta. eapply wp_mono; [|apply main_end]. auto. }
  destruct (wp_run _ _ _ _ Hwp) as (code & w' & Hr & Hc). by exists code, w'.
Qed.

(** The default mouse: D is typed, then a signal. *)
Definition typed_sim : sim := Sim (fun _ => []) 1 (fun fd => if fd =? 0 then [[100]] else []) [] [[(0, EPOLLIN)]].
Lemma typed_sim_ok : sim_ok typed_sim 1.
Proof.
  constructor; [constructor|done| |constructor]. intros fd. cbn [typed_sim sim_read]. destruct (fd =? 0); [|split; [constructor|done]].
  split; [|done]. repeat (apply Forall_cons_2; [repeat (apply Forall_cons_2; [by vm_compute|]); constructor|]). constructor.
Qed.

Lemma mouse_main_returns_witness :
  exists code w', main [] 1 (sim_env typed_sim) (World MouseTest0 []) = Some (code, w') /\ code = 0 /\ g_dx (st w') = 8.
Proof.
  destruct (mouse_main_returns (sim_env typed_sim) (World MouseTest0 []) [] 1 (sim_linux_ok _ _ typed_sim_ok)) as (code & w' & Hr & _).
  exists code, w'. split; [exact Hr|]. vm_compute in Hr. injection Hr as <- <-. split; reflexivity.
Defined.

(** When [epoll_create1] fails the terminal stays without echo. *)
Definition no_epoll : env := fun t c => match c with CEpollCreate => Reply (-1) [] 24 [] | CTcGetattr => Reply 0 [ECHO; 1; 0] 0 [] | _ => sim_env typed_sim t c end.
Example terminal_left_raw :
  option_map (fun r => (r.1, terminal (tr r.2), g_old_termios (st r.2))) (main [] 1 no_epoll (World MouseTest0 []))
  = Some (1, Some (Termios 0 0 0), Termios ECHO 1 0).
Proof. by vm_compute. Qed.
